(* ===== verification/_CoqProject ===== *)
-Q . S2P
Prelude.v
Errors.v
Meta.v
Envoy.v
Api.v
GoSort.v
Cluster.v
Revisions.v
RevisionReconciler.v
RevisionTheorems.v
ConfigStatus.v
Stats.v
Snapshot.v
Discover.v
CacheReconciler.v
RevisionController.v
Callbacks.v
ControlPlane.v
Rollout.v
ControlPlaneRuns.v
OperatorTypes.v
Flags.v
Container.v
ShutdownManager.v
Bootstrap.v
Sidecar.v
OperatorObjects.v
EnvoyDeployments.v
DiscoveryServices.v
Certificates.v
PkiChain.v
Servers.v
Interleaving.v
Readings.v
Startup.v
Registration.v
Permissions.v
Generators.v
GenCert.v
OperatorPlane.v
DeepCopy.v
DeepCopyTypes.v
