(* ===== verification/Prelude.v ===== *)
(** * marin3r: a verification development

    marin3r is a control plane for Envoy on Kubernetes.  Users write an
    EnvoyConfig with the resources of a node; the EnvoyConfig controller turns
    each version of them into an EnvoyConfigRevision and marks one revision as
    published; the EnvoyConfigRevision controller loads the published revision
    into the xDS cache; the xDS server serves the cache to the Envoy proxies and
    counts what they accept and reject; a version that every proxy rejects
    taints its revision, and the EnvoyConfig controller rolls back to the last
    good one.  A second group of controllers runs this machinery: it deploys
    the xDS server (DiscoveryService), Envoy proxies (EnvoyDeployment and the
    sidecar injector), and the certificates they talk with
    (DiscoveryServiceCertificate).

    This library is a shallow embedding of that code: Go functions are Rocq
    functions with the source's names, methods that assign fields return the new
    record, and code that can fail returns a [result] (a value, an error or a
    panic).  Paths below are relative to src/.

    ** Files

    Shared:
    - [Prelude]: errors, the [result] monad, machine integers, Go string
      functions ([Split], [Join], [Contains], [Atoi], ...), generic lemmas, the
      hint database [marin3r];
    - [Errors]: a reader of the JSON that errors made of several ones are
      printed as;
    - [Meta]: object metadata, status conditions, reconcile results;
    - [GoSort]: the stable sort of the Go library and that its result is unique;
    - [Cluster]: the Kubernetes client as an interface with laws, and an API
      server in memory that meets them.

    The configuration plane:
    - [Envoy]: pkg/envoy/{types.go,resources,serializer};
    - [Api]: apis/marin3r/v1alpha1, with the conversion of deprecated resources
      and the validating webhook;
    - [Revisions]: pkg/reconcilers/marin3r/envoyconfig/{filters,revisions};
    - [RevisionReconciler] and [RevisionTheorems]:
      pkg/reconcilers/marin3r/envoyconfig/reconcile_revisions.go;
    - [ConfigStatus]: envoyconfig/status.go and
      controllers/marin3r/envoyconfig_controller.go;
    - [Stats]: pkg/discoveryservice/xdss/stats;
    - [Snapshot]: pkg/discoveryservice/xdss and xdss/v3/{cache,snapshot}.go;
    - [Discover] and [CacheReconciler]:
      pkg/reconcilers/marin3r/envoyconfigrevision/{discover,cache.go};
    - [RevisionController]: envoyconfigrevision/{status,finalize}.go and
      controllers/marin3r/envoyconfigrevision_controller.go;
    - [Callbacks]: pkg/discoveryservice/xdss/v3/callbacks.go, pkg/util/backoff;
    - [ControlPlane]: the two controllers, the cache, the statistics, clients,
      users and time as one transition system; [Rollout]: sequences of runs of
      it; [ControlPlaneRuns]: an API server in memory and runs on it.

    The operator plane:
    - [OperatorTypes]: apis/operator.marin3r/v1alpha1,
      pkg/envoy/container/defaults, pkg/image;
    - [Flags]: the command line library as an interface, and a concrete parser
      of "--name=value" arguments;
    - [Container]: pkg/envoy/container/generator.go;
    - [ShutdownManager]: pkg/envoy/container/shutdownmanager and
      cmd/shutdownmanager.go, the handlers as interaction trees;
    - [Bootstrap]: pkg/envoy/bootstrap and cmd/initmanager.go;
    - [Sidecar]: pkg/webhooks/podv1mutator;
    - [OperatorObjects], [EnvoyDeployments], [DiscoveryServices]:
      pkg/reconcilers/operator/{envoydeployment,discoveryservice}/generators and
      their controllers in controllers/operator.marin3r;
    - [Certificates]: pkg/reconcilers/operator/discoveryservicecertificate,
      pkg/util/pki and the certificate controller; [PkiChain]: runs of it for
      the authority, the server and the clients, one after the other.

    The processes:
    - [Servers]: the [Start] of pkg/discoveryservice/xds_server.go and of the
      shutdown manager, and the goroutines of the discovery service, as
      transition systems;
    - [Interleaving]: the functions of the statistics as programs of calls to
      the store, run by many goroutines; [Readings]: the reading of the share of
      failing pods among them;
    - [Startup]: cmd/{root,operator,webhook,discoveryservice}.go;
    - [Registration]: [SetupWithManager] of the controllers and
      controllers/operator.marin3r/reconciler_config.go;
    - [Permissions]: the calls of the controllers to the API server, apis/*/
      v1alpha1/groupversion_info.go and the schemes of cmd, and the rules of the
      generated Role and of the kubebuilder markers;
    - [OperatorPlane]: certificates, discovery service and proxies together.

    Tools:
    - [Generators]: generators/pkg-{envoy-proto,version,image} and the files they
      generate in pkg/envoy/protos/v3 and pkg/version;
    - [GenCert]: hack/gen_cert.go.

    References:
    - [DeepCopy]: a memory with references, the statements of the generated
      deep copies and their contract;
    - [DeepCopyTypes]: apis/*/v1alpha1/zz_generated.deepcopy.go.

    ** State

    The cluster is a value of a type [W] that only the client operations read
    and write, so that every theorem holds for every cluster that meets the laws
    of the client; a controller returns its result and the cluster after it.  The
    laws allow every call to fail.  The xDS cache and the statistics store are
    values of abstract types with laws in the same way ([SnapshotCache],
    [GoCache]).  The clock is an argument, and so is what random functions
    return.

    ** Interfaces

    Code outside the repository is a class of operations, and what its
    documentation promises a class of laws: condition lists ([MetaConditions]),
    the API clients ([RevisionClient], [ConfigClient], ...), the codecs
    ([Codecs]), the snapshot library ([SnapshotLib], [SnapshotCache]), the
    statistics store ([GoCache]), the basereconciler library
    ([BaseReconciler]), cryptography ([Crypto]), resource quantities
    ([Quantities]), command lines ([FlagSet], [FlagLine]), files
    ([FileSystem]), retries ([Retry]), the Prometheus text format ([Prometheus]),
    the TLS handshake ([TLS]), the client of the health check
    ([HealthClient]), the deep copies of library types ([LibCopies]), the
    authorizer of the API server ([RBAC]), the types of the Kubernetes client
    ([ClientGo]), and for the tools the printer of Go source ([Jennifer]), the
    repository of the source module ([SourceModule]) and the parser of times
    ([TimeParser]).  What an HTTP
    handler does to the outside are the events [shutdownE] of an interaction
    tree; a step relation ([pool_step]) interleaves the handlers of several
    requests, and a timed interpreter ([run]) plays one of them.  Each class of laws has a concrete instance, on which the
    witnesses of the theorems run.

    ** What is shown

    - Revision reconciler ([RevisionTheorems], [Revisions]): after a successful
      run the revision of the published version is the only published one; the
      published version is the desired one when it is not tainted and otherwise
      the last published one that is not; at most ten revisions stay; a missing
      revision is created well formed; the stored revisions stay well formed on
      every path, errors included; a second run writes nothing; no run panics.
    - EnvoyConfig controller ([ConfigStatus]): the status it writes is the one
      of the reconciled revisions, and the status function is idempotent.
    - API ([Api]): the webhook accepts exactly the well-formed resources, and
      what it accepts is loaded without a panic ([CacheReconciler]); the
      conversion of deprecated resources with the variable it shares between
      iterations.
    - xDS cache ([CacheReconciler], [RevisionController]): the cache serves the
      published revision after its reconcile, and no other revision touches it;
      a revision that does not load is tainted and the cache is kept; the
      finalizer cleans up; Secret events that are dropped cannot matter.
    - Statistics ([Stats], [Callbacks]): a state machine of requests, answers,
      ACKs, NACKs and garbage collection, with its invariant; each callback of
      the server is a step of it; when a revision is tainted by what clients
      reject; the cases in which the keys are confused, as keys are found by
      substring.
    - The whole configuration plane ([ControlPlane], [Rollout]): in every state
      that runs of the controllers (successful or not), messages of clients,
      changes by users and the passage of time can reach, no two revisions of a
      node are published and the cache serves only what was generated from a
      published revision; on an API server that answers, a new configuration
      reaches its node ([deploy]) and one that every client rejects is replaced
      by the last good one ([rollback]).
    - Shutdown manager ([ShutdownManager]): whatever requests are interleaved,
      /shutdown answers only after a drain has seen few enough connections; both
      hooks return once the connections are few, and every handler returns when
      its client goes; what is counted as a connection; which admin port the
      manager of a generated pod asks.
      Its [Start] returns after the signal only, without waiting for the
      requests in progress ([Servers]).
    - The discovery service as a process ([Servers]): what [Start] of the xDS
      server returns and that it returns; the exit codes of the process, and
      that a failure of the server ends it.
    - Its goroutines and their store ([Interleaving]): the streams of
      different pods do not disturb each other in the statistics, however the
      calls of the store are ordered; the runs in which streams of the same
      pod, or a stream and the garbage collection of its pod, do.  A reading of
      the share of failing pods amid them ends, and does not taint a version
      while a subscribed pod accepts it ([Readings]).
    - Start-up ([Startup], [Registration]): in the pod the operator generates,
      the discovery service starts with the ports, certificates and namespace
      the pod has; its health check follows a rotation of the certificates; the
      namespaces each manager watches; which properties of owned objects are
      kept as generated.
    - Permissions ([Permissions]): the manager of the discovery service knows the
      types of all the calls of its controllers and the objects the operator
      generates for it allow them; the same for the operator, the pod mutator and
      the rules of the markers, which also cover the Roles it creates.
    - Bootstrap ([Bootstrap]): on the command line of the generated init
      container the init manager writes a configuration and an SDS file that fit
      the pod; the round trip of the admin bind address.
    - Operator plane: the generated objects fit together ([Container],
      [EnvoyDeployments], [DiscoveryServices]); the sidecar injector and the
      round trip of its port annotations ([Sidecar]); issuing, verification and
      renewal of certificates ([Certificates]); the certificates of a discovery
      service and of its clients pass the mutual TLS handshake, also after a
      rotation of the authority ([PkiChain]); and from runs of the certificate
      controller to proxies that are accepted ([OperatorPlane]).

    - References ([DeepCopyTypes]): the deep copies of all API types have the
      content of the original and share no memory with it.
    - Tools: from which trees of the source module the generator computes the
      imports of the repository, what its unflushed writer loses, and that the
      other generators write their whole files ([Generators]); which certificates
      the script issues and when they are valid ([GenCert]).

    ** Bounds

    No definition of the code runs on fuel: the loops of the controllers are over
    lists and structural here, their requeues are separate runs, and the polling
    loops of the shutdown manager are [ITree.iter].  The interpreter [run] of
    those loops takes a number of steps, which its theorems quantify: a handler
    returns when some number of steps is enough, and the theorems give one.
    A run of a controller is one step of the transition system: a controller has
    one worker, and the API server refuses a write to an object that has changed
    since it was read, so that a run that is overtaken fails.
    Ports and counters have the width of the source ([int32], [int64] wrap
    around).  Times are nanoseconds in [Z]; differences of times saturate at 64
    bits as in Go.  The renewal window of a certificate is computed in the
    binary64 arithmetic of [SpecFloat].  The share of failing pods is the exact
    quotient of two counts in [Q] where the source divides in float64; it is
    only compared with 1, which the quotient of two counts below 2^53 equals
    exactly when they are equal.

    A schedule of goroutines is a list of actions ([play]); theorems about
    schedules quantify over all of them, and those about termination give the
    number of actions that are left.  JSON strings are bytes, taken to be UTF-8
    without U+2028 and U+2029.

    ** What is not modelled

    - References outside [DeepCopy]: elsewhere a pointer is an option and a
      slice a list; where the code shares a variable, as in the conversion of
      deprecated resources, the sharing is in the model.
    - Test code (test, pkg/util/test): fixed certificates, resources and port
      forwarding for the tests.
    - What the binaries leave to libraries: the delivery of watch events, leader
      election, the informer that feeds the garbage collector (its handler is
      modelled), the gRPC and HTTP servers, and what registering a protobuf
      message does to the decoder of resources.
    - Logging, the descriptions of the Prometheus metrics, and methods that only
      return a field or implement an interface with an empty body, such as the
      callbacks of delta streams. *)

From stdpp Require Export prelude strings gmap pretty sorting.
From Stdlib Require Export ZArith Ascii Lia.

(** ** Scopes, hint databases *)

#[export] Set Warnings "-clear-no-such-hyp,-register-all".

Declare Scope go_scope.
Delimit Scope go_scope with go.

(** Facts that close the routine goals of every component. *)
Create HintDb marin3r.

(** ** Go errors

    The dynamic types of the [error] values the program inspects with a type
    switch or an [errors.Is...] predicate.  [ErrorString] is any error made by
    [fmt.Errorf] or [errors.New]. *)
Inductive StatusReason :=
  | StatusReasonNotFound
  | StatusReasonInvalid
  | StatusReasonOther (name : string).

Inductive error :=
  | ErrorString (msg : string)
  | StatusError (Reason : StatusReason) (msg : string)
  | RevisionError (Reason Method Message : string)
  | VerifyError (msg : string)
  | MultiError (Errors : list error).

(** *** JSON strings

    [json.Marshal] of a string, on bytes: quotes, backslashes, control characters
    and the characters of HTML are escaped, the bytes of other characters are
    kept.  (Texts are taken to be UTF-8 without U+2028 and U+2029.) *)

Definition quote : string := String "034"%char "".

Definition hex_digit (n : N) : ascii := ascii_of_N (if (n <? 10)%N then 48 + n else 87 + n)%N.

Definition json_char (c : ascii) : string :=
  let n := N_of_ascii c in
  if decide (c = "034"%char ∨ c = "\"%char) then String "\" (String c "")
  else if decide (n = 10%N) then "\n"
  else if decide (n = 13%N) then "\r"
  else if decide (n = 9%N) then "\t"
  else if decide ((n < 32)%N ∨ c = "<"%char ∨ c = ">"%char ∨ c = "&"%char) then
    "\u00" +:+ String (hex_digit (n / 16)) (String (hex_digit (n mod 16)) "")
  else String c "".

Fixpoint json_body (s : string) : string :=
  match s with EmptyString => "" | String c s => json_char c +:+ json_body s end.

Definition json_string (s : string) : string := quote +:+ json_body s +:+ quote.

(** [strings.Join]. *)
Fixpoint Join (l : list string) (sep : string) : string :=
  match l with
  | [] => ""
  | [w] => w
  | w :: ws => w +:+ sep +:+ Join ws sep
  end.

(** [ErrorList.MarshalJSON], on the texts of the errors. *)
Definition ErrorList_MarshalJSON (texts : list string) : string :=
  "[" +:+ Join (json_string <$> texts) "," +:+ "]".

(** The text of an error, [err.Error()]; that of a multi error is the JSON of
    its structure. *)
Fixpoint Error_text (e : error) : string :=
  match e with
  | ErrorString msg | StatusError _ msg | VerifyError msg => msg
  | RevisionError _ method msg => "error in " +:+ method +:+ ": " +:+ msg
  | MultiError errs =>
     "{" +:+ json_string "errors" +:+ ":" +:+ ErrorList_MarshalJSON (List.map Error_text errs) +:+ "}"
  end.

(** What a Go call can do: return a value, return an error, or panic. *)
Inductive result (A : Type) :=
  | Ok (a : A)
  | Err (e : error)
  | Panic.
Arguments Ok {A} a.
Arguments Err {A} e.
Arguments Panic {A}.

#[global] Instance result_ret : MRet result := λ A a, Ok a.
#[global] Instance result_bind : MBind result := λ A B f r,
  match r with Ok a => f a | Err e => Err e | Panic => Panic end.
#[global] Instance result_fmap : FMap result := λ A B f r,
  match r with Ok a => Ok (f a) | Err e => Err e | Panic => Panic end.

(** A function that returns just an [error]: [None] is [nil]. *)
Definition of_error (e : option error) : result unit :=
  match e with None => Ok tt | Some e => Err e end.

(** Iteration that stops at the first error, as [for ... { if err ... return }]. *)
Fixpoint mapR {A B} (f : A → result B) (l : list A) : result (list B) :=
  match l with
  | [] => Ok []
  | x :: l => y ← f x; ys ← mapR f l; Ok (y :: ys)
  end.

(** A Go pointer dereference. *)
Definition deref {A} (p : option A) : result A :=
  match p with Some a => Ok a | None => Panic end.

(** ** Machine integers *)

Definition uint32 (z : Z) : Z := (z `mod` 2 ^ 32)%Z.
Definition int32 (z : Z) : Z := ((z + 2 ^ 31) `mod` 2 ^ 32 - 2 ^ 31)%Z.
Definition int64 (z : Z) : Z := ((z + 2 ^ 63) `mod` 2 ^ 64 - 2 ^ 63)%Z.

(** ** The Go standard library functions the program uses on strings *)

(** [strings.Split] for a separator of one character. *)
Fixpoint Split (sep : ascii) (s : string) : list string :=
  match s with
  | EmptyString => [""]
  | String c s =>
     if decide (c = sep) then "" :: Split sep s
     else match Split sep s with
          | [] => [String c ""]
          | w :: ws => String c w :: ws
          end
  end.

(** The verb [%q] on a string of printable characters. *)
Fixpoint escape (s : string) : string :=
  match s with
  | EmptyString => ""
  | String c s =>
     if decide (c = "034"%char ∨ c = "\"%char) then String "\"%char (String c (escape s))
     else String c (escape s)
  end.
Definition Quote (s : string) : string :=
  String "034"%char (escape s +:+ String "034"%char "").

(** [strings.HasPrefix] and [strings.Contains]. *)
Fixpoint HasPrefix (s pre : string) : bool :=
  match pre, s with
  | EmptyString, _ => true
  | String a pre, String b s => bool_decide (a = b) && HasPrefix s pre
  | String _ _, EmptyString => false
  end.

Fixpoint Contains (s sub : string) : bool :=
  HasPrefix s sub ||
  match s with EmptyString => false | String _ s => Contains s sub end.

(** [strconv.ParseInt(s, 10, bits)] and [strconv.Atoi]; an [int] has 64 bits. *)
Definition digit_value (c : ascii) : option Z :=
  let n := Z.of_N (N_of_ascii c) in
  if decide (48 ≤ n ∧ n ≤ 57)%Z then Some (n - 48)%Z else None.

Fixpoint parse_digits (acc : Z) (s : string) : option Z :=
  match s with
  | EmptyString => Some acc
  | String c s => d ← digit_value c; parse_digits (10 * acc + d)%Z s
  end.

Definition parse_uint (s : string) : option Z :=
  match s with EmptyString => None | _ => parse_digits 0 s end.

Definition ParseInt (s : string) (bits : Z) : option Z :=
  z ← match s with
      | String c s' =>
         if decide (c = "+"%char) then parse_uint s'
         else if decide (c = "-"%char) then Z.opp <$> parse_uint s'
         else parse_uint s
      | EmptyString => None
      end;
  if decide (- 2 ^ (bits - 1) ≤ z ∧ z < 2 ^ (bits - 1))%Z then Some z else None.

Definition Atoi (s : string) : option Z := ParseInt s 64.

(** [strconv.ParseBool]. *)
Definition ParseBool (s : string) : option bool :=
  if decide (s ∈ ["1"; "t"; "T"; "TRUE"; "true"; "True"]) then Some true
  else if decide (s ∈ ["0"; "f"; "F"; "FALSE"; "false"; "False"]) then Some false
  else None.

(** [fmt.Sprintf("%d", z)]. *)
Definition Itoa (z : Z) : string := pretty z.

(** ** Automation *)

(** Case analysis on every [result] and [option] a computation was bound to. *)
Ltac res_inv :=
  repeat match goal with
  | H : mbind _ ?r = _ |- _ =>
     let E := fresh "E" in destruct r eqn:E; simpl in H; try discriminate H
  | H : Ok _ = Ok _ |- _ => injection H as H; subst
  | H : Err _ = Err _ |- _ => injection H as H; subst
  | H : Some _ = Some _ |- _ => injection H as H; subst
  | H : (_, _) = (_, _) |- _ => injection H as H; subst
  end.

(** Split every [if decide] and [match] of the goal, closing easy branches. *)
Ltac go_cases := repeat (case_decide || case_match); simplify_eq/=; try done.

(** ** Lemmas on strings *)

Definition no_sep (c : ascii) (s : string) : Prop := c ∉ String.list_ascii_of_string s.
#[global] Instance no_sep_dec c s : Decision (no_sep c s).
Proof. unfold no_sep. apply _. Defined.

Section Strings.
Implicit Types (s t w : string) (c sep : ascii) (l : list string).
#[local] Arguments String.append !_ _.

Lemma string_app_nil_r s : s +:+ "" = s.
Proof. induction s; simpl; congruence. Qed.

Lemma string_app_assoc s t w : (s +:+ t) +:+ w = s +:+ (t +:+ w).
Proof. induction s; simpl; congruence. Qed.

Lemma no_sep_cons sep c s : no_sep sep (String c s) ↔ sep ≠ c ∧ no_sep sep s.
Proof. unfold no_sep. simpl. by rewrite not_elem_of_cons. Qed.

Lemma no_sep_app sep s t : no_sep sep (s +:+ t) ↔ no_sep sep s ∧ no_sep sep t.
Proof.
  induction s as [|c s IH]; simpl.
  - split; [split; [apply not_elem_of_nil|done]|by intros [_ ?]].
  - rewrite !no_sep_cons, IH. tauto.
Qed.

Lemma length_app_string (s t : string) : String.length (s +:+ t) = (String.length s + String.length t)%nat.
Proof. induction s as [|c s IH]; simpl; [done|]. by rewrite IH. Qed.

Lemma Split_not_nil sep s : Split sep s ≠ [].
Proof. destruct s; simpl; go_cases. Qed.

Lemma Split_no_sep sep s : no_sep sep s → Split sep s = [s].
Proof.
  induction s as [|c s IH]; simpl; [done|].
  intros [Hne Hs]%no_sep_cons. rewrite decide_False by congruence.
  by rewrite (IH Hs).
Qed.

Lemma Split_app_sep sep s t :
  no_sep sep s → Split sep (s +:+ String sep t) = s :: Split sep t.
Proof.
  induction s as [|c s IH]; simpl; intros Hs.
  - by rewrite decide_True.
  - apply no_sep_cons in Hs as [Hne Hs]. rewrite decide_False by congruence.
    by rewrite (IH Hs).
Qed.

Lemma Split_field sep s t :
  no_sep sep s → Split sep (s +:+ String sep "" +:+ t) = s :: Split sep t.
Proof. apply Split_app_sep. Qed.

(** Splitting what was joined gives the fields back. *)
Lemma Split_Join sep l :
  l ≠ [] → Forall (no_sep sep) l → Split sep (Join l (String sep "")) = l.
Proof.
  induction l as [|w [|w' ws] IH]; intros Hl Hsep; [done| |].
  - apply Split_no_sep. by inversion Hsep.
  - inversion Hsep as [|?? Hw Hws]; subst. simpl.
    rewrite Split_app_sep by done. f_equal. by apply IH.
Qed.

(** Joining the fields of a string gives the string back. *)
Lemma Join_Split sep s : Join (Split sep s) (String sep "") = s.
Proof.
  induction s as [|c s IH]; simpl; [done|].
  pose proof (Split_not_nil sep s) as Hn.
  destruct (Split sep s) as [|w ws]; [done|].
  case_decide as Hc; [subst c; simpl; simpl in IH; by rewrite IH|].
  destruct ws; simpl in *; congruence.
Qed.

Lemma Split_fields_no_sep sep s : Forall (no_sep sep) (Split sep s).
Proof.
  induction s as [|c s IH]; simpl.
  - repeat constructor. apply not_elem_of_nil.
  - case_decide as Hc; [constructor; [apply not_elem_of_nil|done]|].
    pose proof (Split_not_nil sep s).
    destruct (Split sep s) as [|w ws]; [done|].
    inversion IH; subst. constructor; [|done]. apply no_sep_cons. naive_solver.
Qed.

Lemma Join_cons w l (sep : string) : l ≠ [] → Join (w :: l) sep = w +:+ sep +:+ Join l sep.
Proof. by destruct l. Qed.

Lemma HasPrefix_spec s pre : HasPrefix s pre = true ↔ ∃ t, s = pre +:+ t.
Proof.
  revert s. induction pre as [|a pre IH]; intros s; simpl.
  - split; [by exists s|]. by destruct s.
  - destruct s as [|b s]; simpl; [naive_solver|].
    rewrite andb_true_iff, bool_decide_eq_true, IH. naive_solver.
Qed.

Lemma Contains_unfold s sub :
  Contains s sub = HasPrefix s sub ||
    match s with EmptyString => false | String _ s => Contains s sub end.
Proof. by destruct s. Qed.

(** [strings.Contains] is the substring relation. *)
Lemma Contains_spec s sub : Contains s sub = true ↔ ∃ p q, s = p +:+ sub +:+ q.
Proof.
  induction s as [|c s IH]; rewrite Contains_unfold, orb_true_iff, HasPrefix_spec.
  - split.
    + intros [[t ->]|?]; [by exists "", t|done].
    + intros ([|? p] & q & Hq); [left; by exists q|discriminate Hq].
  - rewrite IH. split.
    + intros [[t ->]|(p & q & ->)]; [by exists "", t|by exists (String c p), q].
    + intros ([|? p] & q & ?); simplify_eq/=; [left; by exists q|right; eauto].
Qed.

Lemma Contains_refl s : Contains s s = true.
Proof. apply Contains_spec. exists "", "". by rewrite string_app_nil_r. Qed.

Lemma Contains_app_l s t sub : Contains s sub = true → Contains (s +:+ t) sub = true.
Proof.
  rewrite !Contains_spec. intros (p & q & ->). exists p, (q +:+ t).
  by rewrite !string_app_assoc.
Qed.

Lemma Contains_app_r s t sub : Contains t sub = true → Contains (s +:+ t) sub = true.
Proof.
  rewrite !Contains_spec. intros (p & q & ->). exists (s +:+ p), q.
  by rewrite !string_app_assoc.
Qed.

Lemma Contains_trans s t sub : Contains s t = true → Contains t sub = true → Contains s sub = true.
Proof.
  rewrite !Contains_spec. intros (p & q & ->) (p' & q' & ->). exists (p +:+ p'), (q' +:+ q).
  by rewrite !string_app_assoc.
Qed.

Lemma Contains_cons c s sub : Contains s sub = true → Contains (String c s) sub = true.
Proof. intros H. apply (Contains_app_r (String c "")), H. Qed.
End Strings.

#[export] Hint Resolve Contains_refl Contains_app_l Contains_app_r Contains_cons : marin3r.

(** A concatenation contains each of its parts. *)
Ltac contains :=
  first [ apply Contains_refl
        | apply Contains_app_l; apply Contains_refl
        | apply Contains_app_r; contains ].

(** ** Lemmas on machine integers *)

Lemma int32_id z : (- 2 ^ 31 ≤ z < 2 ^ 31)%Z → int32 z = z.
Proof. intros ?. unfold int32. rewrite Z.mod_small; lia. Qed.

Lemma int64_id z : (- 2 ^ 63 ≤ z < 2 ^ 63)%Z → int64 z = z.
Proof. intros ?. unfold int64. rewrite Z.mod_small; lia. Qed.

Lemma int64_range z : (- 2 ^ 63 ≤ int64 z < 2 ^ 63)%Z.
Proof.
  unfold int64. pose proof (Z.mod_pos_bound (z + 2 ^ 63) (2 ^ 64)). lia.
Qed.

Lemma int64_idem z : int64 (int64 z) = int64 z.
Proof. apply int64_id, int64_range. Qed.

Lemma int64_add_l a b : int64 (int64 a + b) = int64 (a + b).
Proof.
  unfold int64. f_equal. rewrite <- Z.add_assoc, (Z.add_comm b), Z.add_assoc.
  rewrite Z.sub_add. rewrite Zplus_mod_idemp_l. f_equal. lia.
Qed.

Lemma ParseInt_range s bits z :
  ParseInt s bits = Some z → (- 2 ^ (bits - 1) ≤ z < 2 ^ (bits - 1))%Z.
Proof. unfold ParseInt. intros H. res_inv. case_decide; by simplify_eq. Qed.

(** ** Decimal numbers *)

Section Decimal.
Implicit Types (x : N) (s : string) (c : ascii).

Lemma digit_value_pretty x : (x < 10)%N → digit_value (pretty_N_char x) = Some (Z.of_N x).
Proof.
  intros Hx.
  assert (x = 0 ∨ x = 1 ∨ x = 2 ∨ x = 3 ∨ x = 4 ∨ x = 5 ∨ x = 6 ∨ x = 7 ∨ x = 8 ∨ x = 9)%N
    as H by lia.
  repeat destruct H as [->|H]; subst; reflexivity.
Qed.

Lemma parse_digits_go x s : parse_digits 0 (pretty_N_go x s) = parse_digits (Z.of_N x) s.
Proof.
  revert s. induction (N.lt_wf_0 x) as [x _ IH]; intros s.
  destruct (decide (x = 0)%N) as [->|Hx]; [by rewrite pretty_N_go_0|].
  rewrite pretty_N_go_step by lia. rewrite IH by (apply N.div_lt; lia).
  cbn [parse_digits]. rewrite digit_value_pretty by (apply N.mod_lt; lia). cbn [mbind option_bind].
  f_equal. pose proof (N.div_mod x 10). lia.
Qed.

Definition all_digits s : Prop := Forall (λ c, is_Some (digit_value c)) (String.list_ascii_of_string s).

Lemma all_digits_go x s : all_digits s → all_digits (pretty_N_go x s).
Proof.
  revert s. induction (N.lt_wf_0 x) as [x _ IH]; intros s Hs.
  destruct (decide (x = 0)%N) as [->|Hx]; [by rewrite pretty_N_go_0|].
  rewrite pretty_N_go_step by lia. apply IH; [apply N.div_lt; lia|].
  constructor; [|done]. rewrite digit_value_pretty by (apply N.mod_lt; lia). eauto.
Qed.

Lemma pretty_N_spec x :
  all_digits (pretty x) ∧ pretty x ≠ "" ∧ parse_digits 0 (pretty x) = Some (Z.of_N x).
Proof.
  unfold pretty, pretty_N. case_decide as Hx.
  - subst. repeat split; [|done]. repeat constructor. by eexists.
  - split; [apply all_digits_go; constructor|]. split; [|by rewrite parse_digits_go].
    intros E. pose proof (parse_digits_go x "") as H. rewrite E in H. simpl in H. simplify_eq. lia.
Qed.

Lemma Itoa_N (z : Z) : (0 ≤ z)%Z → Itoa z = pretty (Z.to_N z).
Proof. intros Hz. unfold Itoa, pretty, pretty_Z. destruct z; [done|done|lia]. Qed.

Lemma Itoa_no_sep sep (z : Z) : digit_value sep = None → (0 ≤ z)%Z → no_sep sep (Itoa z).
Proof.
  intros Hs Hz. rewrite Itoa_N by done. destruct (pretty_N_spec (Z.to_N z)) as (Hd & _).
  intros Hin. unfold all_digits in Hd. rewrite Forall_forall in Hd. destruct (Hd _ Hin) as [d Hd'].
  congruence.
Qed.

(** Reading back a printed number. *)
Lemma Atoi_Itoa (z : Z) : (0 ≤ z < 2 ^ 63)%Z → Atoi (Itoa z) = Some z.
Proof.
  intros Hz. rewrite Itoa_N by lia. destruct (pretty_N_spec (Z.to_N z)) as (Hd & Hne & Hp).
  unfold Atoi, ParseInt. destruct (pretty (Z.to_N z)) as [|c s]; [done|].
  inversion Hd as [|?? [d Hc] _]; subst.
  rewrite !decide_False by (intros ->; discriminate Hc).
  unfold parse_uint. rewrite Hp. cbn [mbind option_bind]. rewrite Z2N.id by lia.
  by rewrite decide_True by lia.
Qed.
End Decimal.

(** ** Lemmas on [result] *)

Lemma mapR_Ok {A B} (f : A → result B) l ys :
  mapR f l = Ok ys ↔ Forall2 (λ x y, f x = Ok y) l ys.
Proof.
  revert ys. induction l as [|x l IH]; intros ys; simpl.
  - split; [intros H; res_inv; constructor|]. by inversion 1.
  - split.
    + intros H. res_inv. constructor; [done|]. by apply IH.
    + inversion 1 as [|? y ? ys' Hy Hys]; subst. rewrite Hy; simpl.
      by rewrite (proj2 (IH ys') Hys).
Qed.

(** ** Lemmas on lists *)

(** Elements of a list whose images are pairwise different are known by them. *)
Lemma NoDup_fmap_elem_inj {A B} (f : A → B) l x y :
  NoDup (f <$> l) → x ∈ l → y ∈ l → f x = f y → x = y.
Proof.
  induction l as [|z l IH]; simpl; [by intros _ ?%not_elem_of_nil|].
  intros [Hz Hnd]%NoDup_cons [->|Hx]%elem_of_cons [->|Hy]%elem_of_cons E; [done| | |eauto].
  - destruct Hz. rewrite E. by apply list_elem_of_fmap_2.
  - destruct Hz. rewrite <- E. by apply list_elem_of_fmap_2.
Qed.

Lemma insert_subseteq_iff {A} (m1 m2 : gmap string A) i x :
  m1 !! i = None → <[i := x]> m1 ⊆ m2 ↔ m2 !! i = Some x ∧ m1 ⊆ m2.
Proof.
  intros Hi. split.
  - intros H. split.
    + eapply lookup_weaken; [|done]. by rewrite lookup_insert_eq.
    + etransitivity; [by apply insert_subseteq|done].
  - intros [??]. by apply insert_subseteq_l.
Qed.

Lemma rev_fmap {A B} (f : A → B) l : rev (f <$> l) = f <$> rev l.
Proof.
  induction l as [|x l IH]; [done|]. rewrite fmap_cons. cbn [rev]. by rewrite IH, fmap_app.
Qed.

Lemma elem_of_insert_inv {A} (l : list A) i x y : x ∈ <[i := y]> l → x = y ∨ x ∈ l.
Proof.
  intros [j [(-> & -> & _)|[_ Hj]]%list_lookup_insert_Some]%list_elem_of_lookup_1; [by left|right].
  by eapply list_elem_of_lookup_2.
Qed.
