(* ===== verification/Errors.v ===== *)
(** * The text of several errors ([apis/marin3r/v1alpha1/error.go])

    Validation reports all the problems it finds in one error, whose text is
    JSON.  A reader of that JSON gets back the texts of the errors. *)

From S2P Require Import Prelude.
#[local] Open Scope string_scope.
#[local] Open Scope list_scope.

(** ** A reader *)

Definition hex_value (c : ascii) : option N :=
  let n := N_of_ascii c in
  if decide (48 ≤ n ∧ n ≤ 57)%N then Some (n - 48)%N
  else if decide (97 ≤ n ∧ n ≤ 102)%N then Some (n - 87)%N
  else None.

(** One character of a string, and the rest; [None] is the end of the string. *)
Definition read_char (s : string) : option (option ascii * string) :=
  match s with
  | String "034" rest => Some (None, rest)
  | String "\" (String "n" rest) => Some (Some (ascii_of_N 10), rest)
  | String "\" (String "r" rest) => Some (Some (ascii_of_N 13), rest)
  | String "\" (String "t" rest) => Some (Some (ascii_of_N 9), rest)
  | String "\" (String "u" (String "0" (String "0" (String a (String b rest))))) =>
     x ← hex_value a; y ← hex_value b; Some (Some (ascii_of_N (16 * x + y)), rest)
  | String "\" (String c rest) => Some (Some c, rest)
  | String c rest => Some (Some c, rest)
  | EmptyString => None
  end.

Fixpoint read_chars (fuel : nat) (s : string) : option (string * string) :=
  match fuel with
  | 0%nat => None
  | S fuel =>
     match read_char s with
     | Some (None, rest) => Some ("", rest)
     | Some (Some c, rest) =>
        '(t, rest) ← read_chars fuel rest; Some (String c t, rest)
     | None => None
     end
  end.

Definition read_string (s : string) : option (string * string) :=
  match s with String "034" rest => read_chars (String.length s) rest | _ => None end.

(** The elements of an array and what follows it. *)
Fixpoint read_elements (fuel : nat) (s : string) : option (list string * string) :=
  match fuel with
  | 0%nat => None
  | S fuel =>
     match read_string s with
     | Some (t, String "," rest) => '(ts, rest) ← read_elements fuel rest; Some (t :: ts, rest)
     | Some (t, String "]" rest) => Some ([t], rest)
     | _ => None
     end
  end.

Definition read_array (s : string) : option (list string * string) :=
  match s with
  | String "[" (String "]" rest) => Some ([], rest)
  | String "[" rest => read_elements (String.length s) rest
  | _ => None
  end.

(** The field "errors" of an object with that field only. *)
Definition read_errors (s : string) : option (list string) :=
  match s with
  | String "{" s =>
     match read_string s with
     | Some ("errors", String ":" s) =>
        match read_array s with Some (l, "}") => Some l | _ => None end
     | _ => None
     end
  | _ => None
  end.

(** ** The round trip *)

Lemma read_json_char c rest : read_char (json_char c +:+ rest) = Some (Some c, rest).
Proof. destruct c as [[] [] [] [] [] [] [] []]; reflexivity. Qed.

Lemma json_char_length c : (1 ≤ String.length (json_char c))%nat.
Proof. unfold json_char. repeat case_decide; simpl; lia. Qed.

Lemma read_json_body s rest fuel :
  (String.length (json_body s) < fuel)%nat →
  read_chars fuel (json_body s +:+ String "034" rest) = Some (s, rest).
Proof.
  revert fuel. induction s as [|c s IH]; intros fuel Hf.
  - destruct fuel; [simpl in Hf; lia|]. reflexivity.
  - cbn [json_body] in *. rewrite length_app_string in Hf. pose proof (json_char_length c).
    destruct fuel as [|fuel]; [lia|]. cbn [read_chars].
    rewrite string_app_assoc, read_json_char, IH by lia. done.
Qed.

Lemma read_json_string s rest : read_string (json_string s +:+ rest) = Some (s, rest).
Proof.
  unfold json_string, quote. rewrite string_app_assoc. cbn [String.append read_string].
  rewrite string_app_assoc. cbn [String.append]. apply read_json_body. simpl.
  rewrite !length_app_string. simpl. lia.
Qed.

Lemma read_json_elements texts rest fuel :
  texts ≠ [] → (length texts ≤ fuel)%nat →
  read_elements fuel (Join (json_string <$> texts) "," +:+ String "]" rest) = Some (texts, rest).
Proof.
  revert fuel. induction texts as [|t [|t' texts] IH]; intros fuel Hne Hf; [done|..].
  - destruct fuel; [simpl in Hf; lia|]. cbn [fmap list_fmap Join read_elements].
    by rewrite read_json_string.
  - destruct fuel as [|fuel]; [simpl in Hf; lia|].
    change (Join (json_string <$> t :: t' :: texts) ",") with
      (json_string t +:+ "," +:+ Join (json_string <$> t' :: texts) ",").
    set (J := Join (json_string <$> t' :: texts) ",") in *. cbn [read_elements].
    rewrite string_app_assoc. change (("," +:+ J) +:+ String "]" rest) with (String "," (J +:+ String "]" rest)).
    rewrite read_json_string. rewrite IH; [done|done|simpl in *; lia].
Qed.

Lemma Join_length (l : list string) sep : Forall (λ s, 1 ≤ String.length s)%nat l → (length l ≤ String.length (Join l sep))%nat.
Proof.
  induction l as [|s [|s' l] IH]; intros [H Hl]%Forall_cons || intros _; simpl; [lia|lia|].
  specialize (IH Hl). simpl in IH. rewrite !length_app_string. lia.
Qed.

Lemma json_strings_length (texts : list string) :
  (length texts ≤ String.length (Join (json_string <$> texts) ","))%nat.
Proof.
  etransitivity; [|apply Join_length].
  - by rewrite length_fmap.
  - apply Forall_fmap, Forall_forall. intros t _. simpl. lia.
Qed.

Lemma read_json_array texts rest :
  read_array (ErrorList_MarshalJSON texts +:+ rest) = Some (texts, rest).
Proof.
  unfold ErrorList_MarshalJSON. destruct texts as [|t texts]; [reflexivity|].
  pose proof (json_strings_length (t :: texts)) as Hlen. set (J := Join _ _) in *.
  assert (∃ J', J = String "034" J') as [J' EJ].
  { unfold J. destruct texts; by eexists. }
  change (("[" +:+ J +:+ "]") +:+ rest) with (String "[" ((J +:+ "]") +:+ rest)).
  rewrite string_app_assoc. change ("]" +:+ rest) with (String "]" rest).
  assert (read_array (String "[" (J +:+ String "]" rest)) =
          read_elements (S (String.length (J +:+ String "]" rest))) (J +:+ String "]" rest)) as ->
    by by rewrite EJ.
  apply read_json_elements; [done|]. rewrite length_app_string. lia.
Qed.

(** The text of several errors is JSON that a reader gets their texts back
    from, whatever characters they contain and also when one of them is itself
    made of several errors. *)
Theorem multi_error_roundtrip errs :
  read_errors (Error_text (MultiError errs)) = Some (Error_text <$> errs).
Proof.
  change (Error_text (MultiError errs)) with
    (String "{" (json_string "errors" +:+ ":" +:+ ErrorList_MarshalJSON (Error_text <$> errs) +:+ "}")).
  unfold read_errors. rewrite read_json_string.
  set (l := Error_text <$> errs). change (":" +:+ ErrorList_MarshalJSON l +:+ "}") with
    (String ":" (ErrorList_MarshalJSON l +:+ "}")).
  change (match read_array (ErrorList_MarshalJSON l +:+ "}") with
          | Some (x, "}") => Some x | _ => None end = Some l).
  by rewrite read_json_array.
Qed.
