(* ===== verification/Meta.v ===== *)
(** * Kubernetes object data and status conditions

    The parts of [k8s.io/apimachinery] and [controller-runtime] the program's
    own code reads and writes: object metadata, status conditions, reconcile
    results.  The four functions of package [meta] on condition lists are code
    outside the repository: they are the operations of the class
    [MetaConditions], and what their documentation promises is the class
    [MetaConditionsLaws].  [conditions_impl] is a concrete implementation that
    meets the laws, used by the witnesses.

    Also here: [ConditionsEqual] of [pkg/util/k8s]. *)

From S2P Require Import Prelude.

(** ** Data *)

(** [types.NamespacedName]. *)
Record NamespacedName := mkKey { nn_Namespace : string; nn_Name : string }.
#[global] Instance NamespacedName_eq_dec : EqDecision NamespacedName.
Proof. solve_decision. Defined.
#[global] Instance NamespacedName_countable : Countable NamespacedName.
Proof.
  apply (inj_countable' (λ k, (nn_Namespace k, nn_Name k)) (λ p, mkKey (fst p) (snd p))).
  by intros [].
Defined.

(** A [time.Time] is its distance in nanoseconds from the zero time, so the
    zero time is [0]. *)
Definition Time := Z.
Definition IsZero (t : option Time) : bool :=
  match t with None => true | Some t => bool_decide (t = 0%Z) end.

(** [metav1.ObjectMeta], the fields the program uses. *)
Record ObjectMeta := mkMeta {
  om_Name : string;
  om_Namespace : string;
  om_Labels : gmap string string;
  om_UID : string;
  om_CreationTimestamp : Time;
  om_DeletionTimestamp : option Time;
  om_Finalizers : list string;
}.
#[global] Instance ObjectMeta_eq_dec : EqDecision ObjectMeta.
Proof. solve_decision. Defined.

(** [metav1.Condition]; the values of [Status] are the strings of
    [metav1.ConditionStatus]. *)
Record Condition := mkCondition {
  c_Type : string;
  c_Status : string;
  c_Reason : string;
  c_Message : string;
  c_LastTransitionTime : Time;
}.
#[global] Instance Condition_eq_dec : EqDecision Condition.
Proof. solve_decision. Defined.

Definition ConditionTrue : string := "True".
Definition ConditionFalse : string := "False".

(** A condition literal of the source, which leaves [LastTransitionTime] unset. *)
Definition NewCondition (type status reason message : string) : Condition :=
  mkCondition type status reason message 0%Z.

(** [ctrl.Result]; [RequeueAfter] is a duration in nanoseconds. *)
Record Result := mkResult { Requeue : bool; RequeueAfter : Z }.
Definition emptyResult : Result := mkResult false 0%Z.
Definition requeueResult : Result := mkResult true 0%Z.

(** [time.Second] as a [time.Duration]. *)
Definition Second : Z := 1000000000%Z.

(** [ConditionsEqual] compares type, reason and message; it does not look at
    the status. *)
Definition ConditionsEqual (a b : option Condition) : bool :=
  match a, b with
  | None, None => true
  | Some a, Some b =>
     bool_decide (c_Type a = c_Type b) && bool_decide (c_Reason a = c_Reason b) &&
     bool_decide (c_Message a = c_Message b)
  | _, _ => false
  end.

(** ** The interface of package [meta] *)

Class MetaConditions := {
  FindStatusCondition : list Condition → string → option Condition;
  IsStatusConditionTrue : list Condition → string → bool;
  SetStatusCondition : Time → list Condition → Condition → list Condition;
  RemoveStatusCondition : list Condition → string → list Condition;
}.

(** Equal up to [LastTransitionTime], which the library manages. *)
Definition same_condition (a b : Condition) : Prop :=
  c_Type a = c_Type b ∧ c_Status a = c_Status b ∧
  c_Reason a = c_Reason b ∧ c_Message a = c_Message b.

Class MetaConditionsLaws (M : MetaConditions) : Prop := {
  find_nil t : FindStatusCondition [] t = None;
  find_type cs t c : FindStatusCondition cs t = Some c → c_Type c = t;
  is_true_iff cs t :
    IsStatusConditionTrue cs t = true ↔
    ∃ c, FindStatusCondition cs t = Some c ∧ c_Status c = ConditionTrue;
  find_set_eq now cs c :
    ∃ c', FindStatusCondition (SetStatusCondition now cs c) (c_Type c) = Some c' ∧
          same_condition c' c;
  find_set_ne now cs c t :
    t ≠ c_Type c →
    FindStatusCondition (SetStatusCondition now cs c) t = FindStatusCondition cs t;
  find_remove_eq cs t : FindStatusCondition (RemoveStatusCondition cs t) t = None;
  find_remove_ne cs t t' :
    t' ≠ t →
    FindStatusCondition (RemoveStatusCondition cs t) t' = FindStatusCondition cs t';
}.

Section Laws.
Context {M : MetaConditions} {ML : MetaConditionsLaws M}.
Implicit Types (cs : list Condition) (c : Condition) (t : string) (now : Time).

Lemma is_true_find_none cs t :
  FindStatusCondition cs t = None → IsStatusConditionTrue cs t = false.
Proof. rewrite <- not_true_iff_false, is_true_iff. naive_solver. Qed.

Lemma is_true_find_some cs t c :
  FindStatusCondition cs t = Some c →
  IsStatusConditionTrue cs t = bool_decide (c_Status c = ConditionTrue).
Proof.
  intros Hc. apply eq_bool_prop_intro. rewrite !Is_true_true, bool_decide_eq_true.
  rewrite is_true_iff. naive_solver.
Qed.

Lemma is_true_ext cs cs' t :
  FindStatusCondition cs t = FindStatusCondition cs' t →
  IsStatusConditionTrue cs t = IsStatusConditionTrue cs' t.
Proof.
  intros E. apply eq_bool_prop_intro. by rewrite !Is_true_true, !is_true_iff, E.
Qed.

Lemma is_true_set_eq now cs c :
  IsStatusConditionTrue (SetStatusCondition now cs c) (c_Type c) =
  bool_decide (c_Status c = ConditionTrue).
Proof.
  destruct (find_set_eq now cs c) as (c' & Hc & _ & Hs & _).
  rewrite (is_true_find_some _ _ _ Hc). by rewrite Hs.
Qed.

Lemma is_true_set_ne now cs c t :
  t ≠ c_Type c →
  IsStatusConditionTrue (SetStatusCondition now cs c) t = IsStatusConditionTrue cs t.
Proof. intros. by apply is_true_ext, find_set_ne. Qed.

Lemma is_true_remove_eq cs t :
  IsStatusConditionTrue (RemoveStatusCondition cs t) t = false.
Proof. apply is_true_find_none, find_remove_eq. Qed.

Lemma is_true_remove_ne cs t t' :
  t' ≠ t →
  IsStatusConditionTrue (RemoveStatusCondition cs t) t' = IsStatusConditionTrue cs t'.
Proof. intros. by apply is_true_ext, find_remove_ne. Qed.

(** Setting a condition leaves one that [ConditionsEqual] accepts. *)
Lemma conditions_equal_set now cs c :
  ConditionsEqual (Some c) (FindStatusCondition (SetStatusCondition now cs c) (c_Type c))
  = true.
Proof.
  destruct (find_set_eq now cs c) as (c' & -> & Ht & _ & Hr & Hm). simpl.
  by rewrite Ht, Hr, Hm, !bool_decide_eq_true_2.
Qed.
End Laws.

#[export] Hint Resolve is_true_remove_eq conditions_equal_set : marin3r.

(** ** A concrete implementation *)

Section Impl.
Implicit Types (cs : list Condition) (c : Condition) (t : string).

Fixpoint find_condition cs t : option Condition :=
  match cs with
  | [] => None
  | c :: cs => if decide (c_Type c = t) then Some c else find_condition cs t
  end.

Definition update_condition (now : Time) (old new : Condition) : Condition :=
  mkCondition (c_Type old) (c_Status new) (c_Reason new) (c_Message new)
    (if decide (c_Status old = c_Status new) then c_LastTransitionTime old
     else if decide (c_LastTransitionTime new = 0%Z) then now
     else c_LastTransitionTime new).

Fixpoint set_condition (now : Time) cs c : list Condition :=
  match cs with
  | [] => [if decide (c_LastTransitionTime c = 0%Z)
           then mkCondition (c_Type c) (c_Status c) (c_Reason c) (c_Message c) now
           else c]
  | c' :: cs =>
     if decide (c_Type c' = c_Type c) then update_condition now c' c :: cs
     else c' :: set_condition now cs c
  end.

Fixpoint remove_condition cs t : list Condition :=
  match cs with
  | [] => []
  | c :: cs =>
     if decide (c_Type c = t) then remove_condition cs t else c :: remove_condition cs t
  end.
End Impl.

Definition conditions_impl : MetaConditions := {|
  FindStatusCondition := find_condition;
  IsStatusConditionTrue cs t :=
    match find_condition cs t with
    | Some c => bool_decide (c_Status c = ConditionTrue)
    | None => false
    end;
  SetStatusCondition := set_condition;
  RemoveStatusCondition := remove_condition;
|}.

#[global] Instance conditions_impl_laws : MetaConditionsLaws conditions_impl.
Proof.
  split; simpl.
  - done.
  - intros cs t c. induction cs; simpl; go_cases; naive_solver.
  - intros cs t. destruct (find_condition cs t) as [c|].
    + rewrite bool_decide_eq_true. naive_solver.
    + naive_solver.
  - intros now cs c. induction cs as [|c' cs IH]; simpl.
    + destruct (decide (c_LastTransitionTime c = 0%Z)); simpl;
        rewrite decide_True by done; eexists; by repeat split.
    + case_decide as Ht; simpl.
      * rewrite decide_True by done. eexists; by repeat split.
      * by rewrite decide_False.
  - intros now cs c t Hne. induction cs as [|c' cs IH]; simpl.
    + destruct (decide (c_LastTransitionTime c = 0%Z)); simpl;
        by rewrite decide_False by congruence.
    + destruct (decide (c_Type c' = c_Type c)); simpl; [|by rewrite IH].
      by rewrite !decide_False by congruence.
  - intros cs t. induction cs as [|c cs IH]; simpl; [done|].
    destruct (decide (c_Type c = t)); simpl; [done|by rewrite decide_False].
  - intros cs t t' Hne. induction cs as [|c cs IH]; simpl; [done|].
    case_decide; simpl; [by rewrite decide_False by congruence|by rewrite IH].
Qed.
