(* ===== verification/Envoy.v ===== *)
(** * Envoy resource types, generators and serializers ([pkg/envoy])

    [pkg/envoy/types.go], [pkg/envoy/resources], [pkg/envoy/resources/v3],
    [pkg/envoy/serializer] and [pkg/envoy/serializer/v3].

    Protobuf messages the program builds itself are built field by field; a
    message read from text is [Decoded kind contents], where the contents are
    what [protojson] made of the text.  The codecs are libraries: they are the
    operations of the class [Codecs]. *)

From S2P Require Import Prelude Meta.

(** ** [types.go] *)

Definition APIVersion := string.
Definition APIv3 : APIVersion := "v3".

Definition APIVersion_String (version : APIVersion) : string := APIv3.

Definition ParseAPIVersion (version : string) : result APIVersion :=
  if decide (version = APIv3) then Ok APIv3
  else Err (ErrorString ("String '" +:+ version +:+ "' is no a valid APIVersion")).

(** [envoy.Type] is a string; [UnknownType s] is a string that is none of the
    declared constants. *)
Inductive EnvoyType :=
  | Endpoint | Cluster | Route | ScopedRoute | VirtualHost | Listener
  | Secret | Runtime | ExtensionConfig
  | UnknownType (s : string).
#[global] Instance EnvoyType_eq_dec : EqDecision EnvoyType.
Proof. solve_decision. Defined.

Definition Type_string (t : EnvoyType) : string :=
  match t with
  | Endpoint => "endpoint" | Cluster => "cluster" | Route => "route"
  | ScopedRoute => "scopedRoute" | VirtualHost => "virtualHost"
  | Listener => "listener" | Secret => "secret" | Runtime => "runtime"
  | ExtensionConfig => "extensionConfig" | UnknownType s => s
  end.

Inductive EndpointHealthStatus :=
  | HealthStatus_UNKNOWN | HealthStatus_HEALTHY | HealthStatus_UNHEALTHY
  | HealthStatus_DRAINING | HealthStatus_TIMEOUT | HealthStatus_DEGRADED.
#[global] Instance EndpointHealthStatus_eq_dec : EqDecision EndpointHealthStatus.
Proof. solve_decision. Defined.

(** A [net.IP] is its text form, which is what [IP.String] gives. *)
Record UpstreamHost := mkHost {
  uh_IP : string;
  uh_Port : Z;
  uh_Health : EndpointHealthStatus;
}.
#[global] Instance UpstreamHost_eq_dec : EqDecision UpstreamHost.
Proof. solve_decision. Defined.

(** ** Messages *)

Inductive DataSource :=
  | DataSource_InlineBytes (bytes : string)
  | DataSource_Filename (filename : string).

Inductive SecretKind :=
  | Secret_TlsCertificate (PrivateKey CertificateChain : DataSource)
  | Secret_ValidationContext (TrustedCa : DataSource)
  | Secret_GenericSecret (Secret : DataSource).

Record LbEndpointMsg := mkLbEndpoint {
  lbe_Address : string;
  lbe_PortValue : Z;
  lbe_HealthStatus : EndpointHealthStatus;
}.

Inductive MessageKind :=
  | KClusterLoadAssignment | KCluster | KRouteConfiguration
  | KScopedRouteConfiguration | KListener | KRuntime | KSecret
  | KTypedExtensionConfig.

(** [envoy.Resource]: a protobuf message. *)
Inductive Message :=
  | Decoded (kind : MessageKind) (contents : string)
  | SecretMessage (Name : string) (Type' : SecretKind)
  | ClusterLoadAssignmentMessage (ClusterName : string)
      (Endpoints : list (list LbEndpointMsg)).

#[global] Instance DataSource_eq_dec : EqDecision DataSource.
Proof. solve_decision. Defined.
#[global] Instance SecretKind_eq_dec : EqDecision SecretKind.
Proof. solve_decision. Defined.
#[global] Instance LbEndpointMsg_eq_dec : EqDecision LbEndpointMsg.
Proof. solve_decision. Defined.
#[global] Instance MessageKind_eq_dec : EqDecision MessageKind.
Proof. solve_decision. Defined.
#[global] Instance Message_eq_dec : EqDecision Message.
Proof. solve_decision. Defined.

(** The proto type of a message. *)
Definition message_kind (m : Message) : MessageKind :=
  match m with
  | Decoded k _ => k
  | SecretMessage _ _ => KSecret
  | ClusterLoadAssignmentMessage _ _ => KClusterLoadAssignment
  end.

(** ** [resources/v3]: the generator *)

(** [New] returns a new empty message, [nil] for a type it does not know. *)
Definition New (rType : EnvoyType) : option Message :=
  match rType with
  | Endpoint => Some (Decoded KClusterLoadAssignment "")
  | Cluster => Some (Decoded KCluster "")
  | Route => Some (Decoded KRouteConfiguration "")
  | ScopedRoute => Some (Decoded KScopedRouteConfiguration "")
  | Listener => Some (Decoded KListener "")
  | Runtime => Some (Decoded KRuntime "")
  | Secret => Some (Decoded KSecret "")
  | ExtensionConfig => Some (Decoded KTypedExtensionConfig "")
  | VirtualHost | UnknownType _ => None
  end.

Definition NewTlsCertificateSecret (name privateKey certificateChain : string) : Message :=
  SecretMessage name
    (Secret_TlsCertificate (DataSource_InlineBytes privateKey)
                           (DataSource_InlineBytes certificateChain)).

Definition NewValidationContextSecret (name certificateChain : string) : Message :=
  SecretMessage name (Secret_ValidationContext (DataSource_InlineBytes certificateChain)).

Definition NewGenericSecret (name value : string) : Message :=
  SecretMessage name (Secret_GenericSecret (DataSource_InlineBytes value)).

Definition NewTlsSecretFromPath (name certificateChainPath privateKeyPath : string)
    : Message :=
  SecretMessage name
    (Secret_TlsCertificate (DataSource_Filename privateKeyPath)
                           (DataSource_Filename certificateChainPath)).

Definition LbEndpoint (host : UpstreamHost) : LbEndpointMsg :=
  mkLbEndpoint (uh_IP host) (uh_Port host) (uh_Health host).

Definition NewClusterLoadAssignment (clusterName : string) (hosts : list UpstreamHost)
    : Message :=
  ClusterLoadAssignmentMessage clusterName [LbEndpoint <$> hosts].

(** ** [type_urls.go]

    The constants of [go-control-plane/pkg/resource/v3] are the type URLs the
    repository's own test spells out. *)
Definition Mappings (rType : EnvoyType) : option string :=
  match rType with
  | Listener => Some "type.googleapis.com/envoy.config.listener.v3.Listener"
  | Route => Some "type.googleapis.com/envoy.config.route.v3.RouteConfiguration"
  | ScopedRoute => Some "type.googleapis.com/envoy.config.route.v3.ScopedRouteConfiguration"
  | VirtualHost => Some "type.googleapis.com/envoy.config.route.v3.VirtualHost"
  | Cluster => Some "type.googleapis.com/envoy.config.cluster.v3.Cluster"
  | Endpoint => Some "type.googleapis.com/envoy.config.endpoint.v3.ClusterLoadAssignment"
  | Secret => Some "type.googleapis.com/envoy.extensions.transport_sockets.tls.v3.Secret"
  | Runtime => Some "type.googleapis.com/envoy.service.runtime.v3.Runtime"
  | ExtensionConfig => Some "type.googleapis.com/envoy.config.core.v3.TypedExtensionConfig"
  | UnknownType _ => None
  end.

(** Indexing a Go map with a missing key gives the zero value. *)
Definition TypeURL (rType : EnvoyType) (version : APIVersion) : string :=
  default "" (Mappings rType).

(** ** [serializer] *)

Inductive Serialization := YAML | JSON | B64JSON | UnknownSerialization (s : string).
#[global] Instance Serialization_eq_dec : EqDecision Serialization.
Proof. solve_decision. Defined.

(** The codec libraries; [inl] carries the text of the library's error. *)
Class Codecs := {
  protojson_Unmarshal : string → Message → string + Message;
  protojson_Marshal : Message → string + string;
  json_Marshal_RawMessage : string → string + string;
  base64_DecodeString : string → string + string;
  ghodss_YAMLToJSON : string → string + string;
  sigs_YAMLToJSON : string → string + string;
}.

Section Serializers.
Context {C : Codecs}.

Definition JSON_Marshal (res : Message) : result string :=
  match protojson_Marshal res with
  | inl err => Err (ErrorString err)
  | inr data =>
     match json_Marshal_RawMessage data with
     | inl err => Err (ErrorString err)
     | inr data2 => Ok data2
     end
  end.

Definition JSON_Unmarshal (str : string) (res : option Message) : result Message :=
  match res with
  | None => Err (ErrorString "resource cannot be nil")
  | Some res =>
     match protojson_Unmarshal str res with
     | inl err => Err (ErrorString ("error deserializing resource: '" +:+ err +:+ "'"))
     | inr m => Ok m
     end
  end.

Definition B64JSON_Unmarshal (str : string) (res : option Message) : result Message :=
  match base64_DecodeString str with
  | inl err => Err (ErrorString ("error decoding base64 string: '" +:+ err +:+ "'"))
  | inr b => JSON_Unmarshal b res
  end.

Definition YAML_Unmarshal (str : string) (res : option Message) : result Message :=
  match ghodss_YAMLToJSON str with
  | inl err => Err (ErrorString ("error converting yaml to json: '" +:+ err +:+ "'"))
  | inr b => JSON_Unmarshal b res
  end.

Definition ResourceUnmarshaller := string → option Message → result Message.

Definition NewResourceMarshaller (encoding : Serialization) (version : APIVersion)
    : Message → result string := JSON_Marshal.

(** [nil] for an unknown encoding. *)
Definition NewResourceUnmarshaller (encoding : Serialization) (version : APIVersion)
    : option ResourceUnmarshaller :=
  match encoding with
  | JSON => Some JSON_Unmarshal
  | YAML => Some YAML_Unmarshal
  | B64JSON => Some B64JSON_Unmarshal
  | UnknownSerialization _ => None
  end.

(** [envoy_resources.Validate]; calling a method of a [nil] interface panics. *)
Definition Validate (resource : string) (encoding : Serialization)
    (version : APIVersion) (rType : EnvoyType) : result unit :=
  decoder ← deref (NewResourceUnmarshaller encoding version);
  _ ← decoder resource (New rType);
  Ok tt.
End Serializers.

(** [ResourcesEqual], for a given [proto.Equal]; a missing key gives [nil]. *)
Definition ResourcesEqual (proto_Equal : option Message → option Message → bool)
    (a b : gmap string Message) : bool :=
  bool_decide (size a = size b) &&
  forallb (λ '(name, resource), proto_Equal (Some resource) (b !! name)) (map_to_list a).

(** ** Lemmas *)

(** The type URLs the program itself uses contain no separator of the stats keys. *)
Lemma TypeURL_no_colon t v : (∀ s, t ≠ UnknownType s) → no_sep ":" (TypeURL t v).
Proof. intros Ht. destruct t; try naive_solver; apply (bool_decide_unpack _); by vm_compute. Qed.

Lemma TypeURL_inj t t' v v' u :
  Mappings t = Some u → TypeURL t v = TypeURL t' v' → t = t'.
Proof. destruct t, t'; try done; vm_compute; congruence. Qed.
