(* ===== verification/Api.v ===== *)
(** * The [marin3r.3scale.net/v1alpha1] API ([apis/marin3r/v1alpha1])

    The [EnvoyConfig] and [EnvoyConfigRevision] resources, the conversion of
    the deprecated [spec.envoyResources] into [spec.resources]
    ([resources.go]) and the validating webhook ([envoyconfig_webhook.go]).

    A pointer field is an [option]; a slice the code compares with [nil] is an
    [option] of a list. *)

From S2P Require Import Prelude Meta Envoy.

(** ** [resources.go]: data *)

Inductive Blueprint := TlsCertificate | TlsValidationContext | UnknownBlueprint (s : string).
Definition defaultBlueprint : Blueprint := TlsCertificate.

Record SecretKeySelector := mkSecretKeySelector {
  sks_Name : string; sks_Key : string; sks_Alias : string;
}.

(** [metav1.LabelSelector]: match labels, and match expressions as (key,
    operator, values). *)
Record LabelSelector := mkLabelSelector {
  ls_MatchLabels : gmap string string;
  ls_MatchExpressions : list (string * string * list string);
}.

Record GenerateFromEndpointSlices := mkGenerateFromEndpointSlices {
  ges_Selector : option LabelSelector;
  ges_ClusterName : string;
  ges_TargetPort : string;
}.

(** [Resource]; [Value] is the raw JSON of the [RawExtension]. *)
Record Resource := mkResource {
  r_Type : EnvoyType;
  r_Value : option string;
  r_GenerateFromTlsSecret : option string;
  r_GenerateFromOpaqueSecret : option SecretKeySelector;
  r_GenerateFromEndpointSlices : option GenerateFromEndpointSlices;
  r_Blueprint : option Blueprint;
}.

#[global] Instance Blueprint_eq_dec : EqDecision Blueprint.
Proof. solve_decision. Defined.
#[global] Instance SecretKeySelector_eq_dec : EqDecision SecretKeySelector.
Proof. solve_decision. Defined.
#[global] Instance LabelSelector_eq_dec : EqDecision LabelSelector.
Proof. solve_decision. Defined.
#[global] Instance GenerateFromEndpointSlices_eq_dec : EqDecision GenerateFromEndpointSlices.
Proof. solve_decision. Defined.
#[global] Instance Resource_eq_dec : EqDecision Resource.
Proof. solve_decision. Defined.

(** The zero value [Resource{}]; the zero [Type] is the empty string. *)
Definition emptyResource : Resource := mkResource (UnknownType "") None None None None None.

Record EnvoyResource := mkEnvoyResource { er_Name : option string; er_Value : string }.

(** [corev1.SecretReference]. *)
Record SecretReference := mkSecretReference { sr_Name : string; sr_Namespace : string }.
#[global] Instance SecretReference_eq_dec : EqDecision SecretReference.
Proof. solve_decision. Defined.

Record EnvoySecretResource := mkEnvoySecretResource {
  esr_Name : string;
  esr_Ref : option SecretReference;
}.

Record EnvoyResources := mkEnvoyResources {
  Endpoints : list EnvoyResource;
  Clusters : list EnvoyResource;
  Routes : list EnvoyResource;
  ScopedRoutes : list EnvoyResource;
  Listeners : list EnvoyResource;
  Runtimes : list EnvoyResource;
  Secrets : list EnvoySecretResource;
  ExtensionConfigs : list EnvoyResource;
}.

(** ** [resources.go]: methods *)

Definition GetBlueprint (r : Resource) : Blueprint :=
  match r_Blueprint r with Some b => b | None => defaultBlueprint end.

Definition SecretRef (r : Resource) : result string :=
  if decide (r_Type r ≠ Secret) then Err (ErrorString "not a secret type")
  else match r_GenerateFromOpaqueSecret r, r_GenerateFromTlsSecret r with
       | Some s, _ => Ok (sks_Name s)
       | None, Some n => Ok n
       | None, None => Err (ErrorString "secret reference not set")
       end.

Definition GetSecretKey (esr : EnvoySecretResource) (namespace : string) : NamespacedName :=
  match esr_Ref esr with
  | Some ref => mkKey namespace (sr_Name ref)
  | None => mkKey namespace (esr_Name esr)
  end.

Definition EnvoySecretResource_Validate (esr : EnvoySecretResource) (namespace : string)
    : option error :=
  match esr_Ref esr with
  | Some ref =>
     if decide (sr_Name ref = "") then
       Some (ErrorString "'*v1alpha1.EnvoySecretResource.ref.name' cannot be empty")
     else if decide (sr_Namespace ref ≠ "" ∧ sr_Namespace ref ≠ namespace) then
       Some (ErrorString ("only Secrets from the same namespace '" +:+ namespace +:+
                          "' can be referred"))
     else None
  | None => None
  end.

Section Conversion.
Context {C : Codecs}.

(** [(res *EnvoyResource) Resource]. *)
Definition EnvoyResource_Resource (res : EnvoyResource) (rType : EnvoyType)
    (serialization : Serialization) : error + Resource :=
  if decide (serialization = YAML) then
    match sigs_YAMLToJSON (er_Value res) with
    | inl err => inl (ErrorString err)
    | inr b => inr (mkResource rType (Some b) None None None None)
    end
  else inr (mkResource rType (Some (er_Value res)) None None None None).

(** One of the seven loops of [Resources]: the error list and the resource
    list both grow, and a failed conversion still appends [Resource{}]. *)
Definition convert_loop (rType : EnvoyType) (serialization : Serialization)
    (acc : list error * list Resource) (l : list EnvoyResource)
    : list error * list Resource :=
  fold_left (λ '(errList, resources) deprecatedResource,
    match EnvoyResource_Resource deprecatedResource rType serialization with
    | inl err => (errList ++ [err], resources ++ [emptyResource])
    | inr r => (errList, resources ++ [r])
    end) l acc.

(** The loop over [in.Secrets] stores [&deprecatedResource.Name].  With the
    [go 1.21] of [go.mod] there is one [deprecatedResource] variable for the
    whole loop, so every stored pointer aliases it: the state of the loop is
    the variable's contents and how many pointers to it were stored. *)
Fixpoint secrets_loop (deprecatedResource : option EnvoySecretResource)
    (stored : nat) (l : list EnvoySecretResource) : option EnvoySecretResource * nat :=
  match l with
  | [] => (deprecatedResource, stored)
  | s :: l => secrets_loop (Some s) (S stored) l
  end.

(** What the stored pointers read once the loop has ended. *)
Definition convert_secrets (l : list EnvoySecretResource) : list Resource :=
  let '(deprecatedResource, stored) := secrets_loop None 0 l in
  replicate stored
    (mkResource Secret None (esr_Name <$> deprecatedResource) None None
                (Some TlsCertificate)).

(** [(in *EnvoyResources) Resources]. *)
Definition Resources (inn : EnvoyResources) (serialization : Serialization)
    : error + list Resource :=
  let acc := ([], []) in
  let acc := convert_loop Endpoint serialization acc (Endpoints inn) in
  let acc := convert_loop Cluster serialization acc (Clusters inn) in
  let acc := convert_loop Route serialization acc (Routes inn) in
  let acc := convert_loop ScopedRoute serialization acc (ScopedRoutes inn) in
  let acc := convert_loop Listener serialization acc (Listeners inn) in
  let acc := convert_loop Runtime serialization acc (Runtimes inn) in
  let acc := convert_loop ExtensionConfig serialization acc (ExtensionConfigs inn) in
  let '(errList, resources) := acc in
  let resources := resources ++ convert_secrets (Secrets inn) in
  match errList with
  | [] => inr resources
  | _ => inl (MultiError errList)
  end.
End Conversion.

(** ** [envoyconfig_types.go] *)

Definition CacheOutOfSyncCondition : string := "CacheOutOfSync".
Definition RollbackFailedCondition : string := "RollbackFailed".
Definition InSyncState : string := "InSync".
Definition RollbackState : string := "Rollback".
Definition RollbackFailedState : string := "RollbackFailed".

Record EnvoyConfigSpec := mkEnvoyConfigSpec {
  ecs_NodeID : string;
  ecs_Serialization : option Serialization;
  ecs_EnvoyAPI : option APIVersion;
  ecs_EnvoyResources : option EnvoyResources;
  ecs_Resources : option (list Resource);
}.

(** [corev1.ObjectReference], the fields the program sets. *)
Record ObjectReference := mkObjectReference {
  or_APIVersion : string; or_Kind : string; or_Name : string;
  or_Namespace : string; or_UID : string;
}.
#[global] Instance ObjectReference_eq_dec : EqDecision ObjectReference.
Proof. solve_decision. Defined.

Record ConfigRevisionRef := mkConfigRevisionRef {
  crr_Version : string;
  crr_Ref : ObjectReference;
}.
#[global] Instance ConfigRevisionRef_eq_dec : EqDecision ConfigRevisionRef.
Proof. solve_decision. Defined.

(** [Conditions] and [ConfigRevisions] are compared with [nil] or by
    [reflect.DeepEqual], which tells [nil] from empty. *)
Record EnvoyConfigStatus := mkEnvoyConfigStatus {
  ecst_CacheState : option string;
  ecst_PublishedVersion : option string;
  ecst_DesiredVersion : option string;
  ecst_Conditions : option (list Condition);
  ecst_ConfigRevisions : option (list ConfigRevisionRef);
}.

Record EnvoyConfig := mkEnvoyConfig {
  ec_Meta : ObjectMeta;
  ec_Spec : EnvoyConfigSpec;
  ec_Status : EnvoyConfigStatus;
}.

Definition EnvoyConfig_GetEnvoyAPIVersion (ec : EnvoyConfig) : APIVersion :=
  match ecs_EnvoyAPI (ec_Spec ec) with None => APIv3 | Some v => v end.

Definition EnvoyConfig_GetSerialization (ec : EnvoyConfig) : Serialization :=
  match ecs_Serialization (ec_Spec ec) with None => JSON | Some s => s end.

(** [reconcilerutil.Hash] is a library function. *)
Definition GetEnvoyResourcesVersion (Hash : option (list Resource) → string)
    (ec : EnvoyConfig) : string :=
  Hash (ecs_Resources (ec_Spec ec)).

Definition EnvoyConfig_Default (ec : EnvoyConfig) : EnvoyConfig :=
  match ecs_EnvoyAPI (ec_Spec ec) with
  | None =>
     mkEnvoyConfig (ec_Meta ec)
       (mkEnvoyConfigSpec (ecs_NodeID (ec_Spec ec)) (ecs_Serialization (ec_Spec ec))
          (Some (EnvoyConfig_GetEnvoyAPIVersion ec)) (ecs_EnvoyResources (ec_Spec ec))
          (ecs_Resources (ec_Spec ec)))
       (ec_Status ec)
  | Some _ => ec
  end.

(** ** [envoyconfigrevision_types.go] *)

Definition RevisionPublishedCondition : string := "RevisionPublished".
Definition ResourcesInSyncCondition : string := "ResourcesInSync".
Definition RevisionTaintedCondition : string := "RevisionTainted".
Definition EnvoyConfigRevisionFinalizer : string := "finalizer.marin3r.3scale.net".

Record EnvoyConfigRevisionSpec := mkEnvoyConfigRevisionSpec {
  ecrs_NodeID : string;
  ecrs_Version : string;
  ecrs_EnvoyAPI : option APIVersion;
  ecrs_Serialization : option Serialization;
  ecrs_EnvoyResources : option EnvoyResources;
  ecrs_Resources : option (list Resource);
}.

Record VersionTracker := mkVersionTracker {
  vt_Endpoints : string;
  vt_Clusters : string;
  vt_Routes : string;
  vt_ScopedRoutes : string;
  vt_Listeners : string;
  vt_Secrets : string;
  vt_Runtimes : string;
  vt_ExtensionConfigs : string;
}.
#[global] Instance VersionTracker_eq_dec : EqDecision VersionTracker.
Proof. solve_decision. Defined.

Record EnvoyConfigRevisionStatus := mkEnvoyConfigRevisionStatus {
  ecrst_Published : option bool;
  ecrst_ProvidesVersions : option VersionTracker;
  ecrst_LastPublishedAt : option Time;
  ecrst_Tainted : option bool;
  ecrst_Conditions : list Condition;
}.

Definition IsPublished (status : EnvoyConfigRevisionStatus) : bool :=
  match ecrst_Published status with None => false | Some b => b end.

Definition IsTainted (status : EnvoyConfigRevisionStatus) : bool :=
  match ecrst_Tainted status with None => false | Some b => b end.

Record EnvoyConfigRevision := mkEnvoyConfigRevision {
  ecr_APIVersion : string;
  ecr_Kind : string;
  ecr_Meta : ObjectMeta;
  ecr_Spec : EnvoyConfigRevisionSpec;
  ecr_Status : EnvoyConfigRevisionStatus;
}.

Definition EnvoyConfigRevision_GetEnvoyAPIVersion (ecr : EnvoyConfigRevision) : APIVersion :=
  match ecrs_EnvoyAPI (ecr_Spec ecr) with None => APIv3 | Some v => v end.

Definition EnvoyConfigRevision_GetSerialization (ecr : EnvoyConfigRevision)
    : Serialization :=
  match ecrs_Serialization (ecr_Spec ecr) with None => JSON | Some s => s end.

Definition EnvoyConfigRevision_Default (ecr : EnvoyConfigRevision) : EnvoyConfigRevision :=
  match ecrs_EnvoyAPI (ecr_Spec ecr) with
  | None =>
     mkEnvoyConfigRevision (ecr_APIVersion ecr) (ecr_Kind ecr) (ecr_Meta ecr)
       (mkEnvoyConfigRevisionSpec (ecrs_NodeID (ecr_Spec ecr)) (ecrs_Version (ecr_Spec ecr))
          (Some (EnvoyConfigRevision_GetEnvoyAPIVersion ecr))
          (ecrs_Serialization (ecr_Spec ecr)) (ecrs_EnvoyResources (ecr_Spec ecr))
          (ecrs_Resources (ecr_Spec ecr)))
       (ecr_Status ecr)
  | Some _ => ecr
  end.

(** Assignments to fields of the status. *)
Definition set_ecr_status (ecr : EnvoyConfigRevision) (st : EnvoyConfigRevisionStatus)
    : EnvoyConfigRevision :=
  mkEnvoyConfigRevision (ecr_APIVersion ecr) (ecr_Kind ecr) (ecr_Meta ecr) (ecr_Spec ecr) st.

Definition set_ecrst_conditions (st : EnvoyConfigRevisionStatus) (cs : list Condition)
    : EnvoyConfigRevisionStatus :=
  mkEnvoyConfigRevisionStatus (ecrst_Published st) (ecrst_ProvidesVersions st)
    (ecrst_LastPublishedAt st) (ecrst_Tainted st) cs.

(** Short names for the fields most theorems mention. *)
Definition ecr_Version (ecr : EnvoyConfigRevision) : string := ecrs_Version (ecr_Spec ecr).
Definition ecr_Conditions (ecr : EnvoyConfigRevision) : list Condition :=
  ecrst_Conditions (ecr_Status ecr).
Definition set_ecr_conditions (ecr : EnvoyConfigRevision) (cs : list Condition)
    : EnvoyConfigRevision :=
  set_ecr_status ecr (set_ecrst_conditions (ecr_Status ecr) cs).

(** ** [envoyconfig_webhook.go] *)

Section Webhook.
Context {C : Codecs}.

(** The errors of a call to [envoy_resources.Validate], as a list. *)
Definition validation_errors (r : result unit) : result (list error) :=
  match r with Ok _ => Ok [] | Err e => Ok [e] | Panic => Panic end.

Definition when (b : bool) (msg : string) : list error :=
  if b then [ErrorString msg] else [].

(** The body of the loop of [ValidateResources]: the errors one resource adds. *)
Definition ValidateResource (api : APIVersion) (res : Resource) : result (list error) :=
  let has {A} (o : option A) : bool := match o with Some _ => true | None => false end in
  let not_only_endpoint :=
    "'generateFromEndpointSlice' can only be used type '" +:+ Type_string Endpoint +:+ "'" in
  let not_only_secret :=
    "'generateFromTlsSecret' can only be used type '" +:+ Type_string Secret +:+ "'" in
  match r_Type res with
  | Secret =>
     Ok (when (negb (has (r_GenerateFromTlsSecret res)) &&
               negb (has (r_GenerateFromOpaqueSecret res)))
           "one of 'generateFromTlsSecret', 'generateFromOpaqueSecret' must be set for type 'secret'"
         ++ when (has (r_Value res)) "'value' cannot be used for type 'secret'"
         ++ when (has (r_GenerateFromEndpointSlices res)) not_only_endpoint)
  | Endpoint =>
     errs ← match r_Value res with
            | Some raw => validation_errors (Validate raw JSON api Endpoint)
            | None => Ok []
            end;
     Ok (when (has (r_GenerateFromEndpointSlices res) && has (r_Value res))
           "only one of 'generateFromEndpointSlice', 'value' allowed for type 'secret'"
         ++ when (negb (has (r_GenerateFromEndpointSlices res)) && negb (has (r_Value res)))
           "one of 'generateFromEndpointSlice', 'value' must be set for type 'secret'"
         ++ errs
         ++ when (has (r_GenerateFromTlsSecret res)) not_only_secret
         ++ when (has (r_Blueprint res)) "'blueprint' can only be used type 'secret'")
  | t =>
     errs ← match r_Value res with
            | Some raw => validation_errors (Validate raw JSON api t)
            | None => Ok [ErrorString ("'value' cannot be empty for type '" +:+
                                       Type_string t +:+ "'")]
            end;
     Ok (when (has (r_GenerateFromEndpointSlices res)) not_only_endpoint
         ++ when (has (r_GenerateFromTlsSecret res)) not_only_secret
         ++ when (has (r_Blueprint res)) "'blueprint' cannot be empty for type 'secret'"
         ++ errs)
  end.

(** [if len(errList) > 0 { return NewMultiError(errList) }; return nil]. *)
Definition multi_error (errList : list error) : result unit :=
  match errList with [] => Ok tt | _ => Err (MultiError errList) end.

Definition ValidateResources (r : EnvoyConfig) : result unit :=
  errs ← mapR (ValidateResource (EnvoyConfig_GetEnvoyAPIVersion r))
              (default [] (ecs_Resources (ec_Spec r)));
  multi_error (concat errs).

(** One of the loops of [ValidateEnvoyResources]. *)
Definition validate_loop (serialization : Serialization) (api : APIVersion)
    (t : EnvoyType) (l : list EnvoyResource) : result (list error) :=
  errs ← mapR (λ res, validation_errors (Validate (er_Value res) serialization api t)) l;
  Ok (concat errs).

(** The loops of [ValidateEnvoyResources]; there is none for
    [ExtensionConfigs]. *)
Definition ValidateEnvoyResources (r : EnvoyConfig) (inn : EnvoyResources) : result unit :=
  let check := validate_loop (EnvoyConfig_GetSerialization r)
                 (EnvoyConfig_GetEnvoyAPIVersion r) in
  endpoints ← check Endpoint (Endpoints inn);
  clusters ← check Cluster (Clusters inn);
  routes ← check Route (Routes inn);
  scopedRoutes ← check ScopedRoute (ScopedRoutes inn);
  listeners ← check Listener (Listeners inn);
  runtimes ← check Runtime (Runtimes inn);
  let secrets := omap (λ s, EnvoySecretResource_Validate s (om_Namespace (ec_Meta r)))
                      (Secrets inn) in
  multi_error (endpoints ++ clusters ++ routes ++ scopedRoutes ++ listeners
               ++ runtimes ++ secrets).

Definition EnvoyConfig_Validate (r : EnvoyConfig) : result unit :=
  match ecs_EnvoyResources (ec_Spec r), ecs_Resources (ec_Spec r) with
  | None, None | Some _, Some _ =>
     Err (ErrorString
       "one and only one of 'spec.EnvoyResources', 'spec.Resources' must be set")
  | Some inn, None => ValidateEnvoyResources r inn
  | None, Some _ => ValidateResources r
  end.

Definition ValidateCreate (r : EnvoyConfig) : result unit := EnvoyConfig_Validate r.
Definition ValidateUpdate (r old : EnvoyConfig) : result unit := EnvoyConfig_Validate r.
Definition ValidateDelete (r : EnvoyConfig) : result unit := Ok tt.
End Webhook.

(** ** The contract of the validating webhook *)

Section WebhookSpec.
Context {C : Codecs}.

(** The text is the JSON of a message of the resource's type. *)
Definition decodes (t : EnvoyType) (raw : string) : Prop :=
  ∃ m, JSON_Unmarshal raw (New t) = Ok m.

(** What the API documents as a correct [Resource]. *)
Definition resource_ok (res : Resource) : Prop :=
  match r_Type res with
  | Secret =>
     (is_Some (r_GenerateFromTlsSecret res) ∨ is_Some (r_GenerateFromOpaqueSecret res)) ∧
     r_Value res = None ∧ r_GenerateFromEndpointSlices res = None
  | Endpoint =>
     match r_GenerateFromEndpointSlices res, r_Value res with
     | Some _, None => True
     | None, Some raw => decodes Endpoint raw
     | _, _ => False
     end ∧ r_GenerateFromTlsSecret res = None ∧ r_Blueprint res = None
  | t =>
     r_GenerateFromEndpointSlices res = None ∧ r_GenerateFromTlsSecret res = None ∧
     r_Blueprint res = None ∧ ∃ raw, r_Value res = Some raw ∧ decodes t raw
  end.

Lemma JSON_Unmarshal_no_panic raw res : JSON_Unmarshal raw res ≠ Panic.
Proof. unfold JSON_Unmarshal. by repeat case_match. Qed.

(** The webhook's JSON check is exactly [decodes]. *)
Lemma Validate_JSON_cases raw api t :
  (Validate raw JSON api t = Ok tt ∧ decodes t raw) ∨
  (∃ e, Validate raw JSON api t = Err e ∧ ¬ decodes t raw).
Proof.
  unfold Validate, decodes; simpl. pose proof (JSON_Unmarshal_no_panic raw (New t)).
  destruct (JSON_Unmarshal raw (New t)); simpl; [left|right|done]; naive_solver.
Qed.

#[local] Opaque Validate.

Lemma ValidateResource_spec api res :
  ∃ errs, ValidateResource api res = Ok errs ∧ (errs = [] ↔ resource_ok res).
Proof.
  unfold ValidateResource, resource_ok, is_Some.
  destruct res as [t v tls opq ges bp]; simpl.
  destruct t; destruct v as [raw|]; simpl;
    try (match goal with |- context [Validate raw JSON api ?t] =>
           destruct (Validate_JSON_cases raw api t) as [[-> Hd]|(e & -> & Hd)] end);
    simpl; destruct tls, opq, ges, bp; simpl;
    (eexists; split; [reflexivity|]); naive_solver.
Qed.

Lemma ValidateResource_Ok api res : ∃ errs, ValidateResource api res = Ok errs.
Proof. destruct (ValidateResource_spec api res) as (errs & ? & _). eauto. Qed.

Lemma multi_error_Ok errs : multi_error errs = Ok tt ↔ errs = [].
Proof. destruct errs; naive_solver. Qed.

Lemma ValidateResources_ok_iff r :
  ValidateResources r = Ok tt ↔
  Forall resource_ok (default [] (ecs_Resources (ec_Spec r))).
Proof.
  unfold ValidateResources.
  generalize (EnvoyConfig_GetEnvoyAPIVersion r) as api.
  generalize (default [] (ecs_Resources (ec_Spec r))) as l. intros l api.
  assert (∃ errs, mapR (ValidateResource api) l = Ok errs ∧
            (concat errs = [] ↔ Forall resource_ok l)) as (errs & -> & Hiff).
  { induction l as [|res l IH]; simpl.
    - exists []. split; [done|]. split; [constructor|done].
    - destruct (ValidateResource_spec api res) as (es & -> & Hes).
      destruct IH as (ess & -> & IH). exists (es :: ess). split; [done|].
      rewrite Forall_cons, <- Hes, <- IH. simpl. split.
      + apply app_nil.
      + by intros [-> ->]. }
  simpl. by rewrite multi_error_Ok.
Qed.
End WebhookSpec.

(** ** The conversion of [spec.envoyResources] *)

Section ConversionSpec.
Context {C : Codecs}.

(** What a conversion that loses nothing would produce for a list of raw
    resources. *)
Definition raw_resource (t : EnvoyType) (res : EnvoyResource) : Resource :=
  mkResource t (Some (er_Value res)) None None None None.

Lemma convert_loop_json t ser acc l :
  ser ≠ YAML →
  convert_loop t ser acc l = (fst acc, snd acc ++ (raw_resource t <$> l)).
Proof.
  intros Hser. revert acc. induction l as [|res l IH]; intros [es rs].
  - by rewrite app_nil_r.
  - unfold convert_loop in *. simpl. unfold EnvoyResource_Resource.
    rewrite decide_False by done. rewrite IH. simpl. by rewrite <- app_assoc.
Qed.

Lemma secrets_loop_spec cell n l :
  secrets_loop cell n l = (match last l with Some s => Some s | None => cell end,
                           n + length l).
Proof.
  revert cell n. induction l as [|s l IH]; intros cell n; simpl; [by rewrite Nat.add_0_r|].
  rewrite IH, last_cons. f_equal; [|lia]. by destruct (last l).
Qed.

Lemma convert_secrets_spec l :
  convert_secrets l =
  replicate (length l)
    (mkResource Secret None (esr_Name <$> last l) None None (Some TlsCertificate)).
Proof. unfold convert_secrets. rewrite secrets_loop_spec. by destruct (last l). Qed.

Lemma Resources_json inn ser :
  ser ≠ YAML →
  Resources inn ser =
  inr ((raw_resource Endpoint <$> Endpoints inn) ++ (raw_resource Cluster <$> Clusters inn)
       ++ (raw_resource Route <$> Routes inn)
       ++ (raw_resource ScopedRoute <$> ScopedRoutes inn)
       ++ (raw_resource Listener <$> Listeners inn)
       ++ (raw_resource Runtime <$> Runtimes inn)
       ++ (raw_resource ExtensionConfig <$> ExtensionConfigs inn)
       ++ convert_secrets (Secrets inn)).
Proof.
  intros Hser. unfold Resources.
  rewrite !(convert_loop_json _ _ _ _ Hser). simpl. by rewrite <- !app_assoc.
Qed.
End ConversionSpec.

(** ** Theorems *)

(** Codecs under which every text decodes, for the witnesses. *)
Definition identity_codecs : Codecs := {|
  protojson_Unmarshal s m := inr (Decoded (message_kind m) s);
  protojson_Marshal m := match m with Decoded _ s => inr s | _ => inr "" end;
  json_Marshal_RawMessage s := inr s;
  base64_DecodeString s := inr s;
  ghodss_YAMLToJSON s := inr s;
  sigs_YAMLToJSON s := inr s;
|}.

(** C26: the webhook accepts an EnvoyConfig that uses [spec.resources] exactly
    when [spec.envoyResources] is not set and every resource is well formed:
    the fields its type requires are set, those it excludes are not, and its
    value decodes as a message of its type. *)
Theorem webhook_accepts_iff {C : Codecs} (r old : EnvoyConfig) (l : list Resource) :
  ecs_Resources (ec_Spec r) = Some l →
  (ValidateCreate r = Ok tt ↔ ecs_EnvoyResources (ec_Spec r) = None ∧ Forall resource_ok l) ∧
  ValidateUpdate r old = ValidateCreate r.
Proof.
  intros Hl. split; [|done]. unfold ValidateCreate, EnvoyConfig_Validate. rewrite Hl.
  destruct (ecs_EnvoyResources (ec_Spec r)); [naive_solver|].
  rewrite ValidateResources_ok_iff, Hl. simpl. naive_solver.
Qed.

Definition example_config : EnvoyConfig :=
  mkEnvoyConfig (mkMeta "config" "ns" ∅ "" 0%Z None [])
    (mkEnvoyConfigSpec "node" None None None
       (Some [mkResource Cluster (Some "{}") None None None None;
              mkResource Secret None (Some "tls") None None None]))
    (mkEnvoyConfigStatus None None None None None).

Lemma webhook_accepts_iff_witness :
  let _ := identity_codecs in
  ValidateCreate example_config = Ok tt.
Proof.
  intros C.
  apply (proj1 (webhook_accepts_iff (C := C) example_config example_config
           [mkResource Cluster (Some "{}") None None None None;
            mkResource Secret None (Some "tls") None None None] eq_refl)).
  split; [reflexivity|]. apply Forall_cons; split; [|apply Forall_singleton].
  - do 3 (split; [reflexivity|]). exists "{}". split; [reflexivity|]. eexists. reflexivity.
  - split; [left; eexists; reflexivity|]. split; reflexivity.
Defined.

(** The conversion of [spec.envoyResources] (JSON) keeps the resources of
    the seven other lists in order, each with its own value, but gives every
    secret the name of the last secret of the list. *)
Theorem Resources_secret_names {C : Codecs} (inn : EnvoyResources) (ser : Serialization) :
  ser ≠ YAML →
  ∃ others,
    Resources inn ser = inr (others ++
      replicate (length (Secrets inn))
        (mkResource Secret None (esr_Name <$> last (Secrets inn)) None None
                    (Some TlsCertificate))) ∧
    r_Value <$> others =
      Some <$> (er_Value <$> Endpoints inn ++ Clusters inn ++ Routes inn ++ ScopedRoutes inn
                             ++ Listeners inn ++ Runtimes inn ++ ExtensionConfigs inn).
Proof.
  intros Hser. rewrite (Resources_json inn ser Hser), convert_secrets_spec.
  eexists. rewrite !app_assoc. split; [reflexivity|].
  rewrite !fmap_app, <- !list_fmap_compose. done.
Qed.

Definition two_secrets : EnvoyResources :=
  mkEnvoyResources [] [] [] [] [] []
    [mkEnvoySecretResource "first" None; mkEnvoySecretResource "second" None] [].

Lemma Resources_secret_names_witness :
  let _ := identity_codecs in
  ∃ l, Resources two_secrets JSON = inr l ∧
       r_GenerateFromTlsSecret <$> l = [Some "second"; Some "second"].
Proof.
  intros C. destruct (Resources_secret_names (C := C) two_secrets JSON)
    as (others & H & Hv); [discriminate|].
  eexists. split; [exact H|]. destruct others; [reflexivity|discriminate Hv].
Defined.
