(* ===== verification/GoSort.v ===== *)
(** * [sort.SliceStable]

    The stable sort of the Go standard library.  [SliceStable less l] is the
    insertion sort it runs on a slice (the standard library runs it on blocks
    of 20 elements and merges the blocks): element [i] is swapped to the left
    while [less] holds of it and its left neighbour.

    [SliceStable_unique] shows that for a strict weak order this is the only
    result a stable sort can give, so the block size and the merging do not
    matter; [SliceStable_ext] that only pairs of different elements are ever
    compared. *)

From S2P Require Import Prelude.

(** The sorted prefix is kept last element first. *)
Fixpoint insert_back {A} (less : A → A → bool) (x : A) (racc : list A) : list A :=
  match racc with
  | [] => [x]
  | y :: r => if less x y then y :: insert_back less x r else x :: racc
  end.

Definition sort_rev {A} (less : A → A → bool) (l racc : list A) : list A :=
  fold_left (λ racc x, insert_back less x racc) l racc.

Definition SliceStable {A} (less : A → A → bool) (l : list A) : list A :=
  rev (sort_rev less l []).

Section Perm.
Context {A : Type} (less : A → A → bool).

Lemma insert_back_perm x racc : insert_back less x racc ≡ₚ x :: racc.
Proof.
  induction racc as [|y r IH]; simpl; [done|].
  case_match; [|done]. rewrite IH. constructor.
Qed.

Lemma sort_rev_perm l racc : sort_rev less l racc ≡ₚ l ++ racc.
Proof.
  revert racc. induction l as [|x l IH]; intros racc; simpl; [done|].
  unfold sort_rev in *. simpl. rewrite IH, insert_back_perm. solve_Permutation.
Qed.

Lemma SliceStable_perm l : SliceStable less l ≡ₚ l.
Proof.
  unfold SliceStable. rewrite <- Permutation_rev, sort_rev_perm. by rewrite app_nil_r.
Qed.
End Perm.

(** Two comparison functions that agree on every pair of different positions
    sort alike. *)
Lemma insert_back_ext {A} (f g : A → A → bool) x racc :
  (∀ y, y ∈ racc → f x y = g x y) → insert_back f x racc = insert_back g x racc.
Proof.
  induction racc as [|y r IH]; intros H; simpl; [done|].
  rewrite (H y) by left. case_match; [|done]. f_equal. apply IH. intros. apply H. by right.
Qed.

Lemma sort_rev_ext {A} (f g : A → A → bool) l racc :
  (∀ l1 x l2 y, l = l1 ++ x :: l2 → y ∈ l1 ++ racc → f x y = g x y) →
  sort_rev f l racc = sort_rev g l racc.
Proof.
  revert racc. induction l as [|x l IH]; intros racc H; [done|].
  unfold sort_rev in *. simpl.
  rewrite (insert_back_ext f g) by (intros y Hy; by apply (H [] x l)).
  apply IH. intros l1 z l2 y -> Hy. apply (H (x :: l1) z l2); [done|].
  rewrite insert_back_perm in Hy. set_solver.
Qed.

Lemma SliceStable_ext {A} (f g : A → A → bool) l :
  (∀ l1 x l2 y, l = l1 ++ x :: l2 → y ∈ l1 → f x y = g x y) →
  SliceStable f l = SliceStable g l.
Proof.
  intros H. unfold SliceStable. f_equal. apply sort_rev_ext.
  intros l1 x l2 y Hl. rewrite app_nil_r. eauto.
Qed.

Section WeakOrder.
Context {A : Type} (less : A → A → bool).
Context (less_asym : ∀ x y, less x y = true → less y x = false).
Context (less_ntrans : ∀ x y z, less x y = false → less y z = false → less x z = false).

Definition eqv (x y : A) : bool := negb (less x y) && negb (less y x).
Definition not_above (x y : A) : Prop := less y x = false.

Lemma less_irrefl x : less x x = false.
Proof. destruct (less x x) eqn:E; [|done]. apply less_asym in E as E'. congruence. Qed.

Lemma eqv_true x y : eqv x y = true ↔ less x y = false ∧ less y x = false.
Proof. unfold eqv. rewrite andb_true_iff, !negb_true_iff. done. Qed.

Lemma eqv_refl x : eqv x x = true.
Proof. apply eqv_true. by rewrite less_irrefl. Qed.

Lemma eqv_sym x y : eqv x y = eqv y x.
Proof. unfold eqv. apply andb_comm. Qed.

(** [less x y] separates [y] from everything equivalent to [x]. *)
Lemma eqv_less a x y : eqv a x = true → less x y = true → eqv a y = false.
Proof.
  rewrite eqv_true. intros [H1 H2] Hl. destruct (eqv a y) eqn:E; [|done].
  apply eqv_true in E as [E1 E2].
  pose proof (less_ntrans _ _ _ H2 E1). congruence.
Qed.

Definition desc (l : list A) : Prop := StronglySorted (λ x y, not_above y x) l.

Lemma insert_back_sorted x racc : desc racc → desc (insert_back less x racc).
Proof.
  induction 1 as [|y r Hr IH Hy]; simpl; [repeat constructor|].
  destruct (less x y) eqn:E.
  - constructor; [done|]. apply Forall_forall. intros z Hz.
    rewrite insert_back_perm in Hz. apply elem_of_cons in Hz as [->|Hz].
    + by apply less_asym.
    + rewrite Forall_forall in Hy. by apply Hy.
  - constructor; [by constructor|]. constructor; [done|].
    eapply Forall_impl; [done|]. intros z Hz. unfold not_above in *. eauto.
Qed.

Lemma sort_rev_sorted l racc : desc racc → desc (sort_rev less l racc).
Proof.
  revert racc. induction l as [|x l IH]; intros racc H; [done|].
  unfold sort_rev in *. simpl. by apply IH, insert_back_sorted.
Qed.

Lemma sorted_snoc {R : A → A → Prop} l x :
  StronglySorted R l → Forall (λ y, R y x) l → StronglySorted R (l ++ [x]).
Proof.
  induction 1 as [|y l Hl IH Hy]; simpl; [repeat constructor|].
  inversion 1; subst. constructor; [by apply IH|]. apply Forall_app. by repeat constructor.
Qed.

Lemma sorted_rev {R : A → A → Prop} l :
  StronglySorted (λ x y, R y x) l → StronglySorted R (rev l).
Proof.
  induction 1 as [|x l Hl IH Hx]; simpl; [constructor|].
  apply sorted_snoc; [done|]. by rewrite <- Permutation_rev.
Qed.

(** The result is in order. *)
Lemma SliceStable_sorted l : StronglySorted not_above (SliceStable less l).
Proof. apply sorted_rev, sort_rev_sorted. constructor. Qed.

Definition class (a : A) (l : list A) : list A := List.filter (eqv a) l.

Lemma insert_back_class a x racc :
  class a (insert_back less x racc) = if eqv a x then x :: class a racc else class a racc.
Proof.
  unfold class. induction racc as [|y r IH]; simpl.
  - by case_match.
  - destruct (less x y) eqn:E; simpl.
    + rewrite IH. destruct (eqv a x) eqn:Ea; [|done].
      by rewrite (eqv_less a x y).
    + by destruct (eqv a x).
Qed.

Lemma sort_rev_class a l racc :
  class a (sort_rev less l racc) = rev (class a l) ++ class a racc.
Proof.
  revert racc. induction l as [|x l IH]; intros racc; [done|].
  unfold sort_rev in *. simpl. rewrite IH, insert_back_class.
  unfold class. simpl. case_match; [|done]. simpl. by rewrite <- app_assoc.
Qed.

(** Equivalent elements keep their order. *)
Lemma SliceStable_stable a l : class a (SliceStable less l) = class a l.
Proof.
  unfold SliceStable, class. rewrite List.filter_rev.
  pose proof (sort_rev_class a l []) as H. unfold class in H. rewrite H.
  simpl. by rewrite app_nil_r, rev_involutive.
Qed.

Lemma sorted_unique l1 l2 :
  l1 ≡ₚ l2 → StronglySorted not_above l1 → StronglySorted not_above l2 →
  (∀ a, class a l1 = class a l2) → l1 = l2.
Proof.
  revert l2. induction l1 as [|x t1 IH]; intros [|y t2] Hp H1 H2 Hc; [done| | |].
  - by apply Permutation_nil_cons in Hp.
  - by symmetry in Hp; apply Permutation_nil_cons in Hp.
  - inversion H1 as [|?? H1' Hx]; inversion H2 as [|?? H2' Hy]; subst.
    assert (less y x = false).
    { assert (y ∈ x :: t1) as [->|Hin]%elem_of_cons by (rewrite Hp; left).
      - apply less_irrefl.
      - rewrite Forall_forall in Hx. by apply Hx. }
    assert (less x y = false).
    { assert (x ∈ y :: t2) as [->|Hin]%elem_of_cons by (rewrite <- Hp; left).
      - apply less_irrefl.
      - rewrite Forall_forall in Hy. by apply Hy. }
    pose proof (Hc x) as Hcx. unfold class in Hcx. simpl in Hcx.
    rewrite eqv_refl, (proj2 (eqv_true x y)) in Hcx by done.
    injection Hcx as -> _. f_equal. apply IH; [by apply Permutation_cons_inv in Hp|done..|].
    intros a. specialize (Hc a). unfold class in *. simpl in Hc. case_match; congruence.
Qed.

(** Any stable sorting algorithm returns what [SliceStable] returns. *)
Lemma SliceStable_unique l l' :
  l' ≡ₚ l → StronglySorted not_above l' → (∀ a, class a l' = class a l) →
  l' = SliceStable less l.
Proof.
  intros Hp Hs Hc. apply sorted_unique; [|done|apply SliceStable_sorted|].
  - by rewrite Hp, SliceStable_perm.
  - intros a. by rewrite Hc, SliceStable_stable.
Qed.
End WeakOrder.
