(* ===== verification/Cluster.v ===== *)
(** * The Kubernetes API, as the controllers use it

    The API server is code outside the repository.  [RevisionClient W] is the
    part of [client.Client] the EnvoyConfig and EnvoyConfigRevision
    controllers call on EnvoyConfigRevisions, over a type [W] of cluster
    states.  [RevisionClientLaws] states the documented behaviour of those
    calls: [List] returns the stored objects that match, in any order; [Create]
    stores a new object and drops the status (the status is a subresource);
    [Status().Update] changes the status only; [Delete] removes an object, or
    marks it as terminating when it has finalizers; any call can fail, and
    then the stored objects stay as they were.

    [memory_client] is an API server that keeps its objects in a map; it meets
    the laws and the witnesses run on it. *)

From S2P Require Import Prelude Meta Envoy Api.

(** ** Objects *)

Definition ecr_key (e : EnvoyConfigRevision) : NamespacedName :=
  mkKey (om_Namespace (ecr_Meta e)) (om_Name (ecr_Meta e)).

Definition ecr_Labels (e : EnvoyConfigRevision) : gmap string string :=
  om_Labels (ecr_Meta e).

(** [client.MatchingLabels]: every label of the selector is on the object. *)
Definition MatchingLabels (sel labels : gmap string string) : Prop := sel ⊆ labels.

Definition matching (ns : string) (sel : gmap string string) (e : EnvoyConfigRevision)
    : Prop :=
  om_Namespace (ecr_Meta e) = ns ∧ MatchingLabels sel (ecr_Labels e).
#[global] Instance matching_dec ns sel e : Decision (matching ns sel e).
Proof. unfold matching, MatchingLabels. apply _. Defined.

Definition emptyECRStatus : EnvoyConfigRevisionStatus :=
  mkEnvoyConfigRevisionStatus None None None None [].

Definition set_ecr_meta (e : EnvoyConfigRevision) (m : ObjectMeta) : EnvoyConfigRevision :=
  mkEnvoyConfigRevision (ecr_APIVersion e) (ecr_Kind e) m (ecr_Spec e) (ecr_Status e).

Definition set_deletion (e : EnvoyConfigRevision) (t : Time) : EnvoyConfigRevision :=
  let m := ecr_Meta e in
  set_ecr_meta e
    (mkMeta (om_Name m) (om_Namespace m) (om_Labels m) (om_UID m)
       (om_CreationTimestamp m) (Some t) (om_Finalizers m)).

(** ** The interface *)

Class RevisionClient (W : Type) := {
  List_revisions : W → string → gmap string string → error + list EnvoyConfigRevision;
  Create_revision : W → EnvoyConfigRevision → option error * W;
  Status_Update : W → EnvoyConfigRevision → option error * W;
  Delete_revision : W → EnvoyConfigRevision → option error * W;
}.

(** What [Create] stores: the object as sent, with the metadata the server
    fills in and no status. *)
Definition created (e e' : EnvoyConfigRevision) : Prop :=
  ecr_key e' = ecr_key e ∧ ecr_Labels e' = ecr_Labels e ∧ ecr_Spec e' = ecr_Spec e ∧
  ecr_Status e' = emptyECRStatus ∧ om_DeletionTimestamp (ecr_Meta e') = None ∧
  om_Finalizers (ecr_Meta e') = om_Finalizers (ecr_Meta e).

Class RevisionClientLaws {W} (K : RevisionClient W) := {
  objs : W → gmap NamespacedName EnvoyConfigRevision;
  objs_key w k e : objs w !! k = Some e → ecr_key e = k;
  list_ok w ns sel l :
    List_revisions w ns sel = inr l →
    l ≡ₚ List.filter (λ e, bool_decide (matching ns sel e)) (snd <$> map_to_list (objs w));
  list_err w ns sel err :
    List_revisions w ns sel = inl err → ∀ r m s, err ≠ RevisionError r m s;
  create_ok w e w' :
    Create_revision w e = (None, w') →
    objs w !! ecr_key e = None ∧
    ∃ e', created e e' ∧ objs w' = <[ecr_key e := e']> (objs w);
  create_err w e err w' : Create_revision w e = (Some err, w') → objs w' = objs w;
  status_update_ok w e w' :
    Status_Update w e = (None, w') →
    ∃ old, objs w !! ecr_key e = Some old ∧
           objs w' = <[ecr_key e := set_ecr_status old (ecr_Status e)]> (objs w);
  status_update_err w e err w' : Status_Update w e = (Some err, w') → objs w' = objs w;
  delete_ok w e w' :
    Delete_revision w e = (None, w') →
    ∃ old, objs w !! ecr_key e = Some old ∧
      ((om_Finalizers (ecr_Meta old) = [] ∧ objs w' = delete (ecr_key e) (objs w)) ∨
       (om_Finalizers (ecr_Meta old) ≠ [] ∧
        ∃ t, objs w' = <[ecr_key e := set_deletion old t]> (objs w)));
  delete_err w e err w' : Delete_revision w e = (Some err, w') → objs w' = objs w;
}.

(** [controllerutil.SetControllerReference] adds an owner reference to the
    object (which the model does not keep), or refuses. *)
Class OwnerReferences := {
  SetControllerReference : EnvoyConfig → EnvoyConfigRevision → error + EnvoyConfigRevision;
}.

Class OwnerReferencesLaws (O : OwnerReferences) : Prop := {
  set_reference_ok ec e e' :
    SetControllerReference ec e = inr e' →
    ecr_key e' = ecr_key e ∧ ecr_Labels e' = ecr_Labels e ∧ ecr_Spec e' = ecr_Spec e ∧
    om_Finalizers (ecr_Meta e') = om_Finalizers (ecr_Meta e);
}.

Definition owner_impl : OwnerReferences := {| SetControllerReference ec e := inr e |}.
#[global] Instance owner_impl_laws : OwnerReferencesLaws owner_impl.
Proof. split. by intros ec e e' [= ->]. Qed.

(** A loop that calls the API for each object and returns at the first error. *)
Fixpoint each_until_error {W} (f : W → EnvoyConfigRevision → option error * W) (w : W)
    (l : list EnvoyConfigRevision) : option error * W :=
  match l with
  | [] => (None, w)
  | e :: l =>
     match f w e with
     | (Some err, w') => (Some err, w')
     | (None, w') => each_until_error f w' l
     end
  end.

(** ** An API server in memory *)

Record Memory := mkMemory {
  mem_objs : gmap NamespacedName EnvoyConfigRevision;
  mem_now : Time;
}.

Definition NotFound (k : NamespacedName) : error :=
  StatusError StatusReasonNotFound (nn_Name k).

(** Objects are stored under their own key. *)
Definition mem_stored (m : Memory) : gmap NamespacedName EnvoyConfigRevision :=
  filter (λ '(k, e), ecr_key e = k) (mem_objs m).

Definition mem_create (m : Memory) (e : EnvoyConfigRevision) : option error * Memory :=
  match mem_stored m !! ecr_key e with
  | Some _ => (Some (StatusError (StatusReasonOther "AlreadyExists") (nn_Name (ecr_key e))), m)
  | None =>
     let o := ecr_Meta e in
     let e' := mkEnvoyConfigRevision (ecr_APIVersion e) (ecr_Kind e)
                 (mkMeta (om_Name o) (om_Namespace o) (om_Labels o) (om_UID o)
                    (mem_now m) None (om_Finalizers o))
                 (ecr_Spec e) emptyECRStatus in
     (None, mkMemory (<[ecr_key e := e']> (mem_objs m)) (mem_now m + Second)%Z)
  end.

Definition mem_status_update (m : Memory) (e : EnvoyConfigRevision) : option error * Memory :=
  match mem_stored m !! ecr_key e with
  | None => (Some (NotFound (ecr_key e)), m)
  | Some old =>
     (None, mkMemory (<[ecr_key e := set_ecr_status old (ecr_Status e)]> (mem_objs m))
              (mem_now m + Second)%Z)
  end.

Definition mem_delete (m : Memory) (e : EnvoyConfigRevision) : option error * Memory :=
  match mem_stored m !! ecr_key e with
  | None => (Some (NotFound (ecr_key e)), m)
  | Some old =>
     match om_Finalizers (ecr_Meta old) with
     | [] => (None, mkMemory (delete (ecr_key e) (mem_objs m)) (mem_now m + Second)%Z)
     | _ => (None, mkMemory (<[ecr_key e := set_deletion old (mem_now m)]> (mem_objs m))
                     (mem_now m + Second)%Z)
     end
  end.

Definition memory_client : RevisionClient Memory := {|
  List_revisions m ns sel :=
    inr (List.filter (λ e, bool_decide (matching ns sel e))
           (snd <$> map_to_list (mem_stored m)));
  Create_revision := mem_create;
  Status_Update := mem_status_update;
  Delete_revision := mem_delete;
|}.

Lemma mem_stored_insert m k e now :
  ecr_key e = k → mem_stored (mkMemory (<[k := e]> (mem_objs m)) now) = <[k := e]> (mem_stored m).
Proof. intros ?. unfold mem_stored; simpl. by rewrite map_filter_insert_True. Qed.

Lemma mem_stored_key m k e : mem_stored m !! k = Some e → ecr_key e = k.
Proof. unfold mem_stored. by rewrite map_lookup_filter_Some; intros [_ ?]. Qed.

#[global] Instance memory_client_laws : RevisionClientLaws memory_client.
Proof.
  refine {| objs := mem_stored |}; simpl.
  - apply mem_stored_key.
  - intros w ns sel l [= <-]. done.
  - done.
  - intros w e w'. unfold mem_create. destruct (mem_stored w !! ecr_key e) eqn:E; [done|].
    intros [= <-]. split; [done|].
    eexists. split; [|by apply mem_stored_insert]. by repeat split.
  - intros w e err w'. unfold mem_create. case_match; naive_solver.
  - intros w e w'. unfold mem_status_update.
    destruct (mem_stored w !! ecr_key e) as [old|] eqn:E; [|done].
    intros [= <-]. exists old. split; [done|]. apply mem_stored_insert.
    by apply mem_stored_key in E.
  - intros w e err w'. unfold mem_status_update. case_match; naive_solver.
  - intros w e w'. unfold mem_delete.
    destruct (mem_stored w !! ecr_key e) as [old|] eqn:E; [|done].
    destruct (om_Finalizers (ecr_Meta old)) eqn:F; intros [= <-]; exists old; (split; [done|]).
    + left. split; [done|]. unfold mem_stored; simpl. by rewrite map_filter_delete.
    + right. split; [congruence|]. eexists. apply mem_stored_insert.
      by apply mem_stored_key in E.
  - intros w e err w'. unfold mem_delete. repeat case_match; naive_solver.
Defined.

(** ** Facts every client meets *)

Section Facts.
Context {W : Type} {K : RevisionClient W} {L : RevisionClientLaws K}.

Lemma list_elem w ns sel l e :
  List_revisions w ns sel = inr l →
  e ∈ l ↔ objs w !! ecr_key e = Some e ∧ matching ns sel e.
Proof.
  intros Hl. rewrite (list_ok _ _ _ _ Hl).
  rewrite !list_elem_of_In, filter_In, bool_decide_eq_true, <- list_elem_of_In.
  rewrite list_elem_of_fmap. split.
  - intros [([k e'] & -> & Hin) Hm]. simpl in *. apply elem_of_map_to_list in Hin.
    by rewrite (objs_key _ _ _ Hin).
  - intros [Ho Hm]. split; [|done]. exists (ecr_key e, e). split; [done|].
    by apply elem_of_map_to_list.
Qed.

(** No object is listed twice, and no two listed objects share a key. *)
Lemma list_keys_NoDup w ns sel l :
  List_revisions w ns sel = inr l → NoDup (ecr_key <$> l).
Proof.
  intros Hl. rewrite (list_ok _ _ _ _ Hl).
  apply (sublist_NoDup _ ((map_to_list (objs w)).*1)); [apply NoDup_fst_map_to_list|].
  assert (∀ k e, (k, e) ∈ map_to_list (objs w) → ecr_key e = k) as Hk.
  { intros k e H. apply elem_of_map_to_list in H. by eapply objs_key. }
  revert Hk. generalize (map_to_list (objs w)). intros m Hk.
  induction m as [|[k e] m IH]; simpl; [constructor|].
  assert (ecr_key e = k) as <- by (apply Hk; left).
  case_bool_decide; simpl; [apply sublist_skip|apply sublist_cons];
    apply IH; intros ?? Hin; apply Hk; by right.
Qed.

(** What a call did to the object it was made for. *)
Definition status_updated (e : EnvoyConfigRevision) (o o' : option EnvoyConfigRevision)
    : Prop :=
  ∃ old, o = Some old ∧ o' = Some (set_ecr_status old (ecr_Status e)).

Definition deleted (e : EnvoyConfigRevision) (o o' : option EnvoyConfigRevision) : Prop :=
  ∃ old, o = Some old ∧
    (om_Finalizers (ecr_Meta old) = [] ∧ o' = None ∨
     om_Finalizers (ecr_Meta old) ≠ [] ∧ ∃ t, o' = Some (set_deletion old t)).

(** [f] changes the object it is called for as [R] says, and no other. *)
Definition acts_on (f : W → EnvoyConfigRevision → option error * W)
    (R : EnvoyConfigRevision → option EnvoyConfigRevision →
         option EnvoyConfigRevision → Prop) : Prop :=
  ∀ w e w', f w e = (None, w') →
    R e (objs w !! ecr_key e) (objs w' !! ecr_key e) ∧
    ∀ k, k ≠ ecr_key e → objs w' !! k = objs w !! k.

Lemma status_update_acts : acts_on Status_Update status_updated.
Proof.
  intros w e w' H. apply status_update_ok in H as (old & Ho & ->). split.
  - exists old. by rewrite lookup_insert_eq.
  - intros k ?. by rewrite lookup_insert_ne.
Qed.

Lemma delete_acts : acts_on Delete_revision deleted.
Proof.
  intros w e w' H. apply delete_ok in H as (old & Ho & H). split.
  - exists old. split; [done|]. destruct H as [[? ->]|[? [t ->]]]; [left|right].
    + by rewrite lookup_delete_eq.
    + split; [done|]. exists t. by rewrite lookup_insert_eq.
  - intros k ?. destruct H as [[? ->]|[? [t ->]]].
    + by rewrite lookup_delete_ne.
    + by rewrite lookup_insert_ne.
Qed.

Lemma each_acts f R w l w' :
  acts_on f R → NoDup (ecr_key <$> l) → each_until_error f w l = (None, w') →
  (∀ e, e ∈ l → R e (objs w !! ecr_key e) (objs w' !! ecr_key e)) ∧
  (∀ k, k ∉ (ecr_key <$> l) → objs w' !! k = objs w !! k).
Proof.
  intros Hf. revert w. induction l as [|e l IH]; intros w Hnd H; simpl in *.
  - injection H as <-. split; [set_solver|done].
  - apply NoDup_cons in Hnd as [Hn Hnd].
    destruct (f w e) as [[err|] w1] eqn:E; [done|].
    destruct (Hf _ _ _ E) as [He Hne]. destruct (IH _ Hnd H) as [IH1 IH2]. split.
    + intros x [->|Hx]%elem_of_cons; [by rewrite IH2|].
      rewrite <- (Hne (ecr_key x)); [by apply IH1|].
      intros E'. apply Hn. rewrite <- E'. by apply list_elem_of_fmap_2.
    + intros k [Hk Hk']%not_elem_of_cons. rewrite IH2 by done. by apply Hne.
Qed.

(** A property of the stored objects that each call preserves survives the
    loop, whether it ends with an error or not. *)
Lemma each_preserves (P : W → Prop) f w l r w' :
  (∀ w e r w', e ∈ l → f w e = (r, w') → P w → P w') →
  each_until_error f w l = (r, w') → P w → P w'.
Proof.
  revert w. induction l as [|e l IH]; intros w Hf H HP; simpl in *.
  - by injection H as _ <-.
  - destruct (f w e) as [[err|] w1] eqn:E.
    + injection H as _ <-. eapply Hf; [left|done..].
    + eapply IH; [|done|eapply Hf; [left|done..]]. intros. eapply Hf; [by right|done..].
Qed.
End Facts.
