(* ===== verification/Revisions.v ===== *)
(** * Packages [filters] and [revisions]
    ([pkg/reconcilers/marin3r/envoyconfig/{filters,revisions}])

    Label filters, the typed errors, [List] and [Get] of EnvoyConfigRevisions,
    and [SortByPublication].  [SortByPublication_spec] gives the sort its
    reference definition: for a list where no two revisions have the same
    version it is the one stable sort by (is the desired version, publication
    time), although the comparison function of the source is not an order. *)

From S2P Require Import Prelude Meta Envoy Api GoSort Cluster.

(** ** [filters] *)

Definition NodeIDTag : string := "marin3r.3scale.net/node-id".
Definition VersionTag : string := "marin3r.3scale.net/config-version".
Definition EnvoyAPITag : string := "marin3r.3scale.net/envoy-api".

(** The implementations of the interface [RevisionFilter]. *)
Inductive RevisionFilter :=
  | VersionFilter (Value : string)
  | NodeIDFilter (Value : string)
  | EnvoyAPIFilter (Value : string).

(** The selector is a map, which the method changes. *)
Definition ApplyToLabelSelector (f : RevisionFilter) (selector : gmap string string)
    : gmap string string :=
  match f with
  | VersionFilter v => <[VersionTag := v]> selector
  | NodeIDFilter v => <[NodeIDTag := v]> selector
  | EnvoyAPIFilter v => <[EnvoyAPITag := v]> selector
  end.

Definition ByVersion (version : string) : RevisionFilter := VersionFilter version.
Definition ByNodeID (nodeID : string) : RevisionFilter := NodeIDFilter nodeID.
Definition ByEnvoyAPI (envoyAPI : APIVersion) : RevisionFilter :=
  EnvoyAPIFilter (APIVersion_String envoyAPI).

(** The first loop of [List] and [Get]. *)
Definition labelSelector (filters : list RevisionFilter) : gmap string string :=
  fold_left (λ sel f, ApplyToLabelSelector f sel) filters ∅.

(** ** [errors.go] *)

Definition UnknownError : string := "Unknown".
Definition MultipleMatchesForFilterError : string := "MultipleMatchesForFilter".
Definition NoMatchesForFilterError : string := "NoMatchesForFilter".

Definition NewError (t method msg : string) : error := RevisionError t method msg.

Definition ReasonForError (err : error) : string :=
  match err with RevisionError r _ _ => r | _ => UnknownError end.

Definition ErrorIsNoMatchesForFilter (err : error) : bool :=
  bool_decide (ReasonForError err = NoMatchesForFilterError).

Definition ErrorIsMultipleMatchesForFilter (err : error) : bool :=
  bool_decide (ReasonForError err = MultipleMatchesForFilterError).

(** ** [crud.go] *)

Section Crud.
Context {W : Type} {K : RevisionClient W}.

Definition List_ (w : W) (namespace : string) (filters : list RevisionFilter)
    : error + list EnvoyConfigRevision :=
  match List_revisions w namespace (labelSelector filters) with
  | inl err => inl err
  | inr items =>
     if decide (length items = 0) then
       inl (NewError NoMatchesForFilterError "ListRevisions"
              ("api returned " +:+ Itoa (Z.of_nat (length items)) +:+ " EnvoyConfigRevisions"))
     else inr items
  end.

Definition Get (w : W) (namespace : string) (filters : list RevisionFilter)
    : error + EnvoyConfigRevision :=
  match List_revisions w namespace (labelSelector filters) with
  | inl err => inl err
  | inr items =>
     match items with
     | [] => inl (NewError NoMatchesForFilterError "GetRevision"
                    "no EnvoyConfigRevisions found")
     | [e] => inr e
     | _ => inl (NewError MultipleMatchesForFilterError "GetRevision"
                   ("api returned " +:+ Itoa (Z.of_nat (length items)) +:+ " EnvoyConfigRevisions"))
     end
  end.
End Crud.

(** ** [sort.go] *)

(** [iTime] and [jTime] of the comparison. *)
Definition publication_time (e : EnvoyConfigRevision) : Time :=
  match ecrst_LastPublishedAt (ecr_Status e) with
  | Some t => if IsZero (Some t) then om_CreationTimestamp (ecr_Meta e) else t
  | None => om_CreationTimestamp (ecr_Meta e)
  end.

(** The function passed to [sort.SliceStable], for the items at [i] and [j]. *)
Definition publication_less (desiredVersion : string) (i j : EnvoyConfigRevision) : bool :=
  if decide (ecr_Version j = desiredVersion) then true
  else if decide (ecr_Version i = desiredVersion) then false
  else (publication_time i <? publication_time j)%Z.

Definition SortByPublication (desiredVersion : string) (ll : list EnvoyConfigRevision)
    : list EnvoyConfigRevision :=
  SliceStable (publication_less desiredVersion) ll.

(** ** What the sort does *)

(** The order the doc comment describes: the desired version above all others,
    the others by date. *)
Definition spec_less (d : string) (x y : EnvoyConfigRevision) : bool :=
  if decide (ecr_Version x = d) then false
  else if decide (ecr_Version y = d) then true
  else (publication_time x <? publication_time y)%Z.

Section Sort.
Implicit Types (d : string) (l : list EnvoyConfigRevision).

Lemma spec_less_asym d x y : spec_less d x y = true → spec_less d y x = false.
Proof.
  unfold spec_less. repeat case_decide; try done; rewrite Z.ltb_lt, Z.ltb_ge; lia.
Qed.

Lemma spec_less_ntrans d x y z :
  spec_less d x y = false → spec_less d y z = false → spec_less d x z = false.
Proof.
  unfold spec_less. repeat case_decide; try done; rewrite !Z.ltb_ge; lia.
Qed.

(** The two functions differ only on two revisions of the desired version. *)
Lemma publication_less_spec d x y :
  ecr_Version x ≠ ecr_Version y → publication_less d x y = spec_less d x y.
Proof. unfold publication_less, spec_less. intros. repeat case_decide; congruence. Qed.

Lemma SortByPublication_eq d l :
  NoDup (ecr_Version <$> l) → SortByPublication d l = SliceStable (spec_less d) l.
Proof.
  intros Hnd. apply SliceStable_ext. intros l1 x l2 y -> Hy.
  apply publication_less_spec. rewrite fmap_app, NoDup_app in Hnd.
  destruct Hnd as (_ & Hnd & _). intros E.
  apply (Hnd (ecr_Version y)); [by apply list_elem_of_fmap_2|].
  rewrite <- E. simpl. left.
Qed.

Lemma SortByPublication_perm d l : SortByPublication d l ≡ₚ l.
Proof. apply SliceStable_perm. Qed.

Lemma SortByPublication_sorted d l :
  NoDup (ecr_Version <$> l) →
  StronglySorted (λ x y, spec_less d y x = false) (SortByPublication d l).
Proof.
  intros. rewrite SortByPublication_eq by done.
  apply SliceStable_sorted; [apply spec_less_asym|apply spec_less_ntrans].
Qed.

(** The desired revision, when there is one, is the last of the list. *)
Lemma SortByPublication_last d l e :
  NoDup (ecr_Version <$> l) → e ∈ l → ecr_Version e = d →
  last (SortByPublication d l) = Some e.
Proof.
  intros Hnd He Hd. pose proof (SortByPublication_sorted d l Hnd) as Hs.
  assert (e ∈ SortByPublication d l) as He' by by rewrite SortByPublication_perm.
  assert (NoDup (ecr_Version <$> SortByPublication d l)) as Hnd'
    by by rewrite SortByPublication_perm.
  apply list_elem_of_split in He' as (l1 & l2 & E). rewrite E in *.
  destruct l2 as [|x l2]; [by rewrite last_snoc|]. exfalso.
  assert (spec_less d x e = false) as Hx.
  { apply StronglySorted_app in Hs as (_ & _ & Hs). inversion Hs as [|?? _ Hf]; subst.
    by inversion Hf. }
  unfold spec_less in Hx. rewrite (decide_True _ _ Hd) in Hx.
  case_decide as Hxd; [|done].
  rewrite fmap_app in Hnd'. apply NoDup_app in Hnd' as (_ & _ & Hnd'). simpl in Hnd'.
  apply NoDup_cons in Hnd' as [Hn _]. apply Hn. rewrite Hd, <- Hxd. left.
Qed.
End Sort.

(** ** What [Get] and [List] do *)

Section CrudSpec.
Context {W : Type} {K : RevisionClient W} {L : RevisionClientLaws K}.

Lemma Get_ok w ns fs e :
  Get w ns fs = inr e →
  objs w !! ecr_key e = Some e ∧ matching ns (labelSelector fs) e ∧
  ∀ e', objs w !! ecr_key e' = Some e' → matching ns (labelSelector fs) e' → e' = e.
Proof.
  unfold Get. destruct (List_revisions _ _ _) as [|items] eqn:E; [done|].
  destruct items as [|x [|]]; simplify_eq/=; intros [= ->].
  assert (∀ e', objs w !! ecr_key e' = Some e' ∧ matching ns (labelSelector fs) e' ↔ e' ∈ [e])
    as H by (intros; by rewrite (list_elem _ _ _ _ e' E)).
  destruct (H e) as [_ He]. destruct He as [Ho Hm]; [left|].
  split; [done|]. split; [done|]. intros e' ??.
  by apply list_elem_of_singleton, H.
Qed.

(** The "no match" error of [Get] means that no object matches, provided the
    API does not itself return an error of that type. *)
Lemma Get_no_match w ns fs items err :
  List_revisions w ns (labelSelector fs) = inr items →
  Get w ns fs = inl err → ErrorIsNoMatchesForFilter err = true → items = [].
Proof.
  unfold Get. intros ->. destruct items as [|x [|]]; [done..|].
  by intros [= <-].
Qed.

Lemma Get_singleton w ns fs items e :
  List_revisions w ns (labelSelector fs) = inr items → (∀ x, x ∈ items ↔ x = e) →
  Get w ns fs = inr e.
Proof.
  intros Hl Hx. pose proof (list_keys_NoDup _ _ _ _ Hl) as Hnd.
  unfold Get. rewrite Hl. destruct items as [|x [|y items]].
  - exfalso. by apply (not_elem_of_nil e), Hx.
  - by rewrite (proj1 (Hx x)) by left.
  - exfalso. rewrite (proj1 (Hx x)), (proj1 (Hx y)) in Hnd by set_solver.
    simpl in Hnd. apply NoDup_cons in Hnd as [Hd _]. apply Hd. left.
Qed.

Lemma List_ok w ns fs l :
  List_ w ns fs = inr l → List_revisions w ns (labelSelector fs) = inr l ∧ l ≠ [].
Proof.
  unfold List_. destruct (List_revisions _ _ _) as [|items]; [done|].
  case_decide; [done|]. intros [= ->]. split; [done|]. by intros ->.
Qed.
End CrudSpec.

(** ** Theorem *)

(** C25: [SortByPublication] of revisions with pairwise different versions is
    the stable sort its comment describes: the desired version above all
    others, the others by publication or creation date.  Any list with the
    same items that is in that order and keeps the order of equal items is the
    result, so neither the sorting algorithm nor the fact that the comparison
    function is not an order matters. *)
Theorem SortByPublication_spec (d : string) (l : list EnvoyConfigRevision) :
  NoDup (ecr_Version <$> l) →
  SortByPublication d l ≡ₚ l ∧
  StronglySorted (λ x y, spec_less d y x = false) (SortByPublication d l) ∧
  (∀ e, e ∈ l → ecr_Version e = d → last (SortByPublication d l) = Some e) ∧
  ∀ l', l' ≡ₚ l → StronglySorted (λ x y, spec_less d y x = false) l' →
    (∀ a, class (spec_less d) a l' = class (spec_less d) a l) →
    l' = SortByPublication d l.
Proof.
  intros Hnd. split; [apply SortByPublication_perm|].
  split; [by apply SortByPublication_sorted|].
  split; [intros; by apply SortByPublication_last|]. intros l' Hp Hs Hc.
  rewrite SortByPublication_eq by done.
  apply SliceStable_unique; [apply spec_less_asym|apply spec_less_ntrans|done..].
Qed.

Definition example_revision (version : string) (created : Time) : EnvoyConfigRevision :=
  mkEnvoyConfigRevision "" "" (mkMeta version "ns" ∅ "" created None [])
    (mkEnvoyConfigRevisionSpec "node" version None None None None) emptyECRStatus.

Lemma SortByPublication_spec_witness :
  ecr_Version <$> SortByPublication "b"
    [example_revision "c" 3%Z; example_revision "b" 1%Z; example_revision "a" 2%Z]
  = ["a"; "c"; "b"] ∧
  last (SortByPublication "b"
    [example_revision "c" 3%Z; example_revision "b" 1%Z; example_revision "a" 2%Z])
  = Some (example_revision "b" 1%Z).
Proof.
  split; [reflexivity|].
  apply (SortByPublication_spec "b"
           [example_revision "c" 3%Z; example_revision "b" 1%Z; example_revision "a" 2%Z]).
  - apply (bool_decide_unpack _). vm_compute. exact I.
  - apply list_elem_of_In. right. left. reflexivity.
  - reflexivity.
Defined.
