(* ===== verification/RevisionReconciler.v ===== *)
(** * The revision reconciler of EnvoyConfig
    ([pkg/reconcilers/marin3r/envoyconfig/reconcile_revisions.go])

    [Reconcile] makes the EnvoyConfigRevisions of a node follow its
    EnvoyConfig: it creates the revision of the current resources, chooses the
    version to publish, moves the [RevisionPublished] condition to it and
    applies the retention policy.  The reconciler struct is the record
    [RevisionReconciler]; the methods that assign its fields return it. *)

From S2P Require Import Prelude Meta Envoy Api GoSort Cluster Revisions.

Definition maxRevisions : nat := 10.

(** The fields other than the context, logger, client and scheme. *)
Record RevisionReconciler := mkRevisionReconciler {
  rr_ec : EnvoyConfig;
  rr_desiredVersion : option string;
  rr_publishedVersion : option string;
  rr_cacheState : option string;
  rr_revisionList : option (list EnvoyConfigRevision);
}.

Definition NewRevisionReconciler (ec : EnvoyConfig) : RevisionReconciler :=
  mkRevisionReconciler ec None None None None.

Definition Instance_ (r : RevisionReconciler) : EnvoyConfig := rr_ec r.
Definition Namespace (r : RevisionReconciler) : string := om_Namespace (ec_Meta (Instance_ r)).
Definition NodeID (r : RevisionReconciler) : string := ecs_NodeID (ec_Spec (Instance_ r)).
Definition EnvoyAPI (r : RevisionReconciler) : APIVersion :=
  EnvoyConfig_GetEnvoyAPIVersion (Instance_ r).

Definition GetRevisionList (r : RevisionReconciler) : option (list EnvoyConfigRevision) :=
  rr_revisionList r.
Definition PublishedVersion (r : RevisionReconciler) : result string :=
  deref (rr_publishedVersion r).
Definition GetCacheState (r : RevisionReconciler) : result string := deref (rr_cacheState r).

(** [popRevision] in the loop of [isRevisionRetentionReconciled]: the items
    removed from the front, and the list left. *)
Fixpoint retention_loop (retention : nat) (toBeDeleted revisionList : list EnvoyConfigRevision)
    : list EnvoyConfigRevision * list EnvoyConfigRevision :=
  match revisionList with
  | item :: rest =>
     if decide (retention < length revisionList)
     then retention_loop retention (toBeDeleted ++ [item]) rest
     else (toBeDeleted, revisionList)
  | [] => (toBeDeleted, [])
  end.

Definition isRevisionRetentionReconciled (r : RevisionReconciler) (retention : nat)
    : result (list EnvoyConfigRevision * RevisionReconciler) :=
  items ← deref (GetRevisionList r);
  let '(toBeDeleted, remaining) := retention_loop retention [] items in
  Ok (toBeDeleted,
      mkRevisionReconciler (rr_ec r) (rr_desiredVersion r) (rr_publishedVersion r)
        (rr_cacheState r) (Some remaining)).

Section Reconciler.
Context {W : Type} {K : RevisionClient W} {M : MetaConditions} {O : OwnerReferences}.
Context (Hash : option (list Resource) → string).

Definition DesiredVersion (r : RevisionReconciler) : string * RevisionReconciler :=
  match rr_desiredVersion r with
  | Some v => (v, r)
  | None =>
     let v := GetEnvoyResourcesVersion Hash (Instance_ r) in
     (v, mkRevisionReconciler (rr_ec r) (Some v) (rr_publishedVersion r)
           (rr_cacheState r) (rr_revisionList r))
  end.

Definition is_tainted_condition (e : EnvoyConfigRevision) : bool :=
  IsStatusConditionTrue (ecr_Conditions e) RevisionTaintedCondition.

Definition is_published_condition (e : EnvoyConfigRevision) : bool :=
  IsStatusConditionTrue (ecr_Conditions e) RevisionPublishedCondition.

(** The loop of [getVersionToPublish], over the items from the highest index. *)
Fixpoint first_untainted (items : list EnvoyConfigRevision) : string :=
  match items with
  | [] => ""
  | e :: items => if is_tainted_condition e then first_untainted items else ecr_Version e
  end.

Definition getVersionToPublish (r : RevisionReconciler) : result (string * string) :=
  items ← deref (rr_revisionList r);
  let versionToPublish := first_untainted (rev items) in
  if decide (versionToPublish = "") then Ok ("", RollbackFailedState)
  else
    top ← deref (last items);
    if decide (versionToPublish ≠ ecr_Version top) then Ok (versionToPublish, RollbackState)
    else Ok (versionToPublish, InSyncState).

Definition published_condition (versionToPublish : string) : Condition :=
  NewCondition RevisionPublishedCondition ConditionTrue "VersionPublished"
    ("Version '" +:+ versionToPublish +:+ "' has been published").

(** One iteration of the loop of [isRevisionPublishedConditionReconciled].
    The loop variable is a copy of the item. *)
Definition published_step (now : Time) (versionToPublish : string)
    (acc : option EnvoyConfigRevision * list EnvoyConfigRevision) (ecr : EnvoyConfigRevision)
    : option EnvoyConfigRevision * list EnvoyConfigRevision :=
  let '(shouldBeTrue, shouldBeFalse) := acc in
  if decide (ecr_Version ecr ≠ versionToPublish ∧ is_published_condition ecr = true) then
    (shouldBeTrue,
     shouldBeFalse ++
       [set_ecr_conditions ecr
          (RemoveStatusCondition (ecr_Conditions ecr) RevisionPublishedCondition)])
  else if decide (ecr_Version ecr = versionToPublish ∧ is_published_condition ecr = false) then
    (Some (set_ecr_conditions ecr
             (SetStatusCondition now (ecr_Conditions ecr)
                (published_condition versionToPublish))),
     shouldBeFalse)
  else (shouldBeTrue, shouldBeFalse).

Definition isRevisionPublishedConditionReconciled (now : Time) (r : RevisionReconciler)
    (versionToPublish : string)
    : result (option EnvoyConfigRevision * list EnvoyConfigRevision) :=
  items ← deref (rr_revisionList r);
  Ok (fold_left (published_step now versionToPublish) items (None, [])).

Definition newRevisionForCurrentResources (r : RevisionReconciler) : EnvoyConfigRevision :=
  let '(version, _) := DesiredVersion r in
  mkEnvoyConfigRevision "" ""
    (mkMeta
       (NodeID r +:+ "-" +:+ APIVersion_String (EnvoyAPI r) +:+ "-" +:+ version)
       (Namespace r)
       (<[NodeIDTag := NodeID r]> (<[VersionTag := version]>
         (<[EnvoyAPITag := APIVersion_String (EnvoyAPI r)]> ∅)))
       "" 0%Z None [])
    (mkEnvoyConfigRevisionSpec (NodeID r) version (Some (EnvoyAPI r)) None None
       (ecs_Resources (ec_Spec (Instance_ r))))
    emptyECRStatus.

(** The second half of [Reconcile], once the list of revisions is known. *)
Definition reconcile_list (now : Time) (r : RevisionReconciler) (w : W)
    (items : list EnvoyConfigRevision) : result Result * RevisionReconciler * W :=
  let '(desired, r) := DesiredVersion r in
  let r := mkRevisionReconciler (rr_ec r) (rr_desiredVersion r) (rr_publishedVersion r)
             (rr_cacheState r) (Some (SortByPublication desired items)) in
  match getVersionToPublish r with
  | Panic => (Panic, r, w)
  | Err err => (Err err, r, w)
  | Ok (publishedVersion, cacheState) =>
     let r := mkRevisionReconciler (rr_ec r) (rr_desiredVersion r) (Some publishedVersion)
                (Some cacheState) (rr_revisionList r) in
     match isRevisionPublishedConditionReconciled now r publishedVersion with
     | Panic => (Panic, r, w)
     | Err err => (Err err, r, w)
     | Ok (shouldBeTrue, shouldBeFalse) =>
        match each_until_error Status_Update w shouldBeFalse with
        | (Some err, w) => (Err err, r, w)
        | (None, w) =>
           match match shouldBeTrue with
                 | Some e => Status_Update w e
                 | None => (None, w)
                 end with
           | (Some err, w) => (Err err, r, w)
           | (None, w) =>
              match isRevisionRetentionReconciled r maxRevisions with
              | Panic => (Panic, r, w)
              | Err err => (Err err, r, w)
              | Ok (shouldBeDeleted, r) =>
                 match each_until_error Delete_revision w shouldBeDeleted with
                 | (Some err, w) => (Err err, r, w)
                 | (None, w) => (Ok emptyResult, r, w)
                 end
              end
           end
        end
     end
  end.

Definition Reconcile (now : Time) (r : RevisionReconciler) (w : W)
    : result Result * RevisionReconciler * W :=
  let '(desired, r) := DesiredVersion r in
  match Get w (Namespace r) [ByNodeID (NodeID r); ByVersion desired; ByEnvoyAPI (EnvoyAPI r)]
  with
  | inl err =>
     if ErrorIsNoMatchesForFilter err then
       match SetControllerReference (Instance_ r) (newRevisionForCurrentResources r) with
       | inl err => (Err err, r, w)
       | inr ecr =>
          match Create_revision w ecr with
          | (Some err, w) => (Err err, r, w)
          | (None, w) => (Ok requeueResult, r, w)
          end
       end
     else if ErrorIsMultipleMatchesForFilter err then (Err err, r, w)
     else (Err err, r, w)
  | inr _ =>
     match List_ w (Namespace r) [ByNodeID (NodeID r); ByEnvoyAPI (EnvoyAPI r)] with
     | inl err => (Err err, r, w)
     | inr items => reconcile_list now r w items
     end
  end.
End Reconciler.

(** ** The pieces of [Reconcile] *)

Lemma retention_loop_spec n acc l :
  retention_loop n acc l = (acc ++ take (length l - n) l, drop (length l - n) l).
Proof.
  revert acc. induction l as [|x l IH]; intros acc; cbn [retention_loop].
  - by rewrite take_nil, drop_nil, app_nil_r.
  - case_decide as Hn.
    + rewrite IH. replace (length (x :: l) - n) with (S (length l - n)) by (simpl in *; lia).
      simpl. by rewrite <- app_assoc.
    + replace (length (x :: l) - n) with 0 by lia. simpl. by rewrite app_nil_r.
Qed.

Section Pieces.
Context {M : MetaConditions} {ML : MetaConditionsLaws M}.
Implicit Types (items : list EnvoyConfigRevision) (e : EnvoyConfigRevision) (pv : string).

Definition to_false pv e : option EnvoyConfigRevision :=
  if decide (ecr_Version e ≠ pv ∧ is_published_condition e = true) then
    Some (set_ecr_conditions e
            (RemoveStatusCondition (ecr_Conditions e) RevisionPublishedCondition))
  else None.

Definition to_true now pv e : option EnvoyConfigRevision :=
  if decide (ecr_Version e = pv ∧ is_published_condition e = false) then
    Some (set_ecr_conditions e
            (SetStatusCondition now (ecr_Conditions e) (published_condition pv)))
  else None.

Lemma published_fold now pv items t f :
  fold_left (published_step now pv) items (t, f) =
  (match last (omap (to_true now pv) items) with Some e => Some e | None => t end,
   f ++ omap (to_false pv) items).
Proof.
  revert t f. induction items as [|e items IH]; intros t f; [by rewrite app_nil_r|].
  cbn [fold_left omap list_omap]. unfold published_step at 2, to_true at 1, to_false at 1.
  destruct (decide (ecr_Version e ≠ pv ∧ is_published_condition e = true)) as [[Hne Hp]|H1].
  - rewrite IH, decide_False by naive_solver. by rewrite <- app_assoc.
  - destruct (decide (ecr_Version e = pv ∧ is_published_condition e = false)); rewrite IH.
    + rewrite last_cons. by destruct (last _).
    + done.
Qed.

Lemma published_loop now pv items :
  fold_left (published_step now pv) items (None, []) =
  (last (omap (to_true now pv) items), omap (to_false pv) items).
Proof. rewrite published_fold. by destruct (last _). Qed.

(** The state of a revision once its published condition is reconciled. *)
Definition with_published now pv e : EnvoyConfigRevision :=
  default (default e (to_true now pv e)) (to_false pv e).

Lemma with_published_condition now pv e :
  is_published_condition (with_published now pv e) = bool_decide (ecr_Version e = pv).
Proof.
  unfold with_published, to_false, to_true.
  destruct (decide (_ ≠ _ ∧ _)) as [[Hne Hp]|H1]; simpl.
  - rewrite bool_decide_eq_false_2 by done. apply is_true_remove_eq.
  - destruct (decide (_ ∧ _)) as [[Heq Hp]|H2]; simpl.
    + rewrite bool_decide_eq_true_2 by done.
      apply (is_true_set_eq now _ (published_condition pv)).
    + destruct (is_published_condition e) eqn:E; symmetry.
      * apply bool_decide_eq_true. destruct (decide (ecr_Version e = pv)); naive_solver.
      * apply bool_decide_eq_false. naive_solver.
Qed.

(** Only the published condition changes. *)
Lemma with_published_find now pv e t :
  t ≠ RevisionPublishedCondition →
  FindStatusCondition (ecr_Conditions (with_published now pv e)) t =
  FindStatusCondition (ecr_Conditions e) t.
Proof.
  intros Ht. unfold with_published, to_false, to_true.
  destruct (decide (_ ≠ _ ∧ _)); simpl; [by apply find_remove_ne|].
  destruct (decide (_ ∧ _)); simpl; [by apply find_set_ne|done].
Qed.

Lemma with_published_status now pv e :
  ∃ cs, with_published now pv e = set_ecr_conditions e cs.
Proof.
  unfold with_published, to_false, to_true. repeat case_decide; simpl; eauto.
  exists (ecr_Conditions e). by destruct e as [????[]].
Qed.

(** ** [getVersionToPublish] *)

Lemma first_untainted_app l1 l2 :
  Forall (λ e, is_tainted_condition e = true) l1 →
  first_untainted (l1 ++ l2) = first_untainted l2.
Proof. induction 1 as [|e l1 He _ IH]; simpl; [done|]. by rewrite He. Qed.

(** Either every item is tainted or the loop stops at the untainted item
    with the highest index. *)
Lemma first_untainted_cases items :
  (Forall (λ e, is_tainted_condition e = true) items ∧ first_untainted (rev items) = "") ∨
  ∃ l1 e l2, items = l1 ++ e :: l2 ∧ is_tainted_condition e = false ∧
    Forall (λ e, is_tainted_condition e = true) l2 ∧
    first_untainted (rev items) = ecr_Version e.
Proof.
  induction items as [|x items IH] using rev_ind; [by left|].
  rewrite rev_unit. simpl. destruct (is_tainted_condition x) eqn:E.
  - destruct IH as [[H1 H2]|(l1 & e & l2 & -> & ? & ? & ?)]; [left|right].
    + split; [|done]. apply Forall_app. by rewrite Forall_singleton.
    + exists l1, e, (l2 ++ [x]). rewrite <- app_assoc. repeat split; try done.
      apply Forall_app. by rewrite Forall_singleton.
  - right. exists items, x, []. by repeat split.
Qed.

Lemma getVersionToPublish_ok r items :
  rr_revisionList r = Some items →
  ∃ pv cs, getVersionToPublish r = Ok (pv, cs) ∧ pv = first_untainted (rev items).
Proof.
  intros E. unfold getVersionToPublish. rewrite E. simpl. case_decide as Hpv; [eauto|].
  destruct (last items) as [top|] eqn:El; simpl; [case_decide; eauto|].
  apply last_None in El as ->. by destruct Hpv.
Qed.
End Pieces.

(** ** The effect of [Reconcile] on the cluster *)

Section Effect.
Context {W : Type} {K : RevisionClient W} {L : RevisionClientLaws K}.
Context {M : MetaConditions} {ML : MetaConditionsLaws M}.
Context {O : OwnerReferences} {OL : OwnerReferencesLaws O}.
Context (Hash : option (list Resource) → string).
Implicit Types (r : RevisionReconciler) (w : W) (e : EnvoyConfigRevision).

(** What a revision made by [newRevisionForCurrentResources] looks like. *)
Definition revision_name (nodeID version : string) : string :=
  nodeID +:+ "-" +:+ APIv3 +:+ "-" +:+ version.

Definition wf_revision e : Prop :=
  ecr_Labels e !! NodeIDTag = Some (ecrs_NodeID (ecr_Spec e)) ∧
  ecr_Labels e !! VersionTag = Some (ecr_Version e) ∧
  ecr_Labels e !! EnvoyAPITag = Some APIv3 ∧
  om_Name (ecr_Meta e) = revision_name (ecrs_NodeID (ecr_Spec e)) (ecr_Version e).

Definition wf_cluster (m : gmap NamespacedName EnvoyConfigRevision) : Prop :=
  map_Forall (λ _ e, wf_revision e) m.

Definition node_filters r : list RevisionFilter :=
  [ByNodeID (NodeID r); ByEnvoyAPI (EnvoyAPI r)].

(** The revisions of the reconciler's node. *)
Definition mine r e : Prop := matching (Namespace r) (labelSelector (node_filters r)) e.

Definition desired r : string := fst (DesiredVersion Hash r).

Lemma mine_NodeID r e : wf_revision e → mine r e → ecrs_NodeID (ecr_Spec e) = NodeID r.
Proof.
  intros (Hn & _) [_ Hsel]. unfold MatchingLabels in Hsel.
  assert (labelSelector (node_filters r) !! NodeIDTag = Some (NodeID r)) as H
    by by vm_compute.
  rewrite map_subseteq_spec in Hsel. apply Hsel in H. congruence.
Qed.

(** No two revisions of a node have the same version. *)
Lemma versions_NoDup r w items :
  wf_cluster (objs w) →
  List_revisions w (Namespace r) (labelSelector (node_filters r)) = inr items →
  NoDup (ecr_Version <$> items).
Proof.
  intros Hwf Hl. pose proof (list_keys_NoDup _ _ _ _ Hl) as Hk.
  apply (NoDup_fmap_1 (λ v, mkKey (Namespace r) (revision_name (NodeID r) v))).
  rewrite <- list_fmap_compose.
  rewrite (list_fmap_ext _ ecr_key items); [done|]. intros i e He. simpl.
  apply list_elem_of_lookup_2 in He.
  apply (list_elem _ _ _ _ e Hl) in He as [Ho Hm].
  pose proof (Hwf _ _ Ho) as Hw. pose proof (mine_NodeID _ _ Hw Hm) as Hn.
  destruct Hw as (_ & _ & _ & Hname). destruct Hm as [Hns _].
  unfold ecr_key. congruence.
Qed.

Definition with_desired r : RevisionReconciler :=
  mkRevisionReconciler (rr_ec r) (Some (desired r)) (rr_publishedVersion r)
    (rr_cacheState r) (rr_revisionList r).

Lemma DesiredVersion_eq r : DesiredVersion Hash r = (desired r, with_desired r).
Proof. by destruct r as [? [] ???]. Qed.

Lemma omap_NoDup {B} (g : EnvoyConfigRevision → B) f items :
  (∀ e u, f e = Some u → g u = g e) → NoDup (g <$> items) → NoDup (g <$> omap f items).
Proof.
  intros Hf Hnd. eapply sublist_NoDup; [exact Hnd|]. clear Hnd.
  induction items as [|e items IH]; simpl; [constructor|].
  destruct (f e) as [u|] eqn:E; simpl; [|by apply sublist_cons].
  rewrite (Hf _ _ E). by apply sublist_skip.
Qed.

Lemma to_false_keeps pv e u :
  to_false pv e = Some u →
  ecr_key u = ecr_key e ∧ ecr_Version u = ecr_Version e ∧
  (∀ now, with_published now pv e = u) ∧ set_ecr_status e (ecr_Status u) = u.
Proof.
  unfold with_published. intros H. rewrite H. unfold to_false in H.
  case_decide; [|done]. injection H as <-. by repeat split.
Qed.

Lemma to_true_keeps now pv e u :
  to_true now pv e = Some u →
  ecr_key u = ecr_key e ∧ ecr_Version u = ecr_Version e ∧ ecr_Version e = pv ∧
  to_false pv e = None ∧
  with_published now pv e = u ∧ set_ecr_status e (ecr_Status u) = u.
Proof.
  unfold with_published. intros H. rewrite H. unfold to_true in H.
  case_decide as Hv; [|done]. injection H as <-.
  assert (to_false pv e = None) as -> by (unfold to_false; case_decide; naive_solver).
  by repeat split; destruct Hv.
Qed.

Lemma each_app f w l1 l2 :
  each_until_error f w (l1 ++ l2) =
  match each_until_error f w l1 with
  | (Some err, w) => (Some err, w)
  | (None, w) => each_until_error f w l2
  end.
Proof.
  revert w. induction l1 as [|e l1 IH]; intros w; simpl; [done|].
  destruct (f w e) as [[]]; eauto.
Qed.

(** At most one revision has the version to publish. *)
Lemma to_true_last now pv items :
  NoDup (ecr_Version <$> items) →
  omap (to_true now pv) items = option_list (last (omap (to_true now pv) items)).
Proof.
  intros Hnd. apply (omap_NoDup _ (to_true now pv)) in Hnd;
    [|intros ?? H; by apply to_true_keeps in H as (? & ? & ?)].
  assert (∀ u, u ∈ omap (to_true now pv) items → ecr_Version u = pv) as Hv.
  { intros u (e & _ & H)%list_elem_of_omap. apply to_true_keeps in H as (? & ? & ? & ?).
    congruence. }
  destruct (omap (to_true now pv) items) as [|u [|u' l]]; [done..|].
  exfalso. simpl in Hnd. apply NoDup_cons in Hnd as [Hn _]. apply Hn.
  rewrite (Hv u), <- (Hv u') by set_solver. left.
Qed.

Lemma updates_NoDup now pv items :
  NoDup (ecr_key <$> items) →
  NoDup (ecr_key <$> omap (to_false pv) items ++ omap (to_true now pv) items).
Proof.
  intros Hk. rewrite fmap_app. apply NoDup_app. repeat split.
  - apply omap_NoDup; [|done]. intros ?? H. by apply to_false_keeps in H as (? & _).
  - intros k (u & -> & (e & He & Hu)%list_elem_of_omap)%list_elem_of_fmap
             (u' & E & (e' & He' & Hu')%list_elem_of_omap)%list_elem_of_fmap.
    apply to_false_keeps in Hu as Hu2. destruct Hu2 as (Hk1 & _).
    apply to_true_keeps in Hu' as (Hk2 & _ & _ & Hf & _).
    assert (e = e') as <- by (eapply NoDup_fmap_elem_inj; eauto; congruence).
    congruence.
  - apply omap_NoDup; [|done]. intros ?? H. by apply to_true_keeps in H as (? & _).
Qed.

(** [u] is the update the code sends for [e]. *)
Definition update_of now pv e u : Prop := to_false pv e = Some u ∨ to_true now pv e = Some u.

Lemma update_of_keeps now pv e u :
  update_of now pv e u →
  ecr_key u = ecr_key e ∧ with_published now pv e = u ∧ set_ecr_status e (ecr_Status u) = u.
Proof.
  intros [(? & _ & ? & ?)%to_false_keeps|(? & _ & _ & _ & ? & ?)%to_true_keeps]; auto.
Qed.

Lemma elem_of_updates now pv items u :
  u ∈ omap (to_false pv) items ++ omap (to_true now pv) items ↔
  ∃ e, e ∈ items ∧ update_of now pv e u.
Proof. rewrite elem_of_app, !list_elem_of_omap. unfold update_of. naive_solver. Qed.

Lemma update_of_dec now pv e :
  (∃ u, update_of now pv e u) ∨ (¬ ∃ u, update_of now pv e u) ∧ with_published now pv e = e.
Proof.
  unfold update_of, with_published.
  destruct (to_false pv e), (to_true now pv e); simpl; naive_solver.
Qed.

(** The two update loops together: every listed revision ends with its
    published condition reconciled, no other object changes. *)
Lemma updates_effect now pv w items w1 w2 :
  NoDup (ecr_key <$> items) → NoDup (ecr_Version <$> items) →
  (∀ e, e ∈ items → objs w !! ecr_key e = Some e) →
  each_until_error Status_Update w (omap (to_false pv) items) = (None, w1) →
  match last (omap (to_true now pv) items) with
  | Some e => Status_Update w1 e
  | None => (None, w1)
  end = (None, w2) →
  (∀ e, e ∈ items → objs w2 !! ecr_key e = Some (with_published now pv e)) ∧
  (∀ k, k ∉ (ecr_key <$> items) → objs w2 !! k = objs w !! k).
Proof.
  intros Hk Hv Ho H1 H2.
  assert (each_until_error Status_Update w
            (omap (to_false pv) items ++ omap (to_true now pv) items) = (None, w2)) as H.
  { rewrite each_app, H1, (to_true_last _ _ _ Hv). destruct (last _); simpl; [|done].
    by rewrite H2. }
  destruct (each_acts _ _ _ _ _ status_update_acts (updates_NoDup now pv items Hk) H)
    as [Hin Hout]. split.
  - intros e He. destruct (update_of_dec now pv e) as [[u Hu]|[Hn ->]].
    + destruct (update_of_keeps _ _ _ _ Hu) as (Eu & Hw & Hs).
      destruct (Hin u) as (old & E1 & E2); [apply elem_of_updates; eauto|].
      rewrite Eu, (Ho _ He) in E1. injection E1 as <-. by rewrite <- Eu, E2, Hw, Hs.
    + rewrite Hout; [by apply Ho|].
      intros (u & E & (e' & He' & Hu)%elem_of_updates)%list_elem_of_fmap.
      destruct (update_of_keeps _ _ _ _ Hu) as (Eu & _).
      assert (e = e') as <- by (eapply (NoDup_fmap_elem_inj ecr_key); eauto; congruence).
      eauto.
  - intros k Hk'. apply Hout. intros (u & -> & (e & He & Hu)%elem_of_updates)%list_elem_of_fmap.
    apply Hk'. rewrite (proj1 (update_of_keeps _ _ _ _ Hu)). by apply list_elem_of_fmap_2.
Qed.

(** ** A successful reconcile *)

(** [sorted] is the list of the node's revisions in publication order, [pv]
    and [cs] the version and cache state chosen, [w2] the cluster after the
    updates of the published condition and before retention. *)
Record reconciled now r w r' w' (sorted : list EnvoyConfigRevision) (pv cs : string)
    (w2 : W) : Prop := {
  rec_elem e : e ∈ sorted ↔ objs w !! ecr_key e = Some e ∧ mine r e;
  rec_versions : NoDup (ecr_Version <$> sorted);
  rec_keys : NoDup (ecr_key <$> sorted);
  rec_sorted : StronglySorted (λ x y, spec_less (desired r) y x = false) sorted;
  rec_desired : ∃ e, last sorted = Some e ∧ ecr_Version e = desired r;
  rec_pv : pv = first_untainted (rev sorted);
  rec_cs : cs = if decide (pv = "") then RollbackFailedState
                else if decide (pv = desired r) then InSyncState else RollbackState;
  rec_fields : r' = mkRevisionReconciler (rr_ec r) (Some (desired r)) (Some pv) (Some cs)
                      (Some (drop (length sorted - maxRevisions) sorted));
  rec_updated e : e ∈ sorted → objs w2 !! ecr_key e = Some (with_published now pv e);
  rec_frame k : k ∉ (ecr_key <$> sorted) → objs w2 !! k = objs w !! k;
  rec_deletes :
    each_until_error Delete_revision w2 (take (length sorted - maxRevisions) sorted)
    = (None, w');
}.

(** The labels of a filter list are its values. *)
Lemma matching_desired r e v :
  matching (Namespace r)
    (labelSelector [ByNodeID (NodeID r); ByVersion v; ByEnvoyAPI (EnvoyAPI r)]) e ↔
  mine r e ∧ ecr_Labels e !! VersionTag = Some v.
Proof.
  unfold mine, matching, MatchingLabels, labelSelector; simpl.
  rewrite !insert_subseteq_iff by (by vm_compute). tauto.
Qed.

Lemma getVersionToPublish_spec r sorted top :
  rr_revisionList r = Some sorted → last sorted = Some top →
  let pv := first_untainted (rev sorted) in
  getVersionToPublish r =
  Ok (pv, if decide (pv = "") then RollbackFailedState
          else if decide (pv = ecr_Version top) then InSyncState else RollbackState).
Proof.
  intros E Hl pv. unfold getVersionToPublish. rewrite E. simpl. fold pv.
  case_decide as Hpv; [by rewrite Hpv|]. rewrite Hl. simpl.
  repeat case_decide; done || congruence.
Qed.

Lemma reconcile_list_done now r w items r' w' :
  wf_cluster (objs w) →
  List_revisions w (Namespace r) (labelSelector (node_filters r)) = inr items →
  (∃ e, e ∈ items ∧ ecr_Version e = desired r) →
  reconcile_list Hash now r w items = (Ok emptyResult, r', w') →
  ∃ sorted pv cs w2, reconciled now r w r' w' sorted pv cs w2.
Proof.
  intros Hwf Hl (ed & Hed & Hvd) H.
  pose proof (versions_NoDup _ _ _ Hwf Hl) as Hv.
  pose proof (list_keys_NoDup _ _ _ _ Hl) as Hk.
  pose proof (SortByPublication_last (desired r) items ed Hv Hed Hvd) as Hlast.
  pose proof (SortByPublication_perm (desired r) items) as Hp.
  unfold reconcile_list in H.
  rewrite DesiredVersion_eq in H.
  set (sorted := SortByPublication (desired r) items) in *.
  erewrite getVersionToPublish_spec in H by done.
  set (pv := first_untainted (rev sorted)) in *.
  unfold isRevisionPublishedConditionReconciled, isRevisionRetentionReconciled in H.
  simpl in H. rewrite published_loop, retention_loop_spec in H. simpl in H.
  destruct (each_until_error Status_Update w _) as [[]w1] eqn:H1; [done|].
  destruct (match last _ with Some e => Status_Update w1 e | None => (None, w1) end)
    as [[] w2] eqn:H2; [done|].
  destruct (each_until_error Delete_revision w2 _) as [[] w3] eqn:H3; [done|].
  injection H as <- <-.
  destruct (updates_effect now pv w sorted w1 w2) as [Hupd Hframe]; try done.
  { by rewrite Hp. }
  { by rewrite Hp. }
  { intros e. rewrite Hp. intros He. by apply (list_elem _ _ _ _ e Hl) in He as [??]. }
  eexists sorted, pv, _, w2. split; try done.
  - intros e. rewrite Hp. by apply list_elem.
  - by rewrite Hp.
  - by rewrite Hp.
  - by apply SortByPublication_sorted.
  - eauto.
  - simpl. by rewrite Hvd.
Qed.

(** A revision found by [Get] is the revision of the desired version. *)
Lemma Get_desired w r e :
  wf_cluster (objs w) →
  Get w (Namespace r)
    [ByNodeID (NodeID r); ByVersion (desired r); ByEnvoyAPI (EnvoyAPI r)] = inr e →
  objs w !! ecr_key e = Some e ∧ mine r e ∧ ecr_Version e = desired r.
Proof.
  intros Hwf (Ho & Hm & _)%Get_ok. apply matching_desired in Hm as [Hm Hv].
  destruct (Hwf _ _ Ho) as (_ & Hv' & _). repeat split; [done|apply Hm..|congruence].
Qed.

Lemma Reconcile_done now r w r' w' :
  wf_cluster (objs w) →
  Reconcile Hash now r w = (Ok emptyResult, r', w') →
  ∃ sorted pv cs w2, reconciled now r w r' w' sorted pv cs w2.
Proof.
  intros Hwf H. unfold Reconcile in H. rewrite DesiredVersion_eq in H.
  destruct (Get w _ _) as [err|ed] eqn:Eg.
  { repeat case_match; simplify_eq/=. }
  apply (Get_desired w r ed Hwf) in Eg as (Ho & Hm & Hv).
  destruct (List_ w _ _) as [err|items] eqn:El; [done|].
  apply List_ok in El as [El _].
  eapply (reconcile_list_done now (with_desired r)) in H as (sorted & pv & cs & w2 & Hr);
    [|done..|].
  - exists sorted, pv, cs, w2. by destruct Hr.
  - exists ed. split; [|done]. by apply (list_elem _ _ _ _ ed El).
Qed.
End Effect.
