(* ===== verification/RevisionTheorems.v ===== *)
(** * The correctness of the revision reconciler

    The theorems on [Reconcile] of [RevisionReconciler]: the invariant of the
    stored revisions, the choice of the published version, the uniqueness of
    the published condition, retention, creation, idempotence, errors. *)

From S2P Require Import Prelude Meta Envoy Api GoSort Cluster Revisions RevisionReconciler.

Section Theorems.
Context {W : Type} {K : RevisionClient W} {L : RevisionClientLaws K}.
Context {M : MetaConditions} {ML : MetaConditionsLaws M}.
Context {O : OwnerReferences} {OL : OwnerReferencesLaws O}.
Context (Hash : option (list Resource) → string).
Implicit Types (r : RevisionReconciler) (w : W) (e : EnvoyConfigRevision).

(** The stored revisions of the reconciler's node. *)
Definition stored r w e : Prop := objs w !! ecr_key e = Some e ∧ mine r e.

(** ** Retention *)

Lemma deleted_from w1 w2 l k e :
  NoDup (ecr_key <$> l) → each_until_error Delete_revision w1 l = (None, w2) →
  objs w2 !! k = Some e →
  ((k ∉ (ecr_key <$> l)) ∧ objs w1 !! k = Some e) ∨
  (k ∈ (ecr_key <$> l) ∧ ∃ old t, objs w1 !! k = Some old ∧ e = set_deletion old t).
Proof.
  intros Hnd H Hk. destruct (each_acts _ _ _ _ _ delete_acts Hnd H) as [Hin Hout].
  destruct (decide (k ∈ (ecr_key <$> l))) as [Hkl|Hkl]; [right|left].
  - split; [done|]. apply list_elem_of_fmap in Hkl as (x & -> & Hx).
    destruct (Hin x Hx) as (old & E1 & [[_ E2]|[_ [t E2]]]); [congruence|].
    exists old, t. split; [done|]. congruence.
  - split; [done|]. by rewrite <- Hout.
Qed.

(** Where an object of the final state comes from. *)
Lemma reconciled_from now r w r' w' sorted pv cs w2 k e :
  reconciled Hash now r w r' w' sorted pv cs w2 → objs w' !! k = Some e →
  ((k ∉ (ecr_key <$> sorted)) ∧ objs w !! k = Some e) ∨
  ∃ e0, e0 ∈ sorted ∧ ecr_key e0 = k ∧
    ((e0 ∈ drop (length sorted - maxRevisions) sorted ∧ e = with_published now pv e0) ∨
     ∃ t, e = set_deletion (with_published now pv e0) t).
Proof.
  intros [] Hk. set (n := length sorted - maxRevisions) in *.
  assert (NoDup (ecr_key <$> take n sorted)) as Hnd.
  { eapply sublist_NoDup; [done|]. apply fmap_sublist, sublist_take. }
  destruct (deleted_from _ _ _ _ _ Hnd rec_deletes Hk) as [[Hn H2]|(Hin & old & t & H2 & ->)].
  - destruct (decide (k ∈ (ecr_key <$> sorted))) as [Hk'|Hk'];
      [right|left; by rewrite <- rec_frame].
    apply list_elem_of_fmap in Hk' as (e0 & -> & He0). exists e0. repeat split; [done|].
    rewrite (rec_updated e0 He0) in H2. left. split; [|congruence].
    rewrite <- (take_drop n sorted) in He0. apply elem_of_app in He0 as [He0|He0]; [|done].
    destruct Hn. by apply list_elem_of_fmap_2.
  - right. apply list_elem_of_fmap in Hin as (e0 & -> & He0).
    assert (e0 ∈ sorted) as Hin by (rewrite <- (take_drop n sorted); set_solver).
    exists e0. repeat split; [done|]. right. exists t. rewrite (rec_updated _ Hin) in H2.
    congruence.
Qed.

Lemma with_published_mine now pv r e : mine r (with_published now pv e) ↔ mine r e.
Proof. by destruct (with_published_status now pv e) as [cs ->]. Qed.

Lemma with_published_version now pv e : ecr_Version (with_published now pv e) = ecr_Version e.
Proof. by destruct (with_published_status now pv e) as [cs ->]. Qed.

(** C5: after a successful [Reconcile] of well-formed revisions, the revision
    of the node whose version is the published version has the
    [RevisionPublished] condition, and no other revision of the node has it. *)
Theorem reconcile_publishes_one now r w r' w' :
  wf_cluster (objs w) →
  Reconcile Hash now r w = (Ok emptyResult, r', w') →
  ∃ pv, rr_publishedVersion r' = Some pv ∧
    ∀ k e, objs w' !! k = Some e → mine r e →
      is_published_condition e = bool_decide (ecr_Version e = pv).
Proof.
  intros Hwf (sorted & pv & cs & w2 & R)%Reconcile_done; [|done].
  exists pv. split; [by rewrite (rec_fields _ _ _ _ _ _ _ _ _ _ R)|]. intros k e Hk Hm.
  destruct (reconciled_from _ _ _ _ _ _ _ _ _ _ _ R Hk)
    as [[Hn H]|(e0 & He0 & <- & [[_ ->]|[t ->]])].
  - destruct Hn. pose proof (objs_key _ _ _ H) as <-. apply list_elem_of_fmap_2.
    by apply (rec_elem _ _ _ _ _ _ _ _ _ _ R).
  - by rewrite with_published_condition, with_published_version.
  - change (ecr_Version (set_deletion ?x _)) with (ecr_Version x).
    rewrite with_published_version. apply with_published_condition.
Qed.

(** In a list sorted by publication, the untainted item with the highest
    index is the most recently published of the untainted ones. *)
Lemma newest_untainted d l1 e l2 top :
  StronglySorted (λ x y, spec_less d y x = false) (l1 ++ e :: l2) →
  last (l1 ++ e :: l2) = Some top → ecr_Version top = d → ecr_Version e ≠ d →
  Forall (λ e, is_tainted_condition e = true) l2 →
  is_tainted_condition top = true ∧
  ∀ e', e' ∈ l1 ++ e :: l2 → is_tainted_condition e' = false →
    (publication_time e' ≤ publication_time e)%Z.
Proof.
  intros Hs Hlast Hd Hne Hl2. rewrite Forall_forall in Hl2. split.
  - rewrite last_app, last_cons in Hlast.
    destruct (last l2) as [x|] eqn:El; simplify_eq/=.
    apply Hl2. by eapply last_Some_elem_of.
  - apply StronglySorted_app in Hs as (Hle & _ & _).
    intros e' [He'|[->|He']%elem_of_cons]%elem_of_app Ht; [|lia|].
    + specialize (Hle e' e He'). unfold spec_less in Hle.
      rewrite (decide_False _ _ Hne) in Hle. case_decide; [set_solver|].
      rewrite Z.ltb_ge in Hle. apply Hle. set_solver.
    + apply Hl2 in He'. congruence.
Qed.

(** C6: the version [Reconcile] publishes.  In sync: the desired revision is
    not tainted and is published.  Rollback: the desired revision is tainted
    and the published one has the latest publication date of the untainted
    revisions.  Rollback failed: all revisions are tainted and no version is
    published. *)
Theorem reconcile_version_choice now r w r' w' :
  wf_cluster (objs w) →
  (∀ e, stored r w e → ecr_Version e ≠ "") →
  Reconcile Hash now r w = (Ok emptyResult, r', w') →
  ∃ pv cs, rr_publishedVersion r' = Some pv ∧ rr_cacheState r' = Some cs ∧
    ((cs = InSyncState ∧ pv = desired Hash r ∧
      ∃ e, stored r w e ∧ ecr_Version e = pv ∧ is_tainted_condition e = false) ∨
     (cs = RollbackState ∧ pv ≠ desired Hash r ∧
      (∃ e, stored r w e ∧ ecr_Version e = desired Hash r ∧ is_tainted_condition e = true) ∧
      ∃ e, stored r w e ∧ ecr_Version e = pv ∧ is_tainted_condition e = false ∧
        ∀ e', stored r w e' → is_tainted_condition e' = false →
          (publication_time e' ≤ publication_time e)%Z) ∨
     (cs = RollbackFailedState ∧ pv = "" ∧
      ∀ e, stored r w e → is_tainted_condition e = true)).
Proof.
  intros Hwf Hne (sorted & pv & cs & w2 & [])%Reconcile_done; [|done].
  exists pv, cs. rewrite rec_fields. do 2 (split; [done|]).
  destruct rec_desired as (top & Htop & Hd).
  destruct (first_untainted_cases sorted) as [[Hall Hf]|(l1 & e & l2 & E & He & Hl2 & Hf)];
    rewrite Hf in rec_pv; subst pv.
  - rewrite decide_True in rec_cs by done. right; right. repeat split; [done..|].
    intros e He. rewrite Forall_forall in Hall. by apply Hall, rec_elem.
  - assert (stored r w e) as Hst by (apply rec_elem; rewrite E; set_solver).
    rewrite decide_False in rec_cs by eauto.
    case_decide as Hv; [left; by eauto 10|right; left].
    assert (stored r w top) as Ht by (apply rec_elem; by eapply last_Some_elem_of).
    rewrite E in rec_sorted, Htop.
    destruct (newest_untainted _ _ _ _ _ rec_sorted Htop Hd Hv Hl2) as [Htt Hmax].
    repeat split; [done..|by eauto|]. exists e. repeat split; [apply Hst..|done|].
    intros e' He'. apply Hmax. rewrite <- E. by apply rec_elem.
Qed.

(** The revisions that retention leaves are not touched by it. *)
Lemma kept_after now r w r' w' sorted pv cs w2 e :
  reconciled Hash now r w r' w' sorted pv cs w2 →
  e ∈ drop (length sorted - maxRevisions) sorted →
  objs w' !! ecr_key e = Some (with_published now pv e).
Proof.
  intros [] He. set (n := length sorted - maxRevisions) in *.
  assert (e ∈ sorted) as Hin by (rewrite <- (take_drop n sorted); set_solver).
  rewrite <- (rec_updated e Hin).
  rewrite <- (take_drop n sorted), fmap_app in rec_keys.
  apply NoDup_app in rec_keys as (Hnd & Hdisj & _).
  eapply (each_acts _ _ _ _ _ delete_acts Hnd rec_deletes).
  intros Hk. apply (Hdisj _ Hk). by apply list_elem_of_fmap_2.
Qed.

(** C19: retention.  After a successful [Reconcile] at most ten revisions of
    the node are left that are not being deleted, the revision of the desired
    version is one of them if it was not being deleted before, and every
    revision that goes is older than every one that stays. *)
Theorem reconcile_retention now r w r' w' :
  wf_cluster (objs w) →
  Reconcile Hash now r w = (Ok emptyResult, r', w') →
  ∃ kept, rr_revisionList r' = Some kept ∧ length kept ≤ maxRevisions ∧
    (∀ k e, objs w' !! k = Some e → mine r e → om_DeletionTimestamp (ecr_Meta e) = None →
      k ∈ (ecr_key <$> kept)) ∧
    (∀ e, e ∈ kept → stored r w e ∧
      ∃ e', objs w' !! ecr_key e = Some e' ∧ ecr_Meta e' = ecr_Meta e ∧
            ecr_Spec e' = ecr_Spec e) ∧
    (∃ e, e ∈ kept ∧ ecr_Version e = desired Hash r) ∧
    (∀ x y, x ∈ kept → stored r w y → y ∉ kept → spec_less (desired Hash r) x y = false).
Proof.
  intros Hwf (sorted & pv & cs & w2 & R)%Reconcile_done; [|done].
  pose proof R as []. eexists. rewrite rec_fields. split; [done|].
  set (n := length sorted - maxRevisions) in *.
  rewrite length_drop. split; [lia|]. split; [|split; [|split]].
  - intros k e Hk Hm Hlive.
    destruct (reconciled_from _ _ _ _ _ _ _ _ _ _ _ R Hk)
      as [[Hn H]|(e0 & He0 & <- & [[Hd ->]|[t ->]])]; [|by apply list_elem_of_fmap_2|done].
    destruct Hn. pose proof (objs_key _ _ _ H) as <-. apply list_elem_of_fmap_2.
    by apply rec_elem.
  - intros e He. split; [apply rec_elem; rewrite <- (take_drop n sorted); set_solver|].
    eexists. split; [by eapply kept_after|].
    by destruct (with_published_status now pv e) as [cs' ->].
  - destruct rec_desired as (e & He & Hv). exists e. split; [|done].
    rewrite <- (take_drop n sorted), last_app in He.
    destruct (last (drop n sorted)) eqn:El; [simplify_eq; by eapply last_Some_elem_of|].
    apply last_None, (f_equal length) in El. rewrite length_drop in El.
    apply last_Some_elem_of in He. destruct sorted; simpl in *; [set_solver|].
    subst n. unfold maxRevisions in *. lia.
  - intros x y Hx Hy Hn. apply rec_elem in Hy. rewrite <- (take_drop n sorted) in Hy, rec_sorted.
    apply elem_of_app in Hy as [Hy|]; [|done].
    apply StronglySorted_app in rec_sorted as (Hle & _). by apply Hle.
Qed.
(** ** Creation *)

Lemma new_revision_wf r e :
  ecr_key e = ecr_key (newRevisionForCurrentResources Hash r) →
  ecr_Labels e = ecr_Labels (newRevisionForCurrentResources Hash r) →
  ecr_Spec e = ecr_Spec (newRevisionForCurrentResources Hash r) →
  mine r e ∧ wf_revision e ∧ ecr_Version e = desired Hash r ∧
  ecrs_Resources (ecr_Spec e) = ecs_Resources (ec_Spec (rr_ec r)).
Proof.
  unfold newRevisionForCurrentResources, ecr_key, ecr_Version. rewrite DesiredVersion_eq.
  simpl. intros [= Ens Ename] El Es. unfold mine, matching, MatchingLabels, wf_revision.
  unfold ecr_Version. rewrite Es, El, Ename. unfold labelSelector; simpl.
  rewrite !insert_subseteq_iff by (by vm_compute).
  repeat split; try done; try (by vm_compute). apply map_empty_subseteq.
Qed.

Lemma reconcile_list_result now r w items r' w' :
  reconcile_list Hash now r w items ≠ (Ok requeueResult, r', w').
Proof. unfold reconcile_list. intros H. repeat case_match; simplify_eq/=. Qed.

(** [Get] reports that there is no match only when no revision of the desired
    version is stored. *)
Lemma no_match_none r w err :
  wf_cluster (objs w) →
  Get w (Namespace r)
    [ByNodeID (NodeID r); ByVersion (desired Hash r); ByEnvoyAPI (EnvoyAPI r)] = inl err →
  ErrorIsNoMatchesForFilter err = true →
  ∀ e, stored r w e → ecr_Version e ≠ desired Hash r.
Proof.
  intros Hwf Eg Enm e [Ho Hm] Hv. unfold Get in Eg.
  destruct (List_revisions w _ _) as [err'|items] eqn:El.
  - injection Eg as ->. pose proof (list_err _ _ _ _ El) as He.
    by destruct err; try naive_solver; vm_compute in Enm.
  - eapply Get_no_match in El as Hitems; [|by unfold Get; rewrite El|done].
    assert (e ∈ items) as Hin; [|rewrite Hitems in Hin; set_solver].
    apply (list_elem _ _ _ _ e El). split; [done|].
    apply matching_desired. split; [done|]. destruct (Hwf _ _ Ho) as (_ & -> & _).
    by rewrite Hv.
Qed.

(** When [Reconcile] asks to be run again, no revision of the desired
    version was stored; it has stored one, well formed, with the resources of
    the EnvoyConfig and an empty status, and nothing else has changed; the
    next [Reconcile] finds it. *)
Theorem reconcile_creates now r w r' w' :
  wf_cluster (objs w) →
  Reconcile Hash now r w = (Ok requeueResult, r', w') →
  (∀ e, stored r w e → ecr_Version e ≠ desired Hash r) ∧
  ∃ e, objs w !! ecr_key e = None ∧ objs w' = <[ecr_key e := e]> (objs w) ∧
    mine r e ∧ wf_revision e ∧ ecr_Version e = desired Hash r ∧
    ecrs_Resources (ecr_Spec e) = ecs_Resources (ec_Spec (rr_ec r)) ∧
    ecr_Status e = emptyECRStatus ∧
    let fs := [ByNodeID (NodeID r); ByVersion (desired Hash r); ByEnvoyAPI (EnvoyAPI r)] in
    ∀ items, List_revisions w' (Namespace r) (labelSelector fs) = inr items →
      Get w' (Namespace r) fs = inr e.
Proof.
  intros Hwf H. unfold Reconcile in H. rewrite DesiredVersion_eq in H.
  destruct (Get w _ _) as [err|ed] eqn:Eg;
    [|destruct (List_ w _ _); [done|by apply reconcile_list_result in H]].
  destruct (ErrorIsNoMatchesForFilter err) eqn:Enm; [|by repeat case_match].
  pose proof (no_match_none r _ _ Hwf Eg Enm) as Hnone.
  split; [done|].
  destruct (SetControllerReference _ _) as [|ecr] eqn:Es; [done|].
  destruct (Create_revision w ecr) as [[] w1] eqn:Ec; [done|]. injection H as <- <-.
  apply create_ok in Ec as (Hn & e & (Ek & El & Esp & Est & _) & Eo).
  apply set_reference_ok in Es as (Ek' & El' & Esp' & _).
  destruct (new_revision_wf (with_desired Hash r) e) as (Hm & Hw & Hv & Hr);
    [rewrite Ek, Ek'|rewrite El, El'|rewrite Esp, Esp'|]; [done..|].
  exists e. rewrite Ek. repeat (split; [done|]). intros fs items Hl.
  assert (∀ x, x ∈ items ↔ x = e) as Hx.
  { intros x. rewrite (list_elem _ _ _ _ x Hl). unfold fs. rewrite matching_desired, Eo. split.
    - intros [Ho [Hmx Hvx]]. destruct (decide (ecr_key x = ecr_key ecr)) as [E|E].
      + rewrite E, lookup_insert_eq in Ho. congruence.
      + rewrite lookup_insert_ne in Ho by done. destruct (Hnone x); [done|].
        destruct (Hwf _ _ Ho) as (_ & Hvx' & _). congruence.
    - intros ->. rewrite Ek, lookup_insert_eq. destruct Hw as (_ & -> & _). by rewrite Hv. }
  by eapply Get_singleton.
Qed.

(** [Reconcile] never panics: it dereferences no field before it is set
    and indexes no empty list. *)
Theorem reconcile_no_panic now r w : fst (fst (Reconcile Hash now r w)) ≠ Panic.
Proof.
  unfold Reconcile. rewrite DesiredVersion_eq. destruct (Get w _ _) as [err|ed].
  { repeat case_match; done. }
  destruct (List_ w _ _) as [err|items]; [done|]. unfold reconcile_list.
  rewrite DesiredVersion_eq.
  edestruct getVersionToPublish_ok as (pv & cs & -> & _); [done|].
  unfold isRevisionPublishedConditionReconciled, isRevisionRetentionReconciled. simpl.
  rewrite published_loop, retention_loop_spec. simpl. repeat case_match; done.
Qed.

(** More than one revision with the labels of the desired version is an
    error, and nothing is written. *)
Theorem reconcile_multiple now r w items :
  List_revisions w (Namespace r)
    (labelSelector [ByNodeID (NodeID r); ByVersion (desired Hash r);
                    ByEnvoyAPI (EnvoyAPI r)]) = inr items →
  1 < length items →
  ∃ err, Reconcile Hash now r w = (Err err, with_desired Hash r, w) ∧
    ErrorIsMultipleMatchesForFilter err = true.
Proof.
  intros Hl Hn. unfold Reconcile. rewrite DesiredVersion_eq. unfold Get.
  change (Namespace (with_desired Hash r)) with (Namespace r).
  change (NodeID (with_desired Hash r)) with (NodeID r).
  change (EnvoyAPI (with_desired Hash r)) with (EnvoyAPI r). rewrite Hl.
  destruct items as [|x [|y items]]; [simpl in *; lia..|]. eauto.
Qed.
(** ** The invariant *)

Definition same_identity e e' : Prop :=
  ecr_key e' = ecr_key e ∧ ecr_Labels e' = ecr_Labels e ∧ ecr_Spec e' = ecr_Spec e.

Lemma same_identity_wf e e' : same_identity e e' → wf_revision e → wf_revision e'.
Proof.
  unfold wf_revision, ecr_Version. intros (Ek & El & Es). rewrite El, Es.
  by injection Ek as _ ->.
Qed.

(** A call that changes at most the object it is made for, and neither its
    name nor its labels nor its spec, whatever it returns. *)
Definition safe_call (f : W → EnvoyConfigRevision → option error * W) : Prop :=
  ∀ w e res w', f w e = (res, w') →
    (∀ k x', objs w' !! k = Some x' → ∃ x, objs w !! k = Some x ∧ same_identity x x') ∧
    (∀ k, k ≠ ecr_key e → objs w' !! k = objs w !! k).

Lemma acts_safe f R :
  acts_on f R → (∀ w e err w', f w e = (Some err, w') → objs w' = objs w) →
  (∀ e o x', R e o (Some x') → ∃ x, o = Some x ∧ same_identity x x') → safe_call f.
Proof.
  intros Hf Herr HR w e [err|] w' H.
  { rewrite (Herr _ _ _ _ H). split; [|done]. intros k x' Hx. by exists x'. }
  destruct (Hf _ _ _ H) as [He Hne]. split; [|done]. intros k x' Hx.
  destruct (decide (k = ecr_key e)) as [->|Hk].
  - rewrite Hx in He. eauto.
  - exists x'. by rewrite <- Hne.
Qed.

Lemma status_update_safe : safe_call Status_Update.
Proof.
  eapply acts_safe; [apply status_update_acts|apply status_update_err|].
  intros e o x' (old & -> & [= ->]). by exists old.
Qed.

Lemma delete_safe : safe_call Delete_revision.
Proof.
  eapply acts_safe; [apply delete_acts|apply delete_err|].
  intros e o x' (old & -> & [[_ ?]|[_ [t [= ->]]]]); [done|]. by exists old.
Qed.

(** The revisions are well formed and the objects that are not of the node
    are as in [w0]. *)
Definition preserved r w0 w : Prop :=
  wf_cluster (objs w) ∧
  ∀ k x, objs w0 !! k = Some x → ¬ mine r x → objs w !! k = Some x.

Lemma safe_loop_preserves r w0 f w l res w' :
  safe_call f → (∀ e, e ∈ l → ∃ e0, stored r w0 e0 ∧ ecr_key e0 = ecr_key e) →
  each_until_error f w l = (res, w') → preserved r w0 w → preserved r w0 w'.
Proof.
  intros Hf Hl. apply each_preserves. clear w res w'. intros w e res w' He H [Hwf Hfr].
  destruct (Hf _ _ _ _ H) as [Hold Hne]. destruct (Hl _ He) as (e0 & [Ho Hm] & Ek). split.
  - intros k x' Hx'. destruct (Hold _ _ Hx') as (x & Hx & Hid).
    eapply same_identity_wf; [done|by eapply Hwf].
  - intros k x Hx Hnm. rewrite Hne; [by apply Hfr|]. intros ->. congruence.
Qed.

Lemma reconcile_list_preserves now r w items res r' w' :
  (∀ e, e ∈ items → stored r w e) →
  reconcile_list Hash now r w items = (res, r', w') →
  preserved r w w → preserved r w w'.
Proof.
  intros Hi H HP. unfold reconcile_list in H. rewrite DesiredVersion_eq in H.
  set (sorted := SortByPublication (desired Hash r) items) in *.
  assert (∀ e, e ∈ sorted → stored r w e) as Hs.
  { intros e He. apply Hi. by rewrite <- (SortByPublication_perm (desired Hash r)). }
  edestruct getVersionToPublish_ok as (pv & cs & E & _); [|rewrite E in H]; [done|].
  unfold isRevisionPublishedConditionReconciled, isRevisionRetentionReconciled in H.
  simpl in H. rewrite published_loop, retention_loop_spec in H. simpl in H.
  destruct (each_until_error Status_Update w _) as [res1 w1] eqn:H1.
  apply (safe_loop_preserves r w) in H1; [|apply status_update_safe| |done].
  2: { intros u (e & He & Hu)%list_elem_of_omap. apply to_false_keeps in Hu as (-> & _). eauto. }
  destruct res1; [by injection H as _ _ <-|].
  destruct (match last _ with Some e => Status_Update w1 e | None => (None, w1) end)
    as [res2 w2] eqn:H2.
  assert (preserved r w w2) as HP2.
  { destruct (last _) as [u|] eqn:El; [|by injection H2 as _ <-].
    eapply (safe_loop_preserves r w _ w1 [u] res2); [apply status_update_safe| | |done].
    - intros u' ->%list_elem_of_singleton.
      apply last_Some_elem_of, list_elem_of_omap in El as (e & He & Hu).
      apply to_true_keeps in Hu as (-> & _). eauto.
    - simpl. rewrite H2. by destruct res2. }
  destruct res2; [by injection H as _ _ <-|].
  destruct (each_until_error Delete_revision w2 _) as [res3 w3] eqn:H3.
  apply (safe_loop_preserves r w) in H3; [|apply delete_safe| |done].
  - destruct res3; by injection H as _ _ <-.
  - intros e He. exists e. split; [|done]. apply Hs. eapply elem_of_take in He as (? & ? & _).
    by eapply list_elem_of_lookup_2.
Qed.

(** C22: whatever [Reconcile] returns, it leaves the stored revisions well
    formed and does not change an object that is not a revision of its node. *)
Theorem reconcile_preserves now r w res r' w' :
  wf_cluster (objs w) →
  Reconcile Hash now r w = (res, r', w') →
  wf_cluster (objs w') ∧
  ∀ k x, objs w !! k = Some x → ¬ mine r x → objs w' !! k = Some x.
Proof.
  intros Hwf H. unfold Reconcile in H. rewrite DesiredVersion_eq in H.
  destruct (Get w _ _) as [err|ed].
  - destruct (ErrorIsNoMatchesForFilter err); [|by repeat case_match; simplify_eq/=].
    destruct (SetControllerReference _ _) as [|ecr] eqn:Es; [by simplify_eq/=|].
    destruct (Create_revision w ecr) as [[err'|] w1] eqn:Ec; simplify_eq/=.
    + by rewrite (create_err _ _ _ _ Ec).
    + apply create_ok in Ec as (Hn & e & (Ek & El & Esp & Est & _) & ->).
      apply set_reference_ok in Es as (Ek' & El' & Esp' & _).
      destruct (new_revision_wf (with_desired Hash r) e) as (_ & Hw & _);
        [rewrite Ek, Ek'|rewrite El, El'|rewrite Esp, Esp'|]; [done..|]. split.
      * by apply map_Forall_insert_2.
      * intros k x Hx _. rewrite lookup_insert_ne; [done|]. congruence.
  - destruct (List_ w _ _) as [err|items] eqn:El; [by simplify_eq/=|].
    apply List_ok in El as [El _].
    eapply (reconcile_list_preserves now (with_desired Hash r)) in H; [done| |by split].
    intros e He. by apply (list_elem _ _ _ _ e El).
Qed.
(** ** Idempotence *)

Lemma spec_less_with_published d now pv x y :
  spec_less d (with_published now pv x) (with_published now pv y) = spec_less d x y.
Proof.
  destruct (with_published_status now pv x) as [cx ->],
           (with_published_status now pv y) as [cy ->]. done.
Qed.

Lemma with_published_tainted now pv e :
  is_tainted_condition (with_published now pv e) = is_tainted_condition e.
Proof. apply is_true_ext, with_published_find. done. Qed.

Lemma with_published_key now pv e : ecr_key (with_published now pv e) = ecr_key e.
Proof. by destruct (with_published_status now pv e) as [cs ->]. Qed.

Lemma first_untainted_with_published now pv l :
  first_untainted (with_published now pv <$> l) = first_untainted l.
Proof.
  induction l as [|e l IH]; [done|]. rewrite fmap_cons. cbn [first_untainted].
  by rewrite with_published_tainted, with_published_version, IH.
Qed.

(** A reconciled revision needs no update. *)
Lemma with_published_done now now' pv e :
  to_false pv (with_published now pv e) = None ∧
  to_true now' pv (with_published now pv e) = None.
Proof.
  unfold to_false, to_true. rewrite with_published_condition, with_published_version.
  split; case_decide as H; try done; destruct H as [H1 H2].
  - apply bool_decide_eq_true in H2. congruence.
  - apply bool_decide_eq_false in H2. congruence.
Qed.

Lemma omap_with_published_nil (f : EnvoyConfigRevision → option EnvoyConfigRevision) now pv l :
  (∀ e, f (with_published now pv e) = None) → omap f (with_published now pv <$> l) = [].
Proof. intros Hf. induction l as [|e l IH]; simpl; [done|]. by rewrite Hf. Qed.

(** Revisions with different versions and dates have one order. *)
Lemma sorted_by_date_unique d l1 l2 :
  NoDup (ecr_Version <$> l1) → NoDup (publication_time <$> l1) → l1 ≡ₚ l2 →
  StronglySorted (λ x y, spec_less d y x = false) l1 →
  StronglySorted (λ x y, spec_less d y x = false) l2 → l1 = l2.
Proof.
  intros Hv Ht Hp H1 H2. eapply StronglySorted_unique_strong; [|done..].
  intros x y Hx Hy. rewrite <- Hp in Hy. unfold spec_less.
  repeat case_decide; try done.
  - intros _ _. eapply (NoDup_fmap_elem_inj ecr_Version); eauto. congruence.
  - rewrite !Z.ltb_ge. intros ??. eapply (NoDup_fmap_elem_inj publication_time); eauto. lia.
Qed.

(** The revisions stored after a reconcile that deleted nothing. *)
Lemma stored_after now r w r' w' sorted pv cs w2 x :
  reconciled Hash now r w r' w' sorted pv cs w2 → length sorted ≤ maxRevisions →
  stored r w' x ↔ x ∈ (with_published now pv <$> sorted).
Proof.
  intros R Hlen. rewrite list_elem_of_fmap. split.
  - intros [Ho Hm]. destruct R.
    replace (length sorted - maxRevisions) with 0 in rec_deletes by lia.
    injection rec_deletes as <-.
    destruct (decide (ecr_key x ∈ (ecr_key <$> sorted))) as [Hk|Hk].
    + apply list_elem_of_fmap in Hk as (e & Ek & He). exists e. split; [|done].
      rewrite Ek, (rec_updated e He) in Ho. congruence.
    + rewrite (rec_frame _ Hk) in Ho. destruct Hk. apply list_elem_of_fmap_2.
      by apply rec_elem.
  - intros (e & -> & He). split.
    + rewrite with_published_key. eapply kept_after; [done|].
      by replace (length sorted - maxRevisions) with 0 by lia.
    + apply with_published_mine. by apply (rec_elem _ _ _ _ _ _ _ _ _ _ R) in He as [_ ?].
Qed.

Lemma NoDup_with_published now pv l :
  NoDup (ecr_key <$> l) → NoDup (with_published now pv <$> l).
Proof.
  intros H. apply (NoDup_fmap_1 ecr_key). rewrite <- list_fmap_compose.
  rewrite (list_fmap_ext _ ecr_key l); [done|]. intros. apply with_published_key.
Qed.

(** The list the next reconcile sorts is the one this reconcile sorted. *)
Lemma sorted_after now r w r' w' sorted pv cs w2 items :
  reconciled Hash now r w r' w' sorted pv cs w2 → length sorted ≤ maxRevisions →
  NoDup (publication_time <$> sorted) →
  List_revisions w' (Namespace r) (labelSelector (node_filters r)) = inr items →
  SortByPublication (desired Hash r) items = with_published now pv <$> sorted.
Proof.
  intros R Hlen Ht Hl.
  assert (items ≡ₚ with_published now pv <$> sorted) as Hp.
  { apply NoDup_Permutation.
    - eapply NoDup_fmap_1, list_keys_NoDup; done.
    - apply NoDup_with_published, R.
    - intros x. rewrite <- (stored_after _ _ _ _ _ _ _ _ _ x R Hlen). by apply list_elem. }
  assert (∀ A (g : EnvoyConfigRevision → A),
            (∀ e, g (with_published now pv e) = g e) →
            g <$> (with_published now pv <$> sorted) = g <$> sorted) as Hext.
  { intros A g Hg. rewrite <- list_fmap_compose. apply list_fmap_ext. intros i x _. apply Hg. }
  assert (NoDup (ecr_Version <$> items)) as Hv.
  { rewrite Hp, Hext by apply with_published_version. apply R. }
  symmetry. apply (sorted_by_date_unique (desired Hash r)).
  - rewrite Hext by apply with_published_version. apply R.
  - rewrite Hext; [done|]. intros e. by destruct (with_published_status now pv e) as [? ->].
  - by rewrite SortByPublication_perm, Hp.
  - eapply StronglySorted_fmap; [|apply R]. intros x y. by rewrite spec_less_with_published.
  - by apply SortByPublication_sorted.
Qed.

Lemma Get_after now r w r' w' sorted pv cs w2 found :
  wf_cluster (objs w) →
  reconciled Hash now r w r' w' sorted pv cs w2 → length sorted ≤ maxRevisions →
  let fs := [ByNodeID (NodeID r); ByVersion (desired Hash r); ByEnvoyAPI (EnvoyAPI r)] in
  List_revisions w' (Namespace r) (labelSelector fs) = inr found →
  ∃ e, Get w' (Namespace r) fs = inr e.
Proof.
  intros Hwf R Hlen fs Hf.
  destruct (rec_desired _ _ _ _ _ _ _ _ _ _ R) as (top & Htop & Hd).
  apply last_Some_elem_of in Htop.
  assert (∀ e, e ∈ sorted → ecr_Labels (with_published now pv e) !! VersionTag =
                            Some (ecr_Version e)) as Hlab.
  { intros e He. destruct (with_published_status now pv e) as [? ->].
    apply (rec_elem _ _ _ _ _ _ _ _ _ _ R) in He as [Ho _]. apply (Hwf _ _ Ho). }
  exists (with_published now pv top). eapply Get_singleton; [done|]. intros x.
  rewrite (list_elem _ _ _ _ x Hf). unfold fs. rewrite matching_desired. split.
  - intros (Ho & Hm & Hv).
    assert (stored r w' x) as Hx by done.
    apply (stored_after _ _ _ _ _ _ _ _ _ _ R Hlen) in Hx.
    apply list_elem_of_fmap in Hx as (e & -> & He). f_equal.
    eapply (NoDup_fmap_elem_inj ecr_Version); [apply R|done..|].
    rewrite (Hlab e He) in Hv. congruence.
  - intros ->. rewrite (Hlab top Htop), Hd.
    apply and_assoc. split; [|done].
    eapply (stored_after _ _ _ _ _ _ _ _ _ _ R Hlen). by apply list_elem_of_fmap_2.
Qed.

(** Sorting again and finding every condition in place, the second half of
    [Reconcile] writes nothing. *)
Lemma reconcile_list_again now now2 r w sorted pv items :
  SortByPublication (desired Hash r) items = with_published now pv <$> sorted →
  pv = first_untainted (rev sorted) → length sorted ≤ maxRevisions →
  ∀ top, last sorted = Some top → ecr_Version top = desired Hash r →
  ∃ r'', reconcile_list Hash now2 r w items = (Ok emptyResult, r'', w) ∧
    rr_publishedVersion r'' = Some pv ∧
    rr_cacheState r'' = Some (if decide (pv = "") then RollbackFailedState
                              else if decide (pv = desired Hash r) then InSyncState
                              else RollbackState).
Proof.
  intros Hs Hpv Hlen top Htop Hd. unfold reconcile_list. rewrite DesiredVersion_eq, Hs.
  erewrite getVersionToPublish_spec;
    [|done|by rewrite fmap_last, Htop].
  rewrite rev_fmap, first_untainted_with_published, <- Hpv, with_published_version, Hd.
  unfold isRevisionPublishedConditionReconciled, isRevisionRetentionReconciled. simpl.
  rewrite published_loop, retention_loop_spec, length_fmap.
  rewrite !omap_with_published_nil
    by (intros e; by destruct (with_published_done now now2 pv e)). simpl.
  replace (length sorted - maxRevisions) with 0 by lia. simpl. eauto.
Qed.

End Theorems.

(** ** Concrete runs, on the API server in memory *)

#[global] Instance wf_revision_dec e : Decision (wf_revision e).
Proof. unfold wf_revision. apply _. Defined.

Module Runs.
#[local] Existing Instance memory_client.
#[local] Existing Instance conditions_impl.
#[local] Existing Instance owner_impl.

Definition hash (_ : option (list Resource)) : string := "r3".

Definition ec : EnvoyConfig :=
  mkEnvoyConfig (mkMeta "config" "ns" ∅ "" 0%Z None [])
    (mkEnvoyConfigSpec "node" None None None (Some []))
    (mkEnvoyConfigStatus None None None None None).

(** A stored revision of node [n], made at [created]. *)
Definition revision (n version : string) (created : Time) (tainted published : bool)
    : EnvoyConfigRevision :=
  mkEnvoyConfigRevision "" ""
    (mkMeta (revision_name n version) "ns"
       (<[NodeIDTag := n]> (<[VersionTag := version]> (<[EnvoyAPITag := APIv3]> ∅)))
       "" created None [EnvoyConfigRevisionFinalizer])
    (mkEnvoyConfigRevisionSpec n version (Some APIv3) None None (Some []))
    (mkEnvoyConfigRevisionStatus None None None None
       ((if tainted then [NewCondition RevisionTaintedCondition ConditionTrue "" ""] else []) ++
        (if published then [NewCondition RevisionPublishedCondition ConditionTrue "" ""]
         else []))).

Definition cluster (l : list EnvoyConfigRevision) : Memory :=
  mkMemory (list_to_map ((λ e, (ecr_key e, e)) <$> l)) 100%Z.

(** The desired version is tainted, another node has its own revision. *)
Definition before : Memory :=
  cluster [revision "node" "r1" 1%Z false false; revision "node" "r2" 2%Z false false;
           revision "node" "r3" 3%Z true true; revision "other" "r1" 1%Z false true].

Definition reconciler : RevisionReconciler := NewRevisionReconciler ec.
Definition run (m : Memory) := Reconcile hash 200%Z reconciler m.

(** Only the outcome of a run is ever evaluated, not the cluster it leaves. *)
Lemma run_result m res :
  fst (fst (run m)) = res → run m = (res, snd (fst (run m)), snd (run m)).
Proof. intros <-. by destruct (run m) as [[]]. Qed.

Definition listed (m : Memory) (fs : list RevisionFilter) : list EnvoyConfigRevision :=
  match List_revisions m (Namespace reconciler) (labelSelector fs) with
  | inr l => l
  | inl _ => []
  end.

Definition desired_filters : list RevisionFilter :=
  [ByNodeID (NodeID reconciler); ByVersion (desired hash reconciler);
   ByEnvoyAPI (EnvoyAPI reconciler)].

Lemma before_wf : wf_cluster (objs before).
Proof. apply (bool_decide_unpack _). vm_compute. exact I. Qed.

Lemma reconcile_publishes_one_witness :
  ∃ pv, rr_publishedVersion (snd (fst (run before))) = Some pv ∧
    ∀ k e, objs (snd (run before)) !! k = Some e → mine reconciler e →
      is_published_condition e = bool_decide (ecr_Version e = pv).
Proof.
  apply (reconcile_publishes_one hash 200%Z reconciler before
           (snd (fst (run before))) (snd (run before)) before_wf).
  apply (run_result before). vm_compute. reflexivity.
Defined.

Lemma reconcile_version_choice_witness :
  ∃ pv cs, rr_publishedVersion (snd (fst (run before))) = Some pv ∧
    rr_cacheState (snd (fst (run before))) = Some cs ∧ pv = "r2" ∧ cs = RollbackState.
Proof.
  assert (map_Forall (λ _ e, ecr_Version e ≠ "") (objs before)) as Hne
    by (apply (bool_decide_unpack _); vm_compute; exact I).
  destruct (reconcile_version_choice hash 200%Z reconciler before
              (snd (fst (run before))) (snd (run before)) before_wf)
    as (pv & cs & Hpv & Hcs & _).
  - intros e [Ho _]. exact (Hne _ _ Ho).
  - apply (run_result before). vm_compute. reflexivity.
  - exists pv, cs. split; [exact Hpv|]. split; [exact Hcs|].
    vm_compute in Hpv, Hcs. injection Hpv as <-. injection Hcs as <-. split; reflexivity.
Defined.

(** Twelve revisions of the node, the desired one among the oldest. *)
Definition many : Memory :=
  cluster ((λ i, revision "node" ("r" +:+ Itoa i) (10 + i)%Z false false) <$>
           [1; 2; 3; 4; 5; 6; 7; 8; 9; 10; 11; 12]%Z).

Lemma reconcile_retention_witness :
  ∃ kept, rr_revisionList (snd (fst (run many))) = Some kept ∧ length kept = 10 ∧
    ∃ e, e ∈ kept ∧ ecr_Version e = "r3".
Proof.
  assert (wf_cluster (objs many)) as Hwf
    by (apply (bool_decide_unpack _); vm_compute; exact I).
  destruct (reconcile_retention hash 200%Z reconciler many
              (snd (fst (run many))) (snd (run many)) Hwf)
    as (kept & Hk & _ & _ & _ & Hd & _).
  - apply (run_result many). vm_compute. reflexivity.
  - exists kept. split; [exact Hk|]. split; [|exact Hd].
    assert (length <$> rr_revisionList (snd (fst (run many))) = Some 10) as Hlen
      by (vm_compute; reflexivity).
    rewrite Hk in Hlen. injection Hlen as Hlen. exact Hlen.
Defined.

Definition without_desired : Memory := cluster [revision "node" "r1" 1%Z false true].

Lemma reconcile_creates_witness :
  ∃ e, objs (snd (run without_desired)) = <[ecr_key e := e]> (objs without_desired) ∧
       ecr_Version e = "r3".
Proof.
  assert (wf_cluster (objs without_desired)) as Hwf
    by (apply (bool_decide_unpack _); vm_compute; exact I).
  destruct (reconcile_creates hash 200%Z reconciler without_desired
              (snd (fst (run without_desired))) (snd (run without_desired)) Hwf)
    as (_ & e & _ & He & _ & _ & Hv & _).
  - apply (run_result without_desired). vm_compute. reflexivity.
  - exists e. exact (conj He Hv).
Defined.

Lemma reconcile_preserves_witness : wf_cluster (objs (snd (run before))).
Proof.
  apply (reconcile_preserves hash 200%Z reconciler before
           (fst (fst (run before))) (snd (fst (run before))) (snd (run before)) before_wf).
  exact (run_result before _ eq_refl).
Defined.

(** Two revisions with the labels of the desired version. *)
Definition duplicated : Memory :=
  let e := revision "node" "r3" 3%Z false false in
  cluster [e; set_ecr_meta e
                (mkMeta "another-name" "ns" (ecr_Labels e) "" 4%Z None [])].

Lemma reconcile_multiple_witness :
  ∃ err, run duplicated = (Err err, with_desired hash reconciler, duplicated) ∧
    ErrorIsMultipleMatchesForFilter err = true.
Proof.
  apply (reconcile_multiple hash 200%Z reconciler duplicated
           (listed duplicated desired_filters)).
  - reflexivity.
  - apply (bool_decide_unpack _). vm_compute. exact I.
Defined.


(** Eleven revisions, the ten newest tainted. *)
Definition tainted_but_oldest : Memory :=
  cluster (revision "node" "r0" 1%Z false false ::
           ((λ i, revision "node" ("r" +:+ Itoa i) (10 + i)%Z true false) <$>
            [1; 2; 3; 4; 5; 6; 7; 8; 9; 10]%Z)).

(** Retention does not spare the published revision.  With ten tainted
    revisions newer than the only untainted one, [Reconcile] publishes the
    untainted one, reports success with the state [Rollback] and in the same
    run marks that revision for deletion. *)
Theorem reconcile_deletes_published :
  let out := Reconcile hash 200%Z reconciler tainted_but_oldest in
  fst (fst out) = Ok emptyResult ∧
  rr_publishedVersion (snd (fst out)) = Some "r0" ∧
  rr_cacheState (snd (fst out)) = Some RollbackState ∧
  ∃ t, (λ e, (is_published_condition e, om_DeletionTimestamp (ecr_Meta e))) <$>
       objs (snd out) !! mkKey "ns" (revision_name "node" "r0") = Some (true, Some t).
Proof.
  intros out. split; [vm_compute; reflexivity|]. split; [vm_compute; reflexivity|].
  split; [vm_compute; reflexivity|]. eexists. vm_compute. reflexivity.
Qed.
End Runs.
