(* ===== verification/ConfigStatus.v ===== *)
(** * The EnvoyConfig controller
    ([pkg/reconcilers/marin3r/envoyconfig/status.go],
    [controllers/marin3r/envoyconfig_controller.go])

    [IsStatusReconciled] computes the status of an EnvoyConfig from what the
    revision reconciler found; it changes the object it is given and returns
    whether it already was right, so the model returns both.  [Reconcile] of
    the controller composes the conversion of deprecated resources, the
    revision reconciler and the status.

    [ManageResourceLifecycle], which reads the object and applies the two
    initialization functions, is code of the basereconciler library: it is an
    operation of the class [ConfigClient]. *)

From S2P Require Import Prelude Meta Envoy Api GoSort Cluster Revisions RevisionReconciler.
From S2P Require Import RevisionTheorems.

(** ** [status.go] *)

Definition revision_ref (ecr : EnvoyConfigRevision) : ConfigRevisionRef :=
  mkConfigRevisionRef (ecr_Version ecr)
    (mkObjectReference (ecr_APIVersion ecr) (ecr_Kind ecr) (om_Name (ecr_Meta ecr))
       (om_Namespace (ecr_Meta ecr)) (om_UID (ecr_Meta ecr))).

Definition generateRevisionList (items : list EnvoyConfigRevision) : list ConfigRevisionRef :=
  revision_ref <$> items.

Section Status.
Context {M : MetaConditions}.
Context (Hash : option (list Resource) → string).

(** The conditions the status function sets. *)
Definition out_of_sync : Condition :=
  NewCondition CacheOutOfSyncCondition ConditionTrue "CantPublishDesiredVersion"
    "Desired resources spec cannot be applied".
Definition in_sync : Condition :=
  NewCondition CacheOutOfSyncCondition ConditionFalse "DesiredVersionPublished"
    "Desired version successfully published".
Definition recovered : Condition :=
  NewCondition RollbackFailedCondition ConditionFalse "Recovered"
    "Recovered from RollbackFailed condition".
Definition all_tainted : Condition :=
  NewCondition RollbackFailedCondition ConditionTrue "AllRevisionsTainted"
    "All revisions are tainted, rollback failed".

(** A pointer field that must hold a value: the new field, and [ok]. *)
Definition reconcile_pointer (field : option string) (value : string)
    : option string * bool :=
  match field with
  | Some v => if decide (v = value) then (field, true) else (Some value, false)
  | None => (Some value, false)
  end.

Definition reconcile_out_of_sync (now : Time) (desiredVersion publishedVersion : string)
    (cs : list Condition) : list Condition * bool :=
  if decide (desiredVersion ≠ publishedVersion ∧
             IsStatusConditionTrue cs CacheOutOfSyncCondition = false)
  then (SetStatusCondition now cs out_of_sync, false)
  else if decide (desiredVersion = publishedVersion ∧
                  IsStatusConditionTrue cs CacheOutOfSyncCondition = true)
  then (SetStatusCondition now cs in_sync, false)
  else (cs, true).

Definition reconcile_rollback_failed (now : Time) (cacheState : string)
    (cs : list Condition) : list Condition * bool :=
  if decide (cacheState ≠ RollbackFailedState ∧
             IsStatusConditionTrue cs RollbackFailedCondition = true)
  then (SetStatusCondition now cs recovered, false)
  else if decide (cacheState = RollbackFailedState ∧
                  IsStatusConditionTrue cs RollbackFailedCondition = false)
  then (SetStatusCondition now cs all_tainted, false)
  else (cs, true).

(** The "temporary fix" for conditions without a message. *)
Definition reconcile_message (now : Time) (cs : list Condition) : list Condition * bool :=
  match FindStatusCondition cs RollbackFailedCondition with
  | Some cond =>
     if decide (c_Message cond = "") then
       (SetStatusCondition now cs
          (mkCondition (c_Type cond) (c_Status cond) (c_Reason cond)
             "Recovered from RollbackFailed condition" (c_LastTransitionTime cond)), false)
     else (cs, true)
  | None => (cs, true)
  end.

Definition IsStatusReconciled (now : Time) (ec : EnvoyConfig)
    (cacheState publishedVersion : string) (items : list EnvoyConfigRevision)
    : bool * EnvoyConfig :=
  let st := ec_Status ec in
  let revisionList := generateRevisionList items in
  let '(revs, ok1) :=
    if decide (ecst_ConfigRevisions st = Some revisionList)
    then (ecst_ConfigRevisions st, true) else (Some revisionList, false) in
  let desiredVersion := GetEnvoyResourcesVersion Hash ec in
  let '(published, ok2) := reconcile_pointer (ecst_PublishedVersion st) publishedVersion in
  let '(desired, ok3) := reconcile_pointer (ecst_DesiredVersion st) desiredVersion in
  let '(state, ok4) := reconcile_pointer (ecst_CacheState st) cacheState in
  let '(cs, ok5) := match ecst_Conditions st with
                    | None => ([], false)
                    | Some cs => (cs, true)
                    end in
  let '(cs, ok6) := reconcile_out_of_sync now desiredVersion publishedVersion cs in
  let '(cs, ok7) := reconcile_rollback_failed now cacheState cs in
  let '(cs, ok8) := reconcile_message now cs in
  (ok1 && ok2 && ok3 && ok4 && ok5 && ok6 && ok7 && ok8,
   mkEnvoyConfig (ec_Meta ec) (ec_Spec ec)
     (mkEnvoyConfigStatus state published desired (Some cs) revs)).
End Status.

(** ** [envoyconfig_controller.go] *)

Section Controller.
Context {C : Codecs}.

(** The function passed to [WithInMemoryInitializationFunc]. *)
Definition convert_resources (ec : EnvoyConfig) : error + EnvoyConfig :=
  match ecs_EnvoyResources (ec_Spec ec) with
  | Some inn =>
     match Resources inn (EnvoyConfig_GetSerialization ec) with
     | inl err => inl err
     | inr resources =>
        inr (mkEnvoyConfig (ec_Meta ec)
               (mkEnvoyConfigSpec (ecs_NodeID (ec_Spec ec)) (ecs_Serialization (ec_Spec ec))
                  (ecs_EnvoyAPI (ec_Spec ec)) None (Some resources))
               (ec_Status ec))
     end
  | None => inr ec
  end.
End Controller.

(** The part of the client and of the basereconciler library the controller
    uses on the EnvoyConfig itself.  [ManageResourceLifecycle] gets the
    defaulting function and the in-memory initialization; [inl] is a result
    whose [ShouldReturn] holds. *)
Class ConfigClient (W : Type) := {
  ManageResourceLifecycle :
    W → NamespacedName → (EnvoyConfig → EnvoyConfig) → (EnvoyConfig → error + EnvoyConfig) →
    (result Result + EnvoyConfig) * W;
  Status_Update_config : W → EnvoyConfig → option error * W;
}.

Section ControllerReconcile.
Context {C : Codecs} {W : Type} {K : RevisionClient W} {CC : ConfigClient W}.
Context {M : MetaConditions} {O : OwnerReferences}.
Context (Hash : option (list Resource) → string).

Definition EnvoyConfigReconciler_Reconcile (now : Time) (w : W) (req : NamespacedName)
    : result Result * W :=
  match ManageResourceLifecycle w req EnvoyConfig_Default convert_resources with
  | (inl res, w) => (res, w)
  | (inr ec, w) =>
     match Reconcile Hash now (NewRevisionReconciler ec) w with
     | (Err err, _, w) => (Err err, w)
     | (Panic, _, w) => (Panic, w)
     | (Ok reconcilerResult, revisionReconciler, w) =>
        if Requeue reconcilerResult then (Ok reconcilerResult, w)
        else
          match GetCacheState revisionReconciler, PublishedVersion revisionReconciler,
                GetRevisionList revisionReconciler with
          | Ok cacheState, Ok publishedVersion, Some items =>
             let '(ok, ec) := IsStatusReconciled Hash now ec cacheState publishedVersion items in
             if ok then (Ok emptyResult, w)
             else match Status_Update_config w ec with
                  | (Some err, w) => (Err err, w)
                  | (None, w) => (Ok emptyResult, w)
                  end
          | _, _, _ => (Panic, w)
          end
     end
  end.
End ControllerReconcile.

(** ** What the status says *)

Section StatusSpec.
Context {M : MetaConditions} {ML : MetaConditionsLaws M}.
Context (Hash : option (list Resource) → string).
Implicit Types (cs : list Condition) (now : Time).

Lemma reconcile_pointer_spec field value f' ok :
  reconcile_pointer field value = (f', ok) → f' = Some value ∧ (ok = true ↔ f' = field).
Proof. unfold reconcile_pointer. intros H. repeat case_match; naive_solver. Qed.

Lemma set_ne now cs c t :
  c_Type c = t → IsStatusConditionTrue cs t ≠ bool_decide (c_Status c = ConditionTrue) →
  SetStatusCondition now cs c ≠ cs.
Proof. intros <- H E. apply H. by rewrite <- (is_true_set_eq now cs c), E. Qed.

Lemma reconcile_out_of_sync_spec now d p cs cs' ok :
  reconcile_out_of_sync now d p cs = (cs', ok) →
  IsStatusConditionTrue cs' CacheOutOfSyncCondition = bool_decide (d ≠ p) ∧
  (∀ t, t ≠ CacheOutOfSyncCondition → FindStatusCondition cs' t = FindStatusCondition cs t) ∧
  (ok = true ↔ cs' = cs) ∧
  (IsStatusConditionTrue cs CacheOutOfSyncCondition = bool_decide (d ≠ p) → ok = true).
Proof.
  unfold reconcile_out_of_sync. case_decide as H1; [|case_decide as H2]; intros [= <- <-].
  - destruct H1 as [Hd Ht]. rewrite (is_true_set_eq now cs out_of_sync), Ht.
    rewrite !bool_decide_eq_true_2 by done. repeat split; try done.
    + intros t Ht'. by apply find_set_ne.
    + intros E. exfalso. revert E. apply (set_ne _ _ _ CacheOutOfSyncCondition); [done|]. by rewrite Ht.
  - destruct H2 as [Hd Ht]. rewrite (is_true_set_eq now cs in_sync), Ht.
    rewrite (bool_decide_eq_false_2 (d ≠ p)) by naive_solver. repeat split; try done.
    + intros t Ht'. by apply find_set_ne.
    + intros E. exfalso. revert E. apply (set_ne _ _ _ CacheOutOfSyncCondition); [done|]. by rewrite Ht.
  - repeat split; try done. destruct (IsStatusConditionTrue cs _); symmetry.
    + apply bool_decide_eq_true. naive_solver.
    + apply bool_decide_eq_false. naive_solver.
Qed.

Lemma reconcile_rollback_failed_spec now s cs cs' ok :
  reconcile_rollback_failed now s cs = (cs', ok) →
  IsStatusConditionTrue cs' RollbackFailedCondition = bool_decide (s = RollbackFailedState) ∧
  (∀ t, t ≠ RollbackFailedCondition → FindStatusCondition cs' t = FindStatusCondition cs t) ∧
  (ok = true ↔ cs' = cs) ∧
  (IsStatusConditionTrue cs RollbackFailedCondition = bool_decide (s = RollbackFailedState) →
   ok = true).
Proof.
  unfold reconcile_rollback_failed. case_decide as H1; [|case_decide as H2]; intros [= <- <-].
  - destruct H1 as [Hd Ht]. rewrite (is_true_set_eq now cs recovered), Ht.
    rewrite (bool_decide_eq_false_2 (s = _)) by done. repeat split; try done.
    + intros t Ht'. by apply find_set_ne.
    + intros E. exfalso. revert E. apply (set_ne _ _ _ RollbackFailedCondition); [done|]. by rewrite Ht.
  - destruct H2 as [Hd Ht]. rewrite (is_true_set_eq now cs all_tainted), Ht.
    rewrite !bool_decide_eq_true_2 by done. repeat split; try done.
    + intros t Ht'. by apply find_set_ne.
    + intros E. exfalso. revert E. apply (set_ne _ _ _ RollbackFailedCondition); [done|]. by rewrite Ht.
  - repeat split; try done. destruct (IsStatusConditionTrue cs _); symmetry.
    + apply bool_decide_eq_true. destruct (decide (s = RollbackFailedState)); naive_solver.
    + apply bool_decide_eq_false. naive_solver.
Qed.

Definition has_message cs : Prop :=
  ∀ c, FindStatusCondition cs RollbackFailedCondition = Some c → c_Message c ≠ "".

Lemma reconcile_message_spec now cs cs' ok :
  reconcile_message now cs = (cs', ok) →
  has_message cs' ∧
  (∀ t, t ≠ RollbackFailedCondition → FindStatusCondition cs' t = FindStatusCondition cs t) ∧
  IsStatusConditionTrue cs' RollbackFailedCondition =
    IsStatusConditionTrue cs RollbackFailedCondition ∧
  (ok = true ↔ cs' = cs) ∧ (has_message cs → ok = true).
Proof.
  unfold reconcile_message, has_message.
  destruct (FindStatusCondition cs RollbackFailedCondition) as [c|] eqn:Ec.
  - pose proof (find_type _ _ _ Ec) as Ht.
    case_decide as Hm; intros [= <- <-].
    + set (c' := mkCondition _ _ _ _ _).
      destruct (find_set_eq now cs c') as (c'' & E & _ & Es & _ & Em).
      change (c_Type c') with (c_Type c) in E. rewrite Ht in E. rewrite E.
      split; [intros ? [= <-]; by rewrite Em|].
      split; [intros t Hne; apply find_set_ne; simpl; congruence|].
      split; [by rewrite (is_true_find_some _ _ _ E), (is_true_find_some _ _ _ Ec), Es|].
      split; [|naive_solver]. split; [done|]. intros Eq. exfalso.
      rewrite Eq, Ec in E. injection E as ->. by rewrite Em in Hm.
    + rewrite Ec. naive_solver.
  - intros [= <- <-]. rewrite Ec. naive_solver.
Qed.

(** The conditions after the three steps, and when nothing changed. *)
Lemma conditions_steps now d p st cs0 cs1 cs2 cs3 ok6 ok7 ok8 :
  reconcile_out_of_sync now d p cs0 = (cs1, ok6) →
  reconcile_rollback_failed now st cs1 = (cs2, ok7) →
  reconcile_message now cs2 = (cs3, ok8) →
  IsStatusConditionTrue cs3 CacheOutOfSyncCondition = bool_decide (d ≠ p) ∧
  IsStatusConditionTrue cs3 RollbackFailedCondition = bool_decide (st = RollbackFailedState) ∧
  has_message cs3 ∧ (ok6 && ok7 && ok8 = true ↔ cs3 = cs0).
Proof.
  intros (T6 & F6 & O6 & S6)%reconcile_out_of_sync_spec
         (T7 & F7 & O7 & S7)%reconcile_rollback_failed_spec
         (M8 & F8 & T8 & O8 & S8)%reconcile_message_spec.
  assert (IsStatusConditionTrue cs3 CacheOutOfSyncCondition = bool_decide (d ≠ p)) as T.
  { rewrite <- T6. apply is_true_ext. by rewrite F8, F7. }
  split; [done|]. split; [by rewrite T8|]. split; [done|].
  rewrite !andb_true_iff. split.
  - intros [[->%O6 ->%O7] ->%O8]. done.
  - intros ->. assert (ok6 = true) as H6 by auto. assert (cs1 = cs0) as -> by by apply O6.
    assert (ok7 = true) as H7 by (apply S7; congruence).
    assert (cs2 = cs0) as -> by by apply O7. auto.
Qed.

(** The status is what the revision reconciler found. *)
Record status_right (ec : EnvoyConfig) (cacheState publishedVersion : string)
    (items : list EnvoyConfigRevision) cs : Prop := {
  sr_conditions : ecst_Conditions (ec_Status ec) = Some cs;
  sr_state : ecst_CacheState (ec_Status ec) = Some cacheState;
  sr_published : ecst_PublishedVersion (ec_Status ec) = Some publishedVersion;
  sr_desired : ecst_DesiredVersion (ec_Status ec) = Some (GetEnvoyResourcesVersion Hash ec);
  sr_revisions : ecst_ConfigRevisions (ec_Status ec) = Some (revision_ref <$> items);
  sr_out_of_sync :
    IsStatusConditionTrue cs CacheOutOfSyncCondition =
    bool_decide (GetEnvoyResourcesVersion Hash ec ≠ publishedVersion);
  sr_rollback_failed :
    IsStatusConditionTrue cs RollbackFailedCondition =
    bool_decide (cacheState = RollbackFailedState);
  sr_message : has_message cs;
}.

Lemma IsStatusReconciled_spec now ec state published items ok ec' :
  IsStatusReconciled Hash now ec state published items = (ok, ec') →
  (∃ cs, status_right ec' state published items cs) ∧
  ec_Meta ec' = ec_Meta ec ∧ ec_Spec ec' = ec_Spec ec ∧
  (ok = true ↔ ec' = ec).
Proof.
  unfold IsStatusReconciled. destruct ec as [m sp [s0 p0 d0 c0 r0]]; simpl.
  destruct (if decide (r0 = Some (generateRevisionList items)) then _ else _)
    as [revs ok1] eqn:E1.
  destruct (reconcile_pointer p0 published) as [p1 ok2] eqn:E2.
  destruct (reconcile_pointer d0 _) as [d1 ok3] eqn:E3.
  destruct (reconcile_pointer s0 state) as [s1 ok4] eqn:E4.
  destruct (match c0 with Some cs => (cs, true) | None => ([], false) end)
    as [cs0 ok5] eqn:E5.
  destruct (reconcile_out_of_sync _ _ _ cs0) as [cs1 ok6] eqn:E6.
  destruct (reconcile_rollback_failed _ _ cs1) as [cs2 ok7] eqn:E7.
  destruct (reconcile_message _ cs2) as [cs3 ok8] eqn:E8.
  intros [= <- <-].
  apply reconcile_pointer_spec in E2 as [-> O2], E3 as [-> O3], E4 as [-> O4].
  destruct (conditions_steps _ _ _ _ _ _ _ _ _ _ _ E6 E7 E8) as (T6 & T7 & M8 & O).
  assert (revs = Some (revision_ref <$> items) ∧ (ok1 = true ↔ revs = r0)) as [-> O1].
  { unfold generateRevisionList in E1. case_decide; naive_solver. }
  assert (ok5 = true ↔ c0 = Some cs0) as O5 by (destruct c0; naive_solver).
  split; [by exists cs3|split; [done|split; [done|]]].
  assert (ok1 && ok2 && ok3 && ok4 && ok5 && ok6 && ok7 && ok8 =
          ok1 && ok2 && ok3 && ok4 && ok5 && (ok6 && ok7 && ok8)) as ->
    by (by rewrite !andb_assoc).
  rewrite (andb_true_iff _ (ok6 && ok7 && ok8)), O, !andb_true_iff, O1, O2, O3, O4, O5.
  split.
  - intros [((((-> & ->) & ->) & ->) & ->) ->]. done.
  - intros [= -> -> -> Hc ->]. destruct c0; simplify_eq/=. done.
Qed.

(** The function has nothing to do exactly when the status is right. *)
Lemma status_right_ok now ec state published items cs :
  status_right ec state published items cs →
  fst (IsStatusReconciled Hash now ec state published items) = true.
Proof.
  intros []. unfold IsStatusReconciled.
  rewrite sr_revisions0, sr_published0, sr_desired0, sr_state0, sr_conditions0.
  unfold reconcile_pointer, generateRevisionList.
  rewrite !decide_True by done.
  destruct (reconcile_out_of_sync _ _ _ cs) as [cs1 ok6] eqn:E6.
  destruct (reconcile_rollback_failed _ _ cs1) as [cs2 ok7] eqn:E7.
  destruct (reconcile_message _ cs2) as [cs3 ok8] eqn:E8. simpl.
  apply reconcile_out_of_sync_spec in E6 as (_ & _ & O6 & S6).
  rewrite (S6 sr_out_of_sync0) in *. assert (cs1 = cs) as -> by by apply O6.
  apply reconcile_rollback_failed_spec in E7 as (_ & _ & O7 & S7).
  rewrite (S7 sr_rollback_failed0) in *. assert (cs2 = cs) as -> by by apply O7.
  apply reconcile_message_spec in E8 as (_ & _ & _ & _ & S8). by rewrite (S8 sr_message0).
Qed.

(** The status of an EnvoyConfig.  After [IsStatusReconciled] the status
    holds the cache state, the published and the desired version and the
    references of the revisions; [CacheOutOfSync] is true exactly when the
    desired version is not the published one, [RollbackFailed] exactly in the
    state [RollbackFailed].  It returns true exactly when it changed nothing,
    and a second call with the same arguments returns true. *)
Theorem status_reconciled now now' ec state published items ok ec' :
  IsStatusReconciled Hash now ec state published items = (ok, ec') →
  (∃ cs, status_right ec' state published items cs) ∧
  (ok = true ↔ ec' = ec) ∧
  IsStatusReconciled Hash now' ec' state published items = (true, ec').
Proof.
  intros H. apply IsStatusReconciled_spec in H as ([cs Hcs] & Hm & Hs & Hok).
  split; [eauto|]. split; [done|].
  pose proof (status_right_ok now' _ _ _ _ _ Hcs) as Hok'.
  destruct (IsStatusReconciled Hash now' ec' state published items) as [ok2 ec2] eqn:E.
  simpl in Hok'. subst ok2. apply IsStatusReconciled_spec in E as (_ & _ & _ & Hec2).
  f_equal. by apply Hec2.
Qed.
End StatusSpec.

Lemma status_reconciled_witness :
  let M := conditions_impl in
  let H := λ _ : option (list Resource), "v2" in
  let ec' := snd (IsStatusReconciled H 7%Z example_config RollbackState "v1" []) in
  IsStatusReconciled H 9%Z ec' RollbackState "v1" [] = (true, ec').
Proof.
  intros M H ec'.
  apply (status_reconciled (M := M) H 7%Z 9%Z example_config RollbackState "v1" []
           false ec').
  vm_compute. reflexivity.
Defined.

Section ControllerSpec.
Context {C : Codecs} {W : Type} {K : RevisionClient W} {L : RevisionClientLaws K}.
Context {CC : ConfigClient W} {M : MetaConditions} {ML : MetaConditionsLaws M}.
Context {O : OwnerReferences} {OL : OwnerReferencesLaws O}.
Context (Hash : option (list Resource) → string).

Lemma Reconcile_result now r w res r' w' :
  Reconcile Hash now r w = (Ok res, r', w') → Requeue res = false → res = emptyResult.
Proof.
  unfold Reconcile, reconcile_list. intros H Hq. repeat case_match; by simplify_eq/=.
Qed.

(** C24: a run of the EnvoyConfig controller that ends without error and
    without asking for another run has reconciled the revisions, and the
    EnvoyConfig it leaves (stored by a status update, or already stored) has
    the right status for them; there [CacheOutOfSync] is true exactly when
    the cache state is not [InSync]. *)
Theorem controller_status now w req w' ec w0 :
  ManageResourceLifecycle w req EnvoyConfig_Default convert_resources = (inr ec, w0) →
  wf_cluster (objs w0) →
  (∀ k e, objs w0 !! k = Some e → ecr_Version e ≠ "") →
  EnvoyConfigReconciler_Reconcile Hash now w req = (Ok emptyResult, w') →
  ∃ r' w1 pv state kept ec' cs,
    Reconcile Hash now (NewRevisionReconciler ec) w0 = (Ok emptyResult, r', w1) ∧
    rr_publishedVersion r' = Some pv ∧ rr_cacheState r' = Some state ∧
    rr_revisionList r' = Some kept ∧
    (ec' = ec ∧ w' = w1 ∨ Status_Update_config w1 ec' = (None, w')) ∧
    status_right Hash ec' state pv kept cs ∧
    IsStatusConditionTrue cs CacheOutOfSyncCondition = bool_decide (state ≠ InSyncState).
Proof.
  intros Hm Hwf Hne H. unfold EnvoyConfigReconciler_Reconcile in H. rewrite Hm in H.
  destruct (Reconcile Hash now _ w0) as [[[res|err|] r'] w1] eqn:Er; [|done..].
  destruct (Requeue res) eqn:Eq; [by simplify_eq/=|].
  pose proof (Reconcile_result _ _ _ _ _ _ Er Eq) as ->.
  destruct (Reconcile_done _ _ _ _ _ _ Hwf Er) as (sorted & pv & state & w2 & []).
  rewrite rec_fields in H. simpl in H.
  set (kept := drop _ sorted) in *.
  destruct (IsStatusReconciled Hash now ec state pv kept) as [ok ec'] eqn:Es.
  apply IsStatusReconciled_spec in Es as ([cs Hcs] & _ & Hsp & Hok).
  exists r', w1, pv, state, kept, ec', cs. rewrite rec_fields. do 4 (split; [done|]).
  split; [|split; [done|]].
  - destruct ok; simplify_eq/=; [left; split; [by apply Hok|done]|right].
    destruct (Status_Update_config w1 ec') as [[]]; by simplify_eq/=.
  - rewrite (sr_out_of_sync _ _ _ _ _ _ Hcs). destruct rec_desired as (e & He & Hv).
    assert (desired Hash (NewRevisionReconciler ec) ≠ "") as Hd.
    { apply last_Some_elem_of, rec_elem in He as [Ho _]. rewrite <- Hv. by eapply Hne. }
    unfold GetEnvoyResourcesVersion. rewrite Hsp.
    change (Hash _) with (desired Hash (NewRevisionReconciler ec)).
    apply bool_decide_ext. rewrite rec_cs. clear -Hd.
    repeat case_decide; split; intros ?; done || congruence.
Qed.
End ControllerSpec.

(** A server that hands out one EnvoyConfig and accepts every status update. *)
Definition memory_config_client (ec : EnvoyConfig) : ConfigClient Memory := {|
  ManageResourceLifecycle m req default init :=
    match init (default ec) with
    | inl err => (inl (Err err), m)
    | inr ec => (inr ec, m)
    end;
  Status_Update_config m ec := (None, m);
|}.

Lemma controller_status_witness :
  let C := identity_codecs in let K := memory_client in let M := conditions_impl in
  let O := owner_impl in let CC := memory_config_client Runs.ec in
  ∃ r' w1 ec' cs,
    Reconcile Runs.hash 200%Z (NewRevisionReconciler (EnvoyConfig_Default Runs.ec)) Runs.before
      = (Ok emptyResult, r', w1) ∧
    status_right Runs.hash ec' RollbackState "r2" (default [] (rr_revisionList r')) cs.
Proof.
  intros C K M O CC.
  assert (map_Forall (λ _ e, ecr_Version e ≠ "") (objs Runs.before)) as Hne
    by (apply (bool_decide_unpack _); vm_compute; exact I).
  set (out := EnvoyConfigReconciler_Reconcile Runs.hash 200%Z Runs.before (mkKey "ns" "config")).
  destruct (controller_status (CC := CC) Runs.hash 200%Z Runs.before (mkKey "ns" "config")
              (snd out) (EnvoyConfig_Default Runs.ec) Runs.before)
    as (r' & w1 & pv & state & kept & ec' & cs & Hr & Hpv & Hst & Hk & _ & Hs & _).
  - reflexivity.
  - apply Runs.before_wf.
  - exact Hne.
  - transitivity (fst out, snd out); [apply surjective_pairing|].
    apply (f_equal (λ r, (r, snd out))). vm_compute. reflexivity.
  - exists r', w1, ec', cs. split; [exact Hr|]. rewrite Hk. simpl.
    pose (run := Reconcile Runs.hash 200%Z
                   (NewRevisionReconciler (EnvoyConfig_Default Runs.ec)) Runs.before).
    assert (rr_publishedVersion (snd (fst run)) = Some "r2" ∧
            rr_cacheState (snd (fst run)) = Some RollbackState) as [Hp Hc]
      by (split; vm_compute; reflexivity).
    unfold run in Hp, Hc. rewrite Hr in Hp, Hc. simpl in Hp, Hc.
    rewrite Hpv in Hp. rewrite Hst in Hc. injection Hp as <-. injection Hc as <-. exact Hs.
Defined.
