(* ===== verification/Stats.v ===== *)
(** * Discovery statistics ([pkg/discoveryservice/xdss/stats])

    The discovery service counts requests, ACKs and NACKs per node, resource
    type, version and pod in a [go-cache] store, under keys that are the five
    parts joined with colons, and looks keys up again by substring.  The
    store is a library: [GoCache] is its interface and [GoCacheLaws] what its
    documentation says, in terms of the items that have not expired at a given
    time.

    The counters are [int64] and wrap around. *)

From S2P Require Import Prelude Meta.
From Stdlib Require Import QArith.
#[local] Open Scope string_scope.
#[local] Open Scope list_scope.

(** ** The store *)

(** What the code puts in an [interface{}]. *)
Inductive Object := ObjString (s : string) | ObjInt64 (z : Z).
#[global] Instance Object_eq_dec : EqDecision Object.
Proof. solve_decision. Defined.

(** [Items c now] are the objects of the items of [c] not expired at [now]. *)
Class GoCache (C : Type) := {
  cache_New : C;
  cache_Items : C → Time → gmap string Object;
  cache_Get : C → Time → string → option Object;
  cache_Set : C → Time → string → Object → Z → C;
  cache_SetDefault : C → Time → string → Object → C;
  cache_Delete : C → string → C;
}.

(** The default expiration of the program's cache is 0, which the library
    takes as "never"; an item set with a duration [d] has expired once the
    time is past the time it was set plus [d]. *)
Class GoCacheLaws {C} (G : GoCache C) : Prop := {
  items_New t : cache_Items cache_New t = ∅;
  get_items c t k : cache_Get c t k = cache_Items c t !! k;
  items_Set c t k v d t' :
    (0 < d)%Z → (t ≤ t')%Z →
    cache_Items (cache_Set c t k v d) t' =
    if decide (t' ≤ t + d)%Z then <[k := v]> (cache_Items c t') else delete k (cache_Items c t');
  items_SetDefault c t k v t' :
    (t ≤ t')%Z → cache_Items (cache_SetDefault c t k v) t' = <[k := v]> (cache_Items c t');
  items_Delete c k t : cache_Items (cache_Delete c k) t = delete k (cache_Items c t);
  items_expire c t t' k v :
    (t ≤ t')%Z → cache_Items c t' !! k = Some v → cache_Items c t !! k = Some v;
}.

(** ** [kv.go] *)

Record Key := mkStatKey {
  k_NodeID : string;
  k_ResourceType : string;
  k_Version : string;
  k_PodID : string;
  k_StatName : string;
}.
#[global] Instance Key_eq_dec : EqDecision Key.
Proof. solve_decision. Defined.

Definition NewKey (nodeID rType version podID statName : string) : Key :=
  mkStatKey nodeID rType version podID statName.

(** Indexing [values] past its end panics; [values[4:]] does not when there
    are exactly four. *)
Definition NewKeyFromString (key : string) : result Key :=
  match Split ":" key with
  | nodeID :: rType :: version :: podID :: rest =>
     Ok (mkStatKey nodeID rType version podID (Join rest ":"))
  | _ => Panic
  end.

Definition Key_String (k : Key) : string :=
  Join [k_NodeID k; k_ResourceType k; k_Version k; k_PodID k; k_StatName k] ":".

Section Stats.
Context {C : Type} {G : GoCache C}.
Implicit Types (s : C) (now : Time) (nodeID rType version podID statName : string).

Definition GetString s now nodeID rType version podID statName : result string :=
  let k := Key_String (NewKey nodeID rType version podID statName) in
  match cache_Get s now k with
  | Some (ObjString value) => Ok value
  | Some _ => Err (ErrorString ("value of key '" +:+ k +:+ "' is not a string"))
  | None => Err (ErrorString ("key " +:+ k +:+ " not found"))
  end.

Definition SetString s now nodeID rType version podID statName (value : string) : C :=
  cache_SetDefault s now (Key_String (NewKey nodeID rType version podID statName))
    (ObjString value).

Definition SetStringWithExpiration s now nodeID rType version podID statName
    (value : string) (expiration : Z) : C :=
  cache_Set s now (Key_String (NewKey nodeID rType version podID statName))
    (ObjString value) expiration.

Definition SetInt64 s now nodeID rType version podID statName (value : Z) : C :=
  cache_SetDefault s now (Key_String (NewKey nodeID rType version podID statName))
    (ObjInt64 value).

Definition GetCounter s now nodeID rType version podID statName : result Z :=
  let k := Key_String (NewKey nodeID rType version podID statName) in
  match cache_Get s now k with
  | Some (ObjInt64 value) => Ok value
  | Some _ => Err (ErrorString ("value of key '" +:+ k +:+ "' is not an int"))
  | None => Err (ErrorString ("key " +:+ k +:+ " not found"))
  end.

(** The value returned beside an error is 0. *)
Definition counter_or_zero (r : result Z) : Z := match r with Ok v => v | _ => 0%Z end.

Definition IncrementCounter s now nodeID rType version podID statName (increment : Z) : C :=
  let counter := counter_or_zero (GetCounter s now nodeID rType version podID statName) in
  cache_SetDefault s now (Key_String (NewKey nodeID rType version podID statName))
    (ObjInt64 (int64 (counter + increment))).

Definition key_selected (filters : list string) (key : string) : bool :=
  forallb (λ filter, Contains key filter) filters.

Definition FilterKeys s now (filters : list string) : gmap string Object :=
  filter (λ kv, key_selected filters (fst kv) = true) (cache_Items s now).

(** Go does not fix the order of the keys; see [DeleteKeysByFilter_items]. *)
Definition DeleteKeysByFilter s now (filters : list string) : C :=
  fold_left (λ s k, cache_Delete s k) (map_to_list (FilterKeys s now filters)).*1 s.

Definition DumpAll s now : gmap string Object := cache_Items s now.

(** ** [stats.go] *)

Definition WriteResponseNonce s now nodeID rType version podID (nonce : string) : C :=
  SetStringWithExpiration s now nodeID rType version podID ("nonce:" +:+ nonce) ""
    (10 * Second)%Z.

Definition ReportNACK s now nodeID rType podID (nonce : string) : result Z * C :=
  match map_to_list (FilterKeys s now [nodeID; rType; podID; "nonce:" +:+ nonce]) with
  | [(k, _)] =>
     match NewKeyFromString k with
     | Ok key =>
        let version := k_Version key in
        let s := IncrementCounter s now nodeID rType version podID "nack_counter" 1 in
        let s := IncrementCounter s now nodeID rType "*" podID "nack_counter" 1 in
        (GetCounter s now nodeID rType version podID "nack_counter", s)
     | Err e => (Err e, s)
     | Panic => (Panic, s)
     end
  | _ => (Err (ErrorString
            "error reporting failure: unexpected number of nonces in the cache"), s)
  end.

(** [Time.UnixMilli]; the Unix epoch is 62135596800 seconds after the zero time. *)
Definition UnixMilli now : Z := ((now - 62135596800 * Second) / 1000000)%Z.

Definition ReportACK s now nodeID rType version podID : C :=
  let s := IncrementCounter s now nodeID rType version podID "ack_counter" 1 in
  let s := IncrementCounter s now nodeID rType "*" podID "ack_counter" 1 in
  SetInt64 s now nodeID rType version podID "info" (UnixMilli now).

Definition ReportRequest s now nodeID rType podID : C :=
  IncrementCounter s now nodeID rType "*" podID "request_counter" 1.

(** The pods of the selected keys; the map's values are always 1. *)
Definition GetSubscribedPods s now nodeID rType : result (gset string) :=
  let filters := ["request_counter"] ++
                 (if decide (nodeID ≠ "") then [nodeID] else []) ++
                 (if decide (rType ≠ "") then [rType] else []) in
  pods ← mapR (λ kv, key ← NewKeyFromString (fst kv); Ok (k_PodID key))
              (map_to_list (FilterKeys s now filters));
  Ok (list_to_set pods).

Definition pod_failing s now nodeID rType version (pod : string) : bool :=
  match GetCounter s now nodeID rType version pod "nack_counter" with
  | Ok v => (5 <=? v)%Z
  | _ => false
  end.

(** The quotient of two [int]s as [float64]; 0/0 is NaN, which becomes 0. *)
Definition GetPercentageFailing s now nodeID rType version : result Q :=
  pods ← GetSubscribedPods s now nodeID rType;
  let failing := length (List.filter (pod_failing s now nodeID rType version) (elements pods)) in
  match size pods with
  | O => Ok 0%Q
  | S n => Ok (Z.of_nat failing # Pos.of_succ_nat n)%Q
  end.

(** ** [garbage_collector.go] *)

(** The events of the informer: a pod, or another object (a tombstone). *)
Inductive DeletedObject := DeletedPod (name : string) | OtherObject.

Definition deleteStatsForDeletedPodsFn s now (obj : DeletedObject) : C :=
  match obj with
  | DeletedPod name => DeleteKeysByFilter s now [name]
  | OtherObject => s
  end.
End Stats.

(** [GetStringValueFromMetadata]: the metadata values that are strings are
    [Some]. *)
Definition GetStringValueFromMetadata (meta : gmap string (option string)) (key : string)
    : result string :=
  match meta !! key with
  | None => Err (ErrorString "missing 'pod_name' in node's metadata")
  | Some None => Err (ErrorString "metadata value is not a string")
  | Some (Some v) => Ok v
  end.

(** ** [metrics_collector.go] *)

Inductive Metric :=
  | RequestCount (value : Z) (node_id resource_type pod_name : string)
  | AckCount (value : Z) (node_id resource_type pod_name : string)
  | NackCount (value : Z) (node_id resource_type pod_name : string)
  | Info (node_id resource_type pod_name version : string).

(** [v.Object.(int64)]. *)
Definition as_int64 (o : Object) : result Z :=
  match o with ObjInt64 z => Ok z | ObjString _ => Panic end.

(** The body of the first loop of [Collect]. *)
Definition counter_metric (kv : string * Object) : result (list Metric) :=
  key ← NewKeyFromString (fst kv);
  let metric := k_StatName key +:+ "/" +:+ k_Version key in
  let emit (c : Z → string → string → string → Metric) :=
    v ← as_int64 (snd kv);
    Ok [c v (k_NodeID key) (k_ResourceType key) (k_PodID key)] in
  if decide (metric = "request_counter/*") then emit RequestCount
  else if decide (metric = "ack_counter/*") then emit AckCount
  else if decide (metric = "nack_counter/*") then emit NackCount
  else Ok [].

Record currentVersion := mkCurrentVersion { cv_version : string; cv_ts : Z }.

(** The body of the second loop. *)
Definition info_step (info : gmap string currentVersion) (kv : string * Object)
    : result (gmap string currentVersion) :=
  key ← NewKeyFromString (fst kv);
  if decide (k_StatName key = "info") then
    let version := k_Version key in
    let k := Key_String (mkStatKey (k_NodeID key) (k_ResourceType key) "*"
                           (k_PodID key) (k_StatName key)) in
    ts ← as_int64 (snd kv);
    match info !! k with
    | Some cv =>
       if (cv_ts cv <? ts)%Z then Ok (<[k := mkCurrentVersion version ts]> info) else Ok info
    | None => Ok (<[k := mkCurrentVersion version ts]> info)
    end
  else Ok info.

Fixpoint foldR {A B} (f : A → B → result A) (a : A) (l : list B) : result A :=
  match l with [] => Ok a | x :: l => a ← f a x; foldR f a l end.

Definition info_metric (kv : string * currentVersion) : result Metric :=
  key ← NewKeyFromString (fst kv);
  Ok (Info (k_NodeID key) (k_ResourceType key) (k_PodID key) (cv_version (snd kv))).

(** [Collect], with the metrics it sends on the channel. *)
Definition Collect {C} {G : GoCache C} (s : C) (now : Time) : result (list Metric) :=
  let items := map_to_list (DumpAll s now) in
  counters ← mapR counter_metric items;
  info ← foldR info_step ∅ items;
  infos ← mapR info_metric (map_to_list info);
  Ok (concat counters ++ infos).

(** ** Keys *)

(** The parts of a key before the name of the stat contain no colon. *)
Definition colon_free (k : Key) : Prop :=
  no_sep ":" (k_NodeID k) ∧ no_sep ":" (k_ResourceType k) ∧
  no_sep ":" (k_Version k) ∧ no_sep ":" (k_PodID k).
#[global] Instance colon_free_dec k : Decision (colon_free k).
Proof. unfold colon_free. apply _. Defined.

Lemma Key_String_split k :
  colon_free k →
  Split ":" (Key_String k) =
  k_NodeID k :: k_ResourceType k :: k_Version k :: k_PodID k :: Split ":" (k_StatName k).
Proof.
  intros (H1 & H2 & H3 & H4). unfold Key_String. cbn [Join].
  by rewrite !Split_field.
Qed.

Lemma NewKeyFromString_String k :
  colon_free k → NewKeyFromString (Key_String k) = Ok k.
Proof.
  intros H. unfold NewKeyFromString. rewrite Key_String_split by done.
  rewrite Join_Split. by destruct k.
Qed.

Lemma Key_String_inj k k' :
  colon_free k → colon_free k' → Key_String k = Key_String k' → k = k'.
Proof.
  intros H H' E. apply NewKeyFromString_String in H, H'. rewrite E in H. congruence.
Qed.

Lemma Key_String_contains k :
  Contains (Key_String k) (k_NodeID k) = true ∧
  Contains (Key_String k) (k_ResourceType k) = true ∧
  Contains (Key_String k) (k_PodID k) = true ∧
  Contains (Key_String k) (k_StatName k) = true.
Proof.
  unfold Key_String. cbn [Join]. repeat split; contains.
Qed.

(** ** Operations on the items *)

Section Items.
Context {C : Type} {G : GoCache C} {GL : GoCacheLaws G}.
Implicit Types (s : C) (now t : Time) (k : Key).

(** The counter of a key, 0 when there is none. *)
Definition counter_of s now k : Z :=
  match cache_Items s now !! Key_String k with Some (ObjInt64 z) => z | _ => 0%Z end.

Lemma GetCounter_items s now n ty v p st :
  counter_or_zero (GetCounter s now n ty v p st) = counter_of s now (mkStatKey n ty v p st).
Proof. unfold GetCounter, counter_of, NewKey. rewrite get_items. by repeat case_match. Qed.

Lemma IncrementCounter_items s now n ty v p st i t :
  (now ≤ t)%Z →
  cache_Items (IncrementCounter s now n ty v p st i) t =
  <[Key_String (mkStatKey n ty v p st) :=
      ObjInt64 (int64 (counter_of s now (mkStatKey n ty v p st) + i))]> (cache_Items s t).
Proof. intros ?. unfold IncrementCounter. by rewrite items_SetDefault, GetCounter_items. Qed.

Lemma FilterKeys_lookup s now fs x o :
  FilterKeys s now fs !! x = Some o ↔
  cache_Items s now !! x = Some o ∧ key_selected fs x = true.
Proof. unfold FilterKeys. by rewrite map_lookup_filter_Some. Qed.

Lemma key_selected_true fs x :
  key_selected fs x = true ↔ Forall (λ f, Contains x f = true) fs.
Proof.
  unfold key_selected. rewrite forallb_forall, Forall_forall.
  by setoid_rewrite list_elem_of_In.
Qed.

Lemma fold_delete_items s ks t :
  cache_Items (fold_left (λ s x, cache_Delete s x) ks s) t =
  filter (λ kv, fst kv ∉ ks) (cache_Items s t).
Proof.
  revert s. induction ks as [|x ks IH]; intros s; simpl.
  - rewrite map_filter_id; [done|]. intros. apply not_elem_of_nil.
  - rewrite IH, items_Delete. apply map_eq. intros i. apply option_eq. intros o.
    rewrite !map_lookup_filter_Some, lookup_delete_Some. simpl.
    rewrite not_elem_of_cons. naive_solver.
Qed.

(** The keys that contain every filter go, the others stay. *)
Lemma DeleteKeysByFilter_items s now fs t :
  (now ≤ t)%Z →
  cache_Items (DeleteKeysByFilter s now fs) t =
  filter (λ kv, key_selected fs (fst kv) = false) (cache_Items s t).
Proof.
  intros Ht. unfold DeleteKeysByFilter. rewrite fold_delete_items.
  apply map_filter_ext. intros x o Hx. simpl.
  rewrite list_elem_of_fmap. rewrite <- not_true_iff_false. apply not_iff_compat. split.
  - intros ([x' o'] & -> & Hin). apply elem_of_map_to_list, FilterKeys_lookup in Hin.
    apply Hin.
  - intros Hsel. exists (x, o). split; [done|]. apply elem_of_map_to_list, FilterKeys_lookup.
    split; [|done]. by eapply items_expire.
Qed.
End Items.

(** ** A concrete store *)

Definition memory_cache := gmap string (Object * option Time).

Definition unexpired (t : Time) (i : Object * option Time) : option Object :=
  match snd i with
  | Some e => if decide (t ≤ e)%Z then Some (fst i) else None
  | None => Some (fst i)
  end.

Definition memory_cache_impl : GoCache memory_cache := {|
  cache_New := ∅;
  cache_Items c t := omap (unexpired t) c;
  cache_Get c t k := omap (unexpired t) c !! k;
  cache_Set c t k v d := <[k := (v, if decide (0 < d)%Z then Some (t + d)%Z else None)]> c;
  cache_SetDefault c t k v := <[k := (v, None)]> c;
  cache_Delete c k := delete k c;
|}.

#[global] Instance memory_cache_laws : GoCacheLaws memory_cache_impl.
Proof.
  split; simpl.
  - intros. apply omap_empty.
  - done.
  - intros c t k v d t' Hd Ht. rewrite omap_insert, decide_True by done.
    unfold unexpired at 1. simpl. by case_decide.
  - intros c t k v t' Ht. by rewrite omap_insert.
  - intros. apply omap_delete.
  - intros c t t' k v Ht. rewrite !lookup_omap_Some. intros (i & Hi & Hk). exists i.
    split; [|done]. unfold unexpired in *. destruct (snd i); [|done].
    repeat case_decide; done || lia.
Qed.

(** ** The service as a state machine

    The events the discovery service feeds to the statistics, in the order
    they happen. *)
Inductive event :=
  | ResponseSent (nodeID rType version podID nonce : string)
  | NackReceived (nodeID rType podID nonce : string)
  | AckReceived (nodeID rType version podID : string)
  | RequestReceived (nodeID rType podID : string)
  | PodDeleted (name : string)
  | NodeCleared (nodeID : string).

Definition handle_event {C} {G : GoCache C} (s : C) (now : Time) (ev : event) : C :=
  match ev with
  | ResponseSent n ty v p nonce => WriteResponseNonce s now n ty v p nonce
  | NackReceived n ty p nonce => snd (ReportNACK s now n ty p nonce)
  | AckReceived n ty v p => ReportACK s now n ty v p
  | RequestReceived n ty p => ReportRequest s now n ty p
  | PodDeleted name => deleteStatsForDeletedPodsFn s now (DeletedPod name)
  | NodeCleared n => DeleteKeysByFilter s now [n]
  end.

(** Node ids, type URLs, versions and pod names without colons. *)
Definition event_ok (ev : event) : Prop :=
  match ev with
  | ResponseSent n ty v p _ => colon_free (mkStatKey n ty v p "")
  | NackReceived n ty p _ => colon_free (mkStatKey n ty "*" p "")
  | AckReceived n ty v p => colon_free (mkStatKey n ty v p "")
  | RequestReceived n ty p => colon_free (mkStatKey n ty "*" p "")
  | PodDeleted _ | NodeCleared _ => True
  end.

Section Machine.
Context {C : Type} {G : GoCache C} {GL : GoCacheLaws G}.
Implicit Types (s : C) (now t : Time) (k : Key).

(** [reachable s t]: [s] is a state of the statistics at time [t]. *)
Inductive reachable : C → Time → Prop :=
  | reachable_New t : reachable cache_New t
  | reachable_event s t ev t' :
     reachable s t → (t ≤ t')%Z → event_ok ev → reachable (handle_event s t' ev) t'.

Definition counter_names : list string :=
  ["nack_counter"; "ack_counter"; "request_counter"; "info"].

(** A nonce is a string, a counter an [int64]. *)
Definition item_ok (x : string) (o : Object) : Prop :=
  ∃ k, x = Key_String k ∧ colon_free k ∧
    match o with
    | ObjString _ => ∃ nonce, k_StatName k = "nonce:" +:+ nonce
    | ObjInt64 z => k_StatName k ∈ counter_names ∧
                    (k_StatName k ≠ "info" → - 2 ^ 63 ≤ z < 2 ^ 63)%Z
    end.

Definition store_ok s t : Prop :=
  ∀ t', (t ≤ t')%Z → map_Forall item_ok (cache_Items s t').

Lemma store_ok_later s t t' : store_ok s t → (t ≤ t')%Z → store_ok s t'.
Proof. intros H Ht u Hu. apply H. lia. Qed.

Lemma increment_ok s t n ty v p st i :
  store_ok s t → colon_free (mkStatKey n ty v p st) → st ∈ counter_names →
  store_ok (IncrementCounter s t n ty v p st i) t.
Proof.
  intros H Hc Hst t' Ht. rewrite IncrementCounter_items by done.
  apply map_Forall_insert_2; [|by apply H].
  eexists. repeat split; [apply Hc..|done| |]; intros; apply int64_range.
Qed.

Lemma report_nack_ok s t n ty p nonce :
  store_ok s t → colon_free (mkStatKey n ty "*" p "") →
  store_ok (snd (ReportNACK s t n ty p nonce)) t.
Proof.
  intros H Hc. unfold ReportNACK.
  destruct (map_to_list _) as [|[x o] [|? ?]] eqn:E; [done| |done].
  assert (FilterKeys s t [n; ty; p; "nonce:" +:+ nonce] !! x = Some o) as Hx
    by (apply elem_of_map_to_list; rewrite E; left).
  apply FilterKeys_lookup in Hx as [Hx _].
  destruct (H t ltac:(lia) _ _ Hx) as (k & -> & Hk & _).
  rewrite NewKeyFromString_String by done. simpl.
  destruct Hc as (? & ? & _ & ?), Hk as (_ & _ & ? & _).
  apply increment_ok; [apply increment_ok; [done| |set_solver]| |set_solver];
    repeat split; try done; apply (bool_decide_unpack _); by vm_compute.
Qed.

Lemma delete_ok s t fs : store_ok s t → store_ok (DeleteKeysByFilter s t fs) t.
Proof.
  intros H t' Ht. rewrite DeleteKeysByFilter_items by done.
  intros x o [Hx _]%map_lookup_filter_Some. by eapply H.
Qed.

Lemma handle_event_ok s t ev : store_ok s t → event_ok ev → store_ok (handle_event s t ev) t.
Proof.
  intros H Hev. destruct ev as [n ty v p nonce|n ty p nonce|n ty v p|n ty p|name|n]; simpl in *.
  - intros t' Ht. unfold WriteResponseNonce, SetStringWithExpiration.
    rewrite items_Set by (done || unfold Second; lia). case_decide.
    + apply map_Forall_insert_2; [|by apply H]. eexists. split; [done|]. by split; eauto.
    + apply map_Forall_delete. by apply H.
  - by apply report_nack_ok.
  - intros t' Ht. unfold ReportACK, SetInt64. rewrite items_SetDefault by done.
    destruct Hev as (? & ? & ? & ?).
    apply map_Forall_insert_2.
    + eexists. split; [done|]. split; [by repeat split|]. split; [set_solver|done].
    + revert t' Ht. apply increment_ok; [apply increment_ok; [done| |set_solver]| |set_solver];
        repeat split; try done; apply (bool_decide_unpack _); by vm_compute.
  - apply increment_ok; [done|done|set_solver].
  - by apply delete_ok.
  - by apply delete_ok.
Qed.

Lemma reachable_ok s t : reachable s t → store_ok s t.
Proof.
  induction 1 as [t|s t ev t' _ IH Ht Hev].
  - intros t' _. rewrite items_New. apply map_Forall_empty.
  - apply handle_event_ok; [|done]. by eapply store_ok_later.
Qed.

Lemma mapR_no_panic {A B} (f : A → result B) l :
  (∀ x, x ∈ l → ∃ y, f x = Ok y) → ∃ ys, mapR f l = Ok ys.
Proof.
  induction l as [|x l IH]; intros H; simpl; [eauto|].
  destruct (H x) as [y ->]; [left|]. simpl.
  destruct IH as [ys ->]; [|simpl; eauto]. intros. apply H. by right.
Qed.

Lemma item_key x o : item_ok x o → ∃ k, NewKeyFromString x = Ok k ∧ colon_free k ∧ x = Key_String k.
Proof. intros (k & -> & Hk & _). exists k. by rewrite NewKeyFromString_String. Qed.

(** Counters and [info] items hold an [int64]. *)
Lemma item_int64 x o k :
  item_ok x o → NewKeyFromString x = Ok k → k_StatName k ∈ counter_names →
  ∃ z, o = ObjInt64 z.
Proof.
  intros (k' & -> & Hk & Ho) E Hin. rewrite NewKeyFromString_String in E by done.
  injection E as ->. destruct o as [str|z]; [|eauto]. destruct Ho as [nonce E].
  rewrite E in Hin. unfold counter_names in Hin.
  rewrite !elem_of_cons, elem_of_nil in Hin. naive_solver.
Qed.

Lemma counter_metric_ok x o : item_ok x o → ∃ ms, counter_metric (x, o) = Ok ms.
Proof.
  intros (k & -> & Hk & Ho). unfold counter_metric. simpl.
  rewrite NewKeyFromString_String by done. simpl. destruct o as [str|z]; simpl.
  - destruct Ho as [nonce ->]. rewrite !decide_False by discriminate. eauto.
  - repeat case_decide; eauto.
Qed.

Lemma info_step_ok info x o : item_ok x o → ∃ info', info_step info (x, o) = Ok info'.
Proof.
  intros (k & -> & Hk & Ho). unfold info_step. simpl.
  rewrite NewKeyFromString_String by done. simpl. case_decide as Hi; [|eauto].
  destruct o as [str|z]; simpl; [|repeat case_match; eauto].
  destruct Ho as [nonce E]. rewrite Hi in E. discriminate E.
Qed.

(** The keys of the [info] map parse. *)
Definition info_ok (info : gmap string currentVersion) : Prop :=
  map_Forall (λ x _, ∃ k, x = Key_String k ∧ colon_free k) info.

Lemma info_step_keys info x o info' :
  item_ok x o → info_ok info → info_step info (x, o) = Ok info' → info_ok info'.
Proof.
  intros (k & -> & Hk & _) Hi. unfold info_step. simpl.
  rewrite NewKeyFromString_String by done. simpl. case_decide as Hd; [|by intros [= <-]].
  intros H. res_inv.
  assert (∃ k', Key_String (mkStatKey (k_NodeID k) (k_ResourceType k) "*" (k_PodID k)
            (k_StatName k)) = Key_String k' ∧ colon_free k').
  { eexists. split; [done|]. destruct Hk as (? & ? & _ & ?). repeat split; try done.
    apply (bool_decide_unpack _); by vm_compute. }
  repeat case_match; simplify_eq/=; by try apply map_Forall_insert_2.
Qed.

Lemma foldR_info_ok l info :
  Forall (λ kv, item_ok (fst kv) (snd kv)) l → info_ok info →
  ∃ info', foldR info_step info l = Ok info' ∧ info_ok info'.
Proof.
  intros H. revert info. induction H as [|[x o] l Hx _ IH]; intros info Hi; simpl in *; [eauto|].
  destruct (info_step_ok info x o Hx) as [info' E]. rewrite E. simpl.
  apply IH. by eapply info_step_keys.
Qed.

(** C29: in every state the service can reach, each stored key is a
    well-formed five part key, nonces are strings and counters are [int64]
    values, and so neither the collection of metrics nor the list of
    subscribed pods ever panics on an index or on a type assertion. *)
Theorem stats_reachable_ok s t n ty :
  reachable s t →
  map_Forall item_ok (cache_Items s t) ∧
  (∃ ms, Collect s t = Ok ms) ∧ (∃ pods, GetSubscribedPods s t n ty = Ok pods).
Proof.
  intros H. pose proof (reachable_ok _ _ H t ltac:(lia)) as Hok. split; [done|].
  assert (Forall (λ kv, item_ok (fst kv) (snd kv)) (map_to_list (cache_Items s t))) as Hl.
  { apply Forall_forall. intros [x o] Hx. apply elem_of_map_to_list in Hx. by apply Hok. }
  split.
  - unfold Collect, DumpAll.
    destruct (mapR_no_panic counter_metric (map_to_list (cache_Items s t))) as [ms ->].
    { intros [x o] Hx. rewrite Forall_forall in Hl. by apply counter_metric_ok, (Hl _ Hx). }
    simpl. destruct (foldR_info_ok _ ∅ Hl) as (info & -> & Hi); [apply map_Forall_empty|].
    simpl. destruct (mapR_no_panic info_metric (map_to_list info)) as [infos ->]; [|simpl; eauto].
    intros [x cv] Hx. apply elem_of_map_to_list in Hx. destruct (Hi _ _ Hx) as (k & -> & Hk).
    unfold info_metric. simpl. rewrite NewKeyFromString_String by done. simpl. eauto.
  - unfold GetSubscribedPods. set (fs := _ ++ _).
    destruct (mapR_no_panic (λ kv : string * Object, key ← NewKeyFromString (fst kv); Ok (k_PodID key))
                (map_to_list (FilterKeys s t fs))) as [pods ->]; [|simpl; eauto].
    intros [x o] Hx. apply elem_of_map_to_list, FilterKeys_lookup in Hx as [Hx _].
    destruct (item_key x o (Hok _ _ Hx)) as (k & E & _). simpl. rewrite E. simpl. eauto.
Qed.

(** ** NACKs *)

Definition nonce_key (n ty v p nonce : string) : Key := mkStatKey n ty v p ("nonce:" +:+ nonce).

Lemma nonce_key_selected n ty v p nonce suffix :
  key_selected [n; ty; p; "nonce:" +:+ nonce]
    (Key_String (nonce_key n ty v p (nonce +:+ suffix))) = true.
Proof.
  pose proof (Key_String_contains (nonce_key n ty v p (nonce +:+ suffix))) as (H1 & H2 & H3 & H4).
  apply key_selected_true. repeat constructor; [done..|]. simpl in H4.
  revert H4. rewrite !Contains_spec. intros (a & b & E). exists a, (suffix +:+ b).
  by rewrite E, !string_app_assoc.
Qed.

(** The step of the counters, for a nonce found under version [v]. *)
Lemma ReportNACK_found s t n ty v p nonce o :
  colon_free (mkStatKey n ty v p "") →
  FilterKeys s t [n; ty; p; "nonce:" +:+ nonce] =
    {[ Key_String (nonce_key n ty v p nonce) := o ]} →
  ReportNACK s t n ty p nonce =
  let s := IncrementCounter s t n ty v p "nack_counter" 1 in
  let s := IncrementCounter s t n ty "*" p "nack_counter" 1 in
  (GetCounter s t n ty v p "nack_counter", s).
Proof.
  intros Hc E. unfold ReportNACK. rewrite E, map_to_list_singleton.
  by rewrite NewKeyFromString_String.
Qed.

Lemma GetCounter_Ok s t n ty v p st z :
  cache_Items s t !! Key_String (mkStatKey n ty v p st) = Some (ObjInt64 z) →
  GetCounter s t n ty v p st = Ok z.
Proof. intros E. unfold GetCounter, NewKey. by rewrite get_items, E. Qed.

Lemma colon_free_with n ty v p st :
  colon_free (mkStatKey n ty v p "") → colon_free (mkStatKey n ty v p st).
Proof. done. Qed.

Lemma colon_free_star n ty v p st :
  colon_free (mkStatKey n ty v p "") → colon_free (mkStatKey n ty "*" p st).
Proof.
  intros (? & ? & _ & ?). repeat split; try done.
  apply (bool_decide_unpack _); by vm_compute.
Qed.

Lemma Key_String_ne k k' :
  colon_free k → colon_free k' → k ≠ k' → Key_String k ≠ Key_String k'.
Proof. intros H H' Hne E. by apply Hne, Key_String_inj. Qed.

(** A fresh nonce is the only key its filter finds. *)
Lemma nonce_found s t t' n ty v p nonce :
  (t ≤ t' ≤ t + 10 * Second)%Z →
  FilterKeys s t [n; ty; p; "nonce:" +:+ nonce] = ∅ →
  let s1 := WriteResponseNonce s t n ty v p nonce in
  let x := Key_String (nonce_key n ty v p nonce) in
  cache_Items s1 t' = <[x := ObjString ""]> (cache_Items s t') ∧
  FilterKeys s1 t' [n; ty; p; "nonce:" +:+ nonce] = {[ x := ObjString "" ]}.
Proof.
  intros Ht He s1 x.
  assert (cache_Items s1 t' = <[x := ObjString ""]> (cache_Items s t')) as Hi.
  { unfold s1, WriteResponseNonce, SetStringWithExpiration, Second in *.
    rewrite items_Set by lia. by rewrite decide_True by lia. }
  split; [done|]. apply map_eq. intros y. apply option_eq. intros o.
  rewrite FilterKeys_lookup, Hi, lookup_insert_Some, lookup_singleton_Some. split.
  - intros [[[<- <-]|[Hne Hy]] Hsel]; [done|]. exfalso.
    assert (FilterKeys s t [n; ty; p; "nonce:" +:+ nonce] !! y = Some o) as Hy'.
    { apply FilterKeys_lookup. split; [|done]. eapply items_expire; [|done]. lia. }
    by rewrite He, lookup_empty in Hy'.
  - intros [<- <-]. split; [by left|].
    pose proof (nonce_key_selected n ty v p nonce "") as H.
    by rewrite string_app_nil_r in H.
Qed.

(** A NACK for a response sent at most ten seconds ago, whose nonce no
    other stored key contains, is counted: once for the version the response
    carried, and once in the aggregate over versions.  The count returned is
    that of the version. *)
Theorem nack_counted s t t' n ty v p nonce :
  colon_free (mkStatKey n ty v p "") → v ≠ "*" →
  (t ≤ t' ≤ t + 10 * Second)%Z →
  FilterKeys s t [n; ty; p; "nonce:" +:+ nonce] = ∅ →
  let s1 := WriteResponseNonce s t n ty v p nonce in
  let '(res, s2) := ReportNACK s1 t' n ty p nonce in
  let count (ver : string) := counter_of s t' (mkStatKey n ty ver p "nack_counter") in
  res = Ok (int64 (count v + 1)) ∧
  counter_of s2 t' (mkStatKey n ty v p "nack_counter") = int64 (count v + 1) ∧
  counter_of s2 t' (mkStatKey n ty "*" p "nack_counter") = int64 (count "*" + 1).
Proof.
  intros Hc Hv Ht He s1.
  destruct (nonce_found s t t' n ty v p nonce Ht He) as [Hi Hf]. fold s1 in Hi, Hf.
  rewrite (ReportNACK_found _ _ _ _ _ _ _ _ Hc Hf). cbn zeta.
  set (kv := mkStatKey n ty v p "nack_counter"). set (ka := mkStatKey n ty "*" p "nack_counter").
  set (kn := nonce_key n ty v p nonce) in *.
  assert (colon_free kv) as Hkv by done.
  assert (colon_free ka) as Hka by by eapply colon_free_star.
  assert (colon_free kn) as Hkn by done.
  assert (Key_String kv ≠ Key_String ka) as N1
    by (apply Key_String_ne; [done..|]; unfold kv, ka; congruence).
  assert (Key_String kn ≠ Key_String kv) as N2
    by (apply Key_String_ne; [done..|]; intros E; by apply (f_equal k_StatName) in E).
  assert (Key_String kn ≠ Key_String ka) as N3
    by (apply Key_String_ne; [done..|]; intros E; by apply (f_equal k_StatName) in E).
  assert (counter_of s1 t' kv = counter_of s t' kv) as E1
    by (unfold counter_of; by rewrite Hi, lookup_insert_ne).
  assert (counter_of s1 t' ka = counter_of s t' ka) as E2
    by (unfold counter_of; by rewrite Hi, lookup_insert_ne).
  assert (counter_of (IncrementCounter s1 t' n ty v p "nack_counter" 1) t' ka =
          counter_of s t' ka) as E3.
  { rewrite <- E2. unfold counter_of at 1. rewrite IncrementCounter_items by lia.
    fold kv. by rewrite lookup_insert_ne. }
  assert (∀ x, x ≠ Key_String ka → cache_Items (IncrementCounter
            (IncrementCounter s1 t' n ty v p "nack_counter" 1) t' n ty "*" p "nack_counter" 1)
            t' !! x = cache_Items (IncrementCounter s1 t' n ty v p "nack_counter" 1) t' !! x)
    as Hne by (intros x Hx; rewrite IncrementCounter_items by lia; by rewrite lookup_insert_ne).
  assert (cache_Items (IncrementCounter s1 t' n ty v p "nack_counter" 1) t' !! Key_String kv =
          Some (ObjInt64 (int64 (counter_of s t' kv + 1)))) as Hkv1.
  { rewrite IncrementCounter_items by lia. fold kv. by rewrite lookup_insert_eq, E1. }
  split; [apply GetCounter_Ok; fold kv; by rewrite Hne|]. split.
  - unfold counter_of at 1. by rewrite Hne, Hkv1.
  - unfold counter_of at 1. rewrite IncrementCounter_items by lia. fold ka.
    by rewrite lookup_insert_eq, E3.
Qed.

(** A nonce that is a prefix of another nonce still stored for the same
    node, type and pod (as "1" is of "10") is not recognised: [ReportNACK]
    returns an error and counts nothing. *)
Theorem nack_lost_prefix s t t' n ty v v' p nonce suffix :
  colon_free (mkStatKey n ty v p "") → colon_free (mkStatKey n ty v' p "") → suffix ≠ "" →
  (t ≤ t' ≤ t + 10 * Second)%Z →
  let s2 := WriteResponseNonce (WriteResponseNonce s t n ty v p nonce)
              t n ty v' p (nonce +:+ suffix) in
  ∃ err, ReportNACK s2 t' n ty p nonce = (Err err, s2).
Proof.
  intros Hc Hc' Hsuf Ht s2.
  set (x := Key_String (nonce_key n ty v p nonce)).
  set (y := Key_String (nonce_key n ty v' p (nonce +:+ suffix))).
  assert (x ≠ y) as Hxy.
  { apply Key_String_ne; [done..|]. intros E. apply (f_equal k_StatName) in E. simpl in E.
    apply (inj (String.append "nonce:")) in E. apply Hsuf.
    apply (inj (String.append nonce)). by rewrite string_app_nil_r. }
  assert (cache_Items s2 t' = <[y := ObjString ""]> (<[x := ObjString ""]> (cache_Items s t')))
    as Hi.
  { unfold s2, WriteResponseNonce, SetStringWithExpiration, Second in *.
    rewrite !items_Set by lia. by rewrite !decide_True by lia. }
  assert (∀ z, z = x ∨ z = y →
    (z, ObjString "") ∈ map_to_list (FilterKeys s2 t' [n; ty; p; "nonce:" +:+ nonce])) as Hin.
  { intros z Hz. apply elem_of_map_to_list, FilterKeys_lookup. rewrite Hi. split.
    - destruct Hz as [->| ->]; [by rewrite lookup_insert_ne, lookup_insert_eq|].
      by rewrite lookup_insert_eq.
    - destruct Hz as [->| ->]; [|apply nonce_key_selected].
      pose proof (nonce_key_selected n ty v p nonce "") as H.
      by rewrite string_app_nil_r in H. }
  unfold ReportNACK.
  destruct (map_to_list _) as [|[z o] [|? ?]]; [eauto| |eauto].
  pose proof (Hin x (or_introl eq_refl)) as H1. pose proof (Hin y (or_intror eq_refl)) as H2.
  apply list_elem_of_singleton in H1, H2. congruence.
Qed.

(** ** Garbage collection *)

(** Deleting by one filter. *)
Lemma delete_one s t t' f x :
  (t ≤ t')%Z →
  cache_Items (DeleteKeysByFilter s t [f]) t' !! x =
  if Contains x f then None else cache_Items s t' !! x.
Proof.
  intros Ht. rewrite DeleteKeysByFilter_items by done. apply option_eq. intros o.
  rewrite map_lookup_filter_Some. simpl. destruct (Contains x f); naive_solver.
Qed.

(** The garbage collector, told that a pod is gone, removes every stat of
    that pod and keeps every stat whose key does not contain the pod's name;
    but it also removes the stats of every pod whose name merely contains the
    name of the deleted pod. *)
Theorem gc_deleted_pod s t t' name :
  (t ≤ t')%Z →
  let s' := deleteStatsForDeletedPodsFn s t (DeletedPod name) in
  (∀ k, k_PodID k = name → cache_Items s' t' !! Key_String k = None) ∧
  (∀ x, Contains x name = false → cache_Items s' t' !! x = cache_Items s t' !! x) ∧
  (∀ k, Contains (k_PodID k) name = true → cache_Items s' t' !! Key_String k = None).
Proof.
  intros Ht s'. unfold s', deleteStatsForDeletedPodsFn.
  assert (∀ k, Contains (k_PodID k) name = true →
    cache_Items (DeleteKeysByFilter s t [name]) t' !! Key_String k = None) as Hdel.
  { intros k Hk. rewrite delete_one by done. destruct (Key_String_contains k) as (_ & _ & Hp & _).
    by rewrite (Contains_trans _ _ _ Hp Hk). }
  split; [intros k <-; apply Hdel, Contains_refl|]. split; [|done].
  intros x Hx. by rewrite delete_one, Hx.
Qed.

(** ** The share of failing pods *)

(** [p] has a request counter for the node and type. *)
Definition subscribed s t (n ty p : string) : Prop :=
  no_sep ":" p ∧ is_Some (cache_Items s t !! Key_String (mkStatKey n ty "*" p "request_counter")).

(** No other stored key looks like a request counter of the node and type. *)
Definition separated s t (n ty : string) : Prop :=
  ∀ k o, colon_free k → cache_Items s t !! Key_String k = Some o →
    key_selected ["request_counter"; n; ty] (Key_String k) = true →
    k = mkStatKey n ty "*" (k_PodID k) "request_counter".

Lemma GetSubscribedPods_spec s t n ty :
  map_Forall item_ok (cache_Items s t) → n ≠ "" → ty ≠ "" → separated s t n ty →
  colon_free (mkStatKey n ty "*" "" "") →
  ∃ pods, GetSubscribedPods s t n ty = Ok pods ∧ ∀ p, p ∈ pods ↔ subscribed s t n ty p.
Proof.
  intros Hok Hn Hty Hsep Hcf. unfold GetSubscribedPods.
  rewrite (decide_True _ _ Hn), (decide_True _ _ Hty). simpl.
  set (m := FilterKeys s t ["request_counter"; n; ty]).
  assert (∀ x o, m !! x = Some o → ∃ k, NewKeyFromString x = Ok k ∧ x = Key_String k ∧
            colon_free k ∧ k = mkStatKey n ty "*" (k_PodID k) "request_counter") as Hm.
  { intros x o [Hx Hsel]%FilterKeys_lookup.
    destruct (item_key x o (Hok _ _ Hx)) as (k & E & Hk & ->). exists k. eauto 10. }
  destruct (mapR_no_panic (λ kv : string * Object, key ← NewKeyFromString (fst kv); Ok (k_PodID key))
              (map_to_list m)) as [pods E].
  { intros [x o] Hx. apply elem_of_map_to_list in Hx. destruct (Hm _ _ Hx) as (k & E & _).
    simpl. rewrite E. simpl. eauto. }
  rewrite E. simpl. eexists. split; [done|]. intros p. rewrite elem_of_list_to_set.
  apply mapR_Ok in E. split.
  - intros Hp. apply list_elem_of_lookup in Hp as [i Hi].
    destruct (Forall2_lookup_r _ _ _ _ _ E Hi) as ([x o] & Hx & Hkey). simpl in Hkey.
    apply list_elem_of_lookup_2, elem_of_map_to_list in Hx as Hx'.
    destruct (Hm _ _ Hx') as (k & Ek & -> & Hk & Heq). rewrite Ek in Hkey. simpl in Hkey.
    injection Hkey as <-. split; [apply Hk|]. rewrite <- Heq. exists o.
    by apply FilterKeys_lookup in Hx' as [? _].
  - intros [Hp [o Ho]]. set (k := mkStatKey n ty "*" p "request_counter") in *.
    assert (m !! Key_String k = Some o) as Hk.
    { apply FilterKeys_lookup. split; [done|]. apply key_selected_true.
      destruct (Key_String_contains k) as (? & ? & ? & ?). by repeat constructor. }
    apply elem_of_map_to_list, list_elem_of_lookup in Hk as [i Hi].
    destruct (Forall2_lookup_l _ _ _ _ _ E Hi) as (p' & Hp' & Hkey). simpl in Hkey.
    rewrite NewKeyFromString_String in Hkey; [|by destruct Hcf as (? & ? & ? & _)].
    injection Hkey as <-. by eapply list_elem_of_lookup_2.
Qed.

Lemma filter_length_all {A} (f : A → bool) (l : list A) :
  length (List.filter f l) = length l ↔ ∀ x, x ∈ l → f x = true.
Proof.
  pose proof (filter_length_le f) as Hle.
  induction l as [|x l IH]; simpl; [set_solver|]. specialize (Hle l).
  destruct (f x) eqn:E; simpl.
  - rewrite Nat.succ_inj_wd, IH. split; [|set_solver].
    intros H y [->|Hy]%elem_of_cons; auto.
  - split; [lia|]. intros H. rewrite H in E by left. done.
Qed.

Lemma pod_failing_true s t n ty v p :
  pod_failing s t n ty v p = true ↔
  (5 ≤ counter_of s t (mkStatKey n ty v p "nack_counter"))%Z.
Proof.
  rewrite <- GetCounter_items. unfold pod_failing.
  destruct (GetCounter _ _ _ _ _ _ _); simpl; [apply Z.leb_le|split; [done|lia]..].
Qed.

(** Every pod of the node that asks for the type, and there is one, has NACKed
    the version at least five times. *)
Definition rejected s t (n ty v : string) : Prop :=
  (∃ p, subscribed s t n ty p) ∧
  ∀ p, subscribed s t n ty p →
    (5 ≤ counter_of s t (mkStatKey n ty v p "nack_counter"))%Z.

(** The share of failing pods is between 0 and 1, and it is 1 exactly when the
    version is rejected. *)
Lemma GetPercentageFailing_spec s t n ty v :
  reachable s t → n ≠ "" → ty ≠ "" → separated s t n ty →
  colon_free (mkStatKey n ty "*" "" "") →
  ∃ q, GetPercentageFailing s t n ty v = Ok q ∧ (0 <= q <= 1)%Q ∧
    ((q == 1)%Q ↔ rejected s t n ty v).
Proof.
  intros Hr Hn Hty Hsep Hcf.
  pose proof (reachable_ok _ _ Hr t ltac:(lia)) as Hok.
  destruct (GetSubscribedPods_spec s t n ty Hok Hn Hty Hsep Hcf) as (pods & E & Hpods).
  unfold GetPercentageFailing, rejected. rewrite E. simpl.
  setoid_rewrite <- Hpods. setoid_rewrite <- pod_failing_true.
  set (failing := List.filter _ _).
  assert (length failing ≤ size pods)%nat as Hle by apply filter_length_le.
  assert (length failing = size pods ↔
            ∀ p, p ∈ pods → pod_failing s t n ty v p = true) as Hall.
  { unfold failing, size, set_size. simpl. rewrite filter_length_all.
    by setoid_rewrite elem_of_elements. }
  destruct (size pods) as [|m] eqn:Em; eexists; (split; [done|]).
  - split; [split; discriminate|]. split; [discriminate|]. intros [[p Hp] _].
    apply size_empty_inv in Em. set_solver.
  - assert (∃ p, p ∈ pods) as Hex.
    { apply set_choose_L. intros ->. by rewrite size_empty in Em. }
    unfold Qle, Qeq. simpl. rewrite <- Hall. split; [lia|]. split; [|intros [_ ?]; lia].
    intros. split; [done|]. lia.
Qed.

(** ** The info metric *)

Definition star k : Key := mkStatKey (k_NodeID k) (k_ResourceType k) "*" (k_PodID k) (k_StatName k).

Definition is_info k (ts : Z) (l : list (string * Object)) : Prop :=
  colon_free k ∧ k_StatName k = "info" ∧ (Key_String k, ObjInt64 ts) ∈ l.

(** The map after the items of [l]: for each node, type and pod the version
    with the latest timestamp. *)
Definition info_inv (info : gmap string currentVersion) l : Prop :=
  (∀ x cv, info !! x = Some cv →
     ∃ k, is_info k (cv_ts cv) l ∧ x = Key_String (star k) ∧ k_Version k = cv_version cv) ∧
  (∀ k ts, is_info k ts l →
     ∃ cv, info !! Key_String (star k) = Some cv ∧ (ts ≤ cv_ts cv)%Z).

Lemma is_info_app k ts l x o :
  is_info k ts (l ++ [(x, o)]) ↔
  is_info k ts l ∨ (colon_free k ∧ k_StatName k = "info" ∧ x = Key_String k ∧ o = ObjInt64 ts).
Proof.
  unfold is_info. rewrite elem_of_app, list_elem_of_singleton. naive_solver.
Qed.

Lemma info_step_inv info l x o info' :
  item_ok x o → info_inv info l → info_step info (x, o) = Ok info' →
  info_inv info' (l ++ [(x, o)]).
Proof.
  intros (k0 & -> & Hk0 & _) [I1 I2]. unfold info_step. cbn [fst snd].
  rewrite NewKeyFromString_String by done. cbn [mbind result_bind]. cbn zeta. fold (star k0).
  case_decide as Hi.
  - destruct o as [|ts0]; [done|]. cbn [as_int64 mbind result_bind]. intros H.
    assert (∀ k ts, is_info k ts (l ++ [(Key_String k0, ObjInt64 ts0)]) ↔
              is_info k ts l ∨ (k = k0 ∧ ts = ts0)) as Happ.
    { intros k ts. rewrite is_info_app. split; [|naive_solver].
      intros [?|(Hk & _ & E & [= ->])]; [by left|right]. split; [|done]. by apply Key_String_inj. }
    assert (∀ cv, cv_ts cv = ts0 → cv_version cv = k_Version k0 →
              (∀ cv', info !! Key_String (star k0) = Some cv' → (cv_ts cv' ≤ ts0)%Z) →
              info_inv (<[Key_String (star k0) := cv]> info)
                       (l ++ [(Key_String k0, ObjInt64 ts0)])) as Hins.
    { intros cv Hts Hver Hmax. split.
      - intros x cv'. rewrite lookup_insert_Some. intros [[<- <-]|[Hne Hx]].
        + exists k0. rewrite Happ. auto.
        + destruct (I1 _ _ Hx) as (k & ? & ? & ?). exists k. rewrite Happ. auto.
      - intros k ts [Hk|[-> ->]]%Happ.
        + destruct (I2 _ _ Hk) as (cv' & Hcv' & Hle).
          destruct (decide (Key_String (star k0) = Key_String (star k))) as [E|E].
          * exists cv. rewrite E, lookup_insert_eq. split; [done|]. rewrite <- E in Hcv'.
            apply Hmax in Hcv'. lia.
          * exists cv'. by rewrite lookup_insert_ne.
        + exists cv. rewrite lookup_insert_eq. split; [done|lia]. }
    destruct (info !! Key_String (star k0)) as [cv0|] eqn:E0.
    + destruct (Z.ltb_spec (cv_ts cv0) ts0); injection H as <-.
      * apply Hins; [done..|]. intros ? [= <-]. lia.
      * split.
        -- intros x cv Hx. destruct (I1 _ _ Hx) as (k & ? & ? & ?). exists k. rewrite Happ. auto.
        -- intros k ts [Hk|[-> ->]]%Happ; eauto.
    + injection H as <-. apply Hins; [done..|]. by intros.
  - intros [= <-].
    assert (∀ k ts, is_info k ts (l ++ [(Key_String k0, o)]) ↔ is_info k ts l) as Happ.
    { intros k ts. rewrite is_info_app. split; [|auto]. intros [?|(Hk & Hs & E & _)]; [done|].
      apply Key_String_inj in E; [|done..]. congruence. }
    split; setoid_rewrite Happ; done.
Qed.

Lemma foldR_info_inv l0 l info info' :
  Forall (λ kv, item_ok (fst kv) (snd kv)) l → info_inv info l0 →
  foldR info_step info l = Ok info' → info_inv info' (l0 ++ l).
Proof.
  intros H. revert l0 info. induction H as [|[x o] l Hx _ IH]; intros l0 info Hi; simpl.
  - intros [= <-]. by rewrite app_nil_r.
  - intros E. res_inv. replace (l0 ++ (x, o) :: l) with ((l0 ++ [(x, o)]) ++ l)
      by by rewrite <- app_assoc.
    eapply IH; [|done]. by eapply info_step_inv.
Qed.

Lemma counter_metric_no_info kv ms n ty p v :
  counter_metric kv = Ok ms → Info n ty p v ∉ ms.
Proof.
  unfold counter_metric. intros H. res_inv.
  repeat case_decide; res_inv; try (simpl; rewrite list_elem_of_singleton; discriminate).
  apply not_elem_of_nil.
Qed.

Lemma Forall2_elem_r {A B} (R : A → B → Prop) l1 l2 y :
  Forall2 R l1 l2 → y ∈ l2 → ∃ x, x ∈ l1 ∧ R x y.
Proof.
  intros H [i Hi]%list_elem_of_lookup. destruct (Forall2_lookup_r _ _ _ _ _ H Hi) as (x & Hx & ?).
  exists x. split; [by eapply list_elem_of_lookup_2|done].
Qed.

(** The info metric.  For a node, type and pod the collector reports one
    version: one the pod has acknowledged, and no version the pod has
    acknowledged has a later timestamp. *)
Theorem collect_info_latest s t ms n ty p v :
  reachable s t → Collect s t = Ok ms → Info n ty p v ∈ ms →
  ∃ ts, cache_Items s t !! Key_String (mkStatKey n ty v p "info") = Some (ObjInt64 ts) ∧
    ∀ v' ts', colon_free (mkStatKey n ty v' p "info") →
      cache_Items s t !! Key_String (mkStatKey n ty v' p "info") = Some (ObjInt64 ts') →
      (ts' ≤ ts)%Z.
Proof.
  intros Hr H Hin. pose proof (reachable_ok _ _ Hr t ltac:(lia)) as Hok.
  unfold Collect, DumpAll in H. res_inv.
  assert (Forall (λ kv, item_ok (fst kv) (snd kv)) (map_to_list (cache_Items s t))) as Hl.
  { apply Forall_forall. intros [x o] Hx. apply elem_of_map_to_list in Hx. by apply Hok. }
  assert (info_inv ∅ []) as H0.
  { split; [by intros x cv; rewrite lookup_empty|]. intros k ts (_ & _ & Hn).
    by apply not_elem_of_nil in Hn. }
  destruct (foldR_info_inv [] _ _ _ Hl H0 E0) as [I1 I2]. simpl in I1, I2.
  apply mapR_Ok in E, E1. apply elem_of_app in Hin as [Hin|Hin].
  { apply list_elem_of_In, in_concat in Hin as (ms & Hms & Hin).
    apply list_elem_of_In in Hin. apply list_elem_of_In in Hms.
    destruct (Forall2_elem_r _ _ _ _ E Hms) as (kv & _ & Hkv).
    by apply counter_metric_no_info with (n := n) (ty := ty) (p := p) (v := v) in Hkv. }
  destruct (Forall2_elem_r _ _ _ _ E1 Hin) as ([x cv] & Hx & Hm).
  apply elem_of_map_to_list in Hx. destruct (I1 _ _ Hx) as (k & (Hk & Hs & Hki) & -> & Hv).
  unfold info_metric in Hm. cbn [fst snd] in Hm.
  rewrite NewKeyFromString_String in Hm
    by (destruct Hk as (? & ? & ? & ?); by apply (colon_free_star _ _ (k_Version k))).
  injection Hm as <- <- <- <-. apply elem_of_map_to_list in Hki.
  exists (cv_ts cv). split; [destruct k; simpl in *; by subst|]. intros v' ts' Hc Hi.
  destruct (I2 (mkStatKey (k_NodeID k) (k_ResourceType k) v' (k_PodID k) "info") ts')
    as (cv' & Hcv' & Hle); [repeat split; [apply Hc..|by apply elem_of_map_to_list]|].
  unfold star in Hcv', Hx. simpl in Hcv'. rewrite Hs in Hx. rewrite Hx in Hcv'.
  by injection Hcv' as <-.
Qed.
End Machine.

(** ** Concrete runs *)

Module StatsRuns.
#[local] Existing Instance memory_cache_impl.

Definition ms : Z := 1000000%Z.

(** A node with a pod that rejects version "v2" of its clusters five times. *)
Definition events : list event :=
  [RequestReceived "edge" "cluster" "pod-a"; ResponseSent "edge" "cluster" "v1" "pod-a" "0";
   AckReceived "edge" "cluster" "v1" "pod-a"] ++
  concat ((λ n, [ResponseSent "edge" "cluster" "v2" "pod-a" n;
                 NackReceived "edge" "cluster" "pod-a" n]) <$> ["1"; "2"; "3"; "4"; "5"]).

Definition play (s : memory_cache) (evs : list event) : memory_cache :=
  fold_left (λ s ev, handle_event s ms ev) evs s.

Lemma play_reachable evs s :
  reachable s ms → Forall event_ok evs → reachable (play s evs) ms.
Proof.
  intros Hs H. revert s Hs. induction H as [|ev evs Hev _ IH]; intros s Hs; [done|].
  apply IH. eapply reachable_event; [done|lia|done].
Qed.

#[global] Instance event_ok_dec ev : Decision (event_ok ev).
Proof. destruct ev; apply _. Defined.

Definition store : memory_cache := play cache_New events.

Lemma store_reachable : reachable store ms.
Proof.
  apply play_reachable; [apply reachable_New|]. apply (bool_decide_unpack _). vm_compute. exact I.
Qed.

Lemma stats_reachable_ok_witness : ∃ l, Collect store ms = Ok l.
Proof. apply (stats_reachable_ok store ms "edge" "cluster" store_reachable). Defined.

Lemma nack_counted_witness :
  let s1 := WriteResponseNonce store ms "edge" "cluster" "v2" "pod-a" "6" in
  fst (ReportNACK s1 (2 * ms)%Z "edge" "cluster" "pod-a" "6") = Ok 6%Z.
Proof.
  pose proof (nack_counted store ms (2 * ms)%Z "edge" "cluster" "v2" "pod-a" "6") as H.
  cbn zeta in *. destruct (ReportNACK _ _ _ _ _ _) as [res s2].
  destruct H as [-> _].
  - apply (bool_decide_unpack _). vm_compute. exact I.
  - discriminate.
  - vm_compute. split; discriminate.
  - apply (bool_decide_unpack _). vm_compute. exact I.
  - vm_compute. reflexivity.
Defined.

Lemma nack_lost_prefix_witness :
  let s2 := WriteResponseNonce (WriteResponseNonce store ms "edge" "cluster" "v2" "pod-a" "1")
              ms "edge" "cluster" "v2" "pod-a" "10" in
  ∃ err, ReportNACK s2 (2 * ms)%Z "edge" "cluster" "pod-a" "1" = (Err err, s2).
Proof.
  apply (nack_lost_prefix store ms (2 * ms)%Z "edge" "cluster" "v2" "v2" "pod-a" "1" "0").
  - apply (bool_decide_unpack _). vm_compute. exact I.
  - apply (bool_decide_unpack _). vm_compute. exact I.
  - discriminate.
  - vm_compute. split; discriminate.
Defined.

Lemma gc_deleted_pod_witness :
  let s := ReportRequest cache_New 0%Z "edge" "cluster" "pod-10" in
  let s' := deleteStatsForDeletedPodsFn s 1%Z (DeletedPod "pod-1") in
  cache_Items s' 2%Z !! Key_String (mkStatKey "edge" "cluster" "*" "pod-10" "request_counter")
  = None.
Proof.
  apply (gc_deleted_pod (ReportRequest cache_New 0%Z "edge" "cluster" "pod-10") 1%Z 2%Z "pod-1").
  - discriminate.
  - reflexivity.
Defined.

Definition key_separated (n ty x : string) : bool :=
  match NewKeyFromString x with
  | Ok k => negb (key_selected ["request_counter"; n; ty] x) ||
            bool_decide (k = mkStatKey n ty "*" (k_PodID k) "request_counter")
  | _ => true
  end.

Lemma separated_check (s : memory_cache) t n ty :
  map_Forall (λ x _, key_separated n ty x = true) (cache_Items s t) → separated s t n ty.
Proof.
  intros H k o Hk Ho Hsel. specialize (H _ _ Ho). simpl in H. unfold key_separated in H.
  rewrite NewKeyFromString_String, Hsel in H by done. by apply bool_decide_eq_true in H.
Qed.

Lemma collect_info_latest_witness :
  ∃ ts, cache_Items store ms !! Key_String (mkStatKey "edge" "cluster" "v1" "pod-a" "info") =
        Some (ObjInt64 ts).
Proof.
  destruct (Collect store ms) as [l|e|] eqn:E; [|vm_compute in E; discriminate E..].
  destruct (collect_info_latest store ms l "edge" "cluster" "pod-a" "v1" store_reachable E)
    as (ts & Hts & _); [|exists ts; exact Hts].
  assert (match Collect store ms with
          | Ok l => existsb (λ m, match m with
                                  | Info n ty p v =>
                                     bool_decide (n = "edge") && bool_decide (ty = "cluster") &&
                                     bool_decide (p = "pod-a") && bool_decide (v = "v1")
                                  | _ => false end) l
          | _ => false end = true) as H by (vm_compute; reflexivity).
  rewrite E in H. apply existsb_exists in H as (m & Hin & Hm).
  destruct m as [| | |n ty p v]; try discriminate Hm.
  rewrite !andb_true_iff, !bool_decide_eq_true in Hm. destruct Hm as [[[-> ->] ->] ->].
  by apply list_elem_of_In.
Defined.

(** Nodes whose names contain one another are not kept apart.  The only
    pod of node "edge" has rejected version "v2" five times, but a pod of node
    "edge-2" counts as one of its pods, and the share of failing pods of "edge"
    is one half. *)
Theorem percentage_other_node :
  GetPercentageFailing store ms "edge" "cluster" "v2" = Ok 1%Q ∧
  GetPercentageFailing (handle_event store ms (RequestReceived "edge-2" "cluster" "pod-b"))
    ms "edge" "cluster" "v2" = Ok (1 # 2)%Q.
Proof. split; vm_compute; reflexivity. Qed.
End StatsRuns.
