(* ===== verification/Snapshot.v ===== *)
(** * The xDS cache ([pkg/discoveryservice/xdss], [.../xdss/v3/{cache,snapshot}.go])

    A snapshot holds, per resource type, the named resources and their
    version; the cache holds one snapshot per node.  Both wrap types of the
    go-control-plane library: [SnapshotLib] stands for the functions on
    snapshots the code calls, [SnapshotCache] for the cache.

    The version of a type is a hash of the JSON of its resources, so that two
    snapshots can be compared by their versions: [SetResources_spec] and
    [versions_equal] say how far that goes. *)

From S2P Require Import Prelude Meta Envoy.

(** An [envoy.Resource] is an interface value: it can be [nil]. *)
Definition EResource := option Message.

Class SnapshotLib := {
  (** [cache_v3.GetResponseType]: the index of a type URL in a snapshot. *)
  GetResponseType : string → nat;
  (** [cache_v3.NewResources] indexes the resources by their names. *)
  IndexResources : list EResource → gmap string EResource;
  (** [protojson.Marshal] of a [nil] message. *)
  protojson_Marshal_nil : string + string;
  (** [reconcilerutil.Hash] of a map of strings. *)
  Hash_map : gmap string string → string;
}.

(** The types a snapshot has a place for. *)
Definition known_types : list EnvoyType :=
  [Endpoint; Cluster; Route; ScopedRoute; VirtualHost; Listener; Secret; Runtime;
   ExtensionConfig].

(** The library gives each type URL its own index. *)
Class SnapshotLibLaws (L : SnapshotLib) : Prop := {
  response_type_inj t t' :
    t ∈ known_types → t' ∈ known_types →
    GetResponseType (TypeURL t APIv3) = GetResponseType (TypeURL t' APIv3) → t = t';
  index_nil : IndexResources [] = ∅;
}.

(** [cache_v3.Resources] and [cache_v3.Snapshot]: an array of resources, with
    the zero value where nothing was set. *)
Record TypeResources := mkTypeResources { tr_Version : string; tr_Items : gmap string EResource }.
Abbreviation Snapshot := (gmap nat TypeResources).
Definition type_resources (s : Snapshot) (i : nat) : TypeResources :=
  default (mkTypeResources "" ∅) (s !! i).

Section Snapshot.
Context {C : Codecs} {L : SnapshotLib}.
Implicit Types (s : Snapshot) (rType : EnvoyType).

(** A type that is not in the table gets the zero value of the map. *)
Definition v3CacheResources rType : nat :=
  match Mappings rType with
  | Some _ => GetResponseType (TypeURL rType APIv3)
  | None => 0
  end.

Definition NewSnapshot : Snapshot :=
  fold_right (λ t s, <[GetResponseType (TypeURL t APIv3) :=
                         mkTypeResources "" (IndexResources [])]> s) ∅ known_types.

(** [j, _ := encoder.Marshal(...)]: the value beside an error is empty. *)
Definition marshal (r : EResource) : string :=
  match r with
  | Some m => match JSON_Marshal m with Ok j => j | _ => "" end
  | None =>
     match protojson_Marshal_nil with
     | inr data => match json_Marshal_RawMessage data with inr j => j | inl _ => "" end
     | inl _ => ""
     end
  end.

Definition recalculateVersion s rType : string :=
  let resources := marshal <$> tr_Items (type_resources s (v3CacheResources rType)) in
  if decide (0 < size resources) then Hash_map resources else "".

Definition SetVersion s rType (version : string) : Snapshot :=
  let i := v3CacheResources rType in
  <[i := mkTypeResources version (tr_Items (type_resources s i))]> s.

Definition SetResources s rType (resources : list EResource) : Snapshot :=
  let s := <[v3CacheResources rType := mkTypeResources "" (IndexResources resources)]> s in
  SetVersion s rType (recalculateVersion s rType).

Definition GetResources s rType : gmap string EResource :=
  tr_Items (type_resources s (GetResponseType (TypeURL rType APIv3))).

Definition GetVersion s rType : string :=
  tr_Version (type_resources s (GetResponseType (TypeURL rType APIv3))).
End Snapshot.

(** ** The cache *)

Class SnapshotCache (XC : Type) := {
  v3_NewSnapshotCache : XC;
  v3_SetSnapshot : XC → string → Snapshot → option error * XC;
  v3_GetSnapshot : XC → string → error + Snapshot;
  v3_ClearSnapshot : XC → string → XC;
}.

(** The documented behaviour: [GetSnapshot] returns what was set for the node
    and not cleared since, or an error. *)
Class SnapshotCacheLaws {XC} (S : SnapshotCache XC) := {
  snaps : XC → gmap string Snapshot;
  snaps_new : snaps v3_NewSnapshotCache = ∅;
  get_snapshot xc n s : v3_GetSnapshot xc n = inr s ↔ snaps xc !! n = Some s;
  set_snapshot_ok xc n s xc' :
    v3_SetSnapshot xc n s = (None, xc') → snaps xc' = <[n := s]> (snaps xc);
  set_snapshot_other xc n s res xc' n' :
    v3_SetSnapshot xc n s = (res, xc') → n' ≠ n → snaps xc' !! n' = snaps xc !! n';
  clear_snapshot xc n : snaps (v3_ClearSnapshot xc n) = delete n (snaps xc);
}.

Section Cache.
Context {XC : Type} {S : SnapshotCache XC}.

Definition NewCache : XC := v3_NewSnapshotCache.
Definition Cache_SetSnapshot (c : XC) (nodeID : string) (snap : Snapshot) : option error * XC :=
  v3_SetSnapshot c nodeID snap.
Definition Cache_GetSnapshot (c : XC) (nodeID : string) : error + Snapshot :=
  v3_GetSnapshot c nodeID.
Definition Cache_ClearSnapshot (c : XC) (nodeID : string) : XC := v3_ClearSnapshot c nodeID.
End Cache.

(** ** Lemmas *)

Section SnapshotSpec.
Context {C : Codecs} {L : SnapshotLib} {LL : SnapshotLibLaws L}.
Implicit Types (s : Snapshot) (t : EnvoyType).

(** The version the hash gives to a set of resources. *)
Definition items_version (items : gmap string EResource) : string :=
  if decide (items = ∅) then "" else Hash_map (marshal <$> items).

Lemma known_Mappings t : t ∈ known_types → ∃ u, Mappings t = Some u.
Proof. unfold known_types. set_unfold. intros H. destruct_or! H; subst; by eexists. Qed.

Lemma v3CacheResources_known t :
  t ∈ known_types → v3CacheResources t = GetResponseType (TypeURL t APIv3).
Proof. intros (u & E)%known_Mappings. unfold v3CacheResources. by rewrite E. Qed.

Lemma recalculate_items s t :
  t ∈ known_types → recalculateVersion s t = items_version (GetResources s t).
Proof.
  intros Ht. unfold recalculateVersion, items_version, GetResources.
  rewrite (v3CacheResources_known t Ht), map_size_fmap.
  set (m := tr_Items _). destruct (decide (m = ∅)) as [->|Hm].
  - by rewrite map_size_empty.
  - rewrite decide_True; [done|]. apply map_size_non_empty_iff in Hm. lia.
Qed.

(** What a type holds after [SetResources], and that the others keep theirs. *)
Lemma SetResources_same s t rs :
  t ∈ known_types →
  GetResources (SetResources s t rs) t = IndexResources rs ∧
  GetVersion (SetResources s t rs) t = items_version (IndexResources rs).
Proof.
  intros Ht. unfold SetResources, SetVersion. cbn zeta.
  rewrite (recalculate_items _ t Ht). unfold GetResources, GetVersion, type_resources.
  rewrite (v3CacheResources_known t Ht), !lookup_insert_eq. done.
Qed.

Lemma SetResources_other s t t' rs :
  t ∈ known_types → t' ∈ known_types → t ≠ t' →
  GetResources (SetResources s t rs) t' = GetResources s t' ∧
  GetVersion (SetResources s t rs) t' = GetVersion s t'.
Proof.
  intros Ht Ht' Hne. unfold SetResources, SetVersion, GetResources, GetVersion, type_resources.
  cbn zeta.
  rewrite (v3CacheResources_known t Ht).
  assert (GetResponseType (TypeURL t APIv3) ≠ GetResponseType (TypeURL t' APIv3)) as Hi.
  { intros E. by apply Hne, response_type_inj. }
  by rewrite !lookup_insert_ne.
Qed.

(** A snapshot whose versions are those of its resources. *)
Definition versioned s : Prop :=
  ∀ t, t ∈ known_types → GetVersion s t = items_version (GetResources s t).

Lemma SetResources_versioned s t rs :
  t ∈ known_types → versioned s → versioned (SetResources s t rs).
Proof.
  intros Ht Hs t' Ht'. destruct (decide (t = t')) as [<-|Hne].
  - destruct (SetResources_same s t rs Ht) as [-> ->]. done.
  - destruct (SetResources_other s t t' rs Ht Ht' Hne) as [-> ->]. by apply Hs.
Qed.

Lemma NewSnapshot_empty t :
  t ∈ known_types → GetResources NewSnapshot t = ∅ ∧ GetVersion NewSnapshot t = "".
Proof.
  intros Ht. unfold NewSnapshot, GetResources, GetVersion, type_resources.
  generalize (GetResponseType (TypeURL t APIv3)) as i. intros i. generalize known_types as l.
  induction l as [|t' l IH]; cbn [fold_right]; [done|].
  destruct (decide (GetResponseType (TypeURL t' APIv3) = i)) as [->|Hne].
  - rewrite lookup_insert_eq. simpl. by rewrite index_nil.
  - by rewrite lookup_insert_ne.
Qed.

Lemma NewSnapshot_versioned : versioned NewSnapshot.
Proof.
  intros t Ht. destruct (NewSnapshot_empty t Ht) as [-> ->]. unfold items_version.
  by rewrite decide_True.
Qed.

(** When the hash does not collide, equal versions mean equal resources. *)
Lemma versions_equal s s' t :
  Inj (=) (=) Hash_map → (∀ m, Hash_map m ≠ "") →
  versioned s → versioned s' → t ∈ known_types → GetVersion s t = GetVersion s' t →
  marshal <$> GetResources s t = marshal <$> GetResources s' t.
Proof.
  intros Hinj Hne Hs Hs' Ht. rewrite (Hs t Ht), (Hs' t Ht). unfold items_version.
  destruct (decide (_ = ∅)) as [->|], (decide (_ = ∅)) as [->|]; intros E; try done.
  - by destruct (Hne (marshal <$> GetResources s' t)).
  - by destruct (Hne (marshal <$> GetResources s t)).
  - by apply Hinj.
Qed.
End SnapshotSpec.

(** ** Concrete instances *)

Definition type_index (u : string) : nat :=
  default 10 (fst <$> list_find (λ t, TypeURL t APIv3 = u) known_types).

Definition message_name (r : EResource) : string :=
  match r with
  | Some (SecretMessage n _) => n
  | Some (ClusterLoadAssignmentMessage n _) => n
  | Some (Decoded _ s) => s
  | None => ""
  end.

(** A rendering of the map stands for the hash. *)
Definition memory_snapshot_lib : SnapshotLib := {|
  GetResponseType := type_index;
  IndexResources rs := list_to_map ((λ r, (message_name r, r)) <$> rev rs);
  protojson_Marshal_nil := inr "{}";
  Hash_map m := "#" +:+ Join ((λ kv, fst kv +:+ "=" +:+ snd kv) <$> map_to_list m) ";";
|}.

#[global] Instance memory_snapshot_lib_laws : SnapshotLibLaws memory_snapshot_lib.
Proof.
  split; [|done]. intros t t'. unfold known_types. set_unfold. intros Ht Ht'.
  destruct_or! Ht; destruct_or! Ht'; subst; vm_compute; congruence.
Qed.

Definition memory_snapshot_cache : SnapshotCache (gmap string Snapshot) := {|
  v3_NewSnapshotCache := ∅;
  v3_SetSnapshot c n s := (None, <[n := s]> c);
  v3_GetSnapshot c n :=
    match c !! n with
    | Some s => inr s
    | None => inl (ErrorString ("no snapshot found for node " +:+ n))
    end;
  v3_ClearSnapshot c n := delete n c;
|}.

#[global] Instance memory_snapshot_cache_laws : SnapshotCacheLaws memory_snapshot_cache.
Proof.
  refine {| snaps := id |}; simpl.
  - done.
  - intros c n s. destruct (c !! n) eqn:E; naive_solver.
  - by intros xc n s xc' [= <-].
  - intros xc n s res xc' n' [= _ <-] ?. by rewrite lookup_insert_ne.
  - done.
Defined.
