(* ===== verification/Discover.v ===== *)
(** * Endpoint discovery
    ([pkg/reconcilers/marin3r/envoyconfigrevision/discover/endpoints.go])

    [Endpoints] builds a cluster load assignment from the EndpointSlices a
    selector matches.  The API client, the conversion of selectors and
    [net.ParseIP] are the operations of the class [DiscoverClient]. *)

From S2P Require Import Prelude Meta Envoy Api.

(** [labels.Selector]. *)
Record Selector := mkSelector {
  sel_Matches : gmap string string → bool;
  sel_String : string;
}.

(** [discoveryv1.EndpointConditions], [Endpoint], [EndpointPort], [EndpointSlice]. *)
Record EndpointConditions := mkEndpointConditions {
  epc_Ready : option bool;
  epc_Serving : option bool;
  epc_Terminating : option bool;
}.

Record SliceEndpoint := mkSliceEndpoint {
  se_Addresses : list string;
  se_Conditions : EndpointConditions;
}.

Record EndpointPort := mkEndpointPort { ep_Name : option string; ep_Port : option Z }.

Record EndpointSlice := mkEndpointSlice {
  es_AddressType : string;
  es_Ports : list EndpointPort;
  es_Endpoints : list SliceEndpoint;
}.

Definition AddressTypeFQDN : string := "FQDN".

Class DiscoverClient (W : Type) := {
  LabelSelectorAsSelector : option LabelSelector → error + Selector;
  List_endpointslices : W → string → Selector → error + list EndpointSlice;
  ParseIP : string → option string;
}.

Definition health (ec : EndpointConditions) : EndpointHealthStatus :=
  match epc_Terminating ec with
  | Some true => HealthStatus_DRAINING
  | _ =>
     match epc_Serving ec with
     | Some serving => if serving then HealthStatus_HEALTHY else HealthStatus_UNHEALTHY
     | None =>
        match epc_Ready ec with
        | Some ready => if ready then HealthStatus_HEALTHY else HealthStatus_UNHEALTHY
        | None => HealthStatus_UNKNOWN
        end
     end
  end.

(** The loop that finds the port, which stops at the first port of the name. *)
Fixpoint find_port (portName : string) (ports : list EndpointPort) : option Z :=
  match ports with
  | [] => None
  | p :: ports =>
     if decide (ep_Name p = Some portName) then ep_Port p else find_port portName ports
  end.

Section Discover.
Context {W : Type} {D : DiscoverClient W}.

(** One endpoint: indexing an empty address list panics, an address that is
    not an IP is skipped. *)
Definition endpoint_host (port : Z) (item : SliceEndpoint) : result (list UpstreamHost) :=
  match se_Addresses item with
  | [] => Panic
  | address :: _ =>
     match ParseIP address with
     | None => Ok []
     | Some ip => Ok [mkHost ip (uint32 port) (health (se_Conditions item))]
     end
  end.

Definition endpointSlices_to_UpstreamHosts (items : list EndpointSlice) (portName : string)
    : result (list UpstreamHost) :=
  first ← deref (head items);
  if decide (es_AddressType first = AddressTypeFQDN) then
    Err (ErrorString "unsupported address type FQDN")
  else
    match find_port portName (es_Ports first) with
    | None => Err (ErrorString ("no port by the name of '" +:+ portName +:+ "' found"))
    | Some port =>
       hosts ← mapR (endpoint_host port) (concat (es_Endpoints <$> items));
       Ok (concat hosts)
    end.

Definition Discover_Endpoints (w : W) (namespace clusterName portName : string)
    (labelSelector : option LabelSelector) : result Message :=
  match LabelSelectorAsSelector labelSelector with
  | inl err => Err err
  | inr selector =>
     match List_endpointslices w namespace selector with
     | inl err => Err err
     | inr items =>
        if decide (length items = 0) then
          Err (ErrorString ("no endpoints returned for label selector '" +:+
                            sel_String selector +:+ "'"))
        else
          hosts ← endpointSlices_to_UpstreamHosts items portName;
          Ok (NewClusterLoadAssignment clusterName hosts)
     end
  end.

(** ** Lemmas *)

(** The host of an endpoint, [None] when its address is not an IP. *)
Definition host_of (port : Z) (item : SliceEndpoint) : option UpstreamHost :=
  address ← head (se_Addresses item);
  ip ← ParseIP address;
  Some (mkHost ip (uint32 port) (health (se_Conditions item))).

Definition has_address (item : SliceEndpoint) : Prop := se_Addresses item ≠ [].

Lemma endpoint_host_spec port item :
  has_address item → endpoint_host port item = Ok (option_list (host_of port item)).
Proof.
  unfold endpoint_host, host_of, has_address. destruct (se_Addresses item) as [|a as']; [done|].
  intros _. simpl. by destruct (ParseIP a).
Qed.

Lemma hosts_loop port items :
  Forall has_address items →
  ∃ hosts, mapR (endpoint_host port) items = Ok hosts ∧ concat hosts = omap (host_of port) items.
Proof.
  induction 1 as [|item items Hi _ (hosts & E & IH)]; [by exists []|]. cbn [mapR].
  rewrite endpoint_host_spec, E by done. cbn [mbind result_bind]. eexists. split; [done|].
  cbn [concat omap list_omap]. rewrite IH. by destruct (host_of port item).
Qed.

Lemma Endpoints_errors w ns cl port sel err :
  Discover_Endpoints w ns cl port sel = Err err →
  (∃ msg, err = ErrorString msg) ∨ LabelSelectorAsSelector sel = inl err ∨
  ∃ s, List_endpointslices w ns s = inl err.
Proof.
  unfold Discover_Endpoints, endpointSlices_to_UpstreamHosts.
  destruct (LabelSelectorAsSelector sel) as [e|s] eqn:E1; [naive_solver|].
  destruct (List_endpointslices w ns s) as [e|items] eqn:E2; [naive_solver|].
  case_decide; [naive_solver|]. destruct (head items) as [first|]; simpl; [|done].
  case_decide; simpl; [naive_solver|]. destruct (find_port _ _) as [z|]; simpl; [|naive_solver].
  intros Herr. exfalso. destruct (mapR _ _) as [|e|] eqn:Em; simpl in Herr; try done.
  clear -Em. revert e Em. generalize (concat (es_Endpoints <$> items)) as l.
  induction l as [|i l IH]; intros e; cbn [mapR]; [done|].
  assert (∀ e', endpoint_host z i ≠ Err e') by (unfold endpoint_host; by repeat case_match).
  destruct (endpoint_host z i); simpl; [|naive_solver|done].
  destruct (mapR (endpoint_host z) l); simpl; naive_solver.
Qed.
End Discover.


(** A client with a fixed list of slices, and a parser that accepts texts that
    start with a digit. *)
Definition memory_discover (slices : list EndpointSlice) : DiscoverClient unit := {|
  LabelSelectorAsSelector _ := inr (mkSelector (λ _, true) "app=web");
  List_endpointslices _ _ _ := inr slices;
  ParseIP s := match s with
               | String c _ => if digit_value c is Some _ then Some s else None
               | EmptyString => None
               end;
|}.

Definition example_slice (port : Z) (addresses : list string) : EndpointSlice :=
  mkEndpointSlice "IPv4" [mkEndpointPort (Some "http") (Some port)]
    ((λ a, mkSliceEndpoint [a] (mkEndpointConditions (Some true) None None)) <$> addresses).

