(* ===== verification/CacheReconciler.v ===== *)
(** * The cache reconciler
    ([pkg/reconcilers/marin3r/envoyconfigrevision/cache.go])

    [GenerateSnapshot] loads the resources of a revision (decoding them,
    reading Secrets, discovering endpoints) into a snapshot and [Reconcile]
    writes it to the xDS cache when its versions differ from what is there.

    The order of the eight resource lists is the order in which the loop
    appends to them: the loop is [load_resource] on each item, and the list of
    a type is the items of that type. *)

From S2P Require Import Prelude Meta Envoy Api Discover Snapshot.

(** [corev1.Secret], the fields the program uses. *)
Record K8sSecret := mkK8sSecret { s_Type : string; s_Data : gmap string string }.
Definition SecretTypeTLS : string := "kubernetes.io/tls".
Definition SecretTypeOpaque : string := "Opaque".
Definition secretCertificate : string := "tls.crt".
Definition secretPrivateKey : string := "tls.key".

Class SecretClient (W : Type) := {
  Get_secret : W → NamespacedName → error + K8sSecret;
}.

(** A missing key of [s.Data] reads as the empty value. *)
Definition secret_data (s : K8sSecret) (key : string) : string := default "" (s_Data s !! key).

(** [errors.NewInvalid]; the text holds the path and the message. *)
Definition resourceLoaderError (req : NamespacedName) (idx : nat) (msg : string) : error :=
  StatusError StatusReasonInvalid
    (nn_Namespace req +:+ "/" +:+ nn_Name req +:+ ": spec.resources[" +:+
     Itoa (Z.of_nat idx) +:+ "]: " +:+ msg).

Section GenerateSnapshot.
Context {C : Codecs} {L : SnapshotLib} {W : Type} {D : DiscoverClient W} {SC : SecretClient W}.
Implicit Types (w : W) (req : NamespacedName) (idx : nat) (res : Resource).

(** [r.decoder.Unmarshal] into a new message, with the decoder the controller
    passes; a [nil] [Value] panics. *)
Definition load_value req idx (t : EnvoyType) res : result EResource :=
  raw ← deref (r_Value res);
  match JSON_Unmarshal raw (New t) with
  | Ok m => Ok (Some m)
  | Err err => Err (resourceLoaderError req idx
                      ("Invalid envoy resource value: '" +:+ Error_text err +:+ "'"))
  | Panic => Panic
  end.

(** A blueprint that is neither of the two leaves the resource [nil]. *)
Definition load_secret w req idx res : result EResource :=
  match r_GenerateFromTlsSecret res, r_GenerateFromOpaqueSecret res with
  | Some name, _ =>
     match Get_secret w (mkKey (nn_Namespace req) name) with
     | inl err => Err (ErrorString (Error_text err))
     | inr s =>
        if decide (s_Type s ≠ SecretTypeTLS) then
          Err (ErrorString ("expected Secret of '" +:+ SecretTypeTLS +:+ "' type"))
        else
          Ok (match GetBlueprint res with
              | TlsCertificate =>
                 Some (NewTlsCertificateSecret name (secret_data s secretPrivateKey)
                         (secret_data s secretCertificate))
              | TlsValidationContext =>
                 Some (NewValidationContextSecret name (secret_data s secretCertificate))
              | UnknownBlueprint _ => None
              end)
     end
  | None, Some sel =>
     match Get_secret w (mkKey (nn_Namespace req) (sks_Name sel)) with
     | inl err => Err (ErrorString (Error_text err))
     | inr s =>
        if decide (s_Type s ≠ SecretTypeOpaque) then
          Err (ErrorString ("expected Secret of '" +:+ SecretTypeOpaque +:+ "' type"))
        else Ok (Some (NewGenericSecret (sks_Alias sel) (secret_data s (sks_Key sel))))
     end
  | None, None =>
     Err (resourceLoaderError req idx
            "one of 'generateFromOpaqueSecret', 'generateFromTlsSecret' must be set")
  end.

Definition load_endpoint w req idx res : result EResource :=
  match r_GenerateFromEndpointSlices res with
  | Some g =>
     m ← Discover_Endpoints w (nn_Namespace req) (ges_ClusterName g) (ges_TargetPort g)
           (ges_Selector g);
     Ok (Some m)
  | None => load_value req idx Endpoint res
  end.

(** The body of the loop: the list the resource goes to and the resource, or
    nothing for a type without a case. *)
Definition load_resource w req idx res : result (option (EnvoyType * EResource)) :=
  match r_Type res with
  | Endpoint => r ← load_endpoint w req idx res; Ok (Some (Endpoint, r))
  | Secret => r ← load_secret w req idx res; Ok (Some (Secret, r))
  | (Cluster | Route | ScopedRoute | Listener | Runtime | ExtensionConfig) as t =>
     r ← load_value req idx t res; Ok (Some (t, r))
  | VirtualHost | UnknownType _ => Ok None
  end.

Fixpoint load_resources w req idx (resources : list Resource)
    : result (list (EnvoyType * EResource)) :=
  match resources with
  | [] => Ok []
  | res :: resources =>
     r ← load_resource w req idx res;
     rs ← load_resources w req (S idx) resources;
     Ok (option_list r ++ rs)
  end.

(** The list of a type. *)
Definition of_type (t : EnvoyType) (l : list (EnvoyType * EResource)) : list EResource :=
  snd <$> List.filter (λ r, bool_decide (fst r = t)) l.

(** The types in the order [SetResources] is called for them. *)
Definition snapshot_types : list EnvoyType :=
  [Endpoint; Cluster; Route; ScopedRoute; Listener; Secret; Runtime; ExtensionConfig].

Definition GenerateSnapshot w req (resources : list Resource) : result Snapshot :=
  l ← load_resources w req 0 resources;
  Ok (fold_left (λ snap t, SetResources snap t (of_type t l)) snapshot_types NewSnapshot).

Definition areDifferent (a b : Snapshot) : bool :=
  existsb (λ t, negb (bool_decide (GetVersion a t = GetVersion b t)))
    [Endpoint; Cluster; Route; ScopedRoute; Listener; Secret; Runtime; ExtensionConfig].

Definition versionTracker (snap : Snapshot) : VersionTracker :=
  mkVersionTracker (GetVersion snap Endpoint) (GetVersion snap Cluster) (GetVersion snap Route)
    (GetVersion snap ScopedRoute) (GetVersion snap Listener) (GetVersion snap Secret)
    (GetVersion snap Runtime) (GetVersion snap ExtensionConfig).

Context {XC : Type} {S : SnapshotCache XC}.

Definition CacheReconciler_Reconcile w (xc : XC) req (resources : list Resource)
    (nodeID : string) : result VersionTracker * XC :=
  match GenerateSnapshot w req resources with
  | Err err => (Err err, xc)
  | Panic => (Panic, xc)
  | Ok snap =>
     let write := match Cache_GetSnapshot xc nodeID with
                  | inl _ => true
                  | inr oldSnap => areDifferent snap oldSnap
                  end in
     if write then
       match Cache_SetSnapshot xc nodeID snap with
       | (Some err, xc) => (Err err, xc)
       | (None, xc) => (Ok (versionTracker snap), xc)
       end
     else (Ok (versionTracker snap), xc)
  end.
End GenerateSnapshot.

(** ** Lemmas *)

Section Spec.
Context {C : Codecs} {L : SnapshotLib} {LL : SnapshotLibLaws L}.
Context {W : Type} {D : DiscoverClient W} {SC : SecretClient W}.
Context {XC : Type} {S : SnapshotCache XC} {SL : SnapshotCacheLaws S}.

Lemma snapshot_types_known t : t ∈ snapshot_types → t ∈ known_types.
Proof. unfold snapshot_types, known_types. set_solver. Qed.

(** The fold of [SetResources] over distinct types. *)
Lemma set_all_spec (f : EnvoyType → list EResource) ts snap :
  NoDup ts → (∀ t, t ∈ ts → t ∈ known_types) →
  let snap' := fold_left (λ snap t, SetResources snap t (f t)) ts snap in
  (versioned snap → versioned snap') ∧
  (∀ t, t ∈ ts → GetResources snap' t = IndexResources (f t)) ∧
  (∀ t, t ∈ known_types → t ∉ ts → GetResources snap' t = GetResources snap t).
Proof.
  revert snap. induction ts as [|t ts IH]; intros snap Hnd Hk snap'.
  - split; [done|]. split; [set_solver|done].
  - apply NoDup_cons in Hnd as [Hn Hnd].
    destruct (IH (SetResources snap t (f t)) Hnd) as (I1 & I2 & I3); [set_solver|].
    fold snap' in I1, I2, I3. split; [|split].
    + intros Hv. apply I1. apply SetResources_versioned; [|done]. apply Hk. left.
    + intros t' [->|Ht']%elem_of_cons; [|by apply I2].
      rewrite I3; [|apply Hk; left|done]. apply SetResources_same, Hk. left.
    + intros t' Ht' [Hne Hn']%not_elem_of_cons. rewrite I3 by done.
      apply SetResources_other; [apply Hk; left|done|done].
Qed.

Lemma snapshot_types_NoDup : NoDup snapshot_types.
Proof. apply (bool_decide_unpack _). by vm_compute. Qed.

(** What is in a generated snapshot. *)
Lemma GenerateSnapshot_spec w req resources snap :
  GenerateSnapshot w req resources = Ok snap →
  ∃ l, load_resources w req 0 resources = Ok l ∧ versioned snap ∧
    ∀ t, t ∈ snapshot_types → GetResources snap t = IndexResources (of_type t l).
Proof.
  unfold GenerateSnapshot. intros H. res_inv. eexists. split; [done|].
  destruct (set_all_spec (λ t, of_type t a) snapshot_types NewSnapshot) as (I1 & I2 & _).
  - apply snapshot_types_NoDup.
  - apply snapshot_types_known.
  - split; [apply I1, NewSnapshot_versioned|done].
Qed.

Lemma areDifferent_false a b :
  areDifferent a b = false ↔ ∀ t, t ∈ snapshot_types → GetVersion a t = GetVersion b t.
Proof.
  unfold areDifferent. fold snapshot_types. rewrite <- not_true_iff_false, existsb_exists. split.
  - intros H t Ht. apply dec_stable. intros Hne. apply H. exists t.
    split; [by apply list_elem_of_In|]. by rewrite bool_decide_eq_false_2.
  - intros H (t & Ht%list_elem_of_In & Hne). rewrite (H t Ht), bool_decide_eq_true_2 in Hne; done.
Qed.

(** Every snapshot of the cache has the versions of its resources. *)
Definition cache_ok (xc : XC) : Prop := map_Forall (λ _ s, versioned s) (snaps xc).

Lemma versionTracker_ext a b :
  (∀ t, t ∈ snapshot_types → GetVersion a t = GetVersion b t) →
  versionTracker a = versionTracker b.
Proof.
  intros H. unfold versionTracker, snapshot_types in *.
  rewrite (H Endpoint), (H Cluster), (H Route), (H ScopedRoute), (H Listener), (H Secret),
    (H Runtime), (H ExtensionConfig) by set_solver. done.
Qed.

(** The snapshot the node is served after a successful reconcile. *)
Lemma Reconcile_served w xc req rs node vt xc' :
  cache_ok xc → CacheReconciler_Reconcile w xc req rs node = (Ok vt, xc') →
  ∃ snap served, GenerateSnapshot w req rs = Ok snap ∧ snaps xc' !! node = Some served ∧
    vt = versionTracker snap ∧ versioned served ∧
    (∀ t, t ∈ snapshot_types → GetVersion served t = GetVersion snap t) ∧
    cache_ok xc' ∧ (∀ n, n ≠ node → snaps xc' !! n = snaps xc !! n).
Proof.
  intros Hok. unfold CacheReconciler_Reconcile, Cache_GetSnapshot, Cache_SetSnapshot.
  destruct (GenerateSnapshot w req rs) as [snap| |] eqn:Eg; [|done..].
  destruct (GenerateSnapshot_spec _ _ _ _ Eg) as (l & _ & Hv & _).
  destruct (v3_GetSnapshot xc node) as [e|old] eqn:Eo;
    [|destruct (areDifferent snap old) eqn:Ed].
  1,2: destruct (v3_SetSnapshot xc node snap) as [[err|] xc1] eqn:Es; [done|];
    intros [= <- <-]; pose proof (set_snapshot_ok _ _ _ _ Es) as Hs; exists snap, snap;
    rewrite Hs, lookup_insert_eq; repeat (split; [done|]);
    (split; [unfold cache_ok; rewrite Hs; by apply map_Forall_insert_2|]);
    intros n Hn; by rewrite lookup_insert_ne.
  intros [= <- <-]. apply get_snapshot in Eo. rewrite areDifferent_false in Ed.
  exists snap, old. repeat (split; [done|]). split; [by eapply Hok|].
  split; [|done]. intros t Ht. symmetry. by apply Ed.
Qed.

(** C17: after a successful [Reconcile] the xDS cache serves the node the
    resources of the revision.  The version of each type is the hash of the
    resources loaded for it, the tracker returned holds these versions, the
    resources served are (up to their JSON) the ones loaded when the hash does
    not collide, the snapshots of other nodes are not touched, and a second
    run with the same inputs writes nothing and returns the same tracker. *)
Theorem cache_serves_revision w xc req rs node vt xc' :
  cache_ok xc → CacheReconciler_Reconcile w xc req rs node = (Ok vt, xc') →
  ∃ l served, load_resources w req 0 rs = Ok l ∧ snaps xc' !! node = Some served ∧
    vt = versionTracker served ∧
    (∀ t, t ∈ snapshot_types →
       GetVersion served t = items_version (IndexResources (of_type t l)) ∧
       (Inj (=) (=) Hash_map → (∀ m, Hash_map m ≠ "") →
        marshal <$> GetResources served t = marshal <$> IndexResources (of_type t l))) ∧
    cache_ok xc' ∧ (∀ n, n ≠ node → snaps xc' !! n = snaps xc !! n) ∧
    CacheReconciler_Reconcile w xc' req rs node = (Ok vt, xc').
Proof.
  intros Hok H.
  destruct (Reconcile_served _ _ _ _ _ _ _ Hok H)
    as (snap & served & Hg & Hs & -> & Hv & Hver & Hok' & Hfr).
  destruct (GenerateSnapshot_spec _ _ _ _ Hg) as (l & Hl & Hsv & Hr).
  exists l, served. split; [done|]. split; [done|].
  split; [symmetry; by apply versionTracker_ext|]. split; [|split; [done|split; [done|]]].
  - intros t Ht. pose proof (snapshot_types_known t Ht) as Hk.
    rewrite (Hver t Ht), (Hsv t Hk), (Hr t Ht). split; [done|]. intros Hinj Hne.
    rewrite <- (Hr t Ht). apply versions_equal; auto.
  - unfold CacheReconciler_Reconcile, Cache_GetSnapshot. rewrite Hg.
    apply get_snapshot in Hs. rewrite Hs.
    assert (areDifferent snap served = false) as ->
      by (apply areDifferent_false; intros; symmetry; auto). done.
Qed.

(** ** Resources the webhook accepts *)

(** Every endpoint of every slice the API lists has an address. *)
Definition slices_ok (w : W) : Prop :=
  ∀ ns s items, List_endpointslices w ns s = inr items →
    Forall has_address (concat (es_Endpoints <$> items)).

(** An error of the API itself. *)
Definition api_error (w : W) (err : error) : Prop :=
  (∃ sel, LabelSelectorAsSelector sel = inl err) ∨
  ∃ ns s, List_endpointslices w ns s = inl err.

(** Loading gave a value, or an error that is not the resource's fault. *)
Definition not_invalid (w : W) {A} (r : result A) : Prop :=
  match r with
  | Ok _ => True
  | Err err => (∃ msg, err = ErrorString msg) ∨ api_error w err
  | Panic => False
  end.

Lemma not_invalid_bind w {A B} (r : result A) (f : A → result B) :
  not_invalid w r → (∀ a, r = Ok a → not_invalid w (f a)) → not_invalid w (r ≫= f).
Proof. destruct r; simpl; auto. Qed.

Lemma Endpoints_not_invalid w ns cl port sel :
  slices_ok w → not_invalid w (Discover_Endpoints w ns cl port sel).
Proof.
  intros Hw. destruct (Discover_Endpoints w ns cl port sel) as [m|err|] eqn:E; simpl; [done| |].
  - apply Endpoints_errors in E as [?|[?|[s ?]]]; unfold api_error; eauto.
  - unfold Discover_Endpoints, endpointSlices_to_UpstreamHosts in E.
    destruct (LabelSelectorAsSelector sel) as [|s]; [done|].
    destruct (List_endpointslices w ns s) as [|items] eqn:El; [done|].
    case_decide as Hlen; [done|]. destruct items as [|first rest]; [done|]. simpl in E.
    case_decide; [done|]. destruct (find_port _ _) as [z|]; [|done].
    destruct (hosts_loop z _ (Hw _ _ _ El)) as (hosts & Eh & _). simpl in Eh.
    by rewrite Eh in E.
Qed.

Lemma load_value_ok req idx t res raw :
  r_Value res = Some raw → decodes t raw → ∃ m, load_value req idx t res = Ok (Some m).
Proof. intros Hr [m Hm]. unfold load_value. rewrite Hr. simpl. rewrite Hm. eauto. Qed.

Lemma load_secret_not_invalid w req idx res :
  is_Some (r_GenerateFromTlsSecret res) ∨ is_Some (r_GenerateFromOpaqueSecret res) →
  not_invalid w (load_secret w req idx res).
Proof.
  intros H. unfold load_secret.
  destruct (r_GenerateFromTlsSecret res), (r_GenerateFromOpaqueSecret res);
    [| | |by destruct H as [[? [=]]|[? [=]]]];
    (destruct (Get_secret _ _); simpl; [|case_decide; simpl]); eauto.
Qed.

Lemma load_resource_ok w req idx res :
  slices_ok w → resource_ok res → not_invalid w (load_resource w req idx res).
Proof.
  intros Hw H. unfold load_resource. unfold resource_ok in H.
  destruct (r_Type res) eqn:Et; try done;
    try (destruct H as (_ & _ & _ & raw & Hraw & Hd);
         destruct (load_value_ok req idx _ res raw Hraw Hd) as [m ->]; done).
  - apply not_invalid_bind; [|done]. unfold load_endpoint. destruct H as [H _].
    destruct (r_GenerateFromEndpointSlices res), (r_Value res) as [raw|] eqn:Hraw; try done.
    + apply not_invalid_bind; [by apply Endpoints_not_invalid|done].
    + destruct (load_value_ok req idx Endpoint res raw Hraw H) as [m ->]. done.
  - apply not_invalid_bind; [|done]. apply load_secret_not_invalid, H.
Qed.

Lemma load_resources_ok w req idx rs :
  slices_ok w → Forall resource_ok rs → not_invalid w (load_resources w req idx rs).
Proof.
  intros Hw H. revert idx. induction H as [|res rs Hr _ IH]; intros idx; [done|].
  cbn [load_resources]. apply not_invalid_bind; [by apply load_resource_ok|]. intros o _.
  apply not_invalid_bind; [apply IH|done].
Qed.

(** C30: a revision whose resources the webhook accepts is never an invalid
    one for the cache reconciler: loading it does not panic, and when it fails
    the error comes from a Secret, from the endpoints found, or from the API
    (no error of the kind "Invalid" is raised by the reconciler). *)
Theorem validated_resources_load (r : EnvoyConfig) rs w req :
  slices_ok w → ecs_Resources (ec_Spec r) = Some rs → ValidateCreate r = Ok tt →
  not_invalid w (GenerateSnapshot w req rs).
Proof.
  intros Hw Hrs Hval. unfold ValidateCreate, EnvoyConfig_Validate in Hval. rewrite Hrs in Hval.
  destruct (ecs_EnvoyResources (ec_Spec r)); [done|].
  apply ValidateResources_ok_iff in Hval. rewrite Hrs in Hval. simpl in Hval.
  unfold GenerateSnapshot. apply not_invalid_bind; [by apply load_resources_ok|done].
Qed.
End Spec.

(** ** Concrete runs *)

Definition memory_secrets (s : K8sSecret) : SecretClient unit := {|
  Get_secret _ k := if decide (nn_Name k = "tls") then inr s
                    else inl (StatusError StatusReasonNotFound (nn_Name k));
|}.

Definition example_secret : K8sSecret :=
  mkK8sSecret SecretTypeTLS {[ secretCertificate := "cert"; secretPrivateKey := "key" ]}.

Definition example_resources : list Resource :=
  [mkResource Cluster (Some "{}") None None None None;
   mkResource Secret None (Some "tls") None None None].

Lemma cache_serves_revision_witness :
  let C := identity_codecs in let L := memory_snapshot_lib in
  let D := memory_discover [] in let SC := memory_secrets example_secret in
  let S := memory_snapshot_cache in
  let out := CacheReconciler_Reconcile tt ∅ (mkKey "ns" "rev") example_resources "node" in
  ∃ vt, fst out = Ok vt ∧
    CacheReconciler_Reconcile tt (snd out) (mkKey "ns" "rev") example_resources "node"
    = (Ok vt, snd out).
Proof.
  intros C L D SC S out. destruct out as [[vt|e|] xc] eqn:E;
    [|exfalso; vm_compute in E; discriminate E..].
  exists vt. split; [reflexivity|].
  destruct (cache_serves_revision (XC := gmap string Snapshot) tt ∅ (mkKey "ns" "rev")
              example_resources "node" vt xc) as (l & served & _ & _ & _ & _ & _ & _ & H).
  - intros n s Hs. discriminate Hs.
  - exact E.
  - exact H.
Defined.

Lemma validated_resources_load_witness :
  let C := identity_codecs in let L := memory_snapshot_lib in
  let D := memory_discover [] in let SC := memory_secrets example_secret in
  not_invalid tt (GenerateSnapshot tt (mkKey "ns" "rev") example_resources).
Proof.
  intros C L D SC.
  apply (validated_resources_load example_config example_resources tt (mkKey "ns" "rev")).
  - intros ns s items [= <-]. constructor.
  - reflexivity.
  - reflexivity.
Defined.
