(* ===== verification/RevisionController.v ===== *)
(** * The EnvoyConfigRevision controller
    ([pkg/reconcilers/marin3r/envoyconfigrevision/{status,finalize}.go],
    [controllers/marin3r/envoyconfigrevision_controller.go])

    [IsStatusReconciled] computes the status of a revision from the versions
    it provides, the xDS cache and the discovery statistics; [Reconcile]
    publishes the revision that has the [RevisionPublished] condition to the
    xDS cache and taints revisions that cannot be loaded.

    Functions that change the object they are given return it. *)

From S2P Require Import Prelude Meta Envoy Api Cluster Stats Discover Snapshot CacheReconciler.
From Stdlib Require Import QArith.
#[local] Open Scope string_scope.
#[local] Open Scope list_scope.

(** ** [status.go] *)

(** Assignments to single fields of the status. *)
Definition set_published (st : EnvoyConfigRevisionStatus) (p : option bool)
    : EnvoyConfigRevisionStatus :=
  mkEnvoyConfigRevisionStatus p (ecrst_ProvidesVersions st) (ecrst_LastPublishedAt st)
    (ecrst_Tainted st) (ecrst_Conditions st).
Definition set_last_published (st : EnvoyConfigRevisionStatus) (t : option Time)
    : EnvoyConfigRevisionStatus :=
  mkEnvoyConfigRevisionStatus (ecrst_Published st) (ecrst_ProvidesVersions st) t
    (ecrst_Tainted st) (ecrst_Conditions st).
Definition set_tainted (st : EnvoyConfigRevisionStatus) (t : option bool)
    : EnvoyConfigRevisionStatus :=
  mkEnvoyConfigRevisionStatus (ecrst_Published st) (ecrst_ProvidesVersions st)
    (ecrst_LastPublishedAt st) t (ecrst_Conditions st).
Definition set_provides (st : EnvoyConfigRevisionStatus) (vt : option VersionTracker)
    : EnvoyConfigRevisionStatus :=
  mkEnvoyConfigRevisionStatus (ecrst_Published st) vt (ecrst_LastPublishedAt st)
    (ecrst_Tainted st) (ecrst_Conditions st).

Section Status.
Context {M : MetaConditions} {XC : Type} {S : SnapshotCache XC} {G : Type} {GC : GoCache G}.
Implicit Types (ecr : EnvoyConfigRevision) (st : EnvoyConfigRevisionStatus) (xc : XC) (dStats : G).

Definition snapshot_missing (nodeID : string) : Condition :=
  NewCondition ResourcesInSyncCondition ConditionFalse "SnapshotDoesNotExist"
    ("A snapshot for nodeID " +:+ Quote nodeID +:+ " does not yet exist in the xDS server cache").
Definition resources_synced : Condition :=
  NewCondition ResourcesInSyncCondition ConditionTrue "ResourcesSynced"
    "EnvoyConfigRevision resources successfully synced with xDS server cache".

Definition calculateResourcesInSyncCondition ecr xc : option Condition :=
  if IsStatusConditionTrue (ecr_Conditions ecr) RevisionPublishedCondition then
    match Cache_GetSnapshot xc (ecrs_NodeID (ecr_Spec ecr)) with
    | inl _ => Some (snapshot_missing (ecrs_NodeID (ecr_Spec ecr)))
    | inr _ => Some resources_synced
    end
  else None.

(** The operands of the disjunction, in order. *)
Definition tracked_versions (vt : VersionTracker) : list (EnvoyType * string) :=
  [(Endpoint, vt_Endpoints vt); (Cluster, vt_Clusters vt); (Route, vt_Routes vt);
   (ScopedRoute, vt_ScopedRoutes vt); (Listener, vt_Listeners vt); (Secret, vt_Secrets vt);
   (Runtime, vt_Runtimes vt); (ExtensionConfig, vt_ExtensionConfigs vt)].

(** [a || b || ...], which stops at the first operand that holds. *)
Fixpoint any_failing (ecr : EnvoyConfigRevision) (dStats : G) (now : Time) (threshold : Q) (l : list (EnvoyType * string))
    : result bool :=
  match l with
  | [] => Ok false
  | (t, version) :: l =>
     q ← GetPercentageFailing dStats now (ecrs_NodeID (ecr_Spec ecr))
           (TypeURL t (EnvoyConfigRevision_GetEnvoyAPIVersion ecr)) version;
     if Qeq_bool q threshold then Ok true else any_failing ecr dStats now threshold l
  end.

(** [int(math.Round(threshold*100))]. *)
Definition percent (threshold : Q) : Z :=
  ((2 * 100 * Qnum threshold + Zpos (Qden threshold)) / (2 * Zpos (Qden threshold)))%Z.

Definition resources_failing (threshold : Q) : Condition :=
  NewCondition RevisionTaintedCondition ConditionTrue "ResourcesFailing"
    ("EnvoyConfigRevision resources are being rejected by more than " +:+
     Itoa (percent threshold) +:+ "% of the Envoy clients").

Definition calculateRevisionTaintedCondition ecr (vt : VersionTracker) dStats (now : Time)
    (threshold : Q) : result (option Condition) :=
  failing ← any_failing ecr dStats now threshold (tracked_versions vt);
  Ok (if (failing : bool) then Some (resources_failing threshold) else None).

(** The steps of [IsStatusReconciled]: each returns the status and [ok]. *)
Definition step_provides (vt : option VersionTracker) st : EnvoyConfigRevisionStatus * bool :=
  match vt with
  | Some v =>
     if decide (ecrst_ProvidesVersions st = Some v) then (st, true)
     else (set_provides st vt, false)
  | None => (st, true)
  end.

(** The block shared by two of the steps: write a condition unless the one
    already there is equal. *)
Definition reconcile_condition (now : Time) (t : string) (c : Condition) (cs : list Condition)
    : list Condition * bool :=
  if ConditionsEqual (Some c) (FindStatusCondition cs t) then (cs, true)
  else (SetStatusCondition now cs c, false).

Definition step_tainted (now : Time) (taintedCond : option Condition) (cs : list Condition)
    : list Condition * bool :=
  match taintedCond with
  | Some c => reconcile_condition now RevisionTaintedCondition c cs
  | None => (cs, true)
  end.

Definition step_in_sync (now : Time) (inSyncCond : option Condition) (cs : list Condition)
    : list Condition * bool :=
  match inSyncCond with
  | Some c => reconcile_condition now ResourcesInSyncCondition c cs
  | None =>
     match FindStatusCondition cs ResourcesInSyncCondition with
     | Some _ => (RemoveStatusCondition cs ResourcesInSyncCondition, false)
     | None => (cs, true)
     end
  end.

Definition step_published (now : Time) st : EnvoyConfigRevisionStatus * bool :=
  match IsStatusConditionTrue (ecrst_Conditions st) RevisionPublishedCondition,
        IsPublished st with
  | true, false => (set_last_published (set_published st (Some true)) (Some now), false)
  | false, true => (set_published st (Some false), false)
  | _, _ => (st, true)
  end.

Definition step_tainted_field st : EnvoyConfigRevisionStatus * bool :=
  match IsStatusConditionTrue (ecrst_Conditions st) RevisionTaintedCondition, IsTainted st with
  | true, false => (set_tainted st (Some true), false)
  | false, true => (set_tainted st (Some false), false)
  | _, _ => (st, true)
  end.

Definition Revision_IsStatusReconciled ecr (vt : option VersionTracker) xc dStats (now : Time)
    : result (bool * EnvoyConfigRevision) :=
  let '(st, ok1) := step_provides vt (ecr_Status ecr) in
  taintedCond ← match vt with
                | Some _ =>
                   v ← deref (ecrst_ProvidesVersions st);
                   calculateRevisionTaintedCondition (set_ecr_status ecr st) v dStats now 1
                | None => Ok None
                end;
  let '(cs, ok2) := step_tainted now taintedCond (ecrst_Conditions st) in
  let st := set_ecrst_conditions st cs in
  let inSyncCond := calculateResourcesInSyncCondition (set_ecr_status ecr st) xc in
  let '(cs, ok3) := step_in_sync now inSyncCond cs in
  let st := set_ecrst_conditions st cs in
  let '(st, ok4) := step_published now st in
  let '(st, ok5) := step_tainted_field st in
  Ok (ok1 && ok2 && ok3 && ok4 && ok5, set_ecr_status ecr st).

(** ** [finalize.go] *)

Definition CleanupLogic ecr xc dStats (now : Time) : XC * G :=
  if IsStatusConditionTrue (ecr_Conditions ecr) RevisionPublishedCondition then
    (Cache_ClearSnapshot xc (ecrs_NodeID (ecr_Spec ecr)),
     DeleteKeysByFilter dStats now [ecrs_NodeID (ecr_Spec ecr)])
  else (xc, dStats).
End Status.

(** ** The controller *)

(** What [ManageResourceLifecycle] can end with: return now, possibly after
    running the finalization function on the object, or go on with it. *)
Inductive lifecycle :=
  | LReturn (res : result Result)
  | LFinalized (res : result Result) (ecr : EnvoyConfigRevision)
  | LContinue (ecr : EnvoyConfigRevision).

Class RevisionLifecycle (W : Type) := {
  ManageRevisionLifecycle :
    W → NamespacedName → (EnvoyConfigRevision → EnvoyConfigRevision) →
    (EnvoyConfigRevision → error + EnvoyConfigRevision) → string → lifecycle * W;
  (** [Status().Patch] of the difference of two objects; on success the object
      becomes what the API answers. *)
  Status_Patch : W → EnvoyConfigRevision → EnvoyConfigRevision →
    (error + EnvoyConfigRevision) * W;
}.

(** A successful patch that changes the conditions leaves the new ones. *)
Class RevisionLifecycleLaws {W} (RL : RevisionLifecycle W) : Prop := {
  patch_conditions w old new ecr w' :
    Status_Patch w old new = (inr ecr, w') → ecr_Conditions old ≠ ecr_Conditions new →
    ecr_Conditions ecr = ecr_Conditions new;
}.

Section Controller.
Context {C : Codecs} {L : SnapshotLib} {W : Type} {D : DiscoverClient W} {SC : SecretClient W}.
Context {K : RevisionClient W} {RL : RevisionLifecycle W} {M : MetaConditions}.
Context {XC : Type} {S : SnapshotCache XC} {G : Type} {GC : GoCache G}.
Implicit Types (w : W) (ecr : EnvoyConfigRevision) (xc : XC) (dStats : G) (now : Time).

(** The function passed to [WithInMemoryInitializationFunc]. *)
Definition convert_revision_resources ecr : error + EnvoyConfigRevision :=
  match ecrs_EnvoyResources (ecr_Spec ecr) with
  | Some inn =>
     match Resources inn (EnvoyConfigRevision_GetSerialization ecr) with
     | inl err => inl err
     | inr resources =>
        let sp := ecr_Spec ecr in
        inr (mkEnvoyConfigRevision (ecr_APIVersion ecr) (ecr_Kind ecr) (ecr_Meta ecr)
               (mkEnvoyConfigRevisionSpec (ecrs_NodeID sp) (ecrs_Version sp) (ecrs_EnvoyAPI sp)
                  (ecrs_Serialization sp) None (Some resources))
               (ecr_Status ecr))
     end
  | None => inr ecr
  end.

Definition taintSelf now w ecr (reason msg : string)
    : option error * EnvoyConfigRevision * W :=
  if IsStatusConditionTrue (ecr_Conditions ecr) RevisionTaintedCondition then (None, ecr, w)
  else
    let ecr' := set_ecr_status ecr
      (set_tainted (set_ecrst_conditions (ecr_Status ecr)
         (SetStatusCondition now (ecr_Conditions ecr)
            (NewCondition RevisionTaintedCondition ConditionTrue reason msg))) (Some true)) in
    match Status_Patch w ecr ecr' with
    | (inl err, w) => (Some err, ecr', w)
    | (inr ecr, w) => (None, ecr, w)
    end.

(** The part of [Reconcile] that follows the publication of the resources; the
    error of the status update is only logged. *)
Definition finish_reconcile now w ecr (vt : option VersionTracker) xc dStats
    : result Result * W :=
  match Revision_IsStatusReconciled ecr vt xc dStats now with
  | Panic => (Panic, w)
  | Err err => (Err err, w)
  | Ok (ok, ecr) =>
     let w := if ok then w else snd (Status_Update w ecr) in
     if IsStatusConditionTrue (ecr_Conditions ecr) RevisionPublishedCondition
     then (Ok (mkResult true (30 * Second)), w)
     else (Ok emptyResult, w)
  end.

Definition EnvoyConfigRevision_Reconcile now w xc dStats (req : NamespacedName)
    : result Result * W * XC * G :=
  match ManageRevisionLifecycle w req EnvoyConfigRevision_Default convert_revision_resources
          EnvoyConfigRevisionFinalizer with
  | (LReturn res, w) => (res, w, xc, dStats)
  | (LFinalized res ecr, w) =>
     let '(xc, dStats) := CleanupLogic ecr xc dStats now in (res, w, xc, dStats)
  | (LContinue ecr, w) =>
     if IsStatusConditionTrue (ecr_Conditions ecr) RevisionPublishedCondition then
       match CacheReconciler_Reconcile w xc req (default [] (ecrs_Resources (ecr_Spec ecr)))
               (ecrs_NodeID (ecr_Spec ecr)) with
       | (Ok vt, xc) =>
          let '(res, w) := finish_reconcile now w ecr (Some vt) xc dStats in (res, w, xc, dStats)
       | (Panic, xc) => (Panic, w, xc, dStats)
       | (Err err, xc) =>
          match err with
          | StatusError _ msg =>
             let '(err', ecr, w) := taintSelf now w ecr "FailedLoadingResources" msg in
             match err' with
             | Some e => (Err e, w, xc, dStats)
             | None =>
                let '(res, w) := finish_reconcile now w ecr None xc dStats in
                (res, w, xc, dStats)
             end
          | _ => (Err err, w, xc, dStats)
          end
       end
     else
       let '(res, w) := finish_reconcile now w ecr None xc dStats in (res, w, xc, dStats)
  end.

(** ** Event filters *)

Definition filterByAPIVersion (obj : option EnvoyConfigRevision) (version : APIVersion) : bool :=
  match obj with
  | Some ecr => bool_decide (EnvoyConfigRevision_GetEnvoyAPIVersion ecr = version)
  | None => true
  end.

(** The function of [SecretsEventHandler]: does an event on a Secret concern
    the revision? *)
Definition SecretsEventHandler (secret_name : string) (secret : K8sSecret) ecr : bool :=
  if decide (s_Type secret ≠ SecretTypeTLS ∧ s_Type secret ≠ SecretTypeOpaque) then false
  else
    IsStatusConditionTrue (ecr_Conditions ecr) RevisionPublishedCondition &&
    existsb (λ s, bool_decide (r_Type s = Secret) &&
                  (bool_decide (r_GenerateFromTlsSecret s = Some secret_name) ||
                   bool_decide (sks_Name <$> r_GenerateFromOpaqueSecret s = Some secret_name)))
      (default [] (ecrs_Resources (ecr_Spec ecr))).

(** The function of [EndpointSlicesEventHandler]. *)
Definition EndpointSlicesEventHandler (labels : gmap string string) ecr : bool :=
  IsStatusConditionTrue (ecr_Conditions ecr) RevisionPublishedCondition &&
  existsb (λ r, bool_decide (r_Type r = Endpoint) &&
                match r_GenerateFromEndpointSlices r with
                | Some g =>
                   match LabelSelectorAsSelector (ges_Selector g) with
                   | inl _ => false
                   | inr selector => sel_Matches selector labels
                   end
                | None => false
                end)
    (default [] (ecrs_Resources (ecr_Spec ecr))).
End Controller.

(** ** Lemmas on the steps *)

Section StatusSpec.
Context {M : MetaConditions} {ML : MetaConditionsLaws M}.
Context {XC : Type} {S : SnapshotCache XC} {G : Type} {GC : GoCache G}.
Implicit Types (ecr : EnvoyConfigRevision) (st : EnvoyConfigRevisionStatus) (xc : XC) (dStats : G).
Implicit Types (cs : list Condition) (c : Condition) (now : Time).

Lemma reconcile_condition_spec now c cs cs' ok :
  reconcile_condition now (c_Type c) c cs = (cs', ok) →
  (∃ c', FindStatusCondition cs' (c_Type c) = Some c' ∧ c_Reason c' = c_Reason c ∧
     c_Message c' = c_Message c ∧
     (c_Status c' = c_Status c ∨ FindStatusCondition cs (c_Type c) = Some c')) ∧
  (∀ t, t ≠ c_Type c → FindStatusCondition cs' t = FindStatusCondition cs t) ∧
  (ok = true ↔ cs' = cs) ∧
  (∀ now', reconcile_condition now' (c_Type c) c cs' = (cs', true)).
Proof.
  unfold reconcile_condition.
  destruct (ConditionsEqual _ _) eqn:E; intros [= <- <-].
  - rewrite E. destruct (FindStatusCondition cs (c_Type c)) as [c'|]; [|done]. simpl in E.
    rewrite !andb_true_iff, !bool_decide_eq_true in E. naive_solver.
  - rewrite conditions_equal_set. destruct (find_set_eq now cs c) as (c' & -> & _ & ? & ? & ?).
    split; [eauto 8|]. split; [intros; by apply find_set_ne|]. split; [|done].
    split; [done|]. intros Eq. pose proof (conditions_equal_set now cs c). congruence.
Qed.

Lemma step_tainted_spec now oc cs cs' ok :
  (∀ c, oc = Some c → c_Type c = RevisionTaintedCondition ∧ c_Status c = ConditionTrue) →
  step_tainted now oc cs = (cs', ok) →
  (∀ t, t ≠ RevisionTaintedCondition → FindStatusCondition cs' t = FindStatusCondition cs t) ∧
  (IsStatusConditionTrue cs RevisionTaintedCondition = true →
     IsStatusConditionTrue cs' RevisionTaintedCondition = true) ∧
  (IsStatusConditionTrue cs' RevisionTaintedCondition = true →
     IsStatusConditionTrue cs RevisionTaintedCondition = true ∨ is_Some oc) ∧
  (is_Some oc → (∀ c, FindStatusCondition cs RevisionTaintedCondition = Some c →
                      c_Status c = ConditionTrue) →
     IsStatusConditionTrue cs' RevisionTaintedCondition = true) ∧
  (ok = true ↔ cs' = cs) ∧
  (∀ now', step_tainted now' oc cs' = (cs', true)).
Proof.
  intros Hc. destruct oc as [c|]; simpl.
  - destruct (Hc c eq_refl) as [Ht Hs].
    intros H. rewrite <- Ht in H. apply reconcile_condition_spec in H as ((c' & F & _ & _ & St) & O & K & I).
    rewrite Ht in *. rewrite !(is_true_find_some _ _ _ F), !bool_decide_eq_true.
    split; [done|]. split.
    { rewrite is_true_iff. intros (c0 & F0 & S0). destruct St as [->|E]; [done|]. naive_solver. }
    split; [eauto|]. split; [intros _ W; destruct St as [->|E]; eauto|]. auto.
  - intros [= <- <-]. repeat split; auto. by intros [? [=]].
Qed.

Lemma step_in_sync_spec now oc cs cs' ok :
  (∀ c, oc = Some c → c_Type c = ResourcesInSyncCondition) →
  step_in_sync now oc cs = (cs', ok) →
  (c_Reason <$> FindStatusCondition cs' ResourcesInSyncCondition) = (c_Reason <$> oc) ∧
  (∀ t, t ≠ ResourcesInSyncCondition → FindStatusCondition cs' t = FindStatusCondition cs t) ∧
  (ok = true ↔ cs' = cs) ∧
  (∀ now', step_in_sync now' oc cs' = (cs', true)).
Proof.
  intros Hc. destruct oc as [c|]; simpl.
  - specialize (Hc c eq_refl). rewrite <- Hc.
    intros ((c' & F & R & _) & O & K & I)%reconcile_condition_spec. rewrite F. simpl. by rewrite R.
  - destruct (FindStatusCondition cs _) as [c|] eqn:E; intros [= <- <-].
    + rewrite find_remove_eq. split; [done|]. split; [intros; by apply find_remove_ne|].
      split; [|done]. split; [done|]. intros Eq. rewrite <- Eq, find_remove_eq in E. done.
    + rewrite E. done.
Qed.

Lemma step_published_spec now st st' ok :
  step_published now st = (st', ok) →
  IsPublished st' = IsStatusConditionTrue (ecrst_Conditions st) RevisionPublishedCondition ∧
  ecrst_Conditions st' = ecrst_Conditions st ∧ ecrst_Tainted st' = ecrst_Tainted st ∧
  ecrst_ProvidesVersions st' = ecrst_ProvidesVersions st ∧
  ecrst_LastPublishedAt st' =
    (if IsStatusConditionTrue (ecrst_Conditions st) RevisionPublishedCondition &&
        negb (IsPublished st)
     then Some now else ecrst_LastPublishedAt st) ∧
  (ok = true ↔ st' = st) ∧ (∀ now', step_published now' st' = (st', true)).
Proof.
  unfold step_published.
  destruct (IsStatusConditionTrue _ _) eqn:E, (IsPublished st) eqn:E'; intros [= <- <-]; simpl;
    rewrite ?E, ?E'; repeat split; try done; intros Eq; rewrite <- Eq in E'; discriminate.
Qed.

Lemma step_tainted_field_spec st st' ok :
  step_tainted_field st = (st', ok) →
  IsTainted st' = IsStatusConditionTrue (ecrst_Conditions st) RevisionTaintedCondition ∧
  ecrst_Conditions st' = ecrst_Conditions st ∧ ecrst_Published st' = ecrst_Published st ∧
  ecrst_ProvidesVersions st' = ecrst_ProvidesVersions st ∧
  ecrst_LastPublishedAt st' = ecrst_LastPublishedAt st ∧
  (ok = true ↔ st' = st) ∧ step_tainted_field st' = (st', true).
Proof.
  unfold step_tainted_field.
  destruct (IsStatusConditionTrue _ _) eqn:E, (IsTainted st) eqn:E'; intros [= <- <-]; simpl;
    rewrite ?E, ?E'; repeat split; try done; intros Eq; rewrite <- Eq in E'; discriminate.
Qed.

Lemma step_provides_spec vt st st' ok :
  step_provides vt st = (st', ok) →
  ecrst_ProvidesVersions st' = (match vt with Some _ => vt | None => ecrst_ProvidesVersions st end) ∧
  st' = set_provides st (ecrst_ProvidesVersions st') ∧
  (ok = true ↔ st' = st) ∧ step_provides vt st' = (st', true).
Proof.
  assert (st = set_provides st (ecrst_ProvidesVersions st)) as Eta by by destruct st.
  destruct vt as [v|]; simpl; [case_decide as Hd|]; intros [= <- <-].
  - rewrite decide_True by done. rewrite Hd in *. done.
  - simpl. rewrite decide_True by done. repeat split; try done. intros Eq. by rewrite <- Eq in Hd.
  - done.
Qed.

Lemma any_failing_status ecr st dStats now q l :
  any_failing (set_ecr_status ecr st) dStats now q l = any_failing ecr dStats now q l.
Proof. induction l as [|[t v] l IH]; [done|]. simpl. destruct (GetPercentageFailing _ _ _ _ _); [|done..].
  simpl. by rewrite IH. Qed.

Lemma tainted_condition_spec ecr vt dStats now q c :
  calculateRevisionTaintedCondition ecr vt dStats now q = Ok (Some c) →
  c_Type c = RevisionTaintedCondition ∧ c_Status c = ConditionTrue.
Proof.
  unfold calculateRevisionTaintedCondition. destruct (any_failing _ _ _ _ _) as [[]| |]; simpl;
    [|done..]. by intros [= <-].
Qed.

Lemma in_sync_condition_type ecr xc c :
  calculateResourcesInSyncCondition ecr xc = Some c → c_Type c = ResourcesInSyncCondition.
Proof.
  unfold calculateResourcesInSyncCondition. repeat case_match; [..|done]; by intros [= <-].
Qed.

(** What [IsStatusReconciled] makes of a revision. *)
Record revision_status_right {SL : SnapshotCacheLaws S} (now : Time) ecr
    (vt : option VersionTracker) xc ecr' : Prop := {
  rs_frame : ecr' = set_ecr_status ecr (ecr_Status ecr');
  rs_provides :
    ecrst_ProvidesVersions (ecr_Status ecr') =
    match vt with Some _ => vt | None => ecrst_ProvidesVersions (ecr_Status ecr) end;
  rs_condition :
    FindStatusCondition (ecr_Conditions ecr') RevisionPublishedCondition =
    FindStatusCondition (ecr_Conditions ecr) RevisionPublishedCondition;
  rs_published :
    IsPublished (ecr_Status ecr') =
    IsStatusConditionTrue (ecr_Conditions ecr') RevisionPublishedCondition;
  rs_last :
    ecrst_LastPublishedAt (ecr_Status ecr') =
    if IsPublished (ecr_Status ecr') && negb (IsPublished (ecr_Status ecr))
    then Some now else ecrst_LastPublishedAt (ecr_Status ecr);
  rs_tainted :
    IsTainted (ecr_Status ecr') =
    IsStatusConditionTrue (ecr_Conditions ecr') RevisionTaintedCondition;
  rs_sticky :
    IsStatusConditionTrue (ecr_Conditions ecr) RevisionTaintedCondition = true →
    IsStatusConditionTrue (ecr_Conditions ecr') RevisionTaintedCondition = true;
  rs_in_sync :
    c_Reason <$> FindStatusCondition (ecr_Conditions ecr') ResourcesInSyncCondition =
    if IsPublished (ecr_Status ecr')
    then Some (match snaps xc !! ecrs_NodeID (ecr_Spec ecr) with
               | Some _ => "ResourcesSynced"
               | None => "SnapshotDoesNotExist"
               end)
    else None;
}.

Lemma in_sync_reason {SL : SnapshotCacheLaws S} ecr xc :
  c_Reason <$> calculateResourcesInSyncCondition ecr xc =
  if IsStatusConditionTrue (ecr_Conditions ecr) RevisionPublishedCondition
  then Some (match snaps xc !! ecrs_NodeID (ecr_Spec ecr) with
             | Some _ => "ResourcesSynced"
             | None => "SnapshotDoesNotExist"
             end)
  else None.
Proof.
  unfold calculateResourcesInSyncCondition, Cache_GetSnapshot.
  destruct (IsStatusConditionTrue _ _); [|done].
  destruct (v3_GetSnapshot _ _) as [e|s] eqn:E.
  - destruct (snaps xc !! _) eqn:E'; [|done]. apply get_snapshot in E'. congruence.
  - apply get_snapshot in E. by rewrite E.
Qed.

(** The taint condition computed in a run. *)
Definition computed_taint ecr (vt : option VersionTracker) dStats now : result (option Condition) :=
  match vt with
  | Some v => calculateRevisionTaintedCondition ecr v dStats now 1
  | None => Ok None
  end.

(** [IsStatusReconciled] as the composition of its steps. *)
Lemma IsStatusReconciled_steps ecr vt xc dStats now :
  Revision_IsStatusReconciled ecr vt xc dStats now =
  (oc ← computed_taint ecr vt dStats now;
   let '(st, ok1) := step_provides vt (ecr_Status ecr) in
   let '(cs, ok2) := step_tainted now oc (ecrst_Conditions st) in
   let '(cs', ok3) :=
     step_in_sync now
       (calculateResourcesInSyncCondition
          (set_ecr_status ecr (set_ecrst_conditions st cs)) xc) cs in
   let '(st', ok4) := step_published now (set_ecrst_conditions st cs') in
   let '(st'', ok5) := step_tainted_field st' in
   Ok (ok1 && ok2 && ok3 && ok4 && ok5, set_ecr_status ecr st'')).
Proof.
  unfold Revision_IsStatusReconciled, computed_taint.
  destruct (step_provides vt (ecr_Status ecr)) as [st ok1] eqn:E1.
  apply step_provides_spec in E1 as (P1 & _).
  destruct vt as [v|]; [rewrite P1; simpl|simpl].
  - unfold calculateRevisionTaintedCondition. rewrite any_failing_status.
    by destruct (any_failing _ _ _ _ _) as [b| |].
  - done.
Qed.

Lemma computed_taint_spec ecr vt dStats now c :
  computed_taint ecr vt dStats now = Ok (Some c) →
  c_Type c = RevisionTaintedCondition ∧ c_Status c = ConditionTrue.
Proof. destruct vt; [apply tainted_condition_spec|done]. Qed.

Lemma computed_taint_status ecr st vt dStats now :
  computed_taint (set_ecr_status ecr st) vt dStats now = computed_taint ecr vt dStats now.
Proof.
  destruct vt; [|done]. simpl. unfold calculateRevisionTaintedCondition.
  by rewrite any_failing_status.
Qed.

(** The steps report whether they changed anything. *)
Lemma step_tainted_ok_ext now now' oc cs1 cs2 :
  FindStatusCondition cs1 RevisionTaintedCondition =
  FindStatusCondition cs2 RevisionTaintedCondition →
  snd (step_tainted now oc cs1) = snd (step_tainted now' oc cs2).
Proof.
  intros E. destruct oc; [|done]. simpl. unfold reconcile_condition. rewrite E.
  by destruct (ConditionsEqual _ _).
Qed.

Lemma status_eta st p v l t cs :
  ecrst_Published st = p → ecrst_ProvidesVersions st = v → ecrst_LastPublishedAt st = l →
  ecrst_Tainted st = t → ecrst_Conditions st = cs →
  st = mkEnvoyConfigRevisionStatus p v l t cs.
Proof. destruct st; simpl. congruence. Qed.

Lemma steps_unchanged now vt oc sc st0 st st' st'' cs cs' ok1 ok2 ok3 ok4 ok5 :
  (∀ c, oc = Some c → c_Type c = RevisionTaintedCondition ∧ c_Status c = ConditionTrue) →
  (∀ c, sc = Some c → c_Type c = ResourcesInSyncCondition) →
  step_provides vt st0 = (st, ok1) → step_tainted now oc (ecrst_Conditions st) = (cs, ok2) →
  step_in_sync now sc cs = (cs', ok3) →
  step_published now (set_ecrst_conditions st cs') = (st', ok4) →
  step_tainted_field st' = (st'', ok5) →
  ok1 && ok2 && ok3 && ok4 && ok5 = true ↔ st'' = st0.
Proof.
  intros Hoc Hsc E1 E2 E3 E4 E5.
  apply step_provides_spec in E1 as (_ & F1 & O1 & _).
  pose proof E2 as E2'. apply step_tainted_spec in E2 as (_ & _ & _ & _ & O2 & I2); [|done].
  apply step_in_sync_spec in E3 as (_ & F3 & O3 & _); [|done].
  apply step_published_spec in E4 as (_ & C4 & T4 & V4 & _ & O4 & _).
  apply step_tainted_field_spec in E5 as (_ & C5 & Pb5 & V5 & L5 & O5 & _). simpl in *.
  rewrite !andb_true_iff, O1, O2, O3, O4, O5. split.
  - intros ((((-> & ->) & ->) & ->) & ->). by destruct st0.
  - intros ->.
    assert (st = st0) as ->. { rewrite F1, <- V4, <- V5. by destruct st0. }
    assert (cs' = ecrst_Conditions st0) as -> by congruence.
    assert (cs = ecrst_Conditions st0) as ->.
    { apply O2. assert (ok2 = snd (step_tainted now oc (ecrst_Conditions st0))) as -> by by rewrite E2'.
      rewrite (step_tainted_ok_ext now now oc _ cs), I2 by by rewrite F3. done. }
    assert (st' = st0) as ->. { rewrite (status_eta st' _ _ _ _ _ eq_refl eq_refl eq_refl eq_refl eq_refl).
      rewrite <- Pb5, V4, <- L5, T4, C4. by destruct st0. }
    repeat split. by destruct st0.
Qed.

(** The steps leave the two conditions that are read later alone. *)
Lemma IsStatusReconciled_right {SL : SnapshotCacheLaws S} ecr vt xc dStats now ok ecr' :
  Revision_IsStatusReconciled ecr vt xc dStats now = Ok (ok, ecr') →
  revision_status_right now ecr vt xc ecr' ∧ (ok = true ↔ ecr' = ecr) ∧
  ∃ oc, computed_taint ecr vt dStats now = Ok oc ∧
    (IsStatusConditionTrue (ecr_Conditions ecr') RevisionTaintedCondition = true →
     IsStatusConditionTrue (ecr_Conditions ecr) RevisionTaintedCondition = true ∨ is_Some oc) ∧
    (is_Some oc → (∀ c, FindStatusCondition (ecr_Conditions ecr) RevisionTaintedCondition = Some c →
                        c_Status c = ConditionTrue) →
     IsStatusConditionTrue (ecr_Conditions ecr') RevisionTaintedCondition = true).
Proof.
  rewrite IsStatusReconciled_steps.
  destruct (computed_taint ecr vt dStats now) as [oc| |] eqn:Eoc; [|done..]. simpl.
  destruct (step_provides _ _) as [st ok1] eqn:E1.
  destruct (step_tainted _ _ _) as [cs ok2] eqn:E2.
  destruct (step_in_sync _ _ _) as [cs' ok3] eqn:E3.
  destruct (step_published _ _) as [st' ok4] eqn:E4.
  destruct (step_tainted_field _) as [st'' ok5] eqn:E5. intros [= <- <-].
  assert (∀ c, oc = Some c → c_Type c = RevisionTaintedCondition ∧ c_Status c = ConditionTrue)
    as Hoc by (intros c ->; by eapply computed_taint_spec).
  pose proof (steps_unchanged _ _ _ _ _ _ _ _ _ _ _ _ _ _ _ Hoc (in_sync_condition_type _ _)
                E1 E2 E3 E4 E5) as Hok.
  apply step_provides_spec in E1 as (P1 & F1 & O1 & _).
  apply step_tainted_spec in E2 as (F2 & S2 & T2 & W2 & O2 & _); [|done].
  apply step_in_sync_spec in E3 as (R3 & F3 & O3 & _); [|apply in_sync_condition_type].
  apply step_published_spec in E4 as (P4 & C4 & T4 & V4 & L4 & O4 & _).
  apply step_tainted_field_spec in E5 as (P5 & C5 & Pb5 & V5 & L5 & O5 & _).
  rewrite in_sync_reason in R3. simpl in *.
  assert (ecrst_Conditions st = ecr_Conditions ecr) as C1 by (rewrite F1; done).
  assert (IsPublished st'' = IsPublished st') as Pp by (unfold IsPublished; by rewrite Pb5).
  rewrite C1 in *.
  assert (IsStatusConditionTrue cs RevisionPublishedCondition =
          IsStatusConditionTrue cs' RevisionPublishedCondition) as Pc
    by (apply is_true_ext; symmetry; by apply F3).
  assert (IsStatusConditionTrue cs' RevisionTaintedCondition =
          IsStatusConditionTrue cs RevisionTaintedCondition) as Tc
    by (apply is_true_ext; by apply F3).
  assert (ecr_Conditions (set_ecr_status ecr st'') = cs') as C by (unfold ecr_Conditions; simpl; congruence).
  assert (IsPublished (set_ecrst_conditions st cs') = IsPublished (ecr_Status ecr)) as Pe
    by (unfold IsPublished; simpl; by rewrite F1).
  split; [constructor|split].
  all: rewrite ?C; simpl.
  - done.
  - by rewrite V5, V4.
  - by rewrite F3, F2.
  - by rewrite Pp.
  - rewrite L5, L4, Pp, P4, Pe, F1. done.
  - rewrite P5, C4. done.
  - rewrite Tc. done.
  - rewrite Pp, P4, <- Pc, R3. done.
  - rewrite Hok. split; [intros ->; by destruct ecr|].
    intros E. by apply (f_equal ecr_Status) in E.
  - exists oc. rewrite Tc. done.
Qed.

(** After the steps, the steps change nothing. *)
Lemma steps_again now vt oc sc st0 st st' st'' cs cs' ok1 ok2 ok3 ok4 ok5 :
  (∀ c, oc = Some c → c_Type c = RevisionTaintedCondition ∧ c_Status c = ConditionTrue) →
  (∀ c, sc = Some c → c_Type c = ResourcesInSyncCondition) →
  step_provides vt st0 = (st, ok1) → step_tainted now oc (ecrst_Conditions st) = (cs, ok2) →
  step_in_sync now sc cs = (cs', ok3) →
  step_published now (set_ecrst_conditions st cs') = (st', ok4) →
  step_tainted_field st' = (st'', ok5) →
  step_provides vt st'' = (st'', true) ∧ step_tainted now oc cs' = (cs', true) ∧
  step_in_sync now sc cs' = (cs', true) ∧ step_published now st'' = (st'', true) ∧
  step_tainted_field st'' = (st'', true) ∧ ecrst_Conditions st'' = cs'.
Proof.
  intros Hoc Hsc E1 E2 E3 E4 E5.
  apply step_provides_spec in E1 as (P1 & _).
  apply step_tainted_spec in E2 as (_ & _ & _ & _ & _ & I2); [|done].
  apply step_in_sync_spec in E3 as (_ & F3 & _ & I3); [|done].
  apply step_published_spec in E4 as (P4 & C4 & _ & V4 & _).
  apply step_tainted_field_spec in E5 as (_ & C5 & Pb5 & V5 & _ & _ & I5). simpl in *.
  assert (IsPublished st'' = IsPublished st') as Pp by (unfold IsPublished; by rewrite Pb5).
  split.
  { destruct (step_provides vt st'') as [x b] eqn:E. apply step_provides_spec in E as (Px & Fx & Ox & _).
    assert (x = st'') as ->; [|by rewrite (proj2 Ox eq_refl)].
    rewrite Fx. replace (ecrst_ProvidesVersions x) with (ecrst_ProvidesVersions st'') by (destruct vt; congruence).
    by destruct st''. }
  split.
  { destruct (step_tainted now oc cs') as [x b] eqn:E. pose proof E as E'.
    apply step_tainted_spec in E as (_ & _ & _ & _ & Ox & _); [|done].
    pose proof (step_tainted_ok_ext now now oc cs' cs (F3 RevisionTaintedCondition ltac:(done))) as Hok.
    rewrite E', I2 in Hok. simpl in Hok. subst b. by rewrite (proj1 Ox eq_refl). }
  split; [apply I3|]. split; [|split; [done|congruence]].
  unfold step_published. rewrite Pp, P4, C5, C4. by destruct (IsStatusConditionTrue cs' _).
Qed.

(** [IsStatusReconciled] of a revision.  Only the status changes.  It ends
    with the versions the cache was given, [published] and [tainted] equal to
    their conditions (and [lastPublishedAt] the time of the change), and an
    in-sync condition exactly when the revision is published, which says
    whether the cache has a snapshot for the node.  A taint is never removed.
    The result tells whether something changed, and a second run changes
    nothing. *)
Theorem revision_status_reconciled {SL : SnapshotCacheLaws S} ecr vt xc dStats now ok ecr' :
  Revision_IsStatusReconciled ecr vt xc dStats now = Ok (ok, ecr') →
  revision_status_right now ecr vt xc ecr' ∧ (ok = true ↔ ecr' = ecr) ∧
  Revision_IsStatusReconciled ecr' vt xc dStats now = Ok (true, ecr').
Proof.
  intros H. destruct (IsStatusReconciled_right _ _ _ _ _ _ _ H) as (R & O & _).
  split; [done|]. split; [done|]. revert H. rewrite !IsStatusReconciled_steps.
  destruct (computed_taint ecr vt dStats now) as [oc| |] eqn:Eoc; [|done..]. simpl.
  destruct (step_provides _ _) as [st ok1] eqn:E1.
  destruct (step_tainted _ _ _) as [cs ok2] eqn:E2.
  destruct (step_in_sync _ _ _) as [cs' ok3] eqn:E3.
  destruct (step_published _ _) as [st' ok4] eqn:E4.
  destruct (step_tainted_field _) as [st'' ok5] eqn:E5. intros [= _ <-].
  assert (∀ c, oc = Some c → c_Type c = RevisionTaintedCondition ∧ c_Status c = ConditionTrue)
    as Hoc by (intros c ->; by eapply computed_taint_spec).
  pose proof (in_sync_condition_type (set_ecr_status ecr (set_ecrst_conditions st cs)) xc) as Hsc.
  destruct (steps_again _ _ _ _ _ _ _ _ _ _ _ _ _ _ _ Hoc Hsc E1 E2 E3 E4 E5)
    as (A1 & A2 & A3 & A4 & A5 & C).
  apply step_in_sync_spec in E3 as (_ & F3 & _); [|done].
  rewrite computed_taint_status, Eoc. simpl. rewrite A1, C, A2.
  assert (∀ ecr1 ecr2, ecr_Spec ecr1 = ecr_Spec ecr2 →
     FindStatusCondition (ecr_Conditions ecr1) RevisionPublishedCondition =
     FindStatusCondition (ecr_Conditions ecr2) RevisionPublishedCondition →
     calculateResourcesInSyncCondition ecr1 xc = calculateResourcesInSyncCondition ecr2 xc) as Ext.
  { intros ecr1 ecr2 Es Ef. unfold calculateResourcesInSyncCondition. rewrite Es.
    by rewrite (is_true_ext _ _ _ Ef). }
  erewrite Ext; [rewrite A3|done|by apply F3].
  assert (set_ecrst_conditions st'' cs' = st'') as -> by (rewrite <- C; by destruct st'').
  by rewrite A4, A5.
Qed.
End StatusSpec.

(** ** Taint by rejection *)

Section Taint.
Context {M : MetaConditions} {ML : MetaConditionsLaws M}.
Context {XC : Type} {S : SnapshotCache XC} {SL : SnapshotCacheLaws S}.
Context {G : Type} {GC : GoCache G} {GL : GoCacheLaws GC}.
Implicit Types (ecr : EnvoyConfigRevision) (xc : XC) (dStats : G) (now : Time).

(** The node's statistics can be told apart from those of other nodes. *)
Record node_separated dStats now (nodeID : string) : Prop := {
  ns_nonempty : nodeID ≠ "";
  ns_no_colon : no_sep ":" nodeID;
  ns_separated t v : t ∈ snapshot_types → separated dStats now nodeID (TypeURL t v);
}.

Lemma tracked_types vt t v : (t, v) ∈ tracked_versions vt → t ∈ snapshot_types.
Proof. unfold tracked_versions, snapshot_types. set_solver. Qed.

Lemma snapshot_type_url t v :
  t ∈ snapshot_types → TypeURL t v ≠ "" ∧ no_sep ":" (TypeURL t v).
Proof.
  intros Ht. split.
  - destruct t; try done. unfold snapshot_types in Ht. set_solver.
  - apply TypeURL_no_colon. intros s ->. unfold snapshot_types in Ht. set_solver.
Qed.

Lemma any_failing_spec ecr dStats now l :
  reachable dStats now → node_separated dStats now (ecrs_NodeID (ecr_Spec ecr)) →
  (∀ t v, (t, v) ∈ l → t ∈ snapshot_types) →
  ∃ b, any_failing ecr dStats now 1 l = Ok b ∧
    (b = true ↔ ∃ t v, (t, v) ∈ l ∧
       rejected dStats now (ecrs_NodeID (ecr_Spec ecr))
         (TypeURL t (EnvoyConfigRevision_GetEnvoyAPIVersion ecr)) v).
Proof.
  intros Hr [Hne Hnc Hsep]. induction l as [|[t v] l IH]; intros Hl; simpl.
  - exists false. split; [done|]. split; [done|]. set_solver.
  - set (api := EnvoyConfigRevision_GetEnvoyAPIVersion ecr) in *.
    assert (t ∈ snapshot_types) as Ht by (apply (Hl t v); set_solver).
    destruct (snapshot_type_url t api Ht) as [Hu Hc].
    destruct (GetPercentageFailing_spec dStats now (ecrs_NodeID (ecr_Spec ecr)) (TypeURL t api) v
                Hr Hne Hu (Hsep _ _ Ht)) as (q & -> & _ & Hq).
    { repeat split; try done; apply (bool_decide_unpack _); by vm_compute. }
    simpl. destruct (Qeq_bool q 1) eqn:Eq.
    + exists true. split; [done|]. split; [intros _|done]. exists t, v.
      split; [set_solver|]. apply Hq. by apply Qeq_bool_iff.
    + destruct IH as (b & -> & Hb); [set_solver|]. exists b. split; [done|]. rewrite Hb.
      assert (¬ rejected dStats now (ecrs_NodeID (ecr_Spec ecr)) (TypeURL t api) v) as Hnr.
      { rewrite <- Hq, <- Qeq_bool_iff. by rewrite Eq. }
      split; [set_solver|]. intros (t' & v' & Hin & Hrej).
      apply elem_of_cons in Hin as [[= -> ->]|Hin]; [done|eauto].
Qed.

(** C18: a revision is tainted exactly when it was tainted or every Envoy client
    of the node rejects one of the versions it provides: for some resource type
    at least one pod asks for the type and all the pods that do have NACKed the
    revision's version of it at least five times. *)
Theorem revision_tainted_iff ecr v xc dStats now :
  reachable dStats now → node_separated dStats now (ecrs_NodeID (ecr_Spec ecr)) →
  (∀ c, FindStatusCondition (ecr_Conditions ecr) RevisionTaintedCondition = Some c →
        c_Status c = ConditionTrue) →
  ∃ ok ecr', Revision_IsStatusReconciled ecr (Some v) xc dStats now = Ok (ok, ecr') ∧
    (IsTainted (ecr_Status ecr') = true ↔
     IsStatusConditionTrue (ecr_Conditions ecr) RevisionTaintedCondition = true ∨
     ∃ t ver, (t, ver) ∈ tracked_versions v ∧
       rejected dStats now (ecrs_NodeID (ecr_Spec ecr))
         (TypeURL t (EnvoyConfigRevision_GetEnvoyAPIVersion ecr)) ver).
Proof.
  intros Hr Hn Hw.
  destruct (any_failing_spec ecr dStats now (tracked_versions v) Hr Hn (tracked_types v))
    as (b & Eb & Hb).
  destruct (Revision_IsStatusReconciled ecr (Some v) xc dStats now) as [[ok ecr']| |] eqn:E.
  2,3: exfalso; rewrite IsStatusReconciled_steps in E; simpl in E;
    unfold calculateRevisionTaintedCondition in E; rewrite Eb in E; simpl in E;
    repeat case_match; discriminate E.
  exists ok, ecr'. split; [done|].
  destruct (IsStatusReconciled_right _ _ _ _ _ _ _ E) as (R & _ & oc & Eoc & T & W).
  simpl in Eoc. unfold calculateRevisionTaintedCondition in Eoc. rewrite Eb in Eoc.
  simpl in Eoc. injection Eoc as <-.
  rewrite <- Hb, (rs_tainted _ _ _ _ _ R). split.
  - intros [?|Hs]%T; [by left|]. right. destruct b; [done|]. by destruct Hs.
  - intros [Ht| ->]; [by apply (rs_sticky _ _ _ _ _ R)|]. apply W; [done|apply Hw].
Qed.
End Taint.

(** ** The controller *)

Section ControllerSpec.
Context {C : Codecs} {L : SnapshotLib} {LL : SnapshotLibLaws L}.
Context {W : Type} {D : DiscoverClient W} {SC : SecretClient W}.
Context {K : RevisionClient W} {RL : RevisionLifecycle W} {RLL : RevisionLifecycleLaws RL}.
Context {M : MetaConditions} {ML : MetaConditionsLaws M}.
Context {XC : Type} {S : SnapshotCache XC} {SL : SnapshotCacheLaws S}.
Context {G : Type} {GC : GoCache G} {GL : GoCacheLaws GC}.
Implicit Types (w : W) (ecr : EnvoyConfigRevision) (xc : XC) (dStats : G) (now : Time).

Definition published ecr : bool :=
  IsStatusConditionTrue (ecr_Conditions ecr) RevisionPublishedCondition.
Definition tainted ecr : bool :=
  IsStatusConditionTrue (ecr_Conditions ecr) RevisionTaintedCondition.
Definition node ecr : string := ecrs_NodeID (ecr_Spec ecr).
Definition resources ecr : list Resource := default [] (ecrs_Resources (ecr_Spec ecr)).
Definition lifecycle_of w (req : NamespacedName) : lifecycle * W :=
  ManageRevisionLifecycle w req EnvoyConfigRevision_Default convert_revision_resources
    EnvoyConfigRevisionFinalizer.

Lemma finish_spec now w ecr vt xc dStats ok ecr' :
  Revision_IsStatusReconciled ecr vt xc dStats now = Ok (ok, ecr') → published ecr = true →
  finish_reconcile now w ecr vt xc dStats =
  (Ok (mkResult true (30 * Second)), if ok then w else snd (Status_Update w ecr')).
Proof.
  intros H Hp. unfold finish_reconcile. rewrite H.
  destruct (IsStatusReconciled_right _ _ _ _ _ _ _ H) as (R & _).
  rewrite (is_true_ext _ _ _ (rs_condition _ _ _ _ _ R)). fold (published ecr). by rewrite Hp.
Qed.

Lemma status_without_tracker ecr xc dStats now :
  ∃ ok ecr', Revision_IsStatusReconciled ecr None xc dStats now = Ok (ok, ecr').
Proof.
  rewrite IsStatusReconciled_steps. simpl. repeat case_match; eauto.
Qed.

Lemma finish_total now w ecr xc dStats :
  ∃ res w', finish_reconcile now w ecr None xc dStats = (Ok res, w').
Proof.
  unfold finish_reconcile. destruct (status_without_tracker ecr xc dStats now) as (ok & ecr' & ->).
  case_match; eauto.
Qed.

(** A run on a published revision whose resources load.  The xDS cache
    serves the node a snapshot of the revision's versions; the object's status
    is written unless it was right already, with those versions, the published
    field set and the in-sync condition of a node that has a snapshot; and the
    revision is looked at again after 30 seconds. *)
Theorem controller_publishes now w req xc dStats ecr w0 vt xc' :
  lifecycle_of w req = (LContinue ecr, w0) → published ecr = true → cache_ok xc →
  CacheReconciler_Reconcile w0 xc req (resources ecr) (node ecr) = (Ok vt, xc') →
  reachable dStats now → node_separated dStats now (node ecr) →
  ∃ ok ecr' served,
    EnvoyConfigRevision_Reconcile now w xc dStats req =
      (Ok (mkResult true (30 * Second)),
       if ok : bool then w0 else snd (Status_Update w0 ecr'), xc', dStats) ∧
    (ok = true ↔ ecr' = ecr) ∧
    snaps xc' !! node ecr = Some served ∧ vt = versionTracker served ∧
    revision_status_right now ecr (Some vt) xc' ecr' ∧
    IsPublished (ecr_Status ecr') = true ∧
    c_Reason <$> FindStatusCondition (ecr_Conditions ecr') ResourcesInSyncCondition =
      Some "ResourcesSynced".
Proof.
  intros Hl Hp Hok Hc Hr Hn.
  destruct (any_failing_spec ecr dStats now (tracked_versions vt) Hr Hn (tracked_types vt))
    as (b & Eb & _).
  destruct (Revision_IsStatusReconciled ecr (Some vt) xc' dStats now) as [[ok ecr']| |] eqn:E.
  2,3: exfalso; rewrite IsStatusReconciled_steps in E; simpl in E;
    unfold calculateRevisionTaintedCondition in E; rewrite Eb in E; simpl in E;
    repeat case_match; discriminate E.
  destruct (Reconcile_served _ _ _ _ _ _ _ Hok Hc) as (snap & served & _ & Hs & -> & _ & Hv & _).
  destruct (IsStatusReconciled_right _ _ _ _ _ _ _ E) as (R & O & _).
  assert (IsPublished (ecr_Status ecr') = true) as Hp'.
  { rewrite (rs_published _ _ _ _ _ R), (is_true_ext _ _ _ (rs_condition _ _ _ _ _ R)). done. }
  exists ok, ecr', served. split.
  { unfold EnvoyConfigRevision_Reconcile. fold (lifecycle_of w req). rewrite Hl.
    fold (published ecr). rewrite Hp. fold (resources ecr) (node ecr). rewrite Hc.
    by rewrite (finish_spec _ _ _ _ _ _ _ _ E Hp). }
  split; [done|]. split; [done|]. split; [symmetry; by apply versionTracker_ext|]. split; [done|].
  split; [done|]. rewrite (rs_in_sync _ _ _ _ _ R), Hp'. fold (node ecr). by rewrite Hs.
Qed.


(** The cache after loading a revision. *)
Lemma cache_frame w xc req rs nodeID r xc' n :
  CacheReconciler_Reconcile w xc req rs nodeID = (r, xc') →
  snaps xc' !! n = snaps xc !! n ∨ n = nodeID ∧ ∃ snap, GenerateSnapshot w req rs = Ok snap.
Proof.
  unfold CacheReconciler_Reconcile, Cache_SetSnapshot.
  destruct (GenerateSnapshot w req rs) as [snap|err|]; [|intros [= _ <-]; by left..].
  destruct (decide (n = nodeID)); [by eauto|]. left.
  destruct (match Cache_GetSnapshot xc nodeID with inl _ => _ | inr _ => _ end);
    [|by simplify_eq].
  destruct (v3_SetSnapshot xc nodeID snap) as [o xc2] eqn:Es.
  rewrite <- (set_snapshot_other _ _ _ _ _ n Es) by done. destruct o; by simplify_eq.
Qed.

(** Loading is the only step that writes to the cache. *)
Lemma Reconcile_cache now w xc dStats req ecr w0 res w' xc' dStats' :
  lifecycle_of w req = (LContinue ecr, w0) →
  EnvoyConfigRevision_Reconcile now w xc dStats req = (res, w', xc', dStats') →
  xc' = if published ecr
        then snd (CacheReconciler_Reconcile w0 xc req (resources ecr) (node ecr)) else xc.
Proof.
  intros El. unfold EnvoyConfigRevision_Reconcile. fold (lifecycle_of w req). rewrite El.
  fold (published ecr) (resources ecr) (node ecr). destruct (published ecr).
  - destruct (CacheReconciler_Reconcile _ _ _ _ _) as [[vt|err|] xc1]; simpl.
    + destruct (finish_reconcile _ _ _ _ _ _). by intros [= _ _ <- _].
    + destruct err; repeat case_match; by intros [= _ _ <- _].
    + by intros [= _ _ <- _].
  - destruct (finish_reconcile _ _ _ _ _ _). by intros [= _ _ <- _].
Qed.

(** The xDS cache of a node changes only for a published revision of that
    node: the run either loads and sets the revision's snapshot, or finalizes
    the revision and clears it.  A revision that is not published never touches
    the cache, nor does a run of any kind touch another node. *)
Theorem controller_cache_frame now w xc dStats req res w' xc' dStats' n :
  EnvoyConfigRevision_Reconcile now w xc dStats req = (res, w', xc', dStats') →
  snaps xc' !! n = snaps xc !! n ∨
  ∃ ecr, node ecr = n ∧ published ecr = true ∧
    ((∃ w0 snap, lifecycle_of w req = (LContinue ecr, w0) ∧
        GenerateSnapshot w0 req (resources ecr) = Ok snap) ∨
     (∃ w0 r, lifecycle_of w req = (LFinalized r ecr, w0) ∧ snaps xc' !! n = None)).
Proof.
  intros H. destruct (lifecycle_of w req) as [[r|r ecr|ecr] w0] eqn:El.
  1,2: revert H; unfold EnvoyConfigRevision_Reconcile; fold (lifecycle_of w req); rewrite El.
  - intros [= _ _ <- _]. by left.
  - unfold CleanupLogic, Cache_ClearSnapshot. fold (published ecr).
    destruct (published ecr) eqn:Hp; intros [= _ _ <- _]; [|by left].
    rewrite clear_snapshot. fold (node ecr). destruct (decide (node ecr = n)) as [<-|Hn].
    + right. exists ecr. rewrite lookup_delete_eq. naive_solver.
    + left. by rewrite lookup_delete_ne.
  - apply (Reconcile_cache _ _ _ _ _ _ _ _ _ _ _ El) in H as ->.
    destruct (published ecr) eqn:Hp; [|by left].
    destruct (CacheReconciler_Reconcile _ _ _ _ _) as [r xc1] eqn:Er.
    apply (cache_frame _ _ _ _ _ _ _ n) in Er as [?|[-> [snap Hs]]]; [by left|].
    right. exists ecr. eauto 10.
Qed.

(** The finalizer.  A published revision takes the node's snapshot and
    every statistic whose key contains the node's name with it; a revision that
    is not published, and so is not what the node runs, leaves both alone. *)
Theorem finalizer_clears now w req xc dStats ecr w0 r :
  lifecycle_of w req = (LFinalized r ecr, w0) →
  ∃ xc' dStats',
    EnvoyConfigRevision_Reconcile now w xc dStats req = (r, w0, xc', dStats') ∧
    snaps xc' = (if published ecr then delete (node ecr) (snaps xc) else snaps xc) ∧
    ∀ t x, (now ≤ t)%Z →
      cache_Items dStats' t !! x =
      if published ecr && Contains x (node ecr) then None else cache_Items dStats t !! x.
Proof.
  intros Hl. unfold EnvoyConfigRevision_Reconcile. fold (lifecycle_of w req). rewrite Hl.
  unfold CleanupLogic, Cache_ClearSnapshot. fold (published ecr) (node ecr).
  destruct (published ecr); [|by eauto]. eexists _, _. split; [done|].
  split; [apply clear_snapshot|]. intros t x Ht. by rewrite delete_one.
Qed.

(** Two worlds that differ at most in one Secret. *)
Definition same_but_secret w w' (name : string) : Prop :=
  (∀ k, nn_Name k ≠ name → Get_secret w k = Get_secret w' k) ∧
  (∀ ns s, List_endpointslices w ns s = List_endpointslices w' ns s).

Lemma load_resource_same w w' name req idx res :
  same_but_secret w w' name →
  (r_Type res = Secret → r_GenerateFromTlsSecret res ≠ Some name ∧
     sks_Name <$> r_GenerateFromOpaqueSecret res ≠ Some name) →
  load_resource w req idx res = load_resource w' req idx res.
Proof.
  intros [Hs Hl] Hres. unfold load_resource. destruct (r_Type res) eqn:Et; try done.
  - unfold load_endpoint, Discover_Endpoints. destruct (r_GenerateFromEndpointSlices res); [|done].
    destruct (LabelSelectorAsSelector _); [done|]. by rewrite Hl.
  - destruct (Hres eq_refl) as [Ht Ho]. unfold load_secret.
    destruct (r_GenerateFromTlsSecret res) as [nm|].
    + rewrite Hs by (simpl; congruence). done.
    + destruct (r_GenerateFromOpaqueSecret res) as [sel|]; [|done]. simpl in Ho.
      rewrite Hs by (simpl; congruence). done.
Qed.

End ControllerSpec.

(** ** Concrete runs *)

(** The world is the list of the objects written; the API holds one revision. *)
Module RevisionRuns.
#[local] Existing Instance identity_codecs.
#[local] Existing Instance memory_snapshot_lib.
#[local] Existing Instance memory_snapshot_cache.
#[local] Existing Instance memory_cache_impl.
#[local] Existing Instance conditions_impl.

Definition log := list EnvoyConfigRevision.

Definition log_client : RevisionClient log := {|
  List_revisions _ _ _ := inr [];
  Create_revision w e := (None, e :: w);
  Status_Update w e := (None, e :: w);
  Delete_revision w e := (None, w);
|}.
#[local] Existing Instance log_client.

Definition log_secrets (data : string) : SecretClient log := {|
  Get_secret _ k := inr (mkK8sSecret SecretTypeTLS
                           {[ secretCertificate := data; secretPrivateKey := "key" ]});
|}.

Definition log_discover (answer : error + list EndpointSlice) : DiscoverClient log := {|
  LabelSelectorAsSelector _ := inr (mkSelector (λ _, true) "app=web");
  List_endpointslices _ _ _ := answer;
  ParseIP s := Some s;
|}.

Definition log_lifecycle (l : lifecycle) : RevisionLifecycle log := {|
  ManageRevisionLifecycle w _ _ _ _ := (l, w);
  Status_Patch w old new := (inr new, new :: w);
|}.
Lemma log_lifecycle_laws l : RevisionLifecycleLaws (log_lifecycle l).
Proof. constructor. by intros w old new ecr w' [= <- <-]. Qed.

Definition revision (rs : list Resource) (cs : list Condition) : EnvoyConfigRevision :=
  mkEnvoyConfigRevision "" "" (mkMeta "rev" "ns" ∅ "" 0%Z None [])
    (mkEnvoyConfigRevisionSpec "node" "v" None None None (Some rs))
    (mkEnvoyConfigRevisionStatus None None None None cs).
Definition pub_cond : Condition :=
  NewCondition RevisionPublishedCondition ConditionTrue "" "".

Definition one_cluster : list Resource := [mkResource Cluster (Some "{}") None None None None].
Definition one_secret : list Resource := [mkResource Secret None (Some "tls") None None None].
Definition live : EnvoyConfigRevision := revision one_cluster [pub_cond].

(** A pod of the node that rejects version "v2" of its clusters. *)
Definition store : memory_cache :=
  StatsRuns.play cache_New
    (RequestReceived "node" (TypeURL Cluster APIv3) "pod-a" ::
     concat ((λ n, [ResponseSent "node" (TypeURL Cluster APIv3) "v2" "pod-a" n;
                    NackReceived "node" (TypeURL Cluster APIv3) "pod-a" n])
             <$> ["1"; "2"; "3"; "4"; "5"])).

Lemma rejecting_reachable : reachable store StatsRuns.ms.
Proof.
  apply StatsRuns.play_reachable; [apply reachable_New|].
  apply (bool_decide_unpack _). vm_compute. exact I.
Qed.

Lemma store_separated : node_separated store StatsRuns.ms "node".
Proof.
  split; [discriminate|apply (bool_decide_unpack _); vm_compute; exact I|].
  intros t v Ht. apply StatsRuns.separated_check.
  revert t Ht. apply Forall_forall. apply (bool_decide_unpack _). vm_compute. exact I.
Qed.

Lemma revision_tainted_iff_witness :
  ∃ ok ecr',
    Revision_IsStatusReconciled live (Some (mkVersionTracker "" "v2" "" "" "" "" "" ""))
      (∅ : gmap string Snapshot) store StatsRuns.ms = Ok (ok, ecr') ∧
    (IsTainted (ecr_Status ecr') = true ↔
     IsStatusConditionTrue (ecr_Conditions live) RevisionTaintedCondition = true ∨
     ∃ t ver, (t, ver) ∈ tracked_versions (mkVersionTracker "" "v2" "" "" "" "" "" "") ∧
       rejected store StatsRuns.ms "node" (TypeURL t APIv3) ver).
Proof.
  apply (revision_tainted_iff live (mkVersionTracker "" "v2" "" "" "" "" "" "") ∅ store
           StatsRuns.ms rejecting_reachable store_separated).
  intros c Hc. vm_compute in Hc. discriminate Hc.
Defined.

Lemma revision_status_reconciled_witness :
  match Revision_IsStatusReconciled live None (∅ : gmap string Snapshot) store StatsRuns.ms with
  | Ok (ok, ecr') =>
     ok = false ∧ Revision_IsStatusReconciled ecr' None (∅ : gmap string Snapshot) store StatsRuns.ms
                  = Ok (true, ecr')
  | _ => False
  end.
Proof.
  destruct (Revision_IsStatusReconciled live None _ store StatsRuns.ms) as [[ok ecr']|e|] eqn:E;
    [|exfalso; vm_compute in E; discriminate E..].
  destruct (revision_status_reconciled _ _ _ _ _ _ _ E) as (_ & _ & H).
  split; [|exact H]. vm_compute in E. injection E as E _. symmetry. exact E.
Defined.

Definition req : NamespacedName := mkKey "ns" "rev".

Lemma controller_publishes_witness :
  let D := log_discover (inr []) in let SC := log_secrets "cert" in
  let RL := log_lifecycle (LContinue live) in
  ∃ ecr' w' xc',
    EnvoyConfigRevision_Reconcile StatsRuns.ms [] (∅ : gmap string Snapshot) store req =
      (Ok (mkResult true (30 * Second)), w', xc', store) ∧
    c_Reason <$> FindStatusCondition (ecr_Conditions ecr') ResourcesInSyncCondition =
      Some "ResourcesSynced".
Proof.
  intros D SC RL. pose proof (log_lifecycle_laws (LContinue live)) as RLL.
  destruct (CacheReconciler_Reconcile ([] : log) (∅ : gmap string Snapshot) req
              (resources live) (node live)) as [[vt|e|] xc'] eqn:E;
    [|exfalso; vm_compute in E; discriminate E..].
  destruct (controller_publishes (RL := RL) StatsRuns.ms [] req (∅ : gmap string Snapshot) store
              live [] vt xc') as (ok & ecr' & served & H & _ & _ & _ & _ & _ & Hr).
  - reflexivity.
  - vm_compute. reflexivity.
  - intros n s Hs. discriminate Hs.
  - exact E.
  - exact rejecting_reachable.
  - exact store_separated.
  - exists ecr'. eexists _, xc'. split; [exact H|exact Hr].
Defined.

(** A revision with endpoints generated from EndpointSlices. *)
Definition broken : EnvoyConfigRevision :=
  revision [mkResource Endpoint None None None
              (Some (mkGenerateFromEndpointSlices None "c" "http")) None] [pub_cond].

(** The answer of the API to the list of EndpointSlices taints a revision.
    The comment in [Reconcile] excludes errors of "generated Endpoints" from
    tainting because they may be transient; but [Endpoints] returns the error of
    the API client as it is, a [StatusError] when the server answers with one,
    and the revision is tainted for good. *)
Theorem list_error_taints :
  let D := log_discover (inl (StatusError (StatusReasonOther "ServiceUnavailable") "try later")) in
  let SC := log_secrets "cert" in let RL := log_lifecycle (LContinue broken) in
  match EnvoyConfigRevision_Reconcile StatsRuns.ms [] (∅ : gmap string Snapshot) store req with
  | (Ok _, ecr :: _, _, _) => tainted ecr = true ∧ IsTainted (ecr_Status ecr) = true
  | _ => False
  end.
Proof. split; vm_compute; reflexivity. Qed.


Lemma controller_cache_frame_witness :
  let D := log_discover (inr []) in let SC := log_secrets "cert" in
  let RL := log_lifecycle (LContinue live) in
  let xc := {[ "other" := (∅ : Snapshot) ]} in
  match EnvoyConfigRevision_Reconcile StatsRuns.ms [] xc store req with
  | (_, _, xc', _) => snaps xc' !! "other" = snaps xc !! "other"
  end.
Proof.
  intros D SC RL xc.
  destruct (EnvoyConfigRevision_Reconcile StatsRuns.ms [] xc store req) as [[[r w'] xc'] s'] eqn:E.
  destruct (controller_cache_frame (RL := RL) _ _ _ _ _ _ _ _ _ "other" E)
    as [H|(ecr & Hn & _ & [(w0 & snap & Hl & _)|(w0 & r' & Hl & _)])].
  - exact H.
  - unfold lifecycle_of in Hl. simpl in Hl. injection Hl as <- _. discriminate Hn.
  - discriminate Hl.
Defined.

Lemma finalizer_clears_witness :
  let D := log_discover (inr []) in let SC := log_secrets "cert" in
  let RL := log_lifecycle (LFinalized (Ok emptyResult) live) in
  ∃ xc' s', EnvoyConfigRevision_Reconcile StatsRuns.ms [] {[ "node" := (∅ : Snapshot) ]} store req =
    (Ok emptyResult, [], xc', s') ∧ snaps xc' !! "node" = None.
Proof.
  intros D SC RL.
  destruct (finalizer_clears (RL := RL) StatsRuns.ms [] req {[ "node" := (∅ : Snapshot) ]} store
              live [] (Ok emptyResult) eq_refl) as (xc' & s' & H & Hs & _).
  exists xc', s'. split; [exact H|]. rewrite Hs.
  replace (published live) with true by (vm_compute; reflexivity). apply lookup_delete_eq.
Defined.

(** The TLS secret "other" does not matter for a revision that uses "tls". *)
Definition two_worlds : SecretClient bool := {|
  Get_secret w k :=
    if decide (nn_Name k = "other") then
      if (w : bool) then inr (mkK8sSecret SecretTypeTLS ∅) else inl (StatusError StatusReasonNotFound "other")
    else inr (mkK8sSecret SecretTypeTLS ∅);
|}.
Definition no_slices : DiscoverClient bool := {|
  LabelSelectorAsSelector _ := inr (mkSelector (λ _, true) "");
  List_endpointslices _ _ _ := inr [];
  ParseIP s := Some s;
|}.

End RevisionRuns.
