(* ===== verification/Callbacks.v ===== *)
(** * The callbacks of the xDS server
    ([pkg/discoveryservice/xdss/v3/callbacks.go], [pkg/util/backoff/backoff.go])

    The server of the go-control-plane library calls [OnStreamRequest] for each
    message of a client and [OnStreamResponse] before each answer; they feed
    the discovery statistics and slow down clients that reject what they are
    sent.  The theorems show that the callbacks only make the steps of the
    state machine of [Stats], how long a rejecting client is held back, and
    what clients without a pod name do to the statistics. *)

From S2P Require Import Prelude Meta Envoy Stats.
From Stdlib Require Import QArith.
#[local] Open Scope string_scope.
#[local] Open Scope list_scope.
#[local] Open Scope Z_scope.

(** ** [backoff.go] *)

Record BackoffPolicy := mkBackoffPolicy { Millis : list Z }.

Definition Default : BackoffPolicy :=
  mkBackoffPolicy [0; 10; 10; 100; 100; 500; 500; 3000; 3000; 5000].

Definition Millisecond : Z := 1000000.

Section Backoff.
(** [rand.Intn]. *)
Variable Intn : Z → Z.

Definition jitter (millis : Z) : Z :=
  if decide (millis = 0) then 0 else Z.quot millis 2 + Intn millis.

(** Indexing a slice out of its range panics. *)
Definition Duration (b : BackoffPolicy) (n : Z) : result Z :=
  let len := Z.of_nat (length (Millis b)) in
  let n := if decide (len ≤ n) then len - 1 else n in
  if decide (n < 0) then Panic
  else millis ← deref (Millis b !! Z.to_nat n); Ok (jitter millis * Millisecond).

(** ** [callbacks.go] *)

(** [core.Node]: the metadata values that are strings are [Some]. *)
Record Node := mkNode { node_Id : string; node_Metadata : gmap string (option string) }.

Record DiscoveryRequest := mkDiscoveryRequest {
  dreq_Node : option Node;
  dreq_TypeUrl : string;
  dreq_VersionInfo : string;
  dreq_ResponseNonce : string;
  dreq_ErrorDetail : option string;
}.

Record DiscoveryResponse := mkDiscoveryResponse {
  dresp_TypeUrl : string;
  dresp_VersionInfo : string;
  dresp_Nonce : string;
}.

Context {C : Type} {G : GoCache C}.
Implicit Types (s : C) (now : Time) (req : DiscoveryRequest) (rsp : DiscoveryResponse).

(** The name of the pod a request comes from; the field of a missing node
    panics. *)
Definition pod_name req : result (result string) :=
  n ← deref (dreq_Node req); Ok (GetStringValueFromMetadata (node_Metadata n) "pod_name").

Definition node_id req : string := default "" (node_Id <$> dreq_Node req).

(** The statistics and the time the call sleeps; the error returned is always
    [nil]. *)
Definition OnStreamRequest s now req : result (Z * C) :=
  name ← pod_name req;
  let podName := match name with Ok p => p | _ => "unknown" end in
  if decide (dreq_ResponseNonce req ≠ "") then
    match dreq_ErrorDetail req with
    | Some _ =>
       match ReportNACK s now (node_id req) (dreq_TypeUrl req) podName
               (dreq_ResponseNonce req) with
       | (Panic, _) => Panic
       | (r, s) =>
          let failures := match r with Ok v => v | _ => 0 end in
          if decide (failures = 0) then Ok (100 * Millisecond, s)
          else d ← Duration Default failures; Ok (d, s)
       end
    | None => Ok (0, ReportACK s now (node_id req) (dreq_TypeUrl req) (dreq_VersionInfo req) podName)
    end
  else Ok (0, ReportRequest s now (node_id req) (dreq_TypeUrl req) podName).

(** Without a pod name the nonce is not tracked. *)
Definition OnStreamResponse s now req rsp : result C :=
  name ← pod_name req;
  Ok match name with
     | Ok podName =>
        WriteResponseNonce s now (node_id req) (dresp_TypeUrl rsp) (dresp_VersionInfo rsp) podName
          (dresp_Nonce rsp)
     | _ => s
     end.
End Backoff.

(** ** The backoff *)

Section BackoffSpec.
Context (Intn : Z → Z) (Intn_range : ∀ n, 0 < n → 0 ≤ Intn n < n).

Lemma jitter_range m :
  0 ≤ m → 2 * jitter Intn m ≤ 3 * m ∧ m - 1 ≤ 2 * jitter Intn m.
Proof using Intn_range.
  intros Hm. unfold jitter. case_decide; [lia|].
  pose proof (Intn_range m ltac:(lia)). rewrite Z.quot_div_nonneg by lia.
  pose proof (Z_div_mod_eq_full m 2). pose proof (Z.mod_pos_bound m 2). lia.
Qed.

(** The delay of the [n]-th failure, in milliseconds. *)
Definition default_millis (n : Z) : Z :=
  default 0 (Millis Default !! Z.to_nat (Z.min n 9)).

Lemma Duration_default n :
  0 ≤ n → Duration Intn Default n = Ok (jitter Intn (default_millis n) * Millisecond).
Proof.
  intros Hn. unfold Duration, default_millis. change (Z.of_nat (length (Millis Default))) with 10.
  assert (∀ k, 0 ≤ k ≤ 9 → (if decide (k < 0) then Panic
      else millis ← deref (Millis Default !! Z.to_nat k); Ok (jitter Intn millis * Millisecond)) =
      Ok (jitter Intn (default 0 (Millis Default !! Z.to_nat k)) * Millisecond)) as Hk.
  { intros k Hr. rewrite decide_False by lia.
    destruct (lookup_lt_is_Some_2 (Millis Default) (Z.to_nat k)) as [m ->];
      [change (length (Millis Default)) with 10%nat; lia|done]. }
  destruct (decide (10 ≤ n)) as [H|H]; [replace (Z.min n 9) with 9 by lia; apply (Hk 9); lia|].
  replace (Z.min n 9) with n by lia. apply Hk. lia.
Qed.

Lemma default_millis_range n : 0 ≤ n → 0 ≤ default_millis n ≤ 5000.
Proof.
  intros Hn. unfold default_millis. assert (0 ≤ Z.min n 9 ≤ 9) as H by lia.
  revert H. generalize (Z.min n 9) as k. intros k Hk.
  assert (k = 0 ∨ k = 1 ∨ k = 2 ∨ k = 3 ∨ k = 4 ∨ k = 5 ∨ k = 6 ∨ k = 7 ∨ k = 8 ∨ k = 9) as H by lia.
  repeat destruct H as [->|H]; subst; vm_compute; split; discriminate.
Qed.
End BackoffSpec.

(** ** The callbacks as events *)

Section CallbacksSpec.
Context (Intn : Z → Z) (Intn_range : ∀ n, 0 < n → 0 ≤ Intn n < n).
Context {C : Type} {G : GoCache C} {GL : GoCacheLaws G}.
Implicit Types (s : C) (now t : Time) (req : DiscoveryRequest) (rsp : DiscoveryResponse).

(** The pod a request is accounted to. *)
Definition pod_of req : string :=
  match pod_name req with Ok (Ok p) => p | _ => "unknown" end.

(** The step of the statistics that a request or a response is. *)
Definition request_event req : event :=
  if decide (dreq_ResponseNonce req ≠ "") then
    match dreq_ErrorDetail req with
    | Some _ => NackReceived (node_id req) (dreq_TypeUrl req) (pod_of req) (dreq_ResponseNonce req)
    | None => AckReceived (node_id req) (dreq_TypeUrl req) (dreq_VersionInfo req) (pod_of req)
    end
  else RequestReceived (node_id req) (dreq_TypeUrl req) (pod_of req).

Definition response_event req rsp : event :=
  ResponseSent (node_id req) (dresp_TypeUrl rsp) (dresp_VersionInfo rsp) (pod_of req)
    (dresp_Nonce rsp).

Lemma pod_name_node req n : dreq_Node req = Some n →
  pod_name req = Ok (GetStringValueFromMetadata (node_Metadata n) "pod_name").
Proof. intros E. unfold pod_name. by rewrite E. Qed.

(** The NACK counters of a pod are far from overflowing. *)
Definition counters_small s t (n ty p : string) : Prop :=
  ∀ v, 0 ≤ counter_of s t (mkStatKey n ty v p "nack_counter") < 2 ^ 62.

(** A NACK that is accepted counts at least one. *)
Lemma ReportNACK_range s t n ty p nonce :
  store_ok s t → counters_small s t n ty p →
  match fst (ReportNACK s t n ty p nonce) with Panic => False | Ok v => 0 < v | Err _ => True end.
Proof.
  intros Hok Hs. unfold ReportNACK.
  destruct (map_to_list _) as [|[x o] [|? ?]] eqn:E; [done| |done].
  assert (FilterKeys s t [n; ty; p; "nonce:" +:+ nonce] !! x = Some o) as Hx
    by (apply elem_of_map_to_list; rewrite E; left).
  apply FilterKeys_lookup in Hx as [Hx _].
  destruct (Hok t ltac:(lia) _ _ Hx) as (k & -> & Hk & _).
  rewrite NewKeyFromString_String by done. simpl.
  set (v := k_Version k). set (s1 := IncrementCounter s t n ty v p "nack_counter" 1).
  pose proof (Hs v) as Hv. pose proof (Hs "*") as Hstar.
  set (kv := mkStatKey n ty v p "nack_counter") in *.
  set (ka := mkStatKey n ty "*" p "nack_counter") in *.
  assert (∀ x, cache_Items s1 t !! x = if decide (x = Key_String kv)
            then Some (ObjInt64 (counter_of s t kv + 1)) else cache_Items s t !! x) as H1.
  { intros y. unfold s1. rewrite IncrementCounter_items by lia. fold kv.
    rewrite int64_id by lia. case_decide; [subst; by rewrite lookup_insert_eq|].
    by rewrite lookup_insert_ne. }
  destruct (decide (Key_String kv = Key_String ka)) as [Ek|Ek].
  - erewrite GetCounter_Ok; [|rewrite IncrementCounter_items by lia; fold kv ka; rewrite Ek;
      apply lookup_insert_eq].
    unfold counter_of. rewrite H1, decide_True by done. rewrite int64_id by lia. lia.
  - erewrite GetCounter_Ok; [|rewrite IncrementCounter_items by lia; fold kv ka;
      rewrite lookup_insert_ne by done; rewrite H1, decide_True by done; done]. lia.
Qed.

(** What a message of a client does.  It is one step of the statistics'
    state machine, so the invariants of the statistics hold on; the call holds
    the client back only when it rejects a response, for at most seven and a
    half seconds. *)
Theorem OnStreamRequest_step s t now req n :
  reachable s t → t ≤ now → dreq_Node req = Some n → event_ok (request_event req) →
  counters_small s now (node_id req) (dreq_TypeUrl req) (pod_of req) →
  ∃ d, OnStreamRequest Intn s now req = Ok (d, handle_event s now (request_event req)) ∧
    reachable (handle_event s now (request_event req)) now ∧
    0 ≤ d ≤ 7500 * Millisecond ∧
    (dreq_ErrorDetail req = None ∨ dreq_ResponseNonce req = "" → d = 0).
Proof using Intn_range GL.
  intros Hr Ht Hn Hev Hs.
  pose proof (reachable_event _ _ _ _ Hr Ht Hev) as Hr'.
  revert Hr' Hs. clear Hev. unfold OnStreamRequest, request_event, pod_of.
  rewrite (pod_name_node _ _ Hn). simpl. set (p := match _ with Ok p => p | _ => _ end).
  intros Hr' Hs. case_decide as Hd; [destruct (dreq_ErrorDetail req) as [e|]|].
  2,3: eexists; split; [done|]; repeat split; done || (unfold Millisecond; lia).
  pose proof (ReportNACK_range s now (node_id req) (dreq_TypeUrl req) p (dreq_ResponseNonce req)
    (store_ok_later _ _ _ (reachable_ok _ _ Hr) Ht) Hs) as Hv. simpl in *.
  destruct (ReportNACK _ _ _ _ _ _) as [[v|e'|] s'] eqn:E; simpl in *; [|clear Hv|done].
  - rewrite decide_False, Duration_default by lia. simpl. eexists. split; [done|].
    pose proof (default_millis_range v ltac:(lia)) as Hm.
    pose proof (jitter_range Intn Intn_range (default_millis v) ltac:(lia)).
    assert (0 ≤ jitter Intn (default_millis v)).
    { unfold jitter. case_decide; [lia|]. pose proof (Intn_range (default_millis v) ltac:(lia)).
      rewrite Z.quot_div_nonneg by lia. pose proof (Z.div_pos (default_millis v) 2). lia. }
    split; [done|]. unfold Millisecond. split; [lia|]. intros [|]; done.
  - eexists. split; [done|]. unfold Millisecond.
    repeat split; [done|lia..|]. by intros [|].
Qed.

(** A response is recorded for the pod, when its name is known. *)
Lemma OnStreamResponse_step s now req rsp n :
  dreq_Node req = Some n →
  OnStreamResponse s now req rsp =
  Ok (if pod_name req is Ok (Ok _) then handle_event s now (response_event req rsp) else s).
Proof.
  intros Hn. unfold OnStreamResponse, response_event, pod_of. rewrite (pod_name_node _ _ Hn). simpl.
  by destruct (GetStringValueFromMetadata _ _).
Qed.
End CallbacksSpec.

(** ** Concrete runs *)

Module CallbackRuns.
#[local] Existing Instance memory_cache_impl.

Definition url : string := TypeURL Cluster APIv3.
Definition client (pod : option string) : Node :=
  mkNode "edge" (match pod with Some p => {[ "pod_name" := Some p ]} | None => ∅ end).
Definition subscribe (pod : option string) : DiscoveryRequest :=
  mkDiscoveryRequest (Some (client pod)) url "" "" None.
Definition nack (pod : option string) (nonce : string) : DiscoveryRequest :=
  mkDiscoveryRequest (Some (client pod)) url "v1" nonce (Some "rejected").

(** One exchange: a response of version "v2" and its rejection. *)
Definition exchange (pod : option string) (s : memory_cache) (nonce : string)
    : memory_cache :=
  match OnStreamResponse s 0 (subscribe pod) (mkDiscoveryResponse url "v2" nonce) with
  | Ok s => match OnStreamRequest (λ n, n - 1) s 0 (nack pod nonce) with
            | Ok (_, s) => s
            | _ => s
            end
  | _ => s
  end.

(** A client subscribes and rejects what it is sent six times. *)
Definition rejecting (pod : option string) (s : memory_cache) : memory_cache :=
  let s := match OnStreamRequest (λ n, n - 1) s 0 (subscribe pod) with
           | Ok (_, s) => s | _ => s end in
  fold_left (exchange pod) ["1"; "2"; "3"; "4"; "5"; "6"] s.

Lemma OnStreamRequest_step_witness :
  ∃ d, OnStreamRequest (λ n, n - 1) (cache_New : memory_cache) 0 (subscribe (Some "pod-a")) =
    Ok (d, handle_event cache_New 0 (request_event (subscribe (Some "pod-a")))) ∧
    0 ≤ d ≤ 7500 * Millisecond.
Proof.
  destruct (OnStreamRequest_step (λ n, n - 1) ltac:(intros n Hn; lia) cache_New 0 0
              (subscribe (Some "pod-a")) (client (Some "pod-a"))) as (d & H & _ & Hd & _).
  - apply reachable_New.
  - discriminate.
  - reflexivity.
  - apply (bool_decide_unpack _). vm_compute. exact I.
  - intros v. split; [discriminate|reflexivity].
  - exists d. exact (conj H Hd).
Defined.

(** A client without a pod name keeps a bad version alive.  It counts as a
    pod of its node, under the name "unknown", but its rejections do not: the
    nonces it is sent are not tracked.  When every client of a node rejects a
    version six times the share of failing pods is two of two, unless one of the clients
    has no pod name. *)
Theorem unnamed_client_blocks_taint :
  let named := rejecting (Some "pod-b") (rejecting (Some "pod-a") cache_New) in
  let unnamed := rejecting None (rejecting (Some "pod-a") cache_New) in
  GetPercentageFailing named 0 "edge" url "v2" = Ok (2 # 2)%Q ∧
  GetPercentageFailing unnamed 0 "edge" url "v2" = Ok (1 # 2)%Q.
Proof. split; vm_compute; reflexivity. Qed.
End CallbackRuns.
