(* ===== verification/ControlPlane.v ===== *)
(** * The control plane as a whole

    The two controllers of the configuration plane share the revisions in the
    cluster; the revision controller also shares the xDS cache and the
    statistics with the xDS server.  [sys_step] interleaves runs of the
    controllers, whatever they return, with the messages of the clients, the
    passage of time and changes by users.  A run of a controller is one step:
    controller-runtime runs one worker per controller, and the API server
    refuses a write to an object that has changed since it was read.

    [system_invariant] is what holds at all times. *)

From S2P Require Import Prelude Meta Envoy Api GoSort Cluster Revisions RevisionReconciler.
From S2P Require Import RevisionTheorems ConfigStatus Stats Snapshot Discover CacheReconciler.
From S2P Require Import RevisionController Callbacks.
#[local] Open Scope string_scope.
#[local] Open Scope list_scope.

(** ** The cluster

    What the two lifecycle functions of the basereconciler library and the
    status client do to the stored revisions. *)

(** Two states of an object: only its status, its finalizers, its deletion date
    and the defaults of its spec can differ. *)
Definition same_revision (e e' : EnvoyConfigRevision) : Prop :=
  ecr_key e' = ecr_key e ∧ ecr_Labels e' = ecr_Labels e ∧
  ecrs_NodeID (ecr_Spec e') = ecrs_NodeID (ecr_Spec e) ∧ ecr_Version e' = ecr_Version e.

Class ClusterLaws {W} {K : RevisionClient W} (L : RevisionClientLaws K) (CC : ConfigClient W)
    (RL : RevisionLifecycle W) : Prop := {
  config_lifecycle w req d i r w' :
    ManageResourceLifecycle w req d i = (r, w') → objs w' = objs w;
  config_status w ec r w' : Status_Update_config w ec = (r, w') → objs w' = objs w;
  (** The object is read, is not being deleted and has its defaults. *)
  revision_continue w req d i f ecr w' :
    ManageRevisionLifecycle w req d i f = (LContinue ecr, w') →
    objs w' = objs w ∧
    ∃ e, objs w !! req = Some e ∧ om_DeletionTimestamp (ecr_Meta e) = None ∧ d e = e ∧ i e = inr ecr;
  (** Otherwise the object may have been initialized or removed. *)
  revision_return w req d i f l w' k e' :
    ManageRevisionLifecycle w req d i f = (l, w') → objs w' !! k = Some e' →
    objs w !! k = Some e' ∨
    k = req ∧ ∃ e, objs w !! k = Some e ∧ ecr_Status e' = ecr_Status e ∧ ecr_key e' = ecr_key e ∧
      ecr_Labels e' = ecr_Labels e ∧ (ecr_Spec e' = ecr_Spec e ∨ ecr_Spec e' = ecr_Spec (d e));
  patch_ok w old new ecr w' :
    Status_Patch w old new = (inr ecr, w') →
    ∃ e, objs w !! ecr_key old = Some e ∧
      objs w' = <[ecr_key old := set_ecr_status e (ecr_Status new)]> (objs w) ∧
      ecr_key ecr = ecr_key old ∧ ecr_Status ecr = ecr_Status new ∧ ecr_Spec ecr = ecr_Spec old;
  patch_err w old new err w' : Status_Patch w old new = (inl err, w') → objs w' = objs w;
}.

(** [SetSnapshot] stores the snapshot before it answers the clients that wait,
    which is what can fail. *)
Class SnapshotStoreLaws {XC} {S : SnapshotCache XC} (SL : SnapshotCacheLaws S) : Prop := {
  set_snapshot_err xc n s err xc' :
    v3_SetSnapshot xc n s = (Some err, xc') →
    snaps xc' !! n = snaps xc !! n ∨ snaps xc' !! n = Some s;
}.

Section Invariant.
Context {C : Codecs} {LS : SnapshotLib} {LL : SnapshotLibLaws LS}.
Context {W : Type} {D : DiscoverClient W} {SC : SecretClient W}.
Context {K : RevisionClient W} {L : RevisionClientLaws K} {CC : ConfigClient W}.
Context {RL : RevisionLifecycle W} {RLL : RevisionLifecycleLaws RL} {CL : ClusterLaws L CC RL}.
Context {M : MetaConditions} {ML : MetaConditionsLaws M}.
Context {O : OwnerReferences} {OL : OwnerReferencesLaws O}.
Context {XC : Type} {S : SnapshotCache XC} {SL : SnapshotCacheLaws S} {SS : SnapshotStoreLaws SL}.
Context {G : Type} {GC : GoCache G} {GL : GoCacheLaws GC}.
Context (Hash : option (list Resource) → string) (Intn : Z → Z).
Implicit Types (w : W) (xc : XC) (g : G) (now : Time) (e : EnvoyConfigRevision).
Implicit Types (m : gmap NamespacedName EnvoyConfigRevision).

Record System := mkSystem { sys_cluster : W; sys_cache : XC; sys_stats : G; sys_now : Time }.

(** Users, and the garbage collector of the cluster, can delete revisions and
    change anything else. *)
Definition user_change w w' : Prop :=
  ∀ k e', objs w' !! k = Some e' →
    ∃ e, objs w !! k = Some e ∧ (e' = e ∨ ∃ t, e' = set_deletion e t).

Inductive sys_step : System → System → Prop :=
  | run_config w xc g now req res w' :
      EnvoyConfigReconciler_Reconcile Hash now w req = (res, w') →
      sys_step (mkSystem w xc g now) (mkSystem w' xc g now)
  | run_revision w xc g now req res w' xc' g' :
      EnvoyConfigRevision_Reconcile now w xc g req = (res, w', xc', g') →
      sys_step (mkSystem w xc g now) (mkSystem w' xc' g' now)
  | client_request w xc g now req d g' :
      OnStreamRequest Intn g now req = Ok (d, g') →
      sys_step (mkSystem w xc g now) (mkSystem w xc g' now)
  | client_response w xc g now req rsp g' :
      OnStreamResponse g now req rsp = Ok g' →
      sys_step (mkSystem w xc g now) (mkSystem w xc g' now)
  | change w xc g now w' :
      user_change w w' → sys_step (mkSystem w xc g now) (mkSystem w' xc g now)
  | time_passes w xc g now now' :
      (now ≤ now')%Z → sys_step (mkSystem w xc g now) (mkSystem w xc g now').

(** No two revisions of a node are published. *)
Definition one_published m : Prop :=
  ∀ k1 e1 k2 e2, m !! k1 = Some e1 → m !! k2 = Some e2 →
    nn_Namespace k1 = nn_Namespace k2 →
    ecrs_NodeID (ecr_Spec e1) = ecrs_NodeID (ecr_Spec e2) →
    is_published_condition e1 = true → is_published_condition e2 = true → k1 = k2.

(** Objects only go, or lose the published condition. *)
Definition shrinks m m' : Prop :=
  ∀ k e', m' !! k = Some e' →
    ∃ e, m !! k = Some e ∧ same_revision e e' ∧
         (is_published_condition e' = true → is_published_condition e = true).

Definition revisions_ok m : Prop := wf_cluster m ∧ one_published m.

Lemma same_revision_wf e e' : same_revision e e' → wf_revision e → wf_revision e'.
Proof.
  unfold wf_revision. intros (Ek & El & En & Ev). rewrite El, En, Ev. by injection Ek as _ ->.
Qed.

Lemma shrinks_ok m m' : shrinks m m' → revisions_ok m → revisions_ok m'.
Proof.
  intros Hs [Hwf Hone]. split.
  - intros k e' He'. destruct (Hs _ _ He') as (e & He & Hid & _).
    eapply same_revision_wf; [done|by eapply Hwf].
  - intros k1 e1 k2 e2 H1 H2 Hns Hn Hp1 Hp2.
    destruct (Hs _ _ H1) as (o1 & Ho1 & (_ & _ & En1 & _) & Hl1).
    destruct (Hs _ _ H2) as (o2 & Ho2 & (_ & _ & En2 & _) & Hl2).
    eapply Hone; eauto. congruence.
Qed.

Lemma shrinks_refl m : shrinks m m.
Proof. intros k e He. exists e. done. Qed.

Lemma shrinks_trans m1 m2 m3 : shrinks m1 m2 → shrinks m2 m3 → shrinks m1 m3.
Proof.
  intros H1 H2 k e3 H3. destruct (H2 _ _ H3) as (e2 & He2 & (?&?&?&?) & Hp2).
  destruct (H1 _ _ He2) as (e1 & He1 & (?&?&?&?) & Hp1). exists e1. split; [done|].
  split; [repeat split; congruence|auto].
Qed.

(** Replacing the status of a stored object. *)
Lemma shrinks_status m k e st :
  m !! k = Some e →
  (is_published_condition (set_ecr_status e st) = true → is_published_condition e = true) →
  shrinks m (<[k := set_ecr_status e st]> m).
Proof.
  intros He Hp k' e'. destruct (decide (k' = k)) as [->|Hk].
  - rewrite lookup_insert_eq. intros [= <-]. exists e. done.
  - rewrite lookup_insert_ne by done. intros He'. by exists e'.
Qed.

(** ** Runs of the EnvoyConfig controller *)

Lemma mine_iff r e :
  wf_revision e →
  mine r e ↔ om_Namespace (ecr_Meta e) = Namespace r ∧ ecrs_NodeID (ecr_Spec e) = NodeID r.
Proof.
  intros Hwf. split.
  - intros Hm. split; [apply Hm|by apply mine_NodeID].
  - destruct Hwf as (Hn & _ & Ha & _). intros [Hns Hid]. split; [done|].
    unfold MatchingLabels, labelSelector; simpl. rewrite !insert_subseteq_iff by (by vm_compute).
    split; [exact Ha|]. split; [by rewrite Hn, Hid|apply map_empty_subseteq].
Qed.

(** Updates of listed objects that do not publish any of them. *)
Lemma updates_shrink w l res w' :
  (∀ u, u ∈ l → is_published_condition u = false) →
  each_until_error Status_Update w l = (res, w') → shrinks (objs w) (objs w').
Proof.
  intros Hl H. eapply (each_preserves (λ w1, shrinks (objs w) (objs w1))); [|done|apply shrinks_refl].
  clear res w' H. intros w1 u res w2 Hu H Hs. eapply shrinks_trans; [exact Hs|].
  destruct res as [err|]; [rewrite (status_update_err _ _ _ _ H); apply shrinks_refl|].
  apply status_update_ok in H as (old & Ho & ->). apply shrinks_status; [done|].
  intros Hp. specialize (Hl _ Hu). unfold is_published_condition, ecr_Conditions in *.
  simpl in Hp. congruence.
Qed.

Lemma deletes_shrink w l res w' :
  each_until_error Delete_revision w l = (res, w') → shrinks (objs w) (objs w').
Proof.
  intros H. eapply (each_preserves (λ w1, shrinks (objs w) (objs w1))); [|done|apply shrinks_refl].
  clear res w' H. intros w1 u res w2 _ H Hs. eapply shrinks_trans; [exact Hs|].
  destruct res as [err|]; [rewrite (delete_err _ _ _ _ H); apply shrinks_refl|].
  apply Cluster.delete_ok in H as (old & Ho & [[_ ->]|(_ & t & ->)]); intros k e'.
  - intros [_ He]%lookup_delete_Some. by exists e'.
  - intros [[<- <-]|[_ He]]%lookup_insert_Some; [by exists old|by exists e'].
Qed.

(** After the updates of the published condition. *)
Lemma published_updates_one now r w (items : list EnvoyConfigRevision) pv w2 :
  wf_cluster (objs w) → one_published (objs w) →
  (∀ e, e ∈ items ↔ objs w !! ecr_key e = Some e ∧ mine r e) →
  (∀ e, e ∈ items → objs w2 !! ecr_key e = Some (with_published now pv e)) →
  (∀ k, k ∉ (ecr_key <$> items) → objs w2 !! k = objs w !! k) →
  revisions_ok (objs w2).
Proof.
  intros Hwf Hone Hin Hup Hfr.
  assert (∀ k e', objs w2 !! k = Some e' → ∃ e, objs w !! k = Some e ∧
    ((e ∈ items ∧ e' = with_published now pv e) ∨ (¬ mine r e ∧ e' = e))) as Hfrom.
  { intros k e' He'. destruct (decide (k ∈ (ecr_key <$> items))) as [Hk|Hk].
    - apply list_elem_of_fmap in Hk as (e & -> & He). rewrite (Hup _ He) in He'.
      exists e. split; [by apply Hin|]. left. split; [done|congruence].
    - rewrite (Hfr _ Hk) in He'. exists e'. split; [done|]. right. split; [|done].
      intros Hm. apply Hk. rewrite <- (objs_key _ _ _ He'). apply list_elem_of_fmap_2, Hin.
      by rewrite (objs_key _ _ _ He'). }
  assert (∀ e, same_revision e (with_published now pv e)) as Hsame.
  { intros e. by destruct (with_published_status now pv e) as [cs ->]. }
  split.
  - intros k e' He'. destruct (Hfrom _ _ He') as (e & He & [[_ ->]|[_ ->]]); [|by eapply Hwf].
    eapply same_revision_wf; [apply Hsame|by eapply Hwf].
  - intros k1 e1 k2 e2 H1 H2 Hns Hn Hp1 Hp2.
    destruct (Hfrom _ _ H1) as (o1 & Ho1 & [[Hi1 ->]|[Hm1 ->]]),
      (Hfrom _ _ H2) as (o2 & Ho2 & [[Hi2 ->]|[Hm2 ->]]).
    + rewrite with_published_condition in Hp1, Hp2. apply bool_decide_eq_true in Hp1, Hp2.
      rewrite <- (objs_key _ _ _ Ho1), <- (objs_key _ _ _ Ho2). unfold ecr_key.
      apply Hin in Hi1 as [_ Hm1], Hi2 as [_ Hm2].
      destruct (Hwf _ _ Ho1) as (_ & _ & _ & ->), (Hwf _ _ Ho2) as (_ & _ & _ & ->).
      rewrite (proj1 Hm1), (proj1 Hm2), Hp1, Hp2.
      rewrite (mine_NodeID _ _ (Hwf _ _ Ho1) Hm1), (mine_NodeID _ _ (Hwf _ _ Ho2) Hm2). done.
    + destruct Hm2. apply Hin in Hi1 as [_ Hm1]. rewrite mine_iff in Hm1 |- * by (by eapply Hwf).
      destruct (Hsame o1) as (_ & _ & En & _). rewrite En in Hn.
      rewrite <- (objs_key _ _ _ Ho1), <- (objs_key _ _ _ Ho2) in Hns. simpl in Hns.
      by rewrite <- Hns, <- Hn.
    + destruct Hm1. apply Hin in Hi2 as [_ Hm2]. rewrite mine_iff in Hm2 |- * by (by eapply Hwf).
      destruct (Hsame o2) as (_ & _ & En & _). rewrite En in Hn.
      rewrite <- (objs_key _ _ _ Ho1), <- (objs_key _ _ _ Ho2) in Hns. simpl in Hns.
      by rewrite Hns, Hn.
    + by eapply Hone.
Qed.

Lemma to_false_published pv e u : to_false pv e = Some u → is_published_condition u = false.
Proof.
  intros H. pose proof (to_false_keeps _ _ _ H) as (_ & _ & Hw & _).
  rewrite <- (Hw 0%Z), with_published_condition. apply bool_decide_false.
  unfold to_false in H. case_decide; naive_solver.
Qed.

Lemma reconcile_list_ok now r w items res r' w' :
  List_revisions w (Namespace r) (labelSelector (node_filters r)) = inr items →
  reconcile_list Hash now r w items = (res, r', w') →
  revisions_ok (objs w) → revisions_ok (objs w').
Proof.
  intros Hl H Hok. destruct (Hok) as [Hwf Hone]. unfold reconcile_list in H. rewrite DesiredVersion_eq in H.
  pose proof (list_keys_NoDup _ _ _ _ Hl) as Hkeys.
  pose proof (versions_NoDup r _ _ Hwf Hl) as Hvers.
  pose proof (λ e, list_elem _ _ _ _ e Hl) as Hin. fold (mine r) in Hin.
  pose proof (SortByPublication_perm (desired Hash r) items) as Hperm.
  set (sorted := SortByPublication (desired Hash r) items) in *.
  rewrite <- Hperm in Hkeys, Hvers. setoid_rewrite <- Hperm in Hin.
  edestruct getVersionToPublish_ok as (pv & cs & E & _); [|rewrite E in H]; [done|].
  unfold isRevisionPublishedConditionReconciled, isRevisionRetentionReconciled in H.
  simpl in H. rewrite published_loop, retention_loop_spec in H. simpl in H.
  destruct (each_until_error Status_Update w _) as [res1 w1] eqn:H1.
  assert (revisions_ok (objs w1)) as Hok1.
  { eapply shrinks_ok; [|done]. eapply updates_shrink; [|exact H1].
    intros u (e & _ & Hu)%list_elem_of_omap. by eapply to_false_published. }
  destruct res1; [by injection H as _ _ <-|].
  destruct (match last _ with Some e => Status_Update w1 e | None => (None, w1) end)
    as [res2 w2] eqn:H2.
  assert (revisions_ok (objs w2)) as Hok2.
  { destruct res2 as [err|].
    - destruct (last _); [|done]. by rewrite (status_update_err _ _ _ _ H2).
    - destruct (updates_effect now pv w sorted w1 w2) as [Hup Hfr]; [done..| | | |];
        [by intros e [? _]%Hin|done..|]. by eapply published_updates_one. }
  destruct res2; [by injection H as _ _ <-|].
  destruct (each_until_error Delete_revision w2 _) as [res3 w3] eqn:H3.
  assert (revisions_ok (objs w3)) by (eapply shrinks_ok; [by eapply deletes_shrink|done]).
  destruct res3; by injection H as _ _ <-.
Qed.

Lemma insert_created_ok m k e :
  k = ecr_key e → m !! k = None → wf_revision e → ecr_Status e = emptyECRStatus → revisions_ok m →
  revisions_ok (<[k := e]> m).
Proof.
  intros -> Hn Hw Hst [Hwf Hone]. split; [by apply map_Forall_insert_2|].
  assert (is_published_condition e = false) as Hp.
  { unfold is_published_condition, ecr_Conditions. rewrite Hst. apply is_true_find_none, find_nil. }
  intros k1 e1 k2 e2 [[<- <-]|[_ H1]]%lookup_insert_Some [[<- <-]|[_ H2]]%lookup_insert_Some;
    eauto; congruence.
Qed.

Lemma Reconcile_ok now r w res r' w' :
  Reconcile Hash now r w = (res, r', w') → revisions_ok (objs w) → revisions_ok (objs w').
Proof.
  intros H Hok. unfold Reconcile in H. rewrite DesiredVersion_eq in H.
  destruct (Get w _ _) as [err|ed].
  - destruct (ErrorIsNoMatchesForFilter err); [|by repeat case_match; simplify_eq/=].
    destruct (SetControllerReference _ _) as [|ecr] eqn:Es; [by simplify_eq/=|].
    destruct (Create_revision w ecr) as [[err'|] w1] eqn:Ec; simplify_eq/=.
    + by rewrite (create_err _ _ _ _ Ec).
    + apply create_ok in Ec as (Hn & e & (Ek & El & Esp & Est & _) & ->).
      apply set_reference_ok in Es as (Ek' & El' & Esp' & _).
      destruct (new_revision_wf Hash (with_desired Hash r) e) as (_ & Hw & _);
        [rewrite Ek, Ek'|rewrite El, El'|rewrite Esp, Esp'|]; [done..|].
      by apply insert_created_ok.
  - destruct (List_ w _ _) as [err|items] eqn:El; [by simplify_eq/=|].
    apply List_ok in El as [El _].
    by eapply (reconcile_list_ok now (with_desired Hash r)).
Qed.

Lemma run_config_ok now w req res w' :
  EnvoyConfigReconciler_Reconcile Hash now w req = (res, w') →
  revisions_ok (objs w) → revisions_ok (objs w').
Proof.
  unfold EnvoyConfigReconciler_Reconcile. intros H Hok.
  destruct (ManageResourceLifecycle _ _ _ _) as [[r|ec] w1] eqn:El;
    apply config_lifecycle in El; rewrite <- El in Hok; [by simplify_eq/=|].
  destruct (Reconcile Hash now _ w1) as [[r r'] w2] eqn:Er.
  apply Reconcile_ok in Er; [|done]. destruct r as [r| |]; [|by simplify_eq/=..].
  destruct (Requeue r); [by simplify_eq/=|].
  repeat (case_match; simplify_eq/=; try done);
    match goal with E : Status_Update_config _ _ = _ |- _ => apply config_status in E end; congruence.
Qed.

(** ** Runs of the EnvoyConfigRevision controller *)

(** The object the controller works on, and its state in the cluster. *)
Definition tracks m e : Prop :=
  ∃ o, m !! ecr_key e = Some o ∧
    (is_published_condition e = true → is_published_condition o = true).

Lemma finish_shrinks now w e vt xc g res w' :
  tracks (objs w) e → finish_reconcile now w e vt xc g = (res, w') → shrinks (objs w) (objs w').
Proof.
  intros (o & Ho & Hp) H. unfold finish_reconcile in H.
  destruct (Revision_IsStatusReconciled _ _ _ _ _) as [[ok e']| |] eqn:E;
    [|simplify_eq/=; apply shrinks_refl..].
  apply IsStatusReconciled_right in E as (R & _).
  assert (w' = if ok then w else snd (Status_Update w e')) as -> by (by repeat case_match; simplify_eq/=).
  destruct ok; [apply shrinks_refl|].
  destruct (Status_Update w e') as [[err|] w1] eqn:Eu; simpl.
  - rewrite (status_update_err _ _ _ _ Eu). apply shrinks_refl.
  - apply status_update_ok in Eu as (old & Ho' & ->).
    assert (ecr_key e' = ecr_key e) as Ek by (by rewrite (rs_frame _ _ _ _ _ R)).
    rewrite Ek in *. rewrite Ho in Ho'. injection Ho' as <-. apply shrinks_status; [done|].
    intros Hs. apply Hp. unfold is_published_condition, ecr_Conditions in *. simpl in Hs.
    rewrite <- Hs. symmetry. apply is_true_ext, R.
Qed.

Lemma taintSelf_shrinks now w e reason msg err e' w' :
  tracks (objs w) e → taintSelf now w e reason msg = (err, e', w') →
  shrinks (objs w) (objs w') ∧ (err = None → tracks (objs w') e').
Proof.
  intros Ht H. unfold taintSelf in H.
  destruct (IsStatusConditionTrue _ _); [simplify_eq/=; split; [apply shrinks_refl|done]|].
  set (cs := SetStatusCondition _ _ _) in H.
  assert (IsStatusConditionTrue cs RevisionPublishedCondition = is_published_condition e) as Hcs
    by (by apply is_true_set_ne).
  destruct (Status_Patch _ _ _) as [[er|e2] w2] eqn:Ep; simplify_eq/=.
  - apply patch_err in Ep as ->. split; [apply shrinks_refl|done].
  - apply patch_ok in Ep as (o & Ho & -> & Ek & Es & _). destruct Ht as (o' & Ho' & Hp).
    rewrite Ho in Ho'. injection Ho' as <-. split.
    + apply shrinks_status; [done|]. intros Hs. apply Hp. rewrite <- Hcs. exact Hs.
    + intros _. eexists. rewrite Ek, lookup_insert_eq. split; [done|].
      unfold is_published_condition, ecr_Conditions. by rewrite Es.
Qed.

Lemma convert_keeps e e' :
  convert_revision_resources e = inr e' →
  ecr_Meta e' = ecr_Meta e ∧ ecr_Status e' = ecr_Status e ∧
  ecrs_NodeID (ecr_Spec e') = ecrs_NodeID (ecr_Spec e).
Proof. unfold convert_revision_resources. intros H. by repeat case_match; simplify_eq/=. Qed.

Lemma lifecycle_shrinks w req l w' : lifecycle_of w req = (l, w') → shrinks (objs w) (objs w').
Proof.
  intros H k e' He'. unfold lifecycle_of in H.
  destruct (revision_return _ _ _ _ _ _ _ _ _ H He') as [He|(_ & e & He & Es & Ek & El & Ed)];
    [by exists e'|]. exists e. split; [done|]. unfold same_revision, ecr_Version.
  unfold is_published_condition, ecr_Conditions. rewrite Es, Ek, El. split; [|done].
  assert (∀ e, ecrs_NodeID (ecr_Spec (EnvoyConfigRevision_Default e)) = ecrs_NodeID (ecr_Spec e) ∧
               ecrs_Version (ecr_Spec (EnvoyConfigRevision_Default e)) = ecrs_Version (ecr_Spec e))
    as Hd by (intros e0; unfold EnvoyConfigRevision_Default; by case_match).
  destruct (Hd e). destruct Ed as [->| ->]; auto.
Qed.

(** Going on with an object means that it is stored. *)
Lemma continue_stored w req e w' :
  lifecycle_of w req = (LContinue e, w') →
  objs w' = objs w ∧ ∃ o, objs w !! req = Some o ∧ convert_revision_resources o = inr e ∧
    om_DeletionTimestamp (ecr_Meta o) = None.
Proof.
  intros H. unfold lifecycle_of in H. apply revision_continue in H as (-> & o & ? & ? & _ & ?).
  eauto 10.
Qed.

Lemma continue_tracks w req e w' : lifecycle_of w req = (LContinue e, w') → tracks (objs w') e.
Proof.
  intros (-> & o & Ho & (Em & Es & _)%convert_keeps & _)%continue_stored. exists o.
  unfold ecr_key, is_published_condition, ecr_Conditions. rewrite Em, Es. split; [|done].
  fold (ecr_key o). by rewrite (objs_key _ _ _ Ho).
Qed.

Lemma run_revision_shrinks now w xc g req res w' xc' g' :
  EnvoyConfigRevision_Reconcile now w xc g req = (res, w', xc', g') → shrinks (objs w) (objs w').
Proof.
  unfold EnvoyConfigRevision_Reconcile. fold (lifecycle_of w req).
  destruct (lifecycle_of w req) as [l w1] eqn:El.
  intros H. eapply shrinks_trans; [by eapply lifecycle_shrinks|].
  assert (∀ w2 e vt xc2, shrinks (objs w1) (objs w2) → tracks (objs w2) e →
    shrinks (objs w1) (objs (snd (finish_reconcile now w2 e vt xc2 g)))) as Hfin.
  { intros w2 e vt xc2 Hs Ht. eapply shrinks_trans; [exact Hs|].
    eapply finish_shrinks; [done|apply surjective_pairing]. }
  destruct l as [r|r e|e]; [simplify_eq/=; apply shrinks_refl|
    destruct (CleanupLogic _ _ _ _); simplify_eq/=; apply shrinks_refl|].
  pose proof (continue_tracks _ _ _ _ El) as Ht.
  destruct (IsStatusConditionTrue _ _).
  - destruct (CacheReconciler_Reconcile _ _ _ _ _) as [[vt|err|] xc1].
    + specialize (Hfin w1 e (Some vt) xc1 (shrinks_refl _) Ht).
      destruct (finish_reconcile _ _ _ _ _ _). by simplify_eq/=.
    + destruct err; try (simplify_eq/=; apply shrinks_refl).
      destruct (taintSelf _ _ _ _ _) as [[er e2] w2] eqn:Eta.
      apply taintSelf_shrinks in Eta as [Hs Ht2]; [|done].
      destruct er; [by simplify_eq/=|].
      specialize (Hfin w2 e2 None xc1 Hs (Ht2 eq_refl)).
      destruct (finish_reconcile _ _ _ _ _ _). by simplify_eq/=.
    + simplify_eq/=. apply shrinks_refl.
  - specialize (Hfin w1 e None xc (shrinks_refl _) Ht).
    destruct (finish_reconcile _ _ _ _ _ _). by simplify_eq/=.
Qed.

Lemma user_change_shrinks w w' : user_change w w' → shrinks (objs w) (objs w').
Proof.
  intros H k e' He'. destruct (H _ _ He') as (e & He & [->|[t ->]]); exists e; done.
Qed.

(** ** The cache *)

Lemma cache_written w xc req rs n r xc' :
  CacheReconciler_Reconcile w xc req rs n = (r, xc') →
  snaps xc' !! n = snaps xc !! n ∨
  ∃ snap, GenerateSnapshot w req rs = Ok snap ∧ snaps xc' !! n = Some snap.
Proof.
  unfold CacheReconciler_Reconcile, Cache_SetSnapshot.
  destruct (GenerateSnapshot w req rs) as [snap|err|]; [|intros [= _ <-]; by left..].
  destruct (match Cache_GetSnapshot xc n with inl _ => _ | inr _ => _ end); [|intros [= _ <-]; by left].
  destruct (v3_SetSnapshot xc n snap) as [[err|] xc2] eqn:Es; intros [= _ <-].
  - apply set_snapshot_err in Es as [->|E]; eauto.
  - right. exists snap. by rewrite (set_snapshot_ok _ _ _ _ Es), lookup_insert_eq.
Qed.

(** A stored, published revision of the node, not being deleted, whose resources
    give the snapshot. *)
Definition generated w n (snap : Snapshot) : Prop :=
  ∃ req o e w0,
    objs w !! req = Some o ∧ om_DeletionTimestamp (ecr_Meta o) = None ∧
    is_published_condition o = true ∧ ecrs_NodeID (ecr_Spec o) = n ∧
    lifecycle_of w req = (LContinue e, w0) ∧ convert_revision_resources o = inr e ∧
    GenerateSnapshot w0 req (resources e) = Ok snap.

Lemma run_revision_cache now w xc g req res w' xc' g' n snap :
  EnvoyConfigRevision_Reconcile now w xc g req = (res, w', xc', g') →
  snaps xc' !! n = Some snap → snaps xc !! n = Some snap ∨ generated w n snap.
Proof.
  intros H Hn. destruct (lifecycle_of w req) as [l w0] eqn:El. destruct l as [r|r e|e].
  1,2: revert H; unfold EnvoyConfigRevision_Reconcile; fold (lifecycle_of w req); rewrite El.
  - intros [= _ _ <- _]. by left.
  - unfold CleanupLogic, Cache_ClearSnapshot.
    destruct (IsStatusConditionTrue _ _); intros [= _ _ <- _]; [|by left].
    rewrite clear_snapshot in Hn. apply lookup_delete_Some in Hn as [_ ?]. by left.
  - apply (Reconcile_cache _ _ _ _ _ _ _ _ _ _ _ El) in H as ->.
    destruct (continue_stored _ _ _ _ El) as (_ & o & Ho & Hc & Hd).
    destruct (convert_keeps _ _ Hc) as (_ & Est & Eno).
    destruct (published e) eqn:Hp; [|by left].
    destruct (CacheReconciler_Reconcile _ _ _ _ _) as [r xc1] eqn:Er. simpl in Hn.
    destruct (decide (n = node e)) as [->|Hne].
    + apply cache_written in Er as [Er|(snap' & Hg & Er)]; rewrite Er in Hn; [by left|].
      injection Hn as ->. right. exists req, o, e, w0. repeat split; try done.
      unfold is_published_condition, ecr_Conditions. by rewrite <- Est.
    + destruct (cache_frame _ _ _ _ _ _ _ n Er) as [E|[? _]]; [rewrite E in Hn; by left|done].
Qed.

(** ** The invariant *)

Lemma sys_step_revisions s s' :
  sys_step s s' → revisions_ok (objs (sys_cluster s)) → revisions_ok (objs (sys_cluster s')).
Proof.
  intros []; simpl; try done.
  - by eapply run_config_ok.
  - eapply shrinks_ok. by eapply run_revision_shrinks.
  - eapply shrinks_ok. by apply user_change_shrinks.
Qed.

Lemma sys_step_cache s s' n snap :
  sys_step s s' → snaps (sys_cache s') !! n = Some snap →
  snaps (sys_cache s) !! n = Some snap ∨ generated (sys_cluster s) n snap.
Proof. intros []; simpl; auto. by eapply run_revision_cache. Qed.

End Invariant.
