(* ===== verification/Rollout.v ===== *)
(** * Following a configuration through the system

    Runs of the two controllers in order, on an API server that answers every
    call that it can: [deploy] follows a new configuration until the node is
    served its resources, [rollback] a configuration that the Envoy clients
    reject until the node is served an earlier one. *)

From S2P Require Import Prelude Meta Envoy Api GoSort Cluster Revisions RevisionReconciler.
From S2P Require Import RevisionTheorems ConfigStatus Stats Snapshot Discover CacheReconciler.
From S2P Require Import RevisionController ControlPlane.
#[local] Open Scope string_scope.
#[local] Open Scope list_scope.

(** ** A server that answers *)

Class ReliableCluster {W} {K : RevisionClient W} (L : RevisionClientLaws K)
    (RL : RevisionLifecycle W) : Prop := {
  list_total w ns sel : ∃ l, List_revisions w ns sel = inr l;
  create_total w e : objs w !! ecr_key e = None → ∃ w', Create_revision w e = (None, w');
  update_total w e : is_Some (objs w !! ecr_key e) → ∃ w', Status_Update w e = (None, w');
  delete_total w e : is_Some (objs w !! ecr_key e) → ∃ w', Delete_revision w e = (None, w');
  (** An object without its defaults or its finalizer is given them, and the
      request put back in the queue. *)
  initialize_total w req d i f e :
    objs w !! req = Some e → om_DeletionTimestamp (ecr_Meta e) = None →
    d e ≠ e ∨ f ∉ om_Finalizers (ecr_Meta e) →
    ∃ res w' e', ManageRevisionLifecycle w req d i f = (LReturn res, w') ∧
      objs w' = <[req := e']> (objs w) ∧ ecr_key e' = ecr_key e ∧ ecr_Labels e' = ecr_Labels e ∧
      ecr_Spec e' = ecr_Spec (d e) ∧ ecr_Status e' = ecr_Status e ∧
      om_DeletionTimestamp (ecr_Meta e') = None ∧ f ∈ om_Finalizers (ecr_Meta e');
  continue_total w req d i f e e' :
    objs w !! req = Some e → om_DeletionTimestamp (ecr_Meta e) = None → d e = e →
    f ∈ om_Finalizers (ecr_Meta e) → i e = inr e' →
    ManageRevisionLifecycle w req d i f = (LContinue e', w);
}.

Class ReliableCache {XC} (S : SnapshotCache XC) : Prop := {
  set_total xc n s : ∃ xc', v3_SetSnapshot xc n s = (None, xc');
}.

Section Flow.
Context {C : Codecs} {LS : SnapshotLib} {LL : SnapshotLibLaws LS}.
Context {W : Type} {D : DiscoverClient W} {SC : SecretClient W}.
Context {K : RevisionClient W} {L : RevisionClientLaws K} {CC : ConfigClient W}.
Context {RL : RevisionLifecycle W} {CL : ClusterLaws L CC RL} {RC : ReliableCluster L RL}.
Context {M : MetaConditions} {ML : MetaConditionsLaws M}.
Context {O : OwnerReferences} {OL : OwnerReferencesLaws O}.
Context {XC : Type} {S : SnapshotCache XC} {SL : SnapshotCacheLaws S} {RX : ReliableCache S}.
Context {G : Type} {GC : GoCache G} {GL : GoCacheLaws GC}.
Context (Hash : option (list Resource) → string).
Implicit Types (w : W) (xc : XC) (g : G) (now : Time) (e o : EnvoyConfigRevision).
Implicit Types (r : RevisionReconciler) (items sorted : list EnvoyConfigRevision) (pv : string).

(** ** A run of the EnvoyConfig controller *)

Lemma each_total f R w (l : list EnvoyConfigRevision) :
  acts_on f R → (∀ w e, is_Some (objs w !! ecr_key e) → ∃ w', f w e = (None, w')) →
  NoDup (ecr_key <$> l) → (∀ e, e ∈ l → is_Some (objs w !! ecr_key e)) →
  ∃ w', each_until_error f w l = (None, w').
Proof.
  intros Hf Htot. revert w. induction l as [|e l IH]; intros w Hnd Hin; simpl; [by eauto|].
  apply NoDup_cons in Hnd as [Hn Hnd].
  destruct (Htot w e) as [w1 E]; [apply Hin; set_solver|]. rewrite E. apply IH; [done|].
  intros x Hx. destruct (Hf _ _ _ E) as [_ Hfr].
  rewrite Hfr; [apply Hin; set_solver|].
  intros Ek. apply Hn. rewrite <- Ek. by apply list_elem_of_fmap_2.
Qed.

Lemma reconcile_list_total now r w items :
  wf_cluster (objs w) →
  List_revisions w (Namespace r) (labelSelector (node_filters r)) = inr items →
  ∃ r' w', reconcile_list Hash now r w items = (Ok emptyResult, r', w').
Proof.
  intros Hwf Hl. unfold reconcile_list. rewrite DesiredVersion_eq.
  pose proof (list_keys_NoDup _ _ _ _ Hl) as Hkeys.
  pose proof (versions_NoDup r _ _ Hwf Hl) as Hvers.
  pose proof (λ e, list_elem _ _ _ _ e Hl) as Hin.
  pose proof (SortByPublication_perm (desired Hash r) items) as Hperm.
  set (sorted := SortByPublication (desired Hash r) items) in *.
  rewrite <- Hperm in Hkeys, Hvers. setoid_rewrite <- Hperm in Hin.
  edestruct getVersionToPublish_ok as (pv & cs & -> & _); [done|].
  unfold isRevisionPublishedConditionReconciled, isRevisionRetentionReconciled.
  simpl. rewrite published_loop, retention_loop_spec. simpl.
  assert (∃ w1 w2, each_until_error Status_Update w (omap (to_false pv) sorted) = (None, w1) ∧
    match last (omap (to_true now pv) sorted) with
    | Some e => Status_Update w1 e | None => (None, w1) end = (None, w2)) as (w1 & w2 & E1 & E2).
  { destruct (each_total _ _ w (omap (to_false pv) sorted ++ omap (to_true now pv) sorted)
                status_update_acts update_total) as [w2 E].
    - by apply updates_NoDup.
    - intros u (e & He & (Ek & _)%update_of_keeps)%elem_of_updates. rewrite Ek.
      exists e. by apply Hin.
    - rewrite each_app in E.
      destruct (each_until_error Status_Update w _) as [[] w1]; [done|]. exists w1.
      rewrite (to_true_last _ _ _ Hvers) in E. exists w2. split; [done|].
      destruct (last _); simpl in E; [|done]. by destruct (Status_Update w1 _) as [[]]. }
  rewrite E1, E2.
  destruct (updates_effect now pv w sorted w1 w2) as [Hup _]; try done.
  { by intros e [? _]%Hin. }
  set (n := length sorted - maxRevisions).
  destruct (each_total _ _ w2 (take n sorted) delete_acts delete_total) as [w3 E3].
  - rewrite fmap_take. by apply (sublist_NoDup _ (ecr_key <$> sorted)), sublist_take.
  - intros e He. rewrite Hup by (rewrite <- (take_drop n sorted); set_solver). by eexists.
  - rewrite E3. eauto.
Qed.

(** A version identifies a revision of the node. *)
Lemma stored_version_inj r w e1 e2 :
  wf_cluster (objs w) → stored r w e1 → stored r w e2 → ecr_Version e1 = ecr_Version e2 → e1 = e2.
Proof.
  intros Hwf [H1 M1] [H2 M2] Hv.
  assert (ecr_key e1 = ecr_key e2) as Ek; [|rewrite Ek, H2 in H1; congruence].
  pose proof (Hwf _ _ H1) as W1. pose proof (Hwf _ _ H2) as W2.
  unfold ecr_key. rewrite (proj1 M1), (proj1 M2).
  destruct W1 as (_ & _ & _ & N1), W2 as (_ & _ & _ & N2).
  rewrite N1, N2, Hv. by rewrite (mine_NodeID _ _ (Hwf _ _ H1) M1), (mine_NodeID _ _ (Hwf _ _ H2) M2).
Qed.

Lemma Reconcile_total now r w ed :
  wf_cluster (objs w) → stored r w ed → ecr_Version ed = desired Hash r →
  ∃ r' w', Reconcile Hash now r w = (Ok emptyResult, r', w').
Proof.
  intros Hwf [Ho Hm] Hv. unfold Reconcile. rewrite DesiredVersion_eq.
  change (Namespace (with_desired Hash r)) with (Namespace r).
  change (NodeID (with_desired Hash r)) with (NodeID r).
  change (EnvoyAPI (with_desired Hash r)) with (EnvoyAPI r).
  destruct (list_total w (Namespace r)
    (labelSelector [ByNodeID (NodeID r); ByVersion (desired Hash r); ByEnvoyAPI (EnvoyAPI r)]))
    as [found Hf].
  destruct (list_total w (Namespace r) (labelSelector (node_filters r))) as [items Hl].
  rewrite (Get_singleton _ _ _ _ ed Hf).
  - assert (ed ∈ items) as Hin by (by apply (list_elem _ _ _ _ ed Hl)).
    assert (List_ w (Namespace r) [ByNodeID (NodeID r); ByEnvoyAPI (EnvoyAPI r)] = inr items) as ->.
    { unfold List_. unfold node_filters in Hl. rewrite Hl. rewrite decide_False; [done|].
      destruct items; [set_solver|done]. }
    by apply (reconcile_list_total now (with_desired Hash r)).
  - intros x. rewrite (list_elem _ _ _ _ x Hf), matching_desired. split.
    + intros (Hox & Hmx & Hvx). apply (stored_version_inj r w); [done..|].
      destruct (Hwf _ _ Hox) as (_ & Hvx' & _). congruence.
    + intros ->. split; [done|]. split; [done|]. destruct (Hwf _ _ Ho) as (_ & -> & _). by rewrite Hv.
Qed.

(** The EnvoyConfig that the controller reads has the metadata and the spec of
    [ec]; its status may have changed. *)
Definition config_is (ck : NamespacedName) (ec : EnvoyConfig) : Prop :=
  ∀ w, ∃ st, ManageResourceLifecycle w ck EnvoyConfig_Default convert_resources =
    (inr (mkEnvoyConfig (ec_Meta ec) (ec_Spec ec) st), w).

Definition of_config (ec : EnvoyConfig) : RevisionReconciler := NewRevisionReconciler ec.

(** The state after a run that found the desired revision: [sorted] lists the
    node's revisions, and those that retention keeps have the published
    condition of version [pv]. *)
Definition after_publish now ec w w' sorted pv : Prop :=
  (∀ e, e ∈ sorted ↔ stored (of_config ec) w e) ∧ NoDup (ecr_key <$> sorted) ∧
  StronglySorted (λ x y, spec_less (desired Hash (of_config ec)) y x = false) sorted ∧
  pv = first_untainted (rev sorted) ∧
  ∀ e, e ∈ drop (length sorted - maxRevisions) sorted →
    objs w' !! ecr_key e = Some (with_published now pv e).

Lemma config_publishes now w ck ec ed :
  config_is ck ec → wf_cluster (objs w) →
  stored (of_config ec) w ed → ecr_Version ed = desired Hash (of_config ec) →
  ∃ res w' sorted pv,
    EnvoyConfigReconciler_Reconcile Hash now w ck = (res, w') ∧
    last sorted = Some ed ∧ after_publish now ec w w' sorted pv.
Proof.
  intros Hec Hwf Hst Hv. destruct (Hec w) as [st Em].
  unfold EnvoyConfigReconciler_Reconcile. rewrite Em.
  set (ec' := mkEnvoyConfig _ _ st). destruct (Reconcile_total now (of_config ec') w ed Hwf)
    as (r' & w1 & Er); [done..|]. unfold of_config in Er. rewrite Er.
  destruct (Reconcile_done _ _ _ _ _ _ Hwf Er) as (sorted & pv & cs & w2 & R).
  assert (∃ res w', objs w' = objs w1 ∧
    EnvoyConfigReconciler_Reconcile Hash now w ck = (res, w')) as (res & w' & Eo & E).
  { unfold EnvoyConfigReconciler_Reconcile. rewrite Em. fold ec'. rewrite Er. simpl.
    repeat (case_match; simplify_eq/=);
      repeat match goal with H : Status_Update_config _ _ = _ |- _ => apply config_status in H end;
      eauto. }
  unfold EnvoyConfigReconciler_Reconcile in E. rewrite Em in E. fold ec' in E. rewrite Er in E.
  exists res, w', sorted, pv. split; [exact E|]. split.
  - destruct (rec_desired _ _ _ _ _ _ _ _ _ _ R) as (top & Ht & Hd). rewrite Ht. f_equal.
    eapply (NoDup_fmap_elem_inj ecr_Version); [apply R|by eapply last_Some_elem_of| |].
    + by apply (rec_elem _ _ _ _ _ _ _ _ _ _ R).
    + rewrite Hd, Hv. done.
  - do 4 (split; [apply R|]). intros e He. rewrite Eo. by eapply kept_after.
Qed.

(** ** A run of the EnvoyConfigRevision controller *)

(** A revision that the controller works on, as [e]. *)
Definition ready o e : Prop :=
  om_DeletionTimestamp (ecr_Meta o) = None ∧ EnvoyConfigRevision_Default o = o ∧
  EnvoyConfigRevisionFinalizer ∈ om_Finalizers (ecr_Meta o) ∧
  convert_revision_resources o = inr e.

Lemma ready_continues w k o e :
  objs w !! k = Some o → ready o e → lifecycle_of w k = (LContinue e, w).
Proof. intros Ho (Hd & Hdef & Hf & Hc). by eapply continue_total. Qed.

Lemma convert_same o e :
  convert_revision_resources o = inr e →
  ecr_key e = ecr_key o ∧ ecr_Conditions e = ecr_Conditions o ∧ node e = node o ∧
  EnvoyConfigRevision_GetEnvoyAPIVersion e = EnvoyConfigRevision_GetEnvoyAPIVersion o.
Proof. unfold convert_revision_resources. intros H. by repeat case_match; simplify_eq/=. Qed.

Lemma load_total w xc k rs n snap :
  GenerateSnapshot w k rs = Ok snap →
  ∃ xc', CacheReconciler_Reconcile w xc k rs n = (Ok (versionTracker snap), xc').
Proof.
  intros Hg. unfold CacheReconciler_Reconcile, Cache_SetSnapshot. rewrite Hg.
  destruct (match Cache_GetSnapshot xc n with inl _ => _ | inr _ => _ end); [|by eauto].
  destruct (set_total xc n snap) as [xc' ->]. eauto.
Qed.

(** The snapshot of the node has the versions of [snap]. *)
Definition serves xc n (snap : Snapshot) : Prop :=
  ∃ served, snaps xc !! n = Some served ∧
    ∀ t, t ∈ snapshot_types → GetVersion served t = GetVersion snap t.

Lemma revision_serves now w xc g k o e snap :
  objs w !! k = Some o → ready o e → is_published_condition o = true → cache_ok xc →
  GenerateSnapshot w k (resources e) = Ok snap →
  ∃ res w' xc' g', EnvoyConfigRevision_Reconcile now w xc g k = (res, w', xc', g') ∧
    serves xc' (node o) snap.
Proof.
  intros Ho Hr Hp Hok Hg.
  destruct (EnvoyConfigRevision_Reconcile now w xc g k) as [[[res w'] xc'] g'] eqn:E.
  exists res, w', xc', g'. split; [done|].
  apply (Reconcile_cache _ _ _ _ _ _ _ _ _ _ _ (ready_continues _ _ _ _ Ho Hr)) in E as ->.
  destruct (convert_same _ _ (proj2 (proj2 (proj2 Hr)))) as (_ & Hcs & <- & _).
  assert (published e = true) as -> by (unfold published; by rewrite Hcs).
  destruct (load_total w xc k (resources e) (node e) snap Hg) as [xc' Hc]. rewrite Hc.
  destruct (Reconcile_served _ _ _ _ _ _ _ Hok Hc) as (snap' & served & Hg' & Hs & _ & _ & Hv & _).
  rewrite Hg in Hg'. injection Hg' as <-. by exists served.
Qed.

(** Every Envoy client of the node rejects a resource type of the snapshot. *)
Definition rejects g now o (snap : Snapshot) : Prop :=
  ∃ t ver, (t, ver) ∈ tracked_versions (versionTracker snap) ∧
    rejected g now (node o) (TypeURL t (EnvoyConfigRevision_GetEnvoyAPIVersion o)) ver.

Lemma revision_taints now w xc g k o e snap :
  objs w !! k = Some o → ready o e → is_published_condition o = true →
  FindStatusCondition (ecr_Conditions o) RevisionTaintedCondition = None → cache_ok xc →
  GenerateSnapshot w k (resources e) = Ok snap →
  reachable g now → node_separated g now (node o) → rejects g now o snap →
  ∃ res w' xc' st, EnvoyConfigRevision_Reconcile now w xc g k = (res, w', xc', g) ∧
    objs w' = <[k := set_ecr_status o st]> (objs w) ∧ cache_ok xc' ∧
    is_tainted_condition (set_ecr_status o st) = true.
Proof.
  intros Ho Hr Hp Hnt Hok Hg Hre Hsep (t & ver & Htv & Hrej).
  pose proof (ready_continues _ _ _ _ Ho Hr) as Hl.
  destruct (convert_same _ _ (proj2 (proj2 (proj2 Hr)))) as (Hk & Hcs & Hn & Ha).
  assert (published e = true) as Hpe by (unfold published; by rewrite Hcs).
  destruct (load_total w xc k (resources e) (node e) snap Hg) as [xc' Hc].
  destruct (Reconcile_served _ _ _ _ _ _ _ Hok Hc) as (_ & _ & _ & _ & _ & _ & _ & Hok' & _).
  rewrite <- Hn in Hsep, Hrej. rewrite <- Ha in Hrej. unfold node in Hsep, Hrej.
  set (vt := versionTracker snap) in *.
  destruct (any_failing_spec e g now (tracked_versions vt) Hre Hsep (tracked_types vt))
    as (b & Eb & Hb).
  assert (b = true) as -> by (apply Hb; eauto).
  destruct (Revision_IsStatusReconciled e (Some vt) xc' g now) as [[ok e']| |] eqn:E.
  2,3: exfalso; rewrite IsStatusReconciled_steps in E; simpl in E;
    unfold calculateRevisionTaintedCondition in E; rewrite Eb in E; simpl in E;
    repeat case_match; discriminate E.
  destruct (IsStatusReconciled_right _ _ _ _ _ _ _ E) as (R & Hsame & oc & Eoc & _ & Ht).
  simpl in Eoc. unfold calculateRevisionTaintedCondition in Eoc. rewrite Eb in Eoc.
  injection Eoc as <-.
  assert (IsStatusConditionTrue (ecr_Conditions e') RevisionTaintedCondition = true) as Hte.
  { apply Ht; [by eexists|]. rewrite Hcs, Hnt. done. }
  destruct ok.
  { rewrite (proj1 Hsame eq_refl), Hcs, (is_true_find_none _ _ Hnt) in Hte. done. }
  assert (ecr_key e' = k) as Hk'.
  { rewrite (rs_frame _ _ _ _ _ R), <- (objs_key _ _ _ Ho), <- Hk. done. }
  destruct (update_total w e') as [w' Eu]; [rewrite Hk', Ho; by eexists|].
  pose proof (status_update_ok _ _ _ Eu) as (old & Hold & Ew).
  rewrite Hk', Ho in Hold. injection Hold as <-. rewrite Hk' in Ew.
  eexists _, w', xc', (ecr_Status e'). split; [|split; [done|split; [done|exact Hte]]].
  unfold EnvoyConfigRevision_Reconcile. fold (lifecycle_of w k). rewrite Hl.
  fold (published e). rewrite Hpe. fold (resources e) (node e). rewrite Hc.
  rewrite (finish_spec _ _ _ _ _ _ _ _ E Hpe). by rewrite Eu.
Qed.

(** ** A configuration that is rejected *)

Lemma ready_status o e st : ready o e → ready (set_ecr_status o st) (set_ecr_status e st).
Proof.
  intros (Hd & Hdef & Hf & Hc). split; [done|]. split; [|split; [done|]].
  - clear -Hdef. unfold EnvoyConfigRevision_Default in *. simpl.
    destruct (ecrs_EnvoyAPI (ecr_Spec o)) eqn:E; [done|].
    apply (f_equal (λ x, ecrs_EnvoyAPI (ecr_Spec x))) in Hdef. simpl in Hdef. congruence.
  - clear -Hc. unfold convert_revision_resources in *. simpl.
    change (EnvoyConfigRevision_GetSerialization (set_ecr_status o st))
      with (EnvoyConfigRevision_GetSerialization o).
    repeat case_match; by simplify_eq/=.
Qed.

(** The revisions of a configuration's node. *)
Definition node_revisions ec (m : gmap NamespacedName EnvoyConfigRevision) :=
  filter (λ p : NamespacedName * EnvoyConfigRevision, mine (of_config ec) p.2) m.

Lemma sorted_length ec (m : gmap NamespacedName EnvoyConfigRevision) sorted :
  NoDup (ecr_key <$> sorted) →
  (∀ e, e ∈ sorted → ∃ o, m !! ecr_key e = Some o ∧ mine (of_config ec) o) →
  (length sorted ≤ size (node_revisions ec m))%nat.
Proof.
  intros Hnd Hin. rewrite <- (length_fmap ecr_key), <- size_dom.
  rewrite <- (size_list_to_set (C := gset NamespacedName)) by done.
  apply subseteq_size. intros k Hk. apply elem_of_list_to_set, list_elem_of_fmap in Hk as (e & -> & He).
  destruct (Hin _ He) as (o & Ho & Hm). apply elem_of_dom. exists o.
  by apply map_lookup_filter_Some.
Qed.

(** The revision that takes the place of the tainted desired one. *)
Lemma rollback_choice now ec w w' sorted pv bad :
  wf_cluster (objs w) → after_publish now ec w w' sorted pv → last sorted = Some bad →
  ecr_Version bad = desired Hash (of_config ec) → is_tainted_condition bad = true →
  (size (node_revisions ec (objs w)) ≤ maxRevisions)%nat →
  (∃ e, stored (of_config ec) w e ∧ is_tainted_condition e = false) →
  ∃ good, stored (of_config ec) w good ∧ is_tainted_condition good = false ∧
    pv = ecr_Version good ∧
    (∀ e, stored (of_config ec) w e → is_tainted_condition e = false →
       (publication_time e ≤ publication_time good)%Z) ∧
    objs w' !! ecr_key good = Some (with_published now pv good).
Proof.
  intros Hwf (Hin & Hnd & Hs & Hpv & Hup) Hlast Hd Htb Hsz (e0 & He0 & Ht0).
  destruct (first_untainted_cases sorted) as [[Hall _]|(l1 & good & l2 & E & Hg & Hl2 & Hf)].
  { rewrite Forall_forall in Hall. apply Hin, Hall in He0. congruence. }
  assert (stored (of_config ec) w good) as Hst by (apply Hin; rewrite E; set_solver).
  exists good. split; [done|]. split; [done|]. split; [by rewrite Hpv, Hf|]. split.
  - intros e He Hte.
    destruct (decide (ecr_Version good = desired Hash (of_config ec))) as [Hv|Hv].
    + assert (good = bad) as ->; [|congruence]. apply (stored_version_inj (of_config ec) w);
        [done|done|apply Hin; by eapply last_Some_elem_of|congruence].
    + rewrite E in Hs, Hlast.
      destruct (newest_untainted _ _ _ _ _ Hs Hlast Hd Hv Hl2) as [_ Hmax].
      apply Hmax; [|done]. rewrite <- E. by apply Hin.
  - apply Hup. replace (length sorted - maxRevisions) with 0; [by apply Hin|].
    enough (length sorted ≤ size (node_revisions ec (objs w)))%nat by lia.
    apply sorted_length; [done|]. intros e [Ho Hm]%Hin. eauto.
Qed.

(** A change of the status of one revision. *)
Lemma stored_other ec w w' bad st e :
  objs w' = <[ecr_key bad := set_ecr_status bad st]> (objs w) → objs w !! ecr_key bad = Some bad →
  e ≠ bad → e ≠ set_ecr_status bad st → stored (of_config ec) w' e ↔ stored (of_config ec) w e.
Proof.
  unfold stored. intros -> Hb Hn Hn'. destruct (decide (ecr_key e = ecr_key bad)) as [Ek|Ek].
  - rewrite Ek, lookup_insert_eq, Hb. naive_solver.
  - by rewrite lookup_insert_ne.
Qed.

Lemma node_revisions_status ec m o st :
  m !! ecr_key o = Some o → mine (of_config ec) o →
  size (node_revisions ec (<[ecr_key o := set_ecr_status o st]> m)) = size (node_revisions ec m).
Proof.
  intros Ho Hm. unfold node_revisions. rewrite map_filter_insert_True by done.
  rewrite map_size_insert_Some; [done|]. exists o. by apply map_lookup_filter_Some.
Qed.

(** A revision that the controller can load, in any state of the cluster. *)
Definition loadable o : Prop :=
  ∃ e, ready o e ∧ ∀ w, ∃ snap, GenerateSnapshot w (ecr_key o) (resources e) = Ok snap.

(** C2: a bad configuration is rolled back.  The desired revision is published
    and every Envoy client of the node rejects it: the next run of the revision
    controller taints it, the next run of the EnvoyConfig controller publishes
    the untainted revision with the latest publication date, and the next run of
    the revision controller for that one has the xDS server serve it. *)
Theorem rollback now w xc g ck ec bad ebad snap :
  config_is ck ec → wf_cluster (objs w) → cache_ok xc →
  (size (node_revisions ec (objs w)) ≤ maxRevisions)%nat →
  stored (of_config ec) w bad → ecr_Version bad = desired Hash (of_config ec) →
  ready bad ebad → is_published_condition bad = true →
  FindStatusCondition (ecr_Conditions bad) RevisionTaintedCondition = None →
  GenerateSnapshot w (ecr_key bad) (resources ebad) = Ok snap →
  reachable g now → node_separated g now (node bad) → rejects g now bad snap →
  (∃ e, stored (of_config ec) w e ∧ e ≠ bad ∧ is_tainted_condition e = false) →
  (∀ e, stored (of_config ec) w e → e ≠ bad → is_tainted_condition e = false → loadable e) →
  ∃ res1 w1 xc1 res2 w2 good good' egood snap' res3 w3 xc3 g3,
    EnvoyConfigRevision_Reconcile now w xc g (ecr_key bad) = (res1, w1, xc1, g) ∧
    EnvoyConfigReconciler_Reconcile Hash now w1 ck = (res2, w2) ∧
    stored (of_config ec) w good ∧ good ≠ bad ∧ is_tainted_condition good = false ∧
    (∀ e, stored (of_config ec) w e → e ≠ bad → is_tainted_condition e = false →
       (publication_time e ≤ publication_time good)%Z) ∧
    objs w2 !! ecr_key good = Some good' ∧ is_published_condition good' = true ∧
    ready good egood ∧ GenerateSnapshot w2 (ecr_key good) (resources egood) = Ok snap' ∧
    EnvoyConfigRevision_Reconcile now w2 xc1 g (ecr_key good) = (res3, w3, xc3, g3) ∧
    serves xc3 (ecs_NodeID (ec_Spec ec)) snap'.
Proof.
  intros Hec Hwf Hok Hsz Hst Hv Hr Hp Hnt Hg Hre Hsep Hrej (e0 & Hs0 & Hn0 & Ht0) Hload.
  pose proof Hst as [Hob Hmb].
  destruct (revision_taints now w xc g _ bad ebad snap Hob Hr Hp Hnt Hok Hg Hre Hsep Hrej)
    as (res1 & w1 & xc1 & st & E1 & Ew1 & Hok1 & Ht1).
  set (bad1 := set_ecr_status bad st) in *.
  assert (wf_cluster (objs w1)) as Hwf1.
  { rewrite Ew1. apply map_Forall_insert_2; [by apply (Hwf _ _ Hob)|done]. }
  assert (stored (of_config ec) w1 bad1) as Hst1.
  { split; [|done]. rewrite Ew1. apply lookup_insert_eq. }
  assert (is_tainted_condition bad = false) as Hutb by (by apply is_true_find_none).
  assert (∀ e, is_tainted_condition e = false → e ≠ bad →
    stored (of_config ec) w1 e ↔ stored (of_config ec) w e) as Hsame.
  { intros e He Hne. eapply stored_other; [exact Ew1|done..|]. fold bad1. congruence. }
  destruct (config_publishes now w1 ck ec bad1 Hec Hwf1 Hst1 Hv)
    as (res2 & w2 & sorted & pv & E2 & Hlast & Hpub).
  assert (size (node_revisions ec (objs w1)) ≤ maxRevisions)%nat as Hsz1
    by (by rewrite Ew1; unfold bad1; rewrite node_revisions_status).
  destruct (rollback_choice now ec w1 w2 sorted pv bad1 Hwf1 Hpub Hlast Hv Ht1 Hsz1)
    as (good & Hsg & Htg & -> & Hmax & Ho2); [exists e0; split; [by apply Hsame|done]|].
  assert (good ≠ bad) as Hgb.
  { intros ->. destruct Hsg as [Hsg _]. rewrite Ew1, lookup_insert_eq in Hsg.
    injection Hsg as Hsg. fold bad1 in Hsg. congruence. }
  pose proof (proj1 (Hsame _ Htg Hgb) Hsg) as Hsgw.
  destruct (Hload _ Hsgw Hgb Htg) as (egood & Hrg & Hgen).
  destruct (Hgen w2) as [snap' Hg'].
  assert (is_published_condition (with_published now (ecr_Version good) good) = true) as Hp2
    by (rewrite with_published_condition; by apply bool_decide_eq_true).
  destruct (with_published_status now (ecr_Version good) good) as [cs Ecs]. rewrite Ecs in *.
  destruct (revision_serves now w2 xc1 g _ _ _ snap' Ho2
              (ready_status _ _ (set_ecrst_conditions (ecr_Status good) cs) Hrg) Hp2 Hok1 Hg')
    as (res3 & w3 & xc3 & g3 & E3 & Hserve).
  exists res1, w1, xc1, res2, w2, good. eexists. exists egood, snap', res3, w3, xc3, g3.
  repeat (split; [done|]). split; [|split; [exact Ho2|do 3 (split; [done|]); split; [exact E3|]]].
  - intros e He Hne Hte. apply Hmax; [by apply Hsame|done].
  - destruct Hsg as [Hog Hmg].
    rewrite <- (mine_NodeID (of_config ec) good (Hwf1 _ _ Hog) Hmg : _ = ecs_NodeID (ec_Spec ec)).
    exact Hserve.
Qed.

(** ** A new configuration *)

Definition new_revision ec : EnvoyConfigRevision := newRevisionForCurrentResources Hash (of_config ec).

Lemma new_revision_key ec :
  ecr_key (new_revision ec) =
  mkKey (Namespace (of_config ec))
    (revision_name (NodeID (of_config ec)) (desired Hash (of_config ec))).
Proof. done. Qed.

Lemma Get_new ec w :
  wf_cluster (objs w) → objs w !! ecr_key (new_revision ec) = None →
  ∃ err, Get w (Namespace (of_config ec))
      [ByNodeID (NodeID (of_config ec)); ByVersion (desired Hash (of_config ec));
       ByEnvoyAPI (EnvoyAPI (of_config ec))] = inl err ∧ ErrorIsNoMatchesForFilter err = true.
Proof.
  intros Hwf Hnew. unfold Get. destruct (list_total w (Namespace (of_config ec))
    (labelSelector [ByNodeID (NodeID (of_config ec)); ByVersion (desired Hash (of_config ec));
       ByEnvoyAPI (EnvoyAPI (of_config ec))])) as [found Hf]. rewrite Hf.
  destruct found as [|x found]; [by eauto|]. exfalso.
  assert (x ∈ x :: found) as (Ho & Hm & Hv)%(list_elem _ _ _ _ x Hf) by set_solver.
  assert (mine (of_config ec) x ∧ ecr_Labels x !! VersionTag = Some (desired Hash (of_config ec)))
    as [Hm' Hv'] by (by apply matching_desired).
  pose proof (mine_NodeID _ _ (Hwf _ _ Ho) Hm') as Hid.
  destruct (Hwf _ _ Ho) as (_ & Hvx & _ & Hnx). rewrite Hv' in Hvx. injection Hvx as Hvx.
  unfold ecr_key in Ho. rewrite Hnx, Hm, Hid, <- Hvx in Ho.
  rewrite new_revision_key in Hnew. congruence.
Qed.

(** The first run stores the revision. *)
Lemma config_creates now w ck ec :
  config_is ck ec → (∀ ec e, ∃ e', SetControllerReference ec e = inr e') → wf_cluster (objs w) →
  objs w !! ecr_key (new_revision ec) = None →
  ∃ res w' e, EnvoyConfigReconciler_Reconcile Hash now w ck = (res, w') ∧
    objs w' = <[ecr_key (new_revision ec) := e]> (objs w) ∧ created (new_revision ec) e.
Proof.
  intros Hec Href Hwf Hnew. destruct (Hec w) as [st Em].
  unfold EnvoyConfigReconciler_Reconcile. rewrite Em.
  unfold Reconcile. rewrite DesiredVersion_eq.
  destruct (Get_new ec w Hwf Hnew) as (err & Eg & Enm). unfold of_config in Eg.
  match type of Eg with ?g = _ =>
    match goal with |- context [Get w ?n ?fs] => change (Get w n fs) with g end
  end.
  rewrite Eg, Enm.
  edestruct Href as [e1 Er]. rewrite Er. apply set_reference_ok in Er as (Ek & El & Es & Ef).
  change (ecr_key e1 = ecr_key (new_revision ec)) in Ek.
  destruct (create_total w e1) as [w1 Ec]; [by rewrite Ek|]. rewrite Ec.
  apply create_ok in Ec as (_ & e & (Ek' & El' & Es' & Est & Ed & Ef') & Ew). rewrite Ek in Ew.
  eexists _, w1, e. split; [done|]. split; [done|].
  repeat split; [by rewrite Ek'|by rewrite El', El|by rewrite Es', Es|done..|by rewrite Ef', Ef].
Qed.

Lemma last_untainted sorted e :
  last sorted = Some e → is_tainted_condition e = false →
  first_untainted (rev sorted) = ecr_Version e ∧ e ∈ drop (length sorted - maxRevisions) sorted.
Proof.
  intros [l ->]%last_Some Ht. split.
  - rewrite rev_unit. simpl. by rewrite Ht.
  - rewrite drop_app_le; [set_solver|]. rewrite length_app. unfold maxRevisions. simpl. lia.
Qed.

(** The revision as the API server stores it, with its finalizer. *)
Lemma initialized_ready ec e o :
  created (new_revision ec) e → ecr_key o = ecr_key e → ecr_Labels o = ecr_Labels e →
  ecr_Spec o = ecr_Spec e → ecr_Status o = ecr_Status e → om_DeletionTimestamp (ecr_Meta o) = None →
  EnvoyConfigRevisionFinalizer ∈ om_Finalizers (ecr_Meta o) →
  ready o o ∧ is_tainted_condition o = false ∧ mine (of_config ec) o ∧ wf_revision o ∧
  ecr_Version o = desired Hash (of_config ec) ∧ resources o = default [] (ecs_Resources (ec_Spec ec)).
Proof.
  intros (Ek & El & Es & Est & _) Ek' El' Es' Est' Hd Hf.
  rewrite Ek in Ek'. rewrite El in El'. rewrite Es in Es'. rewrite Est in Est'.
  destruct (new_revision_wf Hash (of_config ec) o Ek' El' Es') as (Hm & Hwf & Hv & Hres).
  split; [|split; [|do 3 (split; [done|]); by unfold resources; rewrite Hres]].
  - split; [done|]. split; [|split; [done|]].
    + unfold EnvoyConfigRevision_Default. by rewrite Es'.
    + unfold convert_revision_resources. by rewrite Es'.
  - unfold is_tainted_condition, ecr_Conditions. rewrite Est'. apply is_true_find_none, find_nil.
Qed.

(** C3: a new configuration reaches its node.  For an EnvoyConfig whose
    resources load and whose version has not been seen: a run of the EnvoyConfig
    controller stores the revision, a run of the revision controller gives it
    its finalizer, a second run of the first publishes it, and a second run of
    the other has the xDS server serve the node the resources of the
    EnvoyConfig. *)
Theorem deploy now w xc g ck ec :
  config_is ck ec → (∀ ec e, ∃ e', SetControllerReference ec e = inr e') →
  wf_cluster (objs w) → cache_ok xc → objs w !! ecr_key (new_revision ec) = None →
  let k := ecr_key (new_revision ec) in let rs := default [] (ecs_Resources (ec_Spec ec)) in
  (∀ w, ∃ snap, GenerateSnapshot w k rs = Ok snap) →
  ∃ res1 w1 res2 w2 res3 w3 res4 w4 xc' g' e snap,
    EnvoyConfigReconciler_Reconcile Hash now w ck = (res1, w1) ∧
    EnvoyConfigRevision_Reconcile now w1 xc g k = (res2, w2, xc, g) ∧
    EnvoyConfigReconciler_Reconcile Hash now w2 ck = (res3, w3) ∧
    EnvoyConfigRevision_Reconcile now w3 xc g k = (res4, w4, xc', g') ∧
    objs w3 !! k = Some e ∧ ecr_Version e = desired Hash (of_config ec) ∧
    is_published_condition e = true ∧
    GenerateSnapshot w3 k rs = Ok snap ∧ serves xc' (ecs_NodeID (ec_Spec ec)) snap.
Proof.
  intros Hec Href Hwf Hok Hnew k rs Hload.
  destruct (config_creates now w ck ec Hec Href Hwf Hnew) as (res1 & w1 & e & E1 & Ew1 & Hc).
  pose proof Hc as (Ek & _ & Es & _ & Hd & Hfin). fold k in Ek, Ew1.
  assert (EnvoyConfigRevision_Default e = e) as Hdef
    by (unfold EnvoyConfigRevision_Default; by rewrite Es).
  destruct (initialize_total w1 k EnvoyConfigRevision_Default convert_revision_resources
              EnvoyConfigRevisionFinalizer e) as (res2 & w2 & o & E2 & Ew2 & Ho);
    [by rewrite Ew1, lookup_insert_eq|done|right; rewrite Hfin; set_solver|].
  rewrite Hdef in Ho. destruct Ho as (Hok' & Hol & Hos & Host & Hod & Hof).
  destruct (initialized_ready ec e o Hc) as (Hr & Ht & Hm & Hwo & Hv & Hres); [done..|].
  rewrite Ek in Hok'. rewrite Ew1, insert_insert_eq in Ew2.
  assert (wf_cluster (objs w2)) as Hwf2 by (rewrite Ew2; by apply map_Forall_insert_2).
  assert (stored (of_config ec) w2 o) as Hst2
    by (split; [by rewrite Hok', Ew2, lookup_insert_eq|done]).
  destruct (config_publishes now w2 ck ec o Hec Hwf2 Hst2 Hv)
    as (res3 & w3 & sorted & pv & E3 & Hlast & _ & _ & _ & -> & Hup).
  destruct (last_untainted _ _ Hlast Ht) as [Ef Hkept]. rewrite Ef in Hup.
  specialize (Hup _ Hkept). rewrite Hok' in Hup.
  assert (is_published_condition (with_published now (ecr_Version o) o) = true) as Hp
    by (rewrite with_published_condition; by apply bool_decide_eq_true).
  destruct (with_published_status now (ecr_Version o) o) as [cs Ecs]. rewrite Ecs in *.
  destruct (Hload w3) as [snap Hg].
  destruct (revision_serves now w3 xc g k _ _ snap Hup
              (ready_status _ _ (set_ecrst_conditions (ecr_Status o) cs) Hr) Hp Hok)
    as (res4 & w4 & xc' & g' & E4 & Hserve); [unfold rs in Hg; by rewrite <- Hres in Hg|].
  exists res1, w1, res2, w2, res3, w3, res4, w4, xc', g'. eexists. exists snap.
  split; [done|]. split; [|split; [done|split; [exact E4|split; [exact Hup|]]]].
  - unfold EnvoyConfigRevision_Reconcile. by rewrite E2.
  - do 3 (split; [done|]). 
    rewrite <- (mine_NodeID (of_config ec) o Hwo Hm : _ = ecs_NodeID (ec_Spec ec)). exact Hserve.
Qed.
End Flow.
