(* ===== verification/ControlPlaneRuns.v ===== *)
(** * The control plane on a cluster in memory

    An API server that keeps the revisions in a map and answers every call,
    with the laws it meets, and the theorems of the control plane applied to
    runs on it. *)

From S2P Require Import Prelude Meta Envoy Api GoSort Cluster Revisions RevisionReconciler.
From S2P Require Import RevisionTheorems ConfigStatus Stats Snapshot Discover CacheReconciler.
From S2P Require Import RevisionController Callbacks ControlPlane Rollout.
#[local] Open Scope string_scope.
#[local] Open Scope list_scope.

(** ** A server in memory *)

#[global] Instance EnvoyResource_eq_dec : EqDecision EnvoyResource.
Proof. solve_decision. Defined.
#[global] Instance EnvoySecretResource_eq_dec : EqDecision EnvoySecretResource.
Proof. solve_decision. Defined.
#[global] Instance EnvoyResources_eq_dec : EqDecision EnvoyResources.
Proof. solve_decision. Defined.
#[global] Instance EnvoyConfigRevisionSpec_eq_dec : EqDecision EnvoyConfigRevisionSpec.
Proof. solve_decision. Defined.
#[global] Instance EnvoyConfigRevisionStatus_eq_dec : EqDecision EnvoyConfigRevisionStatus.
Proof. solve_decision. Defined.
#[global] Instance EnvoyConfigRevision_eq_dec : EqDecision EnvoyConfigRevision.
Proof. solve_decision. Defined.

Definition set_finalizers (e : EnvoyConfigRevision) (fs : list string) : EnvoyConfigRevision :=
  let m := ecr_Meta e in
  set_ecr_meta e
    (mkMeta (om_Name m) (om_Namespace m) (om_Labels m) (om_UID m)
       (om_CreationTimestamp m) (om_DeletionTimestamp m) fs).

Definition set_spec (e : EnvoyConfigRevision) (sp : EnvoyConfigRevisionSpec) : EnvoyConfigRevision :=
  mkEnvoyConfigRevision (ecr_APIVersion e) (ecr_Kind e) (ecr_Meta e) sp (ecr_Status e).

Definition mem_put (m : Memory) (k : NamespacedName) (e : EnvoyConfigRevision) : Memory :=
  mkMemory (<[k := e]> (mem_objs m)) (mem_now m + Second)%Z.

Definition mem_lifecycle (m : Memory) (req : NamespacedName)
    (d : EnvoyConfigRevision → EnvoyConfigRevision)
    (i : EnvoyConfigRevision → error + EnvoyConfigRevision) (f : string) : lifecycle * Memory :=
  match mem_stored m !! req with
  | None => (LReturn (Ok emptyResult), m)
  | Some e =>
     let fs := om_Finalizers (ecr_Meta e) in
     match om_DeletionTimestamp (ecr_Meta e) with
     | Some _ =>
        if decide (f ∈ fs) then
          match filter (.≠ f) fs with
          | [] => (LFinalized (Ok emptyResult) e,
                   mkMemory (delete req (mem_objs m)) (mem_now m + Second)%Z)
          | fs' => (LFinalized (Ok emptyResult) e, mem_put m req (set_finalizers e fs'))
          end
        else (LReturn (Ok emptyResult), m)
     | None =>
        if decide (d e = e ∧ f ∈ fs) then
          match i e with
          | inl err => (LReturn (Err err), m)
          | inr e' => (LContinue e', m)
          end
        else
          (LReturn (Ok requeueResult),
           mem_put m req (set_finalizers (set_spec e (ecr_Spec (d e)))
                            (if decide (f ∈ fs) then fs else fs ++ [f])))
     end
  end.

Definition mem_patch (m : Memory) (old new : EnvoyConfigRevision)
    : (error + EnvoyConfigRevision) * Memory :=
  match mem_stored m !! ecr_key old with
  | None => (inl (NotFound (ecr_key old)), m)
  | Some e => (inr (set_ecr_status old (ecr_Status new)),
               mem_put m (ecr_key old) (set_ecr_status e (ecr_Status new)))
  end.

Definition memory_lifecycle : RevisionLifecycle Memory := {|
  ManageRevisionLifecycle := mem_lifecycle;
  Status_Patch := mem_patch;
|}.

Lemma memory_lifecycle_laws : RevisionLifecycleLaws memory_lifecycle.
Proof. constructor. intros w old new e w'. simpl. unfold mem_patch. case_match; naive_solver. Qed.

Lemma mem_put_stored m k e : ecr_key e = k → mem_stored (mem_put m k e) = <[k := e]> (mem_stored m).
Proof. apply mem_stored_insert. Qed.

Lemma mem_lifecycle_continue m req d i f ecr m' :
  mem_lifecycle m req d i f = (LContinue ecr, m') →
  m' = m ∧ ∃ e, mem_stored m !! req = Some e ∧ om_DeletionTimestamp (ecr_Meta e) = None ∧
    d e = e ∧ i e = inr ecr.
Proof.
  unfold mem_lifecycle. destruct (mem_stored m !! req) as [e|]; [|done].
  destruct (om_DeletionTimestamp _) eqn:Ed; [repeat case_match; done|].
  case_decide as Hd; [|done]. destruct (i e) eqn:Ei; [done|]. intros [= -> ->].
  split; [done|]. exists e. naive_solver.
Qed.

Lemma mem_lifecycle_return m req d i f l m' k e' :
  mem_lifecycle m req d i f = (l, m') → mem_stored m' !! k = Some e' →
  mem_stored m !! k = Some e' ∨
  k = req ∧ ∃ e, mem_stored m !! k = Some e ∧ ecr_Status e' = ecr_Status e ∧
    ecr_key e' = ecr_key e ∧ ecr_Labels e' = ecr_Labels e ∧
    (ecr_Spec e' = ecr_Spec e ∨ ecr_Spec e' = ecr_Spec (d e)).
Proof.
  assert (∀ e0 x, mem_stored m !! req = Some e0 → ecr_key x = ecr_key e0 →
    mem_stored (mem_put m req x) !! k = Some e' →
    (k = req ∧ e' = x) ∨ mem_stored m !! k = Some e') as Hput.
  { intros e0 x H0 Hx. rewrite mem_put_stored by (by rewrite Hx; eapply mem_stored_key).
    intros [[<- <-]|[_ ?]]%lookup_insert_Some; auto. }
  unfold mem_lifecycle. destruct (mem_stored m !! req) as [e|] eqn:He; [|by intros [= <- <-]; left].
  intros H Hk.
  assert (∀ x, m' = mem_put m req x → ecr_Status x = ecr_Status e → ecr_key x = ecr_key e →
    ecr_Labels x = ecr_Labels e → (ecr_Spec x = ecr_Spec e ∨ ecr_Spec x = ecr_Spec (d e)) →
    mem_stored m !! k = Some e' ∨ k = req ∧ ∃ e, mem_stored m !! k = Some e ∧
    ecr_Status e' = ecr_Status e ∧ ecr_key e' = ecr_key e ∧ ecr_Labels e' = ecr_Labels e ∧
    (ecr_Spec e' = ecr_Spec e ∨ ecr_Spec e' = ecr_Spec (d e))) as Hcase.
  { intros x -> ? Hx ??. destruct (Hput e x eq_refl Hx Hk) as [[-> ->]|?]; [|by left].
    right. split; [done|]. exists e. by rewrite He. }
  destruct (om_DeletionTimestamp _).
  - case_decide; [|by injection H as <- <-; left].
    destruct (filter _ _); injection H as <- <-; [|by eapply Hcase; auto].
    unfold mem_stored in Hk; simpl in Hk. rewrite map_filter_delete in Hk.
    apply lookup_delete_Some in Hk as [_ ?]. by left.
  - case_decide; [by destruct (i e); injection H as <- <-; left|].
    injection H as <- <-. eapply Hcase; [done..|by right].
Qed.

#[global] Instance memory_cluster_laws ec :
  ClusterLaws memory_client_laws (memory_config_client ec) memory_lifecycle.
Proof.
  split; simpl.
  - intros w req d i r w' H. by case_match; simplify_eq/=.
  - by intros w e r w' [= _ <-].
  - intros w req d i f e w' H. by apply mem_lifecycle_continue in H as [-> ?].
  - intros w req d i f l w' k e'. apply mem_lifecycle_return.
  - intros w old new e w'. unfold mem_patch.
    destruct (mem_stored w !! ecr_key old) as [o|] eqn:E; [|done]. intros [= <- <-].
    exists o. split; [done|]. split; [|done]. apply mem_put_stored.
    by apply mem_stored_key in E.
  - intros w old new err w'. unfold mem_patch. case_match; naive_solver.
Qed.

#[global] Instance memory_store_laws : SnapshotStoreLaws memory_snapshot_cache_laws.
Proof. by constructor. Qed.

#[global] Instance memory_reliable_cache : ReliableCache memory_snapshot_cache.
Proof. constructor. simpl. eauto. Qed.

#[global] Instance memory_reliable : ReliableCluster memory_client_laws memory_lifecycle.
Proof.
  split; simpl.
  - eauto.
  - intros w e. unfold mem_create. intros ->. eauto.
  - intros w e [o Ho]. unfold mem_status_update. rewrite Ho. eauto.
  - intros w e [o Ho]. unfold mem_delete. rewrite Ho. case_match; eauto.
  - intros w req d i f e He Hd Hn. unfold mem_lifecycle. rewrite He, Hd.
    rewrite decide_False by naive_solver. eexists _, _, _. split; [done|].
    rewrite mem_put_stored by (by apply mem_stored_key in He). split; [done|].
    repeat split; [done|]. simpl. case_decide; set_solver.
  - intros w req d i f e e' He Hd Hde Hf Hi. unfold mem_lifecycle.
    by rewrite He, Hd, decide_True, Hi by done.
Qed.

(** ** Runs *)

Module RolloutRuns.
#[local] Existing Instance identity_codecs.
#[local] Existing Instance memory_snapshot_lib.
#[local] Existing Instance memory_snapshot_cache.
#[local] Existing Instance memory_cache_impl.
#[local] Existing Instance conditions_impl.
#[local] Existing Instance owner_impl.
#[local] Existing Instance memory_client.
#[local] Existing Instance memory_lifecycle.

Definition no_secrets : SecretClient Memory := {| Get_secret _ k := inl (NotFound k) |}.
Definition no_endpoints : DiscoverClient Memory := {|
  LabelSelectorAsSelector _ := inr (mkSelector (λ _, true) "");
  List_endpointslices _ _ _ := inr [];
  ParseIP s := Some s;
|}.
#[local] Existing Instance no_secrets.
#[local] Existing Instance no_endpoints.

(** A configuration with one cluster, whose version is "r3". *)
Definition config : EnvoyConfig :=
  mkEnvoyConfig (mkMeta "config" "ns" ∅ "" 0%Z None [])
    (mkEnvoyConfigSpec "node" (Some JSON) (Some APIv3) None (Some RevisionRuns.one_cluster))
    (mkEnvoyConfigStatus None None None None None).
Definition config_key : NamespacedName := mkKey "ns" "config".
Definition hash (_ : option (list Resource)) : string := "r3".
#[local] Instance config_client : ConfigClient Memory := memory_config_client config.

Lemma config_read : config_is config_key config.
Proof. intros w. exists (ec_Status config). reflexivity. Qed.

(** A stored revision of the node that has the resources of the configuration. *)
Definition rev (version : string) (t : Time) (published : bool) : EnvoyConfigRevision :=
  set_spec (Runs.revision "node" version t false published)
    (mkEnvoyConfigRevisionSpec "node" version (Some APIv3) None None (Some RevisionRuns.one_cluster)).

Lemma one_cluster_loads (w : Memory) k :
  ∃ snap, GenerateSnapshot w k RevisionRuns.one_cluster = Ok snap.
Proof. eexists. vm_compute. reflexivity. Qed.

Definition bad : EnvoyConfigRevision := rev "r3" 3%Z true.
Definition three : Memory := Runs.cluster [rev "r1" 1%Z false; rev "r2" 2%Z false; bad].

(** Every pod of the node rejects the cluster. *)
Definition rejecting : memory_cache :=
  StatsRuns.play cache_New
    (RequestReceived "node" (TypeURL Cluster APIv3) "pod-a" ::
     concat ((λ n, [ResponseSent "node" (TypeURL Cluster APIv3) "#{}={}" "pod-a" n;
                    NackReceived "node" (TypeURL Cluster APIv3) "pod-a" n])
             <$> ["1"; "2"; "3"; "4"; "5"])).

Lemma rejecting_is_reachable : reachable rejecting StatsRuns.ms.
Proof.
  apply StatsRuns.play_reachable; [apply reachable_New|].
  apply (bool_decide_unpack _). vm_compute. exact I.
Qed.

Lemma rejecting_separated : node_separated rejecting StatsRuns.ms "node".
Proof.
  split; [discriminate|apply (bool_decide_unpack _); vm_compute; exact I|].
  intros t v Ht. apply StatsRuns.separated_check.
  revert t Ht. apply Forall_forall. apply (bool_decide_unpack _). vm_compute. exact I.
Qed.

Lemma bad_rejected snap :
  GenerateSnapshot three (ecr_key bad) RevisionRuns.one_cluster = Ok snap →
  rejects rejecting StatsRuns.ms bad snap.
Proof.
  intros H.
  assert (versionTracker snap = mkVersionTracker "" "#{}={}" "" "" "" "" "" "") as Hv.
  { vm_compute in H. injection H as <-. vm_compute. reflexivity. }
  unfold rejects. rewrite Hv.
  destruct (any_failing_spec bad rejecting StatsRuns.ms
              (tracked_versions (mkVersionTracker "" "#{}={}" "" "" "" "" "" ""))
              rejecting_is_reachable rejecting_separated (tracked_types _)) as (b & Eb & Hb).
  vm_compute in Eb. injection Eb as <-. by apply Hb.
Qed.

Lemma three_stored e :
  stored (of_config config) three e → e = rev "r1" 1%Z false ∨ e = rev "r2" 2%Z false ∨ e = bad.
Proof.
  intros [Ho _]. simpl in Ho. unfold mem_stored in Ho. apply map_lookup_filter_Some in Ho as [Ho _].
  simpl in Ho. rewrite !lookup_insert_Some in Ho. naive_solver.
Qed.

Lemma rev_ready v t p : ready (rev v t p) (rev v t p).
Proof. repeat split. simpl. set_solver. Qed.

Lemma rollback_witness :
  ∃ w2 xc1 good snap' res3 w3 xc3 g3,
    ecr_Version good = "r2" ∧
    EnvoyConfigRevision_Reconcile StatsRuns.ms w2 xc1 rejecting (ecr_key good)
      = (res3, w3, xc3, g3) ∧
    serves xc3 "node" snap'.
Proof.
  destruct (one_cluster_loads three (ecr_key bad)) as [snap Hsnap].
  assert (stored (of_config config) three bad) as Hbad
    by (split; [reflexivity|apply (bool_decide_unpack _); vm_compute; exact I]).
  assert (stored (of_config config) three (rev "r2" 2%Z false)) as H2
    by (split; [reflexivity|apply (bool_decide_unpack _); vm_compute; exact I]).
  destruct (rollback hash StatsRuns.ms three ∅ rejecting config_key config bad bad snap)
    as (res1 & w1 & xc1 & res2 & w2 & good & good' & egood & snap' & res3 & w3 & xc3 & g3 &
        _ & _ & Hsg & Hgb & _ & Hmax & _ & _ & _ & _ & E3 & Hs).
  - apply config_read.
  - apply (bool_decide_unpack _). vm_compute. exact I.
  - intros n s Hn. discriminate Hn.
  - vm_compute. lia.
  - exact Hbad.
  - reflexivity.
  - apply rev_ready.
  - vm_compute. reflexivity.
  - vm_compute. reflexivity.
  - exact Hsnap.
  - apply rejecting_is_reachable.
  - apply rejecting_separated.
  - by apply bad_rejected.
  - exists (rev "r2" 2%Z false). split; [exact H2|]. split; [discriminate|]. vm_compute. reflexivity.
  - intros e He _ _. exists e.
    destruct (three_stored e He) as [->|[->| ->]];
      (split; [apply rev_ready|intros w; apply one_cluster_loads]).
  - exists w2, xc1, good, snap', res3, w3, xc3, g3. split; [|split; [exact E3|exact Hs]].
    specialize (Hmax _ H2). destruct (three_stored good Hsg) as [->|[->| ->]]; [|reflexivity|done].
    exfalso. assert (publication_time (rev "r2" 2 false) ≤ publication_time (rev "r1" 1 false))%Z;
      [|vm_compute in H; by destruct H].
    apply Hmax; [discriminate|vm_compute; reflexivity].
Defined.

Definition old_only : Memory := Runs.cluster [rev "r1" 1%Z true].

Lemma deploy_witness :
  ∃ w3 e snap res4 w4 xc' g',
    objs w3 !! mkKey "ns" "node-v3-r3" = Some e ∧ is_published_condition e = true ∧
    EnvoyConfigRevision_Reconcile StatsRuns.ms w3 ∅ rejecting (mkKey "ns" "node-v3-r3")
      = (res4, w4, xc', g') ∧
    serves xc' "node" snap.
Proof.
  destruct (deploy hash StatsRuns.ms old_only ∅ rejecting config_key config)
    as (res1 & w1 & res2 & w2 & res3 & w3 & res4 & w4 & xc' & g' & e & snap &
        _ & _ & _ & E4 & Ho & _ & Hp & _ & Hs).
  - apply config_read.
  - intros ec e. exists e. reflexivity.
  - apply (bool_decide_unpack _). vm_compute. exact I.
  - intros n s Hn. discriminate Hn.
  - vm_compute. reflexivity.
  - intros w. apply one_cluster_loads.
  - exists w3, e, snap, res4, w4, xc', g'. split; [exact Ho|]. split; [exact Hp|].
    split; [exact E4|exact Hs].
Defined.

(** The configuration controller publishes the desired revision, then the
    revision controller serves it. *)
Definition two : Memory := Runs.cluster [rev "r2" 2%Z true; rev "r3" 3%Z false].
Definition start : System := mkSystem two (∅ : gmap string Snapshot) rejecting StatsRuns.ms.
Definition published_now : System :=
  mkSystem (snd (EnvoyConfigReconciler_Reconcile hash StatsRuns.ms two config_key))
    (∅ : gmap string Snapshot) rejecting StatsRuns.ms.
Definition served_now : System :=
  match EnvoyConfigRevision_Reconcile StatsRuns.ms (sys_cluster published_now)
          (∅ : gmap string Snapshot) rejecting (mkKey "ns" "node-v3-r3") with
  | (_, w, xc, g) => mkSystem w xc g StatsRuns.ms
  end.

Lemma two_steps : rtc (sys_step hash (λ n, 0%Z)) start served_now.
Proof.
  apply (rtc_l _ _ published_now); [|eapply rtc_l; [|apply rtc_refl]].
  - apply (run_config (XC := gmap string Snapshot) hash _ _ _ _ _ config_key
             (fst (EnvoyConfigReconciler_Reconcile hash StatsRuns.ms two config_key))).
    apply surjective_pairing.
  - unfold served_now.
    destruct (EnvoyConfigRevision_Reconcile _ _ _ _ _) as [[[res w] xc] g] eqn:E.
    eapply run_revision. exact E.
Qed.

Lemma two_ok : revisions_ok (objs two).
Proof.
  split; [apply (bool_decide_unpack _); vm_compute; exact I|].
  assert (map_Forall (λ k e, is_published_condition e = true → k = mkKey "ns" "node-v3-r2") (objs two))
    as H by (apply (bool_decide_unpack _); vm_compute; exact I).
  intros k1 e1 k2 e2 H1 H2 _ _ Hp1 Hp2. by rewrite (H _ _ H1 Hp1), (H _ _ H2 Hp2).
Qed.

End RolloutRuns.
