(* ===== verification/OperatorTypes.v ===== *)
(** * The types of the operator group
    ([apis/operator.marin3r/v1alpha1], [pkg/envoy/container/defaults], [pkg/image])

    EnvoyDeployment, DiscoveryService and DiscoveryServiceCertificate objects
    with their accessors, which fill in what the user leaves out, and the
    validating webhook of EnvoyDeployment.

    Structures of the Kubernetes API that the program only passes on are kept
    as their serialised text ([Opaque]); a [resource.Quantity] is kept as the
    text it was parsed from. *)

From S2P Require Import Prelude Meta Envoy Api.
#[local] Open Scope string_scope.
#[local] Open Scope list_scope.

(** ** Kubernetes data *)

Definition Opaque := string.

Inductive IntOrString := IntVal (n : Z) | StrVal (s : string).

Record ResourceRequirements := mkResourceRequirements {
  rr_Requests : option (gmap string string);
  rr_Limits : option (gmap string string);
}.
#[global] Instance ResourceRequirements_eq_dec : EqDecision ResourceRequirements.
Proof. solve_decision. Defined.
Definition noResources : ResourceRequirements := mkResourceRequirements None None.

Definition Minute : Z := (60 * Second)%Z.
Definition Hour : Z := (60 * Minute)%Z.

(** ** [pkg/image] *)

(** The environment of the process. *)
Class Environment := { MARIN3R_IMAGE : option string }.

Definition image : string := "quay.io/3scale/marin3r:v0.13.1".

Definition image_Current {E : Environment} : string :=
  match MARIN3R_IMAGE with
  | Some imageOverride => if decide (image ≠ "") then imageOverride else image
  | None => image
  end.

(** ** [defaults.go] *)

Module defaults.
Definition DrainStrategyGradual : string := "gradual".
Definition DrainStrategyImmediate : string := "immediate".
Definition EnvoyRelease : string := "v1.29.0".
Definition ImageRepo : string := "envoyproxy/envoy".
Definition Image : string := ImageRepo +:+ ":" +:+ EnvoyRelease.
Definition EnvoyConfigBasePath : string := "/etc/envoy/bootstrap".
Definition EnvoyConfigFileName : string := "config.json".
Definition EnvoyExtraArgs : string := "".
Definition EnvoyTLSBasePath : string := "/etc/envoy/tls/client".
Definition EnvoyAPIVersion : string := "v3".
Definition EnvoyAdminPort : Z := 9901%Z.
Definition EnvoyAdminBindAddress : string := "0.0.0.0".
Definition EnvoyAdminAccessLogPath : string := "/dev/null".
Definition GracefulShutdownTimeoutSeconds : Z := 300%Z.
Definition GracefulShutdownStrategy : string := DrainStrategyGradual.
Definition SidecarContainerName : string := "envoy-sidecar".
Definition SidecarConfigVolume : string := "envoy-sidecar-bootstrap".
Definition SidecarTLSVolume : string := "envoy-sidecar-tls".
Definition SidecarClientCertificate : string := "envoy-sidecar-client-cert".
Definition DeploymentContainerName : string := "envoy".
Definition DeploymentConfigVolume : string := "envoy-bootstrap".
Definition DeploymentTLSVolume : string := "envoy-tls".
Definition DeploymentClientCertificate : string := "envoy-client-cert".
Definition InitMgrRtdsLayerResourceName : string := "runtime".
Definition ShtdnMgrDefaultServerPort : Z := 8090%Z.
Definition ShtdnMgrDefaultReadyFile : string := "/tmp/shutdown-ok".
Definition ShtdnMgrDefaultReadyCheckInterval : Z := 1%Z.
Definition ShtdnMgrDefaultDrainCheckInterval : Z := 5%Z.
Definition ShtdnMgrDefaultStartDrainDelay : Z := 0%Z.
Definition ShtdnMgrDefaultCheckDrainDelay : Z := 15%Z.
Definition ShtdnMgrDefaultMinOpenConnections : Z := 0%Z.
Definition ShtdnMgrDefaultMemoryRequests : string := "25Mi".
Definition ShtdnMgrDefaultMemoryLimits : string := "50Mi".
Definition ShtdnMgrDefaultCPURequests : string := "5m".
Definition ShtdnMgrDefaultCPULimits : string := "50m".
Definition ShtdnMgrImage {E : Environment} : string := image_Current.
Definition InitMgrImage {E : Environment} : string := image_Current.
End defaults.

(** ** [envoydeployment_types.go] *)

Record ProbeSpec := mkProbeSpec {
  ps_InitialDelaySeconds : Z;
  ps_TimeoutSeconds : Z;
  ps_PeriodSeconds : Z;
  ps_SuccessThreshold : Z;
  ps_FailureThreshold : Z;
}.

Definition defaultLivenessProbe : ProbeSpec := mkProbeSpec 30 1 10 1 10.
Definition defaultReadinessProbe : ProbeSpec := mkProbeSpec 15 1 5 1 1.

Record DynamicReplicasSpec := mkDynamicReplicasSpec {
  drs_MinReplicas : option Z;
  drs_MaxReplicas : Z;
  drs_Metrics : list Opaque;
  drs_Behavior : option Opaque;
}.

Record ReplicasSpec := mkReplicasSpec {
  rsp_Static : option Z;
  rsp_Dynamic : option DynamicReplicasSpec;
}.

Definition ReplicasSpec_Validate (rs : ReplicasSpec) : result unit :=
  match rsp_Static rs, rsp_Dynamic rs with
  | Some _, Some _ => Err (ErrorString
      "only one of 'spec.replicas.static' or 'spec.replicas.dynamic' is allowed")
  | _, _ => Ok tt
  end.

Record DeploymentPort := mkDeploymentPort {
  dp_Name : string;
  dp_Port : Z;
  dp_Protocol : option string;
}.

Record PodDisruptionBudgetSpec := mkPodDisruptionBudgetSpec {
  pdb_MinAvailable : option IntOrString;
  pdb_MaxUnavailable : option IntOrString;
}.
Definition defaultPodDisruptionBudget : PodDisruptionBudgetSpec :=
  mkPodDisruptionBudgetSpec None None.

Definition PodDisruptionBudgetSpec_Validate (pdbs : PodDisruptionBudgetSpec) : result unit :=
  match pdb_MinAvailable pdbs, pdb_MaxUnavailable pdbs with
  | Some _, Some _ => Err (ErrorString
      "only one of 'spec.podDisruptionBudget.minAvailable' or 'spec.podDisruptionBudget.maxUnavailable' is allowed")
  | _, _ => Ok tt
  end.

Record ShutdownManager := mkShutdownManager {
  sm_Image : option string;
  sm_ServerPort : option Z;
  sm_DrainTime : option Z;
  sm_DrainStrategy : option string;
}.

Definition GetDrainTime (sm : ShutdownManager) : Z :=
  default defaults.GracefulShutdownTimeoutSeconds (sm_DrainTime sm).
Definition GetDrainStrategy (sm : ShutdownManager) : string :=
  default defaults.GracefulShutdownStrategy (sm_DrainStrategy sm).
Definition ShutdownManager_GetImage {E : Environment} (sm : ShutdownManager) : string :=
  default defaults.ShtdnMgrImage (sm_Image sm).
Definition GetServer (sm : ShutdownManager) : Z :=
  default defaults.ShtdnMgrDefaultServerPort (sm_ServerPort sm).

Record InitManager := mkInitManager { im_Image : option string }.
Definition InitManager_GetImage {E : Environment} (im : InitManager) : string :=
  default defaults.InitMgrImage (im_Image im).

Record EnvoyDeploymentSpec := mkEnvoyDeploymentSpec {
  eds_EnvoyConfigRef : string;
  eds_DiscoveryServiceRef : string;
  eds_ClusterID : option string;
  eds_Ports : list DeploymentPort;
  eds_Image : option string;
  eds_Resources : option ResourceRequirements;
  eds_ClientCertificateDuration : option Z;
  eds_ExtraArgs : list string;
  eds_AdminPort : option Z;
  eds_AdminAccessLogPath : option string;
  eds_Replicas : option ReplicasSpec;
  eds_LivenessProbe : option ProbeSpec;
  eds_ReadinessProbe : option ProbeSpec;
  eds_Affinity : option Opaque;
  eds_PodDisruptionBudget : option PodDisruptionBudgetSpec;
  eds_ShutdownManager : option ShutdownManager;
  eds_InitManager : option InitManager;
}.

Record EnvoyDeployment := mkEnvoyDeployment {
  ed_Meta : ObjectMeta;
  ed_Spec : EnvoyDeploymentSpec;
  ed_DeploymentName : option string;
}.

Definition ClientCertificateDefaultDuration : Z := (48 * Hour)%Z.
Definition DefaultReplicas : Z := 1%Z.

Section EnvoyDeploymentAccessors.
Variable ed : EnvoyDeployment.

Definition ed_Image : string := default defaults.Image (eds_Image (ed_Spec ed)).
Definition ed_Resources : ResourceRequirements := default noResources (eds_Resources (ed_Spec ed)).
Definition ed_ClientCertificateDuration : Z :=
  default ClientCertificateDefaultDuration (eds_ClientCertificateDuration (ed_Spec ed)).
Definition ed_AdminPort : Z := default defaults.EnvoyAdminPort (eds_AdminPort (ed_Spec ed)).
Definition ed_AdminAccessLogPath : string :=
  default defaults.EnvoyAdminAccessLogPath (eds_AdminAccessLogPath (ed_Spec ed)).
Definition ed_Replicas : ReplicasSpec :=
  match eds_Replicas (ed_Spec ed) with
  | None => mkReplicasSpec (Some DefaultReplicas) None
  | Some rs =>
     match rsp_Static rs with
     | Some n => mkReplicasSpec (Some n) None
     | None => mkReplicasSpec None (rsp_Dynamic rs)
     end
  end.
Definition ed_LivenessProbe : ProbeSpec :=
  default defaultLivenessProbe (eds_LivenessProbe (ed_Spec ed)).
Definition ed_ReadinessProbe : ProbeSpec :=
  default defaultReadinessProbe (eds_ReadinessProbe (ed_Spec ed)).
Definition ed_PodDisruptionBudget : PodDisruptionBudgetSpec :=
  default defaultPodDisruptionBudget (eds_PodDisruptionBudget (ed_Spec ed)).

(** [envoydeployment_webhook.go]. *)
Definition EnvoyDeployment_Validate : result unit :=
  _ ← match eds_Replicas (ed_Spec ed) with
      | Some rs => ReplicasSpec_Validate rs | None => Ok tt end;
  match eds_PodDisruptionBudget (ed_Spec ed) with
  | Some pdbs => PodDisruptionBudgetSpec_Validate pdbs | None => Ok tt end.
End EnvoyDeploymentAccessors.

(** What the webhook answers to the creation, a change and the deletion. *)
Definition EnvoyDeployment_ValidateCreate (r : EnvoyDeployment) : result unit := EnvoyDeployment_Validate r.
Definition EnvoyDeployment_ValidateUpdate (r old : EnvoyDeployment) : result unit := EnvoyDeployment_Validate r.
Definition EnvoyDeployment_ValidateDelete (r : EnvoyDeployment) : result unit := Ok tt.

(** It refuses, on creation and on change, the two kinds of replicas together and
    the two bounds of the disruption budget together, and nothing else. *)
Lemma EnvoyDeployment_webhook r old :
  (EnvoyDeployment_ValidateCreate r = Ok tt ↔
   (∀ rs, eds_Replicas (ed_Spec r) = Some rs → rsp_Static rs = None ∨ rsp_Dynamic rs = None) ∧
   (∀ b, eds_PodDisruptionBudget (ed_Spec r) = Some b → pdb_MinAvailable b = None ∨ pdb_MaxUnavailable b = None)) ∧
  EnvoyDeployment_ValidateUpdate r old = EnvoyDeployment_ValidateCreate r ∧
  EnvoyDeployment_ValidateDelete r = Ok tt.
Proof.
  split; [|done]. unfold EnvoyDeployment_ValidateCreate, EnvoyDeployment_Validate.
  destruct (eds_Replicas (ed_Spec r)) as [[[st|] [dy|]]|]; simpl.
  { split; [done|]. intros [H _]. by destruct (H _ eq_refl). }
  all: destruct (eds_PodDisruptionBudget (ed_Spec r)) as [[[mi|] [ma|]]|]; simpl.
  all: split; [|try done; intros [_ H]; by destruct (H _ eq_refl)].
  all: try done; intros _; split; intros ? [= <-]; simpl; auto.
Qed.

(** ** [discoveryservice_types.go] *)

Inductive ServiceType := ClusterIPType | LoadBalancerType | HeadlessType | OtherServiceType (s : string).

Record CertificateOptions := mkCertificateOptions { co_SecretName : string; co_Duration : Z }.

Record PKIConfig := mkPKIConfig {
  pki_RootCertificateAuthority : option CertificateOptions;
  pki_ServerCertificate : option CertificateOptions;
}.

Record ServiceConfig := mkServiceConfig { sc_Name : string; sc_Type : ServiceType }.

Record DiscoveryServiceSpec := mkDiscoveryServiceSpec {
  dss_Image : option string;
  dss_Debug : option bool;
  dss_Resources : option ResourceRequirements;
  dss_PKIConfig : option PKIConfig;
  dss_XdsServerPort : option Z;
  dss_MetricsPort : option Z;
  dss_ProbePort : option Z;
  dss_ServiceConfig : option ServiceConfig;
  dss_PodPriorityClass : option string;
}.

Record DiscoveryService := mkDiscoveryService {
  ds_Meta : ObjectMeta;
  ds_Spec : DiscoveryServiceSpec;
  ds_DeploymentName : option string;
}.

Definition DefaultMetricsPort : Z := 8383%Z.
Definition DefaultProbePort : Z := 8384%Z.
Definition DefaultXdsServerPort : Z := 18000%Z.
Definition DefaultRootCertificateDuration : Z := (26280 * Hour)%Z.
Definition DefaultRootCertificateSecretNamePrefix : string := "marin3r-ca-cert".
Definition DefaultServerCertificateDuration : Z := (2160 * Hour)%Z.
Definition DefaultServerCertificateSecretNamePrefix : string := "marin3r-server-cert".

Section DiscoveryServiceAccessors.
Variable d : DiscoveryService.

Definition ds_Name : string := om_Name (ds_Meta d).
Definition ds_Resources : ResourceRequirements := default noResources (dss_Resources (ds_Spec d)).
Definition ds_GetImage {E : Environment} : string := default image_Current (dss_Image (ds_Spec d)).
Definition ds_Debug : bool := default false (dss_Debug (ds_Spec d)).
Definition defaultRootCertificateAuthorityOptions : CertificateOptions :=
  mkCertificateOptions (DefaultRootCertificateSecretNamePrefix +:+ "-" +:+ ds_Name)
    DefaultRootCertificateDuration.
Definition GetRootCertificateAuthorityOptions : CertificateOptions :=
  match dss_PKIConfig (ds_Spec d) with
  | Some (mkPKIConfig (Some o) _) => o
  | _ => defaultRootCertificateAuthorityOptions
  end.
Definition defaultServerCertificateOptions : CertificateOptions :=
  mkCertificateOptions (DefaultServerCertificateSecretNamePrefix +:+ "-" +:+ ds_Name)
    DefaultServerCertificateDuration.
Definition GetServerCertificateOptions : CertificateOptions :=
  match dss_PKIConfig (ds_Spec d) with
  | Some (mkPKIConfig _ (Some o)) => o
  | _ => defaultServerCertificateOptions
  end.
Definition GetXdsServerPort : Z := default DefaultXdsServerPort (dss_XdsServerPort (ds_Spec d)).
Definition GetMetricsPort : Z := default DefaultMetricsPort (dss_MetricsPort (ds_Spec d)).
Definition GetProbePort : Z := default DefaultProbePort (dss_ProbePort (ds_Spec d)).
Definition OwnedObjectName : string := "marin3r-" +:+ ds_Name.
Definition defaultServiceConfig : ServiceConfig := mkServiceConfig OwnedObjectName ClusterIPType.
Definition GetServiceConfig : ServiceConfig :=
  default defaultServiceConfig (dss_ServiceConfig (ds_Spec d)).
Definition GetPriorityClass : option string := dss_PodPriorityClass (ds_Spec d).
End DiscoveryServiceAccessors.

(** ** [discoveryservicecertificate_types.go] *)

Definition CertificateNeedsRenewalCondition : string := "CertificateNeedsRenewal".

Record Signer := mkSigner {
  sg_SelfSigned : bool;
  sg_CASigned : option SecretReference;
}.

Record DiscoveryServiceCertificateSpec := mkDiscoveryServiceCertificateSpec {
  dscs_CommonName : string;
  dscs_IsServerCertificate : option bool;
  dscs_IsCA : option bool;
  dscs_ValidFor : Z;
  dscs_Hosts : option (list string);
  dscs_Signer : Signer;
  dscs_SecretRef : SecretReference;
  dscs_RenewalEnabled : option bool;
}.

Record DiscoveryServiceCertificateStatus := mkDiscoveryServiceCertificateStatus {
  dscst_Ready : option bool;
  dscst_NotBefore : option Time;
  dscst_NotAfter : option Time;
  dscst_CertificateHash : option string;
  dscst_Conditions : option (list Condition);
}.

Record DiscoveryServiceCertificate := mkDiscoveryServiceCertificate {
  dsc_Meta : ObjectMeta;
  dsc_Spec : DiscoveryServiceCertificateSpec;
  dsc_Status : DiscoveryServiceCertificateStatus;
}.
Definition emptyDSCStatus : DiscoveryServiceCertificateStatus :=
  mkDiscoveryServiceCertificateStatus None None None None None.

Section CertificateAccessors.
Variable d : DiscoveryServiceCertificate.

Definition IsServerCertificate : bool := default false (dscs_IsServerCertificate (dsc_Spec d)).
Definition IsCA : bool := default false (dscs_IsCA (dsc_Spec d)).
Definition GetHosts : list string :=
  match dscs_Hosts (dsc_Spec d) with
  | None => [dscs_CommonName (dsc_Spec d)] | Some hosts => hosts end.
(** The only field of the renewal configuration. *)
Definition GetCertificateRenewalConfig : bool := default true (dscs_RenewalEnabled (dsc_Spec d)).

Definition DiscoveryServiceCertificate_Default : DiscoveryServiceCertificate :=
  let sp := dsc_Spec d in
  mkDiscoveryServiceCertificate (dsc_Meta d)
    (mkDiscoveryServiceCertificateSpec (dscs_CommonName sp) (Some IsServerCertificate) (Some IsCA)
       (dscs_ValidFor sp) (Some GetHosts) (dscs_Signer sp) (dscs_SecretRef sp)
       (Some GetCertificateRenewalConfig))
    (dsc_Status d).
End CertificateAccessors.

Definition IsReady (status : DiscoveryServiceCertificateStatus) : bool :=
  default false (dscst_Ready status).
Definition GetCertificateHash (status : DiscoveryServiceCertificateStatus) : string :=
  default "" (dscst_CertificateHash status).
