(* ===== verification/Flags.v ===== *)
(** * Command line flags

    The subcommands read their options with the pflag library (through cobra).
    [FlagSet] is what they use of it: the flags of a command line, and the value
    of an integer flag.  [FlagSetLaws] states the documented syntax
    "--flag value" and that decimal numbers are accepted.  [pflag_impl] is a
    parser of that syntax that meets the laws. *)

From S2P Require Import Prelude.
#[local] Open Scope string_scope.

#[global] Instance sum_bind : MBind (sum error) := λ A B f r,
  match r with inl err => inl err | inr a => f a end.

Class FlagSet := {
  (** [Parse names args]: the flags that [args] sets, all of which must be
      among the defined [names]. *)
  Parse : list string → list string → error + gmap string string;
  (** The value of a flag defined with [IntVar]. *)
  IntValue : string → option Z;
}.

(** A command line that sets flags, in the form "--flag value". *)
Definition flag_args (ps : list (string * string)) : list string :=
  ps ≫= λ p, ["--" +:+ fst p; snd p].

Class FlagSetLaws (F : FlagSet) : Prop := {
  parse_pairs names ps :
    NoDup (fst <$> ps) → Forall (λ p, fst p ∈ names) ps →
    Parse names (flag_args ps) = inr (list_to_map ps);
  int_value z : (0 ≤ z < 2 ^ 63)%Z → IntValue (Itoa z) = Some z;
}.

(** The value of a string and of an integer flag that may be set. *)
Definition StringVar (m : gmap string string) (name value : string) : string :=
  default value (m !! name).

Definition IntVar {F : FlagSet} (m : gmap string string) (name : string) (value : Z) : error + Z :=
  match m !! name with
  | None => inr value
  | Some s =>
     match IntValue s with
     | Some z => inr z
     | None => inl (ErrorString ("invalid argument for --" +:+ name))
     end
  end.

(** ** A parser *)

Definition flag_name (arg : string) : option string :=
  match arg with String "-" (String "-" name) => Some name | _ => None end.

Fixpoint parse_args (names args : list string) : error + gmap string string :=
  match args with
  | [] => inr ∅
  | [a] => inl (ErrorString ("flag needs an argument: " +:+ a))
  | a :: v :: rest =>
     match flag_name a with
     | Some name =>
        if decide (name ∈ names) then
          match parse_args names rest with
          | inr m => inr (if decide (is_Some (m !! name)) then m else <[name := v]> m)
          | inl err => inl err
          end
        else inl (ErrorString ("unknown flag: --" +:+ name))
     | None => inl (ErrorString ("unexpected argument: " +:+ a))
     end
  end.

Definition pflag_impl : FlagSet := {| Parse := parse_args; IntValue := Atoi |}.

#[global] Instance pflag_impl_laws : FlagSetLaws pflag_impl.
Proof.
  split; [|intros; by apply Atoi_Itoa].
  intros names ps. simpl. induction ps as [|[f v] ps IH]; [done|].
  change (flag_args ((f, v) :: ps)) with (("--" +:+ f) :: v :: flag_args ps).
  cbn -[flag_args]. intros [Hf Hnd]%NoDup_cons [Hn Hps]%Forall_cons. simpl in *.
  rewrite decide_True by done. rewrite IH by done.
  rewrite decide_False; [done|].
  rewrite (not_elem_of_list_to_map_1 _ _ Hf). by intros [].
Qed.

(** ** Flags with an equals sign

    A flag may also be given as "--flag=value", and one defined with [BoolVar]
    as "--flag" alone, which makes it true. *)

Class FlagLine := {
  (** [ParseLine names bools args]: the flags that [args] sets, among those that
      take a value and the boolean ones. *)
  ParseLine : list string → list string → list string → error + gmap string string;
  (** The value of a flag defined with [BoolVar]. *)
  BoolValue : string → option bool;
}.

Definition flag_item (p : string * option string) : string :=
  "--" +:+ fst p +:+ match snd p with Some v => "=" +:+ v | None => "" end.

Definition item_value (p : string * option string) : string * string :=
  (fst p, default "true" (snd p)).

(** The flag is defined, and boolean when it has no value. *)
Definition item_ok (names bools : list string) (p : string * option string) : Prop :=
  no_sep "=" (fst p) ∧
  match snd p with Some _ => fst p ∈ names ∨ fst p ∈ bools | None => fst p ∈ bools end.

Class FlagLineLaws (F : FlagLine) : Prop := {
  line_items names bools ps :
    NoDup (fst <$> ps) → Forall (item_ok names bools) ps →
    ParseLine names bools (flag_item <$> ps) = inr (list_to_map (item_value <$> ps));
  bool_true : BoolValue "true" = Some true;
}.

Definition BoolVar {F : FlagLine} (m : gmap string string) (name : string) (value : bool) : error + bool :=
  match m !! name with
  | None => inr value
  | Some s =>
     match BoolValue s with
     | Some b => inr b
     | None => inl (ErrorString ("invalid argument for --" +:+ name))
     end
  end.

(** What an argument sets. *)
Definition parse_item (names bools : list string) (arg : string) : error + string * string :=
  match flag_name arg with
  | None => inl (ErrorString ("unexpected argument: " +:+ arg))
  | Some body =>
     match Split "=" body with
     | [name] => if decide (name ∈ bools) then inr (name, "true")
                 else inl (ErrorString ("flag needs an argument: --" +:+ name))
     | name :: value => if decide (name ∈ names ∨ name ∈ bools) then inr (name, Join value "=")
                        else inl (ErrorString ("unknown flag: --" +:+ name))
     | [] => inl (ErrorString "bad flag syntax")
     end
  end.

Fixpoint parse_line (names bools args : list string) : error + gmap string string :=
  match args with
  | [] => inr ∅
  | a :: rest =>
     match parse_item names bools a, parse_line names bools rest with
     | inr (name, v), inr m => inr (if decide (is_Some (m !! name)) then m else <[name := v]> m)
     | inl err, _ | _, inl err => inl err
     end
  end.

Definition pflag_line : FlagLine := {|
  ParseLine := parse_line;
  BoolValue s := if decide (s = "true") then Some true
                 else if decide (s = "false") then Some false else None;
|}.

Lemma parse_flag_item names bools p :
  item_ok names bools p → parse_item names bools (flag_item p) = inr (item_value p).
Proof.
  destruct p as [name [v|]]; unfold item_ok, parse_item, flag_item, item_value; simpl; intros [Hs Hn].
  - change ("" +:+ name +:+ "=" +:+ v) with (name +:+ String "=" v). rewrite Split_app_sep by done.
    pose proof (Join_Split "=" v) as Hj. pose proof (Split_not_nil "=" v) as Hne.
    destruct (Split "=" v) as [|x l]; [done|]. rewrite decide_True by done. by rewrite Hj.
  - change ("" +:+ name +:+ "") with (name +:+ ""). rewrite string_app_nil_r, Split_no_sep by done. by rewrite decide_True.
Qed.

#[global] Instance pflag_line_laws : FlagLineLaws pflag_line.
Proof.
  split; [|done]. intros names bools ps. simpl. induction ps as [|p ps IH]; [done|].
  intros [Hf Hnd]%NoDup_cons [Hp Hps]%Forall_cons. cbn -[parse_item flag_item item_value].
  rewrite parse_flag_item by done. rewrite IH by done. simpl.
  rewrite decide_False; [done|].
  rewrite not_elem_of_list_to_map_1; [by intros []|].
  rewrite <- list_fmap_compose. exact Hf.
Qed.
