(* ===== verification/Container.v ===== *)
(** * The containers of an Envoy pod ([pkg/envoy/container/generator.go])

    [Containers], [InitContainers] and [Volumes] build the Envoy container, its
    shutdown manager, the init manager that writes Envoy's bootstrap
    configuration, and the volumes they share.  They are used by the sidecar
    injector and by the EnvoyDeployment controller.  The theorem says that the
    parts fit together. *)

From S2P Require Import Prelude Meta Envoy Api OperatorTypes.
#[local] Open Scope string_scope.
#[local] Open Scope list_scope.

(** ** Pods *)

Record ContainerPort := mkContainerPort {
  cp_Name : string;
  cp_ContainerPort : Z;
  cp_Protocol : string;
  cp_HostPort : Z;
}.
#[global] Instance ContainerPort_eq_dec : EqDecision ContainerPort.
Proof. solve_decision. Defined.

Record HTTPGetAction := mkHTTPGetAction { hg_Path : string; hg_Port : Z; hg_Scheme : string }.

Record Probe := mkProbe { pr_HTTPGet : HTTPGetAction; pr_Spec : ProbeSpec }.

(** [corev1.Lifecycle]; [PostStart] is only passed on. *)
Record Lifecycle := mkLifecycle { lc_PostStart : option Opaque; lc_PreStop : option HTTPGetAction }.

Record VolumeMount := mkVolumeMount { vm_Name : string; vm_ReadOnly : bool; vm_MountPath : string }.

Inductive EnvVar :=
  | FieldRef (name fieldPath apiVersion : string)
  | EnvValue (name value : string).

Record Container := mkContainer {
  ctr_Name : string;
  ctr_Image : string;
  ctr_Command : list string;
  ctr_Args : list string;
  ctr_Env : list EnvVar;
  ctr_Resources : ResourceRequirements;
  ctr_Ports : list ContainerPort;
  ctr_VolumeMounts : list VolumeMount;
  ctr_LivenessProbe : option Probe;
  ctr_ReadinessProbe : option Probe;
  ctr_Lifecycle : option Lifecycle;
  ctr_TerminationMessagePath : string;
  ctr_TerminationMessagePolicy : string;
  ctr_ImagePullPolicy : string;
}.

Definition set_Lifecycle (c : Container) (l : option Lifecycle) : Container :=
  mkContainer (ctr_Name c) (ctr_Image c) (ctr_Command c) (ctr_Args c) (ctr_Env c)
    (ctr_Resources c) (ctr_Ports c) (ctr_VolumeMounts c) (ctr_LivenessProbe c)
    (ctr_ReadinessProbe c) l (ctr_TerminationMessagePath c) (ctr_TerminationMessagePolicy c)
    (ctr_ImagePullPolicy c).

Inductive VolumeSource :=
  | SecretVolumeSource (secretName : string) (defaultMode : Z)
  | EmptyDirVolumeSource
  | OtherVolumeSource (o : Opaque).

Record Volume := mkVolume { v_Name : string; v_Source : VolumeSource }.

(** [resource.ParseQuantity] of the Kubernetes library: the error for texts
    that are not quantities. *)
Class Quantities := { quantity_error : string → option error }.

Definition ParseQuantity {Q : Quantities} (s : string) : error + string :=
  match quantity_error s with Some e => inl e | None => inr s end.
Definition MustParse {Q : Quantities} (s : string) : result string :=
  match ParseQuantity s with inl _ => Panic | inr q => Ok q end.

(** ** [ContainerConfig] *)

Record ContainerConfig := mkContainerConfig {
  cc_Name : string;
  cc_Image : string;
  cc_ConfigBasePath : string;
  cc_ConfigFileName : string;
  cc_ConfigVolume : string;
  cc_TLSBasePath : string;
  cc_TLSVolume : string;
  cc_NodeID : string;
  cc_ClusterID : string;
  cc_ClientCertSecret : string;
  cc_ExtraArgs : list string;
  cc_Resources : ResourceRequirements;
  cc_AdminBindAddress : string;
  cc_AdminPort : Z;
  cc_AdminAccessLogPath : string;
  cc_Ports : list ContainerPort;
  cc_LivenessProbe : ProbeSpec;
  cc_ReadinessProbe : ProbeSpec;
  cc_InitManagerImage : string;
  cc_XdssHost : string;
  cc_XdssPort : Z;
  cc_APIVersion : string;
  cc_ShutdownManagerEnabled : bool;
  cc_ShutdownManagerPort : Z;
  cc_ShutdownManagerImage : string;
  cc_ShutdownManagerDrainSeconds : Z;
  cc_ShutdownManagerDrainStrategy : string;
}.

Definition ShutdownEndpoint : string := "/shutdown".
Definition DrainEndpoint : string := "/drain".
Definition HealthEndpoint : string := "/healthz".

Section Generator.
Context {Q : Quantities}.
Variable cc : ContainerConfig.

Definition config_file : string := cc_ConfigBasePath cc +:+ "/" +:+ cc_ConfigFileName cc.

Definition envoy_args : list string :=
  ["-c"; config_file; "--service-node"; cc_NodeID cc; "--service-cluster"; cc_ClusterID cc] ++
  (if cc_ShutdownManagerEnabled cc
   then ["--drain-time-s"; Itoa (cc_ShutdownManagerDrainSeconds cc);
         "--drain-strategy"; cc_ShutdownManagerDrainStrategy cc]
   else []) ++
  cc_ExtraArgs cc.

Definition ready_probe (spec : ProbeSpec) : Probe :=
  mkProbe (mkHTTPGetAction "/ready" (cc_AdminPort cc) "HTTP") spec.

Definition pre_stop (path : string) : Lifecycle :=
  mkLifecycle None (Some (mkHTTPGetAction path (cc_ShutdownManagerPort cc) "HTTP")).

Definition envoy_container : Container :=
  mkContainer (cc_Name cc) (cc_Image cc) ["envoy"] envoy_args [] (cc_Resources cc)
    (cc_Ports cc ++ [mkContainerPort "admin" (cc_AdminPort cc) "TCP" 0])
    [mkVolumeMount (cc_TLSVolume cc) true (cc_TLSBasePath cc);
     mkVolumeMount (cc_ConfigVolume cc) true (cc_ConfigBasePath cc)]
    (Some (ready_probe (cc_LivenessProbe cc))) (Some (ready_probe (cc_ReadinessProbe cc)))
    (if cc_ShutdownManagerEnabled cc then Some (pre_stop ShutdownEndpoint) else None)
    "/dev/termination-log" "File" "IfNotPresent".

Definition shutdown_manager_container : result Container :=
  cpuRequests ← MustParse defaults.ShtdnMgrDefaultCPURequests;
  memoryRequests ← MustParse defaults.ShtdnMgrDefaultMemoryRequests;
  cpuLimits ← MustParse defaults.ShtdnMgrDefaultCPULimits;
  memoryLimits ← MustParse defaults.ShtdnMgrDefaultMemoryLimits;
  Ok (mkContainer "envoy-shtdn-mgr" (cc_ShutdownManagerImage cc) []
    ["shutdown-manager"; "--port"; Itoa (cc_ShutdownManagerPort cc)] []
    (mkResourceRequirements
       (Some {[ "cpu" := cpuRequests; "memory" := memoryRequests ]})
       (Some {[ "cpu" := cpuLimits; "memory" := memoryLimits ]}))
    [] []
    (Some (mkProbe (mkHTTPGetAction HealthEndpoint (cc_ShutdownManagerPort cc) "HTTP")
             (mkProbeSpec 3 1 10 1 3)))
    None
    (Some (pre_stop DrainEndpoint))
    "/dev/termination-log" "File" "IfNotPresent").

Definition Containers : result (list Container) :=
  if cc_ShutdownManagerEnabled cc then
    m ← shutdown_manager_container; Ok [envoy_container; m]
  else Ok [envoy_container].

Definition init_env : list EnvVar :=
  [FieldRef "POD_NAME" "metadata.name" "v1";
   FieldRef "POD_NAMESPACE" "metadata.namespace" "v1";
   FieldRef "HOST_NAME" "spec.nodeName" "v1"].

Definition init_args : list string :=
  ["init-manager";
   "--admin-access-log-path"; cc_AdminAccessLogPath cc;
   "--admin-bind-address"; cc_AdminBindAddress cc +:+ ":" +:+ Itoa (cc_AdminPort cc);
   "--api-version"; cc_APIVersion cc;
   "--client-certificate-path"; cc_TLSBasePath cc;
   "--config-file"; config_file;
   "--resources-path"; cc_ConfigBasePath cc;
   "--rtds-resource-name"; defaults.InitMgrRtdsLayerResourceName;
   "--xdss-host"; cc_XdssHost cc;
   "--xdss-port"; Itoa (cc_XdssPort cc);
   "--envoy-image"; cc_Image cc].

Definition InitContainers : list Container :=
  [mkContainer "envoy-init-mgr" (cc_InitManagerImage cc) [] init_args init_env noResources []
     [mkVolumeMount (cc_ConfigVolume cc) false (cc_ConfigBasePath cc)]
     None None None "/dev/termination-log" "File" "IfNotPresent"].

Definition Volumes : list Volume :=
  [mkVolume (cc_TLSVolume cc) (SecretVolumeSource (cc_ClientCertSecret cc) 420);
   mkVolume (cc_ConfigVolume cc) EmptyDirVolumeSource].
End Generator.

(** ** The parts fit together *)

(** The value of a flag in a list of flags and values. *)
Fixpoint flag_value (flag : string) (args : list string) : option string :=
  match args with
  | a :: v :: rest => if decide (a = flag) then Some v else flag_value flag rest
  | _ => None
  end.

(** Every mount of the containers is of one of the volumes. *)
Definition mounts_ok (cs : list Container) (vs : list Volume) : Prop :=
  Forall (λ c, Forall (λ m, vm_Name m ∈ v_Name <$> vs) (ctr_VolumeMounts c)) cs.

(** Envoy [e], its init manager [i] and its shutdown manager [m] agree: Envoy
    reads the file the init manager writes, on a volume that is writable for
    the init manager only; the probes use the admin port that the init manager
    configures; the hooks use the port the shutdown manager listens at. *)
Record envoy_pod_ok (e i : Container) (m : option Container) (vs : list Volume) : Prop := {
  ep_mounts : mounts_ok (i :: e :: option_list m) vs;
  ep_config :
    ∃ f, flag_value "-c" (ctr_Args e) = Some f ∧
         flag_value "--config-file" (tail (ctr_Args i)) = Some f;
  ep_config_mount :
    ∃ v path, mkVolumeMount v false path ∈ ctr_VolumeMounts i ∧
              mkVolumeMount v true path ∈ ctr_VolumeMounts e ∧
              mkVolume v EmptyDirVolumeSource ∈ vs ∧
              flag_value "--resources-path" (tail (ctr_Args i)) = Some path;
  ep_admin :
    ∃ port addr, mkContainerPort "admin" port "TCP" 0 ∈ ctr_Ports e ∧
      flag_value "--admin-bind-address" (tail (ctr_Args i)) = Some (addr +:+ ":" +:+ Itoa port) ∧
      (hg_Port ∘ pr_HTTPGet <$> ctr_LivenessProbe e) = Some port ∧
      (hg_Port ∘ pr_HTTPGet <$> ctr_ReadinessProbe e) = Some port;
  ep_tls :
    ∃ v path secret, mkVolumeMount v true path ∈ ctr_VolumeMounts e ∧
      mkVolume v (SecretVolumeSource secret 420) ∈ vs ∧
      flag_value "--client-certificate-path" (tail (ctr_Args i)) = Some path;
  ep_shutdown :
    match m with
    | Some m =>
       ∃ port, flag_value "--port" (tail (ctr_Args m)) = Some (Itoa port) ∧
         (hg_Port ∘ pr_HTTPGet <$> ctr_LivenessProbe m) = Some port ∧
         ctr_Lifecycle m = Some (mkLifecycle None (Some (mkHTTPGetAction DrainEndpoint port "HTTP"))) ∧
         ctr_Lifecycle e =
           Some (mkLifecycle None (Some (mkHTTPGetAction ShutdownEndpoint port "HTTP"))) ∧
         is_Some (flag_value "--drain-time-s" (ctr_Args e))
    | None => ctr_Lifecycle e = None
    end;
}.

(** The quantities written in the program are quantities. *)
Definition literals_ok (Q : Quantities) : Prop :=
  Forall (λ s, quantity_error s = None) ["5m"; "25Mi"; "50m"; "50Mi"].

Lemma MustParse_ok {Q : Quantities} s : quantity_error s = None → MustParse s = Ok s.
Proof. intros H. unfold MustParse, ParseQuantity. by rewrite H. Qed.

Lemma shutdown_manager_ok {Q : Quantities} cc :
  literals_ok Q → ∃ m, shutdown_manager_container cc = Ok m ∧
    ctr_Name m = "envoy-shtdn-mgr" ∧ ctr_VolumeMounts m = [] ∧
    flag_value "--port" (tail (ctr_Args m)) = Some (Itoa (cc_ShutdownManagerPort cc)) ∧
    (hg_Port ∘ pr_HTTPGet <$> ctr_LivenessProbe m) = Some (cc_ShutdownManagerPort cc) ∧
    ctr_Lifecycle m = Some (pre_stop cc DrainEndpoint).
Proof.
  intros H. unfold literals_ok in H. rewrite !Forall_cons in H. destruct H as (? & ? & ? & ? & _).
  unfold shutdown_manager_container. rewrite !MustParse_ok by done. simpl. eauto 10.
Qed.

(** What the generator makes of a configuration is consistent. *)
Lemma Containers_fit {Q : Quantities} cc :
  literals_ok Q →
  ∃ m, Containers cc = Ok (envoy_container cc :: option_list m) ∧
    (is_Some m ↔ cc_ShutdownManagerEnabled cc = true) ∧
    (∀ c, m = Some c → ctr_Name c = "envoy-shtdn-mgr") ∧
    (∀ i, InitContainers cc = [i] → envoy_pod_ok (envoy_container cc) i m (Volumes cc)).
Proof.
  intros HQ. unfold Containers.
  assert (∀ m, (match m with
          | Some m => cc_ShutdownManagerEnabled cc = true ∧ ctr_VolumeMounts m = [] ∧
              flag_value "--port" (tail (ctr_Args m)) = Some (Itoa (cc_ShutdownManagerPort cc)) ∧
              (hg_Port ∘ pr_HTTPGet <$> ctr_LivenessProbe m) = Some (cc_ShutdownManagerPort cc) ∧
              ctr_Lifecycle m = Some (pre_stop cc DrainEndpoint)
          | None => cc_ShutdownManagerEnabled cc = false end) →
    ∀ i, InitContainers cc = [i] → envoy_pod_ok (envoy_container cc) i m (Volumes cc)) as Hfit.
  { intros m Hm i [= <-]. constructor.
    - unfold mounts_ok, Volumes. simpl. apply Forall_cons; split; [|apply Forall_cons; split].
      + repeat constructor; simpl; set_solver.
      + repeat constructor; simpl; set_solver.
      + destruct m as [m|]; [|constructor]. destruct Hm as (_ & Hm & _).
        constructor; [by rewrite Hm|constructor].
    - by exists (config_file cc).
    - exists (cc_ConfigVolume cc), (cc_ConfigBasePath cc). unfold Volumes. simpl. set_solver.
    - exists (cc_AdminPort cc), (cc_AdminBindAddress cc). simpl. repeat split; set_solver.
    - exists (cc_TLSVolume cc), (cc_TLSBasePath cc), (cc_ClientCertSecret cc).
      unfold Volumes. simpl. set_solver.
    - destruct m as [m|]; simpl; [|by rewrite Hm].
      destruct Hm as (Hen & _ & Hp & Hl & Hlc). exists (cc_ShutdownManagerPort cc).
      unfold envoy_args. rewrite Hen. simpl. eauto 10. }
  destruct (cc_ShutdownManagerEnabled cc) eqn:Hen.
  - destruct (shutdown_manager_ok cc HQ) as (m & -> & Hn & Hm). simpl. exists (Some m).
    split; [done|]. split; [done|]. split; [by intros ? [= <-]|]. by apply Hfit.
  - exists None. split; [done|]. split; [|split; [done|by apply Hfit]]. split; [by intros []|done].
Qed.

(** The configuration of a pod whose Envoy has its own admin port. *)
Definition example_pod_config : ContainerConfig := {|
  cc_Name := "envoy"; cc_Image := "envoyproxy/envoy:v1.29.0";
  cc_ConfigBasePath := "/etc/envoy/bootstrap"; cc_ConfigFileName := "config.json";
  cc_ConfigVolume := "envoy-bootstrap"; cc_TLSBasePath := "/etc/envoy/tls/client";
  cc_TLSVolume := "envoy-tls"; cc_NodeID := "node"; cc_ClusterID := "node";
  cc_ClientCertSecret := "client"; cc_ExtraArgs := []; cc_Resources := noResources;
  cc_AdminBindAddress := "0.0.0.0"; cc_AdminPort := 5000%Z; cc_AdminAccessLogPath := "/dev/null";
  cc_Ports := []; cc_LivenessProbe := defaultLivenessProbe;
  cc_ReadinessProbe := defaultReadinessProbe; cc_InitManagerImage := "marin3r";
  cc_XdssHost := "marin3r.ns.svc"; cc_XdssPort := 18000%Z; cc_APIVersion := "v3";
  cc_ShutdownManagerEnabled := true; cc_ShutdownManagerPort := 8090%Z;
  cc_ShutdownManagerImage := "marin3r"; cc_ShutdownManagerDrainSeconds := 300%Z;
  cc_ShutdownManagerDrainStrategy := "gradual" |}.
