(* ===== verification/ShutdownManager.v ===== *)
(** * The shutdown manager
    ([pkg/envoy/container/shutdownmanager/manager.go], [cmd/shutdownmanager.go])

    A small HTTP server that runs beside Envoy and delays the termination of
    the pod.  The preStop hook of its own container calls "/drain", which tells
    Envoy to fail its health check, waits until few connections are open and
    then creates a file; the preStop hook of the Envoy container calls
    "/shutdown", which waits for that file.

    The handlers run concurrently, talk to the file system, to Envoy and to
    their client, and may wait forever: they are interaction trees over
    [shutdownE].  [pool_step] interleaves the handlers of any number of
    requests, with any answer from Envoy; [run] executes one handler against a
    clock. *)

From S2P Require Import Prelude Meta Envoy Api OperatorTypes Flags Container.
From Stdlib Require Import SpecFloat QArith Qround Qpower.
From ITree Require Import Core.ITreeDefinition.
#[local] Open Scope string_scope.
#[local] Open Scope list_scope.
#[local] Open Scope Z_scope.

(** ** What the handlers do *)

Inductive StatAnswer := StatOK | StatNotExist | StatError (err : error).

Record HTTPResponse := mkHTTPResponse {
  resp_StatusCode : Z;
  resp_Status : string;
  resp_Body : string;
}.

(** The operations of a handler, each with the type of its answer:
    [os.Stat], [os.Create], [http.Post], [http.Get], [time.Sleep], the [select]
    of [time.After] and the cancellation of the request ([true] when the time
    has passed), and the answer to the request. *)
Inductive shutdownE : Type → Type :=
  | Stat (path : string) : shutdownE StatAnswer
  | Create (path : string) : shutdownE (option error)
  | HTTPPost (url : string) : shutdownE (error + HTTPResponse)
  | HTTPGet (url : string) : shutdownE (error + HTTPResponse)
  | Sleep (d : Z) : shutdownE unit
  | SelectAfter (d : Z) : shutdownE bool
  | WriteHeader (code : Z) : shutdownE unit
  | Write (body : string) : shutdownE (option error).

#[global] Instance itree_ret E : MRet (itree E) := λ A a, Ret a.
#[global] Instance itree_bind E : MBind (itree E) := λ A B f t, ITree.bind t f.

Abbreviation trigger := ITree.trigger.
Abbreviation handler := (itree shutdownE unit).

(** ** Libraries *)

(** [wait.Backoff] and [retry.OnError] with a predicate that retries every
    error. *)
Record Backoff := mkBackoff { Steps : nat; b_Duration : Z; Factor : Q; Jitter : Q }.

Class Retry := {
  OnError : Backoff → itree shutdownE (option error) → itree shutdownE (option error) }.

(** Calling [fn] until it succeeds, with the given waits between the calls. *)
Fixpoint attempts (waits : list Z) (fn : itree shutdownE (option error))
    : itree shutdownE (option error) :=
  match waits with
  | [] => fn
  | d :: waits =>
     err ← fn;
     match err with
     | None => Ret None
     | Some _ => _ ← trigger (Sleep d); attempts waits fn
     end
  end.

(** The function is called at most [Steps] times; the wait before the
    [i]-th retry is the duration times the [i]-th power of the factor, plus the
    jitter. *)
Class RetryLaws (R : Retry) : Prop := {
  on_error b fn :
    (0 < Steps b)%nat → 0 ≤ b_Duration b → (0 <= Factor b)%Q → (0 <= Jitter b)%Q → ∃ waits,
    OnError b fn = attempts waits fn ∧ S (length waits) = Steps b ∧
    ∀ i d, waits !! i = Some d →
      0 ≤ d ∧ (inject_Z d <= inject_Z (b_Duration b) * Factor b ^ Z.of_nat i * (1 + Jitter b))%Q;
}.

(** The metrics of package [expfmt], and the result of the conversions from
    float64 to int that the language leaves to the implementation. *)
Record LabelPair := mkLabelPair { lp_Name : string; lp_Value : string }.
Record Metric := mkMetric { mt_Label : list LabelPair; mt_Gauge : option spec_float }.

Class Prometheus := {
  TextToMetricFamilies : string → error + gmap string (list Metric);
  float_overflow : Z;
}.

Definition trunc (f : spec_float) : option Z :=
  match f with
  | S754_zero _ => Some 0
  | S754_finite s m e =>
     let a := if decide (0 ≤ e) then Zpos m * 2 ^ e else Zpos m / 2 ^ (- e) in
     Some (if s then - a else a)
  | _ => None
  end.

(** The conversion [int(f)]. *)
Definition int_of_float {P : Prometheus} (f : spec_float) : Z :=
  match trunc f with
  | Some z => if decide (- 2 ^ 63 ≤ z < 2 ^ 63) then z else float_overflow
  | None => float_overflow
  end.

(** ** [manager.go] *)

Definition envoyPrometheusEndpoint : string := "/stats/prometheus".
Definition envoyShutdownEndpoint : string := "/healthcheck/fail".
Definition prometheusStat : string := "envoy_http_downstream_cx_active".
Definition adminListenerPrefix : string := "admin".

Record Manager := mkManager {
  HTTPServePort : Z;
  ShutdownReadyFile : string;
  ShutdownReadyCheckInterval : Z;
  CheckDrainInterval : Z;
  CheckDrainDelay : Z;
  StartDrainDelay : Z;
  EnvoyAdminAddress : string;
  MinOpenConnections : Z;
}.

Section Manager.
Context {R : Retry} {P : Prometheus}.
Variable mgr : Manager.

Definition envoyPrometheusURL : string := Join [EnvoyAdminAddress mgr; envoyPrometheusEndpoint] "".
Definition envoyShutdownURL : string := Join [EnvoyAdminAddress mgr; envoyShutdownEndpoint] "".

(** The gauge of a metric: the getters of protobuf messages return zero for a
    missing message. *)
Definition gauge_value (m : Metric) : Z := int_of_float (default (S754_zero false) (mt_Gauge m)).

(** The inner loop over the labels of a metric. *)
Fixpoint count_labels (openConnections : Z) (m : Metric) (labels : list LabelPair) : Z :=
  match labels with
  | [] => openConnections
  | lp :: labels =>
     count_labels
       (if decide (lp_Value lp ≠ adminListenerPrefix)
        then int64 (openConnections + gauge_value m) else openConnections) m labels
  end.

Fixpoint count_metrics (openConnections : Z) (metrics : list Metric) : Z :=
  match metrics with
  | [] => openConnections
  | m :: metrics => count_metrics (count_labels openConnections m (mt_Label m)) metrics
  end.

Definition parseOpenConnections (stats : string) : error + Z :=
  match TextToMetricFamilies stats with
  | inl err => inl (ErrorString ("parsing Prometheus text format failed: " +:+ Error_text err))
  | inr metricFamilies =>
     match metricFamilies !! prometheusStat with
     | None => inl (ErrorString ("error finding Prometheus stat " +:+ Quote prometheusStat +:+
                                 " in the request result"))
     | Some metrics => inr (count_metrics 0 metrics)
     end
  end.

(** What becomes of the answer to the GET request. *)
Definition check_response (r : error + HTTPResponse) : error + Z :=
  match r with
  | inl err => inl (ErrorString ("creating GET request to " +:+ envoyPrometheusURL +:+
                                 " failed: " +:+ Error_text err))
  | inr resp =>
     if decide (resp_StatusCode resp ≠ 200) then
       inl (ErrorString ("GET for " +:+ Quote envoyPrometheusURL +:+ " returned HTTP status " +:+
                         resp_Status resp))
     else parseOpenConnections (resp_Body resp)
  end.

Definition getOpenConnections : itree shutdownE (error + Z) :=
  r ← trigger (HTTPGet envoyPrometheusURL); Ret (check_response r).

(** What becomes of the answer to the POST request. *)
Definition check_post (r : error + HTTPResponse) : option error :=
  match r with
  | inl err => Some (ErrorString ("creating POST request to " +:+ envoyShutdownURL +:+
                                  " failed: " +:+ Error_text err))
  | inr resp =>
     if decide (resp_StatusCode resp ≠ 200) then
       Some (ErrorString ("POST for " +:+ Quote envoyShutdownURL +:+ " returned HTTP status " +:+
                          resp_Status resp))
     else None
  end.

Definition shutdownEnvoy : itree shutdownE (option error) :=
  r ← trigger (HTTPPost envoyShutdownURL); Ret (check_post r).

Definition healthzHandler : handler := _ ← trigger (Write "OK"); Ret tt.

(** One turn of the loop of [shutdownHandler]: [inl] goes on. *)
Definition shutdown_turn : itree shutdownE (unit + unit) :=
  a ← trigger (Stat (ShutdownReadyFile mgr));
  match a with
  | StatOK => _ ← trigger (Write "OK"); Ret (inr tt)
  | _ =>
     fired ← trigger (SelectAfter (ShutdownReadyCheckInterval mgr));
     Ret (if fired : bool then inl tt else inr tt)
  end.

Definition shutdownHandler : handler := ITree.iter (λ _, shutdown_turn) tt.

Definition drain_wait : itree shutdownE (unit + unit) :=
  fired ← trigger (SelectAfter (CheckDrainInterval mgr));
  if fired : bool then Ret (inl tt)
  else _ ← trigger (WriteHeader 499); Ret (inr tt).

(** What follows a poll.  An error of [os.Create] is only logged: the nil file is
    closed without effect and the answer is the same. *)
Definition drain_decide (r : error + Z) : itree shutdownE (unit + unit) :=
  match r with
  | inr openConnections =>
     if decide (openConnections ≤ MinOpenConnections mgr) then
       _ ← trigger (Create (ShutdownReadyFile mgr));
       _ ← trigger (Write "OK"); Ret (inr tt)
     else drain_wait
  | inl _ => drain_wait
  end.

(** One turn of the loop of [drainHandler]. *)
Definition drain_turn : itree shutdownE (unit + unit) := r ← getOpenConnections; drain_decide r.

Definition Millisecond : Z := 1000000.
Definition drain_backoff : Backoff := mkBackoff 4 (200 * Millisecond) 5 (1 # 10).

(** An error of the signal, after all its retries, is only logged. *)
Definition drainHandler : handler :=
  _ ← trigger (Sleep (StartDrainDelay mgr));
  _ ← OnError drain_backoff shutdownEnvoy;
  _ ← trigger (Sleep (CheckDrainDelay mgr));
  ITree.iter (λ _, drain_turn) tt.

(** The handlers [Start] registers. *)
Definition mux (path : string) : option handler :=
  if decide (path = HealthEndpoint) then Some healthzHandler
  else if decide (path = ShutdownEndpoint) then Some shutdownHandler
  else if decide (path = DrainEndpoint) then Some drainHandler
  else None.
End Manager.

(** ** [cmd/shutdownmanager.go] *)

Definition shutdown_flag_names : list string :=
  ["port"; "ready-file"; "check-ready-interval"; "check-drain-interval"; "start-drain-delay";
   "check-drain-delay"; "envoy-admin-address"; "min-open-connections";
   "debug"; "metrics-bind-address"; "health-probe-bind-address"].

Definition default_admin_url : string := "http://localhost:" +:+ Itoa defaults.EnvoyAdminPort.

(** [time.Duration(n) * time.Second]. *)
Definition seconds (n : Z) : Z := int64 (n * Second).

(** The manager that [runShutdownManager] starts. *)
Definition runShutdownManager {F : FlagSet} (args : list string) : error + Manager :=
  m ← Parse shutdown_flag_names args;
  port ← IntVar m "port" defaults.ShtdnMgrDefaultServerPort;
  ready ← IntVar m "check-ready-interval" defaults.ShtdnMgrDefaultReadyCheckInterval;
  interval ← IntVar m "check-drain-interval" defaults.ShtdnMgrDefaultDrainCheckInterval;
  start ← IntVar m "start-drain-delay" defaults.ShtdnMgrDefaultStartDrainDelay;
  check ← IntVar m "check-drain-delay" defaults.ShtdnMgrDefaultCheckDrainDelay;
  min ← IntVar m "min-open-connections" defaults.ShtdnMgrDefaultMinOpenConnections;
  inr {|
    HTTPServePort := port;
    ShutdownReadyFile := StringVar m "ready-file" defaults.ShtdnMgrDefaultReadyFile;
    ShutdownReadyCheckInterval := seconds ready;
    CheckDrainInterval := seconds interval;
    CheckDrainDelay := seconds check;
    StartDrainDelay := seconds start;
    EnvoyAdminAddress := StringVar m "envoy-admin-address" default_admin_url;
    MinOpenConnections := min;
  |}.

(** ** Counting connections *)

Section Counting.
Context {P : Prometheus}.
Implicit Types (m : Metric) (ms : list Metric).

Definition sumZ (l : list Z) : Z := foldr Z.add 0 l.

(** The labels of a metric that do not name the admin listener. *)
Definition other_labels m : list LabelPair :=
  List.filter (λ lp, bool_decide (lp_Value lp ≠ adminListenerPrefix)) (mt_Label m).

(** The connections that are not of the admin listener: the reference. *)
Definition active_connections ms : Z :=
  sumZ (gauge_value <$>
    List.filter (λ m, forallb (λ lp, bool_decide (lp_Value lp ≠ adminListenerPrefix)) (mt_Label m)) ms).

Lemma count_labels_spec m ls acc :
  int64 (count_labels acc m ls) =
  int64 (acc + Z.of_nat (length (List.filter (λ lp, bool_decide (lp_Value lp ≠ adminListenerPrefix)) ls))
               * gauge_value m) ∧
  (int64 acc = acc → int64 (count_labels acc m ls) = count_labels acc m ls).
Proof.
  revert acc. induction ls as [|lp ls IH]; intros acc; simpl.
  - split; [f_equal; lia|done].
  - destruct (IH (if decide (lp_Value lp ≠ adminListenerPrefix)
                  then int64 (acc + gauge_value m) else acc)) as [H1 H2].
    split.
    + rewrite H1. case_decide.
      * rewrite bool_decide_true by done. cbn [length]. rewrite int64_add_l. f_equal. lia.
      * rewrite bool_decide_false by tauto. done.
    + intros Ha. apply H2. case_decide; [|done]. apply int64_idem.
Qed.

Lemma count_metrics_spec ms acc :
  int64 acc = acc →
  count_metrics acc ms =
  int64 (acc + sumZ ((λ m, Z.of_nat (length (other_labels m)) * gauge_value m) <$> ms)).
Proof.
  revert acc. induction ms as [|m ms IH]; intros acc Ha; simpl; [by rewrite Z.add_0_r|].
  destruct (count_labels_spec m (mt_Label m) acc) as [H1 H2]. specialize (H2 Ha).
  rewrite IH, <- H2, H1, int64_add_l by done. f_equal. symmetry. apply Z.add_assoc.
Qed.

Lemma single_label ms :
  Forall (λ m, length (mt_Label m) = 1%nat) ms →
  sumZ ((λ m, Z.of_nat (length (other_labels m)) * gauge_value m) <$> ms) = active_connections ms.
Proof.
  induction 1 as [|m ms Hm _ IH]; [done|]. unfold active_connections, sumZ in *.
  rewrite fmap_cons. cbn [foldr]. rewrite IH. unfold other_labels. cbn [List.filter].
  destruct (mt_Label m) as [|lp [|]]; [done| |done]. simpl.
  destruct (bool_decide _); simpl; rewrite ?Z.mul_1_l; done.
Qed.

(** What is counted.  The number of open connections is the sum, at the
    width of an int, of the gauge of each metric of the family times the number
    of its labels that do not name the admin listener.  When every metric has
    one label, as the metrics of Envoy's listeners do, it is the sum over the
    metrics of the other listeners.  Without the family there is an error. *)
Theorem open_connections stats families :
  TextToMetricFamilies stats = inr families →
  match families !! prometheusStat with
  | None => ∃ err, parseOpenConnections stats = inl err
  | Some ms =>
     parseOpenConnections stats =
       inr (int64 (sumZ ((λ m, Z.of_nat (length (other_labels m)) * gauge_value m) <$> ms))) ∧
     (Forall (λ m, length (mt_Label m) = 1%nat) ms →
      parseOpenConnections stats = inr (int64 (active_connections ms)))
  end.
Proof.
  unfold parseOpenConnections. intros ->. destruct (families !! prometheusStat) as [ms|]; [|eauto].
  rewrite count_metrics_spec by done. split; [done|]. intros H. by rewrite single_label.
Qed.
End Counting.

(** ** The requests of a pod

    Any number of requests is served at the same time.  A step of a handler is
    one of its operations; Envoy's answers, the timers, cancellations and the
    errors of the file system are arbitrary. *)

(** What the files say, and what an operation does to them. *)
Definition answers (fs : gset string) {X} (e : shutdownE X) : X → gset string → Prop :=
  match e in shutdownE X return X → gset string → Prop with
  | Stat p => λ a fs', fs' = fs ∧ match a with
                                  | StatOK => p ∈ fs
                                  | StatNotExist => p ∉ fs
                                  | StatError _ => True
                                  end
  | Create p => λ err fs', fs' = match err with None => {[p]} ∪ fs | Some _ => fs end
  | _ => λ _ fs', fs' = fs
  end.

(** An operation with its answer, as an observer sees it. *)
Inductive action :=
  | AStat (path : string) (a : StatAnswer)
  | ACreate (path : string) (err : option error)
  | APost (url : string) (r : error + HTTPResponse)
  | AGet (url : string) (r : error + HTTPResponse)
  | ASleep (d : Z)
  | ASelect (d : Z) (fired : bool)
  | AHeader (code : Z)
  | AWrite (body : string) (err : option error).

Definition action_of {X} (e : shutdownE X) : X → action :=
  match e in shutdownE X return X → action with
  | Stat p => AStat p
  | Create p => ACreate p
  | HTTPPost url => APost url
  | HTTPGet url => AGet url
  | Sleep d => λ _, ASleep d
  | SelectAfter d => ASelect d
  | WriteHeader code => λ _, AHeader code
  | Write body => AWrite body
  end.

(** The files, the handlers that run, each with the path of its request, and
    everything that has happened, the latest first. *)
Record Pool := mkPool {
  p_files : gset string;
  p_threads : list (string * handler);
  p_history : list (string * action);
}.

Section Requests.
Context {R : Retry} {P : Prometheus}.
Variable mgr : Manager.

Inductive pool_step : Pool → Pool → Prop :=
  | step_accept fs ts h path t :
      mux mgr path = Some t → pool_step (mkPool fs ts h) (mkPool fs (ts ++ [(path, t)]) h)
  | step_tau fs ts h i path t u :
      ts !! i = Some (path, t) → observe t = TauF u →
      pool_step (mkPool fs ts h) (mkPool fs (<[i := (path, u)]> ts) h)
  | step_operation fs fs' ts h i path t X (e : shutdownE X) k x :
      ts !! i = Some (path, t) → observe t = VisF e k → answers fs e x fs' →
      pool_step (mkPool fs ts h)
        (mkPool fs' (<[i := (path, k x)]> ts) ((path, action_of e x) :: h)).

(** A "/drain" request has seen few open connections. *)
Definition drained (h : list (string * action)) : Prop :=
  ∃ url r n, (DrainEndpoint, AGet url r) ∈ h ∧ check_response mgr r = inr n ∧
             n ≤ MinOpenConnections mgr.

(** What must hold when a handler performs an operation. *)
Definition allowed (path : string) (fs : gset string) h {X} (e : shutdownE X) : Prop :=
  match e with
  | Create _ => drained h
  | Write _ => path = ShutdownEndpoint → ShutdownReadyFile mgr ∈ fs
  | _ => True
  end.

(** A handler only does what is allowed, for [n] of its steps, whatever the
    others do in between. *)
Fixpoint behaves (n : nat) (path : string) (fs : gset string) (h : list (string * action))
    (t : handler) : Prop :=
  match n with
  | O => True
  | S n =>
     match observe t with
     | RetF _ => True
     | TauF u => behaves n path fs h u
     | VisF e k =>
        allowed path fs h e ∧
        ∀ fs' l x fs'', fs ⊆ fs' → answers fs' e x fs'' →
          behaves n path fs'' ((path, action_of e x) :: l ++ h) (k x)
     end
  end.

Lemma answers_mono fs {X} (e : shutdownE X) x fs' : answers fs e x fs' → fs ⊆ fs'.
Proof. destruct e; simpl; try set_solver. destruct x; set_solver. Qed.

Lemma drained_app l h : drained h → drained (l ++ h).
Proof. intros (url & r & n & H & ?). exists url, r, n. split; [set_solver|done]. Qed.

Lemma behaves_mono n path fs fs' l h t :
  fs ⊆ fs' → behaves n path fs h t → behaves n path fs' (l ++ h) t.
Proof.
  revert path fs fs' l h t. induction n as [|n IH]; intros path fs fs' l h t Hfs; [done|].
  simpl. destruct (observe t) as [|u|X e k]; [done|by apply IH|]. intros [Ha Hk]. split.
  - destruct e; simpl in *; [done|by apply drained_app|done..|]. intros ?. by apply Hfs, Ha.
  - intros fs1 l1 x fs2 H1 H2. rewrite app_assoc. apply Hk with fs1; [set_solver|done].
Qed.
End Requests.

Section Safety.
Context {R : Retry} {RL : RetryLaws R} {P : Prometheus}.
Variable mgr : Manager.
Implicit Types (fs : gset string) (h : list (string * action)).

Lemma behaves_observe n path fs h t u :
  observe t = observe u → behaves mgr n path fs h u → behaves mgr n path fs h t.
Proof. destruct n; [done|]. simpl. by intros ->. Qed.

Lemma behaves_ret n path fs h t r : observe t = RetF r → behaves mgr n path fs h t.
Proof. destruct n; [done|]. simpl. by intros ->. Qed.

(** What [ITree.iter] does with the result of a turn. *)
Definition next_turn (turn : itree shutdownE (unit + unit)) (lr : unit + unit) : handler :=
  match lr with inl l => Tau (ITree.iter (λ _, turn) l) | inr r => Ret r end.

Lemma shutdown_behaves n fs h : behaves mgr n ShutdownEndpoint fs h (shutdownHandler mgr).
Proof.
  revert fs h. induction n as [n IH] using lt_wf_ind. intros fs h.
  destruct n as [|n]; [done|]. cbn. split; [done|]. intros fs1 l a fs2 Hfs [-> Ha].
  destruct a.
  - destruct n as [|n]; [done|]. cbn. split; [done|]. intros. by apply (behaves_ret _ _ _ _ _ tt).
  - destruct n as [|n]; [done|]. cbn. split; [done|]. intros fs3 l' [] fs4 _ _.
    + destruct n as [|n]; [done|]. cbn. apply IH. lia.
    + by apply (behaves_ret _ _ _ _ _ tt).
  - destruct n as [|n]; [done|]. cbn. split; [done|]. intros fs3 l' [] fs4 _ _.
    + destruct n as [|n]; [done|]. cbn. apply IH. lia.
    + by apply (behaves_ret _ _ _ _ _ tt).
Qed.

Lemma attempts_behave n path fs h waits (k : option error → handler) :
  (∀ n fs h err, behaves mgr n path fs h (k err)) →
  behaves mgr n path fs h (ITree.bind (attempts waits (shutdownEnvoy mgr)) k).
Proof.
  intros Hk. revert n fs h. induction waits as [|d waits IH]; intros n fs h;
    (destruct n as [|n]; [done|]); cbn; (split; [done|]); intros fs1 l r fs2 _ _.
  - by apply (behaves_observe _ _ _ _ _ (k (check_post mgr r))).
  - apply (behaves_observe _ _ _ _ _ (ITree.bind
      match check_post mgr r with
      | None => Ret None
      | Some _ => _ ← trigger (Sleep d); attempts waits (shutdownEnvoy mgr)
      end k)); [done|].
    destruct (check_post mgr r) as [err|]; [|by apply (behaves_observe _ _ _ _ _ (k None))].
    destruct n as [|n]; [done|]. cbn. split; [done|].
    intros fs3 l' [] fs4 _ _. eapply behaves_observe; [|apply IH]. reflexivity.
Qed.

Lemma drain_loop_behaves n fs h :
  behaves mgr n DrainEndpoint fs h (ITree.iter (λ _, drain_turn mgr) tt).
Proof.
  revert fs h. induction n as [n IH] using lt_wf_ind. intros fs h.
  destruct n as [|n]; [done|]. cbn. split; [done|]. intros fs1 l r fs2 _ _.
  assert (behaves mgr n DrainEndpoint fs2
    ((DrainEndpoint, AGet (envoyPrometheusURL mgr) r) :: l ++ h)
    (ITree.bind (drain_wait mgr) (next_turn (drain_turn mgr)))) as Hwait.
  { destruct n as [|n]; [done|]. cbn. split; [done|]. intros fs3 l' [] fs4 _ _.
    - destruct n as [|n]; [done|]. cbn. apply IH. lia.
    - destruct n as [|n]; [done|]. cbn. split; [done|]. intros.
      by apply (behaves_ret _ _ _ _ _ tt). }
  apply (behaves_observe _ _ _ _ _ (ITree.bind (drain_decide mgr (check_response mgr r))
    (next_turn (drain_turn mgr)))); [done|].
  destruct (check_response mgr r) as [err|c] eqn:Er; [done|]. simpl.
  destruct (decide (c ≤ MinOpenConnections mgr)) as [Hc|Hc]; [|done].
  destruct n as [|n]; [done|]. cbn. split.
  - exists (envoyPrometheusURL mgr), r, c. split; [left|done].
  - intros fs3 l' err fs4 _ _. destruct n as [|n]; [done|]. cbn. split; [done|].
    intros. by apply (behaves_ret _ _ _ _ _ tt).
Qed.

Lemma drain_behaves n fs h : behaves mgr n DrainEndpoint fs h (drainHandler mgr).
Proof.
  destruct n as [|n]; [done|]. cbn. split; [done|]. intros fs1 l [] fs2 _ _.
  destruct (on_error drain_backoff (shutdownEnvoy mgr)) as (waits & Hw & _); [simpl; lia|done..|].
  eapply behaves_observe; [|apply (attempts_behave _ _ _ _ waits (λ _, _ ← trigger (Sleep (CheckDrainDelay mgr));
    ITree.iter (λ _, drain_turn mgr) tt))]; [cbn; by rewrite Hw|].
  clear. intros n fs h err. destruct n as [|n]; [done|]. cbn. split; [done|]. intros fs1 l [] fs2 _ _.
  eapply behaves_observe; [|apply drain_loop_behaves]. reflexivity.
Qed.

Lemma mux_behaves path t n fs h : mux mgr path = Some t → behaves mgr n path fs h t.
Proof.
  unfold mux. repeat case_decide; intros [= <-]; subst.
  - destruct n as [|n]; [done|]. cbn. split; [done|]. intros. by apply (behaves_ret _ _ _ _ _ tt).
  - apply shutdown_behaves.
  - apply drain_behaves.
Qed.

(** The invariant of a pod. *)
Record pool_ok (p : Pool) : Prop := {
  ok_file : ShutdownReadyFile mgr ∈ p_files p → drained mgr (p_history p);
  ok_threads path t : (path, t) ∈ p_threads p → ∀ n, behaves mgr n path (p_files p) (p_history p) t;
  ok_history h2 body err h1 :
    p_history p = h2 ++ (ShutdownEndpoint, AWrite body err) :: h1 → drained mgr h1;
}.

Lemma pool_step_ok p p' : pool_step mgr p p' → pool_ok p → pool_ok p'.
Proof.
  intros Hs [Hf Ht Hh]. destruct Hs as [fs ts h path t Hm|fs ts h i path t u Hi Ho|
    fs fs' ts h i path t X e k x Hi Ho Ha]; split; simpl in *; try done.
  - intros path' t' [?|[= -> ->]%list_elem_of_singleton]%elem_of_app n; [by apply Ht|].
    by apply mux_behaves.
  - intros path' t' [[= -> ->]|?]%elem_of_insert_inv n'; [|by apply Ht].
    specialize (Ht _ _ (list_elem_of_lookup_2 _ _ _ Hi) (S n')). simpl in Ht. by rewrite Ho in Ht.
  - specialize (Ht _ _ (list_elem_of_lookup_2 _ _ _ Hi) 1%nat). simpl in Ht. rewrite Ho in Ht.
    intros Hin. apply (drained_app mgr [_]).
    destruct e; simpl in *; [destruct Ha as [-> _]; by apply Hf|by destruct Ht|subst; by apply Hf..].
  - intros path' t' Hin n'. apply elem_of_insert_inv in Hin as [[= -> ->]|Hin].
    + specialize (Ht _ _ (list_elem_of_lookup_2 _ _ _ Hi) (S n')). simpl in Ht. rewrite Ho in Ht.
      destruct Ht as [_ Ht]. by apply (Ht fs [] x fs').
    + apply (behaves_mono _ _ _ fs _ [_]); [by eapply answers_mono|by apply Ht].
  - intros [|a h2] body err h1 Heq; simpl in Heq; [|injection Heq as _ Heq; by eapply Hh].
    injection Heq as -> Ea ->. apply Hf.
    specialize (Ht _ _ (list_elem_of_lookup_2 _ _ _ Hi) 1%nat). simpl in Ht. rewrite Ho in Ht.
    destruct e; try done. by apply Ht.
Qed.

(** C7: Envoy is not released before it is drained.  Whatever requests a
    shutdown manager gets, in whatever order their handlers run and whatever
    Envoy and the file system answer: when a "/shutdown" request is answered
    (its preStop hook ends and Envoy is stopped), a "/drain" request has
    already seen no more open connections than allowed, provided that the
    ready file did not exist from the start. *)
Theorem drain_before_shutdown fs p h1 h2 body err :
  ShutdownReadyFile mgr ∉ fs → rtc (pool_step mgr) (mkPool fs [] []) p →
  p_history p = h2 ++ (ShutdownEndpoint, AWrite body err) :: h1 → drained mgr h1.
Proof.
  intros Hfs Hr. assert (pool_ok p) as Hok; [|by apply Hok].
  assert (pool_ok (mkPool fs [] [])) as H0.
  { split; simpl; [done|set_solver|]. by intros [|]. }
  clear Hfs. induction Hr; eauto using pool_step_ok.
Qed.
End Safety.

(** ** One handler against the clock *)

(** An environment: how Envoy answers the requests sent at a time, how long it
    takes, when the client gives up, and what becomes of created files. *)
Record Timing := mkTiming {
  tm_post : Z → error + HTTPResponse;
  tm_get : Z → error + HTTPResponse;
  tm_latency : Z → Z;
  tm_deadline : Z;
  tm_create : Z → option error;
}.

(** The time, since when files exist, and what the client was sent. *)
Record Run := mkRun { r_clock : Z; r_files : gmap string Z; r_sent : list action }.

Definition at_time (s : Run) (t : Z) : Run := mkRun t (r_files s) (r_sent s).
Definition send (s : Run) (a : action) : Run :=
  mkRun (r_clock s) (r_files s) (r_sent s ++ [a]).

Section Timed.
Context {R : Retry} {P : Prometheus}.
Variable tm : Timing.

Definition file_exists (s : Run) (path : string) : bool :=
  match r_files s !! path with Some t => bool_decide (t ≤ r_clock s) | None => false end.

Definition perform {X} (e : shutdownE X) (s : Run) : X * Run :=
  match e in shutdownE X return X * Run with
  | Stat p => (if file_exists s p then StatOK else StatNotExist, s)
  | Create p =>
     match tm_create tm (r_clock s) with
     | None => (None, mkRun (r_clock s) (<[p := r_clock s]> (r_files s)) (r_sent s))
     | Some err => (Some err, s)
     end
  | HTTPPost _ => (tm_post tm (r_clock s), at_time s (r_clock s + tm_latency tm (r_clock s)))
  | HTTPGet _ => (tm_get tm (r_clock s), at_time s (r_clock s + tm_latency tm (r_clock s)))
  | Sleep d => (tt, at_time s (r_clock s + d))
  | SelectAfter d =>
     if decide (r_clock s + d < tm_deadline tm) then (true, at_time s (r_clock s + d))
     else (false, at_time s (Z.max (r_clock s) (tm_deadline tm)))
  | WriteHeader code => (tt, send s (AHeader code))
  | Write body => (None, send s (AWrite body None))
  end.

(** The state in which a handler returns, if it does within [n] steps. *)
Fixpoint run (n : nat) (t : handler) (s : Run) : option Run :=
  match n with
  | O => None
  | S n =>
     match observe t with
     | RetF _ => Some s
     | TauF u => run n u s
     | VisF e k => let '(x, s) := perform e s in run n (k x) s
     end
  end.

(** [t] returns from [s] in [s']. *)
Definition returns (t : handler) (s s' : Run) : Prop := ∃ n, run n t s = Some s'.

Lemma run_observe n t u s : observe t = observe u → run n t s = run n u s.
Proof. destruct n; [done|]. simpl. by intros ->. Qed.

Lemma returns_observe t u s s' : observe t = observe u → returns u s s' → returns t s s'.
Proof. intros H [n Hn]. exists n. by rewrite (run_observe _ _ _ _ H). Qed.

(** One step of a run. *)
Lemma returns_step t s s' :
  match observe t with
  | RetF _ => s' = s
  | TauF u => returns u s s'
  | VisF e k => returns (k (fst (perform e s))) (snd (perform e s)) s'
  end → returns t s s'.
Proof.
  destruct (observe t) as [r|u|X e k] eqn:E.
  - intros ->. exists 1%nat. simpl. by rewrite E.
  - intros [n Hn]. exists (S n). simpl. by rewrite E.
  - intros [n Hn]. exists (S n). simpl. rewrite E. by destruct (perform e s).
Qed.

(** A handler returns once. *)
Lemma returns_unique t s s1 s2 : returns t s s1 → returns t s s2 → s1 = s2.
Proof.
  intros [n Hn] [m Hm]. revert m t s Hn Hm. induction n as [|n IH]; intros [|m] t s; simpl; try done.
  destruct (observe t) as [|u|X e k]; [congruence|apply IH|]. destruct (perform e s). apply IH.
Qed.
End Timed.

Section Liveness.
Context {R : Retry} {RL : RetryLaws R} {P : Prometheus}.
Variable (mgr : Manager) (tm : Timing) (latency : Z).
Hypothesis latency_bound : ∀ t, 0 ≤ tm_latency tm t ≤ latency.
Hypothesis ready_interval : 0 < ShutdownReadyCheckInterval mgr.
Hypothesis drain_interval : 0 < CheckDrainInterval mgr.
Implicit Types s : Run.

(** A turn of the loop of "/shutdown". *)
Lemma shutdown_again s s' :
  file_exists s (ShutdownReadyFile mgr) = false →
  r_clock s + ShutdownReadyCheckInterval mgr < tm_deadline tm →
  returns tm (shutdownHandler mgr) (at_time s (r_clock s + ShutdownReadyCheckInterval mgr)) s' →
  returns tm (shutdownHandler mgr) s s'.
Proof.
  intros Hf Hd Hr. apply returns_step; simpl. rewrite Hf.
  apply returns_step; simpl. rewrite decide_True by done.
  apply returns_step. exact Hr.
Qed.

Lemma shutdown_found s :
  file_exists s (ShutdownReadyFile mgr) = true →
  returns tm (shutdownHandler mgr) s (send s (AWrite "OK" None)).
Proof.
  intros Hf. apply returns_step; simpl. rewrite Hf.
  apply returns_step; simpl. by apply returns_step.
Qed.

Lemma shutdown_released s f :
  r_files s !! ShutdownReadyFile mgr = Some f →
  f + ShutdownReadyCheckInterval mgr ≤ tm_deadline tm →
  ∃ c, returns tm (shutdownHandler mgr) s (send (at_time s c) (AWrite "OK" None)) ∧
       Z.max (r_clock s) f ≤ c ∧ (c < f + ShutdownReadyCheckInterval mgr ∨ c = r_clock s).
Proof.
  intros Hf Hd. remember (Z.to_nat (f - r_clock s)) as n eqn:Hn. revert s Hf Hn.
  induction n as [n IH] using lt_wf_ind. intros s Hf Hn.
  destruct (decide (f ≤ r_clock s)) as [Hle|Hle].
  - exists (r_clock s). split; [|lia]. replace (at_time s (r_clock s)) with s by (by destruct s).
    apply shutdown_found.
    unfold file_exists. rewrite Hf. by apply bool_decide_true.
  - destruct (IH (Z.to_nat (f - (r_clock s + ShutdownReadyCheckInterval mgr))) ltac:(lia)
      (at_time s (r_clock s + ShutdownReadyCheckInterval mgr)) Hf eq_refl) as (c & Hc & Hmax & Hb).
    simpl in *. exists c. split; [|lia]. apply shutdown_again; [|lia|exact Hc].
    unfold file_exists. rewrite Hf. by apply bool_decide_false.
Qed.

Lemma shutdown_returns s :
  ∃ s', returns tm (shutdownHandler mgr) s s' ∧ r_clock s' ≤ Z.max (r_clock s) (tm_deadline tm).
Proof.
  remember (Z.to_nat (tm_deadline tm - r_clock s)) as n eqn:Hn. revert s Hn.
  induction n as [n IH] using lt_wf_ind. intros s Hn.
  destruct (file_exists s (ShutdownReadyFile mgr)) eqn:Hf.
  { exists (send s (AWrite "OK" None)). split; [by apply shutdown_found|simpl; lia]. }
  destruct (decide (r_clock s + ShutdownReadyCheckInterval mgr < tm_deadline tm)) as [Hd|Hd].
  - destruct (IH (Z.to_nat (tm_deadline tm - (r_clock s + ShutdownReadyCheckInterval mgr))) ltac:(lia)
      (at_time s (r_clock s + ShutdownReadyCheckInterval mgr)) eq_refl) as (s' & Hs & Hc). exists s'. split; [by apply shutdown_again|].
    simpl in Hc. lia.
  - exists (at_time s (Z.max (r_clock s) (tm_deadline tm))). split; [|simpl; lia].
    apply returns_step; simpl. rewrite Hf.
    apply returns_step; simpl. rewrite decide_False by done.
    by apply returns_step.
Qed.

(** The state in which a poll of the drain loop is answered. *)
Definition polled s : Run := at_time s (r_clock s + tm_latency tm (r_clock s)).
Definition few s : bool :=
  match check_response mgr (tm_get tm (r_clock s)) with
  | inr n => bool_decide (n ≤ MinOpenConnections mgr)
  | inl _ => false
  end.
Definition drain_loop : handler := ITree.iter (λ _, drain_turn mgr) tt.

Lemma drain_poll s s' :
  returns tm (ITree.bind (drain_decide mgr (check_response mgr (tm_get tm (r_clock s))))
                (next_turn (drain_turn mgr))) (polled s) s' →
  returns tm drain_loop s s'.
Proof.
  intros H. apply returns_step; simpl. eapply returns_observe; [|exact H]. done.
Qed.

(** Few connections: the file is created, if it can be, and the client gets its
    answer. *)
Lemma drain_few s :
  few s = true →
  returns tm drain_loop s (send (snd (perform tm (Create (ShutdownReadyFile mgr)) (polled s)))
                                (AWrite "OK" None)).
Proof.
  unfold few. intros H. apply drain_poll. destruct (check_response _ _) as [|n]; [done|].
  apply bool_decide_eq_true in H. simpl. rewrite decide_True by done.
  apply returns_step; cbn [observe]. apply returns_step; cbn [observe].
  by apply returns_step.
Qed.

Lemma drain_many s s' :
  few s = false →
  returns tm (ITree.bind (drain_wait mgr) (next_turn (drain_turn mgr))) (polled s) s' →
  returns tm drain_loop s s'.
Proof.
  unfold few. intros H Hr. apply drain_poll. destruct (check_response _ _) as [|n]; [done|].
  apply bool_decide_eq_false in H. simpl. by rewrite decide_False.
Qed.

Lemma drain_again s s' :
  few s = false → r_clock (polled s) + CheckDrainInterval mgr < tm_deadline tm →
  returns tm drain_loop (at_time s (r_clock (polled s) + CheckDrainInterval mgr)) s' →
  returns tm drain_loop s s'.
Proof.
  intros H Hd Hr. apply drain_many; [done|]. simpl in Hd.
  apply returns_step; simpl. rewrite decide_True by done. apply returns_step. exact Hr.
Qed.

(** When there are few connections from [T] on, the loop ends. *)
Lemma drain_loop_done s T :
  (∀ t, T ≤ t → few (at_time s t) = true) → (∀ t, tm_create tm t = None) →
  T + latency + CheckDrainInterval mgr ≤ tm_deadline tm →
  ∃ c, returns tm drain_loop s
         (mkRun c (<[ShutdownReadyFile mgr := c]> (r_files s)) (r_sent s ++ [AWrite "OK" None])) ∧
       r_clock s ≤ c ≤ Z.max (r_clock s) (T + latency + CheckDrainInterval mgr) + latency.
Proof.
  intros Hfew Hcr Hd. remember (Z.to_nat (T - r_clock s)) as n eqn:Hn. revert s Hfew Hn.
  induction n as [n IH] using lt_wf_ind. intros s Hfew Hn.
  pose proof (latency_bound (r_clock s)) as Hl.
  destruct (few s) eqn:Hf.
  - exists (r_clock (polled s)). split; [|simpl; lia]. pose proof (drain_few s Hf) as Hr.
    cbn [perform] in Hr. by rewrite Hcr in Hr.
  - destruct (decide (T ≤ r_clock s)) as [Ht|Ht].
    { specialize (Hfew _ Ht). unfold few in Hf, Hfew. simpl in Hfew. by rewrite Hfew in Hf. }
    set (s1 := at_time s (r_clock (polled s) + CheckDrainInterval mgr)).
    destruct (IH (Z.to_nat (T - r_clock s1)) ltac:(simpl; lia) s1 Hfew eq_refl) as (c & Hc & Hb).
    exists c. split; [apply drain_again; [done|simpl; lia|exact Hc]|]. simpl in Hb. lia.
Qed.

Lemma drain_loop_returns s :
  ∃ s', returns tm drain_loop s s' ∧ r_clock s' ≤ Z.max (r_clock s) (tm_deadline tm) + latency.
Proof.
  remember (Z.to_nat (tm_deadline tm - r_clock s)) as n eqn:Hn. revert s Hn.
  induction n as [n IH] using lt_wf_ind. intros s Hn.
  pose proof (latency_bound (r_clock s)) as Hl. destruct (few s) eqn:Hf.
  { eexists. split; [by apply drain_few|]. cbn [perform]. destruct (tm_create _ _); simpl; lia. }
  destruct (decide (r_clock (polled s) + CheckDrainInterval mgr < tm_deadline tm)) as [Hd|Hd].
  - set (s1 := at_time s (r_clock (polled s) + CheckDrainInterval mgr)).
    destruct (IH (Z.to_nat (tm_deadline tm - r_clock s1)) ltac:(simpl in *; lia) s1 eq_refl)
      as (s' & Hs & Hc). exists s'. split; [by apply drain_again|]. simpl in *. lia.
  - eexists. split.
    + apply drain_many; [done|]. simpl in Hd.
      apply returns_step; simpl. rewrite decide_False by done. apply returns_step. cbn. by apply returns_step.
    + simpl. lia.
Qed.

Lemma sumZ_nonneg l : Forall (λ d, 0 ≤ d) l → 0 ≤ sumZ l.
Proof. induction 1; simpl; lia. Qed.

(** The time the signal to Envoy takes. *)
Lemma attempts_return waits (k : option error → handler) s :
  Forall (λ d, 0 ≤ d) waits →
  ∃ c err, r_clock s ≤ c ≤ r_clock s + sumZ waits + Z.of_nat (S (length waits)) * latency ∧
    ∀ s', returns tm (k err) (at_time s c) s' →
          returns tm (ITree.bind (attempts waits (shutdownEnvoy mgr)) k) s s'.
Proof.
  intros Hw. revert s. induction Hw as [|d waits Hd Hw IH]; intros s;
    pose proof (latency_bound (r_clock s)) as Hl.
  - exists (r_clock s + tm_latency tm (r_clock s)), (check_post mgr (tm_post tm (r_clock s))).
    split; [simpl; lia|]. intros s' Hr. apply returns_step; cbn.
    by eapply returns_observe; [|exact Hr].
  - set (s1 := at_time s (r_clock s + tm_latency tm (r_clock s))).
    set (r := tm_post tm (r_clock s)).
    assert (Z.of_nat (S (length (d :: waits))) * latency =
            Z.of_nat (S (length waits)) * latency + latency) as Hlen by (cbn [length]; lia).
    assert (∀ s', returns tm (ITree.bind
        match check_post mgr r with
        | None => Ret None
        | Some _ => _ ← trigger (Sleep d); attempts waits (shutdownEnvoy mgr)
        end k) s1 s' →
      returns tm (ITree.bind (attempts (d :: waits) (shutdownEnvoy mgr)) k) s s') as Hs.
    { intros s' Hr. apply returns_step; cbn. by eapply returns_observe; [|exact Hr]. }
    destruct (check_post mgr r) as [err|].
    + destruct (IH (at_time s1 (r_clock s1 + d))) as (c & err' & Hc & Hk).
      exists c, err'. split; [rewrite Hlen; simpl in *; lia|]. intros s' Hr. apply Hs.
      apply returns_step; cbn. specialize (Hk s' Hr). by eapply returns_observe; [|exact Hk].
    + exists (r_clock s1), None. split; [|intros s' Hr; apply Hs; by eapply returns_observe; [|exact Hr]].
      rewrite Hlen. pose proof (sumZ_nonneg _ Hw). simpl in *. nia.
Qed.

Lemma backoff_total waits :
  S (length waits) = Steps drain_backoff →
  (∀ i d, waits !! i = Some d →
     0 ≤ d ∧ (inject_Z d <= inject_Z (b_Duration drain_backoff) * Factor drain_backoff ^ Z.of_nat i *
                            (1 + Jitter drain_backoff))%Q) →
  Forall (λ d, 0 ≤ d) waits ∧ sumZ waits ≤ 6820 * Millisecond.
Proof.
  intros Hlen H. split.
  { apply Forall_forall. intros d [i Hi]%list_elem_of_lookup_1. by apply (H i). }
  destruct waits as [|d0 [|d1 [|d2 [|]]]]; try done.
  assert (∀ i d z, [d0; d1; d2] !! i = Some d →
    (inject_Z (b_Duration drain_backoff) * Factor drain_backoff ^ Z.of_nat i *
     (1 + Jitter drain_backoff) == inject_Z z)%Q → d ≤ z) as Hb.
  { intros i d z Hi Hz. apply H in Hi as [_ Hi]. rewrite Hz in Hi. by rewrite Zle_Qle. }
  pose proof (Hb 0%nat d0 220000000 eq_refl eq_refl). pose proof (Hb 1%nat d1 1100000000 eq_refl eq_refl).
  pose proof (Hb 2%nat d2 5500000000 eq_refl eq_refl). unfold Millisecond. simpl. lia.
Qed.

(** When the drain loop starts. *)
Definition signalled (start : Z) : Z :=
  start + StartDrainDelay mgr + 6820 * Millisecond + 4 * latency + CheckDrainDelay mgr.

Lemma drain_starts s :
  0 ≤ StartDrainDelay mgr → 0 ≤ CheckDrainDelay mgr →
  ∃ c, r_clock s ≤ c ≤ signalled (r_clock s) ∧
       ∀ s', returns tm drain_loop (at_time s c) s' → returns tm (drainHandler mgr) s s'.
Proof.
  intros Hs Hc. destruct (on_error drain_backoff (shutdownEnvoy mgr)) as (waits & Hw & Hl & Hd);
    [simpl; lia|done..|]. destruct (backoff_total waits Hl Hd) as [Hnn Hsum].
  destruct (attempts_return waits (λ _, _ ← trigger (Sleep (CheckDrainDelay mgr)); drain_loop)
    (at_time s (r_clock s + StartDrainDelay mgr)) Hnn) as (c & err & Hb & Hk). simpl in *.
  exists (c + CheckDrainDelay mgr). rewrite Hl in Hb. split; [unfold signalled; lia|].
  intros s' Hr. apply returns_step; simpl.
  eapply returns_observe; [|apply Hk]; [cbn; by rewrite Hw|].
  apply returns_step; cbn. eapply returns_observe; [|exact Hr]. done.
Qed.

(** C15: the hooks end when Envoy is drained.  When, from a time [T] on, Envoy
    reports no more open connections than allowed and files can be created, a
    "/drain" request is answered, and the ready file is there, at the latest
    one polling interval after [T] (or after the delays, if that is later), give
    or take the latency of Envoy; and a "/shutdown" request that waits for it
    is answered within its own polling interval.  This holds if the client
    waits that long. *)
Theorem drain_releases s s2 T :
  0 ≤ StartDrainDelay mgr → 0 ≤ CheckDrainDelay mgr →
  (∀ t, T ≤ t → few (at_time s t) = true) → (∀ t, tm_create tm t = None) →
  let D := Z.max (signalled (r_clock s)) (T + latency + CheckDrainInterval mgr) + latency in
  D + ShutdownReadyCheckInterval mgr ≤ tm_deadline tm →
  ∃ c, c ≤ D ∧
    returns tm (drainHandler mgr) s
      (mkRun c (<[ShutdownReadyFile mgr := c]> (r_files s)) (r_sent s ++ [AWrite "OK" None])) ∧
    (r_files s2 !! ShutdownReadyFile mgr = Some c →
     ∃ c2, returns tm (shutdownHandler mgr) s2 (send (at_time s2 c2) (AWrite "OK" None)) ∧
       c ≤ c2 ∧ (c2 < c + ShutdownReadyCheckInterval mgr ∨ c2 = r_clock s2)).
Proof.
  intros Hs Hc Hfew Hcr D Hd. pose proof (latency_bound 0) as Hl.
  destruct (drain_starts s Hs Hc) as (c0 & Hc0 & Hstart).
  destruct (drain_loop_done (at_time s c0) T) as (c & Hr & Hb); [done..|lia|]. simpl in Hb.
  exists c. split; [lia|]. split; [by apply Hstart|]. intros Hf.
  destruct (shutdown_released s2 c Hf) as (c2 & Hr2 & Hm & Hor); [lia|].
  exists c2. split; [done|]. lia.
Qed.

End Liveness.

(** ** The manager of a pod *)

(** The names and values of the flags of the container the generator builds. *)
Lemma shutdown_args {Q : Quantities} cc c :
  shutdown_manager_container cc = Ok c →
  ctr_Args c = "shutdown-manager" :: flag_args [("port", Itoa (cc_ShutdownManagerPort cc))].
Proof.
  unfold shutdown_manager_container. intros H. repeat (res_inv; simpl in * ). by simplify_eq/=.
Qed.

(** The manager the generator starts.  The shutdown manager of a pod
    listens at the port that the preStop hooks use and polls with the default
    intervals.  But it is not told the admin port of Envoy: it sends its
    requests to port 9901, which is Envoy's only when the admin port is not
    changed. *)
Theorem shutdown_manager_admin {F : FlagSet} {FL : FlagSetLaws F} {Q : Quantities} cc c :
  shutdown_manager_container cc = Ok c →
  0 ≤ cc_ShutdownManagerPort cc < 2 ^ 31 → 0 ≤ cc_AdminPort cc < 2 ^ 31 →
  ∃ mgr, runShutdownManager (tail (ctr_Args c)) = inr mgr ∧
    HTTPServePort mgr = cc_ShutdownManagerPort cc ∧
    ShutdownReadyCheckInterval mgr = 1 * Second ∧ CheckDrainInterval mgr = 5 * Second ∧
    StartDrainDelay mgr = 0 ∧ CheckDrainDelay mgr = 15 * Second ∧ MinOpenConnections mgr = 0 ∧
    (EnvoyAdminAddress mgr = "http://localhost:" +:+ Itoa (cc_AdminPort cc) ↔
     cc_AdminPort cc = 9901).
Proof.
  intros Hc Hp Ha. rewrite (shutdown_args _ _ Hc). cbn [tail]. unfold runShutdownManager.
  rewrite parse_pairs; [|by apply NoDup_singleton|by repeat constructor].
  cbn [mbind sum_bind]. unfold IntVar, StringVar. simpl list_to_map. rewrite !lookup_insert_ne by done.
  rewrite lookup_insert_eq, !lookup_empty. rewrite int_value by lia. cbn [mbind sum_bind].
  eexists. split; [done|]. simpl. do 6 (split; [done|]). split.
  - intros H. apply (inj _) in H. change (Itoa 9901 = Itoa (cc_AdminPort cc)) in H.
    apply (f_equal Atoi) in H. rewrite !Atoi_Itoa in H by lia. by injection H as <-.
  - by intros ->.
Qed.

(** ** Concrete runs *)

Module ShutdownRuns.
(** Waits without jitter. *)
Definition plain_wait (b : Backoff) (i : nat) : Z :=
  Qfloor (inject_Z (b_Duration b) * Factor b ^ Z.of_nat i).
Definition plain_retry : Retry :=
  {| OnError b fn := attempts (plain_wait b <$> seq 0 (pred (Steps b))) fn |}.

#[global] Instance plain_retry_laws : RetryLaws plain_retry.
Proof.
  split. intros b fn Hs HD HF HJ. exists (plain_wait b <$> seq 0 (pred (Steps b))).
  split; [done|]. split; [rewrite length_fmap, length_seq; lia|].
  intros i d (j & -> & [-> _]%lookup_seq)%list_lookup_fmap_Some.
  assert (0 <= inject_Z (b_Duration b) * Factor b ^ Z.of_nat (0 + i))%Q as Hnn.
  { apply Qmult_le_0_compat; [by rewrite <- (Zle_Qle 0)|by apply Qpower_0_le]. }
  split; unfold plain_wait.
  - change 0 with (Qfloor 0). by apply Qfloor_resp_le.
  - eapply Qle_trans; [apply Qfloor_le|]. rewrite <- (Qmult_1_r (_ * _)) at 1.
    apply Qmult_le_compat_nonneg; [split; [done|apply Qle_refl]|split; [done|]]. rewrite <- (Qplus_0_r 1) at 1.
    apply Qplus_le_compat; [apply Qle_refl|done].
Qed.

(** Three metrics texts. *)
Definition listener (name : string) (gauge : positive) : Metric :=
  mkMetric [mkLabelPair "envoy_http_conn_manager_prefix" name] (Some (S754_finite false gauge 0)).
Definition texts : Prometheus := {|
  TextToMetricFamilies s :=
    match s with
    | "idle" => inr {[ prometheusStat := [listener "admin" 1] ]}
    | "busy" => inr {[ prometheusStat := [listener "admin" 1; listener "http" 3] ]}
    | "labels" =>
       inr {[ prometheusStat :=
                [mkMetric [mkLabelPair "prefix" "admin"; mkLabelPair "zone" "a"]
                   (Some (S754_finite false 1 0));
                 mkMetric [mkLabelPair "prefix" "http"; mkLabelPair "zone" "a"]
                   (Some (S754_finite false 3 0))] ]}
    | _ => inl (ErrorString "no metrics")
    end;
  float_overflow := - 2 ^ 63;
|}.
#[local] Existing Instance plain_retry.
#[local] Existing Instance texts.
#[local] Existing Instance pflag_impl.

Lemma open_connections_witness : parseOpenConnections "busy" = inr 3.
Proof.
  pose proof (open_connections "busy"
    {[ prometheusStat := [listener "admin" 1; listener "http" 3] ]} eq_refl) as H.
  rewrite lookup_singleton_eq in H. destruct H as [_ H]. rewrite H by repeat constructor.
  vm_compute. reflexivity.
Defined.

(** Labels are counted, not connections.  With a second label on the
    metrics, the connections of the admin listener are counted and those of
    other listeners are counted twice. *)
Theorem labels_counted : parseOpenConnections "labels" = inr 7.
Proof. vm_compute. reflexivity. Qed.

Definition manager : Manager :=
  mkManager 8090 "/tmp/shutdown-ok" Second (5 * Second) (15 * Second) 0 "http://localhost:9901" 0.

(** A pod in which every operation succeeds and Envoy is idle. *)
Definition idle_answer (fs : gset string) {X} (e : shutdownE X) : X :=
  match e in shutdownE X return X with
  | Stat p => if decide (p ∈ fs) then StatOK else StatNotExist
  | Create _ => None
  | HTTPPost _ => inr (mkHTTPResponse 200 "200 OK" "")
  | HTTPGet _ => inr (mkHTTPResponse 200 "200 OK" "idle")
  | Sleep _ => tt
  | SelectAfter _ => true
  | WriteHeader _ => tt
  | Write _ => None
  end.
Definition idle_files (fs : gset string) {X} (e : shutdownE X) : gset string :=
  match e with Create p => {[p]} ∪ fs | _ => fs end.

Lemma idle_answers fs {X} (e : shutdownE X) : answers fs e (idle_answer fs e) (idle_files fs e).
Proof. destruct e; simpl; try done. split; [done|]. by case_decide. Qed.

(** Accept a request, or let a handler make a step. *)
Inductive choice := Accept (path : string) | Go (i : nat).

Definition choose (p : Pool) (c : choice) : option Pool :=
  match c with
  | Accept path =>
     t ← mux manager path;
     Some (mkPool (p_files p) (p_threads p ++ [(path, t)]) (p_history p))
  | Go i =>
     '(path, t) ← p_threads p !! i;
     match observe t with
     | RetF _ => None
     | TauF u => Some (mkPool (p_files p) (<[i := (path, u)]> (p_threads p)) (p_history p))
     | VisF e k =>
        let x := idle_answer (p_files p) e in
        Some (mkPool (idle_files (p_files p) e) (<[i := (path, k x)]> (p_threads p))
                ((path, action_of e x) :: p_history p))
     end
  end.

Lemma choose_steps cs p p' : foldl (λ p c, p ≫= λ p, choose p c) (Some p) cs = Some p' →
  rtc (pool_step manager) p p'.
Proof.
  revert p. induction cs as [|c cs IH]; intros p; simpl; [intros [= ->]; done|].
  destruct (choose p c) as [p1|] eqn:Ec.
  - intros H. apply rtc_l with p1; [|by apply IH]. clear H. destruct p as [fs ts h], c as [path|i]; simpl in Ec.
    + destruct (mux manager path) eqn:Em; [|done]. injection Ec as <-. by constructor.
    + destruct (ts !! i) as [[path t]|] eqn:Ei; [|done]. simpl in Ec.
      destruct (observe t) as [|u|X e k] eqn:Eo; [done|injection Ec as <-; by econstructor|].
      injection Ec as <-. econstructor; [done..|]. apply idle_answers.
  - intros H. exfalso. clear -H. induction cs; simpl in *; [done|auto].
Qed.

(** "/shutdown" looks for the file, "/drain" runs, "/shutdown" is answered. *)
Definition schedule : list choice :=
  [Accept "/shutdown"; Accept "/drain"; Go 0; Go 1; Go 1; Go 1; Go 1; Go 1; Go 1; Go 0; Go 0; Go 0; Go 0].

Definition isSome {A} (o : option A) : bool := match o with Some _ => true | None => false end.

Definition after_schedule : Pool :=
  default (mkPool ∅ [] []) (foldl (λ p c, p ≫= λ p, choose p c) (Some (mkPool ∅ [] [])) schedule).

Lemma drain_before_shutdown_witness :
  ∃ h1, p_history after_schedule = (ShutdownEndpoint, AWrite "OK" None) :: h1 ∧ drained manager h1.
Proof.
  exists (tail (p_history after_schedule)).
  assert (p_history after_schedule =
    (ShutdownEndpoint, AWrite "OK" None) :: tail (p_history after_schedule)) as H
    by (vm_compute; reflexivity).
  split; [exact H|].
  apply (drain_before_shutdown manager ∅ after_schedule (tail (p_history after_schedule)) [] "OK" None).
  - vm_compute. intros Hin. inversion Hin.
  - apply (choose_steps schedule). unfold after_schedule.
    assert (isSome (foldl (λ p c, p ≫= λ p, choose p c) (Some (mkPool ∅ [] [])) schedule) = true) as Hs
      by (vm_compute; reflexivity).
    destruct (foldl _ _ schedule); [reflexivity|discriminate Hs].
  - exact H.
Defined.

(** Envoy is busy for twenty seconds and takes a tenth of a second to answer. *)
Definition busy : Timing := mkTiming
  (λ _, inr (mkHTTPResponse 200 "200 OK" ""))
  (λ t, inr (mkHTTPResponse 200 "200 OK" (if decide (t < 20 * Second) then "busy" else "idle")))
  (λ _, 100 * Millisecond) (300 * Second) (λ _, None).

Lemma busy_few s t : 20 * Second ≤ t → few manager busy (at_time s t) = true.
Proof. intros Ht. unfold few. simpl. rewrite decide_False by lia. vm_compute. reflexivity. Qed.

Lemma busy_latency t : 0 ≤ tm_latency busy t ≤ 100 * Millisecond.
Proof. vm_compute. split; discriminate. Qed.

Lemma drain_releases_witness :
  ∃ c, c ≤ 26 * Second ∧
    returns busy (drainHandler manager) (mkRun 0 ∅ [])
      (mkRun c (<["/tmp/shutdown-ok" := c]> ∅) [AWrite "OK" None]).
Proof.
  destruct (drain_releases manager busy (100 * Millisecond) busy_latency eq_refl eq_refl
    (mkRun 0 ∅ []) (mkRun 0 ∅ []) (20 * Second)) as (c & Hc & Hr & _).
  - vm_compute. discriminate.
  - vm_compute. discriminate.
  - intros t. apply busy_few.
  - reflexivity.
  - vm_compute. discriminate.
  - exists c. split; [|exact Hr]. apply (Z.le_trans _ _ _ Hc). vm_compute. discriminate.
Defined.


(** The container of a pod whose Envoy has another admin port. *)
Definition all_quantities : Quantities := {| quantity_error _ := None |}.
#[local] Existing Instance all_quantities.

Lemma shutdown_manager_admin_witness :
  ∃ c mgr, shutdown_manager_container example_pod_config = Ok c ∧
    runShutdownManager (tail (ctr_Args c)) = inr mgr ∧
    EnvoyAdminAddress mgr ≠ "http://localhost:5000".
Proof.
  destruct (shutdown_manager_admin (Q := all_quantities) example_pod_config _ eq_refl) as (mgr & Hr & H).
  - vm_compute. split; [discriminate|reflexivity].
  - vm_compute. split; [discriminate|reflexivity].
  - eexists _, mgr. split; [reflexivity|]. split; [exact Hr|].
    destruct H as (_ & _ & _ & _ & _ & _ & H). intros Ha. apply H in Ha. discriminate Ha.
Defined.
End ShutdownRuns.
