(* ===== verification/Bootstrap.v ===== *)
(** * The init manager and Envoy's bootstrap configuration
    ([pkg/envoy/bootstrap], [cmd/initmanager.go])

    The init container of an Envoy pod writes two files: the bootstrap
    configuration Envoy starts with, which makes it connect to the xDS server
    with a client certificate, and the SDS resource that says where that
    certificate is.  The configuration is kept as a record with the fields of
    the protobuf messages that the source fills in; its JSON, [anypb.New], the
    files and [net.ParseIP] belong to libraries.

    The theorem runs the init manager on the command line that the container
    generator builds. *)

From S2P Require Import Prelude Meta Envoy Api Stats Callbacks OperatorTypes Flags Container.
#[local] Open Scope string_scope.
#[local] Open Scope list_scope.
#[local] Open Scope Z_scope.

(** ** [options/config_options.go] *)

Definition TlsCertificateSdsSecretFileName : string := "tls_certificate_sds_secret.json".
Definition XdsClusterName : string := "xds_cluster".

Record ConfigOptions := mkConfigOptions {
  co_NodeID : string;
  co_Cluster : string;
  co_XdsHost : string;
  co_XdsPort : Z;
  co_XdsClientCertificatePath : string;
  co_XdsClientCertificateKeyPath : string;
  co_SdsConfigSourcePath : string;
  co_RtdsLayerResourceName : string;
  co_AdminAddress : string;
  co_AdminPort : Z;
  co_AdminAccessLogPath : string;
  co_Metadata : gmap string string;
}.

(** ** The messages *)

Inductive ApiVersion := ApiVersion_V3.

Inductive ConfigSourceSpecifier := ConfigSource_PathConfigSource (path : string) | ConfigSource_Ads.
Record ConfigSource := mkConfigSource {
  cs_ResourceApiVersion : ApiVersion;
  cs_ConfigSourceSpecifier : ConfigSourceSpecifier;
}.

Record SdsSecretConfig := mkSdsSecretConfig { sds_Name : string; sds_SdsConfig : ConfigSource }.

Record SocketAddress := mkSocketAddress { sa_Address : string; sa_PortValue : Z }.

(** The messages that are packed with [anypb.New]. *)
Inductive AnyMessage :=
  | UpstreamTlsContext (TlsCertificateSdsSecretConfigs : list SdsSecretConfig)
  | FileAccessLog (path : string)
  | HttpProtocolOptions_Http2
  | AnySecret (secret : Message).

Record AccessLog := mkAccessLog { al_Name : string; al_TypedConfig : AnyMessage }.
Record Admin := mkAdmin { ad_AccessLog : list AccessLog; ad_Address : SocketAddress }.
Record BootstrapNode := mkBootstrapNode {
  bn_Id : string; bn_Cluster : string; bn_Metadata : option (gmap string string) }.

(** The API type is gRPC; the services are the names of their clusters. *)
Record ApiConfigSource := mkApiConfigSource {
  acs_TransportApiVersion : ApiVersion; acs_GrpcServices : list string }.
Record DynamicResources := mkDynamicResources {
  dr_AdsConfig : ApiConfigSource; dr_CdsConfig : ConfigSource; dr_LdsConfig : ConfigSource }.

(** A cluster of type STRICT_DNS; the timeout is in nanoseconds. *)
Record StaticCluster := mkStaticCluster {
  sc_ClusterName : string;
  sc_ConnectTimeout : Z;
  sc_LoadAssignment : string * list (list SocketAddress);
  sc_TransportSocket : string * AnyMessage;
  sc_TypedExtensionProtocolOptions : gmap string AnyMessage;
}.

Record RuntimeLayer := mkRuntimeLayer {
  rl_Name : string; rl_RtdsName : string; rl_RtdsConfig : ConfigSource }.

Record BootstrapConfig := mkBootstrapConfig {
  b_Admin : Admin;
  b_Node : BootstrapNode;
  b_DynamicResources : DynamicResources;
  b_StaticClusters : list StaticCluster;
  b_LayeredRuntime : list RuntimeLayer;
}.

Inductive StartupMessage :=
  | BootstrapMessage (b : BootstrapConfig)
  | DiscoveryResponseMessage (Resources : list AnyMessage).

(** ** Libraries *)

(** [anypb.New] packs a message or fails; [JSON.Marshal] of the serializer is
    the composition of the two library functions. *)
Class StartupCodecs := {
  any_error : AnyMessage → option error;
  protojson_Marshal_startup : StartupMessage → string + string;
  json_Marshal_startup : string → string + string;
  net_ParseIP : string → bool;
}.

(** [os.Create] and [WriteString], on a state of files. *)
Class FileSystem (W : Type) := {
  CreateFile : W → string → option error * W;
  WriteString : W → string → string → option error * W;
}.

Class FileSystemLaws {W} (FS : FileSystem W) := {
  contents : W → gmap string string;
  create_file_ok w p w' :
    CreateFile w p = (None, w') → contents w' = <[p := ""]> (contents w);
  create_file_err w p err w' : CreateFile w p = (Some err, w') → contents w' = contents w;
  write_string_ok w p s w' :
    contents w !! p = Some "" → WriteString w p s = (None, w') → contents w' = <[p := s]> (contents w);
}.

Section Generation.
Context {SC : StartupCodecs}.

Definition anypb_New (m : AnyMessage) : result AnyMessage :=
  match any_error m with Some err => Err err | None => Ok m end.

Definition Startup_Marshal (m : StartupMessage) : result string :=
  match protojson_Marshal_startup m with
  | inl err => Err (ErrorString err)
  | inr data =>
     match json_Marshal_startup data with
     | inl err => Err (ErrorString err)
     | inr data2 => Ok data2
     end
  end.

(** ** [v3/bootstrap.go] *)

Definition stringOrDefault (s def : string) : string := if decide (s = "") then def else s.
Definition intOrDefault (i def : Z) : Z := if decide (i = 0) then def else i.

Section Config.
Variable c : ConfigOptions.

Definition getAdminAddress : string := stringOrDefault (co_AdminAddress c) "0.0.0.0".
Definition getAdminPort : Z := intOrDefault (co_AdminPort c) 9001.
Definition getAdminAccessLogPath : string := stringOrDefault (co_AdminAccessLogPath c) "/dev/null".

Definition ads_source : ConfigSource := mkConfigSource ApiVersion_V3 ConfigSource_Ads.

(** The metadata of the node: a struct with a field per key, if there are any. *)
Definition node_metadata : option (gmap string string) :=
  if decide (0 < size (co_Metadata c))%nat then Some (co_Metadata c) else None.

(** The configuration, around the three packed messages. *)
Definition bootstrap_config (tlsContext adminAccessLogConfig http2ProtocolOptions : AnyMessage)
    : BootstrapConfig := {|
  b_Admin := mkAdmin [mkAccessLog "envoy.access_loggers.file" adminAccessLogConfig]
               (mkSocketAddress getAdminAddress getAdminPort);
  b_Node := mkBootstrapNode (co_NodeID c) (co_Cluster c) node_metadata;
  b_DynamicResources :=
    mkDynamicResources (mkApiConfigSource ApiVersion_V3 [XdsClusterName]) ads_source ads_source;
  b_StaticClusters :=
    [mkStaticCluster XdsClusterName (1 * Second)
       (XdsClusterName, [[mkSocketAddress (co_XdsHost c) (co_XdsPort c)]])
       ("envoy.transport_sockets.tls", tlsContext)
       {[ "envoy.extensions.upstreams.http.v3.HttpProtocolOptions" := http2ProtocolOptions ]}];
  b_LayeredRuntime :=
    [mkRuntimeLayer (co_RtdsLayerResourceName c) (co_RtdsLayerResourceName c) ads_source];
|}.

Definition tls_context : AnyMessage :=
  UpstreamTlsContext
    [mkSdsSecretConfig "xds_client_certificate"
       (mkConfigSource ApiVersion_V3 (ConfigSource_PathConfigSource (co_SdsConfigSourcePath c)))].

Definition GenerateStatic : result string :=
  tlsContext ← anypb_New tls_context;
  adminAccessLogConfig ← anypb_New (FileAccessLog getAdminAccessLogPath);
  http2ProtocolOptions ← anypb_New HttpProtocolOptions_Http2;
  Startup_Marshal
    (BootstrapMessage (bootstrap_config tlsContext adminAccessLogConfig http2ProtocolOptions)).

Definition GenerateSdsResources : result (gmap string string) :=
  a ← anypb_New (AnySecret (NewTlsSecretFromPath "xds_client_certificate"
                              (co_XdsClientCertificatePath c) (co_XdsClientCertificateKeyPath c)));
  json ← Startup_Marshal (DiscoveryResponseMessage [a]);
  Ok {[ TlsCertificateSdsSecretFileName := json ]}.
End Config.

(** ** [cmd/initmanager.go] *)

Definition parseBindAddress (address : string) : error + string * Z :=
  match Split ":" address with
  | [host; p] =>
     if net_ParseIP host then
       match ParseInt p 32 with
       | None => inl (ErrorString
           "unable to parse port value in 'spec.envoyStaticConfig.adminBindAddress'")
       | Some port => inr (host, uint32 port)
       end
     else inl (ErrorString ("ip address " +:+ host +:+ " is invalid"))
  | _ => inl (ErrorString
      "wrong 'spec.envoyStaticConfig.adminBindAddress' specification, expected '<ip>:<port>'")
  end.

Definition init_flag_names : list string :=
  ["node-id"; "cluster"; "xdss-host"; "xdss-port"; "config-file"; "resources-path";
   "client-certificate-path"; "rtds-resource-name"; "admin-bind-address"; "admin-access-log-path";
   "api-version"; "envoy-image"; "debug"; "metrics-bind-address"; "health-probe-bind-address"].

(** The flags with their defaults. *)
Record InitFlags := mkInitFlags {
  initmgrNodeID : string;
  initmgrCluster : string;
  initmgrXdsHost : string;
  initmgrXdsPort : Z;
  initmgrConfigPath : string;
  initmgrSdsConfigSourcePath : string;
  initmgrXdsClientCertificatePath : string;
  initmgrRtdsLayerResourceName : string;
  initmgrAdminBindAddress : string;
  initmgrAdminAccessLogPath : string;
  initmgrAPIVersion : string;
  initmgrEnvoyImage : string;
}.

Definition init_flags {F : FlagSet} (args : list string) : error + InitFlags :=
  m ← Parse init_flag_names args;
  port ← IntVar m "xdss-port" DefaultXdsServerPort;
  inr {|
    initmgrNodeID := StringVar m "node-id" "";
    initmgrCluster := StringVar m "cluster" "";
    initmgrXdsHost := StringVar m "xdss-host" "";
    initmgrXdsPort := port;
    initmgrConfigPath := StringVar m "config-file"
      (defaults.EnvoyConfigBasePath +:+ "/" +:+ defaults.EnvoyConfigFileName);
    initmgrSdsConfigSourcePath := StringVar m "resources-path" defaults.EnvoyConfigBasePath;
    initmgrXdsClientCertificatePath := StringVar m "client-certificate-path" defaults.EnvoyTLSBasePath;
    initmgrRtdsLayerResourceName := StringVar m "rtds-resource-name" defaults.InitMgrRtdsLayerResourceName;
    initmgrAdminBindAddress := StringVar m "admin-bind-address"
      (defaults.EnvoyAdminBindAddress +:+ ":" +:+ Itoa defaults.EnvoyAdminPort);
    initmgrAdminAccessLogPath := StringVar m "admin-access-log-path" defaults.EnvoyAdminAccessLogPath;
    initmgrAPIVersion := StringVar m "api-version" "v3";
    initmgrEnvoyImage := StringVar m "envoy-image" "";
  |}.

(** How the process ends: [Exit] is a call of [os.Exit]. *)
Inductive process := Finished | Exit (code : Z).

Definition config_options (f : InitFlags) (Getenv : string → string) (host : string) (port : Z)
    : ConfigOptions := {|
  co_NodeID := initmgrNodeID f;
  co_Cluster := initmgrCluster f;
  co_XdsHost := initmgrXdsHost f;
  co_XdsPort := uint32 (initmgrXdsPort f);
  co_XdsClientCertificatePath := initmgrXdsClientCertificatePath f +:+ "/" +:+ "tls.crt";
  co_XdsClientCertificateKeyPath := initmgrXdsClientCertificatePath f +:+ "/" +:+ "tls.key";
  co_SdsConfigSourcePath := initmgrSdsConfigSourcePath f +:+ "/" +:+ TlsCertificateSdsSecretFileName;
  co_RtdsLayerResourceName := initmgrRtdsLayerResourceName f;
  co_AdminAddress := host;
  co_AdminPort := port;
  co_AdminAccessLogPath := initmgrAdminAccessLogPath f;
  co_Metadata :=
    <["pod_name" := Getenv "POD_NAME"]> (<["pod_namespace" := Getenv "POD_NAMESPACE"]>
      (<["host_name" := Getenv "HOST_NAME"]> (<["envoy_image" := initmgrEnvoyImage f]> ∅)));
|}.

Context {W : Type} {FS : FileSystem W}.

(** [os.Create] followed by [WriteString]. *)
Definition write_file (w : W) (path contents : string) : bool * W :=
  match CreateFile w path with
  | (Some _, w) => (false, w)
  | (None, w) =>
     match WriteString w path contents with
     | (Some _, w) => (false, w)
     | (None, w) => (true, w)
     end
  end.

(** The loop over the resource files. *)
Fixpoint write_files (w : W) (dir : string) (files : list (string * string)) : bool * W :=
  match files with
  | [] => (true, w)
  | (file, contents) :: files =>
     match write_file w (dir +:+ "/" +:+ file) contents with
     | (true, w) => write_files w dir files
     | (false, w) => (false, w)
     end
  end.

Definition runInitManager (f : InitFlags) (Getenv : string → string) (w : W) : process * W :=
  if decide (initmgrXdsHost f = "") then (Exit (-1), w)
  else
    match parseBindAddress (initmgrAdminBindAddress f) with
    | inl _ => (Exit (-1), w)
    | inr (host, port) =>
       match ParseAPIVersion (initmgrAPIVersion f) with
       | Ok _ =>
          let options := config_options f Getenv host port in
          match GenerateStatic options, GenerateSdsResources options with
          | Ok config, Ok sdsResources =>
             match write_file w (initmgrConfigPath f) config with
             | (false, w) => (Exit (-1), w)
             | (true, w) =>
                match write_files w (initmgrSdsConfigSourcePath f) (map_to_list sdsResources) with
                | (false, w) => (Exit (-1), w)
                | (true, w) => (Finished, w)
                end
             end
          | _, _ => (Exit (-1), w)
          end
       | _ => (Exit (-1), w)
       end
    end.
End Generation.

(** ** The bind address *)

Section BindAddress.
Context {SC : StartupCodecs}.

Lemma ParseInt_Itoa_32 z : 0 ≤ z < 2 ^ 31 → ParseInt (Itoa z) 32 = Some z.
Proof.
  intros Hz. pose proof (Atoi_Itoa z ltac:(lia)) as H. unfold Atoi, ParseInt in *.
  match type of H with (?q ≫= _) = _ => destruct q as [y|] end; simpl in *; [|done].
  case_decide; [|done]. injection H as ->. by rewrite decide_True by lia.
Qed.

(** The admin address is read as it is written.  An address is accepted
    exactly when it is an IP address without colons, a colon and a number of 32
    bits, and gives these two; in particular the "<ip>:<port>" that the
    container generator writes is read back.  A negative number is accepted
    and wraps around, and an IPv6 address is never accepted. *)
Theorem bind_address_roundtrip address host port :
  parseBindAddress address = inr (host, port) ↔
  ∃ p z, address = host +:+ ":" +:+ p ∧ no_sep ":" host ∧ no_sep ":" p ∧
    net_ParseIP host = true ∧ ParseInt p 32 = Some z ∧ port = uint32 z.
Proof.
  unfold parseBindAddress. split.
  - intros H. pose proof (Join_Split ":" address) as Hj. pose proof (Split_fields_no_sep ":" address) as Hs.
    destruct (Split ":" address) as [|h [|p [|]]]; try done.
    destruct (net_ParseIP h) eqn:Ei; [|done]. destruct (ParseInt p 32) as [z|] eqn:Ep; [|done].
    injection H as -> <-. rewrite !Forall_cons in Hs. destruct Hs as (? & ? & _).
    exists p, z. split; [|done]. rewrite <- Hj. done.
  - intros (p & z & -> & Hh & Hp & Hi & Hz & ->).
    rewrite (Split_field ":" host p Hh), (Split_no_sep ":" p Hp), Hi, Hz. done.
Qed.
End BindAddress.

(** ** The files of a pod *)

Section Files.
Context {SC : StartupCodecs} {F : FlagSet} {FL : FlagSetLaws F}.
Context {W : Type} {FS : FileSystem W} {FSL : FileSystemLaws FS}.
Implicit Types (cc : ContainerConfig) (w : W).

(** The flags the generator sets. *)
Definition generated_flags cc : list (string * string) :=
  [("admin-access-log-path", cc_AdminAccessLogPath cc);
   ("admin-bind-address", cc_AdminBindAddress cc +:+ ":" +:+ Itoa (cc_AdminPort cc));
   ("api-version", cc_APIVersion cc);
   ("client-certificate-path", cc_TLSBasePath cc);
   ("config-file", config_file cc);
   ("resources-path", cc_ConfigBasePath cc);
   ("rtds-resource-name", defaults.InitMgrRtdsLayerResourceName);
   ("xdss-host", cc_XdssHost cc);
   ("xdss-port", Itoa (cc_XdssPort cc));
   ("envoy-image", cc_Image cc)].

Definition generated_init_flags cc : InitFlags :=
  mkInitFlags "" "" (cc_XdssHost cc) (cc_XdssPort cc) (config_file cc) (cc_ConfigBasePath cc)
    (cc_TLSBasePath cc) "runtime" (cc_AdminBindAddress cc +:+ ":" +:+ Itoa (cc_AdminPort cc))
    (cc_AdminAccessLogPath cc) (cc_APIVersion cc) (cc_Image cc).

Lemma generated_args cc i :
  InitContainers cc = [i] → ctr_Args i = "init-manager" :: flag_args (generated_flags cc).
Proof. by intros [= <-]. Qed.

Lemma init_flags_generated cc i :
  InitContainers cc = [i] → 0 ≤ cc_XdssPort cc < 2 ^ 63 →
  init_flags (tail (ctr_Args i)) = inr (generated_init_flags cc).
Proof.
  intros Hi Hp. rewrite (generated_args _ _ Hi). cbn [tail]. unfold init_flags.
  rewrite parse_pairs.
  - cbn [mbind sum_bind]. unfold IntVar, StringVar, generated_flags. cbn [list_to_map foldr uncurry].
    simplify_map_eq. rewrite int_value by done. cbn [mbind sum_bind]. by simplify_map_eq.
  - apply (bool_decide_unpack _). vm_compute. done.
  - unfold generated_flags, init_flag_names. repeat constructor; simpl; set_solver.
Qed.

Lemma write_file_ok w p s w' :
  write_file w p s = (true, w') → contents w' = <[p := s]> (contents w).
Proof.
  unfold write_file. destruct (CreateFile w p) as [[]] eqn:Ec; [done|].
  destruct (WriteString _ p s) as [[]] eqn:Ew; [done|]. intros [= <-].
  apply create_file_ok in Ec. apply write_string_ok in Ew; [|rewrite Ec; apply lookup_insert_eq].
  by rewrite Ew, Ec, insert_insert_eq.
Qed.

(** Where the SDS resource of a pod is. *)
Definition sds_file cc : string := cc_ConfigBasePath cc +:+ "/" +:+ TlsCertificateSdsSecretFileName.

(** The configuration [b] and the text [sds] of the SDS resource fit the
    containers of the pod. *)
Record bootstrap_fits cc (Getenv : string → string) (b : BootstrapConfig) (sds : string) : Prop := {
  bf_admin : ad_Address (b_Admin b) = mkSocketAddress (cc_AdminBindAddress cc) (cc_AdminPort cc);
  bf_xds :
    ∃ c tls, b_StaticClusters b = [c] ∧
      acs_GrpcServices (dr_AdsConfig (b_DynamicResources b)) = [sc_ClusterName c] ∧
      snd (sc_LoadAssignment c) = [[mkSocketAddress (cc_XdssHost cc) (cc_XdssPort cc)]] ∧
      snd (sc_TransportSocket c) = UpstreamTlsContext [tls] ∧
      cs_ConfigSourceSpecifier (sds_SdsConfig tls) = ConfigSource_PathConfigSource (sds_file cc) ∧
      ∃ secret, Startup_Marshal (DiscoveryResponseMessage [AnySecret secret]) = Ok sds ∧
        secret = SecretMessage (sds_Name tls)
          (Secret_TlsCertificate (DataSource_Filename (cc_TLSBasePath cc +:+ "/" +:+ "tls.key"))
             (DataSource_Filename (cc_TLSBasePath cc +:+ "/" +:+ "tls.crt")));
  bf_pod_name :
    ∃ m, bn_Metadata (b_Node b) = Some m ∧
      ∀ req id, dreq_Node req = Some (mkNode id (Some <$> m)) →
        pod_name req = Ok (Ok (Getenv "POD_NAME"));
}.

Lemma anypb_New_Ok m m' : anypb_New m = Ok m' → m' = m.
Proof. unfold anypb_New. destruct (any_error m); by intros [=]. Qed.

Lemma node_metadata_config f Getenv host port :
  node_metadata (config_options f Getenv host port) =
  Some (co_Metadata (config_options f Getenv host port)).
Proof.
  unfold node_metadata. apply decide_True. apply Nat.neq_0_lt_0, map_size_ne_0_lookup.
  exists "pod_name". simpl. by rewrite lookup_insert_eq.
Qed.

Lemma uint32_id z : 0 ≤ z < 2 ^ 32 → uint32 z = z.
Proof. apply Z.mod_small. Qed.

Lemma generated_address cc :
  net_ParseIP (cc_AdminBindAddress cc) = true → no_sep ":" (cc_AdminBindAddress cc) →
  0 ≤ cc_AdminPort cc < 2 ^ 31 →
  parseBindAddress (initmgrAdminBindAddress (generated_init_flags cc)) =
  inr (cc_AdminBindAddress cc, cc_AdminPort cc).
Proof.
  intros Hip Hs Hp. unfold parseBindAddress. simpl.
  rewrite (Split_field ":") by done. rewrite (Split_no_sep ":") by (apply Itoa_no_sep; done || lia).
  rewrite Hip, ParseInt_Itoa_32, uint32_id by lia. done.
Qed.

(** The options and the run of the init manager on the generated command line. *)
Definition generated_options cc Getenv :=
  config_options (generated_init_flags cc) Getenv (cc_AdminBindAddress cc) (cc_AdminPort cc).

Lemma run_generated cc Getenv w :
  cc_XdssHost cc ≠ "" → cc_APIVersion cc = APIv3 →
  net_ParseIP (cc_AdminBindAddress cc) = true → no_sep ":" (cc_AdminBindAddress cc) →
  cc_AdminBindAddress cc ≠ "" → 0 < cc_AdminPort cc < 2 ^ 31 →
  runInitManager (generated_init_flags cc) Getenv w =
  match GenerateStatic (generated_options cc Getenv), GenerateSdsResources (generated_options cc Getenv) with
  | Ok config, Ok sdsResources =>
     match write_file w (config_file cc) config with
     | (false, w) => (Exit (-1), w)
     | (true, w) =>
        match write_files w (cc_ConfigBasePath cc) (map_to_list sdsResources) with
        | (false, w) => (Exit (-1), w)
        | (true, w) => (Finished, w)
        end
     end
  | _, _ => (Exit (-1), w)
  end.
Proof.
  intros Hh Hv Hip Hs Hne Hp. unfold runInitManager. rewrite generated_address by (done || lia). simpl.
  rewrite decide_False by done. unfold ParseAPIVersion. by rewrite decide_True.
Qed.

Lemma write_file_total :
  (∀ w p, fst (CreateFile w p) = None) → (∀ w p s, fst (WriteString w p s) = None) →
  ∀ w p s, ∃ w', write_file w p s = (true, w').
Proof.
  intros Hc Hw w p s. unfold write_file. specialize (Hc w p).
  destruct (CreateFile w p) as [o w1]. simpl in Hc. subst. specialize (Hw w1 p s).
  destruct (WriteString w1 p s) as [o w2]. simpl in Hw. subst. eauto.
Qed.

(** C16: the init manager prepares its pod.  On the command line of the init
    container that the generator builds, it understands every flag; when it
    ends without an error, the file that Envoy is started with holds a
    configuration with the admin address and port that the probes use, with the
    xDS server as the cluster of the ADS, and with the path of the second file
    that was written; that one names the certificate and key in the directory
    where the client certificate is mounted.  The pod name, by which the xDS
    server counts its clients, is the name of the pod.  When no library call
    fails it does end without an error. *)
Theorem init_manager_bootstraps cc i Getenv w :
  InitContainers cc = [i] →
  cc_XdssHost cc ≠ "" → cc_APIVersion cc = APIv3 → 0 ≤ cc_XdssPort cc < 2 ^ 32 →
  net_ParseIP (cc_AdminBindAddress cc) = true → no_sep ":" (cc_AdminBindAddress cc) →
  cc_AdminBindAddress cc ≠ "" → 0 < cc_AdminPort cc < 2 ^ 31 →
  ∃ f, init_flags (tail (ctr_Args i)) = inr f ∧
    (∀ w', runInitManager f Getenv w = (Finished, w') →
     ∃ b config sds, bootstrap_fits cc Getenv b sds ∧
       Startup_Marshal (BootstrapMessage b) = Ok config ∧
       contents w' = <[sds_file cc := sds]> (<[config_file cc := config]> (contents w))) ∧
    flag_value "-c" (ctr_Args (envoy_container cc)) = Some (config_file cc) ∧
    ((∀ m, any_error m = None) → (∀ m, ∃ s, Startup_Marshal m = Ok s) →
     (∀ w p, fst (CreateFile w p) = None) → (∀ w p s, fst (WriteString w p s) = None) →
     fst (runInitManager f Getenv w) = Finished).
Proof.
  intros Hi Hh Hv Hx Hip Hs Hne Hp. exists (generated_init_flags cc).
  split; [apply (init_flags_generated _ i); [done|lia]|].
  rewrite run_generated by (done || lia). set (options := generated_options cc Getenv).
  split; [|split; [done|]].
  - intros w' H. unfold GenerateStatic, GenerateSdsResources in H.
    destruct (anypb_New (tls_context options)) as [tls| |] eqn:E1; [|done..].
    destruct (anypb_New (FileAccessLog _)) as [al| |] eqn:E2; [|done..].
    destruct (anypb_New HttpProtocolOptions_Http2) as [h2| |] eqn:E3; [|done..]. simpl in H.
    apply anypb_New_Ok in E1 as ->. apply anypb_New_Ok in E2 as ->. apply anypb_New_Ok in E3 as ->.
    destruct (Startup_Marshal (BootstrapMessage _)) as [config| |] eqn:Ec; [|done..].
    destruct (anypb_New (AnySecret _)) as [a| |] eqn:Ea; [|done..]. simpl in H.
    apply anypb_New_Ok in Ea as ->.
    destruct (Startup_Marshal (DiscoveryResponseMessage _)) as [sds| |] eqn:Es; [|done..]. simpl in H.
    destruct (write_file w (config_file cc) config) as [[] w1] eqn:Ew; [|done].
    rewrite map_to_list_singleton in H. cbn [write_files] in H.
    change (cc_ConfigBasePath cc +:+ "/" +:+ TlsCertificateSdsSecretFileName) with (sds_file cc) in H.
    destruct (write_file w1 (sds_file cc) sds) as [[] w2] eqn:Ew2; [|done]. injection H as <-.
    eexists _, config, sds. split; [|split; [exact Ec|]].
    + constructor.
      * simpl. unfold getAdminAddress, getAdminPort, stringOrDefault, intOrDefault. simpl.
        by rewrite !decide_False by (done || lia).
      * eexists _, _. simpl. do 2 (split; [done|]). rewrite uint32_id by done.
        do 3 (split; [done|]). eexists. split; [exact Es|done].
      * exists (co_Metadata options). split; [apply node_metadata_config|].
        intros req id Hreq. unfold pod_name. rewrite Hreq. simpl. unfold GetStringValueFromMetadata.
        by rewrite lookup_fmap, lookup_insert_eq.
    + apply write_file_ok in Ew. apply write_file_ok in Ew2. by rewrite Ew2, Ew.
  - intros Hany Hm Hc Hw. unfold GenerateStatic, GenerateSdsResources, anypb_New.
    rewrite !Hany. simpl.
    destruct (Hm (BootstrapMessage (bootstrap_config options (tls_context options)
      (FileAccessLog (getAdminAccessLogPath options)) HttpProtocolOptions_Http2))) as [config ->].
    edestruct Hm as [sds ->]. simpl. rewrite map_to_list_singleton. cbn [write_files].
    pose proof (write_file_total Hc Hw) as Hf.
    destruct (Hf w (config_file cc) config) as [w1 ->].
    destruct (Hf w1 (sds_file cc) sds) as [w2 E]. unfold sds_file in E. by rewrite E.
Qed.
End Files.

(** ** Concrete runs *)

Module BootstrapRuns.
Definition plain_codecs : StartupCodecs := {|
  any_error _ := None;
  protojson_Marshal_startup m :=
    match m with BootstrapMessage _ => inr "bootstrap" | DiscoveryResponseMessage _ => inr "sds" end;
  json_Marshal_startup s := inr s;
  net_ParseIP s := bool_decide (s = "0.0.0.0");
|}.

Definition memory_files : FileSystem (gmap string string) := {|
  CreateFile w p := (None, <[p := ""]> w);
  WriteString w p s := (None, <[p := s]> w);
|}.

#[global] Instance memory_files_laws : FileSystemLaws memory_files.
Proof.
  refine {| contents (w : gmap string string) := w |}; simpl; try done.
  - by intros w p w' [= <-].
  - by intros w p s w' _ [= <-].
Defined.

Lemma init_manager_bootstraps_witness :
  let SC := plain_codecs in let F := pflag_impl in let FS := memory_files in
  ∃ i f, InitContainers example_pod_config = [i] ∧ init_flags (tail (ctr_Args i)) = inr f ∧
    fst (runInitManager f (λ _, "pod-1") ∅) = Finished.
Proof.
  intros SC F FS.
  destruct (init_manager_bootstraps (SC := SC) (F := F) (FS := FS) example_pod_config _
    (λ _, "pod-1") ∅ eq_refl) as (f & Hf & _ & _ & H).
  - discriminate.
  - reflexivity.
  - vm_compute. split; [discriminate|reflexivity].
  - vm_compute. reflexivity.
  - apply (bool_decide_unpack _). vm_compute. exact I.
  - discriminate.
  - vm_compute. split; reflexivity.
  - eexists _, f. split; [reflexivity|]. split; [exact Hf|]. apply H.
    + reflexivity.
    + intros [b|rs]; eexists; reflexivity.
    + reflexivity.
    + reflexivity.
Defined.
End BootstrapRuns.
