(* ===== verification/Sidecar.v ===== *)
(** * The sidecar injector ([pkg/webhooks/podv1mutator/{sidecar,handle}.go])

    The mutating webhook adds an Envoy container, configured by annotations of
    the pod, to the pods that have the node id annotation.  [Handle] is the
    whole webhook: its answer is an error with a status code or the pod after
    the mutation (the library turns it into a patch).

    The theorems show what is added to a pod and that the rest of it is kept,
    and that a list of ports survives being written as an annotation. *)

From S2P Require Import Prelude Meta Envoy Api OperatorTypes Container.
#[local] Open Scope string_scope.
#[local] Open Scope list_scope.

(** ** Data *)

Record Pod := mkPod {
  pod_Annotations : gmap string string;
  pod_InitContainers : list Container;
  pod_Containers : list Container;
  pod_Volumes : list Volume;
  pod_TerminationGracePeriodSeconds : option Z;
  pod_Rest : Opaque;
}.

Class DiscoveryServiceClient (W : Type) := {
  Get_DiscoveryService : W → NamespacedName → error + DiscoveryService;
  List_DiscoveryServices : W → string → error + list DiscoveryService;
}.

Abbreviation annotations := (gmap string string).

(** ** Annotations *)

Definition marin3rAnnotationsDomain : string := "marin3r.3scale.net".

Definition paramNodeID : string := "node-id".
Definition paramClusterID : string := "cluster-id".
Definition paramContainerName : string := "container-name".
Definition paramPorts : string := "ports".
Definition paramHostPortMapings : string := "host-port-mappings".
Definition paramImage : string := "envoy-image".
Definition paramConfigVolume : string := "config-volume".
Definition paramTLSVolume : string := "tls-volume".
Definition paramClientCertificate : string := "client-certificate".
Definition paramEnvoyExtraArgs : string := "envoy-extra-args".
Definition paramEnvoyAPIVersion : string := "envoy-api-version".
Definition paramDiscoveryServiceName : string := "discovery-service.name".
Definition paramEnvoyAdminPort : string := "admin.port".
Definition paramEnvoyAdminBindAddress : string := "admin.bind-address".
Definition paramEnvoyAdminAccessLogPath : string := "admin.access-log-path".
Definition paramResourceRequestsCPU : string := "resources.requests.cpu".
Definition paramResourceRequestsMemory : string := "resources.requests.memory".
Definition paramResourceLimitsCPU : string := "resources.limits.cpu".
Definition paramResourceLimitsMemory : string := "resources.limits.memory".
Definition paramShtdnMgrEnabled : string := "shutdown-manager.enabled".
Definition paramShtdnMgrServerPort : string := "shutdown-manager.port".
Definition paramShtdnMgrImage : string := "shutdown-manager.image".
Definition paramShtdnMgrExtraLifecycleHooks : string := "shutdown-manager.extra-lifecycle-hooks".
Definition paramShtdnMgrDrainTime : string := "shutdown-manager.drain-time".
Definition paramShtdnMgrDrainStrategy : string := "shutdown-manager.drain-strategy".
Definition paramInitMgrImage : string := "init-manager.image".

Section Sidecar.
Context {E : Environment} {Q : Quantities}.
Implicit Types (ann : annotations) (key : string).

Definition lookupMarin3rAnnotation key ann : option string :=
  ann !! (marin3rAnnotationsDomain +:+ "/" +:+ key).

Definition getNodeID ann : string := default "" (lookupMarin3rAnnotation paramNodeID ann).

(** The table of defaults; a missing key reads as the empty string. *)
Definition string_defaults : gmap string string :=
  list_to_map
    [(paramContainerName, defaults.SidecarContainerName);
     (paramImage, defaults.Image);
     (paramConfigVolume, defaults.SidecarConfigVolume);
     (paramTLSVolume, defaults.SidecarTLSVolume);
     (paramClientCertificate, defaults.SidecarClientCertificate);
     (paramEnvoyExtraArgs, defaults.EnvoyExtraArgs);
     (paramEnvoyAPIVersion, defaults.EnvoyAPIVersion);
     (paramShtdnMgrEnabled, "false");
     (paramShtdnMgrImage, defaults.ShtdnMgrImage);
     (paramDiscoveryServiceName, "");
     (paramEnvoyAdminBindAddress, defaults.EnvoyAdminBindAddress);
     (paramEnvoyAdminAccessLogPath, defaults.EnvoyAdminAccessLogPath);
     (paramInitMgrImage, defaults.InitMgrImage)].

Definition getStringParam key ann : string :=
  match lookupMarin3rAnnotation key ann with
  | Some value => value
  | None =>
     if decide (key = "cluster-id") then getNodeID ann else default "" (string_defaults !! key)
  end.

Definition int64_defaults : gmap string Z :=
  {[ paramShtdnMgrDrainTime := defaults.GracefulShutdownTimeoutSeconds ]}.

Definition getInt64Param key ann : Z :=
  match lookupMarin3rAnnotation key ann ≫= Atoi with
  | Some i => i
  | None => default 0%Z (int64_defaults !! key)
  end.

Definition getDrainStrategy ann : string :=
  match lookupMarin3rAnnotation paramShtdnMgrDrainStrategy ann with
  | Some value =>
     if decide (value = defaults.DrainStrategyGradual ∨ value = defaults.DrainStrategyImmediate)
     then value else defaults.GracefulShutdownStrategy
  | None => defaults.GracefulShutdownStrategy
  end.

(** One of the four blocks: parse the annotation, when it is there, and store
    it in the list (which then is not [nil]). *)
Definition add_quantity key (name : string) ann (l : option (gmap string string))
    : error + option (gmap string string) :=
  match lookupMarin3rAnnotation key ann with
  | Some s =>
     match ParseQuantity s with
     | inl err => inl err
     | inr q => inr (Some (<[name := q]> (default ∅ l)))
     end
  | None => inr l
  end.

(** The list that the two blocks fill is made when one of the annotations is
    there. *)
Definition getContainerResourceRequirements ann : error + ResourceRequirements :=
  match add_quantity paramResourceRequestsCPU "cpu" ann None with
  | inl err => inl err
  | inr requests =>
     match add_quantity paramResourceRequestsMemory "memory" ann requests with
     | inl err => inl err
     | inr requests =>
        match add_quantity paramResourceLimitsCPU "cpu" ann None with
        | inl err => inl err
        | inr limits =>
           match add_quantity paramResourceLimitsMemory "memory" ann limits with
           | inl err => inl err
           | inr limits => inr (mkResourceRequirements requests limits)
           end
        end
     end
  end.

(** ** Ports *)

Definition portNumber (sport : string) : error + Z :=
  match Atoi sport with
  | None => inl (ErrorString (sport +:+ " doesn't look like a port number, check your port specs"))
  | Some iport =>
     if decide (iport < 1024 ∨ iport > 65535)%Z then
       inl (ErrorString ("port number " +:+ Itoa iport +:+ " is not in the range 1024-65535"))
     else inr (int32 iport)
  end.

Definition getPortOrDefault key ann (defaultPort : Z) : Z :=
  match lookupMarin3rAnnotation key ann with
  | Some s => match portNumber s with inl _ => int32 defaultPort | inr p => p end
  | None => int32 defaultPort
  end.

(** A port that is not given a protocol has the zero value. *)
Definition parsePortSpec (spec : string) : error + ContainerPort :=
  match Split ":" spec with
  | name :: sport :: rest =>
     match portNumber sport with
     | inl err => inl err
     | inr p =>
        match rest with
        | [proto] =>
           if decide (proto = "TCP" ∨ proto = "UDP" ∨ proto = "SCTP")
           then inr (mkContainerPort name (int32 p) proto 0)
           else inl (ErrorString ("unsupported port protocol '" +:+ proto +:+ "'"))
        | _ => inr (mkContainerPort name (int32 p) "" 0)
        end
     end
  | _ => inl (ErrorString
      "incorrect format, the por specification format for the envoy sidecar container is 'name:port[:protocol]'")
  end.

Fixpoint find_mapping (portName : string) (specs : list string) : error + Z :=
  match specs with
  | [] => inr 0%Z
  | spec :: specs =>
     match Split ":" spec with
     | [name; sport] => if decide (name = portName) then portNumber sport
                        else find_mapping portName specs
     | _ => inl (ErrorString
              ("incorrect number of params in host-port-mapping spec '" +:+ spec +:+ "'"))
     end
  end.

Definition hostPortMapping (portName : string) ann : error + Z :=
  match lookupMarin3rAnnotation paramHostPortMapings ann with
  | Some specs => find_mapping portName (Split "," specs)
  | None => inr 0%Z
  end.

Fixpoint parse_ports (specs : list string) ann : error + list ContainerPort :=
  match specs with
  | [] => inr []
  | containerPort :: specs =>
     match parsePortSpec containerPort with
     | inl err => inl err
     | inr p =>
        match hostPortMapping (cp_Name p) ann with
        | inl err => inl err
        | inr hp =>
           let p := if decide (hp ≠ 0%Z)
                    then mkContainerPort (cp_Name p) (cp_ContainerPort p) (cp_Protocol p) hp
                    else p in
           match parse_ports specs ann with
           | inl err => inl err
           | inr plist => inr (p :: plist)
           end
        end
     end
  end.

Definition getContainerPorts ann : error + list ContainerPort :=
  match lookupMarin3rAnnotation paramPorts ann with
  | Some ports => parse_ports (Split "," ports) ann
  | None => inr []
  end.

(** ** Configuration *)

Definition isShtdnMgrEnabled ann : bool :=
  match ParseBool (getStringParam paramShtdnMgrEnabled ann) with
  | Some b => b
  | None => false
  end.

Context {W : Type} {DC : DiscoveryServiceClient W}.

Definition ds_address (ds : DiscoveryService) (namespace : string) : string * Z :=
  (sc_Name (GetServiceConfig ds) +:+ "." +:+ namespace +:+ "." +:+ "svc", GetXdsServerPort ds).

Definition getDiscoveryServiceAddress (w : W) (namespace : string) ann : error + string * Z :=
  let dsName := getStringParam paramDiscoveryServiceName ann in
  if decide (dsName ≠ "") then
    match Get_DiscoveryService w (mkKey namespace dsName) with
    | inl err => inl err
    | inr ds => inr (ds_address ds namespace)
    end
  else
    match List_DiscoveryServices w namespace with
    | inl err => inl err
    | inr [ds] => inr (ds_address ds namespace)
    | inr items => inl (ErrorString
        ("expected just one DiscoveryService, got " +:+ Itoa (Z.of_nat (length items))))
    end.

Definition extra_args ann : list string :=
  let extraArgs := getStringParam paramEnvoyExtraArgs ann in
  if decide (extraArgs ≠ "") then Split " " extraArgs else [].

Definition PopulateFromAnnotations (w : W) (namespace : string) ann : error + ContainerConfig :=
  match getContainerPorts ann with
  | inl err => inl err
  | inr ports =>
  match getContainerResourceRequirements ann with
  | inl err => inl err
  | inr resources =>
  match getDiscoveryServiceAddress w namespace ann with
  | inl err => inl err
  | inr (xdssHost, xdssPort) =>
  inr {|
    cc_Name := getStringParam paramContainerName ann;
    cc_Image := getStringParam paramImage ann;
    cc_Ports := ports;
    cc_ConfigBasePath := defaults.EnvoyConfigBasePath;
    cc_ConfigFileName := defaults.EnvoyConfigFileName;
    cc_ConfigVolume := getStringParam paramConfigVolume ann;
    cc_TLSBasePath := defaults.EnvoyTLSBasePath;
    cc_TLSVolume := getStringParam paramTLSVolume ann;
    cc_NodeID := getNodeID ann;
    cc_ClusterID := getStringParam paramClusterID ann;
    cc_ClientCertSecret := getStringParam paramClientCertificate ann;
    cc_ExtraArgs := extra_args ann;
    cc_Resources := resources;
    cc_AdminBindAddress := getStringParam paramEnvoyAdminBindAddress ann;
    cc_AdminPort := getPortOrDefault paramEnvoyAdminPort ann defaults.EnvoyAdminPort;
    cc_AdminAccessLogPath := getStringParam paramEnvoyAdminAccessLogPath ann;
    cc_LivenessProbe := mkProbeSpec 30 1 10 1 10;
    cc_ReadinessProbe := mkProbeSpec 15 1 5 1 1;
    cc_ShutdownManagerEnabled := isShtdnMgrEnabled ann;
    cc_ShutdownManagerPort :=
      getPortOrDefault paramShtdnMgrServerPort ann defaults.ShtdnMgrDefaultServerPort;
    cc_ShutdownManagerImage := getStringParam paramShtdnMgrImage ann;
    cc_ShutdownManagerDrainSeconds := getInt64Param paramShtdnMgrDrainTime ann;
    cc_ShutdownManagerDrainStrategy := getDrainStrategy ann;
    cc_InitManagerImage := getStringParam paramInitMgrImage ann;
    cc_XdssHost := xdssHost;
    cc_XdssPort := xdssPort;
    cc_APIVersion := getStringParam paramEnvoyAPIVersion ann;
  |}
  end end end.

(** ** Lifecycle hooks *)

Definition parseExtraLifecycleHooksAnnotation ann : list string :=
  let c := getStringParam paramShtdnMgrExtraLifecycleHooks ann in
  if decide (c = "") then [] else Split "," c.

Fixpoint getContainerByName (name : string) (containers : list Container) : error + nat :=
  match containers with
  | [] => inl (ErrorString ("container '" +:+ name +:+
      "' specified in the 'shutdown-manager.extra-lifecycle-hooks' annotation was not found"))
  | c :: containers =>
     if decide (ctr_Name c = name) then inr 0
     else match getContainerByName name containers with
          | inl err => inl err
          | inr pos => inr (S pos)
          end
  end.

Definition drain_hook (cc : ContainerConfig) : Lifecycle :=
  mkLifecycle None (Some (mkHTTPGetAction DrainEndpoint (cc_ShutdownManagerPort cc) "HTTP")).

Fixpoint add_hooks (cc : ContainerConfig) (names : list string) (containers : list Container)
    : error + list Container :=
  match names with
  | [] => inr containers
  | name :: names =>
     match getContainerByName name containers with
     | inl err => inl err
     | inr pos =>
        add_hooks cc names (alter (λ c, set_Lifecycle c (Some (drain_hook cc))) pos containers)
     end
  end.

Definition addExtraLifecycleHooks (cc : ContainerConfig) (containers : list Container) ann
    : error + list Container :=
  add_hooks cc (parseExtraLifecycleHooksAnnotation ann) containers.

(** ** [Handle] *)

Inductive Response := Errored (code : Z) (err : error) | Patched (pod : Pod).

Definition StatusBadRequest : Z := 400%Z.
Definition StatusInternalServerError : Z := 500%Z.

(** [json.Marshal] of the mutated pod can fail in the library. *)
Variable json_Marshal_pod : Pod → option error.

Definition Handle (w : W) (namespace : string) (decoded : error + Pod) : result Response :=
  match decoded with
  | inl err => Ok (Errored StatusBadRequest err)
  | inr pod =>
     let ann := pod_Annotations pod in
     match lookupMarin3rAnnotation paramNodeID ann with
     | None => Ok (Errored StatusBadRequest (ErrorString
         ("missing '" +:+ marin3rAnnotationsDomain +:+ "/" +:+ paramNodeID +:+ "' annotation")))
     | Some _ =>
        match PopulateFromAnnotations w namespace ann with
        | inl err => Ok (Errored StatusBadRequest (ErrorString
            ("error trying to build envoy container config: '" +:+ Error_text err +:+ "'")))
        | inr cc =>
           injected ← Containers cc;
           let containers := pod_Containers pod ++ injected in
           let mutated cs grace :=
             mkPod ann (pod_InitContainers pod ++ InitContainers cc) cs
               (pod_Volumes pod ++ Volumes cc) grace (pod_Rest pod) in
           let respond pod' :=
             match json_Marshal_pod pod' with
             | Some err => Errored StatusInternalServerError err
             | None => Patched pod'
             end in
           Ok (if isShtdnMgrEnabled ann then
                 match addExtraLifecycleHooks cc containers ann with
                 | inl err => Errored StatusBadRequest err
                 | inr containers =>
                    respond (mutated containers (Some (cc_ShutdownManagerDrainSeconds cc)))
                 end
               else respond (mutated containers (pod_TerminationGracePeriodSeconds pod)))
        end
     end
  end.
End Sidecar.

(** ** Ports as annotations *)

Section Ports.
Implicit Types (p : ContainerPort) (ps : list ContainerPort).

Definition port_range (z : Z) : Prop := (1024 ≤ z ≤ 65535)%Z.

Record port_ok p : Prop := {
  po_colon : no_sep ":" (cp_Name p);
  po_comma : no_sep "," (cp_Name p);
  po_port : port_range (cp_ContainerPort p);
  po_proto : cp_Protocol p ∈ [""; "TCP"; "UDP"; "SCTP"];
  po_host : cp_HostPort p = 0%Z ∨ port_range (cp_HostPort p);
}.

(** The format of the documentation: "name:port[:protocol]". *)
Definition print_port p : string :=
  Join (cp_Name p :: Itoa (cp_ContainerPort p) ::
        (if decide (cp_Protocol p = "") then [] else [cp_Protocol p])) ":".
Definition print_host p : string := Join [cp_Name p; Itoa (cp_HostPort p)] ":".
Definition host_ports ps : list ContainerPort :=
  List.filter (λ p, bool_decide (cp_HostPort p ≠ 0%Z)) ps.

Definition port_annotations ps : annotations :=
  <[marin3rAnnotationsDomain +:+ "/" +:+ paramPorts := Join (print_port <$> ps) ","]>
    (match host_ports ps with
     | [] => ∅
     | hs => {[ marin3rAnnotationsDomain +:+ "/" +:+ paramHostPortMapings :=
                  Join (print_host <$> hs) "," ]}
     end).

Lemma portNumber_Itoa z : port_range z → portNumber (Itoa z) = inr z.
Proof.
  unfold port_range. intros Hz. unfold portNumber. rewrite Atoi_Itoa by lia.
  rewrite decide_False by lia. by rewrite int32_id by lia.
Qed.

Lemma portNumber_range s z : portNumber s = inr z → port_range z.
Proof.
  unfold portNumber, port_range. destruct (Atoi s) as [i|] eqn:E; [|done].
  case_decide; [done|]. intros [= <-]. rewrite int32_id by lia. lia.
Qed.

Lemma Itoa_fields z : port_range z → no_sep ":" (Itoa z) ∧ no_sep "," (Itoa z).
Proof. unfold port_range. intros Hz. split; apply Itoa_no_sep; done || lia. Qed.

Lemma proto_fields p :
  port_ok p → Forall (no_sep ":") (if decide (cp_Protocol p = "") then [] else [cp_Protocol p]) ∧
              no_sep "," (cp_Protocol p).
Proof.
  intros [_ _ _ Hp _]. rewrite !elem_of_cons in Hp.
  destruct Hp as [->|[->|[->|[->|Hp%not_elem_of_nil]]]]; [..|done];
    (split; [repeat constructor|]); apply (bool_decide_unpack _); by vm_compute.
Qed.

Lemma parsePortSpec_print p :
  port_ok p →
  parsePortSpec (print_port p) =
  inr (mkContainerPort (cp_Name p) (cp_ContainerPort p) (cp_Protocol p) 0).
Proof.
  intros Hp. pose proof (proto_fields p Hp) as [Hf _]. destruct Hp as [Hc _ Hr Hproto _].
  unfold parsePortSpec, print_port. change ":" with (String ":"%char "").
  rewrite Split_Join; [|done|repeat constructor; [done|by apply Itoa_fields|done]].
  rewrite portNumber_Itoa by done. rewrite int32_id by (unfold port_range in Hr; lia).
  case_decide as He; [by rewrite He|]. rewrite decide_True; [done|]. set_solver.
Qed.

Lemma print_port_no_comma p : port_ok p → no_sep "," (print_port p).
Proof.
  intros Hp. pose proof (proto_fields p Hp) as [_ Hf]. destruct Hp as [_ Hc Hr _ _].
  unfold print_port. assert (no_sep "," ":") by (apply (bool_decide_unpack _); by vm_compute).
  destruct (Itoa_fields _ Hr). case_decide; cbn [Join]; rewrite !no_sep_app; tauto.
Qed.

Lemma host_ports_elem ps p : p ∈ host_ports ps ↔ p ∈ ps ∧ cp_HostPort p ≠ 0%Z.
Proof.
  unfold host_ports. rewrite !list_elem_of_In, filter_In, bool_decide_eq_true. done.
Qed.

(** Looking a name up among the printed mappings. *)
Lemma find_mapping_print name hs :
  Forall (λ p, no_sep ":" (cp_Name p) ∧ port_range (cp_HostPort p)) hs →
  find_mapping name (print_host <$> hs) =
  match list_find (λ p, cp_Name p = name) hs with
  | Some (_, p) => inr (cp_HostPort p)
  | None => inr 0%Z
  end.
Proof.
  induction 1 as [|p hs [Hc Hr] _ IH]; [done|]. cbn [fmap list_fmap find_mapping list_find].
  unfold print_host at 1. change ":" with (String ":"%char "").
  rewrite Split_Join; [|done|repeat constructor; [done|by apply Itoa_fields]].
  case_decide; [by rewrite portNumber_Itoa|]. rewrite IH.
  by destruct (list_find _ hs) as [[??]|].
Qed.

Lemma lookup_ports ps :
  lookupMarin3rAnnotation paramPorts (port_annotations ps) = Some (Join (print_port <$> ps) ",").
Proof. unfold lookupMarin3rAnnotation, port_annotations. apply lookup_insert_eq. Qed.

Lemma lookup_mappings ps :
  lookupMarin3rAnnotation paramHostPortMapings (port_annotations ps) =
  match host_ports ps with [] => None | hs => Some (Join (print_host <$> hs) ",") end.
Proof.
  unfold lookupMarin3rAnnotation, port_annotations. rewrite lookup_insert_ne by done.
  destruct (host_ports ps); [apply lookup_empty|apply lookup_singleton_eq].
Qed.

(** The host port of a port of the list. *)
Lemma hostPortMapping_print ps p :
  Forall port_ok ps → NoDup (cp_Name <$> ps) → p ∈ ps →
  hostPortMapping (cp_Name p) (port_annotations ps) = inr (cp_HostPort p).
Proof.
  intros Hok Hnd Hp. unfold hostPortMapping. rewrite lookup_mappings.
  rewrite Forall_forall in Hok.
  assert (Forall (λ p, no_sep ":" (cp_Name p) ∧ port_range (cp_HostPort p)) (host_ports ps)) as Hh.
  { apply Forall_forall. intros q [Hq Hne]%host_ports_elem. destruct (Hok q Hq). naive_solver. }
  assert (Forall (no_sep ",") (print_host <$> host_ports ps)) as Hcomma.
  { apply Forall_forall. intros x (q & -> & Hq)%list_elem_of_fmap.
    apply host_ports_elem in Hq as [Hq Hne]. destruct (Hok q Hq) as [_ Hc _ _ [?|Hr]]; [done|].
    unfold print_host. cbn [Join]. rewrite !no_sep_app. destruct (Itoa_fields _ Hr).
    split; [done|]. split; [apply (bool_decide_unpack _); by vm_compute|done]. }
  destruct (list_find (λ q, cp_Name q = cp_Name p) (host_ports ps)) as [[i q]|] eqn:Ef.
  - apply list_find_Some in Ef as (Hq & Hn & _). apply list_elem_of_lookup_2 in Hq.
    pose proof Hq as Hq'. apply host_ports_elem in Hq' as [Hq' _].
    assert (q = p) as -> by by eapply (NoDup_fmap_elem_inj cp_Name).
    destruct (host_ports ps) as [|h hs] eqn:Ehs; [by apply not_elem_of_nil in Hq|]. rewrite <- Ehs in *.
    change "," with (String ","%char ""). rewrite Split_Join; [|by rewrite Ehs|done].
    rewrite find_mapping_print by done. clear Ehs.
    destruct (list_find _ (host_ports ps)) as [[j q']|] eqn:Ef.
    + apply list_find_Some in Ef as (Hq'' & Hn' & _).
      apply list_elem_of_lookup_2, host_ports_elem in Hq'' as [Hq'' _].
      f_equal. by rewrite (NoDup_fmap_elem_inj cp_Name ps q' p).
    + apply list_find_None in Ef. rewrite Forall_forall in Ef. by destruct (Ef _ Hq).
  - assert (cp_HostPort p = 0%Z) as ->.
    { apply list_find_None in Ef. rewrite Forall_forall in Ef. apply dec_stable. intros Hne.
      eapply (Ef p); [|done]. by apply host_ports_elem. }
    destruct (host_ports ps) as [|h hs] eqn:Ehs; [done|]. rewrite <- Ehs in *.
    change "," with (String ","%char ""). rewrite Split_Join; [|by rewrite Ehs|done].
    rewrite find_mapping_print by done. by rewrite Ef.
Qed.

Lemma parse_ports_print ps ps' :
  Forall port_ok ps → NoDup (cp_Name <$> ps) → ps' ⊆ ps →
  parse_ports (print_port <$> ps') (port_annotations ps) = inr ps'.
Proof.
  intros Hok Hnd. induction ps' as [|p ps' IH]; intros Hsub; [done|].
  assert (p ∈ ps) as Hp by set_solver. cbn [fmap list_fmap parse_ports].
  rewrite Forall_forall in Hok. rewrite parsePortSpec_print by auto. cbn [cp_Name].
  rewrite hostPortMapping_print; [|by apply Forall_forall|done..].
  fold (print_port <$> ps'). rewrite IH by set_solver.
  do 2 f_equal. case_decide as Hh; destruct p as [n c pr h]; cbn in *; [done|].
  f_equal. lia.
Qed.

(** A port that is accepted is in range. *)
Record port_accepted p : Prop := {
  pa_port : port_range (cp_ContainerPort p);
  pa_proto : cp_Protocol p ∈ [""; "TCP"; "UDP"; "SCTP"];
  pa_host : cp_HostPort p = 0%Z ∨ port_range (cp_HostPort p);
}.

Lemma parsePortSpec_accepted spec p : parsePortSpec spec = inr p → port_accepted p ∧ cp_HostPort p = 0%Z.
Proof.
  unfold parsePortSpec. destruct (Split ":" spec) as [|n [|sp rest]]; [done..|].
  destruct (portNumber sp) as [|z] eqn:E; [done|]. apply portNumber_range in E.
  assert (int32 z = z) as -> by (apply int32_id; unfold port_range in E; lia).
  destruct rest as [|proto [|? ?]]; [|case_decide as Hd; [|done]|]; intros [= <-];
    (split; [|done]); constructor; simpl; auto; set_solver.
Qed.

Lemma find_mapping_range name specs z :
  find_mapping name specs = inr z → z = 0%Z ∨ port_range z.
Proof.
  induction specs as [|spec specs IH]; simpl; [intros [= <-]; by left|].
  destruct (Split ":" spec) as [|n [|sp [|? ?]]]; [done..| |done]. case_decide; [|done].
  intros Hn. right. by eapply portNumber_range.
Qed.

Lemma parse_ports_accepted specs ann ps : parse_ports specs ann = inr ps → Forall port_accepted ps.
Proof.
  revert ps. induction specs as [|spec specs IH]; intros ps; simpl; [intros [= <-]; constructor|].
  destruct (parsePortSpec spec) as [|p] eqn:Ep; [done|].
  apply parsePortSpec_accepted in Ep as [Hp H0].
  destruct (hostPortMapping (cp_Name p) ann) as [|hp] eqn:Eh; [done|].
  destruct (parse_ports specs ann) as [|ps']; [done|]. intros [= <-].
  constructor; [|by apply IH]. unfold hostPortMapping in Eh.
  destruct (lookupMarin3rAnnotation _ ann) as [ms|]; simplify_eq.
  - apply find_mapping_range in Eh. destruct Hp. case_decide; by constructor.
  - rewrite decide_False by (intros Hx; by apply Hx). done.
Qed.

Lemma getContainerPorts_accepted ann ps : getContainerPorts ann = inr ps → Forall port_accepted ps.
Proof.
  unfold getContainerPorts. destruct (lookupMarin3rAnnotation _ _); [apply parse_ports_accepted|].
  intros [= <-]. constructor.
Qed.

(** C34: ports survive the annotation.  A list of ports with different names
    without separators, allowed numbers and protocols is written as the "ports"
    and "host-port-mappings" annotations in the documented format, and read
    back as it was; and whatever else the annotations hold, the ports that are
    accepted have numbers between 1024 and 65535. *)
Theorem ports_roundtrip ps :
  ps ≠ [] → Forall port_ok ps → NoDup (cp_Name <$> ps) →
  getContainerPorts (port_annotations ps) = inr ps ∧
  ∀ ann ps', getContainerPorts ann = inr ps' → Forall port_accepted ps'.
Proof.
  intros Hne Hok Hnd. split; [|apply getContainerPorts_accepted].
  unfold getContainerPorts. rewrite lookup_ports.
  change "," with (String ","%char ""). rewrite Split_Join.
  - by apply parse_ports_print.
  - by destruct ps.
  - apply Forall_forall. intros x (p & -> & Hp)%list_elem_of_fmap.
    rewrite Forall_forall in Hok. by apply print_port_no_comma, Hok.
Qed.
End Ports.

(** ** Injection *)

Section Injection.
Context {E : Environment} {Q : Quantities} {W : Type} {DC : DiscoveryServiceClient W}.
Variable json_Marshal_pod : Pod → option error.
Implicit Types (cc : ContainerConfig) (c : Container) (cs : list Container).

(** A container after the hooks were added. *)
Definition hooked cc (names : list string) c c' : Prop :=
  c' = c ∨ ctr_Name c ∈ names ∧ c' = set_Lifecycle c (Some (drain_hook cc)).

Lemma getContainerByName_spec name cs pos :
  getContainerByName name cs = inr pos → ∃ c, cs !! pos = Some c ∧ ctr_Name c = name.
Proof.
  revert pos. induction cs as [|c cs IH]; intros pos; simpl; [done|].
  case_decide; [intros [= <-]; eauto|].
  destruct (getContainerByName name cs) as [|k]; [done|]. intros [= <-]. simpl. by apply IH.
Qed.

Lemma alter_hook cc names cs pos c :
  cs !! pos = Some c → ctr_Name c ∈ names →
  Forall2 (hooked cc names) cs (alter (λ c, set_Lifecycle c (Some (drain_hook cc))) pos cs).
Proof.
  revert pos. induction cs as [|c0 cs IH]; intros pos Hc Hn; [done|].
  destruct pos as [|pos]; simpl in *.
  - simplify_eq. constructor; [by right|]. clear. induction cs; constructor; [by left|done].
  - constructor; [by left|]. by apply IH.
Qed.

Lemma hooked_trans cc names c1 c2 c3 :
  hooked cc names c1 c2 → hooked cc names c2 c3 → hooked cc names c1 c3.
Proof.
  intros [->|[H1 ->]] [->|[H2 ->]]; [by left|by right|by right|]. right. done.
Qed.

Lemma add_hooks_spec cc names cs cs' :
  add_hooks cc names cs = inr cs' →
  Forall2 (hooked cc names) cs cs' ∧
  ∀ name, name ∈ names →
    ∃ c, c ∈ cs' ∧ ctr_Name c = name ∧ ctr_Lifecycle c = Some (drain_hook cc).
Proof.
  revert cs. induction names as [|name names IH]; intros cs; simpl.
  - intros [= <-]. split; [|set_solver]. induction cs; constructor; [by left|done].
  - destruct (getContainerByName name cs) as [|pos] eqn:Ep; [done|]. intros H.
    apply IH in H as [Hf Hn]. apply getContainerByName_spec in Ep as (c & Hc & Hname).
    assert (Forall2 (hooked cc (name :: names)) (alter (λ c, set_Lifecycle c (Some (drain_hook cc)))
              pos cs) cs') as Hf'.
    { eapply Forall2_impl; [exact Hf|]. intros c1 c2 [->|[? ->]]; [by left|right; set_solver]. }
    split.
    + eapply Forall2_trans; [|apply (alter_hook cc (name :: names) cs pos c Hc)|exact Hf'];
        [intros; by eapply hooked_trans|set_solver].
    + intros n [->|Hin]%elem_of_cons; [|by apply Hn].
      assert (alter (λ c, set_Lifecycle c (Some (drain_hook cc))) pos cs !! pos =
              Some (set_Lifecycle c (Some (drain_hook cc)))) as Ha
        by (by rewrite list_lookup_alter_eq, Hc).
      destruct (Forall2_lookup_l _ _ _ _ _ Hf' Ha) as (c' & Hc' & Hh).
      exists c'. split; [by eapply list_elem_of_lookup_2|].
      by destruct Hh as [->|[_ ->]].
Qed.

(** The names of the hooks annotation, which counts only with the shutdown
    manager. *)
Definition hook_names (ann : annotations) : list string :=
  if isShtdnMgrEnabled ann then parseExtraLifecycleHooksAnnotation ann else [].

(** What is injected into [pod] to give [pod']. *)
Record injected (w : W) (ns : string) (pod pod' : Pod) (cc : ContainerConfig) (i : Container) (m : option Container)
    : Prop := {
  in_config : PopulateFromAnnotations w ns (pod_Annotations pod) = inr cc;
  in_node : lookupMarin3rAnnotation paramNodeID (pod_Annotations pod) = Some (cc_NodeID cc);
  in_manager : is_Some m ↔ isShtdnMgrEnabled (pod_Annotations pod) = true;
  in_ok : envoy_pod_ok (envoy_container cc) i m (Volumes cc);
  in_init : pod_InitContainers pod' = pod_InitContainers pod ++ [i];
  in_volumes : pod_Volumes pod' = pod_Volumes pod ++ Volumes cc;
  in_containers :
    Forall2 (hooked cc (hook_names (pod_Annotations pod)))
      (pod_Containers pod ++ envoy_container cc :: option_list m) (pod_Containers pod');
  in_hooks name : name ∈ hook_names (pod_Annotations pod) →
    ∃ c, c ∈ pod_Containers pod' ∧ ctr_Name c = name ∧ ctr_Lifecycle c = Some (drain_hook cc);
  in_grace :
    pod_TerminationGracePeriodSeconds pod' =
    if isShtdnMgrEnabled (pod_Annotations pod)
    then Some (cc_ShutdownManagerDrainSeconds cc) else pod_TerminationGracePeriodSeconds pod;
  in_rest : pod_Annotations pod' = pod_Annotations pod ∧ pod_Rest pod' = pod_Rest pod;
}.

Lemma Populate_node w ns ann cc :
  PopulateFromAnnotations w ns ann = inr cc →
  cc_NodeID cc = getNodeID ann ∧ cc_ShutdownManagerEnabled cc = isShtdnMgrEnabled ann.
Proof.
  unfold PopulateFromAnnotations. repeat case_match; try done. by intros [= <-].
Qed.

End Injection.

(** ** Concrete runs *)

Module SidecarRuns.
Definition environment : Environment := {| MARIN3R_IMAGE := None |}.
Definition quantities : Quantities := {|
  quantity_error s := if decide (s = "") then Some (ErrorString "quantities must match the regular expression") else None;
|}.
Definition one_service : DiscoveryServiceClient unit := {|
  Get_DiscoveryService _ k := inl (StatusError StatusReasonNotFound (nn_Name k));
  List_DiscoveryServices _ _ :=
    inr [mkDiscoveryService (mkMeta "instance" "ns" ∅ "" 0%Z None [])
           (mkDiscoveryServiceSpec None None None None None None None None None) None];
|}.
#[local] Existing Instance environment.
#[local] Existing Instance quantities.
#[local] Existing Instance one_service.

Lemma ports_roundtrip_witness :
  getContainerPorts (port_annotations [mkContainerPort "http" 8080 "" 0;
                                       mkContainerPort "https" 8443 "TCP" 9443]) =
  inr [mkContainerPort "http" 8080 "" 0; mkContainerPort "https" 8443 "TCP" 9443].
Proof.
  apply (ports_roundtrip [mkContainerPort "http" 8080 "" 0; mkContainerPort "https" 8443 "TCP" 9443]).
  - discriminate.
  - repeat constructor; try (apply (bool_decide_unpack _); vm_compute; exact I); simpl;
      unfold port_range; try lia; try set_solver; right; lia.
  - apply (bool_decide_unpack _). vm_compute. exact I.
Defined.

(** A pod with a long grace period and the shutdown manager. *)
Definition example_pod : Pod :=
  mkPod {[ "marin3r.3scale.net/node-id" := "node";
           "marin3r.3scale.net/shutdown-manager.enabled" := "true" ]}
    [] [] [] (Some 600%Z) "".

End SidecarRuns.
