(* ===== verification/OperatorObjects.v ===== *)
(** * Objects the operator owns

    The Kubernetes objects that the EnvoyDeployment and DiscoveryService
    controllers build, and the interface of the basereconciler library that
    creates and updates them from templates. *)

From S2P Require Import Prelude Meta Envoy Api OperatorTypes Container.
#[local] Open Scope string_scope.
#[local] Open Scope list_scope.

(** ** Objects *)

Record PodSpec := mkPodSpec {
  psp_Affinity : option Opaque;
  psp_Volumes : list Volume;
  psp_InitContainers : list Container;
  psp_Containers : list Container;
  psp_ServiceAccountName : string;
  psp_TerminationGracePeriodSeconds : option Z;
  psp_PriorityClassName : string;
}.

Inductive DeploymentStrategy :=
  | Recreate
  | RollingUpdate (maxUnavailable maxSurge : string).

Record DeploymentObject := mkDeploymentObject {
  dep_Meta : ObjectMeta;
  dep_Replicas : option Z;
  dep_Selector : gmap string string;
  dep_PodLabels : gmap string string;
  dep_PodSpec : PodSpec;
  dep_Strategy : DeploymentStrategy;
}.

(** A HorizontalPodAutoscaler; the target is named by version, kind and name.
    Without a specification it is the zero value. *)
Record HPASpec := mkHPASpec {
  hpa_Target : string * string * string;
  hpa_MinReplicas : option Z;
  hpa_MaxReplicas : Z;
  hpa_Metrics : list Opaque;
  hpa_Behavior : option Opaque;
}.

Record PDBSpec := mkPDBSpec {
  pdbs_Selector : gmap string string;
  pdbs_MinAvailable : option IntOrString;
  pdbs_MaxUnavailable : option IntOrString;
}.

Record ServicePort := mkServicePort {
  sp_Name : string; sp_Port : Z; sp_Protocol : string; sp_TargetPort : string }.

Record ServiceSpec := mkServiceSpec {
  ss_Type : string;
  ss_ClusterIP : string;
  ss_Selector : gmap string string;
  ss_SessionAffinity : string;
  ss_Ports : list ServicePort;
}.

Record PolicyRule := mkPolicyRule {
  pol_APIGroups : list string; pol_Resources : list string; pol_Verbs : list string }.

Inductive OwnedObject :=
  | OCertificate (c : DiscoveryServiceCertificate)
  | ODeployment (d : DeploymentObject)
  | OHPA (meta : ObjectMeta) (spec : option HPASpec)
  | OPDB (meta : ObjectMeta) (spec : PDBSpec)
  | OServiceAccount (meta : ObjectMeta)
  | ORole (meta : ObjectMeta) (rules : list PolicyRule)
  | ORoleBinding (meta : ObjectMeta) (role : string) (serviceAccount : string * string)
  | OService (meta : ObjectMeta) (spec : ServiceSpec).

Definition object_meta (name namespace : string) (labels : gmap string string) : ObjectMeta :=
  mkMeta name namespace labels "" 0%Z None [].

(** ** The basereconciler library *)

(** A template builds its object when it is reconciled; a disabled one is
    deleted.  [t_Mutation] names the mutation of the library applied to it. *)
Record Template := mkTemplate {
  t_Enabled : bool;
  t_Build : result OwnedObject;
  t_Mutation : option string;
}.

Definition NewTemplate (b : result OwnedObject) : Template := mkTemplate true b None.
Definition WithEnabled (e : bool) (t : Template) : Template :=
  mkTemplate e (t_Build t) (t_Mutation t).
Definition WithMutation (m : option string) (t : Template) : Template :=
  mkTemplate (t_Enabled t) (t_Build t) m.

(** The steps of the library tell the controller to return or to go on. *)
Inductive outcome (A : Type) := Return (r : result Result) | Continue (a : A).
Arguments Return {A} r.
Arguments Continue {A} a.

Class BaseReconciler (W Obj : Type) := {
  ManageResourceLifecycle : W → NamespacedName → (Obj → Obj) → outcome Obj * W;
  ReconcileOwnedResources : W → Obj → list Template → outcome unit * W;
  ReconcileStatus : W → Obj → list NamespacedName → (Obj → Obj * bool) → outcome unit * W;
}.

(** [dscDefaulter]. *)
Definition dscDefaulter (c : DiscoveryServiceCertificate) : DiscoveryServiceCertificate :=
  DiscoveryServiceCertificate_Default c.

(** Whole seconds of a duration: [int64(d.Seconds())]. *)
Definition Seconds (d : Z) : Z := Z.quot d Second.
