(* ===== verification/EnvoyDeployments.v ===== *)
(** * The EnvoyDeployment controller
    ([pkg/reconcilers/operator/envoydeployment/generators],
     [controllers/operator.marin3r/envoydeployment_controller.go])

    For an EnvoyDeployment the controller builds a client certificate, a
    Deployment, an optional HorizontalPodAutoscaler and an optional
    PodDisruptionBudget, from the EnvoyConfig and the DiscoveryService that the
    object names.  The theorem says how these objects fit together. *)

From S2P Require Import Prelude Meta Envoy Api OperatorTypes Container Sidecar OperatorObjects.
#[local] Open Scope string_scope.
#[local] Open Scope list_scope.

(** ** Generators *)

Record GeneratorOptions := mkGeneratorOptions {
  InstanceName : string;
  Namespace : string;
  DiscoveryServiceName : string;
  XdssAdress : string;
  XdssPort : Z;
  EnvoyAPIVersion : APIVersion;
  EnvoyNodeID : string;
  EnvoyClusterID : string;
  ClientCertificateName : string;
  ClientCertificateDuration : Z;
  SigningCertificateName : string;
  DeploymentImage : string;
  DeploymentResources : ResourceRequirements;
  ExposedPorts : list DeploymentPort;
  ExtraArgs : list string;
  AdminPort : Z;
  AdminAccessLogPath : string;
  Replicas : ReplicasSpec;
  LivenessProbe : ProbeSpec;
  ReadinessProbe : ProbeSpec;
  Affinity : option Opaque;
  PodDisruptionBudget : PodDisruptionBudgetSpec;
  gen_ShutdownManager : option ShutdownManager;
  gen_InitManager : option InitManager;
}.

Section Generators.
Context {E : Environment} {Q : Quantities}.
Variable cfg : GeneratorOptions.

Definition labels : gmap string string :=
  list_to_map [("app.kubernetes.io/name", "marin3r");
               ("app.kubernetes.io/managed-by", "marin3r-operator");
               ("app.kubernetes.io/component", "envoy-deployment");
               ("app.kubernetes.io/instance", InstanceName cfg)].

Definition resourceName : string := "marin3r-envoydeployment" +:+ "-" +:+ InstanceName cfg.

Definition OwnedResourceKey : NamespacedName := mkKey (Namespace cfg) resourceName.

Definition ClientCertificate : DiscoveryServiceCertificate :=
  mkDiscoveryServiceCertificate
    (object_meta (ClientCertificateName cfg) (Namespace cfg) labels)
    (mkDiscoveryServiceCertificateSpec (ClientCertificateName cfg) None None
       (Seconds (ClientCertificateDuration cfg)) None
       (mkSigner false (Some (mkSecretReference (SigningCertificateName cfg) (Namespace cfg))))
       (mkSecretReference (ClientCertificateName cfg) "") None)
    emptyDSCStatus.

Definition container_port (p : DeploymentPort) : ContainerPort :=
  mkContainerPort (dp_Name p) (dp_Port p) (default "" (dp_Protocol p)) 0.

(** The container configuration; without a shutdown manager its fields keep
    their zero values. *)
Definition container_config : ContainerConfig := {|
  cc_Name := defaults.DeploymentContainerName;
  cc_Image := DeploymentImage cfg;
  cc_Ports := container_port <$> ExposedPorts cfg;
  cc_ConfigBasePath := defaults.EnvoyConfigBasePath;
  cc_ConfigFileName := defaults.EnvoyConfigFileName;
  cc_ConfigVolume := defaults.DeploymentConfigVolume;
  cc_TLSBasePath := defaults.EnvoyTLSBasePath;
  cc_TLSVolume := defaults.DeploymentTLSVolume;
  cc_NodeID := EnvoyNodeID cfg;
  cc_ClusterID := EnvoyClusterID cfg;
  cc_ClientCertSecret := Join [defaults.DeploymentClientCertificate; InstanceName cfg] "-";
  cc_ExtraArgs := ExtraArgs cfg;
  cc_Resources := DeploymentResources cfg;
  cc_AdminBindAddress := defaults.EnvoyAdminBindAddress;
  cc_AdminPort := AdminPort cfg;
  cc_AdminAccessLogPath := AdminAccessLogPath cfg;
  cc_LivenessProbe := LivenessProbe cfg;
  cc_ReadinessProbe := ReadinessProbe cfg;
  cc_InitManagerImage :=
    match gen_InitManager cfg with
    | Some im => InitManager_GetImage im | None => defaults.InitMgrImage end;
  cc_XdssHost := XdssAdress cfg;
  cc_XdssPort := XdssPort cfg;
  cc_APIVersion := APIVersion_String (EnvoyAPIVersion cfg);
  cc_ShutdownManagerEnabled := bool_decide (is_Some (gen_ShutdownManager cfg));
  cc_ShutdownManagerPort :=
    match gen_ShutdownManager cfg with
    | Some _ => int32 defaults.ShtdnMgrDefaultServerPort | None => 0 end;
  cc_ShutdownManagerImage :=
    match gen_ShutdownManager cfg with Some sm => ShutdownManager_GetImage sm | None => "" end;
  cc_ShutdownManagerDrainSeconds :=
    match gen_ShutdownManager cfg with Some sm => GetDrainTime sm | None => 0 end;
  cc_ShutdownManagerDrainStrategy :=
    match gen_ShutdownManager cfg with Some sm => GetDrainStrategy sm | None => "" end;
|}.

Definition DefaultTerminationGracePeriodSeconds : Z := 30%Z.

Definition Deployment : result DeploymentObject :=
  containers ← Containers container_config;
  Ok (mkDeploymentObject
        (object_meta resourceName (Namespace cfg) labels)
        (rsp_Static (Replicas cfg)) labels labels
        (mkPodSpec (Affinity cfg) (Volumes container_config) (InitContainers container_config)
           containers "default"
           (Some (match gen_ShutdownManager cfg with
                  | Some sm => GetDrainTime sm
                  | None => DefaultTerminationGracePeriodSeconds end))
           "")
        (RollingUpdate "25%" "25%")).

Definition HPA : OwnedObject :=
  OHPA (object_meta resourceName (Namespace cfg) labels)
    (match rsp_Dynamic (Replicas cfg) with
     | None => None
     | Some d => Some (mkHPASpec ("apps/v1", "Deployment", resourceName) (drs_MinReplicas d)
                         (drs_MaxReplicas d) (drs_Metrics d) (drs_Behavior d))
     end).

Definition PDB : OwnedObject :=
  OPDB (object_meta resourceName (Namespace cfg) labels)
    (match pdb_MinAvailable (PodDisruptionBudget cfg) with
     | Some m => mkPDBSpec labels (Some m) None
     | None => mkPDBSpec labels None (pdb_MaxUnavailable (PodDisruptionBudget cfg))
     end).
End Generators.

(** ** Controller *)

Class EnvoyConfigGetter (W : Type) := { Get_EnvoyConfig : W → NamespacedName → error + EnvoyConfig }.

Section Controller.
Context {E : Environment} {Q : Quantities} {W : Type}.
Context {BR : BaseReconciler W EnvoyDeployment} {DC : DiscoveryServiceClient W} {EC : EnvoyConfigGetter W}.
Implicit Types (ed : EnvoyDeployment) (ds : DiscoveryService) (ec : EnvoyConfig).

Definition generator_options ed ds ec : GeneratorOptions := {|
  InstanceName := om_Name (ed_Meta ed);
  Namespace := om_Namespace (ed_Meta ed);
  DiscoveryServiceName := eds_DiscoveryServiceRef (ed_Spec ed);
  XdssAdress := sc_Name (GetServiceConfig ds) +:+ "." +:+ om_Namespace (ds_Meta ds) +:+ "." +:+ "svc";
  XdssPort := GetXdsServerPort ds;
  EnvoyAPIVersion := EnvoyConfig_GetEnvoyAPIVersion ec;
  EnvoyNodeID := ecs_NodeID (ec_Spec ec);
  EnvoyClusterID := default (ecs_NodeID (ec_Spec ec)) (eds_ClusterID (ed_Spec ed));
  ClientCertificateName := defaults.DeploymentClientCertificate +:+ "-" +:+ om_Name (ed_Meta ed);
  ClientCertificateDuration := ed_ClientCertificateDuration ed;
  SigningCertificateName := co_SecretName (GetRootCertificateAuthorityOptions ds);
  DeploymentImage := ed_Image ed;
  DeploymentResources := ed_Resources ed;
  ExposedPorts := eds_Ports (ed_Spec ed);
  ExtraArgs := eds_ExtraArgs (ed_Spec ed);
  AdminPort := int32 (ed_AdminPort ed);
  AdminAccessLogPath := ed_AdminAccessLogPath ed;
  Replicas := ed_Replicas ed;
  LivenessProbe := ed_LivenessProbe ed;
  ReadinessProbe := ed_ReadinessProbe ed;
  Affinity := eds_Affinity (ed_Spec ed);
  PodDisruptionBudget := ed_PodDisruptionBudget ed;
  gen_ShutdownManager := eds_ShutdownManager (ed_Spec ed);
  gen_InitManager := eds_InitManager (ed_Spec ed);
|}.

Definition is_some {A} (o : option A) : bool := match o with Some _ => true | None => false end.

(** The mutation keeps the live number of replicas when it is not enforced. *)
Definition SetDeploymentReplicas (enforce : bool) : option string :=
  if enforce then None else Some "replicas".

Definition templates ed (gen : GeneratorOptions) : list Template :=
  [NewTemplate (Ok (OCertificate (dscDefaulter (ClientCertificate gen))));
   WithMutation (SetDeploymentReplicas (negb (is_some (rsp_Dynamic (ed_Replicas ed)))))
     (NewTemplate (ODeployment <$> Deployment gen));
   WithEnabled (is_some (rsp_Dynamic (ed_Replicas ed))) (NewTemplate (Ok (HPA gen)));
   WithEnabled (is_some (pdb_MinAvailable (ed_PodDisruptionBudget ed)) ||
                is_some (pdb_MaxUnavailable (ed_PodDisruptionBudget ed)))
     (NewTemplate (Ok (PDB gen)))].

Definition set_deployment_name (name : string) ed : EnvoyDeployment * bool :=
  if decide (ed_DeploymentName ed = Some name) then (ed, false)
  else (mkEnvoyDeployment (ed_Meta ed) (ed_Spec ed) (Some name), true).

(** The result beside an error is not used by the caller. *)
Definition EnvoyDeployment_Reconcile (w : W) (req : NamespacedName) : result Result * W :=
  match ManageResourceLifecycle w req id with
  | (Return r, w) => (r, w)
  | (Continue ed, w) =>
     match Get_DiscoveryService w (mkKey (om_Namespace (ed_Meta ed))
                                     (eds_DiscoveryServiceRef (ed_Spec ed))) with
     | inl err => (Err err, w)
     | inr ds =>
        match Get_EnvoyConfig w (mkKey (om_Namespace (ed_Meta ed))
                                   (eds_EnvoyConfigRef (ed_Spec ed))) with
        | inl err => (Err err, w)
        | inr ec =>
           let gen := generator_options ed ds ec in
           match ReconcileOwnedResources w ed (templates ed gen) with
           | (Return r, w) => (r, w)
           | (Continue _, w) =>
              match ReconcileStatus w ed [OwnedResourceKey gen]
                      (set_deployment_name (nn_Name (OwnedResourceKey gen))) with
              | (Return r, w) => (r, w)
              | (Continue _, w) => (Ok emptyResult, w)
              end
           end
        end
     end
  end.

Definition EnvoyConfigHandler ec ed : bool :=
  bool_decide (eds_EnvoyConfigRef (ed_Spec ed) = om_Name (ec_Meta ec)).
Definition DiscoveryServiceHandler ds ed : bool :=
  bool_decide (eds_DiscoveryServiceRef (ed_Spec ed) = om_Name (ds_Meta ds)).
End Controller.

(** ** The objects fit together *)

Section Fits.
Context {E : Environment} {Q : Quantities}.
Implicit Types (ed : EnvoyDeployment) (ds : DiscoveryService) (ec : EnvoyConfig).

(** [d] is the Deployment of [ed], with Envoy [e], its init manager [i] and
    its shutdown manager [m]. *)
Record deployment_fits ed ds ec (d : DeploymentObject) (e i : Container) (m : option Container)
    : Prop := {
  df_containers : psp_Containers (dep_PodSpec d) = e :: option_list m;
  df_init : psp_InitContainers (dep_PodSpec d) = [i];
  df_pod : envoy_pod_ok e i m (psp_Volumes (dep_PodSpec d));
  df_manager : is_Some m ↔ is_Some (eds_ShutdownManager (ed_Spec ed));
  df_manager_port c : m = Some c → flag_value "--port" (tail (ctr_Args c)) = Some "8090";
  df_node : flag_value "--service-node" (ctr_Args e) = Some (ecs_NodeID (ec_Spec ec));
  df_xds :
    flag_value "--xdss-host" (tail (ctr_Args i)) =
      Some (sc_Name (GetServiceConfig ds) +:+ "." +:+ om_Namespace (ds_Meta ds) +:+ "." +:+ "svc") ∧
    flag_value "--xdss-port" (tail (ctr_Args i)) = Some (Itoa (GetXdsServerPort ds));
  df_secret :
    ∃ v, mkVolume v (SecretVolumeSource
           (sr_Name (dscs_SecretRef (dsc_Spec (ClientCertificate (generator_options ed ds ec))))) 420)
           ∈ psp_Volumes (dep_PodSpec d);
  df_selector : dep_Selector d = dep_PodLabels d;
  df_replicas : is_Some (dep_Replicas d) → rsp_Dynamic (ed_Replicas ed) = None;
  df_hpa spec meta :
    HPA (generator_options ed ds ec) = OHPA meta (Some spec) →
    hpa_Target spec = ("apps/v1", "Deployment", om_Name (dep_Meta d)) ∧ dep_Replicas d = None;
  df_pdb spec meta :
    PDB (generator_options ed ds ec) = OPDB meta spec →
    pdbs_Selector spec = dep_Selector d ∧
    (pdbs_MinAvailable spec = None ∨ pdbs_MaxUnavailable spec = None);
  df_grace :
    psp_TerminationGracePeriodSeconds (dep_PodSpec d) =
    Some (match eds_ShutdownManager (ed_Spec ed) with
          | Some sm => GetDrainTime sm | None => 30%Z end);
}.

Lemma ed_Replicas_exclusive ed :
  rsp_Static (ed_Replicas ed) = None ∨ rsp_Dynamic (ed_Replicas ed) = None.
Proof. unfold ed_Replicas. repeat case_match; simpl; auto. Qed.

End Fits.

