(* ===== verification/DiscoveryServices.v ===== *)
(** * The DiscoveryService controller
    ([pkg/reconcilers/operator/discoveryservice/generators],
     [controllers/operator.marin3r/discoveryservice_controller.go])

    For a DiscoveryService the controller builds three certificates (a root
    authority and a server and a client certificate signed by it), a service
    account with its role and role binding, a Service, and, once the server
    certificate is there, a Deployment of the xDS server. *)

From S2P Require Import Prelude Meta Envoy Api OperatorTypes Container OperatorObjects.
#[local] Open Scope string_scope.
#[local] Open Scope list_scope.

(** ** Generators *)

Record GeneratorOptions := mkGeneratorOptions {
  InstanceName : string;
  Namespace : string;
  RootCertificateNamePrefix : string;
  RootCertificateCommonNamePrefix : string;
  RootCertificateDuration : Z;
  ServerCertificateNamePrefix : string;
  ServerCertificateCommonNamePrefix : string;
  ServerCertificateDuration : Z;
  ClientCertificateDuration : Z;
  XdsServerPort : Z;
  MetricsServerPort : Z;
  ProbePort : Z;
  gen_ServiceType : ServiceType;
  DeploymentImage : string;
  DeploymentResources : ResourceRequirements;
  Debug : bool;
  PodPriorityClass : option string;
}.

Definition DiscoveryServiceCertificateHashLabelKey : string :=
  "marin3r.3scale.net/server-certificate-hash".

Section Generators.
Variable cfg : GeneratorOptions.

Definition labels : gmap string string :=
  list_to_map [("app.kubernetes.io/name", "marin3r");
               ("app.kubernetes.io/managed-by", "marin3r-operator");
               ("app.kubernetes.io/component", "discovery-service");
               ("app.kubernetes.io/instance", InstanceName cfg)].

Definition RootCertName : string := RootCertificateNamePrefix cfg +:+ "-" +:+ InstanceName cfg.
Definition ServerCertName : string := ServerCertificateNamePrefix cfg +:+ "-" +:+ InstanceName cfg.
Definition ClientCertName : string := defaults.SidecarClientCertificate.
Definition ResourceName : string := "marin3r" +:+ "-" +:+ InstanceName cfg.

Definition meta (name : string) : ObjectMeta := object_meta name (Namespace cfg) labels.

Definition RootCertificationAuthority : DiscoveryServiceCertificate :=
  mkDiscoveryServiceCertificate (meta RootCertName)
    (mkDiscoveryServiceCertificateSpec
       (RootCertificateCommonNamePrefix cfg +:+ "-" +:+ InstanceName cfg) None (Some true)
       (Seconds (RootCertificateDuration cfg)) None (mkSigner true None)
       (mkSecretReference RootCertName (Namespace cfg)) (Some true))
    emptyDSCStatus.

Definition ServerCertificate : DiscoveryServiceCertificate :=
  mkDiscoveryServiceCertificate (meta ServerCertName)
    (mkDiscoveryServiceCertificateSpec
       (ServerCertificateCommonNamePrefix cfg +:+ "-" +:+ InstanceName cfg) (Some true) None
       (Seconds (ServerCertificateDuration cfg)) None
       (mkSigner false (Some (mkSecretReference RootCertName (Namespace cfg))))
       (mkSecretReference ServerCertName (Namespace cfg)) None)
    emptyDSCStatus.

Definition ClientCertificate : DiscoveryServiceCertificate :=
  mkDiscoveryServiceCertificate (meta ClientCertName)
    (mkDiscoveryServiceCertificateSpec ClientCertName None None
       (Seconds (ClientCertificateDuration cfg)) None
       (mkSigner false (Some (mkSecretReference RootCertName (Namespace cfg))))
       (mkSecretReference ClientCertName "") None)
    emptyDSCStatus.

Definition ServiceAccount : OwnedObject := OServiceAccount (meta ResourceName).

Definition Role : OwnedObject :=
  ORole (meta ResourceName)
    [mkPolicyRule [""] ["secrets"; "pods"] ["get"; "list"; "watch"];
     mkPolicyRule ["marin3r.3scale.net"] ["*"] ["*"];
     mkPolicyRule ["discovery.k8s.io"] ["endpointslices"] ["get"; "list"; "watch"]].

Definition RoleBinding : OwnedObject :=
  ORoleBinding (meta ResourceName) ResourceName (ResourceName, Namespace cfg).

Definition service_spec : ServiceSpec :=
  mkServiceSpec
    (match gen_ServiceType cfg with LoadBalancerType => "LoadBalancer" | _ => "ClusterIP" end)
    (match gen_ServiceType cfg with HeadlessType => "None" | _ => "" end)
    labels "None"
    [mkServicePort "discovery" (XdsServerPort cfg) "TCP" "discovery";
     mkServicePort "metrics" (MetricsServerPort cfg) "TCP" "metrics"].

Definition Service : OwnedObject := OService (meta ResourceName) service_spec.

Definition server_args : list string :=
  ["discovery-service";
   "--server-certificate-path=/etc/marin3r/tls/server";
   "--ca-certificate-path=/etc/marin3r/tls/ca";
   "--client-certificate-path=/etc/marin3r/tls/client";
   "--xdss-port=" +:+ Itoa (XdsServerPort cfg);
   "--metrics-bind-address=:" +:+ Itoa (MetricsServerPort cfg);
   "--health-probe-bind-address=:" +:+ Itoa (ProbePort cfg)] ++
  (if Debug cfg then ["--debug"] else []).

Definition probe (path : string) : Probe :=
  mkProbe (mkHTTPGetAction path (ProbePort cfg) "HTTP") (mkProbeSpec 0 1 10 1 3).

Definition server_container : Container :=
  mkContainer "marin3r" (DeploymentImage cfg) [] server_args
    [EnvValue "WATCH_NAMESPACE" (Namespace cfg); FieldRef "POD_NAME" "metadata.name" "v1"]
    (DeploymentResources cfg)
    [mkContainerPort "discovery" (int32 (XdsServerPort cfg)) "TCP" 0;
     mkContainerPort "metrics" (int32 (MetricsServerPort cfg)) "TCP" 0]
    [mkVolumeMount "server-cert" true "/etc/marin3r/tls/server/";
     mkVolumeMount "ca-cert" true "/etc/marin3r/tls/ca/";
     mkVolumeMount "client-cert" true "/etc/marin3r/tls/client/"]
    (Some (probe "/healthz")) (Some (probe "/readyz")) None "" "" "IfNotPresent".

Definition Deployment (hash : string) : DeploymentObject :=
  mkDeploymentObject (meta ResourceName) (Some 1%Z) labels
    (<[DiscoveryServiceCertificateHashLabelKey := hash]> labels)
    (mkPodSpec None
       [mkVolume "server-cert" (SecretVolumeSource ServerCertName 420);
        mkVolume "ca-cert" (SecretVolumeSource RootCertName 420);
        mkVolume "client-cert" (SecretVolumeSource ClientCertName 420)]
       [] [server_container] ResourceName (Some 30%Z) (default "" (PodPriorityClass cfg)))
    Recreate.
End Generators.

(** ** Controller *)

Class CertificateGetter (W : Type) := {
  Get_Certificate : W → NamespacedName → error + DiscoveryServiceCertificate }.

Section Controller.
Context {E : Environment} {W : Type} {BR : BaseReconciler W DiscoveryService} {CG : CertificateGetter W}.
Implicit Types (ds : DiscoveryService) (gen : GeneratorOptions).

Definition generator_options ds : GeneratorOptions := {|
  InstanceName := om_Name (ds_Meta ds);
  Namespace := om_Namespace (ds_Meta ds);
  RootCertificateNamePrefix := "marin3r-ca-cert";
  RootCertificateCommonNamePrefix := "marin3r-ca";
  RootCertificateDuration := co_Duration (GetRootCertificateAuthorityOptions ds);
  ServerCertificateNamePrefix := "marin3r-server-cert";
  ServerCertificateCommonNamePrefix := "marin3r-server";
  ServerCertificateDuration := co_Duration (GetServerCertificateOptions ds);
  ClientCertificateDuration := (48 * Hour)%Z;
  XdsServerPort := int32 (GetXdsServerPort ds);
  MetricsServerPort := int32 (GetMetricsPort ds);
  ProbePort := int32 (GetProbePort ds);
  gen_ServiceType := ClusterIPType;
  DeploymentImage := ds_GetImage ds;
  DeploymentResources := ds_Resources ds;
  Debug := ds_Debug ds;
  PodPriorityClass := GetPriorityClass ds;
|}.

Definition IsNotFound (err : error) : bool :=
  match err with StatusError StatusReasonNotFound _ => true | _ => false end.

Definition calculateServerCertificateHash (w : W) (key : NamespacedName) : error + string :=
  match Get_Certificate w key with
  | inl err => if IsNotFound err then inr "" else inl err
  | inr serverDSC => inr (GetCertificateHash (dsc_Status serverDSC))
  end.

Definition templates gen (serverCertHash : string) : list Template :=
  [NewTemplate (Ok (OCertificate (dscDefaulter (RootCertificationAuthority gen))));
   NewTemplate (Ok (OCertificate (dscDefaulter (ServerCertificate gen))));
   NewTemplate (Ok (OCertificate (dscDefaulter (ClientCertificate gen))));
   NewTemplate (Ok (ServiceAccount gen));
   NewTemplate (Ok (Role gen));
   NewTemplate (Ok (RoleBinding gen));
   WithMutation (Some "service live values") (NewTemplate (Ok (Service gen)));
   WithEnabled (bool_decide (serverCertHash ≠ ""))
     (NewTemplate (Ok (ODeployment (Deployment gen serverCertHash))))].

Definition set_deployment_name (name : string) ds : DiscoveryService * bool :=
  if decide (ds_DeploymentName ds = Some name) then (ds, false)
  else (mkDiscoveryService (ds_Meta ds) (ds_Spec ds) (Some name), true).

Definition DiscoveryService_Reconcile (w : W) (req : NamespacedName) : result Result * W :=
  match ManageResourceLifecycle w req id with
  | (Return r, w) => (r, w)
  | (Continue ds, w) =>
     let gen := generator_options ds in
     match calculateServerCertificateHash w (mkKey (Namespace gen) (ServerCertName gen)) with
     | inl err => (Err err, w)
     | inr serverCertHash =>
        match ReconcileOwnedResources w ds (templates gen serverCertHash) with
        | (Return r, w) => (r, w)
        | (Continue _, w) =>
           if decide (serverCertHash = "") then (Ok requeueResult, w)
           else
             match ReconcileStatus w ds [mkKey (om_Namespace (ds_Meta ds)) (ResourceName gen)]
                     (set_deployment_name (ResourceName gen)) with
             | (Return r, w) => (r, w)
             | (Continue _, w) => (Ok emptyResult, w)
             end
        end
     end
  end.
End Controller.

(** ** The objects fit together *)

(** The Secret a certificate is stored in. *)
Definition secret_of (c : DiscoveryServiceCertificate) : string := sr_Name (dscs_SecretRef (dsc_Spec c)).

(** The Secret of the authority that signs a certificate. *)
Definition issuer_of (c : DiscoveryServiceCertificate) : option (string * string) :=
  (λ r, (sr_Name r, sr_Namespace r)) <$> sg_CASigned (dscs_Signer (dsc_Spec c)).

Section Fits.
Context {E : Environment}.
Implicit Types (ds : DiscoveryService).

Record service_fits ds (hash : string) : Prop := {
  sf_chain :
    let gen := generator_options ds in
    let root := RootCertificationAuthority gen in
    IsCA root = true ∧ sg_SelfSigned (dscs_Signer (dsc_Spec root)) = true ∧
    issuer_of (ServerCertificate gen) = Some (secret_of root, om_Namespace (dsc_Meta root)) ∧
    issuer_of (ClientCertificate gen) = Some (secret_of root, om_Namespace (dsc_Meta root)) ∧
    IsServerCertificate (ServerCertificate gen) = true;
  sf_secrets :
    let gen := generator_options ds in
    (λ v, v_Source v) <$> psp_Volumes (dep_PodSpec (Deployment gen hash)) =
    (λ c, SecretVolumeSource (secret_of c) 420) <$>
      [ServerCertificate gen; RootCertificationAuthority gen; ClientCertificate gen];
  sf_mounts :
    let p := dep_PodSpec (Deployment (generator_options ds) hash) in
    mounts_ok (psp_Containers p) (psp_Volumes p);
  sf_selector :
    let d := Deployment (generator_options ds) hash in
    dep_Selector d ⊆ dep_PodLabels d ∧ ss_Selector (service_spec (generator_options ds)) = dep_Selector d;
  sf_ports p :
    p ∈ ss_Ports (service_spec (generator_options ds)) →
    ∃ c cp, c ∈ psp_Containers (dep_PodSpec (Deployment (generator_options ds) hash)) ∧
      cp ∈ ctr_Ports c ∧ cp_Name cp = sp_TargetPort p ∧ cp_ContainerPort cp = sp_Port p;
  sf_address :
    (∀ o, Service (generator_options ds) = o → ∃ m s, o = OService m s ∧
       (sc_Name (GetServiceConfig ds) = om_Name m ↔
        ∀ c, dss_ServiceConfig (ds_Spec ds) = Some c → sc_Name c = OwnedObjectName ds));
  sf_signer :
    co_SecretName (GetRootCertificateAuthorityOptions ds) =
      secret_of (RootCertificationAuthority (generator_options ds)) ↔
    ∀ pki o, dss_PKIConfig (ds_Spec ds) = Some pki → pki_RootCertificateAuthority pki = Some o →
      co_SecretName o = "marin3r-ca-cert-" +:+ ds_Name ds;
}.

Lemma int32_idem z : int32 (int32 z) = int32 z.
Proof.
  apply int32_id. unfold int32. pose proof (Z.mod_pos_bound (z + 2 ^ 31) (2 ^ 32)). lia.
Qed.

Lemma hash_label_fresh gen : labels gen !! DiscoveryServiceCertificateHashLabelKey = None.
Proof. unfold labels. by simplify_map_eq. Qed.

(** The objects of a DiscoveryService fit together.  The server and client
    certificates are signed by the root authority, which is stored where they
    look for it; the Deployment mounts the Secrets of the three certificates
    and its pods are the ones the Service selects, with the ports it forwards
    to.  But the Service that clients are sent to ([GetServiceConfig]) is the one
    that is created only when [serviceConfig] does not give another name, and
    the Secret that EnvoyDeployments name as signer is the one of the root
    authority only when [pkiConfig] does not give another name: both options
    change the readers and not the objects. *)
Theorem discovery_service_objects_fit ds hash : service_fits ds hash.
Proof.
  constructor.
  - repeat split.
  - reflexivity.
  - simpl. unfold mounts_ok. repeat constructor; simpl; set_solver.
  - simpl. split; [|done]. apply insert_subseteq, hash_label_fresh.
  - intros p Hp. unfold service_spec in Hp. simpl in Hp.
    exists (server_container (generator_options ds)).
    rewrite !elem_of_cons, elem_of_nil in Hp. destruct Hp as [->|[->|[]]]; simpl.
    + eexists. split; [set_solver|]. split; [left|]. by rewrite int32_idem.
    + eexists. split; [set_solver|]. split; [right; left|]. by rewrite int32_idem.
  - intros o <-. eexists _, _. split; [done|]. unfold GetServiceConfig.
    destruct (dss_ServiceConfig (ds_Spec ds)) as [c|]; simpl; naive_solver.
  - unfold GetRootCertificateAuthorityOptions.
    destruct (dss_PKIConfig (ds_Spec ds)) as [[[o|] s]|]; simpl; naive_solver.
Qed.
End Fits.
