(* ===== verification/Certificates.v ===== *)
(** * Certificates
    ([pkg/reconcilers/operator/discoveryservicecertificate], [pkg/util/pki],
     [controllers/operator.marin3r/discoveryservicecertificate_controller.go])

    The DiscoveryServiceCertificate controller issues certificates into Secrets
    with the internal provider, verifies them and reissues them before they
    expire.  The functions of the Go crypto libraries are the operations of
    [Crypto], what they promise is [CryptoLaws].

    Durations and times are in nanoseconds.  [renew_before] uses the IEEE 754
    arithmetic of the Standard Library's [SpecFloat], as the source computes the
    renewal window in [float64]. *)

From S2P Require Import Prelude Meta Envoy Api Stats Discover Snapshot CacheReconciler.
From S2P Require Import OperatorTypes Container Sidecar OperatorObjects EnvoyDeployments DiscoveryServices.
From Stdlib Require Import SpecFloat.
#[local] Open Scope string_scope.
#[local] Open Scope list_scope.

(** ** Libraries *)

Record X509 := mkX509 { x_NotBefore : Time; x_NotAfter : Time; x_IsCA : bool; x_Raw : string }.

(** The template of a certificate to issue. *)
Record CertTemplate := mkCertTemplate {
  tpl_SerialNumber : Z;
  tpl_Organization : list string;
  tpl_CommonName : string;
  tpl_NotBefore : Time;
  tpl_NotAfter : Time;
  tpl_KeyUsage : list string;
  tpl_ExtKeyUsage : list string;
  tpl_IPAddresses : list string;
  tpl_DNSNames : list string;
  tpl_IsCA : bool;
}.

Class Crypto := {
  PrivateKey : Type;
  Rand : Type;
  rsa_GenerateKey : Rand → error + PrivateKey;
  rand_Int : Rand → error + Z;
  (** [x509.CreateCertificate]; [None] is the template itself as the parent. *)
  x509_CreateCertificate : Rand → CertTemplate → option X509 → PrivateKey → PrivateKey →
    error + string;
  x509_ParseCertificate : string → error + X509;
  x509_MarshalPKCS8 : PrivateKey → error + string;
  (** The parsers of private keys; [None] is a key that cannot sign. *)
  x509_ParsePKCS8 : string → error + option PrivateKey;
  x509_ParsePKCS1 : string → error + PrivateKey;
  rsa_Validate : PrivateKey → option error;
  (** [certificate.Verify] at a time against a root. *)
  x509_Verify : Time → X509 → X509 → option error;
  pem_Decode : string → option (string * string);
  pem_Encode : string → string → string;
  crypto_ParseIP : string → option string;
}.

(** ** [pki] *)

Section PKI.
Context {K : Crypto}.

(** The block is used without a check, which panics when there is none. *)
Definition LoadX509Certificate (cert : string) : result X509 :=
  '(_, bytes) ← deref (pem_Decode cert);
  match x509_ParseCertificate bytes with inl err => Err err | inr crt => Ok crt end.

Definition DecodePrivateKeyBytes (keyBytes : string) : result PrivateKey :=
  match pem_Decode keyBytes with
  | None => Err (ErrorString "error decoding private key PEM block")
  | Some (type, bytes) =>
     if decide (type = "PRIVATE KEY") then
       match x509_ParsePKCS8 bytes with
       | inl err => Err (ErrorString ("error parsing pkcs#8 private key: " +:+ Error_text err))
       | inr None => Err (ErrorString "error parsing pkcs#8 private key: invalid key type")
       | inr (Some key) => Ok key
       end
     else if decide (type = "RSA PRIVATE KEY") then
       match x509_ParsePKCS1 bytes with
       | inl err => Err (ErrorString ("error parsing rsa private key: " +:+ Error_text err))
       | inr key =>
          match rsa_Validate key with
          | Some err => Err (ErrorString ("rsa private key failed validation: " +:+ Error_text err))
          | None => Ok key
          end
       end
     else Err (ErrorString ("unknown private key type: " +:+ type))
  end.

Definition IsVerifyError (err : error) : bool :=
  match err with VerifyError _ => true | _ => false end.

Definition Verify (now : Time) (certificate root : X509) : result unit :=
  match x509_Verify now certificate root with
  | Some err => Err (VerifyError (Error_text err))
  | None => Ok tt
  end.

Definition cert_template (now : Time) (serialNumber : Z) (commonName : string) (validFor : Z)
    (isServer isCA : bool) (host : list string) : CertTemplate :=
  mkCertTemplate serialNumber ["marin3r.3scale.net"] commonName now (now + validFor)%Z
    (if isCA then ["CertSign"] else ["KeyEncipherment"; "DigitalSignature"])
    (if isServer then ["ServerAuth"] else [])
    (omap crypto_ParseIP host)
    (List.filter (λ h, bool_decide (crypto_ParseIP h = None)) host)
    isCA.

Definition GenerateCertificate (now : Time) (rnd : Rand) (issuer : option (X509 * PrivateKey))
    (commonName : string) (validFor : Z) (isServer isCA : bool) (host : list string)
    : result (string * string) :=
  match rsa_GenerateKey rnd with
  | inl err => Err err
  | inr priv =>
     match rand_Int rnd with
     | inl err => Err err
     | inr serialNumber =>
        let template := cert_template now serialNumber commonName validFor isServer isCA host in
        let der := match issuer with
                   | None => x509_CreateCertificate rnd template None priv priv
                   | Some (issuerCert, signerKey) =>
                      x509_CreateCertificate rnd template (Some issuerCert) priv signerKey
                   end in
        match der with
        | inl err => Err err
        | inr derBytes =>
           match x509_MarshalPKCS8 priv with
           | inl err => Err err
           | inr privBytes =>
              Ok (pem_Encode "CERTIFICATE" derBytes, pem_Encode "PRIVATE KEY" privBytes)
           end
        end
     end
  end.
End PKI.

(** ** The internal provider *)

Class CertificateClient (W : Type) := {
  Get_tls_secret : W → NamespacedName → error + K8sSecret;
  SetControllerReference_secret : NamespacedName → option error;
  Create_secret : W → NamespacedName → K8sSecret → option error * W;
  Update_secret : W → NamespacedName → K8sSecret → option error * W;
}.

Section Provider.
Context {K : Crypto} {W : Type} {CC : CertificateClient W}.
Variable dsc : DiscoveryServiceCertificate.
Implicit Types (w : W) (now : Time) (rnd : Rand).

Definition secret_key : NamespacedName :=
  mkKey (om_Namespace (dsc_Meta dsc)) (sr_Name (dscs_SecretRef (dsc_Spec dsc))).

Definition getIssuerCertificate w : result (option (X509 * PrivateKey)) :=
  match sg_CASigned (dscs_Signer (dsc_Spec dsc)) with
  | Some ref =>
     match Get_tls_secret w (mkKey (sr_Namespace ref) (sr_Name ref)) with
     | inl err => Err err
     | inr secret =>
        cert ← LoadX509Certificate (secret_data secret "tls.crt");
        privKey ← DecodePrivateKeyBytes (secret_data secret "tls.key");
        Ok (Some (cert, privKey))
     end
  | None => Ok None
  end.

Definition genSecret now rnd (issuer : option (X509 * PrivateKey)) : result K8sSecret :=
  '(crt, key) ← GenerateCertificate now rnd issuer (dscs_CommonName (dsc_Spec dsc))
                  (int64 (dscs_ValidFor (dsc_Spec dsc) * Second))
                  (IsServerCertificate dsc) (IsCA dsc) (GetHosts dsc);
  Ok (mkK8sSecret SecretTypeTLS {[ "tls.crt" := crt; "tls.key" := key ]}).

Definition secret_pair (s : K8sSecret) : string * string :=
  (secret_data s "tls.crt", secret_data s "tls.key").

Definition GetCertificate w : result (string * string) :=
  match Get_tls_secret w secret_key with
  | inl err => Err err
  | inr secret => Ok (secret_pair secret)
  end.

Definition CreateCertificate now rnd w : result (string * string) * W :=
  match getIssuerCertificate w with
  | Err err => (Err err, w)
  | Panic => (Panic, w)
  | Ok issuer =>
     match Get_tls_secret w secret_key with
     | inr _ => (Err (ErrorString ("secret " +:+ nn_Namespace secret_key +:+ "/" +:+
                        nn_Name secret_key +:+ " already exists")), w)
     | inl err =>
        if IsNotFound err then
          match genSecret now rnd issuer with
          | Err err => (Err err, w)
          | Panic => (Panic, w)
          | Ok secret =>
             match SetControllerReference_secret secret_key with
             | Some err => (Err err, w)
             | None =>
                match Create_secret w secret_key secret with
                | (Some err, w) => (Err err, w)
                | (None, w) => (Ok (secret_pair secret), w)
                end
             end
          end
        else (Err err, w)
     end
  end.

(** Only the data of the Secret changes. *)
Definition UpdateCertificate now rnd w : result (string * string) * W :=
  match getIssuerCertificate w with
  | Err err => (Err err, w)
  | Panic => (Panic, w)
  | Ok issuer =>
     match Get_tls_secret w secret_key with
     | inl err => (Err err, w)
     | inr secret =>
        match genSecret now rnd issuer with
        | Err err => (Err err, w)
        | Panic => (Panic, w)
        | Ok newPayload =>
           let secret := mkK8sSecret (s_Type secret) (s_Data newPayload) in
           match Update_secret w secret_key secret with
           | (Some err, w) => (Err err, w)
           | (None, w) => (Ok (secret_pair secret), w)
           end
        end
     end
  end.

(** The certificate of the issuer, when there is one. *)
Definition issuer_root w : result (option X509) :=
  match sg_CASigned (dscs_Signer (dsc_Spec dsc)) with
  | Some _ =>
     match getIssuerCertificate w with
     | Ok issuer => Ok (fst <$> issuer)
     | Err err => Err err
     | Panic => Panic
     end
  | None => Ok None
  end.

Definition VerifyCertificate now w : result unit :=
  match Get_tls_secret w secret_key with
  | inl err => Err err
  | inr secret =>
     cert ← LoadX509Certificate (secret_data secret "tls.crt");
     root ← issuer_root w;
     Verify now cert (default cert root)
  end.
End Provider.

(** ** The certificate reconciler *)

(** [Time.Sub], which saturates. *)
Definition Sub (t u : Time) : Z := Z.max (- 2 ^ 63) (Z.min (2 ^ 63 - 1) (t - u)).

(** [float64] arithmetic. *)
Definition float64 (z : Z) : spec_float := binary_normalize 53 1024 z 0 false.
Definition float64_0_20 : spec_float := S754_finite false 7205759403792794 (-55).
Definition floor_float (f : spec_float) : Z :=
  match f with
  | S754_finite s m e =>
     let z := if s then Zneg m else Zpos m in
     if decide (0 ≤ e)%Z then (z * 2 ^ e)%Z else (z / 2 ^ (- e))%Z
  | _ => 0%Z
  end.

(** [time.Duration(int64(math.Floor(float64(duration) * 0.20)))]. *)
Definition renew_before (duration : Z) : Z :=
  floor_float (SFmul 53 1024 (float64 duration) float64_0_20).

Record CertificateReconciler := mkCertificateReconciler {
  cr_ready : bool;
  cr_hash : string;
  cr_notBefore : option Time;
  cr_notAfter : option Time;
  cr_schedule : option Z;
}.
Definition NewCertificateReconciler : CertificateReconciler :=
  mkCertificateReconciler false "" None None None.

Section Reconciler.
Context {K : Crypto} {W : Type} {CC : CertificateClient W}.
(** [reconcilerutil.Hash] of the bytes of a certificate. *)
Variable Hash_bytes : string → string.
Variable dsc : DiscoveryServiceCertificate.
Implicit Types (w : W) (now : Time) (rnd : Rand).

(** The part of [Reconcile] that follows the verification. *)
Definition schedule_renewal now rnd w (ready : bool) (certBytes : string) (cert : X509)
    : result Result * CertificateReconciler * W :=
  let timeToExpire := Sub (x_NotAfter cert) now in
  let duration := Sub (x_NotAfter cert) (x_NotBefore cert) in
  let done schedule :=
    (Ok emptyResult,
     mkCertificateReconciler ready (Hash_bytes certBytes) (Some (x_NotBefore cert))
       (Some (x_NotAfter cert)) schedule, w) in
  if GetCertificateRenewalConfig dsc then
    let renewBefore := renew_before duration in
    if negb ready || (timeToExpire <? renewBefore)%Z then
      let r := mkCertificateReconciler ready "" None None None in
      match UpdateCertificate dsc now rnd w with
      | (Err err, w) => (Err err, r, w)
      | (Panic, w) => (Panic, r, w)
      | (Ok _, w) => (Ok requeueResult, r, w)
      end
    else done (Some (int64 (timeToExpire - renewBefore)))
  else done (if decide (now ≤ x_NotAfter cert)%Z then Some (int64 (timeToExpire + Second)) else None).

Definition CertificateReconciler_Reconcile now rnd w
    : result Result * CertificateReconciler * W :=
  let r := NewCertificateReconciler in
  match GetCertificate dsc w with
  | Panic => (Panic, r, w)
  | Err err =>
     if IsNotFound err then
       match CreateCertificate dsc now rnd w with
       | (Err err, w) => (Err err, r, w)
       | (Panic, w) => (Panic, r, w)
       | (Ok _, w) => (Ok requeueResult, r, w)
       end
     else (Err err, r, w)
  | Ok (certBytes, _) =>
     let go ready :=
       match LoadX509Certificate certBytes with
       | Err err => (Err err, mkCertificateReconciler ready "" None None None, w)
       | Panic => (Panic, mkCertificateReconciler ready "" None None None, w)
       | Ok cert => schedule_renewal now rnd w ready certBytes cert
       end in
     match VerifyCertificate dsc now w with
     | Ok _ => go true
     | Err err => if IsVerifyError err then go false else (Err err, r, w)
     | Panic => (Panic, r, w)
     end
  end.

(** ** Status *)

(** Each field and whether it was right. *)
Definition CertificateStatus_IsReconciled (certificateHash : string) (ready : bool)
    (notBefore notAfter : Time) : bool * DiscoveryServiceCertificate :=
  let st := dsc_Status dsc in
  let '(h, ok1) := if decide (GetCertificateHash st = certificateHash)
                   then (dscst_CertificateHash st, true) else (Some certificateHash, false) in
  let '(rd, ok2) := if decide (IsReady st = ready)
                    then (dscst_Ready st, true) else (Some ready, false) in
  let '(nb, ok3) := if decide (dscst_NotBefore st = Some notBefore)
                    then (dscst_NotBefore st, true) else (Some notBefore, false) in
  let '(na, ok4) := if decide (dscst_NotAfter st = Some notAfter)
                    then (dscst_NotAfter st, true) else (Some notAfter, false) in
  let '(cs, ok5) := match dscst_Conditions st with
                    | Some cs => (Some cs, true) | None => (Some [], false) end in
  (ok1 && ok2 && ok3 && ok4 && ok5,
   mkDiscoveryServiceCertificate (dsc_Meta dsc) (dsc_Spec dsc)
     (mkDiscoveryServiceCertificateStatus rd nb na h cs)).
End Reconciler.

(** ** Controller *)

Class CertificateStatusClient (W : Type) := {
  Status_Update_certificate : W → DiscoveryServiceCertificate → option error * W }.

Section Controller.
Context {K : Crypto} {W : Type} {CC : CertificateClient W} {SU : CertificateStatusClient W}.
Context {BR : BaseReconciler W DiscoveryServiceCertificate}.
Variable Hash_bytes : string → string.

Definition Certificate_Reconcile (now : Time) (rnd : Rand) (w : W) (req : NamespacedName)
    : result Result * W :=
  match ManageResourceLifecycle w req DiscoveryServiceCertificate_Default with
  | (Return r, w) => (r, w)
  | (Continue dsc, w) =>
     match CertificateReconciler_Reconcile Hash_bytes dsc now rnd w with
     | (Ok res, r, w) =>
        if Requeue res then (Ok res, w)
        else
          match cr_notBefore r, cr_notAfter r with
          | Some notBefore, Some notAfter =>
             let '(ok, dsc) := CertificateStatus_IsReconciled dsc (cr_hash r) (cr_ready r)
                                 notBefore notAfter in
             let finish w :=
               (Ok (match cr_schedule r with
                    | None => emptyResult
                    | Some d => mkResult false d
                    end), w) in
             if ok then finish w
             else match Status_Update_certificate w dsc with
                  | (Some err, w) => (Err err, w)
                  | (None, w) => finish w
                  end
          | _, _ => (Panic, w)
          end
     | (Err err, _, w) => (Err err, w)
     | (Panic, _, w) => (Panic, w)
     end
  end.

Definition IssuerChangedHandler (issuer cert : DiscoveryServiceCertificate) : bool :=
  IsCA issuer &&
  match sg_CASigned (dscs_Signer (dsc_Spec cert)) with
  | Some ref => bool_decide (sr_Name ref = sr_Name (dscs_SecretRef (dsc_Spec issuer)))
  | None => false
  end.
End Controller.

(** ** Laws of the libraries *)

(** Certificates carry times in seconds. *)
Definition truncate_seconds (t : Time) : Time := (t / Second * Second)%Z.

(** [t] is in the validity of [c]. *)
Definition valid_at (t : Time) (c : X509) : Prop := (x_NotBefore c ≤ t ≤ x_NotAfter c)%Z.

Class CryptoLaws (K : Crypto) := {
  (** The key is the one the certificate was issued for. *)
  key_matches : X509 → PrivateKey → Prop;
  pem_roundtrip ty b : ty ∈ ["CERTIFICATE"; "PRIVATE KEY"] → pem_Decode (pem_Encode ty b) = Some (ty, b);
  create_parse rnd tpl parent key signer der :
    x509_CreateCertificate rnd tpl parent key signer = inr der →
    ∃ c, x509_ParseCertificate der = inr c ∧
      x_NotBefore c = truncate_seconds (tpl_NotBefore tpl) ∧
      x_NotAfter c = truncate_seconds (tpl_NotAfter tpl) ∧ x_IsCA c = tpl_IsCA tpl;
  self_signed_verifies rnd tpl key der c t :
    x509_CreateCertificate rnd tpl None key key = inr der → x509_ParseCertificate der = inr c →
    tpl_ExtKeyUsage tpl = [] ∨ tpl_ExtKeyUsage tpl = ["ServerAuth"] →
    valid_at t c → x509_Verify t c c = None;
  ca_signed_verifies rnd tpl root key signer der c t :
    x509_CreateCertificate rnd tpl (Some root) key signer = inr der →
    x509_ParseCertificate der = inr c → key_matches root signer → x_IsCA root = true →
    tpl_ExtKeyUsage tpl = [] ∨ tpl_ExtKeyUsage tpl = ["ServerAuth"] →
    valid_at t c → valid_at t root → x509_Verify t c root = None;
}.

Class CertificateClientLaws {W} (CC : CertificateClient W) := {
  secrets : W → gmap NamespacedName K8sSecret;
  get_tls_secret w k s : Get_tls_secret w k = inr s ↔ secrets w !! k = Some s;
  create_secret w k s w' : Create_secret w k s = (None, w') → secrets w' = <[k := s]> (secrets w);
  update_secret w k s w' : Update_secret w k s = (None, w') → secrets w' = <[k := s]> (secrets w);
}.

(** ** Issuing *)

Section Generating.
Context {K : Crypto} {KL : CryptoLaws K}.

(** [crt] is the text of a certificate that was issued at [now], for a period and
    as an authority or not, by [issuer], or by itself. *)
Definition issued_for (now : Time) (validFor : Z) (ca : bool) (issuer : option (X509 * PrivateKey))
    (crt : string) : Prop :=
  ∃ c, LoadX509Certificate crt = Ok c ∧
    x_NotBefore c = truncate_seconds now ∧ x_NotAfter c = truncate_seconds (now + validFor)%Z ∧
    x_IsCA c = ca ∧
    ∀ t, valid_at t c →
      match issuer with
      | None => x509_Verify t c c = None
      | Some (root, key) =>
         key_matches root key → x_IsCA root = true → valid_at t root → x509_Verify t c root = None
      end.

Lemma GenerateCertificate_issued now rnd issuer commonName validFor isServer ca host crt key :
  GenerateCertificate now rnd issuer commonName validFor isServer ca host = Ok (crt, key) →
  issued_for now validFor ca issuer crt.
Proof.
  unfold GenerateCertificate.
  destruct (rsa_GenerateKey rnd) as [|priv]; [done|].
  destruct (rand_Int rnd) as [|serial]; [done|].
  set (tpl := cert_template _ _ _ _ _ _ _).
  set (der := match issuer with None => _ | Some _ => _ end).
  destruct der as [|d] eqn:Ed; [done|]. destruct (x509_MarshalPKCS8 priv) as [|pb]; [done|].
  simpl. intros [= <- _].
  assert (tpl_ExtKeyUsage tpl = [] ∨ tpl_ExtKeyUsage tpl = ["ServerAuth"]) as Hu.
  { unfold tpl, cert_template. simpl. destruct isServer; auto. }
  assert (∃ c, x509_ParseCertificate d = inr c ∧
      x_NotBefore c = truncate_seconds now ∧ x_NotAfter c = truncate_seconds (now + validFor)%Z ∧
      x_IsCA c = ca) as (c & Hp & Hnb & Hna & Hca).
  { unfold der in Ed. destruct issuer as [[root k]|]; by eapply create_parse in Ed. }
  exists c. split; [|split; [done|split; [done|split; [done|]]]].
  - unfold LoadX509Certificate. rewrite pem_roundtrip by set_solver. simpl. by rewrite Hp.
  - intros t Ht. unfold der in Ed. destruct issuer as [[root k]|].
    + intros. by eapply ca_signed_verifies.
    + by eapply self_signed_verifies.
Qed.
End Generating.

Section Issuing.
Context {K : Crypto} {KL : CryptoLaws K} {W : Type} {CC : CertificateClient W}.
Context {CL : CertificateClientLaws CC}.
Variable Hash_bytes : string → string.
Variable dsc : DiscoveryServiceCertificate.
Implicit Types (w : W) (now t : Time) (rnd : Rand) (c : X509).

Definition valid_for : Z := int64 (dscs_ValidFor (dsc_Spec dsc) * Second).

(** [s] holds a certificate issued at [now] by [issuer]. *)
Definition issued now (issuer : option (X509 * PrivateKey)) (s : K8sSecret) : Prop :=
  issued_for now valid_for (IsCA dsc) issuer (secret_data s "tls.crt").

Lemma genSecret_issued now rnd issuer s : genSecret dsc now rnd issuer = Ok s → issued now issuer s.
Proof.
  unfold genSecret. fold valid_for.
  destruct (GenerateCertificate _ _ _ _ _ _ _ _) as [[crt key]| |] eqn:Eg; [|done..].
  simpl. intros [= <-]. apply GenerateCertificate_issued in Eg.
  unfold issued, secret_data. cbn [s_Data]. by rewrite lookup_insert_eq.
Qed.

(** The Secret of the issuer is not the one of the certificate. *)
Definition issuer_apart : Prop :=
  ∀ ref, sg_CASigned (dscs_Signer (dsc_Spec dsc)) = Some ref →
    mkKey (sr_Namespace ref) (sr_Name ref) ≠ secret_key dsc.

Lemma getIssuer_frame w w' s :
  issuer_apart → secrets w' = <[secret_key dsc := s]> (secrets w) →
  ∀ issuer, getIssuerCertificate dsc w = Ok issuer → getIssuerCertificate dsc w' = Ok issuer.
Proof.
  intros Hap Hw issuer. unfold getIssuerCertificate.
  destruct (sg_CASigned _) as [ref|] eqn:Er; [|done].
  destruct (Get_tls_secret w _) as [|sec] eqn:Eg; [done|]. apply get_tls_secret in Eg.
  assert (Get_tls_secret w' (mkKey (sr_Namespace ref) (sr_Name ref)) = inr sec) as ->; [|done].
  apply get_tls_secret. rewrite Hw, lookup_insert_ne; [done|]. intros Eq. by apply (Hap ref Er).
Qed.

(** A certificate was created or updated. *)
Lemma written now rnd w pair w' :
  CreateCertificate dsc now rnd w = (Ok pair, w') ∨ UpdateCertificate dsc now rnd w = (Ok pair, w') →
  ∃ issuer s, getIssuerCertificate dsc w = Ok issuer ∧ issued now issuer s ∧
    secrets w' = <[secret_key dsc := s]> (secrets w).
Proof.
  unfold CreateCertificate, UpdateCertificate.
  destruct (getIssuerCertificate dsc w) as [issuer| |]; [|by intros [|]..].
  intros [H|H].
  - destruct (Get_tls_secret w (secret_key dsc)) as [err|]; [|done]. destruct (IsNotFound err); [|done].
    destruct (genSecret dsc now rnd issuer) as [s| |] eqn:Eg; [|done..].
    destruct (SetControllerReference_secret _); [done|].
    destruct (Create_secret _ _ _) as [[|] w1] eqn:Ec; [done|]. injection H as _ <-.
    exists issuer, s. split; [done|]. split; [by eapply genSecret_issued|by eapply create_secret].
  - destruct (Get_tls_secret w (secret_key dsc)) as [|old]; [done|].
    destruct (genSecret dsc now rnd issuer) as [s| |] eqn:Eg; [|done..].
    destruct (Update_secret _ _ _) as [[|] w1] eqn:Eu; [done|]. injection H as _ <-.
    exists issuer, (mkK8sSecret (s_Type old) (s_Data s)). split; [done|].
    apply genSecret_issued in Eg. split; [exact Eg|by eapply update_secret].
Qed.

(** What a run that asks to be run again has done. *)
Lemma Reconcile_requeue now rnd w r w' :
  CertificateReconciler_Reconcile Hash_bytes dsc now rnd w = (Ok requeueResult, r, w') →
  ∃ pair, CreateCertificate dsc now rnd w = (Ok pair, w') ∨ UpdateCertificate dsc now rnd w = (Ok pair, w').
Proof.
  unfold CertificateReconciler_Reconcile, schedule_renewal.
  destruct (GetCertificate dsc w) as [[cb key]|err|]; [| |done].
  - assert (∀ ready, match LoadX509Certificate cb with
      | Ok cert => schedule_renewal Hash_bytes dsc now rnd w ready cb cert
      | Err err => (Err err, mkCertificateReconciler ready "" None None None, w)
      | Panic => (Panic, mkCertificateReconciler ready "" None None None, w)
      end = (Ok requeueResult, r, w') →
      ∃ pair, UpdateCertificate dsc now rnd w = (Ok pair, w')) as Hgo.
    { intros ready. destruct (LoadX509Certificate cb) as [c| |]; [|done..].
      unfold schedule_renewal. destruct (GetCertificateRenewalConfig dsc); [|done].
      destruct (negb ready || _); [|done].
      destruct (UpdateCertificate dsc now rnd w) as [[pair| |] w1]; [|done..].
      intros [= _ <-]. eauto. }
    destruct (VerifyCertificate dsc now w) as [[]|err|]; [|destruct (IsVerifyError err); [|done]|done];
      intros H; apply Hgo in H as [pair H]; eauto.
  - destruct (IsNotFound err); [|done].
    destruct (CreateCertificate dsc now rnd w) as [[pair| |] w1]; [|done..].
    intros [= _ <-]. eauto.
Qed.

(** A run on a certificate that can be read. *)
Definition verified now w (ready : bool) : Prop :=
  if ready then VerifyCertificate dsc now w = Ok tt
  else ∃ m, VerifyCertificate dsc now w = Err (VerifyError m).

Lemma Reconcile_loaded now rnd w cb key c ready :
  GetCertificate dsc w = Ok (cb, key) → LoadX509Certificate cb = Ok c → verified now w ready →
  CertificateReconciler_Reconcile Hash_bytes dsc now rnd w =
  schedule_renewal Hash_bytes dsc now rnd w ready cb c.
Proof.
  intros Hg Hl Hv. unfold CertificateReconciler_Reconcile. rewrite Hg.
  destruct ready; simpl in Hv; [rewrite Hv, Hl; done|]. destruct Hv as [m ->]. by rewrite Hl.
Qed.

(** The rounding of the library keeps signs, so the window of a duration is one. *)
Definition nonneg_float (f : spec_float) : Prop :=
  match f with S754_finite s _ _ => s = false | _ => True end.

Lemma binary_round_aux_nonneg m e l : nonneg_float (binary_round_aux 53 1024 false m e l).
Proof.
  unfold binary_round_aux. destruct (shr_fexp _ _ _ _ _), (shr_fexp _ _ _ _ _).
  by repeat case_match.
Qed.

Lemma float64_nonneg z : (0 ≤ z)%Z → nonneg_float (float64 z).
Proof.
  intros ?. destruct z; [done| |lia]. unfold float64, binary_normalize, binary_round.
  destruct (shl_align _ _ _). apply binary_round_aux_nonneg.
Qed.

Lemma renew_before_nonneg d : (0 ≤ d)%Z → (0 ≤ renew_before d)%Z.
Proof.
  intros H%float64_nonneg. unfold renew_before.
  assert (nonneg_float (SFmul 53 1024 (float64 d) float64_0_20)) as Hm.
  { unfold float64_0_20. destruct (float64 d); try done. simpl in H. subst.
    apply binary_round_aux_nonneg. }
  destruct (SFmul _ _ _ _); try done. simpl in *. subst. case_decide; [lia|].
  apply Z.div_pos; lia.
Qed.

Lemma Sub_exact t u : (- 2 ^ 63 ≤ t - u < 2 ^ 63)%Z → Sub t u = (t - u)%Z.
Proof. unfold Sub. lia. Qed.


Lemma issuer_root_ok w issuer :
  getIssuerCertificate dsc w = Ok issuer → issuer_root dsc w = Ok (fst <$> issuer).
Proof.
  unfold issuer_root. intros H. rewrite H. unfold getIssuerCertificate in H.
  destruct (sg_CASigned _); [done|]. by injection H as <-.
Qed.

(** The issuer can vouch for a certificate at [t]. *)
Definition issuer_good (issuer : option (X509 * PrivateKey)) t : Prop :=
  match issuer with
  | None => True
  | Some (root, key) => key_matches root key ∧ x_IsCA root = true ∧ valid_at t root
  end.

(** C33: issuing works.  A run that reports that a certificate was created or
    reissued leaves, in the Secret of the certificate, a certificate that is
    valid from now for the configured time, and that passes the verification
    for as long as it and its issuer are valid; a run before its renewal
    window finds it ready and writes nothing. *)
Theorem certificate_issued now rnd w r w' :
  issuer_apart →
  CertificateReconciler_Reconcile Hash_bytes dsc now rnd w = (Ok requeueResult, r, w') →
  ∃ issuer cb key c, getIssuerCertificate dsc w = Ok issuer ∧
    GetCertificate dsc w' = Ok (cb, key) ∧ LoadX509Certificate cb = Ok c ∧
    x_NotBefore c = truncate_seconds now ∧ x_NotAfter c = truncate_seconds (now + valid_for)%Z ∧
    ∀ t rnd', valid_at t c → issuer_good issuer t →
      VerifyCertificate dsc t w' = Ok tt ∧
      ((renew_before (Sub (x_NotAfter c) (x_NotBefore c)) ≤ Sub (x_NotAfter c) t)%Z →
       ∃ r', CertificateReconciler_Reconcile Hash_bytes dsc t rnd' w' = (Ok emptyResult, r', w') ∧
             cr_ready r' = true).
Proof.
  intros Hap H. apply Reconcile_requeue in H as [pair H].
  destruct (written _ _ _ _ _ H) as (issuer & s & Hi & (c & Hl & Hnb & Hna & _ & Hv) & Hw).
  pose proof (getIssuer_frame _ _ _ Hap Hw issuer Hi) as Hi'.
  assert (Get_tls_secret w' (secret_key dsc) = inr s) as Hs.
  { apply get_tls_secret. rewrite Hw. apply lookup_insert_eq. }
  assert (GetCertificate dsc w' = Ok (secret_pair s)) as Hg by (unfold GetCertificate; by rewrite Hs).
  exists issuer, (secret_data s "tls.crt"), (secret_data s "tls.key"), c.
  do 5 (split; [done|]). intros t rnd' Ht Hgood.
  assert (VerifyCertificate dsc t w' = Ok tt) as Hver.
  { unfold VerifyCertificate. rewrite Hs, Hl. simpl. rewrite (issuer_root_ok _ _ Hi'). simpl.
    unfold Verify. specialize (Hv t Ht). destruct issuer as [[root k]|]; simpl in *.
    - destruct Hgood as (? & ? & ?). by rewrite Hv.
    - by rewrite Hv. }
  split; [done|]. intros Hrb.
  rewrite (Reconcile_loaded t rnd' w' _ _ c true Hg Hl Hver). unfold schedule_renewal.
  destruct (GetCertificateRenewalConfig dsc); [|by eauto].
  assert ((Sub (x_NotAfter c) t <? renew_before (Sub (x_NotAfter c) (x_NotBefore c)))%Z = false) as ->
    by by apply Z.ltb_ge.
  simpl. by eauto.
Qed.

(** A Secret without a PEM block stops the controller.  When the Secret of
    a certificate exists but its "tls.crt" holds no PEM data (it is missing,
    for instance), the block that was not found is used and the run panics. *)
Theorem certificate_secret_panics now rnd w s :
  Get_tls_secret w (secret_key dsc) = inr s → pem_Decode (secret_data s "tls.crt") = None →
  fst (fst (CertificateReconciler_Reconcile Hash_bytes dsc now rnd w)) = Panic.
Proof.
  intros Hs Hp. unfold CertificateReconciler_Reconcile, GetCertificate, VerifyCertificate.
  rewrite Hs. cbn [secret_pair]. unfold LoadX509Certificate. by rewrite Hp.
Qed.
End Issuing.

(** ** Concrete runs *)

Module CertificateRuns.
Definition in_range (t : Time) : bool := bool_decide (0 ≤ t ∧ t / Second < 2 ^ 63)%Z.

(** Certificates that are their validity in seconds. *)
Definition encode (nb na : Time) (ca : bool) : string :=
  Join [Itoa (nb / Second); Itoa (na / Second); if ca then "1" else "0"] ":".

Definition parse (s : string) : error + X509 :=
  match Split ":" s with
  | [a; b; ca] =>
     match Atoi a, Atoi b with
     | Some x, Some y => inr (mkX509 (x * Second)%Z (y * Second)%Z (bool_decide (ca = "1")) s)
     | _, _ => inl (ErrorString "malformed certificate")
     end
  | _ => inl (ErrorString "malformed certificate")
  end.

Definition toy_crypto : Crypto := {|
  PrivateKey := unit;
  Rand := unit;
  rsa_GenerateKey _ := inr tt;
  rand_Int _ := inr 1%Z;
  x509_CreateCertificate _ tpl _ _ _ :=
    if in_range (tpl_NotBefore tpl) && in_range (tpl_NotAfter tpl)
    then inr (encode (tpl_NotBefore tpl) (tpl_NotAfter tpl) (tpl_IsCA tpl))
    else inl (ErrorString "times out of range");
  x509_ParseCertificate := parse;
  x509_MarshalPKCS8 _ := inr "key";
  x509_ParsePKCS8 _ := inr (Some tt);
  x509_ParsePKCS1 _ := inr tt;
  rsa_Validate _ := None;
  x509_Verify t c root :=
    if bool_decide (valid_at t c ∧ valid_at t root) then None else Some (ErrorString "expired");
  pem_Decode s := match Split "|" s with
                  | ty :: b :: bs => Some (ty, Join (b :: bs) "|")
                  | _ => None
                  end;
  pem_Encode ty b := ty +:+ "|" +:+ b;
  crypto_ParseIP _ := None;
|}.

Lemma parse_encode nb na ca :
  in_range nb = true → in_range na = true →
  parse (encode nb na ca) =
  inr (mkX509 (truncate_seconds nb) (truncate_seconds na) ca (encode nb na ca)).
Proof.
  unfold in_range. rewrite !bool_decide_eq_true. intros [Hnb Hnb'] [Hna Hna'].
  assert (0 ≤ nb / Second)%Z by (apply Z.div_pos; [done|by vm_compute]).
  assert (0 ≤ na / Second)%Z by (apply Z.div_pos; [done|by vm_compute]).
  unfold parse, encode at 1. change ":" with (String ":"%char "").
  rewrite Split_Join; [|done|].
  - rewrite !Atoi_Itoa by lia. by destruct ca.
  - repeat constructor; [by apply Itoa_no_sep..|]. destruct ca; apply (bool_decide_unpack _); by vm_compute.
Qed.

#[global] Instance toy_crypto_laws : CryptoLaws toy_crypto.
Proof.
  refine {| key_matches := (λ _ _, True) : X509 → @PrivateKey toy_crypto → Prop |}; simpl.
  - intros ty b Hty. assert (no_sep "|" ty) as Hs.
    { rewrite !elem_of_cons, elem_of_nil in Hty.
      destruct Hty as [->|[->|[]]]; apply (bool_decide_unpack _); by vm_compute. }
    change "|" with (String "|"%char ""). rewrite Split_field by done.
    pose proof (Join_Split "|" b) as Hj. pose proof (Split_not_nil "|" b).
    destruct (Split "|" b); [done|]. exact (f_equal (λ x, Some (ty, x)) Hj).
  - intros rnd tpl parent key signer der.
    destruct (in_range (tpl_NotBefore tpl)) eqn:E1; [|done].
    destruct (in_range (tpl_NotAfter tpl)) eqn:E2; [|done]. intros [= <-].
    eexists. split; [by apply parse_encode|done].
  - intros rnd tpl key der c t _ _ _ Hv. by rewrite bool_decide_eq_true_2.
  - intros rnd tpl root key signer der c t _ _ _ _ _ Hv Hr. by rewrite bool_decide_eq_true_2.
Defined.

Definition memory_secrets : CertificateClient (gmap NamespacedName K8sSecret) := {|
  Get_tls_secret w k := match w !! k with
                        | Some s => inr s
                        | None => inl (StatusError StatusReasonNotFound (nn_Name k))
                        end;
  SetControllerReference_secret _ := None;
  Create_secret w k s := (None, <[k := s]> w);
  Update_secret w k s := (None, <[k := s]> w);
|}.
#[global] Instance memory_secrets_laws : CertificateClientLaws memory_secrets.
Proof.
  refine {| secrets := id |}; simpl.
  - intros w k s. destruct (w !! k); naive_solver.
  - by intros w k s w' [= <-].
  - by intros w k s w' [= <-].
Defined.
#[local] Existing Instance toy_crypto.
#[local] Existing Instance memory_secrets.

Definition seed : @Rand toy_crypto := tt.

(** A self-signed authority that is valid for a thousand seconds. *)
Definition root : DiscoveryServiceCertificate :=
  mkDiscoveryServiceCertificate (mkMeta "root" "ns" ∅ "" 0%Z None [])
    (mkDiscoveryServiceCertificateSpec "root" None (Some true) 1000 None (mkSigner true None)
       (mkSecretReference "root-cert" "ns") None)
    emptyDSCStatus.
Definition root_secret : K8sSecret :=
  mkK8sSecret SecretTypeTLS
    {[ "tls.crt" := "CERTIFICATE|" +:+ encode 0%Z (1000 * Second)%Z true; "tls.key" := "PRIVATE KEY|key" ]}.
Definition root_world : gmap NamespacedName K8sSecret := {[ secret_key root := root_secret ]}.


Lemma certificate_issued_witness :
  match CertificateReconciler_Reconcile id root (5 * Second)%Z seed ∅ with
  | (Ok _, _, w') => VerifyCertificate root (6 * Second)%Z w' = Ok tt
  | _ => False
  end.
Proof.
  destruct (CertificateReconciler_Reconcile id root (5 * Second)%Z seed ∅) as [[res r] w'] eqn:E.
  assert (res = Ok requeueResult) as ->.
  { assert (fst (fst (CertificateReconciler_Reconcile id root (5 * Second)%Z seed ∅)) =
            Ok requeueResult) as H by (vm_compute; reflexivity).
    rewrite E in H. exact H. }
  destruct (certificate_issued id root _ _ _ _ _ ltac:(discriminate) E)
    as (issuer & cb & key & c & Hi & _ & _ & Hnb & Hna & H).
  vm_compute in Hi. injection Hi as <-.
  apply (H (6 * Second)%Z seed).
  - unfold valid_at. rewrite Hnb, Hna. vm_compute. split; discriminate.
  - exact I.
Defined.

Lemma certificate_secret_panics_witness :
  fst (fst (CertificateReconciler_Reconcile id root 0%Z seed
              {[ secret_key root := mkK8sSecret SecretTypeOpaque ∅ ]})) = Panic.
Proof.
  apply (certificate_secret_panics id root 0%Z seed _ (mkK8sSecret SecretTypeOpaque ∅)).
  - vm_compute. reflexivity.
  - vm_compute. reflexivity.
Defined.
End CertificateRuns.
