(* ===== verification/PkiChain.v ===== *)
(** * The certificates of a discovery service together

    The DiscoveryService controller asks for a root authority and for a server
    and a client certificate signed by it, the EnvoyDeployment controller for
    further client certificates, and the certificate controller issues them one
    at a time ([Certificates]).  The files open with the laws of the crypto
    libraries that relate several certificates and with those of the TLS
    handshake; then [mutual_tls] runs the controller on the three certificates
    and shows what the handshake makes of them, and [root_rotation] follows the
    renewal of the authority. *)

From S2P Require Import Prelude Meta Envoy Api Stats Discover Snapshot CacheReconciler.
From S2P Require Import OperatorTypes Container Sidecar OperatorObjects EnvoyDeployments.
From S2P Require Import DiscoveryServices Certificates.
#[local] Open Scope string_scope.
#[local] Open Scope list_scope.

(** ** Libraries *)

(** Keys and the certificates made with them. *)
Class KeyLaws (K : Crypto) {KL : CryptoLaws K} : Prop := {
  pkcs8_roundtrip k pb : x509_MarshalPKCS8 k = inr pb → x509_ParsePKCS8 pb = inr (Some k);
  created_matches rnd tpl parent key signer der c :
    x509_CreateCertificate rnd tpl parent key signer = inr der →
    x509_ParseCertificate der = inr c → key_matches c key;
  (** A signature by another key is not accepted (a root vouches for itself). *)
  wrong_signer rnd tpl parent key signer der c root t :
    x509_CreateCertificate rnd tpl (Some parent) key signer = inr der →
    x509_ParseCertificate der = inr c → root ≠ c → ¬ key_matches root signer →
    x509_Verify t c root ≠ None;
}.

(** The calls of crypto/tls and x509.CertPool: a certificate and its key as PEM,
    the certificates of a PEM bundle, and what a server with
    [RequireAndVerifyClientCert] says to the certificate of a client. *)
Class TLS (K : Crypto) := {
  tls_X509KeyPair : string → string → error + X509;
  AppendCertsFromPEM : string → option (list X509);
  tls_VerifyClient : Time → list X509 → X509 → option error;
}.

Class TLSLaws {K : Crypto} (KL : CryptoLaws K) (T : TLS K) : Prop := {
  key_pair rnd tpl parent key signer der c pb :
    x509_CreateCertificate rnd tpl parent key signer = inr der → x509_ParseCertificate der = inr c →
    x509_MarshalPKCS8 key = inr pb →
    tls_X509KeyPair (pem_Encode "CERTIFICATE" der) (pem_Encode "PRIVATE KEY" pb) = inr c;
  append_pem der c :
    x509_ParseCertificate der = inr c → AppendCertsFromPEM (pem_Encode "CERTIFICATE" der) = Some [c];
  (** A certificate without extended usages, of an authority without them, can
      be used by a client, one for servers only cannot. *)
  verify_client rnd0 tpl0 rkey rder root rnd tpl key der c pool t :
    x509_CreateCertificate rnd0 tpl0 None rkey rkey = inr rder → x509_ParseCertificate rder = inr root →
    tpl_ExtKeyUsage tpl0 = [] → tpl_IsCA tpl0 = true →
    x509_CreateCertificate rnd tpl (Some root) key rkey = inr der → x509_ParseCertificate der = inr c →
    tpl_ExtKeyUsage tpl = [] → root ∈ pool → valid_at t c → valid_at t root →
    tls_VerifyClient t pool c = None;
  verify_client_usage rnd tpl root key signer der c pool t :
    x509_CreateCertificate rnd tpl (Some root) key signer = inr der → x509_ParseCertificate der = inr c →
    tpl_ExtKeyUsage tpl = ["ServerAuth"] → tls_VerifyClient t pool c ≠ None;
  verify_client_signer rnd tpl root key signer der c pool t :
    x509_CreateCertificate rnd tpl (Some root) key signer = inr der → x509_ParseCertificate der = inr c →
    c ∉ pool → Forall (λ r, ¬ key_matches r signer) pool → tls_VerifyClient t pool c ≠ None;
}.

(** Times that a certificate can hold: years 1970 to 9999. *)
Definition in_years (t : Time) : Prop := (0 ≤ t ∧ t / Second < 253402300800)%Z.

(** Libraries and an API server that do what they can. *)
Class ReliableCrypto (K : Crypto) : Prop := {
  generate_total rnd : ∃ k, rsa_GenerateKey rnd = inr k;
  serial_total rnd : ∃ z, rand_Int rnd = inr z;
  sign_total rnd tpl parent key signer :
    in_years (tpl_NotBefore tpl) → in_years (tpl_NotAfter tpl) →
    ∃ der, x509_CreateCertificate rnd tpl parent key signer = inr der;
  marshal_total k : ∃ pb, x509_MarshalPKCS8 k = inr pb;
}.

Class ReliableSecrets {W} {CC : CertificateClient W} (CL : CertificateClientLaws CC) : Prop := {
  get_absent w k : secrets w !! k = None → ∃ msg, Get_tls_secret w k = inl (StatusError StatusReasonNotFound msg);
  reference_total k : SetControllerReference_secret k = None;
  create_secret_total w k s : secrets w !! k = None → ∃ w', Create_secret w k s = (None, w');
  update_secret_total w k s : is_Some (secrets w !! k) → ∃ w', Update_secret w k s = (None, w');
}.

Section Chain.
Context {K : Crypto} {KL : CryptoLaws K} {KY : KeyLaws K} {T : TLS K} {TL : TLSLaws KL T}.
Context {RK : ReliableCrypto K} {W : Type} {CC : CertificateClient W} {CL : CertificateClientLaws CC}.
Context {RS : ReliableSecrets CL}.
Variable Hash_bytes : string → string.
Implicit Types (w : W) (now t : Time) (rnd : Rand) (c : X509) (k : PrivateKey) (s : K8sSecret).
Implicit Types (dsc : DiscoveryServiceCertificate).

(** ** Issuing one certificate *)

(** The certificate and the key in [s] were made for [dsc] at [now], signed with
    the key of the issuer or their own. *)
Definition made dsc now (issuer : option (X509 * PrivateKey)) s c k : Prop :=
  ∃ rnd serial der pb,
    x509_CreateCertificate rnd
      (cert_template now serial (dscs_CommonName (dsc_Spec dsc)) (valid_for dsc)
         (IsServerCertificate dsc) (IsCA dsc) (GetHosts dsc))
      (fst <$> issuer) k (default k (snd <$> issuer)) = inr der ∧
    x509_ParseCertificate der = inr c ∧ x509_MarshalPKCS8 k = inr pb ∧
    s_Data s !! "tls.crt" = Some (pem_Encode "CERTIFICATE" der) ∧
    s_Data s !! "tls.key" = Some (pem_Encode "PRIVATE KEY" pb).

(** The key pair and the certificate pool that can be loaded from a Secret. *)
Definition stores_pair s c : Prop :=
  ∃ crt key, s_Data s !! "tls.crt" = Some crt ∧ s_Data s !! "tls.key" = Some key ∧
    tls_X509KeyPair crt key = inr c.
Definition stores_pool s c : Prop :=
  ∃ crt, s_Data s !! "tls.crt" = Some crt ∧ AppendCertsFromPEM crt = Some [c].

(** The certificate can be issued at [now]. *)
Definition dates dsc now : Prop := in_years now ∧ in_years (now + valid_for dsc)%Z.

Lemma genSecret_total dsc now rnd issuer :
  dates dsc now →
  ∃ s c k, rsa_GenerateKey rnd = inr k ∧ genSecret dsc now rnd issuer = Ok s ∧ made dsc now issuer s c k.
Proof.
  intros [Hb Ha]. unfold genSecret, GenerateCertificate. fold (valid_for dsc).
  destruct (generate_total rnd) as [k ->], (serial_total rnd) as [z ->].
  set (tpl := cert_template _ _ _ _ _ _ _).
  destruct (sign_total rnd tpl (fst <$> issuer) k (default k (snd <$> issuer))) as [der Ed]; [done..|].
  destruct (create_parse _ _ _ _ _ _ Ed) as (c & Hc & _). destruct (marshal_total k) as [pb Hpb].
  assert (match issuer with
          | None => x509_CreateCertificate rnd tpl None k k
          | Some (issuerCert, signerKey) => x509_CreateCertificate rnd tpl (Some issuerCert) k signerKey
          end = inr der) as -> by by destruct issuer as [[]|].
  rewrite Hpb. simpl. eexists _, c, k. split; [done|]. split; [done|].
  exists rnd, z, der, pb. do 3 (split; [done|]). simpl.
  split; [by rewrite lookup_insert_eq|].
  rewrite lookup_insert_ne by done. by rewrite lookup_singleton_eq.
Qed.

Lemma made_loads dsc now issuer s c k :
  made dsc now issuer s c k →
  LoadX509Certificate (secret_data s "tls.crt") = Ok c ∧
  DecodePrivateKeyBytes (secret_data s "tls.key") = Ok k ∧
  stores_pair s c ∧ stores_pool s c ∧
  key_matches c k ∧ x_IsCA c = IsCA dsc ∧
  x_NotBefore c = truncate_seconds now ∧ x_NotAfter c = truncate_seconds (now + valid_for dsc)%Z.
Proof.
  intros (rnd & z & der & pb & Ed & Ec & Eb & Ecrt & Ekey).
  unfold secret_data. rewrite Ecrt, Ekey. simpl.
  destruct (create_parse _ _ _ _ _ _ Ed) as (c' & Ec' & Hnb & Hna & Hca).
  rewrite Ec in Ec'. injection Ec' as <-.
  unfold LoadX509Certificate, DecodePrivateKeyBytes. rewrite !pem_roundtrip by set_solver. simpl.
  rewrite Ec, (pkcs8_roundtrip _ _ Eb). do 2 (split; [done|]).
  split; [do 2 eexists; split; [exact Ecrt|]; split; [exact Ekey|by eapply key_pair]|].
  split; [eexists; split; [exact Ecrt|by eapply append_pem]|].
  split; [by eapply created_matches|done].
Qed.

(** [leaf] is to be signed by the authority [root]. *)
Definition chained (root leaf : DiscoveryServiceCertificate) : Prop :=
  ∃ ref, sg_CASigned (dscs_Signer (dsc_Spec leaf)) = Some ref ∧
    mkKey (sr_Namespace ref) (sr_Name ref) = secret_key root.

Lemma issuer_made root leaf w t issuer s c k :
  chained root leaf → secrets w !! secret_key root = Some s → made root t issuer s c k →
  getIssuerCertificate leaf w = Ok (Some (c, k)).
Proof.
  intros (ref & E & Ek) Hs Hm. unfold getIssuerCertificate. rewrite E, Ek.
  apply get_tls_secret in Hs as ->. destruct (made_loads _ _ _ _ _ _ Hm) as (-> & -> & _). done.
Qed.

Lemma made_data dsc now issuer s s' c k :
  s_Data s = s_Data s' → made dsc now issuer s c k → made dsc now issuer s' c k.
Proof. intros E (rnd & z & der & pb & H). exists rnd, z, der, pb. by rewrite <- E. Qed.

(** The first run issues the certificate. *)
Lemma first_run dsc now rnd w issuer :
  secrets w !! secret_key dsc = None → getIssuerCertificate dsc w = Ok issuer → dates dsc now →
  ∃ r w' s c k,
    CertificateReconciler_Reconcile Hash_bytes dsc now rnd w = (Ok requeueResult, r, w') ∧
    secrets w' = <[secret_key dsc := s]> (secrets w) ∧
    rsa_GenerateKey rnd = inr k ∧ made dsc now issuer s c k.
Proof.
  intros Hn Hi Hd. unfold CertificateReconciler_Reconcile, GetCertificate, CreateCertificate.
  destruct (get_absent w _ Hn) as [msg Eg]. rewrite Eg. simpl. rewrite Hi.
  destruct (genSecret_total dsc now rnd issuer Hd) as (s & c & k & Ek & Es & Hm). rewrite Es, reference_total.
  destruct (create_secret_total w (secret_key dsc) s Hn) as [w' Ew]. rewrite Ew.
  eexists _, w', s, c, k. split; [done|]. split; [by apply create_secret|done].
Qed.

(** Reissuing. *)
Lemma update_run dsc now rnd w issuer s :
  secrets w !! secret_key dsc = Some s → getIssuerCertificate dsc w = Ok issuer → dates dsc now →
  ∃ pair w' s' c k, UpdateCertificate dsc now rnd w = (Ok pair, w') ∧
    secrets w' = <[secret_key dsc := s']> (secrets w) ∧
    rsa_GenerateKey rnd = inr k ∧ made dsc now issuer s' c k.
Proof.
  intros Hs Hi Hd. unfold UpdateCertificate. rewrite Hi.
  pose proof Hs as Hg. apply get_tls_secret in Hg as ->.
  destruct (genSecret_total dsc now rnd issuer Hd) as (n & c & k & Ek & -> & Hm).
  set (s' := mkK8sSecret (s_Type s) (s_Data n)).
  destruct (update_secret_total w (secret_key dsc) s') as [w' Ew]; [by eexists|]. rewrite Ew.
  eexists _, w', s', c, k. split; [done|]. split; [by apply update_secret|].
  split; [done|]. by eapply made_data.
Qed.

(** A run for a certificate with renewal that is in its window or that the
    issuer does not vouch for reissues it. *)
Lemma renewal_run dsc now rnd w issuer s t0 i0 c0 k0 ready :
  secrets w !! secret_key dsc = Some s → made dsc t0 i0 s c0 k0 → verified dsc now w ready →
  GetCertificateRenewalConfig dsc = true →
  (ready = true → (Sub (x_NotAfter c0) now < renew_before (Sub (x_NotAfter c0) (x_NotBefore c0)))%Z) →
  getIssuerCertificate dsc w = Ok issuer → dates dsc now →
  ∃ r w' s' c k,
    CertificateReconciler_Reconcile Hash_bytes dsc now rnd w = (Ok requeueResult, r, w') ∧
    secrets w' = <[secret_key dsc := s']> (secrets w) ∧
    rsa_GenerateKey rnd = inr k ∧ made dsc now issuer s' c k.
Proof.
  intros Hs Hm Hv Hr Hwin Hi Hd. destruct (made_loads _ _ _ _ _ _ Hm) as (Hl & _).
  assert (GetCertificate dsc w = Ok (secret_pair s)) as Hg.
  { unfold GetCertificate. by apply get_tls_secret in Hs as ->. }
  rewrite (Reconcile_loaded Hash_bytes dsc now rnd w _ _ _ _ Hg Hl Hv). unfold schedule_renewal.
  rewrite Hr.
  assert (negb ready || (Sub (x_NotAfter c0) now <? renew_before (Sub (x_NotAfter c0) (x_NotBefore c0)))%Z
          = true) as ->.
  { destruct ready; [|done]. apply Z.ltb_lt. by apply Hwin. }
  destruct (update_run dsc now rnd w issuer s Hs Hi Hd) as (pair & w' & s' & c & k & -> & H).
  by eexists _, w', s', c, k.
Qed.

(** ** A chain of certificates *)

(** What the handshake makes of a leaf of a self-signed authority. *)
Section Handshake.
Variables (root leaf : DiscoveryServiceCertificate) (t0 t1 : Time).
Variables (sr sl : K8sSecret) (cr cl : X509) (kr kl : PrivateKey).
Hypothesis Hroot : made root t0 None sr cr kr.
Hypothesis Hleaf : made leaf t1 (Some (cr, kr)) sl cl kl.
Hypothesis Hca : IsCA root = true.

Lemma client_accepted pool t :
  IsServerCertificate root = false → IsServerCertificate leaf = false → cr ∈ pool →
  valid_at t cl → valid_at t cr → tls_VerifyClient t pool cl = None.
Proof.
  intros Hnr Hnl Hin Hvl Hvr.
  destruct Hroot as (rnd0 & z0 & der0 & pb0 & Ed0 & Ec0 & _).
  destruct Hleaf as (rnd & z & der & pb & Ed & Ec & _).
  eapply verify_client; [exact Ed0|exact Ec0| | |exact Ed|exact Ec| |done..]; simpl.
  - by rewrite Hnr.
  - done.
  - by rewrite Hnl.
Qed.

Lemma server_refused pool t : IsServerCertificate leaf = true → tls_VerifyClient t pool cl ≠ None.
Proof.
  intros Hs. destruct Hleaf as (rnd & z & der & pb & Ed & Ec & _).
  eapply verify_client_usage; [exact Ed|exact Ec|]. simpl. by rewrite Hs.
Qed.

Lemma stranger_refused pool t :
  cl ∉ pool → Forall (λ r, ¬ key_matches r kr) pool → tls_VerifyClient t pool cl ≠ None.
Proof.
  intros Hn Hf. destruct Hleaf as (rnd & z & der & pb & Ed & Ec & _).
  by eapply verify_client_signer.
Qed.

Lemma leaf_verifies t : valid_at t cl → valid_at t cr → x509_Verify t cl cr = None.
Proof.
  intros Hvl Hvr. destruct Hleaf as (rnd & z & der & pb & Ed & Ec & _).
  destruct (made_loads _ _ _ _ _ _ Hroot) as (_ & _ & _ & _ & Hk & Hca' & _).
  eapply ca_signed_verifies; [exact Ed|exact Ec|exact Hk|by rewrite Hca'| |done|done].
  simpl. destruct (IsServerCertificate leaf); auto.
Qed.
End Handshake.

(** One run for each certificate, in order. *)
Fixpoint reconcile_all now (ds : list (DiscoveryServiceCertificate * Rand)) w : result W :=
  match ds with
  | [] => Ok w
  | (dsc, rnd) :: ds =>
     match CertificateReconciler_Reconcile Hash_bytes dsc now rnd w with
     | (Ok _, _, w) => reconcile_all now ds w
     | (Err err, _, _) => Err err
     | (Panic, _, _) => Panic
     end
  end.

(** The Secret of [leaf] holds a certificate of the authority [cr]. *)
Definition holds now w (issuer : option (X509 * PrivateKey)) leaf : Prop :=
  ∃ s c k, secrets w !! secret_key leaf = Some s ∧ made leaf now issuer s c k.

Lemma leaves_run now root sr cr kr t0 leaves : ∀ w,
  secrets w !! secret_key root = Some sr → made root t0 None sr cr kr →
  NoDup (secret_key <$> (root :: (fst <$> leaves))) →
  Forall (λ p, chained root (fst p) ∧ dates (fst p) now ∧ secrets w !! secret_key (fst p) = None) leaves →
  ∃ w', reconcile_all now leaves w = Ok w' ∧
    (∀ key, key ∉ secret_key <$> (fst <$> leaves) → secrets w' !! key = secrets w !! key) ∧
    Forall (holds now w' (Some (cr, kr))) (fst <$> leaves).
Proof.
  induction leaves as [|[leaf rnd] leaves IH]; intros w Hs Hm Hnd Hf; [by exists w|].
  cbn [fmap list_fmap fst] in *.
  apply Forall_cons in Hf as [(Hc & Hd & Hn) Hf]. simpl in Hc, Hd, Hn.
  apply NoDup_cons in Hnd as [Hr Hnd]. apply NoDup_cons in Hnd as [Hl Hnd].
  rewrite not_elem_of_cons in Hr. destruct Hr as [Hrl Hr].
  destruct (first_run leaf now rnd w _ Hn (issuer_made _ _ _ _ _ _ _ _ Hc Hs Hm) Hd)
    as (r & w1 & s & c & k & Erun & Hw1 & _ & Hmade).
  destruct (IH w1) as (w' & Eall & Hframe & Hholds); [|done|..].
  - by rewrite Hw1, lookup_insert_ne.
  - by apply NoDup_cons.
  - apply Forall_forall. intros [l rn] Hin. apply Forall_forall with (x := (l, rn)) in Hf; [|done].
    destruct Hf as (Hc' & Hd' & Hn'). split; [done|]. split; [done|].
    rewrite Hw1, lookup_insert_ne; [done|]. intros E. apply Hl. simpl in E. rewrite E.
    apply list_elem_of_fmap_2, (list_elem_of_fmap_2 fst _ _ Hin).
  - exists w'. split; [by simpl; rewrite Erun|]. split.
    + intros key Hk. apply not_elem_of_cons in Hk as [Hk1 Hk2]. rewrite Hframe by done.
      by rewrite Hw1, lookup_insert_ne.
    + constructor; [|done]. exists s, c, k. split; [|done].
      rewrite Hframe by done. by rewrite Hw1, lookup_insert_eq.
Qed.

(** An authority and the certificates it signs, issued in the order of their
    dependencies. *)
Lemma chain_run now root rnd leaves w :
  sg_CASigned (dscs_Signer (dsc_Spec root)) = None → dates root now →
  NoDup (secret_key <$> (root :: (fst <$> leaves))) →
  Forall (λ d, secrets w !! secret_key d = None) (root :: (fst <$> leaves)) →
  Forall (λ p, chained root (fst p) ∧ dates (fst p) now) leaves →
  ∃ w' sr cr kr, reconcile_all now ((root, rnd) :: leaves) w = Ok w' ∧
    secrets w' !! secret_key root = Some sr ∧ made root now None sr cr kr ∧
    Forall (holds now w' (Some (cr, kr))) (fst <$> leaves).
Proof.
  intros Hself Hd Hnd Habs Hf. apply Forall_cons in Habs as [Hn Habs].
  assert (getIssuerCertificate root w = Ok None) as Hi by (unfold getIssuerCertificate; by rewrite Hself).
  destruct (first_run root now rnd w _ Hn Hi Hd) as (r & w1 & sr & cr & kr & Erun & Hw1 & _ & Hm).
  cbn [fmap list_fmap] in Hnd. pose proof (NoDup_cons_1_1 _ _ Hnd) as Hr.
  assert (secrets w1 !! secret_key root = Some sr) as Hs by by rewrite Hw1, lookup_insert_eq.
  destruct (leaves_run now root sr cr kr now leaves w1) as (w' & Eall & Hframe & Hholds); [done..| |].
  - apply Forall_forall. intros [l rn] Hin. pose proof (list_elem_of_fmap_2 fst _ _ Hin) as Hin'.
    destruct (proj1 (Forall_forall _ _) Hf _ Hin) as [Hc' Hd'].
    split; [done|]. split; [done|]. rewrite Hw1, lookup_insert_ne.
    { exact (proj1 (Forall_forall _ _) Habs _ Hin'). }
    intros E. apply Hr. rewrite E. by apply list_elem_of_fmap_2.
  - exists w', sr, cr, kr. split; [by simpl; rewrite Erun|].
    rewrite Hframe by done. done.
Qed.

(** ** The certificates of a discovery service *)

Section Service.
Context {E : Environment}.
Variable ds : DiscoveryService.
Implicit Types (eds : list (EnvoyDeployment * EnvoyConfig)).

Definition ds_options : DiscoveryServices.GeneratorOptions := DiscoveryServices.generator_options ds.
Definition root_certificate : DiscoveryServiceCertificate :=
  dscDefaulter (RootCertificationAuthority ds_options).
Definition server_certificate : DiscoveryServiceCertificate :=
  dscDefaulter (ServerCertificate ds_options).
(** Of the sidecars and of each EnvoyDeployment. *)
Definition client_certificates eds : list DiscoveryServiceCertificate :=
  dscDefaulter (DiscoveryServices.ClientCertificate ds_options) ::
  ((λ p, dscDefaulter (EnvoyDeployments.ClientCertificate
                         (EnvoyDeployments.generator_options (fst p) ds (snd p)))) <$> eds).
Definition certificates eds : list DiscoveryServiceCertificate :=
  root_certificate :: server_certificate :: client_certificates eds.

Lemma certificates_distinct eds :
  NoDup ((λ p, om_Name (ed_Meta (fst p))) <$> eds) → NoDup (secret_key <$> certificates eds).
Proof.
  intros Hnd. apply (NoDup_fmap_1 nn_Name). unfold certificates, client_certificates.
  rewrite !fmap_cons, <- !list_fmap_compose. repeat apply NoDup_cons_2.
  4: { induction eds as [|[ed ec] eds IH]; [constructor|].
       apply NoDup_cons in Hnd as [Hn Hnd]. rewrite fmap_cons. apply NoDup_cons_2; [|by apply IH].
       intros ([ed' ec'] & Heq & Hin)%list_elem_of_fmap. apply Hn. cbn [fst].
       assert (om_Name (ed_Meta ed) = om_Name (ed_Meta ed')) as ->
         by exact (inj (String.append "envoy-client-cert-") _ _ Heq).
       by apply (list_elem_of_fmap_2 (λ p, om_Name (ed_Meta (fst p))) eds (ed', ec')). }
  all: intros H; repeat (apply elem_of_cons in H as [H|H]; [discriminate H|]);
    apply list_elem_of_fmap in H as (? & H & _); discriminate H.
Qed.

Lemma clients_chained eds :
  co_SecretName (GetRootCertificateAuthorityOptions ds) = secret_of root_certificate →
  Forall (λ p, om_Namespace (ed_Meta (fst p)) = om_Namespace (ds_Meta ds)) eds →
  Forall (λ d, chained root_certificate d ∧ IsServerCertificate d = false)
    (client_certificates eds).
Proof.
  intros Hn Hf. constructor; [split; [by eexists|done]|].
  apply Forall_fmap. eapply Forall_impl; [exact Hf|]. intros [ed ec] Hns. simpl in Hns.
  split; [|done]. eexists. split; [done|]. simpl. rewrite Hns, Hn. done.
Qed.

Lemma holds_loads now w issuer leaf :
  holds now w issuer leaf →
  ∃ s c k, secrets w !! secret_key leaf = Some s ∧
    stores_pair s c ∧
    made leaf now issuer s c k.
Proof.
  intros (s & c & k & Hs & Hm). exists s, c, k. split; [done|].
  destruct (made_loads _ _ _ _ _ _ Hm) as (_ & _ & Hp & _). done.
Qed.

(** The certificates after one run for each of them. *)
Lemma service_chain eds now (rnd : DiscoveryServiceCertificate → Rand) w :
  co_SecretName (GetRootCertificateAuthorityOptions ds) = secret_of root_certificate →
  Forall (λ p, om_Namespace (ed_Meta (fst p)) = om_Namespace (ds_Meta ds)) eds →
  NoDup ((λ p, om_Name (ed_Meta (fst p))) <$> eds) →
  Forall (λ d, dates d now ∧ secrets w !! secret_key d = None) (certificates eds) →
  ∃ w' sr cr kr,
    reconcile_all now ((λ d, (d, rnd d)) <$> certificates eds) w = Ok w' ∧
    secrets w' !! secret_key root_certificate = Some sr ∧ made root_certificate now None sr cr kr ∧
    holds now w' (Some (cr, kr)) server_certificate ∧
    Forall (holds now w' (Some (cr, kr))) (client_certificates eds).
Proof.
  intros Hname Hns Hnd Hf. pose proof (clients_chained eds Hname Hns) as Hcl.
  assert (chained root_certificate server_certificate) as Hsv by by eexists.
  set (leaves := (λ d, (d, rnd d)) <$> (server_certificate :: client_certificates eds)).
  assert (fst <$> leaves = server_certificate :: client_certificates eds) as El.
  { unfold leaves. rewrite <- list_fmap_compose. apply list_fmap_id. }
  apply Forall_and in Hf as [Hdates Habs]. apply Forall_cons in Hdates as [Hdr Hdl].
  destruct (chain_run now root_certificate (rnd root_certificate) leaves w) as
    (w' & sr & cr & kr & Erun & Hsr & Hmr & Hh).
  - done.
  - done.
  - rewrite El. by apply certificates_distinct.
  - by rewrite El.
  - apply Forall_fmap, Forall_and. split; simpl; [|exact Hdl].
    constructor; [done|]. eapply Forall_impl; [exact Hcl|]. by intros d [].
  - rewrite El in Hh. apply Forall_cons in Hh as [Hhs Hhc]. by exists w', sr, cr, kr.
Qed.

End Service.

(** ** Rotation of the authority *)

Lemma root_verified root t0 now w sr cr kr :
  sg_CASigned (dscs_Signer (dsc_Spec root)) = None →
  secrets w !! secret_key root = Some sr → made root t0 None sr cr kr →
  ∃ ready, verified root now w ready.
Proof.
  intros Hself Hs Hm. destruct (made_loads _ _ _ _ _ _ Hm) as (Hl & _).
  assert (VerifyCertificate root now w = Verify now cr cr) as Hv.
  { unfold VerifyCertificate, issuer_root. apply get_tls_secret in Hs as ->.
    by rewrite Hl, Hself. }
  unfold Verify in Hv. destruct (x509_Verify now cr cr) as [err|].
  - exists false. simpl. eauto.
  - by exists true.
Qed.

(** A certificate does not verify against an issuer with another key. *)
Lemma leaf_unverified leaf t1 now w sl cr kr cl kl cr' k' :
  secrets w !! secret_key leaf = Some sl → made leaf t1 (Some (cr, kr)) sl cl kl →
  getIssuerCertificate leaf w = Ok (Some (cr', k')) → cr' ≠ cl → ¬ key_matches cr' kr →
  verified leaf now w false.
Proof.
  intros Hs Hm Hi Hne Hno. destruct (made_loads _ _ _ _ _ _ Hm) as (Hl & _).
  destruct Hm as (rnd & z & der & pb & Ed & Ec & _).
  unfold verified, VerifyCertificate. apply get_tls_secret in Hs as ->.
  rewrite Hl. simpl. rewrite (issuer_root_ok _ _ _ Hi). simpl. unfold Verify.
  destruct (x509_Verify now cl cr') as [err|] eqn:Ev; [eauto|]. exfalso.
  by eapply wrong_signer; [exact Ed|exact Ec|exact Hne|exact Hno|exact Ev].
Qed.

End Chain.

(** ** Concrete certificates *)

Module ChainRuns.
Import CertificateRuns.

(** Four keys, which are also the seeds of the random source. *)
Inductive SeedKey := K1 | K2 | K3 | K4.
#[global] Instance SeedKey_eq_dec : EqDecision SeedKey.
Proof. solve_decision. Defined.
Definition key_name (k : SeedKey) : string :=
  match k with K1 => "1" | K2 => "2" | K3 => "3" | K4 => "4" end.
Definition key_of (s : string) : option SeedKey :=
  List.find (λ k, bool_decide (key_name k = s)) [K1; K2; K3; K4].

(** Validity in seconds, authority, key, key of the signer, for servers only. *)
Definition fields (tpl : CertTemplate) (key signer : SeedKey) : list string :=
  [Itoa (tpl_NotBefore tpl / Second); Itoa (tpl_NotAfter tpl / Second);
   if tpl_IsCA tpl then "1" else "0"; key_name key; key_name signer;
   if decide (tpl_ExtKeyUsage tpl = ["ServerAuth"]) then "1" else "0"].

Definition chain_parse (s : string) : error + X509 :=
  match Split ":" s with
  | [nb; na; ca; _; _; _] =>
     match Atoi nb, Atoi na with
     | Some x, Some y => inr (mkX509 (x * Second)%Z (y * Second)%Z (bool_decide (ca = "1")) s)
     | _, _ => inl (ErrorString "malformed certificate")
     end
  | _ => inl (ErrorString "malformed certificate")
  end.

Definition field (i : nat) (c : X509) : string := nth i (Split ":" (x_Raw c)) "".
Definition signed_by (c r : X509) : bool := bool_decide (field 4 c = field 3 r).
Definition for_servers (c : X509) : bool := bool_decide (field 5 c = "1").
Definition valid_b (t : Time) (c : X509) : bool := bool_decide (valid_at t c).
#[global] Instance X509_eq_dec : EqDecision X509.
Proof. solve_decision. Defined.

Definition vouches (t : Time) (c r : X509) : bool :=
  valid_b t r && (bool_decide (c = r) || (x_IsCA r && signed_by c r)).

#[global] Instance chain_crypto : Crypto := {|
  PrivateKey := SeedKey;
  Rand := SeedKey;
  rsa_GenerateKey rnd := inr rnd;
  rand_Int _ := inr 1%Z;
  x509_CreateCertificate _ tpl _ key signer :=
    if in_range (tpl_NotBefore tpl) && in_range (tpl_NotAfter tpl)
    then inr (Join (fields tpl key signer) ":") else inl (ErrorString "times out of range");
  x509_ParseCertificate := chain_parse;
  x509_MarshalPKCS8 k := inr (key_name k);
  x509_ParsePKCS8 s := match key_of s with
                       | Some k => inr (Some k) | None => inl (ErrorString "malformed key") end;
  x509_ParsePKCS1 _ := inl (ErrorString "malformed key");
  rsa_Validate _ := None;
  x509_Verify t c root :=
    if valid_b t c && vouches t c root then None else Some (ErrorString "not trusted");
  pem_Decode s := match Split "|" s with
                  | ty :: b :: bs => Some (ty, Join (b :: bs) "|")
                  | _ => None
                  end;
  pem_Encode ty b := ty +:+ "|" +:+ b;
  crypto_ParseIP _ := None;
|}.

Lemma fields_split tpl key signer :
  in_range (tpl_NotBefore tpl) = true → in_range (tpl_NotAfter tpl) = true →
  Split ":" (Join (fields tpl key signer) ":") = fields tpl key signer.
Proof.
  intros [H1 _]%bool_decide_eq_true [H2 _]%bool_decide_eq_true.
  change ":" with (String ":"%char ""). apply Split_Join; [done|].
  repeat constructor; [by apply Itoa_no_sep; [|apply Z.div_pos]..| | | |].
  - destruct (tpl_IsCA tpl); apply (bool_decide_unpack _); by vm_compute.
  - destruct key; apply (bool_decide_unpack _); by vm_compute.
  - destruct signer; apply (bool_decide_unpack _); by vm_compute.
  - case_decide; apply (bool_decide_unpack _); by vm_compute.
Qed.

Lemma fields_parse tpl key signer :
  in_range (tpl_NotBefore tpl) = true → in_range (tpl_NotAfter tpl) = true →
  chain_parse (Join (fields tpl key signer) ":") =
  inr (mkX509 (truncate_seconds (tpl_NotBefore tpl)) (truncate_seconds (tpl_NotAfter tpl))
         (tpl_IsCA tpl) (Join (fields tpl key signer) ":")).
Proof.
  intros H1 H2. unfold chain_parse. rewrite fields_split by done.
  apply bool_decide_eq_true in H1 as [H1 H1'], H2 as [H2 H2'].
  unfold fields at 1. rewrite !Atoi_Itoa by (split; [by apply Z.div_pos|done]).
  by destruct (tpl_IsCA tpl).
Qed.

Lemma created rnd tpl parent key signer der :
  x509_CreateCertificate rnd tpl parent key signer = inr der →
  ∃ c, x509_ParseCertificate der = inr c ∧ Split ":" (x_Raw c) = fields tpl key signer ∧
    x_NotBefore c = truncate_seconds (tpl_NotBefore tpl) ∧
    x_NotAfter c = truncate_seconds (tpl_NotAfter tpl) ∧ x_IsCA c = tpl_IsCA tpl.
Proof.
  change (x509_CreateCertificate rnd tpl parent key signer) with
    (if in_range (tpl_NotBefore tpl) && in_range (tpl_NotAfter tpl)
     then inr (Join (fields tpl key signer) ":") else inl (ErrorString "times out of range")).
  destruct (in_range (tpl_NotBefore tpl)) eqn:E1; [|done].
  destruct (in_range (tpl_NotAfter tpl)) eqn:E2; [|done]. cbn [andb].
  intros H. injection H as <-. eexists. split; [by apply fields_parse|].
  split; [by apply fields_split|done].
Qed.

Lemma created_fields rnd tpl parent key signer der c :
  x509_CreateCertificate rnd tpl parent key signer = inr der → x509_ParseCertificate der = inr c →
  field 3 c = key_name key ∧ field 4 c = key_name signer ∧
  field 5 c = (if decide (tpl_ExtKeyUsage tpl = ["ServerAuth"]) then "1" else "0") ∧
  x_IsCA c = tpl_IsCA tpl.
Proof.
  intros H Hc. destruct (created _ _ _ _ _ _ H) as (c' & Hc' & Hs & _ & _ & Hca).
  assert (c' = c) as -> by congruence. unfold field. by rewrite Hs.
Qed.

Lemma vouches_signer t c r k :
  field 4 c = key_name k → field 3 r = key_name k → x_IsCA r = true → valid_at t r →
  vouches t c r = true.
Proof.
  intros H4 H3 Hca Hv. unfold vouches, valid_b, signed_by.
  rewrite H4, H3, Hca, (bool_decide_eq_true_2 (valid_at t r)) by done.
  rewrite (bool_decide_eq_true_2 (key_name k = key_name k)) by done. apply orb_true_r.
Qed.

Lemma vouches_stranger t c r k :
  field 4 c = key_name k → c ≠ r → field 3 r ≠ key_name k → vouches t c r = false.
Proof.
  intros H4 Hne H3. unfold vouches, signed_by. rewrite H4.
  rewrite (bool_decide_eq_false_2 (c = r)) by done.
  rewrite (bool_decide_eq_false_2 (key_name k = _)) by congruence.
  by rewrite andb_false_r, andb_false_r.
Qed.

#[global] Instance chain_crypto_laws : CryptoLaws chain_crypto.
Proof.
  refine {| key_matches := (λ c k, field 3 c = key_name k) : X509 → @PrivateKey chain_crypto → Prop |}.
  - exact (pem_roundtrip (K := toy_crypto)).
  - intros rnd tpl parent key signer der H.
    destruct (created _ _ _ _ _ _ H) as (c & Hc & _ & Hd). by exists c.
  - intros rnd tpl key der c t _ _ _ Hv. simpl. unfold valid_b, vouches, valid_b.
    by rewrite !bool_decide_eq_true_2.
  - intros rnd tpl root key signer der c t H Hc Hk Hca _ Hv Hr.
    destruct (created_fields _ _ _ _ _ _ _ H Hc) as (_ & H4 & _). simpl.
    rewrite (vouches_signer _ _ _ _ H4 Hk Hca Hr). unfold valid_b. by rewrite bool_decide_eq_true_2.
Defined.

Lemma key_of_name k : key_of (key_name k) = Some k.
Proof. by destruct k. Qed.

#[global] Instance chain_key_laws : KeyLaws chain_crypto.
Proof.
  split.
  - intros k pb [= <-]. simpl. by rewrite key_of_name.
  - intros rnd tpl parent key signer der c H Hc. by apply (created_fields _ _ _ _ _ _ _ H Hc).
  - intros rnd tpl parent key signer der c root t H Hc Hne Hk.
    destruct (created_fields _ _ _ _ _ _ _ H Hc) as (_ & H4 & _). simpl.
    rewrite (vouches_stranger _ _ _ _ H4) by (done || by apply not_eq_sym). by rewrite andb_false_r.
Qed.

#[global] Instance chain_tls : TLS chain_crypto := {|
  tls_X509KeyPair crt key :=
    match pem_Decode crt, pem_Decode key with
    | Some (_, der), Some (_, k) =>
       match chain_parse der with
       | inr c => if decide (field 3 c = k) then inr c else inl (ErrorString "keys do not match")
       | inl err => inl err
       end
    | _, _ => inl (ErrorString "no PEM data")
    end;
  AppendCertsFromPEM s :=
    match pem_Decode s with
    | Some (_, der) => match chain_parse der with inr c => Some [c] | inl _ => None end
    | None => None
    end;
  tls_VerifyClient t pool c :=
    if valid_b t c && negb (for_servers c) &&
       existsb (λ r, vouches t c r && negb (for_servers r)) pool
    then None else Some (ErrorString "bad certificate");
|}.

#[global] Instance chain_tls_laws : TLSLaws chain_crypto_laws chain_tls.
Proof.
  split.
  - intros rnd tpl parent key signer der c pb H Hc [= <-].
    destruct (created_fields _ _ _ _ _ _ _ H Hc) as (H3 & _).
    unfold tls_X509KeyPair, chain_tls. rewrite !pem_roundtrip by set_solver.
    change (chain_parse der = inr c) in Hc. rewrite Hc. by rewrite decide_True.
  - intros der c Hc. unfold AppendCertsFromPEM, chain_tls. rewrite pem_roundtrip by set_solver.
    change (chain_parse der = inr c) in Hc. by rewrite Hc.
  - intros rnd0 tpl0 rkey rder root rnd tpl key der c pool t H0 Hc0 Hu0 Hca0 H Hc Hu Hin Hv Hr.
    destruct (created_fields _ _ _ _ _ _ _ H0 Hc0) as (H30 & _ & H50 & Hca).
    destruct (created_fields _ _ _ _ _ _ _ H Hc) as (_ & H4 & H5 & _).
    rewrite Hu0 in H50. rewrite Hu in H5. rewrite Hca0 in Hca. simpl in H5, H50. simpl.
    assert (existsb (λ r, vouches t c r && negb (for_servers r)) pool = true) as ->.
    { apply existsb_exists. exists root. split; [by apply list_elem_of_In|].
      rewrite (vouches_signer _ _ _ _ H4 H30 Hca Hr). unfold for_servers. by rewrite H50. }
    unfold for_servers, valid_b. rewrite H5. by rewrite bool_decide_eq_true_2.
  - intros rnd tpl root key signer der c pool t H Hc Hu.
    destruct (created_fields _ _ _ _ _ _ _ H Hc) as (_ & _ & H5 & _).
    rewrite Hu, decide_True in H5 by done. simpl. unfold for_servers. rewrite H5. simpl.
    by rewrite andb_false_r.
  - intros rnd tpl root key signer der c pool t H Hc Hn Hf.
    destruct (created_fields _ _ _ _ _ _ _ H Hc) as (_ & H4 & _). simpl.
    assert (existsb (λ r, vouches t c r && negb (for_servers r)) pool = false) as ->.
    { apply not_true_iff_false. intros (r & Hr & Hv)%existsb_exists. apply list_elem_of_In in Hr.
      rewrite (vouches_stranger _ _ _ _ H4) in Hv; [done| |].
      - by intros ->.
      - exact (proj1 (Forall_forall _ _) Hf r Hr). }
    by rewrite andb_false_r.
Qed.

#[global] Instance chain_reliable : ReliableCrypto chain_crypto.
Proof.
  split; [by eexists|by eexists| |by eexists].
  intros rnd tpl parent key signer [Hb Hb'] [Ha Ha']. simpl.
  assert (∀ t, 0 ≤ t → t / Second < 253402300800 → in_range t = true)%Z as Hr.
  { intros t ? ?. apply bool_decide_eq_true. split; [done|]. lia. }
  rewrite !Hr by done. by eexists.
Qed.

#[global] Instance memory_reliable : ReliableSecrets memory_secrets_laws.
Proof.
  split; simpl.
  - intros w k H. unfold id in H. rewrite H. by eexists.
  - done.
  - by eexists.
  - by eexists.
Qed.

Definition environment : Environment := {| MARIN3R_IMAGE := None |}.
#[local] Existing Instance environment.
#[local] Existing Instance memory_secrets.

Definition instance : DiscoveryService :=
  mkDiscoveryService (mkMeta "instance" "ns" ∅ "" 0%Z None [])
    (mkDiscoveryServiceSpec None None None None None None None None None) None.
Definition web : EnvoyDeployment :=
  mkEnvoyDeployment (mkMeta "web" "ns" ∅ "" 0%Z None [])
    (mkEnvoyDeploymentSpec "config" "instance" None [] None None None [] None None None None None
       None None None None) None.

Definition now : Time := (1700000000 * Second)%Z.
(** A key for each certificate of [instance]. *)
Definition seeds (d : DiscoveryServiceCertificate) : @Rand chain_crypto :=
  if IsCA d then K1 else if IsServerCertificate d then K2
  else if decide (om_Name (dsc_Meta d) = defaults.SidecarClientCertificate) then K3 else K4.

Definition dates_b (d : DiscoveryServiceCertificate) (t : Time) : bool :=
  bool_decide ((0 ≤ t ∧ t / Second < 253402300800) ∧
               (0 ≤ t + valid_for d ∧ (t + valid_for d) / Second < 253402300800))%Z.
Lemma dates_ok d t : dates_b d t = true → dates d t.
Proof. by intros H%bool_decide_eq_true. Qed.


(** The authority of [instance], the certificate of its sidecars, the Secrets as
    issued at [now], and a time when the authority is renewed. *)
Definition ca : DiscoveryServiceCertificate := root_certificate instance.
Definition sidecar : DiscoveryServiceCertificate :=
  dscDefaulter (DiscoveryServices.ClientCertificate (ds_options instance)).
Definition issued_world : gmap NamespacedName K8sSecret :=
  match reconcile_all id now ((λ d, (d, seeds d)) <$> certificates instance []) ∅ with
  | Ok w => w | _ => ∅ end.
Definition later : Time := (now + 25000 * Hour)%Z.
Definition seed' : @Rand chain_crypto := K4.

Definition stored (d : DiscoveryServiceCertificate) : K8sSecret :=
  default (mkK8sSecret SecretTypeOpaque ∅) (issued_world !! secret_key d).
Definition der_of (d : DiscoveryServiceCertificate) : string :=
  default "" (snd <$> pem_Decode (secret_data (stored d) "tls.crt")).
Definition cert_of (d : DiscoveryServiceCertificate) : X509 :=
  match chain_parse (der_of d) with inr c => c | inl _ => mkX509 0%Z 0%Z false "" end.

Lemma ca_made : made ca now None (stored ca) (cert_of ca) K1.
Proof. exists K1, 1%Z, (der_of ca), "1". repeat split; vm_compute; reflexivity. Qed.

Lemma sidecar_made : made sidecar now (Some (cert_of ca, K1)) (stored sidecar) (cert_of sidecar) K3.
Proof. exists K3, 1%Z, (der_of sidecar), "3". repeat split; vm_compute; reflexivity. Qed.

Lemma server_made :
  made (server_certificate instance) now (Some (cert_of ca, K1)) (stored (server_certificate instance))
    (cert_of (server_certificate instance)) K2.
Proof.
  exists K2, 1%Z, (der_of (server_certificate instance)), "2". repeat split; vm_compute; reflexivity.
Qed.

End ChainRuns.
