(* ===== verification/Servers.v ===== *)
(** * Servers
    ([pkg/discoveryservice/xds_server.go], [XdsServer.Start];
     [pkg/discoveryservice/xdss/stats/garbage_collector.go], [RunGC];
     [pkg/envoy/container/shutdownmanager/manager.go], [Manager.Start];
     [cmd/discoveryservice.go], the goroutines of [runDiscoveryService])

    Each function starts goroutines that talk over channels and waits for them
    in a [select].  Its states are records of what each goroutine is doing; an
    action is a step of one goroutine or of the environment (the signal that
    cancels the context, the passage of time, the failure of a library call),
    and a function says whether the action is possible and what it leads to.
    A send on an unbuffered channel is a state of the sender, left when the
    receiver takes the value. *)

From S2P Require Import Prelude Meta.
#[local] Open Scope string_scope.
#[local] Open Scope Z_scope.
#[local] Open Scope list_scope.

(** ** Transition systems *)

Section Runs.
Context {St Act : Type} (do : Act → St → option St).
Implicit Types (s : St) (a : Act).

(** The state after a sequence of actions, if each of them is possible. *)
Fixpoint play (acts : list Act) s : option St :=
  match acts with
  | [] => Some s
  | a :: acts => match do a s with Some s' => play acts s' | None => None end
  end.

Lemma play_app acts1 acts2 s :
  play (acts1 ++ acts2) s = match play acts1 s with Some s' => play acts2 s' | None => None end.
Proof. revert s. induction acts1 as [|a acts IH]; intros s; simpl; [done|]. by destruct (do a s). Qed.

(** Induction on a run, with what has happened so far. *)
Lemma play_ind (P : list Act → St → Prop) s0 :
  P [] s0 → (∀ acts a s s', P acts s → do a s = Some s' → P (acts ++ [a]) s') →
  ∀ acts s, play acts s0 = Some s → P acts s.
Proof.
  intros H0 Hstep acts. induction acts as [|a acts IH] using rev_ind; intros s H.
  - by injection H as <-.
  - rewrite play_app in H. destruct (play acts s0) as [s1|]; [|done]. simpl in H.
    destruct (do a s1) as [s2|] eqn:E; [|done]. injection H as <-. eauto.
Qed.
End Runs.

(** ** The xDS server *)

(** The goroutine that runs the gRPC server; [Sending] is blocked on [errCh]. *)
Inductive serve_thread := NotServing | Serving | Sending (err : error) | ServeDone.

(** The goroutine of the shutdown: it calls [Stop], then closes [stopped]. *)
Inductive stop_thread := NoStopper | StopStarts | StopReturned | StoppedClosed.

(** Where [Start] is: in [net.Listen], in [RunGC], at the first [select], at the
    second one with its timer, or returned. *)
Inductive xds_main :=
  | XListen | XRunGC | XSelect | XWaitStop (deadline : Z) | XReturned (err : option error).

Record XdsState := mkXdsState {
  x_main : xds_main;
  x_serve : serve_thread;
  x_stopper : stop_thread;
  x_stopped : bool;    (** [grpcServer.Stop] has been called. *)
  x_stopGC : bool;     (** The channel [stopGC] is closed. *)
  x_synced : bool;     (** The informer of the garbage collector has synced. *)
  x_ctx : bool;        (** The context is done. *)
  x_now : Z;
}.

Definition xds_init : XdsState := mkXdsState XListen NotServing NoStopper false false false false 0.

Inductive xds_action :=
  (* the environment *)
  | CtxDone | Tick (d : Z) | ServeFails (err : error) | InformerSyncs
  (* [Start] *)
  | ListenFails (err : error) | Listens | GCReturns | SelectCtx | SelectErr
  | TimerFires | SelectStopped
  (* the goroutines *)
  | ServeReturns | CallStop | CloseStopped.

Definition failed_to_sync : error := ErrorString "failed to sync".

Definition set_main s m :=
  mkXdsState m (x_serve s) (x_stopper s) (x_stopped s) (x_stopGC s) (x_synced s) (x_ctx s) (x_now s).
Definition set_serve s t :=
  mkXdsState (x_main s) t (x_stopper s) (x_stopped s) (x_stopGC s) (x_synced s) (x_ctx s) (x_now s).
Definition set_stopper s t stopped :=
  mkXdsState (x_main s) (x_serve s) t stopped (x_stopGC s) (x_synced s) (x_ctx s) (x_now s).

(** [WaitForNamedCacheSync] waits until the informer has synced or [stopGC] is
    closed; [RunGC] is an error in the second case. *)
Definition RunGC (s : XdsState) : option (option error) :=
  if x_synced s then Some None
  else if x_stopGC s then Some (Some failed_to_sync)
  else None.

Definition xds_do (a : xds_action) (s : XdsState) : option XdsState :=
  match a with
  | CtxDone =>
     Some (mkXdsState (x_main s) (x_serve s) (x_stopper s) (x_stopped s) (x_stopGC s)
             (x_synced s) true (x_now s))
  | Tick d =>
     if decide (0 ≤ d) then
       Some (mkXdsState (x_main s) (x_serve s) (x_stopper s) (x_stopped s) (x_stopGC s)
               (x_synced s) (x_ctx s) (x_now s + d))
     else None
  | InformerSyncs =>
     Some (mkXdsState (x_main s) (x_serve s) (x_stopper s) (x_stopped s) (x_stopGC s)
             true (x_ctx s) (x_now s))
  (** [Serve] fails only while [Stop] has not been called. *)
  | ServeFails err =>
     match x_serve s with
     | Serving => if x_stopped s then None else Some (set_serve s (Sending err))
     | _ => None
     end
  | ServeReturns =>
     match x_serve s with
     | Serving => if x_stopped s then Some (set_serve s ServeDone) else None
     | _ => None
     end
  | ListenFails err =>
     match x_main s with XListen => Some (set_main s (XReturned (Some err))) | _ => None end
  | Listens =>
     match x_main s with XListen => Some (set_serve (set_main s XRunGC) Serving) | _ => None end
  | GCReturns =>
     match x_main s, RunGC s with
     | XRunGC, Some None => Some (set_main s XSelect)
     | XRunGC, Some (Some err) => Some (set_main s (XReturned (Some err)))
     | _, _ => None
     end
  | SelectCtx =>
     match x_main s with
     | XSelect =>
        if x_ctx s then
          Some (mkXdsState (XWaitStop (x_now s + 10 * Second)) (x_serve s) StopStarts
                  (x_stopped s) true (x_synced s) (x_ctx s) (x_now s))
        else None
     | _ => None
     end
  | SelectErr =>
     match x_main s, x_serve s with
     | XSelect, Sending err => Some (set_serve (set_main s (XReturned (Some err))) ServeDone)
     | _, _ => None
     end
  (** The timer's case calls [Stop] itself. *)
  | TimerFires =>
     match x_main s with
     | XWaitStop deadline =>
        if decide (deadline ≤ x_now s) then
          Some (set_stopper (set_main s (XReturned None)) (x_stopper s) true)
        else None
     | _ => None
     end
  | SelectStopped =>
     match x_main s, x_stopper s with
     | XWaitStop _, StoppedClosed => Some (set_main s (XReturned None))
     | _, _ => None
     end
  | CallStop =>
     match x_stopper s with StopStarts => Some (set_stopper s StopReturned true) | _ => None end
  | CloseStopped =>
     match x_stopper s with
     | StopReturned => Some (set_stopper s StoppedClosed (x_stopped s))
     | _ => None
     end
  end.

(** The actions of [Start] itself. *)
Definition start_action (a : xds_action) : bool :=
  match a with
  | ListenFails _ | Listens | GCReturns | SelectCtx | SelectErr | TimerFires | SelectStopped => true
  | _ => false
  end.

(** How many of them are left. *)
Definition xds_left (m : xds_main) : nat :=
  match m with XListen => 4 | XRunGC => 3 | XSelect => 2 | XWaitStop _ => 1 | XReturned _ => 0 end.

Definition xds_inv (acts : list xds_action) (s : XdsState) : Prop :=
  (x_ctx s = true → CtxDone ∈ acts) ∧ (x_synced s = true → InformerSyncs ∈ acts) ∧
  (∀ err, x_serve s = Sending err → ServeFails err ∈ acts) ∧
  (x_stopper s = StopReturned ∨ x_stopper s = StoppedClosed → x_stopped s = true) ∧
  match x_main s with
  | XListen => x_serve s = NotServing ∧ x_stopper s = NoStopper ∧ x_stopGC s = false ∧ Listens ∉ acts
  | XRunGC => x_stopper s = NoStopper ∧ x_stopGC s = false ∧ Listens ∈ acts
  | XSelect => x_stopper s = NoStopper ∧ x_stopGC s = false ∧ x_synced s = true
  | XWaitStop d => x_stopGC s = true ∧ x_ctx s = true ∧ d ≤ x_now s + 10 * Second ∧ x_synced s = true
  | XReturned None => x_stopGC s = true ∧ x_ctx s = true ∧ x_stopped s = true ∧ x_synced s = true
  | XReturned (Some err) =>
     (ListenFails err ∈ acts ∧ Listens ∉ acts ∨ ServeFails err ∈ acts ∧ x_synced s = true) ∧
     x_stopper s = NoStopper
  end.

Lemma xds_inv_step acts a s s' :
  xds_inv acts s → xds_do a s = Some s' → xds_inv (acts ++ [a]) s'.
Proof.
  unfold xds_inv. intros (Hc & Hy & He & Hst & Hm) H.
  assert (∀ b, b ∈ acts → b ∈ acts ++ [a]) as Hw by set_solver.
  assert (a ∈ acts ++ [a]) as Hn by set_solver.
  assert (Listens ∉ acts → Listens ≠ a → Listens ∉ acts ++ [a]) as Hl by set_solver.
  destruct a; unfold xds_do, RunGC in H; simpl in H.
  all: destruct s as [m sv sp st gc sy cx now]; simpl in *.
  all: repeat (case_match; simplify_eq/=; try done).
  all: naive_solver lia.
Qed.

Lemma xds_invariant acts s : play xds_do acts xds_init = Some s → xds_inv acts s.
Proof.
  revert acts s. apply play_ind; [|apply xds_inv_step].
  unfold xds_inv. simpl. repeat split; try done; [naive_solver|set_solver].
Qed.

(** C20: what [Start] of the xDS server returns.  An error is the error of
    [net.Listen] or of the gRPC server, never that of the garbage collector;
    without an error the context is done, the gRPC server is stopped and so is
    the garbage collector.  But until the informer of the garbage collector has
    synced [Start] stays in [RunGC], whatever happens to the context and to the
    server. *)
Theorem xds_start_outcome acts s :
  play xds_do acts xds_init = Some s →
  match x_main s with
  | XReturned (Some err) => ListenFails err ∈ acts ∨ ServeFails err ∈ acts
  | XReturned None => CtxDone ∈ acts ∧ x_stopped s = true ∧ x_stopGC s = true
  | _ => True
  end ∧
  (Listens ∈ acts → InformerSyncs ∉ acts → x_main s = XRunGC).
Proof.
  intros (Hc & Hy & _ & _ & Hm)%xds_invariant.
  split; repeat case_match; naive_solver.
Qed.

Lemma xds_left_step a s s' :
  xds_do a s = Some s' →
  if start_action a then (xds_left (x_main s') < xds_left (x_main s))%nat
  else x_main s' = x_main s.
Proof.
  destruct a, s; simpl; intros H; simplify_eq/=; try done;
    repeat (case_match; simplify_eq/=; try done; try lia).
Qed.

(** [Start] can go on, now or within ten seconds, once the context is done and
    the informer has synced. *)
Lemma xds_progress acts s :
  xds_inv acts s → x_ctx s = true → x_synced s = true → (0 < xds_left (x_main s))%nat →
  ∃ d a s1 s2, 0 ≤ d ≤ 10 * Second ∧ xds_do (Tick d) s = Some s1 ∧
    start_action a = true ∧ xds_do a s1 = Some s2.
Proof.
  intros (_ & _ & _ & _ & Hm) Hc Hy Hl. destruct s as [m sv sp st gc sy cx now].
  simpl in *. subst cx sy.
  destruct m as [| | |d|r]; simpl in Hl; [| | | |lia].
  1-3: exists 0. 4: exists (Z.max 0 (d - now)).
  - exists Listens. do 2 eexists. by repeat split.
  - exists GCReturns. do 2 eexists. by repeat split.
  - exists SelectCtx. do 2 eexists. by repeat split.
  - exists TimerFires. simpl. rewrite decide_True by lia. do 2 eexists.
    unfold Second in *. split; [lia|]. split; [done|]. split; [done|]. simpl.
    by rewrite decide_True by lia.
Qed.


(** ** [Start] of the shutdown manager *)

Inductive sm_main := SMWait | SMSelect | SMReturned (err : option error).

(** The listener runs in a goroutine from the start; [sm_active] requests are in
    progress. *)
Record SMState := mkSMState {
  sm_at : sm_main;
  sm_listen : serve_thread;
  sm_ctx : bool;
  sm_shut : bool;
  sm_active : nat;
}.

Definition sm_init : SMState := mkSMState SMWait Serving false false 0.

Inductive sm_action :=
  | SMCtxDone | SMListenFails (err : error) | SMListenReturns | RequestStarts | RequestEnds
  | SMShutdown | SMSelectCtx | SMSelectErr.

Definition sm_own (a : sm_action) : bool :=
  match a with SMShutdown | SMSelectCtx | SMSelectErr => true | _ => false end.

Definition sm_do (a : sm_action) (s : SMState) : option SMState :=
  let '(mkSMState m l ctx shut n) := s in
  match a, m, l with
  | SMCtxDone, _, _ => Some (mkSMState m l true shut n)
  | SMListenFails err, _, Serving => if shut then None else Some (mkSMState m (Sending err) ctx shut n)
  (** After [Shutdown] it returns [ErrServerClosed], which is not sent. *)
  | SMListenReturns, _, Serving => if shut then Some (mkSMState m ServeDone ctx shut n) else None
  | RequestStarts, _, Serving => if shut then None else Some (mkSMState m l ctx shut (S n))
  | RequestEnds, _, _ => match n with S n => Some (mkSMState m l ctx shut n) | 0%nat => None end
  (** [<-ctx.Done()], and [Shutdown] with a context that is done, which does not
      wait for the requests in progress. *)
  | SMShutdown, SMWait, _ => if ctx then Some (mkSMState SMSelect l ctx true n) else None
  | SMSelectCtx, SMSelect, _ => if ctx then Some (mkSMState (SMReturned None) l ctx true n) else None
  | SMSelectErr, SMSelect, Sending err => Some (mkSMState (SMReturned (Some err)) ServeDone ctx shut n)
  | _, _, _ => None
  end.

Definition sm_inv (acts : list sm_action) (s : SMState) : Prop :=
  (sm_ctx s = true ↔ SMCtxDone ∈ acts) ∧
  (∀ err, sm_listen s = Sending err → SMListenFails err ∈ acts) ∧
  match sm_at s with
  | SMWait => sm_shut s = false
  | SMSelect | SMReturned None => sm_ctx s = true
  | SMReturned (Some err) => sm_ctx s = true ∧ SMListenFails err ∈ acts
  end.

Lemma sm_invariant acts s : play sm_do acts sm_init = Some s → sm_inv acts s.
Proof.
  revert acts s. apply play_ind.
  - split; [set_solver|]. by split.
  - intros acts a [m l ctx shut n] s' (Hc & He & Hm) H. simpl in *.
    assert (∀ b, b ∈ acts → b ∈ acts ++ [a]) as Hw by set_solver.
    assert (a ∈ acts ++ [a]) as Hn by set_solver.
    assert (a ≠ SMCtxDone → SMCtxDone ∈ acts ++ [a] → SMCtxDone ∈ acts) as Hl by set_solver.
    unfold sm_inv.
    destruct a, m as [| |[|]], l; simplify_eq/=; try done;
      repeat (case_match; simplify_eq/=; try done); naive_solver.
Qed.

(** [Start] of the shutdown manager waits for the context before anything
    else: until then it does not return, even when the listener has failed; then
    it returns in two steps, neither of which waits for anything.  It may then
    report the failure of the listener or not, and requests that are in progress
    are cut off. *)
Theorem shutdown_manager_start acts s :
  play sm_do acts sm_init = Some s →
  (SMCtxDone ∉ acts → sm_at s = SMWait) ∧
  (∀ err, sm_at s = SMReturned (Some err) → SMListenFails err ∈ acts) ∧
  (SMCtxDone ∈ acts →
   match sm_at s with
   | SMWait => ∃ s1 s2, sm_do SMShutdown s = Some s1 ∧ sm_do SMSelectCtx s1 = Some s2 ∧
                 sm_at s2 = SMReturned None ∧ sm_active s2 = sm_active s
   | SMSelect => ∃ s2, sm_do SMSelectCtx s = Some s2 ∧ sm_at s2 = SMReturned None
   | SMReturned _ => True
   end) ∧
  (∀ err, sm_at s = SMWait → sm_listen s = Sending err → SMCtxDone ∈ acts →
   ∃ s1 s2, sm_do SMShutdown s = Some s1 ∧ sm_do SMSelectErr s1 = Some s2 ∧
     sm_at s2 = SMReturned (Some err)).
Proof.
  intros (Hc & He & Hm)%sm_invariant. destruct s as [m l ctx shut n]. simpl in *.
  split; [|split; [|split]].
  - intros Hn. rewrite <- Hc in Hn. destruct ctx; [done|]. repeat case_match; naive_solver.
  - intros err ->. apply Hm.
  - rewrite <- Hc. intros ->. destruct m; [do 2 eexists|eexists|done]; by repeat split.
  - intros err -> ->. rewrite <- Hc. intros ->. do 2 eexists. by repeat split.
Qed.

(** ** The process of the discovery service *)

Inductive ds_main := DSetup | DWait.
Inductive xds_thread := XTClient | XTStart | XTDone.
Inductive mgr_thread := MgrNotStarted | MgrRuns | MgrDone.

(** The goroutine of the xDS server creates a client and calls [Start]; the one
    of the manager, once the main goroutine has set it up, calls [mgr.Start].
    [d_exit] is the exit code of the process. *)
#[global] Instance xds_thread_eq_dec : EqDecision xds_thread.
Proof. solve_decision. Defined.

Record DSProcess := mkDSProcess {
  d_main : ds_main;
  d_thread : xds_thread;
  d_xds : XdsState;
  d_mgr : mgr_thread;
  d_exit : option Z;
}.

Definition ds_init : DSProcess := mkDSProcess DSetup XTClient xds_init MgrNotStarted None.

Inductive ds_action :=
  | DXds (a : xds_action) | DClientFails | DClient | DXdsReturns
  | DSetupFails | DSetupDone | DMgrFails | DMgrReturns | DMainReturns.

(** What happens to the xDS server's state without [Start] being called. *)
Definition xds_env (a : xds_action) : bool :=
  match a with CtxDone | Tick _ | InformerSyncs => true | _ => false end.

Definition ds_do (a : ds_action) (p : DSProcess) : option DSProcess :=
  let '(mkDSProcess m t x g e) := p in
  let exit code := Some (mkDSProcess m t x g (Some code)) in
  match e with
  | Some _ => None
  | None =>
     match a with
     | DXds a =>
        if bool_decide (t = XTStart) || xds_env a then
          match xds_do a x with Some x => Some (mkDSProcess m t x g None) | None => None end
        else None
     | DClientFails => match t with XTClient => exit 1 | _ => None end
     | DClient => match t with XTClient => Some (mkDSProcess m XTStart x g None) | _ => None end
     | DXdsReturns =>
        match t, x_main x with
        | XTStart, XReturned (Some _) => exit 1
        | XTStart, XReturned None => Some (mkDSProcess m XTDone x g None)
        | _, _ => None
        end
     | DSetupFails => match m with DSetup => exit 1 | _ => None end
     | DSetupDone =>
        match m, g with DSetup, MgrNotStarted => Some (mkDSProcess DWait t x MgrRuns None) | _, _ => None end
     | DMgrFails => match g with MgrRuns => exit 1 | _ => None end
     (** [mgr.Start] returns without an error only when the context is done. *)
     | DMgrReturns =>
        match g with
        | MgrRuns => if x_ctx x then Some (mkDSProcess m t x MgrDone None) else None
        | _ => None
        end
     | DMainReturns => match m, t, g with DWait, XTDone, MgrDone => exit 0 | _, _, _ => None end
     end
  end.

Definition xds_part (acts : list ds_action) : list xds_action :=
  omap (λ a, match a with DXds a => Some a | _ => None end) acts.

(** A failure that ends the process. *)
Definition failed (acts : list ds_action) : Prop :=
  DClientFails ∈ acts ∨ DSetupFails ∈ acts ∨ DMgrFails ∈ acts ∨
  ∃ err, ListenFails err ∈ xds_part acts ∨ ServeFails err ∈ xds_part acts.

Definition ds_inv (acts : list ds_action) (p : DSProcess) : Prop :=
  xds_inv (xds_part acts) (d_xds p) ∧
  (d_mgr p = MgrNotStarted ↔ d_main p = DSetup) ∧
  (d_mgr p = MgrDone → x_ctx (d_xds p) = true) ∧
  match d_thread p with
  | XTClient => x_main (d_xds p) = XListen
  | XTStart => True
  | XTDone => x_main (d_xds p) = XReturned None
  end ∧
  match d_exit p with
  | None => True
  | Some code =>
     (code = 0 ∧ d_thread p = XTDone ∧ d_mgr p = MgrDone) ∨ (code = 1 ∧ failed acts)
  end.

Lemma xds_part_snoc acts a :
  xds_part (acts ++ [a]) = xds_part acts ++ match a with DXds a => [a] | _ => [] end.
Proof. unfold xds_part. rewrite omap_app. simpl. by destruct a. Qed.

Lemma failed_snoc acts a : failed acts → failed (acts ++ [a]).
Proof. unfold failed. rewrite xds_part_snoc. setoid_rewrite elem_of_app. naive_solver. Qed.

Lemma xds_returned_err acts s err :
  xds_inv acts s → x_main s = XReturned (Some err) → ListenFails err ∈ acts ∨ ServeFails err ∈ acts.
Proof. intros (_ & _ & _ & _ & Hm) E. rewrite E in Hm. naive_solver. Qed.

Lemma xds_env_main a s s' : xds_env a = true → xds_do a s = Some s' → x_main s' = x_main s.
Proof. destruct a; try done; simpl; intros _ H; repeat case_match; by simplify_eq/=. Qed.

Lemma xds_ctx_mono a s s' : xds_do a s = Some s' → x_ctx s = true → x_ctx s' = true.
Proof. destruct s, a; simpl; intros H ->; repeat case_match; by simplify_eq/=. Qed.

(** A thread that has returned takes no more steps in [Start]. *)
Lemma xds_returned_stays a s s' r :
  xds_do a s = Some s' → x_main s = XReturned r → x_main s' = XReturned r.
Proof. destruct s, a; simpl; intros H ->; repeat case_match; by simplify_eq/=. Qed.

Lemma ds_invariant acts p : play ds_do acts ds_init = Some p → ds_inv acts p.
Proof.
  revert acts p. apply play_ind.
  - split; [by apply (xds_invariant [])|]. by repeat split.
  - intros acts a [m t x g e] p' (Hx & Hg & Hd & Ht & He) H. unfold ds_inv. rewrite xds_part_snoc.
    simpl in *. destruct e; [done|]. destruct a as [a| | | | | | | |].
    { destruct (bool_decide _ || _) eqn:Ea; [|done].
      destruct (xds_do a x) as [x'|] eqn:Ex; [|done]. injection H as <-. simpl.
      split; [by eapply xds_inv_step|]. split; [done|]. split.
      - intros Hgd. eapply xds_ctx_mono; [done|auto].
      - split; [|done]. destruct t; [|done|by eapply xds_returned_stays].
        rewrite <- Ht. eapply xds_env_main; [|done]. by rewrite bool_decide_eq_false_2 in Ea. }
    all: rewrite app_nil_r; repeat (case_match; simplify_eq/=; try done); simplify_eq/=.
    all: repeat (split; [done || naive_solver|]); try done; try (by left).
    all: try (split; [done|]); right; (split; [done|]); unfold failed; rewrite xds_part_snoc, app_nil_r;
      setoid_rewrite elem_of_app.
    all: try (rewrite !list_elem_of_singleton; naive_solver).
    right; right; right. eexists. by eapply xds_returned_err.
Qed.

(** The steps of the process's own goroutines that lead to its end. *)
Definition ds_own (a : ds_action) : bool :=
  match a with DXds a => start_action a | _ => true end.

Definition ds_left (p : DSProcess) : nat :=
  match d_exit p with
  | Some _ => 0
  | None =>
     1 + (match d_main p with DSetup => 1 | DWait => 0 end) +
     (match d_thread p with XTClient => 2 | XTStart => 1 | XTDone => 0 end) +
     xds_left (x_main (d_xds p)) +
     (match d_mgr p with MgrNotStarted => 2 | MgrRuns => 1 | MgrDone => 0 end)
  end.

Lemma ds_left_step a p p' :
  ds_do a p = Some p' →
  if ds_own a then (ds_left p' < ds_left p)%nat else ds_left p' = ds_left p.
Proof.
  destruct p as [m t x g e]; simpl. destruct e; [done|].
  destruct a as [a| | | | | | | |]; simpl;
    [|intros H; repeat (case_match; simplify_eq/=; try done); unfold ds_left; simpl; lia..].
  destruct (_ || _); [|done]. destruct (xds_do a x) as [x'|] eqn:Ex; [|done]. intros [= <-].
  apply xds_left_step in Ex. unfold ds_left. simpl.
  destruct (start_action a); [lia|by rewrite Ex].
Qed.

Lemma ds_tick m t x g d :
  0 ≤ d → ∃ x1, xds_do (Tick d) x = Some x1 ∧ x_main x1 = x_main x ∧ x_ctx x1 = x_ctx x ∧
    ds_do (DXds (Tick d)) (mkDSProcess m t x g None) = Some (mkDSProcess m t x1 g None).
Proof. intros Hd. simpl. rewrite orb_true_r, decide_True by done. by eexists. Qed.


(** ** Runs *)

Module ServerRuns.
(** The gRPC server fails and the signal comes while the informer does not sync. *)
Definition stuck : list xds_action := [Listens; ServeFails (ErrorString "reset"); CtxDone; Tick (3600 * Second)].

Lemma xds_start_outcome_witness :
  ∃ s, play xds_do stuck xds_init = Some s ∧ x_main s = XRunGC.
Proof.
  eexists. split; [vm_compute; reflexivity|].
  refine (proj2 (xds_start_outcome stuck _ _) _ _);
    [vm_compute; reflexivity|unfold stuck; set_solver|].
  unfold stuck. rewrite !elem_of_cons, elem_of_nil. intuition discriminate.
Defined.

(** The gRPC server does not stop: the timer ends the wait. *)
Definition slow_stop : list xds_action := [Listens; InformerSyncs; GCReturns; CtxDone; SelectCtx].


(** The listener fails, the signal comes, and a request is in progress. *)
Definition failed_listener : list sm_action :=
  [RequestStarts; SMListenFails (ErrorString "address in use"); SMCtxDone].

Lemma shutdown_manager_start_witness :
  ∃ s s1 s2, play sm_do failed_listener sm_init = Some s ∧ sm_do SMShutdown s = Some s1 ∧
    sm_do SMSelectCtx s1 = Some s2 ∧ sm_at s2 = SMReturned None ∧ sm_active s2 = 1%nat.
Proof.
  destruct (play sm_do failed_listener sm_init) as [s|] eqn:E; [|vm_compute in E; discriminate E].
  destruct (shutdown_manager_start _ _ E) as (_ & _ & H & _). vm_compute in E. injection E as <-.
  destruct H as (s1 & s2 & H1 & H2 & H3 & H4); [unfold failed_listener; set_solver|].
  eexists _, s1, s2. split; [reflexivity|]. split; [exact H1|]. split; [exact H2|].
  split; [exact H3|exact H4].
Defined.

(** A whole life of the process, ended by a signal. *)
Definition life : list ds_action :=
  [DClient; DXds Listens; DSetupDone; DXds InformerSyncs; DXds GCReturns; DXds CtxDone;
   DXds SelectCtx; DMgrReturns; DXds CallStop; DXds CloseStopped; DXds SelectStopped; DXdsReturns;
   DMainReturns].

End ServerRuns.
