(* ===== verification/Interleaving.v ===== *)
(** * Streams in parallel
    ([pkg/discoveryservice/xdss/stats/{kv,stats,garbage_collector}.go])

    The gRPC server calls the callbacks of each stream in a goroutine of its own,
    the informer calls the garbage collector in another, and they all work on
    one store.  The store locks each of its calls, but the functions of the
    statistics make several.  Here they are programs whose steps are the
    calls of the store, so that the steps of several of them can be interleaved;
    run alone they are the functions of [Stats] ([events_sequential]).  Streams of
    pods that cannot be confused do not disturb each other
    ([streams_independent]); streams of the same pod, or a stream and the garbage
    collection of its pod, do ([lost_update], [resurrected]). *)

From S2P Require Import Prelude Meta Stats Servers.
From Stdlib Require Import QArith.
#[local] Open Scope string_scope.
#[local] Open Scope list_scope.

(** ** Programs *)

Inductive Prog :=
  | PDone
  | PGet (k : string) (next : option Object → Prog)
  | PSet (k : string) (v : Object) (d : Z) (next : Prog)
  | PSetDefault (k : string) (v : Object) (next : Prog)
  | PDelete (k : string) (next : Prog)
  | PItems (next : gmap string Object → Prog)
  | PNow (next : Time → Prog).

Section Programs.
Implicit Types (nodeID rType version podID statName nonce : string).

Definition p_GetCounter nodeID rType version podID statName (next : result Z → Prog) : Prog :=
  let k := Key_String (NewKey nodeID rType version podID statName) in
  PGet k (λ o, next match o with
                    | Some (ObjInt64 value) => Ok value
                    | Some _ => Err (ErrorString ("value of key '" +:+ k +:+ "' is not an int"))
                    | None => Err (ErrorString ("key " +:+ k +:+ " not found"))
                    end).

Definition p_IncrementCounter nodeID rType version podID statName (increment : Z) (next : Prog) : Prog :=
  p_GetCounter nodeID rType version podID statName (λ counter,
    PSetDefault (Key_String (NewKey nodeID rType version podID statName))
      (ObjInt64 (int64 (counter_or_zero counter + increment))) next).

Definition p_FilterKeys (filters : list string) (next : gmap string Object → Prog) : Prog :=
  PItems (λ all, next (filter (λ kv, key_selected filters (fst kv) = true) all)).

Definition p_DeleteKeysByFilter (filters : list string) (next : Prog) : Prog :=
  p_FilterKeys filters (λ keys, fold_right PDelete next (map_to_list keys).*1).

Definition p_WriteResponseNonce nodeID rType version podID nonce (next : Prog) : Prog :=
  PSet (Key_String (NewKey nodeID rType version podID ("nonce:" +:+ nonce))) (ObjString "")
    (10 * Second)%Z next.

Definition p_ReportNACK nodeID rType podID nonce (next : result Z → Prog) : Prog :=
  p_FilterKeys [nodeID; rType; podID; "nonce:" +:+ nonce] (λ keys,
    match map_to_list keys with
    | [(k, _)] =>
       match NewKeyFromString k with
       | Ok key =>
          let version := k_Version key in
          p_IncrementCounter nodeID rType version podID "nack_counter" 1
            (p_IncrementCounter nodeID rType "*" podID "nack_counter" 1
               (p_GetCounter nodeID rType version podID "nack_counter" next))
       | Err e => next (Err e)
       | Panic => next Panic
       end
    | _ => next (Err (ErrorString
              "error reporting failure: unexpected number of nonces in the cache"))
    end).

Definition p_ReportACK nodeID rType version podID (next : Prog) : Prog :=
  p_IncrementCounter nodeID rType version podID "ack_counter" 1
    (p_IncrementCounter nodeID rType "*" podID "ack_counter" 1
       (PNow (λ now, PSetDefault (Key_String (NewKey nodeID rType version podID "info"))
                       (ObjInt64 (UnixMilli now)) next))).

Definition p_ReportRequest nodeID rType podID (next : Prog) : Prog :=
  p_IncrementCounter nodeID rType "*" podID "request_counter" 1 next.

Definition p_deleteStatsForDeletedPods (name : string) (next : Prog) : Prog :=
  p_DeleteKeysByFilter [name] next.

Definition p_event (ev : event) : Prog :=
  match ev with
  | ResponseSent n ty v p nonce => p_WriteResponseNonce n ty v p nonce PDone
  | NackReceived n ty p nonce => p_ReportNACK n ty p nonce (λ _, PDone)
  | AckReceived n ty v p => p_ReportACK n ty v p PDone
  | RequestReceived n ty p => p_ReportRequest n ty p PDone
  | PodDeleted name => p_deleteStatsForDeletedPods name PDone
  | NodeCleared n => p_DeleteKeysByFilter [n] PDone
  end.
End Programs.

(** ** Steps *)

Section Steps.
Context {C : Type} {G : GoCache C}.
Implicit Types (s : C) (now : Time) (p : Prog).

Definition pstep p s now : option (Prog * C) :=
  match p with
  | PDone => None
  | PGet k next => Some (next (cache_Get s now k), s)
  | PSet k v d next => Some (next, cache_Set s now k v d)
  | PSetDefault k v next => Some (next, cache_SetDefault s now k v)
  | PDelete k next => Some (next, cache_Delete s k)
  | PItems next => Some (next (cache_Items s now), s)
  | PNow next => Some (next now, s)
  end.

(** A program alone, in no time. *)
Fixpoint run_alone p s now : C :=
  match p with
  | PDone => s
  | PGet k next => run_alone (next (cache_Get s now k)) s now
  | PSet k v d next => run_alone next (cache_Set s now k v d) now
  | PSetDefault k v next => run_alone next (cache_SetDefault s now k v) now
  | PDelete k next => run_alone next (cache_Delete s k) now
  | PItems next => run_alone (next (cache_Items s now)) s now
  | PNow next => run_alone (next now) s now
  end.

(** The goroutines and their store. *)
Record Threads := mkThreads { th_store : C; th_now : Time; th_progs : list Prog }.

Inductive thread_action := Run (i : nat) | Elapse (d : Z).

Definition thread_do (a : thread_action) (st : Threads) : option Threads :=
  match a with
  | Run i =>
     p ← th_progs st !! i;
     '(p', s') ← pstep p (th_store st) (th_now st);
     Some (mkThreads s' (th_now st) (<[i := p']> (th_progs st)))
  | Elapse d =>
     if decide (0 ≤ d)%Z then Some (mkThreads (th_store st) (th_now st + d)%Z (th_progs st)) else None
  end.

(** The programs are the functions of the statistics: run alone, each has the
    effect of the event it stands for, and so do the streams of a discovery
    service that are run one after the other. *)
Theorem events_sequential s now evs :
  fold_left (λ s ev, run_alone (p_event ev) s now) evs s =
  fold_left (λ s ev, handle_event s now ev) evs s.
Proof.
  revert s. induction evs as [|ev evs IH]; intros s; simpl; [done|]. rewrite <- IH. f_equal.
  assert (∀ ks s next, run_alone (fold_right PDelete next ks) s now =
    run_alone next (fold_left (λ s k, cache_Delete s k) ks s) now) as Hdel.
  { clear. intros ks. induction ks as [|k ks IH]; intros s next; simpl; [done|]. by rewrite IH. }
  destruct ev as [n ty v p nonce|n ty p nonce|n ty v p|n ty p|name|n]; try done; simpl; [|by rewrite Hdel..].
  unfold ReportNACK, FilterKeys.
  destruct (map_to_list _) as [|[k o] [|]]; [done| |done]. by destruct (NewKeyFromString k).
Qed.
End Steps.

(** ** Streams of different pods *)

(** The part of the store that is looked at for a pod. *)
Definition concerns (pod key : string) : Prop := Contains key pod = true.
#[global] Instance concerns_dec pod key : Decision (concerns pod key).
Proof. unfold concerns. apply _. Defined.

(** A text without separator is contained in one of the parts. *)
Lemma HasPrefix_app_sep sep a b q :
  no_sep sep q → HasPrefix (a +:+ String sep b) q = true → HasPrefix a q = true.
Proof.
  revert a. induction q as [|c q IH]; intros a Hs H; [by destruct a|].
  apply no_sep_cons in Hs as [Hc Hs]. destruct a as [|c' a]; simpl in *.
  - apply andb_true_iff in H as [H%bool_decide_eq_true _]. congruence.
  - apply andb_true_iff in H as [-> H]. simpl. by apply IH.
Qed.

Lemma Contains_app_sep sep a b q :
  no_sep sep q → q ≠ "" → Contains (a +:+ String sep b) q = true → Contains a q = true ∨ Contains b q = true.
Proof.
  intros Hs Hn. induction a as [|c a IH]; intros H; rewrite Contains_unfold in H; simpl in H.
  - apply orb_true_iff in H as [H|H]; [|by right].
    apply (HasPrefix_app_sep sep "" b) in H; [|done]. by destruct q.
  - apply orb_true_iff in H as [H|H].
    + left. rewrite Contains_unfold. by rewrite (HasPrefix_app_sep sep (String c a) b q Hs H).
    + destruct (IH H) as [Ha|Hb]; [left|by right]. by apply Contains_cons.
Qed.

Section Independence.
Context {C : Type} {G : GoCache C} {GL : GoCacheLaws G}.
Implicit Types (s : C) (p : Prog) (pod key : string).
(** The names of the pods. *)
Variable pods : list string.

(** A key that concerns at most one of the pods. *)
Definition clear_key key : Prop :=
  ∀ x y, x ∈ pods → y ∈ pods → concerns x key → concerns y key → x = y.

Definition clear_items (m : gmap string Object) : Prop := ∀ key, is_Some (m !! key) → clear_key key.

(** A program for [pod]: it reads and writes what concerns its pod only. *)
Fixpoint confined pod p : Prop :=
  match p with
  | PDone => True
  | PGet k next => concerns pod k ∧ ∀ o, confined pod (next o)
  | PSet k v d next => concerns pod k ∧ clear_key k ∧ (0 < d)%Z ∧ confined pod next
  | PSetDefault k v next => concerns pod k ∧ clear_key k ∧ confined pod next
  | PDelete k next => concerns pod k ∧ clear_key k ∧ confined pod next
  | PItems next =>
     (∀ m m', (∀ key, concerns pod key → m !! key = m' !! key) → next m = next m') ∧
     ∀ m, clear_items m → confined pod (next m)
  | PNow next => ∀ t, confined pod (next t)
  end.

(** The stores agree on what concerns [pod], from [t] on. *)
Definition agree pod (t : Time) s1 s2 : Prop :=
  ∀ t' key, (t ≤ t')%Z → concerns pod key → cache_Items s1 t' !! key = cache_Items s2 t' !! key.

Definition clear_store s (t : Time) : Prop := ∀ t', (t ≤ t')%Z → clear_items (cache_Items s t').

Lemma clear_store_step pod p s t p' s' :
  confined pod p → clear_store s t → pstep p s t = Some (p', s') →
  clear_store s' t ∧ confined pod p'.
Proof.
  intros Hc Hs H. assert (clear_items (cache_Items s t)) as H0 by by apply Hs.
  destruct p as [|k next|k v d next|k v next|k next|next|next]; simpl in *; simplify_eq/=.
  - split; [done|]. apply Hc.
  - destruct Hc as (_ & Hk & Hd & Hc). split; [|done]. intros t' Ht x. rewrite items_Set by done.
    specialize (Hs t' Ht). case_decide; [destruct (decide (x = k)) as [->|]|destruct (decide (x = k)) as [->|]];
      rewrite ?lookup_insert_ne, ?lookup_delete_ne by done; auto.
  - destruct Hc as (_ & Hk & Hc). split; [|done]. intros t' Ht x. rewrite items_SetDefault by done.
    destruct (decide (x = k)) as [->|]; [done|]. rewrite lookup_insert_ne by done. by apply Hs.
  - destruct Hc as (_ & _ & Hc). split; [|done]. intros t' Ht x. rewrite items_Delete.
    intros [o [_ Ho]%lookup_delete_Some]. apply (Hs t' Ht). by exists o.
  - split; [done|]. by apply Hc.
  - split; [done|]. apply Hc.
Qed.

(** A step of a program for another pod. *)
Lemma agree_other pod q p s1 s2 t p' s1' :
  pod ∈ pods → q ∈ pods → q ≠ pod → confined q p → agree pod t s1 s2 →
  pstep p s1 t = Some (p', s1') → agree pod t s1' s2.
Proof.
  intros Hp Hq Hne Hc Ha H.
  assert (∀ k, concerns q k → clear_key k → ∀ x, concerns pod x → x ≠ k) as Hk.
  { intros k Hqk Hck x Hx ->. by apply Hne, Hck. }
  destruct p as [|k next|k v d next|k v next|k next|next|next]; simpl in *; simplify_eq/=; try done;
    intros t' x Ht Hx.
  - destruct Hc as (Hqk & Hck & Hd & _). rewrite items_Set by done. specialize (Hk k Hqk Hck x Hx).
    case_decide; rewrite ?lookup_insert_ne, ?lookup_delete_ne by done; by apply Ha.
  - destruct Hc as (Hqk & Hck & _). rewrite items_SetDefault, lookup_insert_ne by (done || by apply not_eq_sym, Hk).
    by apply Ha.
  - destruct Hc as (Hqk & Hck & _). rewrite items_Delete, lookup_delete_ne by (by apply not_eq_sym, Hk). by apply Ha.
Qed.

(** A step of a program for the same pod, on both stores. *)
Lemma agree_own pod p s1 s2 t p' s1' :
  confined pod p → agree pod t s1 s2 → pstep p s1 t = Some (p', s1') →
  ∃ s2', pstep p s2 t = Some (p', s2') ∧ agree pod t s1' s2'.
Proof.
  intros Hc Ha H.
  destruct p as [|k next|k v d next|k v next|k next|next|next]; simpl in *; simplify_eq/=.
  - exists s2. split; [|done]. destruct Hc as [Hk _]. rewrite !get_items. by rewrite (Ha t k).
  - destruct Hc as (Hk & _ & Hd & _). eexists. split; [done|]. intros t' x Ht Hx.
    rewrite !items_Set by done. case_decide.
    + destruct (decide (x = k)) as [->|]; [by rewrite !lookup_insert_eq|].
      rewrite !lookup_insert_ne by done. by apply Ha.
    + destruct (decide (x = k)) as [->|]; [by rewrite !lookup_delete_eq|].
      rewrite !lookup_delete_ne by done. by apply Ha.
  - eexists. split; [done|]. intros t' x Ht Hx. rewrite !items_SetDefault by done.
    destruct (decide (x = k)) as [->|]; [by rewrite !lookup_insert_eq|].
    rewrite !lookup_insert_ne by done. by apply Ha.
  - eexists. split; [done|]. intros t' x Ht Hx. rewrite !items_Delete.
    destruct (decide (x = k)) as [->|]; [by rewrite !lookup_delete_eq|].
    rewrite !lookup_delete_ne by done. by apply Ha.
  - exists s2. split; [|done]. destruct Hc as [Hc _].
    erewrite Hc; [done|]. intros x Hx. symmetry. by apply Ha.
  - exists s2. by split.
Qed.

(** *** Events *)

Definition event_pod (ev : event) : option string :=
  match ev with
  | ResponseSent _ _ _ p _ | NackReceived _ _ p _ | AckReceived _ _ _ p | RequestReceived _ _ p
  | PodDeleted p => Some p
  | NodeCleared _ => None
  end.

(** What becomes part of a key. *)
Definition event_fields (ev : event) : list string :=
  match ev with
  | ResponseSent n ty v p nonce => [n; ty; v; p; "nonce:" +:+ nonce]
  | NackReceived n ty p _ => [n; ty; p; "*"; "nack_counter"]
  | AckReceived n ty v p => [n; ty; v; p; "*"; "ack_counter"; "info"]
  | RequestReceived n ty p => [n; ty; p; "*"; "request_counter"]
  | PodDeleted _ | NodeCleared _ => []
  end.

(** The event is about one of the pods, and no text of it names another one. *)
Definition apart (ev : event) : Prop :=
  ∃ pod, event_pod ev = Some pod ∧ pod ∈ pods ∧
    ∀ q f, q ∈ pods → f ∈ event_fields ev → Contains f q = true → q = pod.

Lemma concerns_key q k :
  no_sep ":" q → q ≠ "" → concerns q (Key_String k) →
  Contains (k_NodeID k) q = true ∨ Contains (k_ResourceType k) q = true ∨
  Contains (k_Version k) q = true ∨ Contains (k_PodID k) q = true ∨ Contains (k_StatName k) q = true.
Proof.
  intros Hs Hn H. unfold concerns, Key_String in H. cbn [Join] in H.
  do 4 (apply (Contains_app_sep ":") in H as [H|H]; [by left| |done|done]; right). done.
Qed.

Lemma version_of_key x k : NewKeyFromString x = Ok k → Contains x (k_Version k) = true.
Proof.
  unfold NewKeyFromString. destruct (Split ":" x) as [|n [|ty [|v [|p rest]]]] eqn:E; try done.
  intros [= <-]. cbn [k_Version]. rewrite <- (Join_Split ":" x), E. cbn [Join].
  destruct rest; contains.
Qed.

Hypothesis pods_ok : Forall (λ q, no_sep ":" q ∧ q ≠ "") pods.

Lemma clear_event_key pod n ty v st :
  pod ∈ pods →
  (∀ q f, q ∈ pods → f ∈ [n; ty; v; pod; st] → Contains f q = true → q = pod) →
  concerns pod (Key_String (NewKey n ty v pod st)) ∧ clear_key (Key_String (NewKey n ty v pod st)).
Proof.
  intros Hp Hf. split; [apply (Key_String_contains (NewKey n ty v pod st))|].
  assert (∀ q, q ∈ pods → concerns q (Key_String (NewKey n ty v pod st)) → q = pod) as Hq.
  { intros q Hq Hc. destruct (proj1 (Forall_forall _ _) pods_ok q Hq) as [Hs Hn].
    apply concerns_key in Hc; [|done..]. simpl in Hc.
    destruct Hc as [H|[H|[H|[H|H]]]]; eapply Hf; try exact H; try done; set_solver. }
  intros x y Hx Hy Hcx Hcy. by rewrite (Hq x), (Hq y).
Qed.

Lemma selected_agree pod filters (m m' : gmap string Object) :
  pod ∈ filters → (∀ key, concerns pod key → m !! key = m' !! key) →
  filter (λ kv, key_selected filters (fst kv) = true) m =
  filter (λ kv, key_selected filters (fst kv) = true) m'.
Proof.
  intros Hin Ha. apply map_eq. intros x. apply option_eq. intros o. rewrite !map_lookup_filter_Some. simpl.
  split; intros [Hx Hs]; (split; [|done]);
    assert (concerns pod x) as Hc by
      (apply key_selected_true in Hs; by apply (proj1 (Forall_forall _ _) Hs));
    by rewrite <- Hx, Ha.
Qed.

Lemma confined_increment pod n ty v st i next :
  pod ∈ pods → confined pod next →
  (∀ q f, q ∈ pods → f ∈ [n; ty; v; pod; st] → Contains f q = true → q = pod) →
  confined pod (p_IncrementCounter n ty v pod st i next).
Proof.
  intros Hp Hn Hf. destruct (clear_event_key pod n ty v st Hp Hf) as [Hk Hc]. simpl. by repeat split.
Qed.

Lemma confined_delete pod ks next :
  Forall (λ k, concerns pod k ∧ clear_key k) ks → confined pod next → confined pod (fold_right PDelete next ks).
Proof. intros Hk Hn. induction Hk as [|k ks [Hc Hk] _ IH]; simpl; [done|]. by repeat split. Qed.

Lemma event_confined ev pod : apart ev → event_pod ev = Some pod → confined pod (p_event ev).
Proof.
  intros (pod' & E & Hp & Hf) E'. assert (pod' = pod) as -> by congruence.
  destruct ev as [n ty v p nonce|n ty p nonce|n ty v p|n ty p|name|n]; simpl in E; simplify_eq; simpl in Hf.
  - destruct (clear_event_key pod n ty v ("nonce:" +:+ nonce) Hp Hf) as [Hk Hc]. by repeat split.
  - unfold p_event, p_ReportNACK, p_FilterKeys. cbn [confined]. split.
    { intros m m' Ha. by rewrite (selected_agree pod [n; ty; pod; "nonce:" +:+ nonce] m m' ltac:(set_solver) Ha). }
    intros m Hm. set (keys := filter _ m). destruct (map_to_list keys) as [|[x o] [|]] eqn:Ek; [done| |done].
    destruct (NewKeyFromString x) as [key| |] eqn:Ekey; [|done..].
    assert (keys !! x = Some o) as Hx by (apply elem_of_map_to_list; rewrite Ek; set_solver).
    apply map_lookup_filter_Some in Hx as [Hx Hsel]. cbn [fst] in Hsel.
    assert (∀ q, q ∈ pods → Contains (k_Version key) q = true → q = pod) as Hver.
    { intros q Hq Hv. apply (Hm x (ex_intro _ o Hx)); [done..| |].
      - unfold concerns. eapply Contains_trans; [by apply version_of_key|done].
      - apply key_selected_true in Hsel. apply (proj1 (Forall_forall _ _) Hsel). set_solver. }
    assert (∀ v, (v = "*" ∨ v = k_Version key) → ∀ q f, q ∈ pods →
      f ∈ [n; ty; v; pod; "nack_counter"] → Contains f q = true → q = pod) as Hfv.
    { intros v Hv q f Hq Hin Hc. destruct (decide (f = k_Version key)) as [->|Hne]; [by apply Hver|].
      apply (Hf q f); [done| |done]. set_solver. }
    apply confined_increment; [done| |apply Hfv; by right].
    apply confined_increment; [done| |apply Hfv; by left].
    destruct (clear_event_key pod n ty (k_Version key) "nack_counter" Hp) as [Hk _]; [apply Hfv; by right|].
    by split.
  - assert (∀ v' st, (v' = v ∨ v' = "*") → st ∈ ["ack_counter"; "info"] →
      ∀ q f, q ∈ pods → f ∈ [n; ty; v'; pod; st] → Contains f q = true → q = pod) as Hfv.
    { intros v' st Hv Hst q f Hq Hin. apply Hf; [done|]. set_solver. }
    apply confined_increment; [done| |apply Hfv; [by left|set_solver]].
    apply confined_increment; [done| |apply Hfv; [by right|set_solver]].
    intros t. simpl. destruct (clear_event_key pod n ty v "info" Hp) as [Hk Hc]; [|done].
    apply Hfv; [by left|set_solver].
  - apply confined_increment; [done|done|]. intros q f Hq Hin. apply Hf; [done|]. set_solver.
  - unfold p_event, p_deleteStatsForDeletedPods, p_DeleteKeysByFilter, p_FilterKeys. cbn [confined]. split.
    { intros m m' Ha. by rewrite (selected_agree pod [pod] m m' ltac:(set_solver) Ha). }
    intros m Hm. apply confined_delete; [|done]. apply Forall_forall. intros x Hx.
    apply list_elem_of_fmap in Hx as ([x' o] & -> & Hx). apply elem_of_map_to_list in Hx.
    apply map_lookup_filter_Some in Hx as [Hx Hsel]. cbn [fst] in *.
    split; [|apply Hm; by exists o]. apply key_selected_true in Hsel.
    apply (proj1 (Forall_forall _ _) Hsel). set_solver.
Qed.

(** *** Schedules *)

(** The part of a schedule that is left to the events of [pod]. *)
Definition mine (owners : list string) pod (a : thread_action) : bool :=
  match a with Run i => bool_decide (owners !! i = Some pod) | Elapse _ => true end.

(** [st1] has run the programs of [pod] as [st] has. *)
Record similar (owners : list string) pod (st st1 : Threads) : Prop := {
  sim_now : th_now st1 = th_now st;
  sim_progs i : owners !! i = Some pod → th_progs st1 !! i = th_progs st !! i;
  sim_store : agree pod (th_now st) (th_store st) (th_store st1);
}.

Definition well_formed (owners : list string) (st : Threads) : Prop :=
  Forall2 confined owners (th_progs st) ∧ clear_store (th_store st) (th_now st).

Lemma thread_do_run i st st' :
  thread_do (Run i) st = Some st' →
  ∃ p p' s', th_progs st !! i = Some p ∧ pstep p (th_store st) (th_now st) = Some (p', s') ∧
    st' = mkThreads s' (th_now st) (<[i := p']> (th_progs st)).
Proof.
  simpl. intros H. destruct (th_progs st !! i) as [p|]; [|done]. simpl in H.
  destruct (pstep p (th_store st) (th_now st)) as [[p' s']|] eqn:E; [|done]. simpl in H.
  injection H as <-. by exists p, p', s'.
Qed.

Lemma similar_step owners pod a st st1 st' :
  pod ∈ pods → Forall (.∈ pods) owners → well_formed owners st → similar owners pod st st1 →
  thread_do a st = Some st' →
  well_formed owners st' ∧
  if mine owners pod a then ∃ st1', thread_do a st1 = Some st1' ∧ similar owners pod st' st1'
  else similar owners pod st' st1.
Proof.
  intros Hpod Hown [Hconf Hclear] [Hnow Hprogs Hstore] H. destruct a as [i|d].
  - apply thread_do_run in H as (p & p' & s' & Hp & Hstep & ->).
    destruct (Forall2_lookup_r _ _ _ _ _ Hconf Hp) as (q & Hq & Hcp).
    destruct (clear_store_step q p _ _ _ _ Hcp Hclear Hstep) as [Hclear' Hcp'].
    pose proof (proj1 (Forall_forall _ _) Hown q (list_elem_of_lookup_2 _ _ _ Hq)) as Hqin.
    split.
    { split; [|done]. simpl. rewrite <- (list_insert_id owners i q) by done. by apply Forall2_insert. }
    unfold mine. case_bool_decide as Hi.
    + assert (q = pod) as -> by congruence.
      destruct (agree_own pod p _ _ _ _ _ Hcp Hstore Hstep) as (s2 & Hstep2 & Hag).
      eexists. split.
      { simpl. rewrite (Hprogs i Hi), Hp. simpl. rewrite Hnow, Hstep2. done. }
      constructor; simpl; [done| |done]. intros j Hj. specialize (Hprogs j Hj).
      destruct (decide (i = j)) as [->|Hne].
      * apply lookup_lt_Some in Hp as Hl. rewrite Hp in Hprogs. apply lookup_lt_Some in Hprogs as Hl1.
        by rewrite !list_lookup_insert_eq.
      * by rewrite !list_lookup_insert_ne.
    + assert (q ≠ pod) as Hne by congruence.
      constructor; simpl; [done| |exact (agree_other pod q p _ _ _ p' s' Hpod Hqin Hne Hcp Hstore Hstep)].
      intros j Hj. rewrite list_lookup_insert_ne by congruence. by apply Hprogs.
  - simpl in H. case_decide as Hd; [|done]. injection H as <-. split.
    + split; [done|]. intros t Ht. apply Hclear. simpl in Ht. lia.
    + eexists. split; [simpl; by rewrite decide_True|]. constructor; simpl; [by rewrite Hnow|done|].
      intros t x Ht. apply Hstore. lia.
Qed.

Lemma similar_play owners pod sched st st1 st' :
  pod ∈ pods → Forall (.∈ pods) owners → well_formed owners st → similar owners pod st st1 →
  play thread_do sched st = Some st' →
  ∃ st1', play thread_do (List.filter (mine owners pod) sched) st1 = Some st1' ∧ similar owners pod st' st1'.
Proof.
  intros Hpod Hown. revert st st1. induction sched as [|a sched IH]; intros st st1 Hwf Hsim H; simpl in *.
  - injection H as <-. by exists st1.
  - destruct (thread_do a st) as [st2|] eqn:Ea; [|done].
    destruct (similar_step _ _ _ _ _ _ Hpod Hown Hwf Hsim Ea) as [Hwf' Hs].
    destruct (mine owners pod a); [|by eapply IH].
    destruct Hs as (st1' & E1 & Hs). simpl. rewrite E1. by eapply IH.
Qed.

(** C13: streams of different pods do not disturb each other.  Let goroutines work
    on one store for events whose texts name no other pod than their own, from a
    store whose keys name one pod each at most.  However their steps are
    interleaved and whatever time passes in between, what concerns a pod is at the
    end as if only its goroutines had run, and these have come as far. *)
Theorem streams_independent s now evs sched st pod :
  let start := mkThreads s now (p_event <$> evs) in
  let owners := omap event_pod evs in
  Forall apart evs → clear_items (cache_Items s now) → pod ∈ pods →
  play thread_do sched start = Some st →
  ∃ st1, play thread_do (List.filter (mine owners pod) sched) start = Some st1 ∧
    th_now st1 = th_now st ∧
    (∀ i, owners !! i = Some pod → th_progs st1 !! i = th_progs st !! i) ∧
    ∀ t key, (th_now st ≤ t)%Z → concerns pod key →
      cache_Items (th_store st1) t !! key = cache_Items (th_store st) t !! key.
Proof.
  intros start owners Hap Hclear Hpod H.
  assert (Forall2 confined owners (p_event <$> evs) ∧ Forall (.∈ pods) owners) as [Hconf Hown].
  { unfold owners. clear -Hap pods_ok GL. induction Hap as [|ev evs Hev _ [IH1 IH2]]; [by split; constructor|].
    destruct Hev as (q & E & Hq & Hf). simpl. rewrite E. split; constructor; try done.
    apply event_confined; [|done]. by exists q. }
  destruct (similar_play owners pod sched start start st) as (st1 & H1 & [Hn Hp Hs]); [done..| | |done|].
  - split; [done|]. intros t Ht x [o Hx]. apply Hclear. exists o. by eapply items_expire.
  - by constructor.
  - exists st1. split; [done|]. split; [done|]. split; [done|]. intros t key Ht Hk. symmetry. by apply Hs.
Qed.
End Independence.

(** ** Concrete runs *)

Module InterleavingRuns.
#[local] Existing Instance memory_cache_impl.

Definition launch (s : memory_cache) (evs : list event) : Threads :=
  mkThreads s StatsRuns.ms (p_event <$> evs).

Definition counter (st : Threads) (n pod statName : string) : result Z :=
  GetCounter (th_store st) (th_now st) n "cluster" "*" pod statName.

(** The pod "pod-a" of node "edge" has sent a request and has rejected version "v2"
    five times; then there is "pod-b", which has sent three requests. *)
Definition store : memory_cache :=
  StatsRuns.play StatsRuns.store
    [RequestReceived "edge" "cluster" "pod-b"; RequestReceived "edge" "cluster" "pod-b";
     RequestReceived "edge" "cluster" "pod-b"].

(** Two clients of a node without pod name, so both counted as "unknown", send a
    request each: if both goroutines read the counter before the first writes, one
    of the requests is not counted.  A goroutine that is held up long enough even
    takes the counter back. *)
Lemma lost_update :
  let evs := [RequestReceived "edge" "cluster" "unknown"; RequestReceived "edge" "cluster" "unknown";
              RequestReceived "edge" "cluster" "unknown"] in
  let requests sched :=
    st ← play thread_do sched (launch cache_New evs);
    Some (counter st "edge" "unknown" "request_counter") in
  requests [Run 0; Run 0; Run 1; Run 1; Run 2; Run 2] = Some (Ok 3%Z) ∧
  requests [Run 0; Run 1; Run 0; Run 1] = Some (Ok 1%Z) ∧
  requests [Run 0; Run 1; Run 1; Run 2; Run 2] = Some (Ok 2%Z) ∧
  requests [Run 0; Run 1; Run 1; Run 2; Run 2; Run 0] = Some (Ok 1%Z).
Proof. cbn zeta. split_and!; vm_compute; reflexivity. Qed.

(** The pod "pod-b" is deleted while a request of it is being counted.  If the
    request is counted first, the pod is forgotten and all the pods that are left
    have rejected "v2".  If the collector runs between the two calls of the
    increment, the counter comes back, and nothing deletes it any more: "pod-b"
    stays one of the pods, and the share of failing pods one half. *)
Lemma resurrected :
  let evs := [RequestReceived "edge" "cluster" "pod-b"; PodDeleted "pod-b"] in
  let failing sched :=
    st ← play thread_do sched (launch store evs);
    Some (counter st "edge" "pod-b" "request_counter",
          GetPercentageFailing (th_store st) StatsRuns.ms "edge" "cluster" "v2") in
  failing [Run 0; Run 0; Run 1; Run 1] =
    Some (Err (ErrorString "key edge:cluster:*:pod-b:request_counter not found"), Ok 1%Q) ∧
  failing [Run 0; Run 1; Run 1; Run 0] = Some (Ok 4%Z, Ok (1 # 2)%Q).
Proof. cbn zeta. split; vm_compute; reflexivity. Qed.

Definition pods : list string := ["pod-a"; "pod-b"].

Definition apart_check (ev : event) : bool :=
  match event_pod ev with
  | Some pod =>
     bool_decide (pod ∈ pods) &&
     forallb (λ q, forallb (λ f, negb (Contains f q) || bool_decide (q = pod)) (event_fields ev)) pods
  | None => false
  end.

Lemma apart_check_sound ev : apart_check ev = true → apart pods ev.
Proof.
  unfold apart_check. destruct (event_pod ev) as [pod|] eqn:E; [|done].
  intros [Hp%bool_decide_eq_true Hf]%andb_true_iff. exists pod. split; [done|]. split; [done|].
  intros q f Hq Hin Hc. rewrite forallb_forall in Hf. apply list_elem_of_In in Hq. specialize (Hf q Hq).
  simpl in Hf. rewrite forallb_forall in Hf. apply list_elem_of_In in Hin. specialize (Hf f Hin).
  rewrite Hc in Hf. by apply bool_decide_eq_true in Hf.
Qed.

Definition clear_check (key : string) : bool :=
  forallb (λ x, forallb (λ y, negb (Contains key x && Contains key y) || bool_decide (x = y)) pods) pods.

Lemma clear_check_sound (m : gmap string Object) :
  map_Forall (λ key _, clear_check key = true) m → clear_items pods m.
Proof.
  intros H key [o Ho] x y Hx Hy Hcx Hcy. specialize (H _ _ Ho). cbv beta in H.
  apply list_elem_of_In in Hx, Hy. unfold clear_check in H. rewrite forallb_forall in H.
  specialize (H x Hx). cbv beta in H. rewrite forallb_forall in H. specialize (H y Hy). simpl in H.
  unfold concerns in *. rewrite Hcx, Hcy in H. by apply bool_decide_eq_true in H.
Qed.

(** An ACK and a deletion of "pod-a" and two requests of "pod-b". *)
Definition mixed : list event :=
  [AckReceived "edge" "cluster" "v1" "pod-a"; RequestReceived "edge" "cluster" "pod-b";
   PodDeleted "pod-a"; RequestReceived "edge" "listener" "pod-b"].

(** The calls of the four goroutines in turn. *)
Definition turns : list thread_action :=
  [Run 0; Run 1; Run 0; Elapse 5; Run 2; Run 3; Run 0; Run 2; Run 1; Run 2; Elapse 7; Run 0; Run 3].

Definition requests_b (o : option Threads) : option (Time * result Z) :=
  st ← o; Some (th_now st, counter st "edge" "pod-b" "request_counter").

Lemma streams_independent_witness :
  requests_b (play thread_do turns (launch store mixed)) = Some ((StatsRuns.ms + 12)%Z, Ok 4%Z).
Proof.
  assert (requests_b (play thread_do (List.filter (mine (omap event_pod mixed) "pod-b") turns)
    (launch store mixed)) = Some ((StatsRuns.ms + 12)%Z, Ok 4%Z)) as Halone by (vm_compute; reflexivity).
  assert (is_Some (play thread_do turns (launch store mixed))) as [st E]
    by (apply (bool_decide_unpack _); vm_compute; exact I).
  unfold launch in *.
  destruct (streams_independent pods ltac:(apply (bool_decide_unpack _); vm_compute; exact I)
    store StatsRuns.ms mixed turns st "pod-b") as (st1 & H1 & Hnow & _ & Hsame).
  - repeat constructor; apply apart_check_sound; vm_compute; reflexivity.
  - apply clear_check_sound. apply (bool_decide_unpack _). vm_compute. exact I.
  - apply list_elem_of_In; right; by left.
  - exact E.
  - rewrite H1 in Halone. rewrite E.
    simpl in Halone. injection Halone as Ht Hc. simpl. rewrite <- Hnow, Ht. f_equal. f_equal.
    rewrite <- Hc. unfold counter, GetCounter. cbv zeta. rewrite !get_items, <- Hnow.
    by rewrite <- Hsame by (by rewrite Hnow || (vm_compute; reflexivity)).
Defined.
End InterleavingRuns.
