(* ===== verification/Readings.v ===== *)
(** * Readings in parallel ([pkg/discoveryservice/xdss/stats/stats.go])

    A revision is tainted when all the clients of a node reject one of its
    versions, which [GetPercentageFailing] reads from the statistics in one call
    of the store for the subscribed pods and another one for each of them, while
    the callbacks and the garbage collector write.  Here it is a program as those
    of [Interleaving].  Run alone it is the function of [Stats]
    ([reading_sequential]); what a reading amid the writes can return is the
    subject of [reading_interleaved]. *)

From S2P Require Import Prelude Meta Stats Servers Interleaving.
From Stdlib Require Import QArith.
#[local] Open Scope string_scope.
#[local] Open Scope list_scope.

(** ** The programs *)

Section Readers.
Implicit Types (nodeID rType version pod : string).

Definition p_GetSubscribedPods nodeID rType (next : result (gset string) → Prog) : Prog :=
  let filters := ["request_counter"] ++
                 (if decide (nodeID ≠ "") then [nodeID] else []) ++
                 (if decide (rType ≠ "") then [rType] else []) in
  p_FilterKeys filters (λ items, next (
    pods ← mapR (λ kv, key ← NewKeyFromString (fst kv); Ok (k_PodID key)) (map_to_list items);
    Ok (list_to_set pods))).

(** The loop over the pods. *)
Fixpoint p_count_failing nodeID rType version (pods : list string) (failing : nat) (next : nat → Prog) : Prog :=
  match pods with
  | [] => next failing
  | pod :: pods =>
     p_GetCounter nodeID rType version pod "nack_counter" (λ v,
       p_count_failing nodeID rType version pods
         (match v with Ok v => if (5 <=? v)%Z then S failing else failing | _ => failing end) next)
  end.

Definition share (failing total : nat) : Q :=
  match total with O => 0%Q | S n => (Z.of_nat failing # Pos.of_succ_nat n)%Q end.

Definition p_GetPercentageFailing nodeID rType version (next : result Q → Prog) : Prog :=
  p_GetSubscribedPods nodeID rType (λ r,
    match r with
    | Ok pods =>
       p_count_failing nodeID rType version (elements pods) 0 (λ failing, next (Ok (share failing (size pods))))
    | Err e => next (Err e)
    | Panic => next Panic
    end).
End Readers.

(** ** Alone *)

Section Alone.
Context {C : Type} {G : GoCache C}.
Implicit Types (s : C) (now : Time) (n ty v pod : string).

(** One pod of the loop. *)
Lemma count_step s now n ty v pod pods failing next :
  pstep (p_count_failing n ty v (pod :: pods) failing next) s now =
  Some (p_count_failing n ty v pods (failing + Nat.b2n (pod_failing s now n ty v pod)) next, s).
Proof.
  simpl. change (NewKey n ty v pod "nack_counter") with (mkStatKey n ty v pod "nack_counter").
  unfold pod_failing, GetCounter. cbv zeta. change (NewKey n ty v pod "nack_counter") with (mkStatKey n ty v pod "nack_counter").
  destruct (cache_Get _ _ _) as [[str|z]|]; simpl; rewrite ?Nat.add_0_r; try done.
  destruct (5 <=? z)%Z; simpl; [by rewrite Nat.add_1_r|by rewrite Nat.add_0_r].
Qed.

Lemma run_alone_step p p' s s' now : pstep p s now = Some (p', s') → run_alone p s now = run_alone p' s' now.
Proof. destruct p; simpl; intros; simplify_eq; done. Qed.

Lemma count_alone s now n ty v pods next : ∀ failing,
  run_alone (p_count_failing n ty v pods failing next) s now =
  run_alone (next (failing + length (List.filter (pod_failing s now n ty v) pods))%nat) s now.
Proof.
  induction pods as [|pod pods IH]; intros failing; [simpl; by rewrite Nat.add_0_r|].
  rewrite (run_alone_step _ _ _ _ _ (count_step _ _ _ _ _ _ _ _ _)), IH. simpl.
  do 2 f_equal. destruct (pod_failing s now n ty v pod); simpl; lia.
Qed.

(** The first call of the reading. *)
Definition counting n ty v (next : result Q → Prog) (r : result (gset string)) : Prog :=
  match r with
  | Ok pods =>
     p_count_failing n ty v (elements pods) 0 (λ failing, next (Ok (share failing (size pods))))
  | Err e => next (Err e)
  | Panic => next Panic
  end.

Lemma reading_step s now n ty v next :
  pstep (p_GetPercentageFailing n ty v next) s now =
  Some (counting n ty v next (GetSubscribedPods s now n ty), s).
Proof. done. Qed.

(** The program is the function: run alone it goes on with its result. *)
Theorem reading_sequential s now n ty v next :
  run_alone (p_GetPercentageFailing n ty v next) s now =
  run_alone (next (GetPercentageFailing s now n ty v)) s now.
Proof.
  rewrite (run_alone_step _ _ _ _ _ (reading_step _ _ _ _ _ _)). unfold GetPercentageFailing, counting.
  destruct (GetSubscribedPods s now n ty) as [pods| |]; [|done..]. simpl. rewrite count_alone.
  unfold share. by destruct (size pods).
Qed.
End Alone.

(** ** Amid the writes *)

Section Amid.
Context {C : Type} {G : GoCache C} {GL : GoCacheLaws G}.
Implicit Types (s : C) (now t : Time) (n ty v pod : string) (st : @Threads C) (sched : list thread_action).

(** A program that only writes well-formed items. *)
Fixpoint writes_ok (p : Prog) : Prop :=
  match p with
  | PDone => True
  | PGet _ next => ∀ o, writes_ok (next o)
  | PSet k o d next => item_ok k o ∧ (0 < d)%Z ∧ writes_ok next
  | PSetDefault k o next => item_ok k o ∧ writes_ok next
  | PDelete _ next => writes_ok next
  | PItems next => ∀ m, map_Forall item_ok m → writes_ok (next m)
  | PNow next => ∀ t, writes_ok (next t)
  end.

Lemma writes_ok_increment n ty v p name i next :
  colon_free (mkStatKey n ty v p name) → name ∈ counter_names → writes_ok next →
  writes_ok (p_IncrementCounter n ty v p name i next).
Proof.
  intros Hc Hst Hn. simpl. intros o. split; [|done].
  eexists. repeat split; [apply Hc..|done| |]; intros; apply int64_range.
Qed.

Lemma writes_ok_delete ks next : writes_ok next → writes_ok (fold_right PDelete next ks).
Proof. intros H. by induction ks. Qed.

Lemma event_writes_ok ev : event_ok ev → writes_ok (p_event ev).
Proof.
  assert (no_sep ":" "*") as Hstar by (apply (bool_decide_unpack _); by vm_compute).
  destruct ev as [n ty v p nonce|n ty p nonce|n ty v p|n ty p|name|n]; intros Hev; simpl in Hev.
  - split; [|by split]. eexists. split; [done|]. by split; eauto.
  - unfold p_event, p_ReportNACK, p_FilterKeys. cbn [writes_ok]. intros m Hm.
    destruct (map_to_list _) as [|[x o] [|]] eqn:E; [done| |done].
    assert (m !! x = Some o) as Hx.
    { assert ((x, o) ∈ map_to_list (filter (λ kv, key_selected [n; ty; p; "nonce:" +:+ nonce] (fst kv) = true) m))
        as H by (rewrite E; left).
      by apply elem_of_map_to_list, map_lookup_filter_Some in H as [H _]. }
    destruct (Hm _ _ Hx) as (k & -> & Hk & _). rewrite NewKeyFromString_String by done.
    destruct Hev as (? & ? & _ & ?), Hk as (_ & _ & ? & _).
    apply writes_ok_increment; [by repeat split|set_solver|].
    by apply writes_ok_increment; [by repeat split|set_solver|].
  - destruct Hev as (? & ? & ? & ?). apply writes_ok_increment; [by repeat split|set_solver|].
    apply writes_ok_increment; [by repeat split|set_solver|]. simpl. intros t. split; [|done].
    eexists. split; [done|]. split; [by repeat split|]. split; [set_solver|done].
  - apply writes_ok_increment; [done|set_solver|done].
  - intros m _. by apply writes_ok_delete.
  - intros m _. by apply writes_ok_delete.
Qed.

Lemma store_ok_step p s t p' s' :
  writes_ok p → store_ok s t → pstep p s t = Some (p', s') → store_ok s' t ∧ writes_ok p'.
Proof.
  intros Hw Hs H. destruct p as [|k next|k o d next|k o next|k next|next|next]; simpl in *; simplify_eq/=.
  - by split.
  - destruct Hw as (Hi & Hd & Hw). split; [|done]. intros t' Ht. rewrite items_Set by done.
    case_decide; [by apply map_Forall_insert_2, Hs|by apply map_Forall_delete, Hs].
  - destruct Hw as (Hi & Hw). split; [|done]. intros t' Ht. rewrite items_SetDefault by done.
    by apply map_Forall_insert_2, Hs.
  - split; [|done]. intros t' Ht. rewrite items_Delete. by apply map_Forall_delete, Hs.
  - split; [done|]. apply Hw. by apply Hs.
  - by split.
Qed.

(** *** Schedules *)

(** The number of calls of the first goroutine. *)
Definition turn (a : thread_action) : bool := match a with Run 0 => true | _ => false end.
Definition turns (sched : list thread_action) : nat := length (List.filter turn sched).

(** [P] holds in all the states of a schedule. *)
Definition throughout (P : C → Time → Prop) sched st : Prop :=
  ∀ sched1 sched2 st1, sched = sched1 ++ sched2 → play thread_do sched1 st = Some st1 →
    P (th_store st1) (th_now st1).

(** [P] holds in one of them. *)
Definition sometime (P : C → Time → Prop) sched st : Prop :=
  ∃ sched1 sched2 st1, sched = sched1 ++ sched2 ∧ play thread_do sched1 st = Some st1 ∧
    P (th_store st1) (th_now st1).

Lemma sometime_now (P : C → Time → Prop) sched st : P (th_store st) (th_now st) → sometime P sched st.
Proof. intros H. by exists [], sched, st. Qed.

Lemma sometime_later (P : C → Time → Prop) before sched st st1 :
  play thread_do before st = Some st1 → sometime P sched st1 → sometime P (before ++ sched) st.
Proof.
  intros Hb (s1 & s2 & st2 & -> & Hp & H). exists (before ++ s1), s2, st2.
  by rewrite play_app, Hb, <- app_assoc.
Qed.

Lemma sometime_longer (P : C → Time → Prop) sched after st : sometime P sched st → sometime P (sched ++ after) st.
Proof. intros (s1 & s2 & st1 & -> & H). exists s1, (s2 ++ after), st1. by rewrite <- app_assoc. Qed.

Lemma throughout_sometime (P Q : C → Time → Prop) sched st :
  throughout P sched st → sometime Q sched st → sometime (λ s t, P s t ∧ Q s t) sched st.
Proof. intros HP (s1 & s2 & st1 & -> & Hp & HQ). exists s1, s2, st1. split_and!; eauto. Qed.

(** A call of another goroutine, or time. *)
Lemma other_step a st st' p others :
  turn a = false → th_progs st = p :: others → Forall writes_ok others →
  store_ok (th_store st) (th_now st) → thread_do a st = Some st' →
  ∃ others', th_progs st' = p :: others' ∧ Forall writes_ok others' ∧ store_ok (th_store st') (th_now st').
Proof.
  intros Ha Hp Hw Hs H. destruct a as [[|i]|d]; [done| |].
  - apply thread_do_run in H as (q & q' & s' & Hq & Hstep & ->). rewrite Hp in *. simpl in *.
    destruct (store_ok_step q _ _ _ _ (proj1 (Forall_lookup _ _) Hw _ _ Hq) Hs Hstep) as [Hs' Hq'].
    eexists. split; [done|]. split; [by apply Forall_insert|done].
  - simpl in H. case_decide as Hd; [|done]. injection H as <-. exists others. split; [done|]. split; [done|].
    eapply store_ok_later; [done|]. simpl. lia.
Qed.

(** The calls before the first one of the first goroutine. *)
Lemma until_turn sched : ∀ st st' p others,
  th_progs st = p :: others → Forall writes_ok others → store_ok (th_store st) (th_now st) →
  play thread_do sched st = Some st' → (0 < turns sched)%nat →
  ∃ before after st1 others1, sched = before ++ Run 0 :: after ∧ turns after = pred (turns sched) ∧
    play thread_do before st = Some st1 ∧ th_progs st1 = p :: others1 ∧
    store_ok (th_store st1) (th_now st1).
Proof.
  induction sched as [|a sched IH]; intros st st' p others Hp Hw Hs H Ht; [by apply Nat.lt_irrefl in Ht|].
  destruct (turn a) eqn:Ea.
  - destruct a as [[|i]|d]; [|done..]. by exists [], sched, st, others.
  - simpl in H. destruct (thread_do a st) as [st2|] eqn:E; [|done].
    destruct (other_step a st st2 p others) as (others2 & Hp2 & Hw2 & Hs2); [done..|].
    assert (turns (a :: sched) = turns sched) as Hturns by (unfold turns; simpl; by rewrite Ea).
    rewrite Hturns in *.
    destruct (IH st2 st' p others2) as (before & after & st1 & others1 & -> & Hta & Hb & H1); [done..|].
    exists (a :: before), after, st1, others1. simpl. by rewrite E.
Qed.

Lemma other_kept a st st' : turn a = false → thread_do a st = Some st' → th_progs st' !! 0%nat = th_progs st !! 0%nat.
Proof.
  intros Ha H. destruct a as [[|i]|d]; [done| |].
  - apply thread_do_run in H as (q & q' & s' & _ & _ & ->). simpl. by apply list_lookup_insert_ne.
  - simpl in H. case_decide; [|done]. by injection H as <-.
Qed.

Lemma own_step st p p' s' st' :
  th_progs st !! 0%nat = Some p → pstep p (th_store st) (th_now st) = Some (p', s') →
  thread_do (Run 0) st = Some st' → th_progs st' !! 0%nat = Some p' ∧ th_store st' = s' ∧ th_now st' = th_now st.
Proof.
  intros Hp Hstep H. apply thread_do_run in H as (q & q' & s'' & Hq & Hstep' & ->).
  simplify_eq/=. split; [|done]. apply list_lookup_insert_eq. by eapply lookup_lt_Some.
Qed.

(** The loop over the pods amid the other calls: each pod is judged in one of the
    states. *)
Lemma count_amid n ty v next sched : ∀ pods failing st st',
  th_progs st !! 0%nat = Some (p_count_failing n ty v pods failing next) →
  play thread_do sched st = Some st' → (length pods ≤ turns sched)%nat →
  ∃ before after st1 verdicts, sched = before ++ after ∧ play thread_do before st = Some st1 ∧
    th_progs st1 !! 0%nat = Some (next (failing + length (List.filter id verdicts))%nat) ∧
    Forall2 (λ pod b, sometime (λ s t, pod_failing s t n ty v pod = b) before st) pods verdicts.
Proof.
  induction sched as [|a sched IH]; intros pods failing st st' Hp H Ht.
  { destruct pods; [|by apply Nat.nle_succ_0 in Ht].
    exists [], [], st, []. simpl. by rewrite Nat.add_0_r. }
  destruct pods as [|pod pods].
  { exists [], (a :: sched), st, []. simpl. by rewrite Nat.add_0_r. }
  simpl in H. destruct (thread_do a st) as [st2|] eqn:E; [|done].
  assert (play thread_do [a] st = Some st2) as Ea by (simpl; by rewrite E).
  assert (∃ pods2 failing2, th_progs st2 !! 0%nat = Some (p_count_failing n ty v pods2 failing2 next) ∧
    (length pods2 ≤ turns sched)%nat ∧
    ∀ before verdicts2,
      Forall2 (λ pod b, sometime (λ s t, pod_failing s t n ty v pod = b) before st2) pods2 verdicts2 →
      ∃ verdicts, failing2 + length (List.filter id verdicts2) = failing + length (List.filter id verdicts) ∧
        Forall2 (λ pod b, sometime (λ s t, pod_failing s t n ty v pod = b) (a :: before) st) (pod :: pods) verdicts)%nat
    as (pods2 & failing2 & Hp2 & Ht2 & Hv).
  { destruct (turn a) eqn:Hturn.
    - destruct a as [[|i]|d]; [|done..].
      destruct (own_step _ _ _ _ _ Hp (count_step _ _ _ _ _ _ _ _ _) E) as (Hp2 & _).
      exists pods. eexists. split; [exact Hp2|]. split; [unfold turns in *; simpl in *; lia|].
      intros before vs Hvs. exists (pod_failing (th_store st) (th_now st) n ty v pod :: vs). split.
      + cbn [List.filter length]. destruct (pod_failing _ _ _ _ _ _); cbn; lia.
      + constructor; [by apply sometime_now|].
        eapply Forall2_impl; [exact Hvs|]. intros x b. by apply (sometime_later _ [Run 0]).
    - exists (pod :: pods), failing. rewrite (other_kept _ _ _ Hturn E). split; [done|].
      split; [unfold turns in *; simpl in Ht; by rewrite Hturn in Ht|].
      intros before vs Hvs. exists vs. split; [done|].
      eapply Forall2_impl; [exact Hvs|]. intros x b. by apply (sometime_later _ [a]). }
  destruct (IH pods2 failing2 st2 st' Hp2 H Ht2) as (before & after & st1 & vs & -> & Hb & Hn & Hvs).
  destruct (Hv before vs Hvs) as (vs' & Heq & Hvs').
  exists (a :: before), after, st1, vs'. split; [done|]. split; [simpl; by rewrite E|].
  by rewrite <- Heq.
Qed.
Lemma share_bounds k m : (k ≤ m)%nat → (0 <= share k m <= 1)%Q.
Proof. unfold share, Qle. intros H. destruct m; simpl; lia. Qed.

Lemma share_one k m : (k ≤ m)%nat → (share k m == 1)%Q ↔ (0 < m)%nat ∧ k = m.
Proof. unfold share, Qeq. intros H. destruct m as [|m]; simpl; [split; [done|lia]|lia]. Qed.

Lemma all_true (l : list bool) : length (List.filter id l) = length l ↔ Forall (λ b, b = true) l.
Proof. rewrite filter_length_all, Forall_forall. done. Qed.

(** C14: a reading of the share of failing pods takes one call of the store for the
    subscribed pods and one for each of them; with enough turns it ends with a
    share [q] between 0 and 1, whatever the goroutines of the callbacks and of the
    garbage collector do in between.  It is 1 only if there are subscribed pods at
    the first call and each of them has, at some moment of the reading, sent five
    NACKs; so one pod that is subscribed and has not sent five NACKs during the
    whole reading keeps the revision from being tainted.  And it is 1 if the pods
    of the first call have all sent five NACKs during the whole reading. *)
Theorem reading_interleaved s now n ty v next evs sched st'
    (Hs : reachable s now) (Hevs : Forall event_ok evs) (Hn : n ≠ "") (Hty : ty ≠ "")
    (Hc : colon_free (mkStatKey n ty "*" "" "")) :
  let start := mkThreads s now (p_GetPercentageFailing n ty v next :: (p_event <$> evs)) in
  let failing p (s : C) t := pod_failing s t n ty v p = true in
  throughout (λ s t, separated s t n ty) sched start →
  play thread_do sched start = Some st' → (0 < turns sched)%nat →
  ∃ pods : gset string,
    sometime (λ s t, ∀ p, p ∈ pods ↔ subscribed s t n ty p) sched start ∧
    ((size pods < turns sched)%nat →
     ∃ before after st1 q, sched = before ++ after ∧ play thread_do before start = Some st1 ∧
       th_progs st1 !! 0%nat = Some (next (Ok q)) ∧ (0 <= q <= 1)%Q ∧
       ((q == 1)%Q → pods ≠ ∅ ∧ ∀ p, p ∈ pods → sometime (failing p) before start) ∧
       (∀ p, throughout (λ s t, subscribed s t n ty p ∧ ¬ failing p s t) before start → ¬ (q == 1)%Q) ∧
       (pods ≠ ∅ → (∀ p, p ∈ pods → throughout (failing p) before start) → (q == 1)%Q)).
Proof.
  intros start failing Hsep H Ht.
  destruct (until_turn sched start st' (p_GetPercentageFailing n ty v next) (p_event <$> evs))
    as (b1 & a1 & st1 & others1 & -> & Hta & Hb1 & Hp1 & Hok1); [done| | |done|done|].
  { apply Forall_fmap. eapply Forall_impl; [exact Hevs|]. intros ev. apply event_writes_ok. }
  { by apply reachable_ok. }
  destruct (GetSubscribedPods_spec (th_store st1) (th_now st1) n ty) as (pods & Epods & Hpods); [|done|done| |done|].
  { by apply Hok1. } { by eapply Hsep. }
  exists pods. split; [by exists b1, (Run 0 :: a1), st1|]. intros Hsize.
  rewrite play_app, Hb1 in H. cbn [play] in H.
  destruct (thread_do (Run 0) st1) as [st2|] eqn:E2; [|done].
  assert (th_progs st1 !! 0%nat = Some (p_GetPercentageFailing n ty v next)) as Hp1' by by rewrite Hp1.
  destruct (own_step _ _ _ _ _ Hp1' (reading_step _ _ _ _ _ _) E2) as (Hp2 & Hs2 & Ht2).
  rewrite Epods in Hp2. unfold counting in Hp2.
  assert (length (elements pods) ≤ turns a1)%nat as Hlen by (change (size pods ≤ turns a1)%nat; lia).
  destruct (count_amid n ty v _ a1 _ _ st2 st' Hp2 H Hlen)
    as (b2 & a2 & st3 & vs & -> & Hb2 & Hp3 & Hvs). clear H.
  assert (play thread_do (b1 ++ [Run 0]) start = Some st2) as H12 by (rewrite play_app, Hb1; cbn [play]; by rewrite E2).
  exists (b1 ++ Run 0 :: b2), a2, st3, (share (length (List.filter id vs)) (size pods)).
  pose proof (Forall2_length _ _ _ Hvs) as Hl. change (size pods = length vs) in Hl.
  pose proof (filter_length_le id vs) as Hle.
  assert (∀ p (b : bool), sometime (λ s t, pod_failing s t n ty v p = b) b2 st2 →
            sometime (λ s t, pod_failing s t n ty v p = b) (b1 ++ Run 0 :: b2) start) as Hlift.
  { intros p b Hb. replace (b1 ++ Run 0 :: b2) with ((b1 ++ [Run 0]) ++ b2) by by rewrite <- app_assoc.
    by eapply sometime_later. }
  assert (pods ≠ ∅ ↔ (0 < size pods)%nat) as Hne.
  { rewrite <- Nat.neq_0_lt_0, size_non_empty_iff. by unfold_leibniz. }
  split; [by rewrite <- app_assoc|]. split.
  { rewrite play_app, Hb1. cbn [play]. by rewrite E2. }
  split; [exact Hp3|]. split; [apply share_bounds; lia|].
  assert ((share (length (List.filter id vs)) (size pods) == 1)%Q ↔ pods ≠ ∅ ∧ Forall (λ b, b = true) vs) as Hone.
  { by rewrite share_one, Hne, <- all_true, Hl by lia. }
  clear Hne.
  assert (Forall (λ b, b = true) vs → ∀ p, p ∈ pods → sometime (failing p) (b1 ++ Run 0 :: b2) start) as Hall.
  { intros Hv p Hp. apply elem_of_elements, list_elem_of_lookup in Hp as [i Hi].
    destruct (Forall2_lookup_l _ _ _ _ _ Hvs Hi) as (b & Hb & Hsome).
    rewrite Forall_forall in Hv. assert (b = true) as -> by by eapply Hv, list_elem_of_lookup_2.
    by apply Hlift. }
  split; [|split].
  - intros [Hpos Hv]%Hone. split; [done|by apply Hall].
  - intros p Hp [_ Hv]%Hone. assert (p ∈ pods) as Hin by (apply Hpods, (Hp b1 (Run 0 :: b2) st1); done).
    destruct (throughout_sometime _ _ _ _ Hp (Hall Hv p Hin)) as (? & ? & ? & _ & _ & [_ Hno] & Hyes). by apply Hno.
  - intros Hpos Hp. apply Hone. split; [done|]. apply Forall_forall. intros b Hb.
    apply list_elem_of_lookup in Hb as [i Hi].
    destruct (Forall2_lookup_r _ _ _ _ _ Hvs Hi) as (p & Hpi & Hsome).
    assert (p ∈ pods) as Hin by (apply elem_of_elements; by eapply list_elem_of_lookup_2).
    destruct (throughout_sometime _ _ _ _ (Hp p Hin) (Hlift _ _ Hsome)) as (? & ? & ? & _ & _ & Hyes & <-).
    exact Hyes.
Qed.
End Amid.

(** ** Concrete runs *)

Module ReadingRuns.
#[local] Existing Instance memory_cache_impl.

(** The states of a schedule, checked one after the other. *)
Fixpoint check_all (P : memory_cache → Time → bool) (sched : list thread_action) (st : Threads) : bool :=
  P (th_store st) (th_now st) &&
  match sched with
  | [] => true
  | a :: sched => match thread_do a st with Some st' => check_all P sched st' | None => true end
  end.

Lemma check_all_sound P sched : ∀ st, check_all P sched st = true → throughout (λ s t, P s t = true) sched st.
Proof.
  induction sched as [|a sched IH]; intros st [Hst H]%andb_true_iff [|a' s1] s2 st1 Hs Hp;
    simplify_eq/=; try done.
  destruct (thread_do a' st) as [st2|]; [|done]. by eapply IH.
Qed.

Lemma throughout_impl (P Q : memory_cache → Time → Prop) sched st :
  (∀ s t, P s t → Q s t) → throughout P sched st → throughout Q sched st.
Proof. intros H HP s1 s2 st1 Hs Hp. by eapply H, HP. Qed.

Definition separated_b (s : memory_cache) (t : Time) : bool :=
  bool_decide (map_Forall (λ x _, StatsRuns.key_separated "edge" "cluster" x = true) (cache_Items s t)).

(** "pod-b" is subscribed and does not fail. *)
Definition healthy_b (s : memory_cache) (t : Time) : bool :=
  bool_decide (is_Some (cache_Items s t !! "edge:cluster:*:pod-b:request_counter")) &&
  negb (pod_failing s t "edge" "cluster" "v2" "pod-b").

Definition pods_b (s : memory_cache) (t : Time) : bool :=
  bool_decide (map_Forall (λ x _,
    match NewKeyFromString x with
    | Ok k => bool_decide (k_StatName k ≠ "request_counter" ∨ k_PodID k ∈ ["pod-a"; "pod-b"])
    | _ => true
    end = true) (cache_Items s t)).

Lemma pods_b_sound s t p : pods_b s t = true → subscribed s t "edge" "cluster" p → p ∈ ["pod-a"; "pod-b"].
Proof.
  intros H%bool_decide_eq_true [Hp [o Ho]]. specialize (H _ _ Ho). cbv beta in H.
  rewrite NewKeyFromString_String in H; [apply bool_decide_eq_true in H; by destruct H|].
  repeat split; try done; apply (bool_decide_unpack _); by vm_compute.
Qed.

(** What becomes of the result. *)
Definition record (r : result Q) : Prog :=
  match r with Ok q => PSetDefault "share" (ObjInt64 (Qnum q)) PDone | _ => PDone end.

(** "pod-a", which has rejected "v2" five times, rejects it again and "pod-b" sends
    requests while the share is read. *)
Definition evs : list event :=
  [RequestReceived "edge" "cluster" "pod-b"; AckReceived "edge" "cluster" "v2" "pod-b";
   PodDeleted "pod-c"].
Definition sched : list thread_action :=
  [Run 1; Run 0; Run 2; Run 1; Elapse 5; Run 0; Run 2; Run 3; Run 2; Run 0; Run 2; Elapse 7].
Definition start : Threads :=
  mkThreads InterleavingRuns.store StatsRuns.ms
    (p_GetPercentageFailing "edge" "cluster" "v2" record :: (p_event <$> evs)).

Lemma reading_interleaved_witness :
  ∃ before st1 q, play thread_do before start = Some st1 ∧
    th_progs st1 !! 0%nat = Some (record (Ok q)) ∧ ¬ (q == 1)%Q.
Proof.
  assert (is_Some (play thread_do sched start)) as [st' E]
    by (apply (bool_decide_unpack _); vm_compute; exact I).
  destruct (reading_interleaved InterleavingRuns.store StatsRuns.ms "edge" "cluster" "v2" record evs sched st')
    as (pods & Hpods & Hread).
  - apply StatsRuns.play_reachable; [apply StatsRuns.store_reachable|].
    apply (bool_decide_unpack _). vm_compute. exact I.
  - apply (bool_decide_unpack _). vm_compute. exact I.
  - done.
  - done.
  - apply (bool_decide_unpack _). vm_compute. exact I.
  - eapply throughout_impl; [|apply (check_all_sound separated_b); vm_compute; reflexivity].
    intros s t H%bool_decide_eq_true. by apply StatsRuns.separated_check.
  - exact E.
  - vm_compute. lia.
  - assert (throughout (λ s t, pods_b s t = true) sched start) as Hp
      by (apply check_all_sound; vm_compute; reflexivity).
    assert (size pods ≤ 2)%nat as Hsize.
    { destruct (throughout_sometime _ _ _ _ Hp Hpods) as (_ & _ & st1 & _ & _ & Hb & Hsub).
      transitivity (size (list_to_set ["pod-a"; "pod-b"] : gset string)); [|by vm_compute].
      apply subseteq_size. intros p Hin. apply elem_of_list_to_set.
      by apply (pods_b_sound _ _ _ Hb), Hsub. }
    destruct Hread as (before & after & st1 & q & Es & Eb & Eq & _ & _ & Hhealthy & _).
    { apply (Nat.le_lt_trans _ 2); [exact Hsize|]. apply (bool_decide_unpack _). vm_compute. exact I. }
    exists before, st1, q. split; [exact Eb|]. split; [exact Eq|]. apply (Hhealthy "pod-b").
    assert (throughout (λ s t, healthy_b s t = true) sched start) as Hh
      by (apply check_all_sound; vm_compute; reflexivity).
    intros s1 s2 st2 -> E2. rewrite <- app_assoc in Es.
    specialize (Hh s1 (s2 ++ after) st2 Es E2). apply andb_true_iff in Hh as [Hs Hf].
    apply bool_decide_eq_true in Hs. apply negb_true_iff in Hf. rewrite Hf. split; [|done].
    split; [apply (bool_decide_unpack _); vm_compute; exact I|exact Hs].
Defined.
End ReadingRuns.
