(* ===== verification/Startup.v ===== *)
(** * Start-up
    ([cmd/root.go], [cmd/discoveryservice.go], [cmd/operator.go],
     [cmd/webhook.go], [pkg/discoveryservice/xds_server.go])

    The subcommands that run controllers: their flags, the options of their
    manager, what they register, and the TLS configuration of the discovery
    service, up to the point where the goroutines of [Servers] take over.  The
    last part puts the discovery service in the pod that the operator makes for
    it ([DiscoveryServices.Deployment]).

    [Err] is an error that is logged before the process exits with code 1. *)

From S2P Require Import Prelude Meta Envoy Api Stats Discover Snapshot CacheReconciler.
From S2P Require Import OperatorTypes Flags Container OperatorObjects DiscoveryServices Certificates PkiChain.
#[local] Open Scope string_scope.
#[local] Open Scope list_scope.

(** ** Subcommands *)

Inductive Command :=
  | DiscoveryServiceCommand | OperatorCommand | WebhookCommand | InitManagerCommand | ShutdownManagerCommand.

(** The subcommands that the root command has been given. *)
Definition subcommands : list (string * Command) :=
  [("discovery-service", DiscoveryServiceCommand); ("operator", OperatorCommand);
   ("webhook", WebhookCommand); ("init-manager", InitManagerCommand);
   ("shutdown-manager", ShutdownManagerCommand)].

Definition subcommand (name : string) : option Command :=
  snd <$> List.find (λ p, bool_decide (fst p = name)) subcommands.

(** ** Flags *)

Record GlobalFlags := mkGlobalFlags { debug : bool; metricsAddr : string; probeAddr : string }.

Definition global_names : list string := ["metrics-bind-address"; "health-probe-bind-address"].

Record DiscoveryServiceFlags := mkDiscoveryServiceFlags {
  ds_Global : GlobalFlags;
  xdssPort : Z;
  xdssTLSServerCertificatePath : string;
  xdssTLSCACertificatePath : string;
  xdssTLSClientCertificatePath : string;
}.

Record OperatorFlags := mkOperatorFlags { op_Global : GlobalFlags; leaderElect : bool }.

Record WebhookFlags := mkWebhookFlags {
  wh_Global : GlobalFlags;
  webhookPort : Z;
  webhookTLSCertDir : string;
  webhookTLSCertName : string;
  webhookTLSKeyName : string;
}.

Section Flags.
Context {F : FlagSet} {FL : FlagLine}.

Definition global_flags (m : gmap string string) : error + GlobalFlags :=
  dbg ← BoolVar m "debug" false;
  inr (mkGlobalFlags dbg (StringVar m "metrics-bind-address" ":8080")
         (StringVar m "health-probe-bind-address" ":8081")).

Definition discovery_service_flags (args : list string) : error + DiscoveryServiceFlags :=
  m ← ParseLine (["xdss-port"; "server-certificate-path"; "ca-certificate-path";
                  "client-certificate-path"] ++ global_names) ["debug"] args;
  g ← global_flags m;
  port ← IntVar m "xdss-port" DefaultXdsServerPort;
  inr (mkDiscoveryServiceFlags g port
         (StringVar m "server-certificate-path" "/etc/marin3r/tls/server")
         (StringVar m "ca-certificate-path" "/etc/marin3r/tls/ca")
         (StringVar m "client-certificate-path" "/etc/marin3r/tls/client")).

Definition operator_flags (args : list string) : error + OperatorFlags :=
  m ← ParseLine global_names ["leader-elect"; "debug"] args;
  g ← global_flags m;
  elect ← BoolVar m "leader-elect" false;
  inr (mkOperatorFlags g elect).

Definition webhook_flags (args : list string) : error + WebhookFlags :=
  m ← ParseLine (["webhook-port"; "tls-dir"; "tls-cert-name"; "tls-key-name"] ++ global_names)
        ["debug"] args;
  g ← global_flags m;
  port ← IntVar m "webhook-port" 9443%Z;
  inr (mkWebhookFlags g port (StringVar m "tls-dir" "/apiserver.local.config/certificates")
         (StringVar m "tls-cert-name" "apiserver.crt") (StringVar m "tls-key-name" "apiserver.key")).
End Flags.

(** ** Managers *)

Record WebhookOptions := mkWebhookOptions {
  wo_Port : Z; wo_CertDir : string; wo_CertName : string; wo_KeyName : string }.

(** The options of a manager; without [DefaultNamespaces] its cache holds the
    objects of all namespaces. *)
Record ManagerOptions := mkManagerOptions {
  mo_Scheme : list string;
  mo_MetricsBindAddress : string;
  mo_HealthProbeBindAddress : string;
  mo_LeaderElection : bool;
  mo_LeaderElectionID : string;
  mo_LeaderElectionResourceLock : string;
  mo_DefaultNamespaces : option (gset string);
  mo_WebhookServer : option WebhookOptions;
}.

Inductive Controller :=
  | EnvoyConfigController
  | EnvoyConfigRevisionController (version : APIVersion)
  | DiscoveryServiceController
  | DiscoveryServiceCertificateController
  | EnvoyDeploymentController.

(** The webhooks for objects of a kind. *)
Inductive Webhook := EnvoyConfigWebhook | EnvoyDeploymentWebhook.

(** The environment of a process and the library calls of its start-up that can
    fail. *)
Class Process := {
  LookupEnv : string → option string;
  GetConfig : option error;
  NewManager : ManagerOptions → option error;
  SetupWithManager : Controller → option error;
  SetupWebhookWithManager : Webhook → option error;
  AddHealthzCheck : string → option error;
  AddReadyzCheck : string → option error;
}.

(** What a process has when its manager starts. *)
Record Running := mkRunning {
  r_Options : ManagerOptions;
  r_Controllers : list Controller;
  r_Webhooks : list Webhook;
  r_Handlers : list string;
  r_Healthz : list string;
  r_Readyz : list string;
}.

(** [if err := ...; err != nil { setupLog.Error(err, ...); os.Exit(1) }]. *)
Definition must (err : option error) : result unit :=
  match err with Some e => Err e | None => Ok tt end.

Fixpoint must_all {A} (f : A → option error) (l : list A) : result unit :=
  match l with [] => Ok tt | a :: l => _ ← must (f a); must_all f l end.

Definition watchNamespaceEnvVar : string := "WATCH_NAMESPACE".

Section Managers.
Context {P : Process}.

Definition Getenv (name : string) : string := default "" (LookupEnv name).

Definition getWatchNamespace : error + string :=
  match LookupEnv watchNamespaceEnvVar with
  | None => inl (ErrorString (watchNamespaceEnvVar +:+ " must be set"))
  | Some ns => inr ns
  end.

(** An error is only logged. *)
Definition watchNamespace : string :=
  match getWatchNamespace with inr ns => ns | inl _ => "" end.

Definition DefaultNamespaces (watchNamespace : string) : option (gset string) :=
  if Contains watchNamespace "," then Some (list_to_set (Split "," watchNamespace))
  else if decide (watchNamespace ≠ "") then Some {[ watchNamespace ]}
  else None.

(** *** The operator *)

Definition operator_options (f : OperatorFlags) : ManagerOptions := {|
  mo_Scheme := ["client-go"; "operator.marin3r.3scale.net/v1alpha1"; "marin3r.3scale.net/v1alpha1"];
  mo_MetricsBindAddress := metricsAddr (op_Global f);
  mo_HealthProbeBindAddress := probeAddr (op_Global f);
  mo_LeaderElection := leaderElect f;
  mo_LeaderElectionID := "2cfbe7d6.operator.marin3r.3scale.net";
  mo_LeaderElectionResourceLock := "leases";
  mo_DefaultNamespaces := DefaultNamespaces watchNamespace;
  mo_WebhookServer := None;
|}.

Definition operator_controllers : list Controller :=
  [DiscoveryServiceController; DiscoveryServiceCertificateController; EnvoyDeploymentController].

Definition runOperator (f : OperatorFlags) : result Running :=
  _ ← must GetConfig;
  let options := operator_options f in
  _ ← must (NewManager options);
  _ ← must_all SetupWithManager operator_controllers;
  _ ← must (AddHealthzCheck "health");
  _ ← must (AddReadyzCheck "readyz");
  Ok (mkRunning options operator_controllers [] [] ["health"] ["readyz"]).

(** *** The webhook *)

Definition MutatePath : string := "/pod-v1-mutate".

Definition webhook_options (f : WebhookFlags) : ManagerOptions := {|
  mo_Scheme := ["client-go"; "operator.marin3r.3scale.net/v1alpha1"; "marin3r.3scale.net/v1alpha1";
                "operator.marin3r.3scale.net/v1alpha1"];
  mo_MetricsBindAddress := "0";
  mo_HealthProbeBindAddress := probeAddr (wh_Global f);
  mo_LeaderElection := false;
  mo_LeaderElectionID := "";
  mo_LeaderElectionResourceLock := "";
  mo_DefaultNamespaces := DefaultNamespaces watchNamespace;
  mo_WebhookServer := Some (mkWebhookOptions (webhookPort f) (webhookTLSCertDir f)
                              (webhookTLSCertName f) (webhookTLSKeyName f));
|}.

Definition webhooks : list Webhook := [EnvoyConfigWebhook; EnvoyDeploymentWebhook].

Definition runWebhook (f : WebhookFlags) : result Running :=
  _ ← must GetConfig;
  let options := webhook_options f in
  _ ← must (NewManager options);
  _ ← must_all SetupWebhookWithManager webhooks;
  _ ← must (AddHealthzCheck "health");
  _ ← must (AddReadyzCheck "readyz");
  Ok (mkRunning options [] webhooks [MutatePath] ["health"] ["readyz"]).
End Managers.

(** *** The namespaces that a manager watches

    An empty map, and the key of all namespaces, stand for all of them. *)
Definition watches (namespaces : option (gset string)) (ns : string) : bool :=
  match namespaces with
  | None => true
  | Some s => bool_decide (s = ∅ ∨ "" ∈ s ∨ ns ∈ s)
  end.

(** ** The discovery service *)

Definition certificateFile : string := "tls.crt".
Definition certificateKeyFile : string := "tls.key".

(** The content of a file. *)
Definition Files := string → error + string.

Inductive ClientAuthType := NoClientCert | RequireAndVerifyClientCert.

(** [tls.Config]: what the program sets of it. *)
Record TLSConfig := mkTLSConfig {
  tls_MinVersion : string;
  tls_CurvePreferences : list string;
  tls_CipherSuites : list string;
  tls_Certificates : list X509;
  tls_ClientAuth : ClientAuthType;
  tls_ClientCAs : list X509;
  tls_InsecureSkipVerify : bool;
}.

(** The options of the gRPC server, times in nanoseconds. *)
Record GrpcOptions := mkGrpcOptions {
  MaxConcurrentStreams : Z;
  MinTime : Z;
  PermitWithoutStream : bool;
  MaxConnectionAge : Z;
  MaxConnectionAgeGrace : Z;
}.
Definition grpcMaxConcurrentStreams : Z := 1000000%Z.
Definition grpcMaxConnectionAge : Z := 43200%Z.
Definition grpcMaxConnectionAgeGrace : Z := 300%Z.
Definition grpcKeepaliveEnforcementPolicyMinTime : Z := 50%Z.
Definition grpcKeepaliveEnforcementPolicyPermitWithoutStream : bool := false.

Definition grpc_options : GrpcOptions :=
  mkGrpcOptions grpcMaxConcurrentStreams (grpcKeepaliveEnforcementPolicyMinTime * Second)%Z
    grpcKeepaliveEnforcementPolicyPermitWithoutStream (grpcMaxConnectionAge * Second)%Z
    (grpcMaxConnectionAgeGrace * Second)%Z.

(** [XC] is the snapshot cache and [SC] the store of the statistics; the server
    and its callbacks are made from them. *)
Record XdsServer (XC SC : Type) := mkXdsServer {
  xDSPort : Z;
  tlsConfig : TLSConfig;
  snapshotCacheV3 : XC;
  discoveryStatsV3 : SC;
}.
Arguments mkXdsServer {XC SC}.
Arguments xDSPort {XC SC}.
Arguments tlsConfig {XC SC}.
Arguments snapshotCacheV3 {XC SC}.
Arguments discoveryStatsV3 {XC SC}.

(** The process of the discovery service; [dp_Namespace] is where the garbage
    collector of the statistics looks for pods. *)
Record DiscoveryServiceProcess (XC SC : Type) := mkDiscoveryServiceProcess {
  dp_Running : Running;
  dp_Xds : XdsServer XC SC;
  dp_Namespace : string;
}.
Arguments mkDiscoveryServiceProcess {XC SC}.
Arguments dp_Running {XC SC}.
Arguments dp_Xds {XC SC}.
Arguments dp_Namespace {XC SC}.

(** How a request to a health endpoint ends. *)
Inductive health_result := HealthExits | HealthFails (err : error) | HealthOk.

(** The servers that listen at an address. *)
Definition Network := string → option TLSConfig.

(** A gRPC connection to an address with a TLS configuration, and the health
    request over it. *)
Class HealthClient := {
  grpc_Dial : string → TLSConfig → option error;
  grpc_HealthCheck : Network → Time → string → TLSConfig → option error;
}.

(** [Dial] does not connect.  The request passes when there is a server and the
    two sides of the handshake agree: here, when a server that requires
    certificates accepts that of a client that accepts any server. *)
Class HealthClientLaws {K : Crypto} {T : TLS K} (HC : HealthClient) : Prop := {
  dial_ok addr tls : grpc_Dial addr tls = None;
  check_handshake net now addr tls server c :
    net addr = Some server → tls_ClientAuth server = RequireAndVerifyClientCert →
    tls_Certificates tls = [c] → tls_InsecureSkipVerify tls = true →
    grpc_HealthCheck net now addr tls = None ↔ tls_VerifyClient now (tls_ClientCAs server) c = None;
}.

Section DiscoveryService.
Context {P : Process} {K : Crypto} {T : TLS K} {HC : HealthClient}.
Context {XC SC : Type} {SL : SnapshotCache XC} {GC : GoCache SC}.
Implicit Types (fs : Files) (f : DiscoveryServiceFlags).

(** [tls.LoadX509KeyPair]. *)
Definition LoadX509KeyPair fs (certFile keyFile : string) : error + X509 :=
  crt ← fs certFile; key ← fs keyFile; tls_X509KeyPair crt key.

Definition loadCertificate fs (directory : string) : result X509 :=
  match LoadX509KeyPair fs (directory +:+ "/" +:+ certificateFile)
                           (directory +:+ "/" +:+ certificateKeyFile) with
  | inl err => Err err
  | inr certificate => Ok certificate
  end.

Definition loadCA fs (directory : string) : result (list X509) :=
  match fs (directory +:+ "/" +:+ certificateFile) with
  | inl err => Err err
  | inr bs =>
     match AppendCertsFromPEM bs with
     | Some certPool => Ok certPool
     | None => Err (ErrorString "Failed to append client certs")
     end
  end.

Definition server_tls (certificate : X509) (clientCAs : list X509) : TLSConfig := {|
  tls_MinVersion := "VersionTLS12";
  tls_CurvePreferences := ["CurveP521"; "CurveP384"; "CurveP256"];
  tls_CipherSuites := ["TLS_ECDHE_RSA_WITH_AES_128_GCM_SHA256"; "TLS_ECDHE_ECDSA_WITH_AES_128_GCM_SHA256"];
  tls_Certificates := [certificate];
  tls_ClientAuth := RequireAndVerifyClientCert;
  tls_ClientCAs := clientCAs;
  tls_InsecureSkipVerify := false;
|}.

Definition NewXdsServer (port : Z) (tls : TLSConfig) : XdsServer XC SC :=
  mkXdsServer port tls v3_NewSnapshotCache cache_New.

(** The version is not used. *)
Definition XdsServer_GetCache (xdss : XdsServer XC SC) (version : APIVersion) : XC := snapshotCacheV3 xdss.
Definition XdsServer_GetDiscoveryStats (xdss : XdsServer XC SC) (version : APIVersion) : SC :=
  discoveryStatsV3 xdss.

Definition uint (z : Z) : Z := (z mod 2 ^ 64)%Z.

(** The address that [Start] listens at. *)
Definition listen_address (xdss : XdsServer XC SC) : string := ":" +:+ Itoa (xDSPort xdss).

Definition discovery_service_options f : ManagerOptions := {|
  mo_Scheme := ["client-go"; "marin3r.3scale.net/v1alpha1"; "marin3r.3scale.net/v1alpha1"];
  mo_MetricsBindAddress := "0";
  mo_HealthProbeBindAddress := probeAddr (ds_Global f);
  mo_LeaderElection := false;
  mo_LeaderElectionID := "2cfbe7d6.marin3r.3scale.net";
  mo_LeaderElectionResourceLock := "leases";
  mo_DefaultNamespaces := Some {[ Getenv "WATCH_NAMESPACE" ]};
  mo_WebhookServer := None;
|}.

Definition discovery_service_controllers : list Controller :=
  [EnvoyConfigController; EnvoyConfigRevisionController APIv3].

Definition runDiscoveryService fs f : result (DiscoveryServiceProcess XC SC) :=
  _ ← must GetConfig;
  let options := discovery_service_options f in
  _ ← must (NewManager options);
  cert ← loadCertificate fs (xdssTLSServerCertificatePath f);
  ca ← loadCA fs (xdssTLSCACertificatePath f);
  let xdss := NewXdsServer (uint (xdssPort f)) (server_tls cert ca) in
  _ ← must_all SetupWithManager discovery_service_controllers;
  _ ← must_all AddHealthzCheck ["gRPC"; "ping"];
  _ ← must_all AddReadyzCheck ["gRPC"; "ping"];
  Ok (mkDiscoveryServiceProcess
        (mkRunning options discovery_service_controllers [] [] ["gRPC"; "ping"] ["gRPC"; "ping"])
        xdss (Getenv "WATCH_NAMESPACE")).

(** The check reads the files again, each time. *)
Definition xdssHealthzCheck fs f (net : Network) (now : Time) : health_result :=
  match loadCertificate fs (xdssTLSClientCertificatePath f), loadCA fs (xdssTLSCACertificatePath f) with
  | Ok cert, Ok ca =>
     let tls := mkTLSConfig "" [] [] [cert] NoClientCert ca true in
     let addr := "localhost:" +:+ Itoa (xdssPort f) in
     match grpc_Dial addr tls with
     | Some _ => HealthExits
     | None =>
        match grpc_HealthCheck net now addr tls with
        | Some err => HealthFails err
        | None => HealthOk
        end
     end
  | _, _ => HealthExits
  end.
End DiscoveryService.

(** ** Which namespaces are watched *)

Lemma Contains_sep sep s : Contains s (String sep "") = true ↔ ¬ no_sep sep s.
Proof.
  unfold no_sep. induction s as [|c s IH]; rewrite Contains_unfold; simpl.
  - split; [done|]. intros H. destruct H. apply not_elem_of_nil.
  - rewrite not_elem_of_cons, orb_true_iff, IH, andb_true_iff, bool_decide_eq_true.
    destruct s, (decide (sep = c)); intuition congruence.
Qed.

Section Namespaces.
Context {P : Process}.

Lemma watches_DefaultNamespaces s ns :
  watches (DefaultNamespaces s) ns = true ↔ ∃ w, w ∈ Split "," s ∧ (w = "" ∨ w = ns).
Proof.
  unfold DefaultNamespaces. destruct (Contains s ",") eqn:Hc.
  - simpl. rewrite bool_decide_eq_true. pose proof (Split_not_nil "," s) as Hn.
    rewrite !elem_of_list_to_set. split.
    + intros [He|[H|H]]; [|exists ""; auto|exists ns; auto].
      exfalso. revert Hn He. destruct (Split "," s) as [|x l]; [done|]. set_solver.
    + intros (w & Hw & [-> | ->]); auto.
  - assert (Split "," s = [s]) as ->.
    { apply Split_no_sep. destruct (decide (no_sep "," s)) as [|H]; [done|].
      apply Contains_sep in H. congruence. }
    case_decide; simpl.
    + rewrite bool_decide_eq_true. split.
      * intros [Hx|[Hx|Hx]]; [set_solver|exists s; set_solver..].
      * intros (w & Hw & [-> | ->]); set_solver.
    + assert (s = "") as -> by (destruct (decide (s = "")); naive_solver).
      split; [|done]. intros _. exists "". set_solver.
Qed.

(** Which namespaces are watched.  The operator and the webhook take
    [WATCH_NAMESPACE] as a list separated by commas: they watch the namespaces of
    the list, and all of them when one of its fields is empty, so also when
    the variable is not set or a comma is left at the end.  The discovery
    service takes it as one name, and watches all namespaces without it. *)
Theorem watched_namespaces fo fw fd ns :
  let value := default "" (LookupEnv "WATCH_NAMESPACE") in
  (watches (mo_DefaultNamespaces (operator_options fo)) ns = true ↔
   ∃ w, w ∈ Split "," value ∧ (w = "" ∨ w = ns)) ∧
  mo_DefaultNamespaces (webhook_options fw) = mo_DefaultNamespaces (operator_options fo) ∧
  (watches (mo_DefaultNamespaces (discovery_service_options fd)) ns = true ↔ value = "" ∨ value = ns).
Proof.
  intros value. split; [|split; [done|]].
  - assert (watchNamespace = value) as E.
    { unfold watchNamespace, getWatchNamespace, value, watchNamespaceEnvVar.
      by destruct (LookupEnv "WATCH_NAMESPACE"). }
    simpl. rewrite E. apply watches_DefaultNamespaces.
  - simpl. unfold Getenv. fold value. rewrite bool_decide_eq_true. set_solver.
Qed.
End Namespaces.

(** ** The discovery service in its pod *)

(** The file of a key of a Secret that is mounted at a directory. *)
Fixpoint ends_slash (s : string) : bool :=
  match s with
  | EmptyString => false
  | String c EmptyString => bool_decide (c = "/"%char)
  | String _ s => ends_slash s
  end.
Definition mounted_file (dir key : string) : string :=
  if ends_slash dir then dir +:+ key else dir +:+ "/" +:+ key.

(** The files of the container [c] of a pod: the Secrets of its volumes. *)
Definition pod_files (volumes : list Volume) (c : Container) (ns : string)
    (secrets : gmap NamespacedName K8sSecret) (fs : Files) : Prop :=
  ∀ m v name mode s key value,
    m ∈ ctr_VolumeMounts c → v ∈ volumes → v_Name v = vm_Name m →
    v_Source v = SecretVolumeSource name mode → secrets !! mkKey ns name = Some s →
    s_Data s !! key = Some value → fs (mounted_file (vm_MountPath m) key) = inr value.

(** Its environment. *)
Definition pod_env (P : Process) (c : Container) : Prop :=
  ∀ name value, EnvValue name value ∈ ctr_Env c → LookupEnv name = Some value.

(** No library call fails. *)
Record calls_succeed (P : Process) : Prop := {
  config_ok : GetConfig = None;
  manager_ok o : NewManager o = None;
  setup_ok c : SetupWithManager c = None;
  healthz_ok n : AddHealthzCheck n = None;
  readyz_ok n : AddReadyzCheck n = None;
}.

Lemma must_all_ok {A} (f : A → option error) l : (∀ a, f a = None) → must_all f l = Ok tt.
Proof. intros H. induction l as [|a l IH]; simpl; [done|]. by rewrite H. Qed.

Section Pod.
Context {P : Process} {K : Crypto} {KL : CryptoLaws K} {T : TLS K} {HC : HealthClient} {HL : HealthClientLaws HC}.
Context {XC SC : Type} {SL : SnapshotCache XC} {GC : GoCache SC}.
Context {F : FlagSet} {FLaws : FlagSetLaws F} {FL : FlagLine} {LL : FlagLineLaws FL} {E : Environment}.
Implicit Types (ds : DiscoveryService) (fs : Files) (gen : GeneratorOptions).

(** The flags that the operator gives to the discovery service. *)
Definition server_items gen : list (string * option string) :=
  [("server-certificate-path", Some "/etc/marin3r/tls/server");
   ("ca-certificate-path", Some "/etc/marin3r/tls/ca");
   ("client-certificate-path", Some "/etc/marin3r/tls/client");
   ("xdss-port", Some (Itoa (XdsServerPort gen)));
   ("metrics-bind-address", Some (":" +:+ Itoa (MetricsServerPort gen)));
   ("health-probe-bind-address", Some (":" +:+ Itoa (ProbePort gen)))] ++
  (if Debug gen then [("debug", None)] else []).

Definition server_flags gen : DiscoveryServiceFlags :=
  mkDiscoveryServiceFlags
    (mkGlobalFlags (Debug gen) (":" +:+ Itoa (MetricsServerPort gen)) (":" +:+ Itoa (ProbePort gen)))
    (XdsServerPort gen) "/etc/marin3r/tls/server" "/etc/marin3r/tls/ca" "/etc/marin3r/tls/client".

Lemma server_args_items gen : server_args gen = "discovery-service" :: (flag_item <$> server_items gen).
Proof. unfold server_args, server_items. by destruct (Debug gen). Qed.

Lemma server_args_flags gen :
  (0 ≤ XdsServerPort gen < 2 ^ 63)%Z → discovery_service_flags (tail (server_args gen)) = inr (server_flags gen).
Proof.
  intros Hp. unfold discovery_service_flags, server_flags. rewrite server_args_items. cbn [tail].
  rewrite line_items.
  - unfold server_items, global_flags, StringVar, BoolVar, IntVar. simpl.
    destruct (Debug gen); simpl; simplify_map_eq; rewrite ?bool_true; simpl; simplify_map_eq;
      by rewrite int_value.
  - unfold server_items. destruct (Debug gen); apply (bool_decide_unpack _); by vm_compute.
  - unfold server_items, item_ok. apply Forall_app. split; [|destruct (Debug gen)];
      repeat (apply Forall_cons_2; [split; [apply (bool_decide_unpack _); by vm_compute|set_solver]|]);
      apply Forall_nil_2.
Qed.

(** The directory of a flag and the directory of the mount name the same files. *)
Lemma load_pair fs dir s c :
  (∀ key value, s_Data s !! key = Some value → fs (dir +:+ "/" +:+ key) = inr value) →
  stores_pair s c → loadCertificate fs dir = Ok c.
Proof.
  intros Hfs (crt & key & Hc & Hk & Hp). unfold loadCertificate, LoadX509KeyPair.
  rewrite (Hfs certificateFile _ Hc). simpl. rewrite (Hfs certificateKeyFile _ Hk). simpl. by rewrite Hp.
Qed.

Lemma load_pool fs dir s c :
  (∀ key value, s_Data s !! key = Some value → fs (dir +:+ "/" +:+ key) = inr value) →
  stores_pool s c → loadCA fs dir = Ok [c].
Proof.
  intros Hfs (crt & Hc & Hp). unfold loadCA. rewrite (Hfs certificateFile _ Hc). by rewrite Hp.
Qed.

Lemma mounted gen secrets fs hash v dir name s :
  pod_files (psp_Volumes (dep_PodSpec (Deployment gen hash))) (server_container gen) (Namespace gen)
    secrets fs →
  (v, dir, name) ∈ [("server-cert", "/etc/marin3r/tls/server", ServerCertName gen);
                    ("ca-cert", "/etc/marin3r/tls/ca", RootCertName gen);
                    ("client-cert", "/etc/marin3r/tls/client", ClientCertName)] →
  secrets !! mkKey (Namespace gen) name = Some s →
  ∀ key value, s_Data s !! key = Some value → fs (dir +:+ "/" +:+ key) = inr value.
Proof.
  intros Hfs Hin Hs key value Hv.
  assert (fs (mounted_file (dir +:+ "/") key) = inr value) as Hm.
  { refine (Hfs (mkVolumeMount v true (dir +:+ "/")) (mkVolume v (SecretVolumeSource name 420)) name
              420%Z s key value _ _ eq_refl eq_refl Hs Hv);
      rewrite !elem_of_cons, elem_of_nil in Hin; simpl; rewrite !elem_of_cons;
      destruct Hin as [[= -> -> ->]|[[= -> -> ->]|[[= -> -> ->]|[]]]]; auto. }
  rewrite !elem_of_cons, elem_of_nil in Hin.
  by destruct Hin as [[= -> -> ->]|[[= -> -> ->]|[[= -> -> ->]|[]]]].
Qed.

(** The discovery service of [ds] as it runs in its pod, with the key pair [cs]
    and clients verified against [cr]; [cl] is the key pair of its health
    checks. *)
Record service_started ds fs (cr cs cl : X509) (f : DiscoveryServiceFlags)
    (p : DiscoveryServiceProcess XC SC) : Prop := {
  st_tls : tlsConfig (dp_Xds p) = server_tls cs [cr];
  st_port : xDSPort (dp_Xds p) = GetXdsServerPort ds;
  st_namespaces ns :
    watches (mo_DefaultNamespaces (r_Options (dp_Running p))) ns = true ↔ ns = om_Namespace (ds_Meta ds);
  st_collector : dp_Namespace p = om_Namespace (ds_Meta ds);
  st_probes pr :
    ctr_LivenessProbe (server_container (generator_options ds)) = Some pr ∨
    ctr_ReadinessProbe (server_container (generator_options ds)) = Some pr →
    mo_HealthProbeBindAddress (r_Options (dp_Running p)) = ":" +:+ Itoa (hg_Port (pr_HTTPGet pr));
  st_no_metrics : mo_MetricsBindAddress (r_Options (dp_Running p)) = "0";
  st_health net now :
    net ("localhost" +:+ listen_address (dp_Xds p)) = Some (tlsConfig (dp_Xds p)) →
    xdssHealthzCheck fs f net now = HealthOk ↔ tls_VerifyClient now [cr] cl = None;
}.

Lemma healthcheck_handshake fs f net now (server : TLSConfig) cl ca :
  loadCertificate fs (xdssTLSClientCertificatePath f) = Ok cl →
  loadCA fs (xdssTLSCACertificatePath f) = Ok ca →
  net ("localhost:" +:+ Itoa (xdssPort f)) = Some server →
  tls_ClientAuth server = RequireAndVerifyClientCert →
  match tls_VerifyClient now (tls_ClientCAs server) cl with
  | None => xdssHealthzCheck fs f net now = HealthOk
  | Some _ => ∃ err, xdssHealthzCheck fs f net now = HealthFails err
  end.
Proof.
  intros Hc Ha Hn Hs. unfold xdssHealthzCheck. rewrite Hc, Ha, dial_ok.
  set (tls := mkTLSConfig "" [] [] [cl] NoClientCert ca true).
  pose proof (check_handshake net now _ tls server cl Hn Hs eq_refl eq_refl) as Hh.
  destruct (tls_VerifyClient now (tls_ClientCAs server) cl) as [e|].
  - destruct (grpc_HealthCheck _ _ _ _) as [err|]; [by eexists|]. by destruct Hh as [Hh _]; specialize (Hh eq_refl).
  - by rewrite (proj2 Hh eq_refl).
Qed.

(** [runDiscoveryService] on the files and with the environment of the pod. *)
Lemma pod_starts ds hash secrets fs sr ss sl cr cs cl :
  let gen := generator_options ds in
  let c := server_container gen in
  calls_succeed P → pod_env P c →
  pod_files (psp_Volumes (dep_PodSpec (Deployment gen hash))) c (Namespace gen) secrets fs →
  (0 ≤ GetXdsServerPort ds < 2 ^ 31)%Z → Namespace gen ≠ "" →
  secrets !! mkKey (Namespace gen) (RootCertName gen) = Some sr → stores_pool sr cr →
  secrets !! mkKey (Namespace gen) (ServerCertName gen) = Some ss → stores_pair ss cs →
  secrets !! mkKey (Namespace gen) ClientCertName = Some sl → stores_pair sl cl →
  ∃ p, runDiscoveryService fs (server_flags gen) = Ok p ∧
    service_started ds fs cr cs cl (server_flags gen) p.
Proof.
  intros gen c Hok Henv Hfiles Hport Hns Hsr Hpr Hss Hps Hsl Hpl.
  assert (XdsServerPort gen = GetXdsServerPort ds) as Ep.
  { simpl. apply int32_id. lia. }
  assert (LookupEnv "WATCH_NAMESPACE" = Some (Namespace gen)) as Henv1.
  { apply Henv. simpl. left. }
  assert (uint (XdsServerPort gen) = GetXdsServerPort ds) as Eu.
  { unfold uint. rewrite Ep, Z.mod_small; lia. }
  assert (loadCertificate fs "/etc/marin3r/tls/server" = Ok cs) as Hc1.
  { eapply load_pair; [eapply mounted; [exact Hfiles| |exact Hss]|done]. left. }
  assert (loadCA fs "/etc/marin3r/tls/ca" = Ok [cr]) as Hc2.
  { eapply load_pool; [eapply mounted; [exact Hfiles| |exact Hsr]|done]. right. left. }
  assert (loadCertificate fs "/etc/marin3r/tls/client" = Ok cl) as Hc3.
  { eapply load_pair; [eapply mounted; [exact Hfiles| |exact Hsl]|done]. right. right. left. }
  destruct Hok as [Hk1 Hk2 Hk3 Hk4 Hk5]. eexists. split.
  { unfold runDiscoveryService. rewrite Hk1. cbn [must]. rewrite Hk2. simpl in Hc1, Hc2 |- *.
    rewrite Hc1. simpl. rewrite Hc2. simpl. rewrite !Hk3, !Hk4, !Hk5. reflexivity. }
  constructor; simpl.
  - done.
  - exact Eu.
  - intros ns. unfold Getenv. rewrite Henv1, bool_decide_eq_true. simpl in Hns |- *. set_solver.
  - unfold Getenv. by rewrite Henv1.
  - intros pr [[= <-]|[= <-]]; done.
  - done.
  - intros net now Hnet.
    pose proof (healthcheck_handshake fs (server_flags gen) net now (server_tls cs [cr]) cl [cr] Hc3 Hc2) as Hh.
    change (xdssPort (server_flags gen)) with (XdsServerPort gen) in Hh. rewrite Ep in Hh.
    change (int32 (GetXdsServerPort ds)) with (XdsServerPort gen) in Hnet. rewrite Eu in Hnet.
    specialize (Hh Hnet eq_refl). simpl in Hh |- *.
    destruct (tls_VerifyClient now [cr] cl); [destruct Hh as [err Hh]|]; rewrite Hh; split; done.
Qed.


Lemma runDiscoveryService_inv fs f (p : DiscoveryServiceProcess XC SC) :
  runDiscoveryService fs f = Ok p →
  ∃ cert ca, loadCertificate fs (xdssTLSServerCertificatePath f) = Ok cert ∧
    loadCA fs (xdssTLSCACertificatePath f) = Ok ca ∧ tlsConfig (dp_Xds p) = server_tls cert ca ∧
    xDSPort (dp_Xds p) = uint (xdssPort f) ∧
    r_Options (dp_Running p) = discovery_service_options f ∧
    r_Controllers (dp_Running p) = discovery_service_controllers ∧ dp_Namespace p = Getenv "WATCH_NAMESPACE".
Proof.
  unfold runDiscoveryService. destruct (must GetConfig); [|done..]. cbn -[must_all].
  destruct (must (NewManager _)); [|done..]. cbn -[must_all].
  destruct (loadCertificate fs _) as [cert| |]; [|done..]. cbn -[must_all].
  destruct (loadCA fs _) as [ca| |]; [|done..]. cbn -[must_all].
  destruct (must_all SetupWithManager _); [|done..]. cbn -[must_all].
  destruct (must_all AddHealthzCheck _); [|done..]. cbn -[must_all].
  destruct (must_all AddReadyzCheck _); [|done..]. intros [= <-]. by exists cert, ca.
Qed.

(** The health check notices a renewed authority.  The process keeps the pool
    it started with, the health check reads the files each time: once they hold
    a client certificate of a renewed authority ([PkiChain.root_rotation]), which
    the old pool does not accept, the check fails, so the pod is restarted, and
    it passes against the process that starts from the new files. *)
Theorem healthcheck_follows_rotation fs0 fs1 f net0 net1 now
    (p0 p1 : DiscoveryServiceProcess XC SC) cl :
  let addr := "localhost:" +:+ Itoa (xdssPort f) in
  runDiscoveryService fs0 f = Ok p0 → runDiscoveryService fs1 f = Ok p1 →
  loadCertificate fs1 (xdssTLSClientCertificatePath f) = Ok cl →
  net0 addr = Some (tlsConfig (dp_Xds p0)) → net1 addr = Some (tlsConfig (dp_Xds p1)) →
  tls_VerifyClient now (tls_ClientCAs (tlsConfig (dp_Xds p0))) cl ≠ None →
  tls_VerifyClient now (tls_ClientCAs (tlsConfig (dp_Xds p1))) cl = None →
  (∃ err, xdssHealthzCheck fs1 f net0 now = HealthFails err) ∧
  xdssHealthzCheck fs1 f net1 now = HealthOk.
Proof.
  intros addr H0 H1 Hc Hn0 Hn1 Hv0 Hv1.
  destruct (runDiscoveryService_inv _ _ _ H0) as (cs0 & ca0 & _ & _ & E0 & _).
  destruct (runDiscoveryService_inv _ _ _ H1) as (cs1 & ca1 & _ & Hca1 & E1 & _).
  assert (tls_ClientAuth (tlsConfig (dp_Xds p0)) = RequireAndVerifyClientCert) as A0 by by rewrite E0.
  assert (tls_ClientAuth (tlsConfig (dp_Xds p1)) = RequireAndVerifyClientCert) as A1 by by rewrite E1.
  pose proof (healthcheck_handshake fs1 f net0 now _ cl ca1 Hc Hca1 Hn0 A0) as Q0.
  pose proof (healthcheck_handshake fs1 f net1 now _ cl ca1 Hc Hca1 Hn1 A1) as Q1.
  rewrite Hv1 in Q1. by destruct (tls_VerifyClient now _ cl) in Hv0, Q0.
Qed.
End Pod.

(** ** A discovery service *)

Module StartupRuns.
Import ChainRuns.
#[local] Existing Instance CertificateRuns.memory_secrets.
#[local] Existing Instance ChainRuns.environment.
#[local] Existing Instance memory_snapshot_cache.
#[local] Existing Instance memory_cache_impl.
#[local] Existing Instance pflag_impl.
#[local] Existing Instance pflag_line.

#[global] Instance pod_process : Process := {|
  LookupEnv name := if decide (name = "WATCH_NAMESPACE") then Some "ns" else None;
  GetConfig := None;
  NewManager _ := None;
  SetupWithManager _ := None;
  SetupWebhookWithManager _ := None;
  AddHealthzCheck _ := None;
  AddReadyzCheck _ := None;
|}.

#[global] Instance health_client : HealthClient := {|
  grpc_Dial _ _ := None;
  grpc_HealthCheck net now addr tls :=
    match net addr, tls_Certificates tls with
    | Some server, [c] => tls_VerifyClient now (tls_ClientCAs server) c
    | _, _ => Some (ErrorString "unavailable")
    end;
|}.
#[global] Instance health_client_laws : HealthClientLaws health_client.
Proof.
  split; [done|]. intros net now addr tls server c Hn _ Hc _. simpl. by rewrite Hn, Hc.
Qed.

Fixpoint strip_prefix (pre s : string) : option string :=
  match pre, s with
  | EmptyString, _ => Some s
  | String a pre, String b s => if decide (a = b) then strip_prefix pre s else None
  | String _ _, EmptyString => None
  end.

(** The files of the three mounts. *)
Definition files_of (ns : string) (mounts : list (string * string))
    (secrets : gmap NamespacedName K8sSecret) : Files := λ path,
  match omap (λ m, key ← strip_prefix (fst m) path; s ← secrets !! mkKey ns (snd m); s_Data s !! key) mounts with
  | v :: _ => inr v
  | [] => inl (ErrorString (path +:+ ": no such file"))
  end.

Definition pod_mounts gen : list (string * string) :=
  [("/etc/marin3r/tls/server/", ServerCertName gen); ("/etc/marin3r/tls/ca/", RootCertName gen);
   ("/etc/marin3r/tls/client/", ClientCertName)].

Lemma files_of_lookup ns mounts secrets dir name key s value :
  (dir, name) ∈ mounts → (∀ m, m ∈ mounts → m ≠ (dir, name) → strip_prefix (fst m) (dir +:+ key) = None) →
  strip_prefix dir (dir +:+ key) = Some key →
  secrets !! mkKey ns name = Some s → s_Data s !! key = Some value →
  files_of ns mounts secrets (dir +:+ key) = inr value.
Proof.
  intros Hin Hother Hself Hs Hv. unfold files_of. induction mounts as [|m mounts IH]; [by apply elem_of_nil in Hin|].
  cbn [omap list_omap]. destruct (decide (m = (dir, name))) as [->|Hne].
  - cbn [fst snd]. rewrite Hself. cbn [mbind option_bind]. rewrite Hs. cbn [mbind option_bind]. by rewrite Hv.
  - rewrite Hother; [|by left|done]. cbn [mbind option_bind]. apply IH.
    + apply elem_of_cons in Hin as [|]; congruence.
    + intros m' Hm'. apply Hother. by right.
Qed.

Lemma files_of_pod gen hash secrets :
  pod_files (psp_Volumes (dep_PodSpec (Deployment gen hash))) (server_container gen) (Namespace gen) secrets
    (files_of (Namespace gen) (pod_mounts gen) secrets).
Proof.
  intros m v name mode s key value Hm Hv Hname Hsrc Hs Hval. unfold server_container in Hm.
  cbn [ctr_VolumeMounts] in Hm. cbn [psp_Volumes dep_PodSpec Deployment] in Hv.
  assert (mounted_file (vm_MountPath m) key = vm_MountPath m +:+ key ∧
          (vm_MountPath m, name) ∈ pod_mounts gen ∧
          strip_prefix (vm_MountPath m) (vm_MountPath m +:+ key) = Some key ∧
          ∀ d, d ∈ pod_mounts gen → d ≠ (vm_MountPath m, name) →
            strip_prefix (fst d) (vm_MountPath m +:+ key) = None) as (-> & Hin & Hself & Hother);
    [|by eapply files_of_lookup].
  rewrite !elem_of_cons, elem_of_nil in Hm. rewrite !elem_of_cons, elem_of_nil in Hv.
  destruct Hm as [->|[->|[->|[]]]], Hv as [->|[->|[->|[]]]]; try discriminate Hname;
    simpl in Hsrc; injection Hsrc as <- _; cbn [vm_MountPath]; unfold pod_mounts;
    (split; [done|]; split; [rewrite !elem_of_cons; auto|]; split; [reflexivity|]);
    intros d; rewrite !elem_of_cons, elem_of_nil;
    intros [->|[->|[->|[]]]] Hne; try done; reflexivity.
Qed.

Definition pod : list (string * string) := pod_mounts (generator_options instance).
Definition pod_fs (secrets : gmap NamespacedName K8sSecret) : Files := files_of "ns" pod secrets.
Definition server : DiscoveryServiceCertificate := server_certificate instance.
Definition started : Type := DiscoveryServiceProcess (gmap string Snapshot) memory_cache.


(** The Secrets after the renewal of the authority. *)
Definition renewed_world : gmap NamespacedName K8sSecret :=
  match reconcile_all id later ((λ d, (d, seed')) <$> certificates instance []) issued_world with
  | Ok w => w | _ => ∅ end.
Definition flags_of (d : DiscoveryService) : DiscoveryServiceFlags := server_flags (generator_options d).

Lemma healthcheck_follows_rotation_witness :
  ∃ net0 net1,
    (∃ err, xdssHealthzCheck (pod_fs renewed_world) (flags_of instance) net0 later = HealthFails err) ∧
    xdssHealthzCheck (pod_fs renewed_world) (flags_of instance) net1 later = HealthOk.
Proof.
  destruct (runDiscoveryService (pod_fs issued_world) (flags_of instance)) as [p0| |] eqn:E0;
    [|vm_compute in E0; discriminate E0..].
  destruct (runDiscoveryService (pod_fs renewed_world) (flags_of instance)) as [p1| |] eqn:E1;
    [|vm_compute in E1; discriminate E1..].
  destruct (loadCertificate (pod_fs renewed_world) "/etc/marin3r/tls/client") as [cl| |] eqn:Ec;
    [|vm_compute in Ec; discriminate Ec..].
  exists (λ _, Some (tlsConfig (dp_Xds (p0 : started)))), (λ _, Some (tlsConfig (dp_Xds (p1 : started)))).
  apply (healthcheck_follows_rotation _ _ _ _ _ later p0 p1 cl E0 E1 Ec eq_refl eq_refl).
  - destruct (runDiscoveryService_inv _ _ _ E0) as (cert & pool & _ & Hpool & -> & _).
    vm_compute in Hpool, Ec. injection Hpool as <-. injection Ec as <-. vm_compute. discriminate.
  - destruct (runDiscoveryService_inv _ _ _ E1) as (cert & pool & _ & Hpool & -> & _).
    vm_compute in Hpool, Ec. injection Hpool as <-. injection Ec as <-. vm_compute. reflexivity.
Defined.
End StartupRuns.
