(* ===== verification/Registration.v ===== *)
(** * Registration of the controllers
    ([SetupWithManager] of the five controllers,
     [controllers/operator.marin3r/reconciler_config.go])

    Which events wake up a controller, and which properties of the objects it owns
    are kept as it generates them.  Delivering the events and comparing objects
    is the work of the controller-runtime and basereconciler libraries;
    [PropertyReconciler] is what the documentation of the latter says of its
    configuration. *)

From S2P Require Import Prelude Meta Envoy Api Stats Discover Snapshot CacheReconciler RevisionController.
From S2P Require Import OperatorTypes Container Sidecar OperatorObjects EnvoyDeployments DiscoveryServices.
From S2P Require Import Certificates PkiChain Startup.
#[local] Open Scope string_scope.
#[local] Open Scope list_scope.

(** ** Events *)

Inductive Kind :=
  | KEnvoyConfig | KEnvoyConfigRevision
  | KDiscoveryService | KDiscoveryServiceCertificate | KEnvoyDeployment
  | KSecret | KEndpointSlice | KService | KServiceAccount
  | KDeployment | KHorizontalPodAutoscaler | KPodDisruptionBudget | KRole | KRoleBinding.
#[global] Instance Kind_eq_dec : EqDecision Kind.
Proof. solve_decision. Defined.

(** The functions that say which objects an event on another one concerns. *)
Inductive Handler :=
  | HSecrets | HEndpointSlices | HIssuerChanged | HEnvoyConfig | HDiscoveryService.

Record Registration := mkRegistration {
  reg_For : Kind;
  reg_Owns : list Kind;
  reg_EventFilter : option APIVersion;
  reg_Watches : list (Kind * Handler);
}.

Definition EnvoyConfigReconciler_SetupWithManager : Registration :=
  mkRegistration KEnvoyConfig [KEnvoyConfigRevision] None [].

Definition EnvoyConfigRevisionReconciler_SetupWithManager (version : APIVersion) : Registration :=
  mkRegistration KEnvoyConfigRevision [] (Some version)
    [(KSecret, HSecrets); (KEndpointSlice, HEndpointSlices)].

Definition DiscoveryServiceReconciler_SetupWithManager : Registration :=
  mkRegistration KDiscoveryService
    [KDeployment; KService; KRole; KRoleBinding; KServiceAccount; KDiscoveryServiceCertificate] None [].

Definition DiscoveryServiceCertificateReconciler_SetupWithManager : Registration :=
  mkRegistration KDiscoveryServiceCertificate [KSecret] None
    [(KDiscoveryServiceCertificate, HIssuerChanged)].

Definition EnvoyDeploymentReconciler_SetupWithManager : Registration :=
  mkRegistration KEnvoyDeployment
    [KDeployment; KDiscoveryServiceCertificate; KPodDisruptionBudget; KHorizontalPodAutoscaler] None
    [(KEnvoyConfig, HEnvoyConfig); (KDiscoveryService, HDiscoveryService)].

Definition registration (c : Controller) : Registration :=
  match c with
  | EnvoyConfigController => EnvoyConfigReconciler_SetupWithManager
  | EnvoyConfigRevisionController version => EnvoyConfigRevisionReconciler_SetupWithManager version
  | DiscoveryServiceController => DiscoveryServiceReconciler_SetupWithManager
  | DiscoveryServiceCertificateController => DiscoveryServiceCertificateReconciler_SetupWithManager
  | EnvoyDeploymentController => EnvoyDeploymentReconciler_SetupWithManager
  end.

(** An event; the object is [None] when it is no EnvoyConfigRevision. *)
Inductive Event :=
  | CreateEvent (o : option EnvoyConfigRevision)
  | UpdateEvent (old new : option EnvoyConfigRevision)
  | DeleteEvent (o : option EnvoyConfigRevision)
  | GenericEvent (o : option EnvoyConfigRevision).

(** A function that is left out lets its events pass. *)
Definition filterByAPIVersionPredicate (version : APIVersion)
    (filter : option EnvoyConfigRevision → APIVersion → bool) (e : Event) : bool :=
  match e with
  | CreateEvent o => filter o version
  | UpdateEvent _ new => filter new version
  | DeleteEvent o => filter o version
  | GenericEvent _ => true
  end.

(** ** Configuration of the objects of the operator *)

Record ReconcileConfig := mkReconcileConfig { EnsureProperties : list string; IgnoreProperties : list string }.

(** The kinds with a configuration of their own, and the one of the others,
    which is the default of the library. *)
Definition DefaultReconcileConfigForGVK : list (Kind * ReconcileConfig) :=
  [(KService, mkReconcileConfig
      ["metadata.annotations"; "metadata.labels"; "spec.type"; "spec.ports"; "spec.selector";
       "spec.clusterIP"; "spec.clusterIPs"] []);
   (KDeployment, mkReconcileConfig
      ["metadata.annotations"; "metadata.labels"; "spec.minReadySeconds"; "spec.replicas";
       "spec.selector"; "spec.strategy"; "spec.template.metadata.labels";
       "spec.template.metadata.annotations"; "spec.template.spec"]
      ["metadata.annotations['deployment.kubernetes.io/revision']"; "spec.template.spec.dnsPolicy";
       "spec.template.spec.schedulerName"; "spec.template.spec.restartPolicy";
       "spec.template.spec.securityContext";
       "spec.template.spec.containers[*].terminationMessagePath";
       "spec.template.spec.containers[*].terminationMessagePolicy";
       "spec.template.spec.initContainers[*].terminationMessagePath";
       "spec.template.spec.initContainers[*].terminationMessagePolicy"]);
   (KHorizontalPodAutoscaler, mkReconcileConfig
      ["metadata.annotations"; "metadata.labels"; "spec.scaleTargetRef"; "spec.minReplicas";
       "spec.maxReplicas"; "spec.metrics"] []);
   (KPodDisruptionBudget, mkReconcileConfig
      ["metadata.annotations"; "metadata.labels"; "spec.maxUnavailable"; "spec.minAvailable";
       "spec.selector"] []);
   (KRole, mkReconcileConfig ["metadata.annotations"; "metadata.labels"; "rules"] []);
   (KRoleBinding, mkReconcileConfig
      ["metadata.annotations"; "metadata.labels"; "roleRef"; "subjects"] []);
   (KServiceAccount, mkReconcileConfig ["metadata.labels"] [])].

Definition reconcile_config (library_default : ReconcileConfig) (k : Kind) : ReconcileConfig :=
  match List.find (λ p, bool_decide (fst p = k)) DefaultReconcileConfigForGVK with
  | Some (_, c) => c
  | None => library_default
  end.

(** ** The properties of the objects that the generators set *)

Definition kind_of (o : OwnedObject) : Kind :=
  match o with
  | OCertificate _ => KDiscoveryServiceCertificate
  | ODeployment _ => KDeployment
  | OHPA _ _ => KHorizontalPodAutoscaler
  | OPDB _ _ => KPodDisruptionBudget
  | OServiceAccount _ => KServiceAccount
  | ORole _ _ => KRole
  | ORoleBinding _ _ _ => KRoleBinding
  | OService _ _ => KService
  end.

Inductive Value :=
  | VMap (m : gmap string string)
  | VInt (z : option Z)
  | VString (s : string)
  | VTarget (t : string * string * string)
  | VOpaques (l : list Opaque)
  | VOpaque (o : option Opaque)
  | VIntOrString (v : option IntOrString)
  | VStrategy (s : DeploymentStrategy)
  | VPod (p : PodSpec)
  | VPorts (l : list ServicePort)
  | VRules (l : list PolicyRule)
  | VSubject (s : string * string)
  | VCertificate (s : DiscoveryServiceCertificateSpec).

(** The properties that are set, with their paths; an autoscaler without a
    specification has none. *)
Definition properties (o : OwnedObject) : list (string * Value) :=
  match o with
  | OCertificate c => [("metadata.labels", VMap (om_Labels (dsc_Meta c))); ("spec", VCertificate (dsc_Spec c))]
  | ODeployment d =>
     [("metadata.labels", VMap (om_Labels (dep_Meta d))); ("spec.replicas", VInt (dep_Replicas d));
      ("spec.selector", VMap (dep_Selector d)); ("spec.strategy", VStrategy (dep_Strategy d));
      ("spec.template.metadata.labels", VMap (dep_PodLabels d)); ("spec.template.spec", VPod (dep_PodSpec d))]
  | OHPA m s =>
     ("metadata.labels", VMap (om_Labels m)) ::
     match s with
     | None => []
     | Some s => [("spec.scaleTargetRef", VTarget (hpa_Target s)); ("spec.minReplicas", VInt (hpa_MinReplicas s));
                  ("spec.maxReplicas", VInt (Some (hpa_MaxReplicas s))); ("spec.metrics", VOpaques (hpa_Metrics s));
                  ("spec.behavior", VOpaque (hpa_Behavior s))]
     end
  | OPDB m s =>
     [("metadata.labels", VMap (om_Labels m)); ("spec.selector", VMap (pdbs_Selector s));
      ("spec.minAvailable", VIntOrString (pdbs_MinAvailable s));
      ("spec.maxUnavailable", VIntOrString (pdbs_MaxUnavailable s))]
  | OServiceAccount m => [("metadata.labels", VMap (om_Labels m))]
  | ORole m r => [("metadata.labels", VMap (om_Labels m)); ("rules", VRules r)]
  | ORoleBinding m r s =>
     [("metadata.labels", VMap (om_Labels m)); ("roleRef", VString r); ("subjects", VSubject s)]
  | OService m s =>
     [("metadata.labels", VMap (om_Labels m)); ("spec.type", VString (ss_Type s));
      ("spec.clusterIP", VString (ss_ClusterIP s)); ("spec.selector", VMap (ss_Selector s));
      ("spec.sessionAffinity", VString (ss_SessionAffinity s)); ("spec.ports", VPorts (ss_Ports s))]
  end.

Definition property (o : OwnedObject) (path : string) : option Value :=
  snd <$> List.find (λ p, bool_decide (fst p = path)) (properties o).

(** ** The library *)

(** [reconcile_object cfg desired live] is the object that is written. *)
Class PropertyReconciler := {
  default_config : ReconcileConfig;
  reconcile_object : ReconcileConfig → OwnedObject → OwnedObject → OwnedObject;
}.

(** The objects have the same kind and set the same properties. *)
Definition comparable (d l : OwnedObject) : Prop :=
  kind_of d = kind_of l ∧ fst <$> properties d = fst <$> properties l.

Definition related (p q : string) : bool := HasPrefix p q || HasPrefix q p.

(** "EnsureProperties are the properties from the desired object that should be
    enforced to the live object"; ignored properties nested in one of them keep
    their live values, as do the properties that are not listed. *)
Class PropertyReconcilerLaws (R : PropertyReconciler) : Prop := {
  default_ensures :
    "metadata.labels" ∈ EnsureProperties default_config ∧ "spec" ∈ EnsureProperties default_config ∧
    IgnoreProperties default_config = [];
  ensured cfg d l p :
    comparable d l → p ∈ EnsureProperties cfg → Forall (λ q, HasPrefix q p = false) (IgnoreProperties cfg) →
    property (reconcile_object cfg d l) p = property d p;
  not_ensured cfg d l p :
    comparable d l → Forall (λ q, related p q = false) (EnsureProperties cfg) →
    property (reconcile_object cfg d l) p = property l p;
}.

(** ** What is registered *)

Section Owned.
Context {E : Environment} {Q : Quantities} {R : PropertyReconciler} {RL : PropertyReconcilerLaws R}.

(** The kinds of the objects that templates build. *)
Definition built_kinds (ts : list Template) : list Kind :=
  ts ≫= λ t, match t_Build t with Ok o => [kind_of o] | _ => [] end.

(** The operator is told of changes to the objects it makes.  The kinds that
    the DiscoveryService and the EnvoyDeployment controllers own are exactly the
    kinds of the objects of their templates; an event on an owned object, on the
    objects that the templates are computed from, or on a certificate's issuer
    reaches the controller, and one on a revision reaches the revision controller
    when it has its API version.  Each controller is started by one of the two
    binaries, once. *)
Theorem controllers_registered ds hash ed ec version e :
  literals_ok Q →
  (∀ k, k ∈ reg_Owns (registration DiscoveryServiceController) ↔
     k ∈ built_kinds (DiscoveryServices.templates (DiscoveryServices.generator_options ds) hash)) ∧
  (∀ k, k ∈ reg_Owns (registration EnvoyDeploymentController) ↔
     k ∈ built_kinds (EnvoyDeployments.templates ed (EnvoyDeployments.generator_options ed ds ec))) ∧
  (∀ c, c ∈ operator_controllers ++ discovery_service_controllers ↔
     ∀ v, c = EnvoyConfigRevisionController v → v = APIv3) ∧
  NoDup (reg_For ∘ registration <$> operator_controllers ++ discovery_service_controllers) ∧
  (filterByAPIVersionPredicate version filterByAPIVersion e = false →
   ∃ ecr, EnvoyConfigRevision_GetEnvoyAPIVersion ecr ≠ version ∧
     (e = CreateEvent (Some ecr) ∨ e = DeleteEvent (Some ecr) ∨ ∃ old, e = UpdateEvent old (Some ecr))).
Proof.
  intros HQ. split; [|split; [|split; [|split]]].
  - intros k. unfold built_kinds. simpl. rewrite !elem_of_cons, elem_of_nil. tauto.
  - intros k. unfold built_kinds, EnvoyDeployments.templates, EnvoyDeployments.Deployment.
    destruct (Containers_fit (container_config (EnvoyDeployments.generator_options ed ds ec)) HQ)
      as (m & Hc & _). simpl. rewrite Hc. simpl. rewrite !elem_of_cons, elem_of_nil. tauto.
  - intros c. unfold discovery_service_controllers. simpl. rewrite !elem_of_cons, elem_of_nil. split.
    + intros H v ->. by repeat destruct H as [H|H]; simplify_eq.
    + intros H. destruct c as [|v| | |]; [auto 8|rewrite (H v eq_refl); auto 8|auto 8..].
  - apply (bool_decide_unpack _). by vm_compute.
  - destruct e as [o|old o|o|o]; simpl; [destruct o as [ecr|]; [|done]..|done];
      intros H%bool_decide_eq_false; exists ecr; eauto.
Qed.

End Owned.

(** ** An implementation of the library *)

Module RegistrationRuns.
(** The value of a path, from the generated object when it is ensured. *)
Definition pick {A} (cfg : ReconcileConfig) (p : string) (d l : A) : A :=
  if decide (p ∈ EnsureProperties cfg) then d else l.
Definition pick_labels (cfg : ReconcileConfig) (d l : ObjectMeta) : ObjectMeta :=
  mkMeta (om_Name l) (om_Namespace l) (pick cfg "metadata.labels" (om_Labels d) (om_Labels l)) (om_UID l)
    (om_CreationTimestamp l) (om_DeletionTimestamp l) (om_Finalizers l).

Definition merge (cfg : ReconcileConfig) (d l : OwnedObject) : OwnedObject :=
  match d, l with
  | OCertificate d, OCertificate l =>
     OCertificate (mkDiscoveryServiceCertificate (pick_labels cfg (dsc_Meta d) (dsc_Meta l))
       (pick cfg "spec" (dsc_Spec d) (dsc_Spec l)) (dsc_Status l))
  | ODeployment d, ODeployment l =>
     ODeployment (mkDeploymentObject (pick_labels cfg (dep_Meta d) (dep_Meta l))
       (pick cfg "spec.replicas" (dep_Replicas d) (dep_Replicas l))
       (pick cfg "spec.selector" (dep_Selector d) (dep_Selector l))
       (pick cfg "spec.template.metadata.labels" (dep_PodLabels d) (dep_PodLabels l))
       (pick cfg "spec.template.spec" (dep_PodSpec d) (dep_PodSpec l))
       (pick cfg "spec.strategy" (dep_Strategy d) (dep_Strategy l)))
  | OHPA m (Some d), OHPA m' (Some l) =>
     OHPA (pick_labels cfg m m') (Some (mkHPASpec
       (pick cfg "spec.scaleTargetRef" (hpa_Target d) (hpa_Target l))
       (pick cfg "spec.minReplicas" (hpa_MinReplicas d) (hpa_MinReplicas l))
       (pick cfg "spec.maxReplicas" (hpa_MaxReplicas d) (hpa_MaxReplicas l))
       (pick cfg "spec.metrics" (hpa_Metrics d) (hpa_Metrics l))
       (pick cfg "spec.behavior" (hpa_Behavior d) (hpa_Behavior l))))
  | OHPA m _, OHPA m' l => OHPA (pick_labels cfg m m') l
  | OPDB m d, OPDB m' l =>
     OPDB (pick_labels cfg m m') (mkPDBSpec (pick cfg "spec.selector" (pdbs_Selector d) (pdbs_Selector l))
       (pick cfg "spec.minAvailable" (pdbs_MinAvailable d) (pdbs_MinAvailable l))
       (pick cfg "spec.maxUnavailable" (pdbs_MaxUnavailable d) (pdbs_MaxUnavailable l)))
  | OServiceAccount m, OServiceAccount m' => OServiceAccount (pick_labels cfg m m')
  | ORole m r, ORole m' r' => ORole (pick_labels cfg m m') (pick cfg "rules" r r')
  | ORoleBinding m r s, ORoleBinding m' r' s' =>
     ORoleBinding (pick_labels cfg m m') (pick cfg "roleRef" r r') (pick cfg "subjects" s s')
  | OService m d, OService m' l =>
     OService (pick_labels cfg m m') (mkServiceSpec (pick cfg "spec.type" (ss_Type d) (ss_Type l))
       (pick cfg "spec.clusterIP" (ss_ClusterIP d) (ss_ClusterIP l))
       (pick cfg "spec.selector" (ss_Selector d) (ss_Selector l))
       (pick cfg "spec.sessionAffinity" (ss_SessionAffinity d) (ss_SessionAffinity l))
       (pick cfg "spec.ports" (ss_Ports d) (ss_Ports l)))
  | _, l => l
  end.

Definition merge_impl : PropertyReconciler := {|
  default_config := mkReconcileConfig ["metadata.annotations"; "metadata.labels"; "spec"] [];
  reconcile_object := merge;
|}.

Lemma property_merge cfg d l p :
  comparable d l → property (merge cfg d l) p = pick cfg p (property d p) (property l p).
Proof.
  unfold comparable, property, pick_labels, pick. intros [Hk Hp].
  destruct d, l; try discriminate Hk;
    try (destruct spec as [s|], spec0 as [s0|]; simpl in Hp; try discriminate Hp);
    simpl; unfold pick; repeat (case_bool_decide; [subst; simpl; by repeat case_decide|]); simpl;
    by repeat case_decide.
Qed.

Lemma related_refl p : related p p = true.
Proof.
  unfold related. assert (HasPrefix p p = true) as ->; [|done].
  apply HasPrefix_spec. exists "". by rewrite string_app_nil_r.
Qed.

#[global] Instance merge_impl_laws : PropertyReconcilerLaws merge_impl.
Proof.
  split; [simpl; set_solver|..]; intros cfg d l p Hc H; simpl; rewrite property_merge by done; unfold pick.
  - intros _. by rewrite decide_True.
  - rewrite decide_False; [done|]. intros Hp.
    pose proof (proj1 (Forall_forall _ _) H p Hp) as Hr. simpl in Hr. by rewrite related_refl in Hr.
Qed.

(** An autoscaler whose behaviour has been changed in the EnvoyDeployment. *)
Definition autoscaler (max : Z) (behavior : option Opaque) : OwnedObject :=
  OHPA (object_meta "envoy-web" "ns" ∅)
    (Some (mkHPASpec ("apps/v1", "Deployment", "envoy-web") None max [] behavior)).
Definition live_autoscaler : OwnedObject := autoscaler 2%Z (Some "slow").
Definition new_autoscaler : OwnedObject := autoscaler 3%Z (Some "fast").


Lemma controllers_registered_witness :
  let E := ChainRuns.environment in let Q := SidecarRuns.quantities in
  KHorizontalPodAutoscaler ∈ built_kinds (EnvoyDeployments.templates ChainRuns.web
    (EnvoyDeployments.generator_options ChainRuns.web ChainRuns.instance example_config)).
Proof.
  intros E Q.
  destruct (controllers_registered ChainRuns.instance "hash" ChainRuns.web example_config APIv3 (GenericEvent None))
    as (_ & H & _).
  - repeat constructor.
  - apply H. apply (bool_decide_unpack _). vm_compute. exact I.
Defined.
End RegistrationRuns.
