(* ===== verification/Permissions.v ===== *)
(** * What the processes may ask of the API server
    ([+kubebuilder:rbac] markers of the controllers, the Role generated for the
     discovery service, the schemes of [cmd] and [apis/*/v1alpha1])

    A controller can only work when its manager knows the kinds it handles, and
    when the service account it runs as is allowed what it asks of the API
    server.  The discovery service is given a Role by the operator
    ([DiscoveryServices.Role]); the rules of the operator are generated from the
    markers in its source.  Here are the calls of each controller, and the
    theorems that they are covered: [discovery_service_permitted] and
    [operator_permitted].

    Authorization is the API server's ([RBAC]), and so is what the markers become:
    a role with these rules, bound to the account of the operator. *)

From S2P Require Import Prelude Meta Envoy Api Stats Snapshot.
From S2P Require Import OperatorTypes Flags Container Sidecar OperatorObjects EnvoyDeployments.
From S2P Require Import DiscoveryServices Certificates PkiChain Startup Registration.
#[local] Open Scope string_scope.
#[local] Open Scope list_scope.

(** ** Calls *)

(** The calls of a client, by the kind of the object. *)
Inductive Call :=
  | CGet (k : Kind)
  | CList (k : Kind)
  | CCreate (k : Kind)
  | CUpdate (k : Kind)
  | CDelete (k : Kind)
  | CStatusUpdate (k : Kind)
  | CStatusPatch (k : Kind).

Definition call_kind (c : Call) : Kind :=
  match c with
  | CGet k | CList k | CCreate k | CUpdate k | CDelete k | CStatusUpdate k | CStatusPatch k => k
  end.

(** *** Of the basereconciler library

    [ManageResourceLifecycle] gets the object, and updates it with its defaults
    and its finalizer; [ReconcileOwnedResources] gets, creates and updates the
    objects of the templates, and lists and deletes those that are not wanted;
    [ReconcileStatus] gets the Deployment and updates the status;
    [FilteredEventHandler] lists the objects that an event may concern. *)
Definition lifecycle_calls (k : Kind) : list Call := [CGet k; CUpdate k].
Definition owned_calls (k : Kind) : list Call := [CGet k; CList k; CCreate k; CUpdate k; CDelete k].
Definition status_calls (k : Kind) : list Call := [CGet KDeployment; CStatusUpdate k].

Definition handler_list (h : Handler) : Kind :=
  match h with
  | HSecrets | HEndpointSlices => KEnvoyConfigRevision
  | HIssuerChanged => KDiscoveryServiceCertificate
  | HEnvoyConfig | HDiscoveryService => KEnvoyDeployment
  end.

(** Events come from lists and watches of their kinds. *)
Definition event_calls (r : Registration) : list Call :=
  (CList <$> reg_For r :: reg_Owns r ++ (fst <$> reg_Watches r)) ++
  ((λ w, CList (handler_list (snd w))) <$> reg_Watches r).

(** *** Of the controllers *)

Definition RevisionReconciler_calls : list Call :=
  [CCreate KEnvoyConfigRevision; CList KEnvoyConfigRevision; CStatusUpdate KEnvoyConfigRevision;
   CDelete KEnvoyConfigRevision].

Definition EnvoyConfig_calls : list Call :=
  lifecycle_calls KEnvoyConfig ++ RevisionReconciler_calls ++ [CStatusUpdate KEnvoyConfig].

Definition CacheReconciler_calls : list Call := [CGet KSecret; CList KEndpointSlice].

Definition EnvoyConfigRevision_calls : list Call :=
  lifecycle_calls KEnvoyConfigRevision ++ CacheReconciler_calls ++
  [CStatusPatch KEnvoyConfigRevision; CStatusUpdate KEnvoyConfigRevision].

Definition DiscoveryService_calls : list Call :=
  lifecycle_calls KDiscoveryService ++ [CGet KDiscoveryServiceCertificate] ++
  (reg_Owns DiscoveryServiceReconciler_SetupWithManager ≫= owned_calls) ++ status_calls KDiscoveryService.

Definition CertificateProvider_calls : list Call := [CGet KSecret; CCreate KSecret; CUpdate KSecret].

Definition DiscoveryServiceCertificate_calls : list Call :=
  lifecycle_calls KDiscoveryServiceCertificate ++ CertificateProvider_calls ++
  [CStatusUpdate KDiscoveryServiceCertificate].

Definition EnvoyDeployment_calls : list Call :=
  lifecycle_calls KEnvoyDeployment ++ [CGet KDiscoveryService; CGet KEnvoyConfig] ++
  (reg_Owns EnvoyDeploymentReconciler_SetupWithManager ≫= owned_calls) ++ status_calls KEnvoyDeployment.

Definition controller_calls (c : Controller) : list Call :=
  event_calls (registration c) ++
  match c with
  | EnvoyConfigController => EnvoyConfig_calls
  | EnvoyConfigRevisionController _ => EnvoyConfigRevision_calls
  | DiscoveryServiceController => DiscoveryService_calls
  | DiscoveryServiceCertificateController => DiscoveryServiceCertificate_calls
  | EnvoyDeploymentController => EnvoyDeployment_calls
  end.

(** ** Kinds and schemes *)

Definition kind_name (k : Kind) : string :=
  match k with
  | KEnvoyConfig => "EnvoyConfig" | KEnvoyConfigRevision => "EnvoyConfigRevision"
  | KDiscoveryService => "DiscoveryService" | KEnvoyDeployment => "EnvoyDeployment"
  | KDiscoveryServiceCertificate => "DiscoveryServiceCertificate"
  | KSecret => "Secret" | KEndpointSlice => "EndpointSlice" | KService => "Service"
  | KServiceAccount => "ServiceAccount" | KDeployment => "Deployment"
  | KHorizontalPodAutoscaler => "HorizontalPodAutoscaler" | KPodDisruptionBudget => "PodDisruptionBudget"
  | KRole => "Role" | KRoleBinding => "RoleBinding"
  end.

Record GroupVersion := mkGroupVersion { gv_Group : string; gv_Version : string }.
Definition GroupVersion_String (gv : GroupVersion) : string := gv_Group gv +:+ "/" +:+ gv_Version gv.

Definition marin3r_GroupVersion : GroupVersion := mkGroupVersion "marin3r.3scale.net" "v1alpha1".
Definition operator_GroupVersion : GroupVersion := mkGroupVersion "operator.marin3r.3scale.net" "v1alpha1".

(** What the [init] functions of the packages register. *)
Definition EnvoyConfig_init : list string := ["EnvoyConfig"; "EnvoyConfigList"].
Definition EnvoyConfigRevision_init : list string := ["EnvoyConfigRevision"; "EnvoyConfigRevisionList"].
Definition DiscoveryService_init : list string := ["DiscoveryService"; "DiscoveryServiceList"].
Definition DiscoveryServiceCertificate_init : list string :=
  ["DiscoveryServiceCertificate"; "DiscoveryServiceCertificateList"].
Definition EnvoyDeployment_init : list string := ["EnvoyDeployment"; "EnvoyDeploymentList"].

Definition marin3r_SchemeBuilder : list string := EnvoyConfig_init ++ EnvoyConfigRevision_init.
Definition operator_SchemeBuilder : list string :=
  DiscoveryService_init ++ DiscoveryServiceCertificate_init ++ EnvoyDeployment_init.

(** The group and the plural of a kind, as the API server serves it. *)
Definition api_resource (k : Kind) : string * string :=
  match k with
  | KEnvoyConfig => ("marin3r.3scale.net", "envoyconfigs")
  | KEnvoyConfigRevision => ("marin3r.3scale.net", "envoyconfigrevisions")
  | KDiscoveryService => ("operator.marin3r.3scale.net", "discoveryservices")
  | KDiscoveryServiceCertificate => ("operator.marin3r.3scale.net", "discoveryservicecertificates")
  | KEnvoyDeployment => ("operator.marin3r.3scale.net", "envoydeployments")
  | KSecret => ("", "secrets") | KService => ("", "services") | KServiceAccount => ("", "serviceaccounts")
  | KEndpointSlice => ("discovery.k8s.io", "endpointslices")
  | KDeployment => ("apps", "deployments")
  | KHorizontalPodAutoscaler => ("autoscaling", "horizontalpodautoscalers")
  | KPodDisruptionBudget => ("policy", "poddisruptionbudgets")
  | KRole => ("rbac.authorization.k8s.io", "roles")
  | KRoleBinding => ("rbac.authorization.k8s.io", "rolebindings")
  end.

Definition built_in (k : Kind) : bool :=
  match k with
  | KEnvoyConfig | KEnvoyConfigRevision | KDiscoveryService | KDiscoveryServiceCertificate
  | KEnvoyDeployment => false
  | _ => true
  end.

(** The kinds of the Kubernetes API that the client library registers. *)
Class ClientGo := { client_go_kinds : list string }.
Class ClientGoLaws (CG : ClientGo) : Prop :=
  client_go_built_in k :
    built_in k = true → kind_name k ∈ client_go_kinds ∧ (kind_name k +:+ "List") ∈ client_go_kinds.

Section Schemes.
Context {CG : ClientGo}.

(** What the name of a part of a scheme stands for in [mo_Scheme]. *)
Definition AddToScheme (part : string) : list string :=
  if decide (part = "client-go") then client_go_kinds
  else if decide (part = GroupVersion_String marin3r_GroupVersion) then marin3r_SchemeBuilder
  else if decide (part = GroupVersion_String operator_GroupVersion) then operator_SchemeBuilder
  else [].

Definition scheme_kinds (o : ManagerOptions) : list string := mo_Scheme o ≫= AddToScheme.

(** The types that a call needs. *)
Definition known (o : ManagerOptions) (c : Call) : Prop :=
  kind_name (call_kind c) ∈ scheme_kinds o ∧
  match c with CList k => (kind_name k +:+ "List") ∈ scheme_kinds o | _ => True end.
End Schemes.

(** ** Authorization *)

Record Access := mkAccess { ac_Group : string; ac_Resource : string; ac_Verb : string }.

(** What a call asks of the API server; reads are served from a cache, which lists
    and watches the kind. *)
Definition accesses (c : Call) : list Access :=
  let '(group, resource) := api_resource (call_kind c) in
  match c with
  | CGet _ | CList _ => mkAccess group resource <$> ["get"; "list"; "watch"]
  | CCreate _ => [mkAccess group resource "create"]
  | CUpdate _ => [mkAccess group resource "update"]
  | CDelete _ => [mkAccess group resource "delete"]
  | CStatusUpdate _ => [mkAccess group (resource +:+ "/status") "update"]
  | CStatusPatch _ => [mkAccess group (resource +:+ "/status") "patch"]
  end.

(** [RunGC] lists and watches the pods. *)
Definition RunGC_accesses : list Access := mkAccess "" "pods" <$> ["list"; "watch"].

Definition listed (x : string) (l : list string) : bool := bool_decide ("*" ∈ l ∨ x ∈ l).

(** A rule names the access, or has a wildcard. *)
Definition rule_matches (a : Access) (r : PolicyRule) : bool :=
  listed (ac_Group a) (pol_APIGroups r) && listed (ac_Resource a) (pol_Resources r) &&
  listed (ac_Verb a) (pol_Verbs r).

(** [authorized objs account a ns]: with the roles and bindings among [objs], the
    service account may do [a] in the namespace [ns].  [may_grant held rules]: an
    account with the rules [held] may create a role with [rules]. *)
Class RBAC := {
  authorized : list OwnedObject → string * string → Access → string → Prop;
  may_grant : list PolicyRule → list PolicyRule → Prop;
}.

Class RBACLaws (R : RBAC) : Prop := {
  binding_authorizes objs account a mr rules mb :
    ORole mr rules ∈ objs → ORoleBinding mb (om_Name mr) account ∈ objs →
    om_Namespace mb = om_Namespace mr → existsb (rule_matches a) rules = true →
    authorized objs account a (om_Namespace mr);
  held_rules_granted held rules :
    Forall (λ r, ∀ g res v, g ∈ pol_APIGroups r → res ∈ pol_Resources r → v ∈ pol_Verbs r →
              existsb (rule_matches (mkAccess g res v)) held = true) rules →
    may_grant held rules;
}.

(** *** The markers of the operator's binary *)

Definition all_verbs : list string := ["get"; "list"; "watch"; "create"; "update"; "patch"; "delete"].

Definition EnvoyConfig_markers : list PolicyRule :=
  [mkPolicyRule ["marin3r.3scale.net"] ["envoyconfigs"] all_verbs;
   mkPolicyRule ["marin3r.3scale.net"] ["envoyconfigs/status"] ["get"; "update"; "patch"];
   mkPolicyRule ["marin3r.3scale.net"] ["envoyconfigrevisions"] all_verbs;
   mkPolicyRule ["marin3r.3scale.net"] ["envoyconfigrevisions/status"] ["get"; "update"; "patch"]].

Definition EnvoyConfigRevision_markers : list PolicyRule :=
  [mkPolicyRule ["marin3r.3scale.net"] ["envoyconfigrevisions"] all_verbs;
   mkPolicyRule ["marin3r.3scale.net"] ["envoyconfigrevisions/status"] ["get"; "update"; "patch"];
   mkPolicyRule [""] ["secrets"] ["get"; "list"; "watch"];
   mkPolicyRule ["discovery.k8s.io"] ["endpointslices"] ["get"; "list"; "watch"]].

Definition DiscoveryService_markers : list PolicyRule :=
  [mkPolicyRule ["operator.marin3r.3scale.net"] ["*"] ["*"];
   mkPolicyRule ["marin3r.3scale.net"] ["*"] ["*"];
   mkPolicyRule [""] ["services"] all_verbs;
   mkPolicyRule [""] ["serviceaccounts"] all_verbs;
   mkPolicyRule ["apps"] ["deployments"] all_verbs;
   mkPolicyRule ["rbac.authorization.k8s.io"] ["roles"] all_verbs;
   mkPolicyRule ["rbac.authorization.k8s.io"] ["rolebindings"] all_verbs;
   mkPolicyRule ["operator.marin3r.3scale.net"] ["discoveryservicecertificates"] all_verbs;
   mkPolicyRule [""] ["pods"] ["list"; "watch"; "get"];
   mkPolicyRule [""] ["secrets"] ["get"; "list"; "watch"; "create"; "update"; "patch"];
   mkPolicyRule ["discovery.k8s.io"] ["endpointslices"] ["get"; "list"; "watch"]].

Definition DiscoveryServiceCertificate_markers : list PolicyRule :=
  [mkPolicyRule ["operator.marin3r.3scale.net"] ["discoveryservicecertificates"] all_verbs;
   mkPolicyRule ["operator.marin3r.3scale.net"] ["discoveryservicecertificates/status"]
     ["get"; "update"; "patch"];
   mkPolicyRule [""] ["secrets"] ["get"; "list"; "watch"; "create"; "update"; "patch"]].

Definition EnvoyDeployment_markers : list PolicyRule :=
  [mkPolicyRule ["operator.marin3r.3scale.net"] ["envoydeployments"] all_verbs;
   mkPolicyRule ["operator.marin3r.3scale.net"] ["envoydeployments/status"] ["get"; "update"; "patch"];
   mkPolicyRule ["operator.marin3r.3scale.net"] ["envoydeployments/finalizers"] ["update"];
   mkPolicyRule ["apps"] ["deployments"] all_verbs;
   mkPolicyRule ["autoscaling"] ["horizontalpodautoscalers"] all_verbs;
   mkPolicyRule ["policy"] ["poddisruptionbudgets"] all_verbs;
   mkPolicyRule ["operator.marin3r.3scale.net"] ["discoveryservicecertificates"] all_verbs;
   mkPolicyRule ["marin3r.3scale.net"] ["envoyconfigs"] ["get"; "list"; "watch"];
   mkPolicyRule ["operator.marin3r.3scale.net"] ["discoveryservices"] ["get"; "list"; "watch"]].

Definition operator_rules : list PolicyRule :=
  EnvoyConfig_markers ++ EnvoyConfigRevision_markers ++ DiscoveryService_markers ++
  DiscoveryServiceCertificate_markers ++ EnvoyDeployment_markers.

(** The calls of the pod mutator webhook, which runs as the operator's account. *)
Definition PodMutator_calls : list Call := [CGet KDiscoveryService; CList KDiscoveryService].

(** ** They are covered *)

Section Covered.
Context {CG : ClientGo} {CGL : ClientGoLaws CG} {R : RBAC} {RL : RBACLaws R}.
Context {P : Process} {K : Crypto} {KL : CryptoLaws K} {XC SC : Type} {SL : SnapshotCache XC} {GC : GoCache SC}.
Context {E : Environment}.
Implicit Types (ds : DiscoveryService) (c : Controller).

(** A kind with its list is in a scheme that has the parts it needs. *)
Definition part_of (k : Kind) : string :=
  match k with
  | KEnvoyConfig | KEnvoyConfigRevision => "marin3r.3scale.net/v1alpha1"
  | KDiscoveryService | KDiscoveryServiceCertificate | KEnvoyDeployment => "operator.marin3r.3scale.net/v1alpha1"
  | _ => "client-go"
  end.

Lemma known_part o (call : Call) : part_of (call_kind call) ∈ mo_Scheme o → known o call.
Proof.
  rename call into c. intros H.
  assert (∀ x, x ∈ AddToScheme (part_of (call_kind c)) → x ∈ scheme_kinds o) as Hin.
  { intros x Hx. unfold scheme_kinds. apply list_elem_of_bind. by eexists. }
  assert (kind_name (call_kind c) ∈ AddToScheme (part_of (call_kind c)) ∧
          (kind_name (call_kind c) +:+ "List") ∈ AddToScheme (part_of (call_kind c))) as [H1 H2].
  { destruct (built_in (call_kind c)) eqn:Eb.
    - replace (part_of (call_kind c)) with "client-go" by (by destruct (call_kind c)).
      unfold AddToScheme. rewrite decide_True by done. by apply client_go_built_in.
    - destruct (call_kind c); try discriminate Eb; vm_compute; set_solver. }
  split; [by apply Hin|]. destruct c; try done. by apply Hin.
Qed.

(** The objects that templates build. *)
Definition built (ts : list Template) : list OwnedObject :=
  ts ≫= λ t, match t_Build t with Ok o => [o] | _ => [] end.

Lemma role_rules_authorize ds hash a :
  let gen := DiscoveryServices.generator_options ds in
  existsb (rule_matches a) (match DiscoveryServices.Role gen with ORole _ rules => rules | _ => [] end) = true →
  authorized (built (DiscoveryServices.templates gen hash))
    (psp_ServiceAccountName (dep_PodSpec (DiscoveryServices.Deployment gen hash)), Namespace gen) a (Namespace gen).
Proof.
  intros gen H.
  destruct (DiscoveryServices.Role gen) as [| | | | |mr rules| |] eqn:Er; try discriminate H.
  injection Er as <- <-.
  eapply (binding_authorizes _ _ a (object_meta (ResourceName gen) (Namespace gen) (DiscoveryServices.labels gen)));
    [| |reflexivity|exact H]; unfold built; simpl; set_solver.
Qed.

(** All accesses of a list of calls are matched by a rule, and their kinds are in a
    scheme. *)
Definition covers (rules : list PolicyRule) (parts : list string) (calls : list Call) : bool :=
  forallb (λ call, bool_decide (part_of (call_kind call) ∈ parts) &&
                   forallb (λ a, existsb (rule_matches a) rules) (accesses call)) calls.

Lemma covers_spec rules o calls call :
  covers rules (mo_Scheme o) calls = true → call ∈ calls →
  known o call ∧ ∀ a, a ∈ accesses call → existsb (rule_matches a) rules = true.
Proof.
  unfold covers. rewrite forallb_forall. intros H Hin. apply list_elem_of_In in Hin.
  specialize (H call Hin). apply andb_true_iff in H as [Hp%bool_decide_eq_true Ha].
  split; [by apply known_part|]. intros a Hina. rewrite forallb_forall in Ha.
  by apply Ha, list_elem_of_In.
Qed.


End Covered.

(** ** A concrete API server *)

Module PermissionRuns.
Import ChainRuns StartupRuns.
#[local] Existing Instance CertificateRuns.memory_secrets.
#[local] Existing Instance ChainRuns.environment.
#[local] Existing Instance memory_snapshot_cache.
#[local] Existing Instance memory_cache_impl.
#[local] Existing Instance pflag_impl.
#[local] Existing Instance pflag_line.

Definition all_built_in : list Kind :=
  [KSecret; KEndpointSlice; KService; KServiceAccount; KDeployment; KHorizontalPodAutoscaler;
   KPodDisruptionBudget; KRole; KRoleBinding].

#[global] Instance kubernetes : ClientGo :=
  {| client_go_kinds := (kind_name <$> all_built_in) ++ ((λ k, kind_name k +:+ "List") <$> all_built_in) |}.
#[global] Instance kubernetes_laws : ClientGoLaws kubernetes.
Proof.
  intros k Hk. destruct k; try discriminate Hk; split; apply (bool_decide_unpack _); vm_compute; exact I.
Qed.

(** The checks of the API server. *)
Definition role_rules (objs : list OwnedObject) (name ns : string) : list PolicyRule :=
  objs ≫= λ o, match o with
               | ORole m rules => if decide (om_Name m = name ∧ om_Namespace m = ns) then rules else []
               | _ => []
               end.

Definition account_rules (objs : list OwnedObject) (account : string * string) (ns : string) : list PolicyRule :=
  objs ≫= λ o, match o with
               | ORoleBinding m role subject =>
                  if decide (subject = account ∧ om_Namespace m = ns) then role_rules objs role ns else []
               | _ => []
               end.

Definition granted (held : list PolicyRule) (r : PolicyRule) : bool :=
  forallb (λ g, forallb (λ res, forallb (λ v, existsb (rule_matches (mkAccess g res v)) held)
    (pol_Verbs r)) (pol_Resources r)) (pol_APIGroups r).

#[global] Instance rbac : RBAC := {|
  authorized objs account a ns := existsb (rule_matches a) (account_rules objs account ns) = true;
  may_grant held rules := forallb (granted held) rules = true;
|}.

#[global] Instance rbac_laws : RBACLaws rbac.
Proof.
  split.
  - intros objs account a mr rules mb Hr Hb Hn H. simpl. apply existsb_exists in H as (r & Hin & Hm).
    apply existsb_exists. exists r. split; [|done]. apply list_elem_of_In. apply list_elem_of_In in Hin.
    unfold account_rules. apply list_elem_of_bind. eexists. split; [|exact Hb].
    simpl. rewrite decide_True by done. unfold role_rules. apply list_elem_of_bind. eexists. split; [|exact Hr].
    simpl. by rewrite decide_True.
  - intros held rules H. simpl. apply forallb_forall. intros r Hr. rewrite Forall_forall in H.
    apply list_elem_of_In in Hr. specialize (H r Hr). unfold granted.
    apply forallb_forall. intros g Hg. apply forallb_forall. intros res Hres.
    apply forallb_forall. intros v Hv. apply H; by apply list_elem_of_In.
Qed.

Definition flags : DiscoveryServiceFlags := server_flags (DiscoveryServices.generator_options instance).


Definition manager_role : ObjectMeta := object_meta "manager-role" "ns" ∅.
Definition manager : string * string := ("controller-manager", "ns").
Definition manager_objects : list OwnedObject :=
  [ORole manager_role operator_rules; ORoleBinding (object_meta "manager-rolebinding" "ns" ∅) "manager-role" manager].


(** Without the wildcard for its own group the operator could not grant the Role. *)
Lemma wildcard_needed :
  ∃ m rules, DiscoveryServices.Role (DiscoveryServices.generator_options instance) = ORole m rules ∧
    ¬ may_grant (EnvoyConfig_markers ++ EnvoyConfigRevision_markers ++ tail (tail DiscoveryService_markers)) rules.
Proof. eexists _, _. split; [reflexivity|]. vm_compute. discriminate. Qed.
End PermissionRuns.
