(* ===== verification/Generators.v ===== *)
(** * The generators
    ([generators/pkg-envoy-proto], [generators/pkg-version],
     [generators/pkg-image], [pkg/envoy/protos/v3/zz_generated.go])

    The programs that write source files of the repository.  The first one writes
    the imports that make the Envoy messages known to the binary; the generated
    file is here too ([imports]), and [imports_generated] says from which trees of
    the source module the generator computes exactly this file.  The other two
    write the version and the image of the operator.  The Git repository, the
    parser of module files and the printer of Go source are interfaces; the
    buffered writer between the printer and the file is the one of [bufio]. *)

From S2P Require Import Prelude Flags.
#[local] Open Scope string_scope.
#[local] Open Scope list_scope.

(** ** Go's standard library *)

(** [strings.HasSuffix]. *)
Definition HasSuffix (s suffix : string) : bool :=
  bool_decide (String.length suffix ≤ String.length s)%nat &&
  String.eqb (String.substring (String.length s - String.length suffix) (String.length suffix) s) suffix.

(** [filepath.Split]: the directory ends with the separator. *)
Definition filepath_Split (path : string) : string * string :=
  match rev (Split "/" path) with
  | [] | [_] => ("", path)
  | filename :: dirs => (Join (rev dirs) "/" +:+ "/", filename)
  end.

(** [filepath.Clean], by the parts of the path: empty ones and "." go, ".." takes
    the part before it, and goes itself at the root. *)
Definition clean_part (rooted : bool) (out : list string) (part : string) : list string :=
  if decide (part = "" ∨ part = ".") then out
  else if decide (part = "..") then
    match out with
    | last :: rest => if decide (last = "..") then part :: out else rest
    | [] => if rooted then [] else [part]
    end
  else part :: out.

Definition filepath_Clean (path : string) : string :=
  let rooted := HasPrefix path "/" in
  let parts := Join (rev (fold_left (clean_part rooted) (Split "/" path) [])) "/" in
  if rooted then "/" +:+ parts
  else if decide (parts = "") then "." else parts.

(** [sort.Strings]: the order is total, so the result does not depend on the
    algorithm. *)
Definition sort_Strings (l : list string) : list string := merge_sort String.le l.

(** [os.ReadFile] on the contents of the files. *)
Definition ReadFile (disk : gmap string string) (path : string) : error + string :=
  match disk !! path with
  | Some body => inr body
  | None => inl (ErrorString ("open " +:+ path +:+ ": no such file or directory"))
  end.

(** A [bufio.Writer] on an emptied file: what it holds back, and what is in the
    file.  A write that does not fit goes to the file, directly when nothing is
    held back. *)
Record Writer := mkWriter { wr_Buffer : string; wr_File : string }.
Definition bufio_NewWriter : Writer := mkWriter "" "".
Definition bufio_size : nat := Z.to_nat 4096.

Definition bufio_Write (w : Writer) (p : string) : Writer :=
  let available := (bufio_size - String.length (wr_Buffer w))%nat in
  if decide (String.length p ≤ available)%nat then mkWriter (wr_Buffer w +:+ p) (wr_File w)
  else if decide (wr_Buffer w = "") then mkWriter "" (wr_File w +:+ p)
  else
    let rest := String.substring available (String.length p - available) p in
    let file := wr_File w +:+ wr_Buffer w +:+ String.substring 0 available p in
    if decide (String.length rest ≤ bufio_size)%nat then mkWriter rest file
    else mkWriter "" (file +:+ rest).

Definition bufio_Flush (w : Writer) : Writer := mkWriter "" (wr_File w +:+ wr_Buffer w).

(** ** Libraries *)

(** A file of Go source: its package, its blank imports and its constants. *)
Record Package := mkPackage {
  pkg_Name : string; pkg_Anon : list string; pkg_Const : list (string * string) }.

(** The printer of Go source: what it writes, and its error. *)
Class Jennifer := { Render : Package → list string * option error }.

(** The error of opening a file for writing. *)
Class Permissions := { open_error : string → option error }.

(** The error for required flags that are not set. *)
Class Cobra := { MissingFlags : list string → error }.

Definition required {C : Cobra} (m : gmap string string) (names : list string) : error + unit :=
  match List.filter (λ n, bool_decide (m !! n = None)) names with
  | [] => inr tt
  | missing => inl (MissingFlags missing)
  end.

(** ** [generators/pkg-envoy-proto] *)

Definition sourceModuleName : string := "github.com/envoyproxy/go-control-plane".

Definition lower_hex (c : ascii) : bool :=
  let n := nat_of_ascii c in
  bool_decide (48 ≤ n ∧ n ≤ 57)%nat || bool_decide (97 ≤ n ∧ n ≤ 102)%nat.

(** The submatch of [.*-([0-9a-f]{12})$]. *)
Definition pseudo_version (ref : string) : option string :=
  let n := String.length ref in
  let commit := String.substring (n - 12) 12 ref in
  if decide ((13 ≤ n)%nat ∧ String.get (n - 13) ref = Some "-"%char) then
    if forallb lower_hex (String.list_ascii_of_string commit) then Some commit else None
  else None.

(** The required modules with their versions; the last one counts. *)
Definition inspectVersion (requires : list (string * string)) : result (string * bool) :=
  match last (List.filter (λ m, bool_decide (fst m = sourceModuleName)) requires) with
  | None => Err (ErrorString (sourceModuleName +:+ " module not found in modules file"))
  | Some (_, ref) =>
     match pseudo_version ref with
     | Some commit => Ok (commit, true)
     | None => Ok (ref, false)
     end
  end.

(** The directory that a file of the tree puts into [index]. *)
Definition proto_package (apiVersion name : string) : option string :=
  let '(dir, filename) := filepath_Split name in
  let dir := filepath_Clean dir in
  if negb (HasPrefix dir "envoy/") && negb (HasPrefix dir "contrib/envoy/") then None
  else if HasSuffix filename ".pb.go" && HasSuffix dir ("/" +:+ apiVersion) then Some dir
  else None.

Definition listProtoPackages (apiVersion : string) (files : list string) : list string :=
  let index : gset string := list_to_set (omap (proto_package apiVersion) files) in
  sort_Strings ((λ proto, sourceModuleName +:+ "/" +:+ proto) <$> elements index).

(** The required modules of a module file, and the files of the source module's
    repository at a commit or at a tag. *)
Class SourceModule := {
  modfile_Parse : string → error + list (string * string);
  tree_Files : string → bool → error + list string;
}.

(** ** The programs

    [checkIfError] ends a program, with the files as they are. *)

Module PkgEnvoyProto.
Record ProtoFlags := mkProtoFlags {
  apiVersion : string; packageFile : string; gomodFile : string; packageName : string }.

Definition proto_flags {F : FlagLine} {C : Cobra} (args : list string) : error + ProtoFlags :=
  m ← ParseLine ["api-version"; "package-file"; "gomod-file"; "package-name"] [] args;
  _ ← required m ["api-version"; "package-file"];
  inr (mkProtoFlags (StringVar m "api-version" "") (StringVar m "package-file" "")
         (StringVar m "gomod-file" "go.mod") (StringVar m "package-name" "envoy")).

Section Program.
Context {F : FlagLine} {C : Cobra} {J : Jennifer} {P : Permissions} {M : SourceModule}.
Implicit Types (disk : gmap string string).

(** The buffer of the writer is not flushed. *)
Definition writePackageFile disk (f : ProtoFlags) (importList : list string)
    : result unit * gmap string string :=
  match open_error (packageFile f) with
  | Some err => (Err err, disk)
  | None =>
     let '(chunks, err) := Render (mkPackage (packageName f) importList []) in
     let w := fold_left bufio_Write chunks bufio_NewWriter in
     (of_error err, <[packageFile f := wr_File w]> disk)
  end.

Definition generate disk (f : ProtoFlags) : result unit * gmap string string :=
  match (body ← ReadFile disk (gomodFile f); modfile_Parse body) with
  | inl err => (Err err, disk)
  | inr requires =>
     match inspectVersion requires with
     | Ok (version, isPseudoVersion) =>
        match tree_Files version isPseudoVersion with
        | inl err => (Err err, disk)
        | inr files => writePackageFile disk f (listProtoPackages (apiVersion f) files)
        end
     | Err err => (Err err, disk)
     | Panic => (Panic, disk)
     end
  end.

Definition proto_main disk (args : list string) : result unit * gmap string string :=
  match proto_flags args with
  | inl err => (Err err, disk)
  | inr f => generate disk f
  end.
End Program.
End PkgEnvoyProto.

Module PkgVersion.
Record VersionFlags := mkVersionFlags { version : string; packageName : string; packageFile : string }.

Definition version_flags {F : FlagLine} {C : Cobra} (args : list string) : error + VersionFlags :=
  m ← ParseLine ["version"; "package-name"; "package-file"] [] args;
  _ ← required m ["version"];
  inr (mkVersionFlags (StringVar m "version" "") (StringVar m "package-name" "version")
         (StringVar m "package-file" "zz_generated.go")).

Definition generate_version {J : Jennifer} {P : Permissions} (disk : gmap string string) (f : VersionFlags)
    : result unit * gmap string string :=
  match open_error (packageFile f) with
  | Some err => (Err err, disk)
  | None =>
     let '(chunks, err) := Render (mkPackage (packageName f) [] [("version", "v" +:+ version f)]) in
     let w := fold_left bufio_Write chunks bufio_NewWriter in
     match err with
     | Some err => (Err err, <[packageFile f := wr_File w]> disk)
     | None => (Ok tt, <[packageFile f := wr_File (bufio_Flush w)]> disk)
     end
  end.

Definition version_main {F : FlagLine} {C : Cobra} {J : Jennifer} {P : Permissions}
    (disk : gmap string string) (args : list string) : result unit * gmap string string :=
  match version_flags args with
  | inl err => (Err err, disk)
  | inr f => generate_version disk f
  end.
End PkgVersion.

Module PkgImage.
Record ImageFlags := mkImageFlags { image : string; packageName : string; packageFile : string }.

Definition image_flags {F : FlagLine} {C : Cobra} (args : list string) : error + ImageFlags :=
  m ← ParseLine ["image"; "package-name"; "package-file"] [] args;
  _ ← required m ["image"];
  inr (mkImageFlags (StringVar m "image" "") (StringVar m "package-name" "image")
         (StringVar m "package-file" "zz_generated.go")).

Definition generate_image {J : Jennifer} {P : Permissions} (disk : gmap string string) (f : ImageFlags)
    : result unit * gmap string string :=
  match open_error (packageFile f) with
  | Some err => (Err err, disk)
  | None =>
     let '(chunks, err) := Render (mkPackage (packageName f) [] [("image", image f)]) in
     let w := fold_left bufio_Write chunks bufio_NewWriter in
     match err with
     | Some err => (Err err, <[packageFile f := wr_File w]> disk)
     | None => (Ok tt, <[packageFile f := wr_File (bufio_Flush w)]> disk)
     end
  end.

Definition image_main {F : FlagLine} {C : Cobra} {J : Jennifer} {P : Permissions}
    (disk : gmap string string) (args : list string) : result unit * gmap string string :=
  match image_flags args with
  | inl err => (Err err, disk)
  | inr f => generate_image disk f
  end.
End PkgImage.

(** What [go generate] left in [pkg/version]. *)
Definition released_version : string := "v0.13.1".
Definition version_Current : string := released_version.

(** ** [pkg/envoy/protos/v3/zz_generated.go]

    The imports, without the name of the module. *)

(** Contributed extensions, configuration and data, the first kinds of extensions. *)
Definition config_protos : list string :=
  ["contrib/envoy/extensions/filters/http/dynamo/v3";
   "contrib/envoy/extensions/filters/http/squash/v3";
   "contrib/envoy/extensions/filters/network/client_ssl_auth/v3";
   "contrib/envoy/extensions/filters/network/generic_proxy/action/v3";
   "contrib/envoy/extensions/filters/network/generic_proxy/codecs/dubbo/v3";
   "contrib/envoy/extensions/filters/network/generic_proxy/codecs/http1/v3";
   "contrib/envoy/extensions/filters/network/generic_proxy/codecs/kafka/v3";
   "contrib/envoy/extensions/filters/network/generic_proxy/matcher/v3";
   "contrib/envoy/extensions/filters/network/generic_proxy/router/v3";
   "contrib/envoy/extensions/filters/network/generic_proxy/v3";
   "contrib/envoy/extensions/filters/network/kafka_broker/v3";
   "contrib/envoy/extensions/filters/network/mysql_proxy/v3";
   "contrib/envoy/extensions/filters/network/rocketmq_proxy/v3";
   "envoy/admin/v3";
   "envoy/config/accesslog/v3";
   "envoy/config/bootstrap/v3";
   "envoy/config/cluster/v3";
   "envoy/config/common/key_value/v3";
   "envoy/config/common/matcher/v3";
   "envoy/config/common/mutation_rules/v3";
   "envoy/config/core/v3";
   "envoy/config/endpoint/v3";
   "envoy/config/grpc_credential/v3";
   "envoy/config/listener/v3";
   "envoy/config/metrics/v3";
   "envoy/config/overload/v3";
   "envoy/config/ratelimit/v3";
   "envoy/config/rbac/v3";
   "envoy/config/route/v3";
   "envoy/config/tap/v3";
   "envoy/config/trace/v3";
   "envoy/config/upstream/local_address_selector/v3";
   "envoy/data/accesslog/v3";
   "envoy/data/cluster/v3";
   "envoy/data/core/v3";
   "envoy/data/dns/v3";
   "envoy/data/tap/v3";
   "envoy/extensions/access_loggers/file/v3";
   "envoy/extensions/access_loggers/filters/cel/v3";
   "envoy/extensions/access_loggers/fluentd/v3";
   "envoy/extensions/access_loggers/grpc/v3";
   "envoy/extensions/access_loggers/open_telemetry/v3";
   "envoy/extensions/access_loggers/stream/v3";
   "envoy/extensions/access_loggers/wasm/v3";
   "envoy/extensions/bootstrap/internal_listener/v3";
   "envoy/extensions/clusters/aggregate/v3";
   "envoy/extensions/clusters/dynamic_forward_proxy/v3";
   "envoy/extensions/clusters/redis/v3";
   "envoy/extensions/common/async_files/v3";
   "envoy/extensions/common/dynamic_forward_proxy/v3";
   "envoy/extensions/common/matching/v3";
   "envoy/extensions/common/ratelimit/v3";
   "envoy/extensions/common/tap/v3";
   "envoy/extensions/compression/brotli/compressor/v3";
   "envoy/extensions/compression/brotli/decompressor/v3";
   "envoy/extensions/compression/gzip/compressor/v3";
   "envoy/extensions/compression/gzip/decompressor/v3";
   "envoy/extensions/compression/zstd/compressor/v3";
   "envoy/extensions/compression/zstd/decompressor/v3";
   "envoy/extensions/config/validators/minimum_clusters/v3";
   "envoy/extensions/early_data/v3"].

(** Filters. *)
Definition filter_protos : list string :=
  ["envoy/extensions/filters/common/dependency/v3";
   "envoy/extensions/filters/common/fault/v3";
   "envoy/extensions/filters/common/matcher/action/v3";
   "envoy/extensions/filters/common/set_filter_state/v3";
   "envoy/extensions/filters/http/adaptive_concurrency/v3";
   "envoy/extensions/filters/http/admission_control/v3";
   "envoy/extensions/filters/http/alternate_protocols_cache/v3";
   "envoy/extensions/filters/http/aws_lambda/v3";
   "envoy/extensions/filters/http/aws_request_signing/v3";
   "envoy/extensions/filters/http/bandwidth_limit/v3";
   "envoy/extensions/filters/http/basic_auth/v3";
   "envoy/extensions/filters/http/buffer/v3";
   "envoy/extensions/filters/http/cache/v3";
   "envoy/extensions/filters/http/cdn_loop/v3";
   "envoy/extensions/filters/http/composite/v3";
   "envoy/extensions/filters/http/compressor/v3";
   "envoy/extensions/filters/http/connect_grpc_bridge/v3";
   "envoy/extensions/filters/http/cors/v3";
   "envoy/extensions/filters/http/credential_injector/v3";
   "envoy/extensions/filters/http/csrf/v3";
   "envoy/extensions/filters/http/custom_response/v3";
   "envoy/extensions/filters/http/decompressor/v3";
   "envoy/extensions/filters/http/dynamic_forward_proxy/v3";
   "envoy/extensions/filters/http/ext_authz/v3";
   "envoy/extensions/filters/http/ext_proc/v3";
   "envoy/extensions/filters/http/fault/v3";
   "envoy/extensions/filters/http/file_system_buffer/v3";
   "envoy/extensions/filters/http/gcp_authn/v3";
   "envoy/extensions/filters/http/geoip/v3";
   "envoy/extensions/filters/http/grpc_field_extraction/v3";
   "envoy/extensions/filters/http/grpc_http1_bridge/v3";
   "envoy/extensions/filters/http/grpc_http1_reverse_bridge/v3";
   "envoy/extensions/filters/http/grpc_json_transcoder/v3";
   "envoy/extensions/filters/http/grpc_stats/v3";
   "envoy/extensions/filters/http/grpc_web/v3";
   "envoy/extensions/filters/http/gzip/v3";
   "envoy/extensions/filters/http/header_mutation/v3";
   "envoy/extensions/filters/http/header_to_metadata/v3";
   "envoy/extensions/filters/http/health_check/v3";
   "envoy/extensions/filters/http/ip_tagging/v3";
   "envoy/extensions/filters/http/json_to_metadata/v3";
   "envoy/extensions/filters/http/jwt_authn/v3";
   "envoy/extensions/filters/http/kill_request/v3";
   "envoy/extensions/filters/http/local_ratelimit/v3";
   "envoy/extensions/filters/http/lua/v3";
   "envoy/extensions/filters/http/oauth2/v3";
   "envoy/extensions/filters/http/on_demand/v3";
   "envoy/extensions/filters/http/original_src/v3";
   "envoy/extensions/filters/http/proto_message_logging/v3";
   "envoy/extensions/filters/http/rate_limit_quota/v3";
   "envoy/extensions/filters/http/ratelimit/v3";
   "envoy/extensions/filters/http/rbac/v3";
   "envoy/extensions/filters/http/router/v3";
   "envoy/extensions/filters/http/set_filter_state/v3";
   "envoy/extensions/filters/http/set_metadata/v3";
   "envoy/extensions/filters/http/stateful_session/v3";
   "envoy/extensions/filters/http/tap/v3";
   "envoy/extensions/filters/http/upstream_codec/v3";
   "envoy/extensions/filters/http/wasm/v3";
   "envoy/extensions/filters/listener/http_inspector/v3";
   "envoy/extensions/filters/listener/local_ratelimit/v3";
   "envoy/extensions/filters/listener/original_dst/v3";
   "envoy/extensions/filters/listener/original_src/v3";
   "envoy/extensions/filters/listener/proxy_protocol/v3";
   "envoy/extensions/filters/listener/tls_inspector/v3";
   "envoy/extensions/filters/network/connection_limit/v3";
   "envoy/extensions/filters/network/direct_response/v3";
   "envoy/extensions/filters/network/dubbo_proxy/router/v3";
   "envoy/extensions/filters/network/dubbo_proxy/v3";
   "envoy/extensions/filters/network/echo/v3";
   "envoy/extensions/filters/network/ext_authz/v3";
   "envoy/extensions/filters/network/http_connection_manager/v3";
   "envoy/extensions/filters/network/local_ratelimit/v3";
   "envoy/extensions/filters/network/mongo_proxy/v3";
   "envoy/extensions/filters/network/ratelimit/v3";
   "envoy/extensions/filters/network/rbac/v3";
   "envoy/extensions/filters/network/redis_proxy/v3";
   "envoy/extensions/filters/network/set_filter_state/v3";
   "envoy/extensions/filters/network/sni_cluster/v3";
   "envoy/extensions/filters/network/sni_dynamic_forward_proxy/v3";
   "envoy/extensions/filters/network/tcp_proxy/v3";
   "envoy/extensions/filters/network/thrift_proxy/filters/header_to_metadata/v3";
   "envoy/extensions/filters/network/thrift_proxy/filters/payload_to_metadata/v3";
   "envoy/extensions/filters/network/thrift_proxy/filters/ratelimit/v3";
   "envoy/extensions/filters/network/thrift_proxy/router/v3";
   "envoy/extensions/filters/network/thrift_proxy/v3";
   "envoy/extensions/filters/network/wasm/v3";
   "envoy/extensions/filters/network/zookeeper_proxy/v3";
   "envoy/extensions/filters/udp/dns_filter/v3";
   "envoy/extensions/filters/udp/udp_proxy/session/dynamic_forward_proxy/v3";
   "envoy/extensions/filters/udp/udp_proxy/session/http_capsule/v3";
   "envoy/extensions/filters/udp/udp_proxy/v3"].

(** The other extensions. *)
Definition extension_protos : list string :=
  ["envoy/extensions/formatter/cel/v3";
   "envoy/extensions/formatter/metadata/v3";
   "envoy/extensions/formatter/req_without_query/v3";
   "envoy/extensions/geoip_providers/common/v3";
   "envoy/extensions/geoip_providers/maxmind/v3";
   "envoy/extensions/health_check/event_sinks/file/v3";
   "envoy/extensions/health_checkers/redis/v3";
   "envoy/extensions/health_checkers/thrift/v3";
   "envoy/extensions/http/cache/file_system_http_cache/v3";
   "envoy/extensions/http/cache/simple_http_cache/v3";
   "envoy/extensions/http/custom_response/local_response_policy/v3";
   "envoy/extensions/http/custom_response/redirect_policy/v3";
   "envoy/extensions/http/early_header_mutation/header_mutation/v3";
   "envoy/extensions/http/header_formatters/preserve_case/v3";
   "envoy/extensions/http/header_validators/envoy_default/v3";
   "envoy/extensions/http/injected_credentials/generic/v3";
   "envoy/extensions/http/injected_credentials/oauth2/v3";
   "envoy/extensions/http/original_ip_detection/custom_header/v3";
   "envoy/extensions/http/original_ip_detection/xff/v3";
   "envoy/extensions/http/stateful_session/cookie/v3";
   "envoy/extensions/http/stateful_session/header/v3";
   "envoy/extensions/internal_redirect/allow_listed_routes/v3";
   "envoy/extensions/internal_redirect/previous_routes/v3";
   "envoy/extensions/internal_redirect/safe_cross_scheme/v3";
   "envoy/extensions/key_value/file_based/v3";
   "envoy/extensions/load_balancing_policies/client_side_weighted_round_robin/v3";
   "envoy/extensions/load_balancing_policies/cluster_provided/v3";
   "envoy/extensions/load_balancing_policies/common/v3";
   "envoy/extensions/load_balancing_policies/least_request/v3";
   "envoy/extensions/load_balancing_policies/maglev/v3";
   "envoy/extensions/load_balancing_policies/pick_first/v3";
   "envoy/extensions/load_balancing_policies/random/v3";
   "envoy/extensions/load_balancing_policies/ring_hash/v3";
   "envoy/extensions/load_balancing_policies/round_robin/v3";
   "envoy/extensions/load_balancing_policies/subset/v3";
   "envoy/extensions/load_balancing_policies/wrr_locality/v3";
   "envoy/extensions/matching/common_inputs/environment_variable/v3";
   "envoy/extensions/matching/common_inputs/network/v3";
   "envoy/extensions/matching/common_inputs/ssl/v3";
   "envoy/extensions/matching/input_matchers/consistent_hashing/v3";
   "envoy/extensions/matching/input_matchers/ip/v3";
   "envoy/extensions/matching/input_matchers/runtime_fraction/v3";
   "envoy/extensions/network/dns_resolver/apple/v3";
   "envoy/extensions/network/dns_resolver/cares/v3";
   "envoy/extensions/network/dns_resolver/getaddrinfo/v3";
   "envoy/extensions/network/socket_interface/v3";
   "envoy/extensions/outlier_detection_monitors/common/v3";
   "envoy/extensions/outlier_detection_monitors/consecutive_errors/v3";
   "envoy/extensions/path/match/uri_template/v3";
   "envoy/extensions/path/rewrite/uri_template/v3";
   "envoy/extensions/quic/connection_id_generator/v3";
   "envoy/extensions/quic/crypto_stream/v3";
   "envoy/extensions/quic/proof_source/v3";
   "envoy/extensions/quic/server_preferred_address/v3";
   "envoy/extensions/rate_limit_descriptors/expr/v3";
   "envoy/extensions/rbac/audit_loggers/stream/v3";
   "envoy/extensions/rbac/matchers/upstream_ip_port/v3";
   "envoy/extensions/regex_engines/v3";
   "envoy/extensions/request_id/uuid/v3";
   "envoy/extensions/resource_monitors/downstream_connections/v3";
   "envoy/extensions/resource_monitors/fixed_heap/v3";
   "envoy/extensions/resource_monitors/injected_resource/v3";
   "envoy/extensions/retry/host/omit_canary_hosts/v3";
   "envoy/extensions/retry/host/omit_host_metadata/v3";
   "envoy/extensions/retry/host/previous_hosts/v3";
   "envoy/extensions/retry/priority/previous_priorities/v3";
   "envoy/extensions/router/cluster_specifiers/lua/v3";
   "envoy/extensions/stat_sinks/graphite_statsd/v3";
   "envoy/extensions/stat_sinks/open_telemetry/v3";
   "envoy/extensions/stat_sinks/wasm/v3";
   "envoy/extensions/string_matcher/lua/v3";
   "envoy/extensions/tracers/opentelemetry/resource_detectors/v3";
   "envoy/extensions/tracers/opentelemetry/samplers/v3";
   "envoy/extensions/transport_sockets/alts/v3";
   "envoy/extensions/transport_sockets/http_11_proxy/v3";
   "envoy/extensions/transport_sockets/internal_upstream/v3";
   "envoy/extensions/transport_sockets/proxy_protocol/v3";
   "envoy/extensions/transport_sockets/quic/v3";
   "envoy/extensions/transport_sockets/raw_buffer/v3";
   "envoy/extensions/transport_sockets/s2a/v3";
   "envoy/extensions/transport_sockets/starttls/v3";
   "envoy/extensions/transport_sockets/tap/v3";
   "envoy/extensions/transport_sockets/tcp_stats/v3";
   "envoy/extensions/transport_sockets/tls/v3";
   "envoy/extensions/udp_packet_writer/v3";
   "envoy/extensions/upstreams/http/generic/v3";
   "envoy/extensions/upstreams/http/http/v3";
   "envoy/extensions/upstreams/http/tcp/v3";
   "envoy/extensions/upstreams/http/udp/v3";
   "envoy/extensions/upstreams/http/v3";
   "envoy/extensions/upstreams/tcp/generic/v3";
   "envoy/extensions/upstreams/tcp/v3";
   "envoy/extensions/wasm/v3";
   "envoy/extensions/watchdog/profile_action/v3"].

(** Services and types. *)
Definition service_protos : list string :=
  ["envoy/service/accesslog/v3";
   "envoy/service/auth/v3";
   "envoy/service/cluster/v3";
   "envoy/service/discovery/v3";
   "envoy/service/endpoint/v3";
   "envoy/service/event_reporting/v3";
   "envoy/service/ext_proc/v3";
   "envoy/service/extension/v3";
   "envoy/service/health/v3";
   "envoy/service/listener/v3";
   "envoy/service/load_stats/v3";
   "envoy/service/metrics/v3";
   "envoy/service/rate_limit_quota/v3";
   "envoy/service/ratelimit/v3";
   "envoy/service/route/v3";
   "envoy/service/runtime/v3";
   "envoy/service/secret/v3";
   "envoy/service/status/v3";
   "envoy/service/tap/v3";
   "envoy/service/trace/v3";
   "envoy/type/http/v3";
   "envoy/type/matcher/v3";
   "envoy/type/metadata/v3";
   "envoy/type/tracing/v3";
   "envoy/type/v3";
   "envoy/watchdog/v3"].

Definition protos : list string := config_protos ++ filter_protos ++ extension_protos ++ service_protos.

Definition imports : list string := (λ proto, sourceModuleName +:+ "/" +:+ proto) <$> protos.

(** ** The generated imports *)

Lemma sort_Strings_unique l l' :
  NoDup l → NoDup l' → StronglySorted String.le l' → (∀ x, x ∈ l ↔ x ∈ l') → sort_Strings l = l'.
Proof.
  intros Hl Hl' Hs Hx. apply (StronglySorted_unique String.le).
  - apply (StronglySorted_merge_sort String.le).
  - done.
  - unfold sort_Strings. rewrite (merge_sort_Permutation String.le). by apply NoDup_Permutation.
Qed.

Lemma elem_of_sort_Strings x l : x ∈ sort_Strings l ↔ x ∈ l.
Proof. unfold sort_Strings. by rewrite (merge_sort_Permutation String.le). Qed.

(** The protos that a tree has files for. *)
Definition has_proto (apiVersion : string) (files : list string) (proto : string) : Prop :=
  ∃ file, file ∈ files ∧ proto_package apiVersion file = Some proto.

Lemma elem_of_index v files proto :
  proto ∈ elements (list_to_set (omap (proto_package v) files) : gset string) ↔ has_proto v files proto.
Proof.
  rewrite elem_of_elements, elem_of_list_to_set, list_elem_of_omap.
  unfold has_proto. naive_solver.
Qed.

Lemma elem_of_modules proto (l : list string) :
  sourceModuleName +:+ "/" +:+ proto ∈ (λ p, sourceModuleName +:+ "/" +:+ p) <$> l ↔ proto ∈ l.
Proof.
  rewrite list_elem_of_fmap. split; [|eauto].
  intros (p & Hp & Hin). apply (inj (String.append sourceModuleName)) in Hp.
  apply (inj (String.append "/")) in Hp. by subst.
Qed.

#[global] Instance module_inj : Inj eq eq (λ p, sourceModuleName +:+ "/" +:+ p).
Proof.
  intros p q H. apply (inj (String.append sourceModuleName)) in H. by apply (inj (String.append "/")) in H.
Qed.

Lemma NoDup_modules l : NoDup l → NoDup ((λ p, sourceModuleName +:+ "/" +:+ p) <$> l).
Proof. apply (NoDup_fmap_2 _). Qed.

(** Ascending lists, decided by their adjacent elements. *)
Fixpoint ascending (l : list string) : bool :=
  match l with
  | x :: (y :: _) as l' => bool_decide (String.le x y) && ascending l'
  | _ => true
  end.

Lemma ascending_sorted l : ascending l = true → StronglySorted String.le l.
Proof.
  intros Ha. apply (Sorted_StronglySorted _).
  induction l as [|x l IH]; [constructor|]. destruct l as [|y l]; [by repeat constructor|].
  simpl in Ha. apply andb_prop in Ha as [Hx Ha].
  constructor; [by apply IH|]. constructor. by apply bool_decide_eq_true in Hx.
Qed.

Lemma imports_sorted : StronglySorted String.le imports.
Proof. apply ascending_sorted. by vm_compute. Qed.

Lemma protos_NoDup : NoDup protos.
Proof. apply (bool_decide_unpack _). vm_compute. exact I. Qed.

(** The generated file of [pkg/envoy/protos/v3] is what the generator computes
    for the API version v3 from exactly the trees of the source module whose files
    of Go protobuf messages, below envoy/ or contrib/envoy/, are in the directories
    that the file lists: each of them has such a file and there is no other one.
    So the imports do not depend on the order in which the tree is read, nor on the
    order of Go's map of the directories. *)
Theorem imports_generated files :
  listProtoPackages "v3" files = imports ↔ ∀ proto, has_proto "v3" files proto ↔ proto ∈ protos.
Proof.
  unfold listProtoPackages. split.
  - intros Hl proto. rewrite <- elem_of_index, <- elem_of_modules, <- elem_of_sort_Strings.
    rewrite Hl. apply elem_of_modules.
  - intros Hp. apply sort_Strings_unique.
    + apply NoDup_modules, NoDup_elements.
    + apply NoDup_modules, protos_NoDup.
    + apply imports_sorted.
    + intros x. unfold imports. rewrite !list_elem_of_fmap.
      by setoid_rewrite (elem_of_index "v3" files); setoid_rewrite Hp.
Qed.

(** A small tree: files of other versions, other kinds and other directories are
    left out, and a directory counts once. *)
Example some_tree :
  listProtoPackages "v3"
    ["README.md"; "envoy/type/v3/range.pb.go"; "envoy/config/core/v2/address.pb.go";
     "envoy/config/core/v3/BUILD"; "pkg/cache/v3/cache.pb.go"; "envoy/admin/v3/certs.pb.go";
     "envoy/type/v3/range.pb.validate.go"; "envoy/type/v3/percent.pb.go";
     "contrib/envoy/extensions/filters/http/squash/v3/squash.pb.go"] =
  [sourceModuleName +:+ "/contrib/envoy/extensions/filters/http/squash/v3";
   sourceModuleName +:+ "/envoy/admin/v3"; sourceModuleName +:+ "/envoy/type/v3"].
Proof. by vm_compute. Qed.

(** The version of go.mod is a commit. *)
Example go_mod_version :
  inspectVersion [(sourceModuleName, "v0.12.1-0.20240509201933-132c0a31ab09")] = Ok ("132c0a31ab09", true) ∧
  inspectVersion [(sourceModuleName, "v0.12.0")] = Ok ("v0.12.0", false).
Proof. by vm_compute. Qed.

(** ** The buffered writer *)

Lemma substring_all s n : (String.length s ≤ n)%nat → String.substring 0 n s = s.
Proof.
  revert n. induction s as [|c s IH]; intros [|n] Hn; simpl in *; try done; [lia|].
  f_equal. apply IH. lia.
Qed.

(** A string is its first [n] bytes and the other ones. *)
Lemma substring_split n s :
  (n ≤ String.length s)%nat →
  String.substring 0 n s +:+ String.substring n (String.length s - n) s = s.
Proof.
  revert n. induction s as [|c s IH]; intros n Hn; simpl in *.
  - by replace n with 0%nat by lia.
  - destruct n as [|n].
    + change (String.substring 0 (String.length (String c s)) (String c s) = String c s).
      by apply substring_all.
    + simpl. change (String c (String.substring 0 n s +:+ String.substring n (String.length s - n) s) = String c s).
      f_equal. apply IH. lia.
Qed.

(** All that has been written, in the file or held back. *)
Definition written (w : Writer) : string := wr_File w +:+ wr_Buffer w.

Definition within (w : Writer) : Prop := (String.length (wr_Buffer w) ≤ bufio_size)%nat.

Lemma bufio_Write_written w p : written (bufio_Write w p) = written w +:+ p.
Proof.
  unfold bufio_Write, written. case_decide as Hp; simpl.
  { by rewrite string_app_assoc. }
  case_decide as Hb; simpl.
  { by rewrite Hb, !string_app_nil_r. }
  set (n := (bufio_size - String.length (wr_Buffer w))%nat) in *.
  assert (String.substring 0 n p +:+ String.substring n (String.length p - n) p = p) as Hs.
  { apply substring_split. lia. }
  case_decide; simpl; rewrite ?string_app_nil_r, !string_app_assoc, Hs; done.
Qed.

Lemma bufio_Write_within w p : within w → within (bufio_Write w p).
Proof.
  unfold bufio_Write, within. intros Hw. case_decide as Hp; simpl.
  { rewrite length_app_string. lia. }
  case_decide; simpl; [lia|]. case_decide; simpl; lia.
Qed.

(** Nothing reaches the file while all fits. *)
Lemma bufio_Write_holds w p :
  wr_File w = "" → (String.length (written w) + String.length p ≤ bufio_size)%nat →
  wr_File (bufio_Write w p) = "".
Proof.
  unfold bufio_Write, written. rewrite length_app_string. intros Hf Hl.
  rewrite decide_True by lia. done.
Qed.

Definition text (chunks : list string) : string := foldr String.append "" chunks.

Lemma bufio_Writes chunks : ∀ w,
  within w →
  let w' := fold_left bufio_Write chunks w in
  written w' = written w +:+ text chunks ∧ within w' ∧
  (wr_File w = "" → (String.length (written w) + String.length (text chunks) ≤ bufio_size)%nat →
   wr_File w' = "").
Proof.
  induction chunks as [|p chunks IH]; intros w Hw; simpl.
  { by rewrite string_app_nil_r. }
  destruct (IH (bufio_Write w p)) as (Hwr & Hin & Hh); [by apply bufio_Write_within|].
  rewrite Hwr, bufio_Write_written, string_app_assoc. split; [done|]. split; [done|].
  intros Hf. rewrite length_app_string. intros Hl.
  apply Hh; [apply bufio_Write_holds; [done|lia]|]. rewrite bufio_Write_written, length_app_string. lia.
Qed.

(** ** The generated files *)

Section GeneratedFiles.
Context {F : FlagLine} {C : Cobra} {J : Jennifer} {P : Permissions} {M : SourceModule}.
Implicit Types (disk : gmap string string) (f : PkgEnvoyProto.ProtoFlags).

Lemma writePackageFile_file disk f l chunks :
  open_error (PkgEnvoyProto.packageFile f) = None →
  Render (mkPackage (PkgEnvoyProto.packageName f) l []) = (chunks, None) →
  ∃ file lost,
    PkgEnvoyProto.writePackageFile disk f l = (Ok tt, <[PkgEnvoyProto.packageFile f := file]> disk) ∧
    text chunks = file +:+ lost ∧ (String.length lost ≤ bufio_size)%nat ∧
    ((String.length (text chunks) ≤ bufio_size)%nat → file = "") ∧
    (∀ src, chunks = [src] → (bufio_size < String.length src)%nat → file = src).
Proof.
  intros Ho Hr. unfold PkgEnvoyProto.writePackageFile. rewrite Ho, Hr. simpl.
  destruct (bufio_Writes chunks bufio_NewWriter) as (Hw & Hin & Hh); [apply Nat.le_0_l|].
  eexists _, (wr_Buffer (fold_left bufio_Write chunks bufio_NewWriter)).
  split; [done|]. split; [by symmetry|]. split; [done|]. split; [by apply Hh|].
  intros src -> Hs. unfold fold_left, bufio_Write.
  case_decide as Hc; [|done]. cbn [wr_Buffer bufio_NewWriter String.length] in Hc. lia.
Qed.

(** The generator of the imports never flushes its buffered writer.  What it
    leaves in the package file, over whatever was there, is the source without the
    end that is still in the buffer, at most 4096 bytes: the whole source if it is
    printed in one piece of more than 4096 bytes (as it is today), and nothing at
    all if it has at most 4096 bytes, while the program succeeds in both cases. *)
Theorem generated_file disk f body requires version isPseudoVersion files chunks
    (Hbody : disk !! PkgEnvoyProto.gomodFile f = Some body)
    (Hparse : modfile_Parse body = inr requires)
    (Hversion : inspectVersion requires = Ok (version, isPseudoVersion))
    (Htree : tree_Files version isPseudoVersion = inr files)
    (Hopen : open_error (PkgEnvoyProto.packageFile f) = None)
    (Hrender : Render (mkPackage (PkgEnvoyProto.packageName f)
                         (listProtoPackages (PkgEnvoyProto.apiVersion f) files) []) = (chunks, None)) :
  ∃ file lost,
    PkgEnvoyProto.generate disk f = (Ok tt, <[PkgEnvoyProto.packageFile f := file]> disk) ∧
    text chunks = file +:+ lost ∧ (String.length lost ≤ bufio_size)%nat ∧
    ((String.length (text chunks) ≤ bufio_size)%nat → file = "") ∧
    (∀ src, chunks = [src] → (bufio_size < String.length src)%nat → file = src).
Proof.
  unfold PkgEnvoyProto.generate, ReadFile. rewrite Hbody. simpl. rewrite Hparse. simpl.
  rewrite Hversion. simpl. rewrite Htree. by apply writePackageFile_file.
Qed.

(** Without a failure before it, the other generators write the whole source. *)
Lemma version_file disk (f : PkgVersion.VersionFlags) chunks :
  open_error (PkgVersion.packageFile f) = None →
  Render (mkPackage (PkgVersion.packageName f) [] [("version", "v" +:+ PkgVersion.version f)]) = (chunks, None) →
  PkgVersion.generate_version disk f = (Ok tt, <[PkgVersion.packageFile f := text chunks]> disk).
Proof.
  intros Ho Hr. unfold PkgVersion.generate_version. rewrite Ho, Hr. simpl.
  destruct (bufio_Writes chunks bufio_NewWriter) as (Hw & _); [apply Nat.le_0_l|].
  change (wr_File ?w +:+ wr_Buffer ?w) with (written w). by rewrite Hw.
Qed.

Lemma image_file disk (f : PkgImage.ImageFlags) chunks :
  open_error (PkgImage.packageFile f) = None →
  Render (mkPackage (PkgImage.packageName f) [] [("image", PkgImage.image f)]) = (chunks, None) →
  PkgImage.generate_image disk f = (Ok tt, <[PkgImage.packageFile f := text chunks]> disk).
Proof.
  intros Ho Hr. unfold PkgImage.generate_image. rewrite Ho, Hr. simpl.
  destruct (bufio_Writes chunks bufio_NewWriter) as (Hw & _); [apply Nat.le_0_l|].
  change (wr_File ?w +:+ wr_Buffer ?w) with (written w). by rewrite Hw.
Qed.

(** The [go:generate] line of [pkg/version] with the version of the release: the
    generated package defines what [version_Current] returns. *)
Lemma version_generated {L : FlagLineLaws F} disk chunks :
  open_error "zz_generated.go" = None →
  Render (mkPackage "version" [] [("version", version_Current)]) = (chunks, None) →
  PkgVersion.version_main disk ["--version=0.13.1"] = (Ok tt, <["zz_generated.go" := text chunks]> disk).
Proof.
  intros Ho Hr. unfold PkgVersion.version_main, PkgVersion.version_flags.
  change ["--version=0.13.1"] with (flag_item <$> [("version", Some "0.13.1")]).
  rewrite line_items; [|by apply NoDup_singleton|].
  - by apply version_file.
  - repeat constructor. apply (bool_decide_unpack _). by vm_compute.
Qed.
End GeneratedFiles.

(** ** Concrete runs *)

Module GeneratorRuns.
(** A printer that writes the names only, in one piece. *)
#[local] Instance print_names : Jennifer := {|
  Render p := ([pkg_Name p +:+ " " +:+ Join (pkg_Anon p) " "], None) |}.
#[local] Instance writable : Permissions := {| open_error _ := None |}.
#[local] Instance one_file : SourceModule := {|
  modfile_Parse body := inr [(sourceModuleName, body)];
  tree_Files version isPseudoVersion :=
    if decide (version = "132c0a31ab09") then inr ["envoy/type/v3/range.pb.go"]
    else inl (ErrorString "reference not found") |}.

Definition run_flags := PkgEnvoyProto.mkProtoFlags "v3" "zz_generated.go" "go.mod" "envoy".
Definition checkout : gmap string string :=
  {[ "go.mod" := "v0.12.1-0.20240509201933-132c0a31ab09"; "zz_generated.go" := "old" ]}.

Lemma generated_file_witness :
  ∃ file lost,
    PkgEnvoyProto.generate checkout run_flags = (Ok tt, <["zz_generated.go" := file]> checkout) ∧
    "envoy github.com/envoyproxy/go-control-plane/envoy/type/v3" = file +:+ lost ∧ file = "".
Proof.
  destruct (generated_file checkout run_flags "v0.12.1-0.20240509201933-132c0a31ab09"
              [(sourceModuleName, "v0.12.1-0.20240509201933-132c0a31ab09")] "132c0a31ab09" true
              ["envoy/type/v3/range.pb.go"]
              ["envoy github.com/envoyproxy/go-control-plane/envoy/type/v3"])
    as (file & lost & Hg & Ht & _ & He & _); [by vm_compute..|].
  exists file, lost. split; [exact Hg|]. split; [exact Ht|]. apply He.
  apply (bool_decide_unpack _). by vm_compute.
Defined.
End GeneratorRuns.
