(* ===== verification/GenCert.v ===== *)
(** * The script that issues test certificates ([hack/gen_cert.go])

    [run] is the whole command: the flags, the times, the optional signer, the
    call of [GenerateCertificate] and the files or the standard output.  The
    operations of the crypto libraries are those of [Certificates]; the parser of
    times is a parameter.  [certificate_validity] says which certificates it
    writes, and for which period they are valid. *)

From S2P Require Import Prelude Flags Generators Meta Certificates.
#[local] Open Scope string_scope.
#[local] Open Scope list_scope.

(** [Time.Sub]: the difference, or the duration closest to it. *)
Definition Sub (t u : Time) : Z := Z.max (- 2 ^ 63) (Z.min (2 ^ 63 - 1) (t - u))%Z.

Record GenCertFlags := mkGenCertFlags {
  signerCertPath : string;
  signerKeyPath : string;
  commonName : string;
  notBefore : string;
  notAfter : string;
  isServer : bool;
  isCA : bool;
  keySize : Z;
  outFileName : string;
}.

Section Flags.
Context {F : FlagSet} {FL : FlagLine} {C : Cobra}.

Definition gen_cert_flags (args : list string) : error + GenCertFlags :=
  m ← ParseLine ["signer-cert"; "signer-key"; "common-name"; "not-before"; "not-after"; "key-size"; "out"]
        ["is-server-certificate"; "is-ca-certificate"] args;
  server ← BoolVar m "is-server-certificate" false;
  ca ← BoolVar m "is-ca-certificate" false;
  size ← IntVar m "key-size" 2048%Z;
  _ ← required m ["not-before"; "not-after"];
  inr (mkGenCertFlags (StringVar m "signer-cert" "") (StringVar m "signer-key" "")
         (StringVar m "common-name" "localhost") (StringVar m "not-before" "")
         (StringVar m "not-after" "") server ca size (StringVar m "out" "")).
End Flags.

Definition newline : string := String "010"%char "".

(** [time.Parse] of the format RFC3339. *)
Class TimeParser := { ParseRFC3339 : string → error + Time }.

Section Program.
Context {K : Crypto} {T : TimeParser} {P : Permissions}.
Implicit Types (disk : gmap string string).

(** [panic(err)]. *)
Definition or_panic {A} (r : error + A) : result A :=
  match r with inr a => Ok a | inl _ => Panic end.

Definition no_error {A} (r : result A) : result A :=
  match r with Ok a => Ok a | _ => Panic end.

Definition issuer disk (f : GenCertFlags) : result (option (X509 * PrivateKey)) :=
  if decide (signerCertPath f ≠ "" ∧ signerKeyPath f ≠ "") then
    scb ← or_panic (ReadFile disk (signerCertPath f));
    issuerCert ← no_error (LoadX509Certificate scb);
    skb ← or_panic (ReadFile disk (signerKeyPath f));
    issuerKey ← no_error (DecodePrivateKeyBytes skb);
    Ok (Some (issuerCert, issuerKey))
  else Ok None.

(** [ioutil.WriteFile]. *)
Definition WriteFile disk (path contents : string) : result unit * gmap string string :=
  match open_error path with
  | Some _ => (Panic, disk)
  | None => (Ok tt, <[path := contents]> disk)
  end.

Definition certificate (now : Time) (rnd : Rand) disk (f : GenCertFlags) : result (string * string) :=
  before ← or_panic (ParseRFC3339 (notBefore f));
  after ← or_panic (ParseRFC3339 (notAfter f));
  issuer ← issuer disk f;
  no_error (GenerateCertificate now rnd issuer (commonName f) (Sub after before)
              (isServer f) (isCA f) (if isServer f then [commonName f] else [])).

(** The outcome, the files and the standard output. *)
Definition run (now : Time) (rnd : Rand) disk (f : GenCertFlags) : result unit * gmap string string * string :=
  match certificate now rnd disk f with
  | Ok (crt, key) =>
     if decide (outFileName f ≠ "") then
       match WriteFile disk (outFileName f +:+ ".crt") crt with
       | (Ok _, disk) => (WriteFile disk (outFileName f +:+ ".key") key, "")
       | r => (r, "")
       end
     else (Ok tt, disk, newline +:+ crt +:+ newline +:+ key +:+ newline)
  | Err err => (Err err, disk, "")
  | Panic => (Panic, disk, "")
  end.
End Program.

(** ** The certificates of the script *)

Section Certificate.
Context {K : Crypto} {KL : CryptoLaws K} {T : TimeParser} {P : Permissions}.
Implicit Types (disk : gmap string string).

Lemma certificate_issued_for now rnd disk f crt key b a :
  certificate now rnd disk f = Ok (crt, key) →
  ParseRFC3339 (notBefore f) = inr b → ParseRFC3339 (notAfter f) = inr a →
  ∃ i, issuer disk f = Ok i ∧ issued_for now (Sub a b) (isCA f) i crt.
Proof.
  unfold certificate. intros Hc Hb Ha. rewrite Hb, Ha in Hc. simpl in Hc.
  destruct (issuer disk f) as [i| |]; [|done..]. simpl in Hc.
  destruct (GenerateCertificate _ _ _ _ _ _ _ _) as [[crt' key']| |] eqn:Eg; [|done..].
  injection Hc as -> ->. exists i. split; [done|]. by apply GenerateCertificate_issued in Eg.
Qed.

(** A run of the script that ends without a panic has issued a certificate,
    and written it with its key, to the two files of the output or to the standard
    output.  The certificate verifies against the signer of the flags, or against
    itself when one of the two paths is missing.  The period between the times of
    the flags is only the length of its validity (a length over 292 years is cut):
    it is valid from the time of the run, not from --not-before, and it ends at
    --not-after only if the run is at --not-before. *)
Theorem certificate_validity now rnd disk f disk' out b a
    (Hrun : run now rnd disk f = (Ok tt, disk', out))
    (Hb : ParseRFC3339 (notBefore f) = inr b) (Ha : ParseRFC3339 (notAfter f) = inr a) :
  ∃ crt key i,
    issuer disk f = Ok i ∧
    (signerCertPath f = "" ∨ signerKeyPath f = "" ↔ i = None) ∧
    issued_for now (Sub a b) (isCA f) i crt ∧
    (if decide (outFileName f = "")
     then disk' = disk ∧ out = newline +:+ crt +:+ newline +:+ key +:+ newline
     else disk' !! (outFileName f +:+ ".crt") = Some crt ∧ disk' !! (outFileName f +:+ ".key") = Some key ∧
          out = "").
Proof.
  unfold run in Hrun.
  destruct (certificate now rnd disk f) as [[crt key]| |] eqn:Ec; [|done..].
  destruct (certificate_issued_for _ _ _ _ _ _ _ _ Ec Hb Ha) as (i & Hi & Hv).
  exists crt, key, i. split; [done|]. split; [|split; [done|]].
  - unfold issuer in Hi. case_decide as Hs.
    + destruct (or_panic (ReadFile disk (signerCertPath f))); [|done..]. simpl in Hi.
      destruct (no_error (LoadX509Certificate _)); [|done..]. simpl in Hi.
      destruct (or_panic (ReadFile disk (signerKeyPath f))); [|done..]. simpl in Hi.
      destruct (no_error (DecodePrivateKeyBytes _)); [|done..]. simpl in Hi.
      injection Hi as <-. naive_solver.
    + injection Hi as <-. split; [done|]. intros _.
      destruct (decide (signerCertPath f = "")); [by left|]. right. apply dec_stable. naive_solver.
  - unfold WriteFile in Hrun. destruct (decide (outFileName f = "")) as [Ho|Ho].
    + rewrite decide_False in Hrun by naive_solver. by injection Hrun as <- <-.
    + rewrite decide_True in Hrun by done.
      destruct (open_error (outFileName f +:+ ".crt")); [done|].
      destruct (open_error (outFileName f +:+ ".key")); [done|]. injection Hrun as <- <-.
      rewrite lookup_insert_eq, lookup_insert_ne, lookup_insert_eq; [done|].
      intros He. by apply (inj (String.append (outFileName f))) in He.
Qed.
End Certificate.

(** ** Concrete runs *)

Module GenCertRuns.
#[local] Existing Instance CertificateRuns.toy_crypto.

(** Times as numbers of seconds. *)
#[local] Instance seconds : TimeParser := {|
  ParseRFC3339 s := match Atoi s with
                    | Some n => inr (n * Second)%Z
                    | None => inl (ErrorString "cannot parse")
                    end |}.
#[local] Instance writable : Permissions := {| open_error _ := None |}.
#[local] Existing Instance pflag_impl.
#[local] Existing Instance pflag_line.
#[local] Instance missing_flags : Cobra := {| MissingFlags names := ErrorString (Join names ", ") |}.

(** The arguments of a test of the repository, with shorter times. *)
Definition args : list string :=
  ["--not-before=1000"; "--not-after=1100"; "--key-size=512"; "--out=tls"].

Definition script_flags : GenCertFlags :=
  mkGenCertFlags "" "" "localhost" "1000" "1100" false false 512 "tls".

Example args_flags : gen_cert_flags args = inr script_flags.
Proof. by vm_compute. Qed.

(** The not-after flag is required. *)
Example missing_not_after :
  gen_cert_flags ["--not-before=1000"] = inl (ErrorString "not-after").
Proof. by vm_compute. Qed.

Definition outcome : result unit * gmap string string * string :=
  run (5000 * Second)%Z CertificateRuns.seed ∅ script_flags.

(** A run at second 5000 issues a certificate for the seconds 5000 to 5100. *)
Lemma certificate_validity_witness :
  fst (fst outcome) = Ok tt ∧
  ∃ crt c, snd (fst outcome) !! "tls.crt" = Some crt ∧ LoadX509Certificate crt = Ok c ∧
    x_NotBefore c = (5000 * Second)%Z ∧ x_NotAfter c = (5100 * Second)%Z.
Proof.
  assert (fst (fst outcome) = Ok tt) as Hok by by vm_compute.
  destruct (certificate_validity (5000 * Second)%Z CertificateRuns.seed ∅ script_flags
              (snd (fst outcome)) (snd outcome) (1000 * Second)%Z (1100 * Second)%Z)
    as (crt & key & i & _ & _ & (c & Hl & Hb & Ha & _) & Hd & _).
  - rewrite <- Hok, <- !surjective_pairing. reflexivity.
  - by vm_compute.
  - by vm_compute.
  - split; [exact Hok|]. exists crt, c. split; [exact Hd|]. split; [exact Hl|].
    rewrite Hb, Ha. by vm_compute.
Defined.
End GenCertRuns.
