(* ===== verification/OperatorPlane.v ===== *)
(** * The operator plane together

    The certificates ([PkiChain]), the discovery service in its pod ([Startup])
    and the pods of EnvoyDeployments ([EnvoyDeployments]) are generated by
    different controllers.  [clients_connect] puts them together: the Envoy
    proxies find the discovery service and it accepts them. *)

From S2P Require Import Prelude Meta Envoy Api Stats Discover Snapshot CacheReconciler.
From S2P Require Import OperatorTypes Flags Container Sidecar OperatorObjects EnvoyDeployments.
From S2P Require Import DiscoveryServices Certificates PkiChain Startup.
#[local] Open Scope string_scope.
#[local] Open Scope list_scope.

Section Plane.
Context {P : Process} {HC : HealthClient}.
Context {K : Crypto} {KL : CryptoLaws K} {KY : KeyLaws K} {T : TLS K} {TL : TLSLaws KL T}.
Context {HL : HealthClientLaws HC}.
Context {RK : ReliableCrypto K} {W : Type} {CC : CertificateClient W} {CL : CertificateClientLaws CC}.
Context {RS : ReliableSecrets CL}.
Context {XC SC : Type} {SL : SnapshotCache XC} {GC : GoCache SC}.
Context {F : FlagSet} {FLaws : FlagSetLaws F} {FL : FlagLine} {LL : FlagLineLaws FL} {E : Environment}.
Variable Hash_bytes : string → string.
Implicit Types (ds : DiscoveryService) (eds : list (EnvoyDeployment * EnvoyConfig)).

(** The proxies of an EnvoyDeployment reach the discovery service [p] of [ds]:
    they connect to the generated Service at the port [p] listens at, with a
    certificate from the Secret in their pod, which [p] accepts while it
    and the certificate of the authority are valid. *)
Definition connects ds (p : DiscoveryServiceProcess XC SC) (secrets : gmap NamespacedName K8sSecret)
    (now : Time) (e : EnvoyDeployment * EnvoyConfig) : Prop :=
  let gen := EnvoyDeployments.generator_options (fst e) ds (snd e) in
  let leaf := dscDefaulter (EnvoyDeployments.ClientCertificate gen) in
  XdssAdress gen = ResourceName (ds_options ds) +:+ "." +:+ om_Namespace (ds_Meta ds) +:+ ".svc" ∧
  XdssPort gen = xDSPort (dp_Xds p) ∧
  ∃ s c, secrets !! mkKey (EnvoyDeployments.Namespace gen) (cc_ClientCertSecret (container_config gen)) = Some s ∧
    stores_pair s c ∧
    ∀ t, (now ≤ t)%Z → (t ≤ truncate_seconds (now + valid_for (root_certificate ds)))%Z →
      (t ≤ truncate_seconds (now + valid_for leaf))%Z →
      tls_VerifyClient t (tls_ClientCAs (tlsConfig (dp_Xds p))) c = None.

Lemma truncate_le t : (truncate_seconds t ≤ t)%Z.
Proof.
  unfold truncate_seconds. pose proof (Z.mul_div_le t Second). unfold Second in *. lia.
Qed.

Lemma made_valid dsc now issuer s c k t :
  made dsc now issuer s c k → (now ≤ t)%Z → (t ≤ truncate_seconds (now + valid_for dsc))%Z → valid_at t c.
Proof.
  intros Hm Hn Ht. destruct (made_loads Hash_bytes _ _ _ _ _ _ Hm) as (_ & _ & _ & _ & _ & _ & Hb & Ha).
  unfold valid_at. rewrite Hb, Ha. pose proof (truncate_le now). lia.
Qed.

Lemma client_connects ds p w' now root_issuer sr cr kr cs e :
  root_issuer = Some (cr, kr) →
  made (root_certificate ds) now None sr cr kr →
  tlsConfig (dp_Xds p) = server_tls cs [cr] → xDSPort (dp_Xds p) = GetXdsServerPort ds →
  om_Namespace (ed_Meta (fst e)) = om_Namespace (ds_Meta ds) →
  GetServiceConfig ds = defaultServiceConfig ds →
  holds now w' root_issuer (dscDefaulter (EnvoyDeployments.ClientCertificate
    (EnvoyDeployments.generator_options (fst e) ds (snd e)))) →
  connects ds p (secrets w') now e.
Proof.
  intros -> Hr Htls Hport Hns Hsc (s & c & k & Hs & Hm). split.
  { simpl. rewrite Hsc. reflexivity. }
  split; [by rewrite Hport|]. exists s, c.
  destruct (made_loads Hash_bytes _ _ _ _ _ _ Hm) as (_ & _ & Hpair & _).
  split; [exact Hs|]. split; [done|]. intros t Hn Ht Hl. rewrite Htls. simpl.
  eapply client_accepted; [exact Hr|exact Hm|done..|by left| |].
  - by eapply made_valid.
  - by eapply made_valid.
Qed.

End Plane.

(** ** An operator plane *)

Module PlaneRuns.
Import ChainRuns StartupRuns.
#[local] Existing Instance CertificateRuns.memory_secrets.
#[local] Existing Instance ChainRuns.environment.
#[local] Existing Instance memory_snapshot_cache.
#[local] Existing Instance memory_cache_impl.
#[local] Existing Instance pflag_impl.
#[local] Existing Instance pflag_line.

End PlaneRuns.
