(* ===== verification/DeepCopy.v ===== *)
(** * Deep copies: memory and the copiers of one type
    ([apis/*/v1alpha1/zz_generated.deepcopy.go])

    The rest of the development has no references: a Go pointer is an [option],
    a slice a list.  The generated deep copies are about references only, so
    here is a memory.  A value may hold references to cells of it; [reads] says
    what tree a value stands for and which cells it is made of; [Copies T c] is
    the contract of the deep copy [c] of the type [T]: it succeeds, the copy
    stands for the same tree, and none of its cells existed before.  The
    statements of the generated functions are combinators, each with the lemma
    that it meets the contract.  The functions are in [DeepCopyTypes]. *)

From S2P Require Import Prelude.
#[local] Open Scope string_scope.
#[local] Open Scope list_scope.

(** ** Memory *)

Definition loc := positive.

Inductive Basic := BString (s : string) | BInt (z : Z) | BBool (b : bool).

(** [VRef] is a pointer, or the reference to its array that a slice is. *)
Inductive Val :=
  | VBasic (b : Basic)
  | VRef (r : option loc)
  | VArray (vs : list Val)
  | VStruct (fs : list (string * Val)).

Definition Mem := gmap loc Val.

(** [new] and [make]. *)
Definition alloc (v : Val) (mem : Mem) : loc * Mem :=
  let l := fresh (dom mem) in (l, <[l := v]> mem).

(** What a value stands for. *)
Inductive Tree :=
  | Leaf (b : Basic)
  | Nil
  | Ref (t : Tree)
  | Arr (ts : list Tree)
  | Node (fs : list (string * Tree)).

(** [reads mem v t L]: in [mem], [v] stands for [t] and reaches the cells [L]. *)
Inductive reads (mem : Mem) : Val → Tree → gset loc → Prop :=
  | reads_basic b : reads mem (VBasic b) (Leaf b) ∅
  | reads_nil : reads mem (VRef None) Nil ∅
  | reads_ref l v t L : mem !! l = Some v → reads mem v t L → reads mem (VRef (Some l)) (Ref t) ({[l]} ∪ L)
  | reads_array vs ts L : reads_list mem vs ts L → reads mem (VArray vs) (Arr ts) L
  | reads_struct fs ts L : fs.*1 = ts.*1 → reads_list mem fs.*2 ts.*2 L → reads mem (VStruct fs) (Node ts) L
with reads_list (mem : Mem) : list Val → list Tree → gset loc → Prop :=
  | reads_list_nil : reads_list mem [] [] ∅
  | reads_list_cons v vs t ts L L' :
     reads mem v t L → reads_list mem vs ts L' → reads_list mem (v :: vs) (t :: ts) (L ∪ L').
Scheme reads_mut := Induction for reads Sort Prop
  with reads_list_mut := Induction for reads_list Sort Prop.
Combined Scheme reads_both from reads_mut, reads_list_mut.

(** Only the cells that are reached matter. *)
Lemma reads_frame_both mem mem' :
  (∀ v t L, reads mem v t L → (∀ l, l ∈ L → mem' !! l = mem !! l) → reads mem' v t L) ∧
  (∀ vs ts L, reads_list mem vs ts L → (∀ l, l ∈ L → mem' !! l = mem !! l) → reads_list mem' vs ts L).
Proof.
  apply (reads_both mem (λ v t L _, (∀ l, l ∈ L → mem' !! l = mem !! l) → reads mem' v t L)
    (λ vs ts L _, (∀ l, l ∈ L → mem' !! l = mem !! l) → reads_list mem' vs ts L)).
  - constructor.
  - constructor.
  - intros l v t L Hl _ IH H. eapply (reads_ref _ l v); [by rewrite H by set_solver|]. apply IH. set_solver.
  - intros vs ts L _ IH H. constructor. by apply IH.
  - intros fs ts L Hn _ IH H. constructor; [done|]. by apply IH.
  - constructor.
  - intros v vs t ts L L' _ IH _ IH' H. constructor; [apply IH|apply IH']; set_solver.
Qed.

Lemma reads_frame mem mem' v t L :
  reads mem v t L → (∀ l, l ∈ L → mem' !! l = mem !! l) → reads mem' v t L.
Proof. apply reads_frame_both. Qed.

(** Every cell that is reached exists. *)
Lemma reads_dom_both mem :
  (∀ v t L, reads mem v t L → L ⊆ dom mem) ∧ (∀ vs ts L, reads_list mem vs ts L → L ⊆ dom mem).
Proof.
  apply (reads_both mem (λ _ _ L _, L ⊆ dom mem) (λ _ _ L _, L ⊆ dom mem)); try set_solver.
  intros l v t L Hl _ IH. apply elem_of_dom_2 in Hl. set_solver.
Qed.

Lemma reads_dom mem v t L : reads mem v t L → L ⊆ dom mem.
Proof. apply reads_dom_both. Qed.

Lemma reads_mono mem mem' v t L : mem ⊆ mem' → reads mem v t L → reads mem' v t L.
Proof.
  intros Hm H. eapply reads_frame; [done|]. intros l Hl. apply (reads_dom _ _ _ _ H) in Hl.
  apply elem_of_dom in Hl as [x Hx]. etrans; [by eapply lookup_weaken|done].
Qed.

(** A list of values and what each stands for. *)
Lemma reads_list_elim mem vs ts L :
  reads_list mem vs ts L → Forall2 (λ v t, ∃ L', reads mem v t L' ∧ L' ⊆ L) vs ts.
Proof.
  revert ts L. induction vs as [|v vs IH]; intros ts L H; inversion H; subst; [done|]. constructor.
  - eexists. split; [done|set_solver].
  - eapply Forall2_impl; [by apply IH|]. intros ?? (L3 & ? & ?). exists L3. split; [done|set_solver].
Qed.

Lemma reads_list_intro mem D vs ts :
  Forall2 (λ v t, ∃ L, reads mem v t L ∧ L ## D) vs ts → ∃ L, reads_list mem vs ts L ∧ L ## D.
Proof.
  induction 1 as [|v t vs ts (L & H & HL) _ (L' & H' & HL')]; [exists ∅; split; [constructor|set_solver]|].
  exists (L ∪ L'). split; [by constructor|set_solver].
Qed.

(** An executable reader, for values of bounded depth. *)
Fixpoint read_list (f : Val → option (Tree * gset loc)) (vs : list Val) : option (list Tree * gset loc) :=
  match vs with
  | [] => Some ([], ∅)
  | v :: vs => '(t, L) ← f v; '(ts, L') ← read_list f vs; Some (t :: ts, L ∪ L')
  end.

Fixpoint read (n : nat) (mem : Mem) (v : Val) : option (Tree * gset loc) :=
  match n with
  | O => None
  | S n =>
     match v with
     | VBasic b => Some (Leaf b, ∅)
     | VRef None => Some (Nil, ∅)
     | VRef (Some l) => x ← mem !! l; '(t, L) ← read n mem x; Some (Ref t, {[l]} ∪ L)
     | VArray vs => '(ts, L) ← read_list (read n mem) vs; Some (Arr ts, L)
     | VStruct fs => '(ts, L) ← read_list (read n mem) fs.*2; Some (Node (zip fs.*1 ts), L)
     end
  end.

Lemma read_list_sound mem f vs ts L :
  (∀ v t L, f v = Some (t, L) → reads mem v t L) → read_list f vs = Some (ts, L) → reads_list mem vs ts L.
Proof.
  intros Hf. revert ts L. induction vs as [|v vs IH]; intros ts L H; simpl in H.
  - injection H as <- <-. constructor.
  - destruct (f v) as [[t L1]|] eqn:Ef; [|done]. simpl in H.
    destruct (read_list f vs) as [[ts' L2]|] eqn:El; [|done]. injection H as <- <-.
    constructor; [by apply Hf|by apply IH].
Qed.

Lemma read_sound n mem v t L : read n mem v = Some (t, L) → reads mem v t L.
Proof.
  revert v t L. induction n as [|n IH]; intros v t L H; [done|]. simpl in H.
  destruct v as [b|[l|]|vs|fs].
  - injection H as <- <-. constructor.
  - destruct (mem !! l) as [x|] eqn:El; [|done]. simpl in H.
    destruct (read n mem x) as [[t' L']|] eqn:Ex; [|done]. injection H as <- <-.
    apply (reads_ref _ l x); [done|by apply IH].
  - injection H as <- <-. constructor.
  - destruct (read_list _ vs) as [[ts L']|] eqn:El; [|done]. injection H as <- <-.
    constructor. by eapply read_list_sound.
  - destruct (read_list _ fs.*2) as [[ts L']|] eqn:El; [|done]. injection H as <- <-.
    apply read_list_sound with (mem := mem) in El; [|done].
    assert (length fs.*1 = length ts) as Hlen
      by (apply reads_list_elim, Forall2_length in El; rewrite <- El; by rewrite !length_fmap).
    constructor; rewrite ?fst_zip, ?snd_zip by lia; done.
Qed.

(** ** Types *)

(** [TFlat]: basic types, and library types without references. *)
Inductive GoType :=
  | TFlat
  | TLib (name : string)
  | TPtr (T : GoType)
  | TSlice (T : GoType)
  | TStruct (fs : list (string * GoType)).

Fixpoint no_refs (t : Tree) : bool :=
  match t with
  | Leaf _ => true
  | Nil | Ref _ => false
  | Arr ts => forallb no_refs ts
  | Node fs => forallb (λ ft, no_refs (snd ft)) fs
  end.

Fixpoint flat (T : GoType) : bool :=
  match T with
  | TFlat => true
  | TStruct fs => forallb (λ fT, flat (snd fT)) fs
  | _ => false
  end.

Lemma no_refs_reads mem :
  (∀ v t L, reads mem v t L → no_refs t = true → L = ∅) ∧
  (∀ vs ts L, reads_list mem vs ts L → forallb no_refs ts = true → L = ∅).
Proof.
  apply (reads_both mem (λ _ t L _, no_refs t = true → L = ∅)
    (λ _ ts L _, forallb no_refs ts = true → L = ∅)); try done.
  - intros fs ts L _ _ IH H. apply IH. simpl in H. clear -H.
    induction ts as [|[f t] ts IH]; simpl in *; [done|]. apply andb_true_iff in H as [-> H]. by apply IH.
  - intros v vs t ts L L' _ IH _ IH' [H H']%andb_true_iff. rewrite IH, IH' by done. set_solver.
Qed.

(** What library types hold, and their deep copies. *)
Definition Copier := Val → Mem → option (Val * Mem).

Class LibCopies := {
  lib_value : string → Tree → Prop;
  lib_DeepCopyInto : string → Copier;
}.

Section Copies.
Context {LC : LibCopies}.

(** The trees of the values of a type. *)
Fixpoint typed (T : GoType) (t : Tree) {struct T} : Prop :=
  match T, t with
  | TFlat, _ => no_refs t = true
  | TLib name, _ => lib_value name t
  | (TPtr _ | TSlice _), Nil => True
  | TPtr T, Ref t => typed T t
  | TSlice T, Ref (Arr ts) => Forall (typed T) ts
  | TStruct fs, Node ts =>
     (fix typed_fields fs ts :=
        match fs, ts with
        | [], [] => True
        | (f, T) :: fs, (g, t) :: ts => f = g ∧ typed T t ∧ typed_fields fs ts
        | _, _ => False
        end) fs ts
  | _, _ => False
  end.

Lemma typed_struct fs t :
  typed (TStruct fs) t →
  ∃ ts, t = Node ts ∧ Forall2 (λ fT gt, fst fT = fst gt ∧ typed (snd fT) (snd gt)) fs ts.
Proof.
  destruct t as [| | | |ts]; try done. intros H. exists ts. split; [done|].
  revert ts H. induction fs as [|[f T] fs IH]; intros [|[g t] ts] H; try done. 
  destruct H as (-> & Ht & H). constructor; [done|]. by apply IH.
Qed.

Lemma flat_no_refs T t : flat T = true → typed T t → no_refs t = true.
Proof.
  revert T t. fix IH 1. intros [|name|T|T|fs] t HT Ht; try done.
  apply typed_struct in Ht as (ts & -> & Ht). simpl in HT |- *.
  revert ts HT Ht. induction fs as [|[f T] fs IHfs]; intros ts HT Ht.
  - by inversion Ht.
  - destruct ts as [|[g t] ts]; [by inversion Ht|]. apply Forall2_cons in Ht as [[_ Ht] Hts].
    simpl in HT |- *. apply andb_true_iff in HT as [HT HTs]. apply andb_true_iff. split.
    + by apply (IH T).
    + by apply IHfs.
Qed.

(** ** The contract *)

(** For the values that stand for a tree with [P]. *)
Definition copies_of (P : Tree → Prop) (c : Copier) : Prop :=
  ∀ mem v t L, reads mem v t L → P t →
  ∃ v' mem' L', c v mem = Some (v', mem') ∧ mem ⊆ mem' ∧ reads mem' v' t L' ∧ L' ## dom mem.

Definition Copies (T : GoType) : Copier → Prop := copies_of (typed T).

(** ** The statements of the generated functions *)

(** [*out = *in], [out.F = in.F], [**out = **in]. *)
Definition assign : Copier := λ v mem, Some (v, mem).

(** [if in != nil { out = new(T); copy *in into *out }], which is also the
    method [DeepCopy] of a type when [c] is its [DeepCopyInto]. *)
Definition copy_ptr (c : Copier) : Copier := λ v mem,
  match v with
  | VRef None => Some (VRef None, mem)
  | VRef (Some l) =>
     x ← mem !! l;
     '(x', mem) ← c x mem;
     let '(l', mem) := alloc x' mem in Some (VRef (Some l'), mem)
  | _ => None
  end.

(** [DeepCopyObject]: an interface is nil, or a dynamic type and a value. *)
Definition copy_object (name : string) (c : Copier) (v : Val) (mem : Mem)
    : option (option (string * Val) * Mem) :=
  '(v', mem) ← c v mem;
  Some (match v' with VRef None => None | _ => Some (name, v') end, mem).

Fixpoint copy_list (c : Copier) (vs : list Val) (mem : Mem) : option (list Val * Mem) :=
  match vs with
  | [] => Some ([], mem)
  | v :: vs =>
     '(v', mem) ← c v mem;
     '(vs', mem) ← copy_list c vs mem;
     Some (v' :: vs', mem)
  end.

Definition copy_array (c : Copier) : Copier := λ v mem,
  match v with
  | VArray vs => '(vs', mem) ← copy_list c vs mem; Some (VArray vs', mem)
  | _ => None
  end.

(** [if in != nil { out = make([]T, len(in)); copy the elements }]. *)
Definition copy_slice (c : Copier) : Copier := copy_ptr (copy_array c).

Fixpoint field {A} (f : string) (fs : list (string * A)) : option A :=
  match fs with
  | [] => None
  | (g, v) :: fs => if String.eqb g f then Some v else field f fs
  end.

Definition set_field (f : string) (v : Val) (fs : list (string * Val)) : list (string * Val) :=
  (λ gw, if decide (fst gw = f) then (f, v) else gw) <$> fs.

(** The statements after [*out = *in], each for a field. *)
Fixpoint copy_fields (sts : list (string * Copier)) (inn out : list (string * Val)) (mem : Mem)
    : option (list (string * Val) * Mem) :=
  match sts with
  | [] => Some (out, mem)
  | (f, c) :: sts =>
     v ← field f inn;
     '(v', mem) ← c v mem;
     copy_fields sts inn (set_field f v' out) mem
  end.

Definition copy_struct (sts : list (string * Copier)) : Copier := λ v mem,
  match v with
  | VStruct inn => '(out, mem) ← copy_fields sts inn inn mem; Some (VStruct out, mem)
  | _ => None
  end.

(** ** They meet the contract *)

Lemma assign_copies T : flat T = true → Copies T assign.
Proof.
  intros HT mem v t L Hr Ht. exists v, mem, L. split; [done|]. split; [done|]. split; [done|].
  apply (flat_no_refs T t HT) in Ht. rewrite (proj1 (no_refs_reads mem) _ _ _ Hr Ht). set_solver.
Qed.

(** A new cell for a copy. *)
Lemma copy_cell c mem l x t L :
  mem !! l = Some x → reads mem x t L →
  (∃ x' mem' L', c x mem = Some (x', mem') ∧ mem ⊆ mem' ∧ reads mem' x' t L' ∧ L' ## dom mem) →
  ∃ v' mem' L', copy_ptr c (VRef (Some l)) mem = Some (v', mem') ∧ mem ⊆ mem' ∧
    reads mem' v' (Ref t) L' ∧ L' ## dom mem.
Proof.
  intros Hl Hr (x' & mem1 & L1 & E & Hm & Hr1 & HL). simpl. rewrite Hl. simpl. rewrite E. simpl.
  pose proof (is_fresh (dom mem1)) as Hf. set (l' := fresh (dom mem1)) in *.
  assert (mem1 ⊆ <[l' := x']> mem1) as Hm' by (apply insert_subseteq, not_elem_of_dom; done).
  exists (VRef (Some l')), (<[l' := x']> mem1), ({[l']} ∪ L1). split; [done|]. split; [by etrans|]. split.
  - apply (reads_ref _ l' x'); [apply lookup_insert_eq|]. by eapply reads_mono.
  - apply subseteq_dom in Hm. set_solver.
Qed.

Lemma ptr_copies T c : Copies T c → Copies (TPtr T) (copy_ptr c).
Proof.
  intros Hc mem v t L Hr Ht. inversion Hr; subst; try done.
  - exists (VRef None), mem, ∅. split; [done|]. split; [done|]. split; [constructor|set_solver].
  - eapply copy_cell; [done..|]. by eapply Hc.
Qed.

Lemma list_copies P c mem vs ts L :
  copies_of P c → reads_list mem vs ts L → Forall P ts →
  ∃ vs' mem' L', copy_list c vs mem = Some (vs', mem') ∧ mem ⊆ mem' ∧ reads_list mem' vs' ts L' ∧ L' ## dom mem.
Proof.
  intros Hc. revert mem ts L. induction vs as [|v vs IH]; intros mem ts L Hr Ht; inversion Hr; subst.
  - exists [], mem, ∅. split; [done|]. split; [done|]. split; [constructor|set_solver].
  - apply Forall_cons in Ht as [Ht Hts]. simpl.
    match goal with H : reads _ v _ _ |- _ => destruct (Hc _ _ _ _ H Ht) as (v' & mem1 & L1 & -> & Hm1 & Hr1 & HL1) end.
    simpl. match goal with H : reads_list mem vs _ _ |- _ => rename H into Hvs end.
    destruct (IH mem1 _ _ ltac:(eapply reads_frame_both; [exact Hvs|]; intros l Hl;
      apply (proj2 (reads_dom_both mem) _ _ _ Hvs), elem_of_dom in Hl as [x Hx]; etrans; [by eapply lookup_weaken|done]) Hts)
      as (vs' & mem2 & L2 & -> & Hm2 & Hr2 & HL2). simpl.
    exists (v' :: vs'), mem2, (L1 ∪ L2). split; [done|]. split; [by etrans|]. split.
    + constructor; [by eapply reads_mono|done].
    + apply subseteq_dom in Hm1. set_solver.
Qed.

Lemma slice_copies T c : Copies T c → Copies (TSlice T) (copy_slice c).
Proof.
  intros Hc mem v t L Hr Ht. inversion Hr as [| |l x t' L0 Hl Hx| |]; subst; try done.
  - exists (VRef None), mem, ∅. split; [done|]. split; [done|]. split; [constructor|set_solver].
  - destruct t' as [| | |ts|]; try done. simpl in Ht. eapply copy_cell; [done..|].
    inversion Hx as [| | |vs ts' L1 Hvs|]; subst. 
    destruct (list_copies (typed T) c mem vs ts L0 Hc Hvs Ht) as (vs' & mem' & L' & E & Hm & Hr' & HL').
    exists (VArray vs'), mem', L'. simpl. rewrite E. split; [done|]. split; [done|].
    split; [by constructor|done].
Qed.
(** *** Structs *)

Lemma field_Some {A} f (fs : list (string * A)) a : field f fs = Some a → ∃ i, fs !! i = Some (f, a).
Proof.
  induction fs as [|[g b] fs IH]; simpl; [done|]. destruct (String.eqb_spec g f) as [->|E]; intros H.
  - exists 0. simpl. congruence.
  - destruct (IH H) as [i Hi]. by exists (S i).
Qed.

Lemma field_lookup {A} f (fs : list (string * A)) i a :
  NoDup fs.*1 → fs !! i = Some (f, a) → field f fs = Some a.
Proof.
  revert i. induction fs as [|[g b] fs IH]; intros i Hn H; [done|]. simpl in Hn |- *.
  apply NoDup_cons in Hn as [Hg Hn]. destruct i as [|i]; simpl in H.
  - injection H as -> ->. by rewrite String.eqb_refl.
  - destruct (String.eqb_spec g f) as [->|]; [exfalso|by eapply IH]. apply Hg, list_elem_of_fmap.
    exists (f, a). split; [done|]. by eapply list_elem_of_lookup_2.
Qed.

(** Lists of fields with the same names have the same fields at the same places. *)
Lemma same_names {A B} (l : list (string * A)) (k : list (string * B)) i f a :
  l.*1 = k.*1 → l !! i = Some (f, a) → ∃ b, k !! i = Some (f, b).
Proof.
  intros E H. assert (l.*1 !! i = Some f) as Hf by (rewrite list_lookup_fmap, H; done).
  rewrite E, list_lookup_fmap in Hf. destruct (k !! i) as [[g b]|]; [|done]. 
  simpl in Hf. exists b. congruence.
Qed.

Lemma copy_fields_ok inn ts sts mem out :
  Forall (λ fc, ∃ T v t L, field (fst fc) inn = Some v ∧ field (fst fc) ts = Some t ∧
                  reads mem v t L ∧ typed T t ∧ Copies T (snd fc)) sts →
  ∃ out' mem', copy_fields sts inn out mem = Some (out', mem') ∧ mem ⊆ mem' ∧
    Forall2 (λ gv gv', fst gv' = fst gv ∧
      ((∃ t L', field (fst gv) ts = Some t ∧ reads mem' (snd gv') t L' ∧ L' ## dom mem) ∨
       ((fst gv ∉ sts.*1) ∧ snd gv' = snd gv))) out out'.
Proof.
  revert mem out. induction sts as [|[f c] sts IH]; intros mem out H; simpl.
  - exists out, mem. split; [done|]. split; [done|]. induction out; constructor; [|done].
    split; [done|]. right. split; [apply not_elem_of_nil|done].
  - apply Forall_cons in H as [(T & v & t & L & Hv & Ht & Hr & HT & Hc) H]. simpl in *. rewrite Hv. simpl.
    destruct (Hc _ _ _ _ Hr HT) as (v' & mem1 & L1 & -> & Hm1 & Hr1 & HL1). simpl.
    destruct (IH mem1 (set_field f v' out)) as (out' & mem2 & -> & Hm2 & Hout).
    { eapply Forall_impl; [exact H|]. intros fc (T0 & v0 & t0 & L0 & ? & ? & ? & ? & ?).
      exists T0, v0, t0, L0. split_and!; try done. by eapply reads_mono. }
    exists out', mem2. split; [done|]. split; [by etrans|].
    unfold set_field in Hout. apply Forall2_fmap_l in Hout. eapply Forall2_impl; [exact Hout|].
    intros [g w] [g' w'] [Hg Hcase]. simpl in *. apply subseteq_dom in Hm1 as Hd.
    destruct (decide (g = f)) as [->|Hne]; simpl in *.
    + split; [done|]. destruct Hcase as [(t' & L' & ? & ? & ?)|[_ ->]]; left.
      * exists t', L'. split; [done|]. split; [done|set_solver].
      * exists t, L1. split; [done|]. split; [by eapply reads_mono|done].
    + split; [done|]. destruct Hcase as [(t' & L' & ? & ? & ?)|[Hn ->]]; [left|right].
      * exists t', L'. split; [done|]. split; [done|set_solver].
      * split; [|done]. by apply not_elem_of_cons.
Qed.

(** Each field that may hold references has a statement. *)
Definition covered (fs : list (string * GoType)) (names : list string) : bool :=
  bool_decide (NoDup fs.*1) &&
  forallb (λ fT, flat (snd fT) || existsb (String.eqb (fst fT)) names) fs.

Lemma struct_copies fs sts :
  covered fs sts.*1 = true →
  Forall (λ fc, match field (fst fc) fs with Some T => Copies T (snd fc) | None => False end) sts →
  Copies (TStruct fs) (copy_struct sts).
Proof.
  intros [Hnd%bool_decide_eq_true Hcov]%andb_true_iff Hsts mem v t L Hr Ht.
  apply typed_struct in Ht as (ts & -> & Hty). inversion Hr as [| | | |inn ts' L' Hnames Hl]; subst.
  assert (ts.*1 = fs.*1) as Hn by (clear -Hty; induction Hty as [|?? ?? [??]]; [done|]; rewrite !fmap_cons; congruence).
  assert (∀ i f T, fs !! i = Some (f, T) → ∃ w t, inn !! i = Some (f, w) ∧ ts !! i = Some (f, t) ∧
    typed T t ∧ ∃ L', reads mem w t L') as Hat.
  { intros i f T Hi. destruct (same_names fs ts i f T (eq_sym Hn) Hi) as [t Hit].
    destruct (same_names ts inn i f t (eq_sym Hnames) Hit) as [w Hiw]. exists w, t.
    split; [done|]. split; [done|]. destruct (Forall2_lookup_lr _ _ _ _ _ _ Hty Hi Hit) as [_ HTt].
    split; [done|]. apply reads_list_elim in Hl.
    destruct (Forall2_lookup_lr _ _ _ i w t Hl) as (L' & HL' & _); [by rewrite list_lookup_fmap, ?Hiw, ?Hit..|].
    by exists L'. }
  destruct (copy_fields_ok inn ts sts mem inn) as (out & mem' & E & Hm & Hout).
  { eapply Forall_impl; [exact Hsts|]. intros [f c] Hf. simpl in *.
    destruct (field f fs) as [T|] eqn:EF; [|done]. apply field_Some in EF as [i Hi].
    destruct (Hat i f T Hi) as (w & t & Hw & Hit & HT & L' & HL'). exists T, w, t, L'.
    rewrite (field_lookup f inn i w), (field_lookup f ts i t); [done|..|done]; rewrite ?Hnames, ?Hn; done. }
  assert (Forall2 (λ v t, ∃ L, reads mem' v t L ∧ L ## dom mem) out.*2 ts.*2) as Hall.
  { apply Forall2_fmap, Forall2_same_length_lookup. 
    split.
    { rewrite <- (Forall2_length _ _ _ Hout), <- (length_fmap fst inn), Hnames. apply length_fmap. }
    intros i [g w'] [f t] Hi Hit. simpl.
    destruct (same_names ts fs i f t Hn Hit) as [T HiT].
    destruct (Hat i f T HiT) as (w & t' & Hw & Hit' & HT & L' & HL'). simplify_eq.
    destruct (Forall2_lookup_lr _ _ _ _ _ _ Hout Hw Hi) as [Hg [(t' & L1 & Ht' & ? & ?)|[Hnot Heq]]]; simpl in *.
    - rewrite (field_lookup f ts i t) in Ht' by (rewrite ?Hn; done). simplify_eq. by exists L1.
    - subst w'. exists L'. split; [by eapply reads_mono|]. rewrite forallb_forall in Hcov.
      specialize (Hcov (f, T) ltac:(by eapply list_elem_of_In, list_elem_of_lookup_2)). simpl in Hcov.
      apply orb_true_iff in Hcov as [Hflat|Hex].
      + apply (flat_no_refs T t Hflat) in HT. rewrite (proj1 (no_refs_reads mem) _ _ _ HL' HT). set_solver.
      + apply existsb_exists in Hex as (x & Hin & ->%String.eqb_eq). by apply list_elem_of_In in Hin. }
  apply reads_list_intro in Hall as (L1 & Hr1 & HL1).
  exists (VStruct out), mem', L1. simpl. rewrite E. split; [done|]. split; [done|]. split; [|done].
  constructor; [|done]. rewrite <- Hnames. clear -Hout. induction Hout as [|?? ?? [??]]; [done|]. rewrite !fmap_cons. congruence.
Qed.

(** ** Independence *)

(** What a program may have done with the cells [W] and with new ones. *)
Definition changes_only (W : gset loc) (mem mem2 : Mem) : Prop :=
  ∀ l, l ∈ dom mem → l ∉ W → mem2 !! l = mem !! l.

Lemma reads_unchanged W mem mem2 v t L :
  reads mem v t L → L ## W → changes_only W mem mem2 → reads mem2 v t L.
Proof.
  intros Hr HL H. eapply reads_frame; [done|]. intros l Hl. apply H; [|set_solver].
  by apply (reads_dom _ _ _ _ Hr).
Qed.

(** The original and its deep copy share no cell, and neither sees what is done
    to the other. *)
Lemma copies_independent P c mem v t L :
  copies_of P c → reads mem v t L → P t →
  ∃ v' mem' L', c v mem = Some (v', mem') ∧ reads mem' v t L ∧ reads mem' v' t L' ∧ L ## L' ∧
    (∀ mem2, changes_only L' mem' mem2 → reads mem2 v t L) ∧
    (∀ mem2, changes_only L mem' mem2 → reads mem2 v' t L').
Proof.
  intros Hc Hr Ht. destruct (Hc _ _ _ _ Hr Ht) as (v' & mem' & L' & E & Hm & Hr' & HL').
  assert (L ## L') as Hdis by (apply reads_dom in Hr; set_solver).
  assert (reads mem' v t L) as Hr1 by by eapply reads_mono.
  exists v', mem', L'. split_and!; try done; intros mem2; by eapply reads_unchanged.
Qed.
End Copies.

Class LibCopiesLaws (LC : LibCopies) : Prop :=
  lib_copies name : Copies (TLib name) (lib_DeepCopyInto name).

(** ** Deep copies of any value of bounded depth

    A concrete library. *)

Fixpoint shallower (n : nat) (t : Tree) : bool :=
  match n with
  | O => false
  | S n =>
     match t with
     | Leaf _ | Nil => true
     | Ref t => shallower n t
     | Arr ts => forallb (shallower n) ts
     | Node fs => forallb (shallower n) fs.*2
     end
  end.

Fixpoint deep_copy (n : nat) : Copier :=
  match n with
  | O => λ _ _, None
  | S n => λ v mem,
     match v with
     | VBasic _ => assign v mem
     | VRef _ => copy_ptr (deep_copy n) v mem
     | VArray _ => copy_array (deep_copy n) v mem
     | VStruct fs =>
        '(vs, mem) ← copy_list (deep_copy n) fs.*2 mem;
        Some (VStruct (zip fs.*1 vs), mem)
     end
  end.

Lemma forallb_Forall {A} (f : A → bool) l : forallb f l = true ↔ Forall (λ x, f x = true) l.
Proof. rewrite forallb_forall, Forall_forall. by setoid_rewrite list_elem_of_In. Qed.

Lemma deep_copy_copies n : copies_of (λ t, shallower n t = true) (deep_copy n).
Proof.
  induction n as [|n IH]; intros mem v t L Hr Ht; [done|].
  inversion Hr as [b| |l x t' L0 Hl Hx|vs ts L0 Hvs|fs ts L0 Hn Hfs]; subst; simpl in Ht.
  - exists (VBasic b), mem, ∅. split; [done|]. split; [done|]. split; [constructor|set_solver].
  - exists (VRef None), mem, ∅. split; [done|]. split; [done|]. split; [constructor|set_solver].
  - eapply copy_cell; [done..|]. by eapply IH.
  - apply forallb_Forall in Ht. destruct (list_copies _ _ mem vs ts L IH Hvs Ht) as (vs' & mem' & L' & E & ? & ? & ?).
    exists (VArray vs'), mem', L'. simpl. rewrite E. split; [done|]. split; [done|]. split; [by constructor|done].
  - apply forallb_Forall in Ht. destruct (list_copies _ _ mem _ _ L IH Hfs Ht) as (vs' & mem' & L' & E & ? & Hr' & ?).
    assert (length fs.*1 = length vs') as Hlen.
    { apply reads_list_elim, Forall2_length in Hr'. rewrite Hr', Hn. by rewrite !length_fmap. }
    exists (VStruct (zip fs.*1 vs')), mem', L'. simpl. rewrite E. split; [done|]. split; [done|]. split; [|done].
    constructor; rewrite ?fst_zip, ?snd_zip by lia; done.
Qed.

Module DepthLimited.
Definition lib : LibCopies := {|
  lib_value _ t := shallower 6 t = true;
  lib_DeepCopyInto _ := deep_copy 6;
|}.

#[global] Instance lib_laws : LibCopiesLaws lib.
Proof. intros name. apply deep_copy_copies. Qed.
End DepthLimited.
