(* ===== verification/DeepCopyTypes.v ===== *)
(** * Deep copies: the API types
    ([apis/*/v1alpha1/zz_generated.deepcopy.go])

    For each type of the API its fields, as far as they hold references
    ([X_type], from the type declarations), and the generated functions
    [DeepCopyInto], [DeepCopy] and [DeepCopyObject], statement by statement in
    the combinators of [DeepCopy].  [deep_copy_independent] says that all of
    them are deep copies. *)

From S2P Require Import Prelude DeepCopy.
#[local] Open Scope string_scope.
#[local] Open Scope list_scope.

(** ** [apis/marin3r/v1alpha1] *)

Module Config.
Section Config.
Context {LC : LibCopies}.

Definition EnvoyResource_type : GoType := TStruct [
  ("Name", TPtr TFlat); ("Value", TFlat)].

Definition EnvoyResource_DeepCopyInto : Copier := copy_struct [
  ("Name", copy_ptr assign)].

Definition EnvoyResource_DeepCopy : Copier := copy_ptr EnvoyResource_DeepCopyInto.

Definition EnvoySecretResource_type : GoType := TStruct [
  ("Name", TFlat); ("Ref", TPtr TFlat)].

Definition EnvoySecretResource_DeepCopyInto : Copier := copy_struct [
  ("Ref", copy_ptr assign)].

Definition EnvoySecretResource_DeepCopy : Copier := copy_ptr EnvoySecretResource_DeepCopyInto.

Definition EnvoyResources_type : GoType := TStruct [
  ("Endpoints", TSlice EnvoyResource_type); ("Clusters", TSlice EnvoyResource_type);
  ("Routes", TSlice EnvoyResource_type); ("ScopedRoutes", TSlice EnvoyResource_type);
  ("Listeners", TSlice EnvoyResource_type); ("Runtimes", TSlice EnvoyResource_type);
  ("Secrets", TSlice EnvoySecretResource_type); ("ExtensionConfigs", TSlice EnvoyResource_type)].

Definition EnvoyResources_DeepCopyInto : Copier := copy_struct [
  ("Endpoints", copy_slice EnvoyResource_DeepCopyInto);
  ("Clusters", copy_slice EnvoyResource_DeepCopyInto);
  ("Routes", copy_slice EnvoyResource_DeepCopyInto);
  ("ScopedRoutes", copy_slice EnvoyResource_DeepCopyInto);
  ("Listeners", copy_slice EnvoyResource_DeepCopyInto);
  ("Runtimes", copy_slice EnvoyResource_DeepCopyInto);
  ("Secrets", copy_slice EnvoySecretResource_DeepCopyInto);
  ("ExtensionConfigs", copy_slice EnvoyResource_DeepCopyInto)].

Definition EnvoyResources_DeepCopy : Copier := copy_ptr EnvoyResources_DeepCopyInto.

Definition SecretKeySelector_type : GoType := TStruct [
  ("Name", TFlat); ("Key", TFlat); ("Alias", TFlat)].

Definition SecretKeySelector_DeepCopyInto : Copier := copy_struct [].

Definition SecretKeySelector_DeepCopy : Copier := copy_ptr SecretKeySelector_DeepCopyInto.

Definition GenerateFromEndpointSlices_type : GoType := TStruct [
  ("Selector", TPtr (TLib "metav1.LabelSelector")); ("ClusterName", TFlat); ("TargetPort", TFlat)].

Definition GenerateFromEndpointSlices_DeepCopyInto : Copier := copy_struct [
  ("Selector", copy_ptr (lib_DeepCopyInto "metav1.LabelSelector"))].

Definition GenerateFromEndpointSlices_DeepCopy : Copier := copy_ptr GenerateFromEndpointSlices_DeepCopyInto.

Definition Resource_type : GoType := TStruct [
  ("Type", TFlat); ("Value", TPtr (TLib "runtime.RawExtension"));
  ("GenerateFromTlsSecret", TPtr TFlat);
  ("GenerateFromOpaqueSecret", TPtr SecretKeySelector_type);
  ("GenerateFromEndpointSlices", TPtr GenerateFromEndpointSlices_type); ("Blueprint", TPtr TFlat)].

Definition Resource_DeepCopyInto : Copier := copy_struct [
  ("Value", copy_ptr (lib_DeepCopyInto "runtime.RawExtension"));
  ("GenerateFromTlsSecret", copy_ptr assign); ("GenerateFromOpaqueSecret", copy_ptr assign);
  ("GenerateFromEndpointSlices", copy_ptr GenerateFromEndpointSlices_DeepCopyInto);
  ("Blueprint", copy_ptr assign)].

Definition Resource_DeepCopy : Copier := copy_ptr Resource_DeepCopyInto.

Definition EnvoyConfigSpec_type : GoType := TStruct [
  ("NodeID", TFlat); ("Serialization", TPtr TFlat); ("EnvoyAPI", TPtr TFlat);
  ("EnvoyResources", TPtr EnvoyResources_type); ("Resources", TSlice Resource_type)].

Definition EnvoyConfigSpec_DeepCopyInto : Copier := copy_struct [
  ("Serialization", copy_ptr assign); ("EnvoyAPI", copy_ptr assign);
  ("EnvoyResources", copy_ptr EnvoyResources_DeepCopyInto);
  ("Resources", copy_slice Resource_DeepCopyInto)].

Definition EnvoyConfigSpec_DeepCopy : Copier := copy_ptr EnvoyConfigSpec_DeepCopyInto.

Definition ConfigRevisionRef_type : GoType := TStruct [
  ("Version", TFlat); ("Ref", TFlat)].

Definition ConfigRevisionRef_DeepCopyInto : Copier := copy_struct [
  ("Ref", assign)].

Definition ConfigRevisionRef_DeepCopy : Copier := copy_ptr ConfigRevisionRef_DeepCopyInto.

Definition EnvoyConfigStatus_type : GoType := TStruct [
  ("CacheState", TPtr TFlat); ("PublishedVersion", TPtr TFlat); ("DesiredVersion", TPtr TFlat);
  ("Conditions", TSlice (TLib "metav1.Condition"));
  ("ConfigRevisions", TSlice ConfigRevisionRef_type)].

Definition EnvoyConfigStatus_DeepCopyInto : Copier := copy_struct [
  ("CacheState", copy_ptr assign); ("PublishedVersion", copy_ptr assign);
  ("DesiredVersion", copy_ptr assign);
  ("Conditions", copy_slice (lib_DeepCopyInto "metav1.Condition"));
  ("ConfigRevisions", copy_slice assign)].

Definition EnvoyConfigStatus_DeepCopy : Copier := copy_ptr EnvoyConfigStatus_DeepCopyInto.

Definition EnvoyConfig_type : GoType := TStruct [
  ("TypeMeta", TFlat); ("ObjectMeta", TLib "metav1.ObjectMeta"); ("Spec", EnvoyConfigSpec_type);
  ("Status", EnvoyConfigStatus_type)].

Definition EnvoyConfig_DeepCopyInto : Copier := copy_struct [
  ("TypeMeta", assign); ("ObjectMeta", lib_DeepCopyInto "metav1.ObjectMeta");
  ("Spec", EnvoyConfigSpec_DeepCopyInto); ("Status", EnvoyConfigStatus_DeepCopyInto)].

Definition EnvoyConfig_DeepCopy : Copier := copy_ptr EnvoyConfig_DeepCopyInto.

Definition EnvoyConfig_DeepCopyObject := copy_object "EnvoyConfig" EnvoyConfig_DeepCopy.

Definition EnvoyConfigList_type : GoType := TStruct [
  ("TypeMeta", TFlat); ("ListMeta", TLib "metav1.ListMeta"); ("Items", TSlice EnvoyConfig_type)].

Definition EnvoyConfigList_DeepCopyInto : Copier := copy_struct [
  ("TypeMeta", assign); ("ListMeta", lib_DeepCopyInto "metav1.ListMeta");
  ("Items", copy_slice EnvoyConfig_DeepCopyInto)].

Definition EnvoyConfigList_DeepCopy : Copier := copy_ptr EnvoyConfigList_DeepCopyInto.

Definition EnvoyConfigList_DeepCopyObject := copy_object "EnvoyConfigList" EnvoyConfigList_DeepCopy.

Definition EnvoyConfigRevisionSpec_type : GoType := TStruct [
  ("NodeID", TFlat); ("Version", TFlat); ("EnvoyAPI", TPtr TFlat); ("Serialization", TPtr TFlat);
  ("EnvoyResources", TPtr EnvoyResources_type); ("Resources", TSlice Resource_type)].

Definition EnvoyConfigRevisionSpec_DeepCopyInto : Copier := copy_struct [
  ("EnvoyAPI", copy_ptr assign); ("Serialization", copy_ptr assign);
  ("EnvoyResources", copy_ptr EnvoyResources_DeepCopyInto);
  ("Resources", copy_slice Resource_DeepCopyInto)].

Definition EnvoyConfigRevisionSpec_DeepCopy : Copier := copy_ptr EnvoyConfigRevisionSpec_DeepCopyInto.

Definition VersionTracker_type : GoType := TStruct [
  ("Endpoints", TFlat); ("Clusters", TFlat); ("Routes", TFlat); ("ScopedRoutes", TFlat);
  ("Listeners", TFlat); ("Secrets", TFlat); ("Runtimes", TFlat); ("ExtensionConfigs", TFlat)].

Definition VersionTracker_DeepCopyInto : Copier := copy_struct [].

Definition VersionTracker_DeepCopy : Copier := copy_ptr VersionTracker_DeepCopyInto.

Definition EnvoyConfigRevisionStatus_type : GoType := TStruct [
  ("Published", TPtr TFlat); ("ProvidesVersions", TPtr VersionTracker_type);
  ("LastPublishedAt", TPtr (TLib "metav1.Time")); ("Tainted", TPtr TFlat);
  ("Conditions", TSlice (TLib "metav1.Condition"))].

Definition EnvoyConfigRevisionStatus_DeepCopyInto : Copier := copy_struct [
  ("Published", copy_ptr assign); ("ProvidesVersions", copy_ptr assign);
  ("LastPublishedAt", copy_ptr (lib_DeepCopyInto "metav1.Time")); ("Tainted", copy_ptr assign);
  ("Conditions", copy_slice (lib_DeepCopyInto "metav1.Condition"))].

Definition EnvoyConfigRevisionStatus_DeepCopy : Copier := copy_ptr EnvoyConfigRevisionStatus_DeepCopyInto.

Definition EnvoyConfigRevision_type : GoType := TStruct [
  ("TypeMeta", TFlat); ("ObjectMeta", TLib "metav1.ObjectMeta");
  ("Spec", EnvoyConfigRevisionSpec_type); ("Status", EnvoyConfigRevisionStatus_type)].

Definition EnvoyConfigRevision_DeepCopyInto : Copier := copy_struct [
  ("TypeMeta", assign); ("ObjectMeta", lib_DeepCopyInto "metav1.ObjectMeta");
  ("Spec", EnvoyConfigRevisionSpec_DeepCopyInto);
  ("Status", EnvoyConfigRevisionStatus_DeepCopyInto)].

Definition EnvoyConfigRevision_DeepCopy : Copier := copy_ptr EnvoyConfigRevision_DeepCopyInto.

Definition EnvoyConfigRevision_DeepCopyObject := copy_object "EnvoyConfigRevision" EnvoyConfigRevision_DeepCopy.

Definition EnvoyConfigRevisionList_type : GoType := TStruct [
  ("TypeMeta", TFlat); ("ListMeta", TLib "metav1.ListMeta");
  ("Items", TSlice EnvoyConfigRevision_type)].

Definition EnvoyConfigRevisionList_DeepCopyInto : Copier := copy_struct [
  ("TypeMeta", assign); ("ListMeta", lib_DeepCopyInto "metav1.ListMeta");
  ("Items", copy_slice EnvoyConfigRevision_DeepCopyInto)].

Definition EnvoyConfigRevisionList_DeepCopy : Copier := copy_ptr EnvoyConfigRevisionList_DeepCopyInto.

Definition EnvoyConfigRevisionList_DeepCopyObject := copy_object "EnvoyConfigRevisionList" EnvoyConfigRevisionList_DeepCopy.

(** The types of the group and their deep copies. *)
Definition deep_copies : list (string * (GoType * Copier)) := [
  ("EnvoyResource", (EnvoyResource_type, EnvoyResource_DeepCopyInto));
  ("EnvoySecretResource", (EnvoySecretResource_type, EnvoySecretResource_DeepCopyInto));
  ("EnvoyResources", (EnvoyResources_type, EnvoyResources_DeepCopyInto));
  ("SecretKeySelector", (SecretKeySelector_type, SecretKeySelector_DeepCopyInto));
  ("GenerateFromEndpointSlices", (GenerateFromEndpointSlices_type, GenerateFromEndpointSlices_DeepCopyInto));
  ("Resource", (Resource_type, Resource_DeepCopyInto));
  ("EnvoyConfigSpec", (EnvoyConfigSpec_type, EnvoyConfigSpec_DeepCopyInto));
  ("ConfigRevisionRef", (ConfigRevisionRef_type, ConfigRevisionRef_DeepCopyInto));
  ("EnvoyConfigStatus", (EnvoyConfigStatus_type, EnvoyConfigStatus_DeepCopyInto));
  ("EnvoyConfig", (EnvoyConfig_type, EnvoyConfig_DeepCopyInto));
  ("EnvoyConfigList", (EnvoyConfigList_type, EnvoyConfigList_DeepCopyInto));
  ("EnvoyConfigRevisionSpec", (EnvoyConfigRevisionSpec_type, EnvoyConfigRevisionSpec_DeepCopyInto));
  ("VersionTracker", (VersionTracker_type, VersionTracker_DeepCopyInto));
  ("EnvoyConfigRevisionStatus", (EnvoyConfigRevisionStatus_type, EnvoyConfigRevisionStatus_DeepCopyInto));
  ("EnvoyConfigRevision", (EnvoyConfigRevision_type, EnvoyConfigRevision_DeepCopyInto));
  ("EnvoyConfigRevisionList", (EnvoyConfigRevisionList_type, EnvoyConfigRevisionList_DeepCopyInto))].

End Config.
End Config.

(** ** [apis/operator.marin3r/v1alpha1] *)

Module Operator.
Section Operator.
Context {LC : LibCopies}.

Definition ContainerPort_type : GoType := TStruct [
  ("Name", TFlat); ("Port", TFlat); ("Protocol", TPtr TFlat)].

Definition ContainerPort_DeepCopyInto : Copier := copy_struct [
  ("Protocol", copy_ptr assign)].

Definition ContainerPort_DeepCopy : Copier := copy_ptr ContainerPort_DeepCopyInto.

Definition DynamicReplicasSpec_type : GoType := TStruct [
  ("MinReplicas", TPtr TFlat); ("MaxReplicas", TFlat);
  ("Metrics", TSlice (TLib "autoscalingv2.MetricSpec"));
  ("Behavior", TPtr (TLib "autoscalingv2.HorizontalPodAutoscalerBehavior"))].

Definition DynamicReplicasSpec_DeepCopyInto : Copier := copy_struct [
  ("MinReplicas", copy_ptr assign);
  ("Metrics", copy_slice (lib_DeepCopyInto "autoscalingv2.MetricSpec"));
  ("Behavior", copy_ptr (lib_DeepCopyInto "autoscalingv2.HorizontalPodAutoscalerBehavior"))].

Definition DynamicReplicasSpec_DeepCopy : Copier := copy_ptr DynamicReplicasSpec_DeepCopyInto.

Definition ReplicasSpec_type : GoType := TStruct [
  ("Static", TPtr TFlat); ("Dynamic", TPtr DynamicReplicasSpec_type)].

Definition ReplicasSpec_DeepCopyInto : Copier := copy_struct [
  ("Static", copy_ptr assign); ("Dynamic", copy_ptr DynamicReplicasSpec_DeepCopyInto)].

Definition ReplicasSpec_DeepCopy : Copier := copy_ptr ReplicasSpec_DeepCopyInto.

Definition ProbeSpec_type : GoType := TStruct [
  ("InitialDelaySeconds", TFlat); ("TimeoutSeconds", TFlat); ("PeriodSeconds", TFlat);
  ("SuccessThreshold", TFlat); ("FailureThreshold", TFlat)].

Definition ProbeSpec_DeepCopyInto : Copier := copy_struct [].

Definition ProbeSpec_DeepCopy : Copier := copy_ptr ProbeSpec_DeepCopyInto.

Definition PodDisruptionBudgetSpec_type : GoType := TStruct [
  ("MinAvailable", TPtr TFlat); ("MaxUnavailable", TPtr TFlat)].

Definition PodDisruptionBudgetSpec_DeepCopyInto : Copier := copy_struct [
  ("MinAvailable", copy_ptr assign); ("MaxUnavailable", copy_ptr assign)].

Definition PodDisruptionBudgetSpec_DeepCopy : Copier := copy_ptr PodDisruptionBudgetSpec_DeepCopyInto.

Definition ShutdownManager_type : GoType := TStruct [
  ("Image", TPtr TFlat); ("ServerPort", TPtr TFlat); ("DrainTime", TPtr TFlat);
  ("DrainStrategy", TPtr TFlat)].

Definition ShutdownManager_DeepCopyInto : Copier := copy_struct [
  ("Image", copy_ptr assign); ("ServerPort", copy_ptr assign); ("DrainTime", copy_ptr assign);
  ("DrainStrategy", copy_ptr assign)].

Definition ShutdownManager_DeepCopy : Copier := copy_ptr ShutdownManager_DeepCopyInto.

Definition InitManager_type : GoType := TStruct [
  ("Image", TPtr TFlat)].

Definition InitManager_DeepCopyInto : Copier := copy_struct [
  ("Image", copy_ptr assign)].

Definition InitManager_DeepCopy : Copier := copy_ptr InitManager_DeepCopyInto.

Definition EnvoyDeploymentSpec_type : GoType := TStruct [
  ("EnvoyConfigRef", TFlat); ("DiscoveryServiceRef", TFlat); ("ClusterID", TPtr TFlat);
  ("Ports", TSlice ContainerPort_type); ("Image", TPtr TFlat);
  ("Resources", TPtr (TLib "corev1.ResourceRequirements"));
  ("ClientCertificateDuration", TPtr TFlat); ("ExtraArgs", TSlice TFlat);
  ("AdminPort", TPtr TFlat); ("AdminAccessLogPath", TPtr TFlat);
  ("Replicas", TPtr ReplicasSpec_type); ("LivenessProbe", TPtr ProbeSpec_type);
  ("ReadinessProbe", TPtr ProbeSpec_type); ("Affinity", TPtr (TLib "corev1.Affinity"));
  ("PodDisruptionBudget", TPtr PodDisruptionBudgetSpec_type);
  ("ShutdownManager", TPtr ShutdownManager_type); ("InitManager", TPtr InitManager_type)].

Definition EnvoyDeploymentSpec_DeepCopyInto : Copier := copy_struct [
  ("ClusterID", copy_ptr assign); ("Ports", copy_slice ContainerPort_DeepCopyInto);
  ("Image", copy_ptr assign);
  ("Resources", copy_ptr (lib_DeepCopyInto "corev1.ResourceRequirements"));
  ("ClientCertificateDuration", copy_ptr assign); ("ExtraArgs", copy_slice assign);
  ("AdminPort", copy_ptr assign); ("AdminAccessLogPath", copy_ptr assign);
  ("Replicas", copy_ptr ReplicasSpec_DeepCopyInto); ("LivenessProbe", copy_ptr assign);
  ("ReadinessProbe", copy_ptr assign);
  ("Affinity", copy_ptr (lib_DeepCopyInto "corev1.Affinity"));
  ("PodDisruptionBudget", copy_ptr PodDisruptionBudgetSpec_DeepCopyInto);
  ("ShutdownManager", copy_ptr ShutdownManager_DeepCopyInto);
  ("InitManager", copy_ptr InitManager_DeepCopyInto)].

Definition EnvoyDeploymentSpec_DeepCopy : Copier := copy_ptr EnvoyDeploymentSpec_DeepCopyInto.

Definition EnvoyDeploymentStatus_type : GoType := TStruct [
  ("DeploymentName", TPtr TFlat); ("DeploymentStatus", TPtr (TLib "appsv1.DeploymentStatus"));
  ("UnimplementedStatefulSetStatus", TFlat)].

Definition EnvoyDeploymentStatus_DeepCopyInto : Copier := copy_struct [
  ("DeploymentName", copy_ptr assign);
  ("DeploymentStatus", copy_ptr (lib_DeepCopyInto "appsv1.DeploymentStatus"));
  ("UnimplementedStatefulSetStatus", assign)].

Definition EnvoyDeploymentStatus_DeepCopy : Copier := copy_ptr EnvoyDeploymentStatus_DeepCopyInto.

Definition EnvoyDeployment_type : GoType := TStruct [
  ("TypeMeta", TFlat); ("ObjectMeta", TLib "metav1.ObjectMeta");
  ("Spec", EnvoyDeploymentSpec_type); ("Status", EnvoyDeploymentStatus_type)].

Definition EnvoyDeployment_DeepCopyInto : Copier := copy_struct [
  ("TypeMeta", assign); ("ObjectMeta", lib_DeepCopyInto "metav1.ObjectMeta");
  ("Spec", EnvoyDeploymentSpec_DeepCopyInto); ("Status", EnvoyDeploymentStatus_DeepCopyInto)].

Definition EnvoyDeployment_DeepCopy : Copier := copy_ptr EnvoyDeployment_DeepCopyInto.

Definition EnvoyDeployment_DeepCopyObject := copy_object "EnvoyDeployment" EnvoyDeployment_DeepCopy.

Definition EnvoyDeploymentList_type : GoType := TStruct [
  ("TypeMeta", TFlat); ("ListMeta", TLib "metav1.ListMeta");
  ("Items", TSlice EnvoyDeployment_type)].

Definition EnvoyDeploymentList_DeepCopyInto : Copier := copy_struct [
  ("TypeMeta", assign); ("ListMeta", lib_DeepCopyInto "metav1.ListMeta");
  ("Items", copy_slice EnvoyDeployment_DeepCopyInto)].

Definition EnvoyDeploymentList_DeepCopy : Copier := copy_ptr EnvoyDeploymentList_DeepCopyInto.

Definition EnvoyDeploymentList_DeepCopyObject := copy_object "EnvoyDeploymentList" EnvoyDeploymentList_DeepCopy.

Definition CertificateOptions_type : GoType := TStruct [
  ("SecretName", TFlat); ("Duration", TFlat)].

Definition CertificateOptions_DeepCopyInto : Copier := copy_struct [
  ("Duration", assign)].

Definition CertificateOptions_DeepCopy : Copier := copy_ptr CertificateOptions_DeepCopyInto.

Definition PKIConfig_type : GoType := TStruct [
  ("RootCertificateAuthority", TPtr CertificateOptions_type);
  ("ServerCertificate", TPtr CertificateOptions_type)].

Definition PKIConfig_DeepCopyInto : Copier := copy_struct [
  ("RootCertificateAuthority", copy_ptr assign); ("ServerCertificate", copy_ptr assign)].

Definition PKIConfig_DeepCopy : Copier := copy_ptr PKIConfig_DeepCopyInto.

Definition ServiceConfig_type : GoType := TStruct [
  ("Name", TFlat); ("Type", TFlat)].

Definition ServiceConfig_DeepCopyInto : Copier := copy_struct [].

Definition ServiceConfig_DeepCopy : Copier := copy_ptr ServiceConfig_DeepCopyInto.

Definition DiscoveryServiceSpec_type : GoType := TStruct [
  ("Image", TPtr TFlat); ("Debug", TPtr TFlat);
  ("Resources", TPtr (TLib "corev1.ResourceRequirements")); ("PKIConfig", TPtr PKIConfig_type);
  ("XdsServerPort", TPtr TFlat); ("MetricsPort", TPtr TFlat); ("ProbePort", TPtr TFlat);
  ("ServiceConfig", TPtr ServiceConfig_type); ("PodPriorityClass", TPtr TFlat)].

Definition DiscoveryServiceSpec_DeepCopyInto : Copier := copy_struct [
  ("Image", copy_ptr assign); ("Debug", copy_ptr assign);
  ("Resources", copy_ptr (lib_DeepCopyInto "corev1.ResourceRequirements"));
  ("PKIConfig", copy_ptr PKIConfig_DeepCopyInto); ("XdsServerPort", copy_ptr assign);
  ("MetricsPort", copy_ptr assign); ("ProbePort", copy_ptr assign);
  ("ServiceConfig", copy_ptr assign); ("PodPriorityClass", copy_ptr assign)].

Definition DiscoveryServiceSpec_DeepCopy : Copier := copy_ptr DiscoveryServiceSpec_DeepCopyInto.

Definition DiscoveryServiceStatus_type : GoType := TStruct [
  ("DeploymentName", TPtr TFlat); ("DeploymentStatus", TPtr (TLib "appsv1.DeploymentStatus"));
  ("UnimplementedStatefulSetStatus", TFlat)].

Definition DiscoveryServiceStatus_DeepCopyInto : Copier := copy_struct [
  ("DeploymentName", copy_ptr assign);
  ("DeploymentStatus", copy_ptr (lib_DeepCopyInto "appsv1.DeploymentStatus"));
  ("UnimplementedStatefulSetStatus", assign)].

Definition DiscoveryServiceStatus_DeepCopy : Copier := copy_ptr DiscoveryServiceStatus_DeepCopyInto.

Definition DiscoveryService_type : GoType := TStruct [
  ("TypeMeta", TFlat); ("ObjectMeta", TLib "metav1.ObjectMeta");
  ("Spec", DiscoveryServiceSpec_type); ("Status", DiscoveryServiceStatus_type)].

Definition DiscoveryService_DeepCopyInto : Copier := copy_struct [
  ("TypeMeta", assign); ("ObjectMeta", lib_DeepCopyInto "metav1.ObjectMeta");
  ("Spec", DiscoveryServiceSpec_DeepCopyInto); ("Status", DiscoveryServiceStatus_DeepCopyInto)].

Definition DiscoveryService_DeepCopy : Copier := copy_ptr DiscoveryService_DeepCopyInto.

Definition DiscoveryService_DeepCopyObject := copy_object "DiscoveryService" DiscoveryService_DeepCopy.

Definition DiscoveryServiceList_type : GoType := TStruct [
  ("TypeMeta", TFlat); ("ListMeta", TLib "metav1.ListMeta");
  ("Items", TSlice DiscoveryService_type)].

Definition DiscoveryServiceList_DeepCopyInto : Copier := copy_struct [
  ("TypeMeta", assign); ("ListMeta", lib_DeepCopyInto "metav1.ListMeta");
  ("Items", copy_slice DiscoveryService_DeepCopyInto)].

Definition DiscoveryServiceList_DeepCopy : Copier := copy_ptr DiscoveryServiceList_DeepCopyInto.

Definition DiscoveryServiceList_DeepCopyObject := copy_object "DiscoveryServiceList" DiscoveryServiceList_DeepCopy.

Definition SelfSignedConfig_type : GoType := TStruct [].

Definition SelfSignedConfig_DeepCopyInto : Copier := copy_struct [].

Definition SelfSignedConfig_DeepCopy : Copier := copy_ptr SelfSignedConfig_DeepCopyInto.

Definition CASignedConfig_type : GoType := TStruct [
  ("SecretRef", TFlat)].

Definition CASignedConfig_DeepCopyInto : Copier := copy_struct [
  ("SecretRef", assign)].

Definition CASignedConfig_DeepCopy : Copier := copy_ptr CASignedConfig_DeepCopyInto.

Definition DiscoveryServiceCertificateSigner_type : GoType := TStruct [
  ("SelfSigned", TPtr SelfSignedConfig_type); ("CASigned", TPtr CASignedConfig_type)].

Definition DiscoveryServiceCertificateSigner_DeepCopyInto : Copier := copy_struct [
  ("SelfSigned", copy_ptr assign); ("CASigned", copy_ptr assign)].

Definition DiscoveryServiceCertificateSigner_DeepCopy : Copier := copy_ptr DiscoveryServiceCertificateSigner_DeepCopyInto.

Definition CertificateRenewalConfig_type : GoType := TStruct [
  ("Enabled", TFlat)].

Definition CertificateRenewalConfig_DeepCopyInto : Copier := copy_struct [].

Definition CertificateRenewalConfig_DeepCopy : Copier := copy_ptr CertificateRenewalConfig_DeepCopyInto.

Definition DiscoveryServiceCertificateSpec_type : GoType := TStruct [
  ("CommonName", TFlat); ("IsServerCertificate", TPtr TFlat); ("IsCA", TPtr TFlat);
  ("ValidFor", TFlat); ("Hosts", TSlice TFlat);
  ("Signer", DiscoveryServiceCertificateSigner_type); ("SecretRef", TFlat);
  ("CertificateRenewalConfig", TPtr CertificateRenewalConfig_type)].

Definition DiscoveryServiceCertificateSpec_DeepCopyInto : Copier := copy_struct [
  ("IsServerCertificate", copy_ptr assign); ("IsCA", copy_ptr assign);
  ("Hosts", copy_slice assign); ("Signer", DiscoveryServiceCertificateSigner_DeepCopyInto);
  ("SecretRef", assign); ("CertificateRenewalConfig", copy_ptr assign)].

Definition DiscoveryServiceCertificateSpec_DeepCopy : Copier := copy_ptr DiscoveryServiceCertificateSpec_DeepCopyInto.

Definition DiscoveryServiceCertificateStatus_type : GoType := TStruct [
  ("Ready", TPtr TFlat); ("NotBefore", TPtr (TLib "metav1.Time"));
  ("NotAfter", TPtr (TLib "metav1.Time")); ("CertificateHash", TPtr TFlat);
  ("Conditions", TSlice (TLib "metav1.Condition"))].

Definition DiscoveryServiceCertificateStatus_DeepCopyInto : Copier := copy_struct [
  ("Ready", copy_ptr assign); ("NotBefore", copy_ptr (lib_DeepCopyInto "metav1.Time"));
  ("NotAfter", copy_ptr (lib_DeepCopyInto "metav1.Time")); ("CertificateHash", copy_ptr assign);
  ("Conditions", copy_slice (lib_DeepCopyInto "metav1.Condition"))].

Definition DiscoveryServiceCertificateStatus_DeepCopy : Copier := copy_ptr DiscoveryServiceCertificateStatus_DeepCopyInto.

Definition DiscoveryServiceCertificate_type : GoType := TStruct [
  ("TypeMeta", TFlat); ("ObjectMeta", TLib "metav1.ObjectMeta");
  ("Spec", DiscoveryServiceCertificateSpec_type);
  ("Status", DiscoveryServiceCertificateStatus_type)].

Definition DiscoveryServiceCertificate_DeepCopyInto : Copier := copy_struct [
  ("TypeMeta", assign); ("ObjectMeta", lib_DeepCopyInto "metav1.ObjectMeta");
  ("Spec", DiscoveryServiceCertificateSpec_DeepCopyInto);
  ("Status", DiscoveryServiceCertificateStatus_DeepCopyInto)].

Definition DiscoveryServiceCertificate_DeepCopy : Copier := copy_ptr DiscoveryServiceCertificate_DeepCopyInto.

Definition DiscoveryServiceCertificate_DeepCopyObject := copy_object "DiscoveryServiceCertificate" DiscoveryServiceCertificate_DeepCopy.

Definition DiscoveryServiceCertificateList_type : GoType := TStruct [
  ("TypeMeta", TFlat); ("ListMeta", TLib "metav1.ListMeta");
  ("Items", TSlice DiscoveryServiceCertificate_type)].

Definition DiscoveryServiceCertificateList_DeepCopyInto : Copier := copy_struct [
  ("TypeMeta", assign); ("ListMeta", lib_DeepCopyInto "metav1.ListMeta");
  ("Items", copy_slice DiscoveryServiceCertificate_DeepCopyInto)].

Definition DiscoveryServiceCertificateList_DeepCopy : Copier := copy_ptr DiscoveryServiceCertificateList_DeepCopyInto.

Definition DiscoveryServiceCertificateList_DeepCopyObject := copy_object "DiscoveryServiceCertificateList" DiscoveryServiceCertificateList_DeepCopy.

(** The types of the group and their deep copies. *)
Definition deep_copies : list (string * (GoType * Copier)) := [
  ("ContainerPort", (ContainerPort_type, ContainerPort_DeepCopyInto));
  ("DynamicReplicasSpec", (DynamicReplicasSpec_type, DynamicReplicasSpec_DeepCopyInto));
  ("ReplicasSpec", (ReplicasSpec_type, ReplicasSpec_DeepCopyInto));
  ("ProbeSpec", (ProbeSpec_type, ProbeSpec_DeepCopyInto));
  ("PodDisruptionBudgetSpec", (PodDisruptionBudgetSpec_type, PodDisruptionBudgetSpec_DeepCopyInto));
  ("ShutdownManager", (ShutdownManager_type, ShutdownManager_DeepCopyInto));
  ("InitManager", (InitManager_type, InitManager_DeepCopyInto));
  ("EnvoyDeploymentSpec", (EnvoyDeploymentSpec_type, EnvoyDeploymentSpec_DeepCopyInto));
  ("EnvoyDeploymentStatus", (EnvoyDeploymentStatus_type, EnvoyDeploymentStatus_DeepCopyInto));
  ("EnvoyDeployment", (EnvoyDeployment_type, EnvoyDeployment_DeepCopyInto));
  ("EnvoyDeploymentList", (EnvoyDeploymentList_type, EnvoyDeploymentList_DeepCopyInto));
  ("CertificateOptions", (CertificateOptions_type, CertificateOptions_DeepCopyInto));
  ("PKIConfig", (PKIConfig_type, PKIConfig_DeepCopyInto));
  ("ServiceConfig", (ServiceConfig_type, ServiceConfig_DeepCopyInto));
  ("DiscoveryServiceSpec", (DiscoveryServiceSpec_type, DiscoveryServiceSpec_DeepCopyInto));
  ("DiscoveryServiceStatus", (DiscoveryServiceStatus_type, DiscoveryServiceStatus_DeepCopyInto));
  ("DiscoveryService", (DiscoveryService_type, DiscoveryService_DeepCopyInto));
  ("DiscoveryServiceList", (DiscoveryServiceList_type, DiscoveryServiceList_DeepCopyInto));
  ("SelfSignedConfig", (SelfSignedConfig_type, SelfSignedConfig_DeepCopyInto));
  ("CASignedConfig", (CASignedConfig_type, CASignedConfig_DeepCopyInto));
  ("DiscoveryServiceCertificateSigner", (DiscoveryServiceCertificateSigner_type, DiscoveryServiceCertificateSigner_DeepCopyInto));
  ("CertificateRenewalConfig", (CertificateRenewalConfig_type, CertificateRenewalConfig_DeepCopyInto));
  ("DiscoveryServiceCertificateSpec", (DiscoveryServiceCertificateSpec_type, DiscoveryServiceCertificateSpec_DeepCopyInto));
  ("DiscoveryServiceCertificateStatus", (DiscoveryServiceCertificateStatus_type, DiscoveryServiceCertificateStatus_DeepCopyInto));
  ("DiscoveryServiceCertificate", (DiscoveryServiceCertificate_type, DiscoveryServiceCertificate_DeepCopyInto));
  ("DiscoveryServiceCertificateList", (DiscoveryServiceCertificateList_type, DiscoveryServiceCertificateList_DeepCopyInto))].

End Operator.
End Operator.

(** ** They are deep copies *)

Ltac unfold_head c := lazymatch c with ?f _ => unfold_head f | ?f => unfold f end.

(** Proves [Copies T c] along the statements of [c]. *)
Ltac copies :=
  lazymatch goal with
  | |- Copies _ assign => apply assign_copies; reflexivity
  | |- Copies (TPtr _) (copy_ptr _) => apply ptr_copies; copies
  | |- Copies (TSlice _) (copy_slice _) => apply slice_copies; copies
  | |- Copies (TLib _) (lib_DeepCopyInto _) => apply lib_copies
  | |- Copies (TStruct _) (copy_struct _) =>
     apply struct_copies; [vm_compute; reflexivity|];
     repeat (apply Forall_cons; split; [cbn [fst snd field String.eqb Ascii.eqb Bool.eqb]; copies|]);
     apply Forall_nil_2
  | |- Copies ?T ?c => unfold_head T; unfold_head c; copies
  end.

Section DeepCopies.
Context {LC : LibCopies} {LL : LibCopiesLaws LC}.

Definition deep_copies : list (string * (GoType * Copier)) := Config.deep_copies ++ Operator.deep_copies.

Lemma deep_copies_ok : Forall (λ e, Copies (fst (snd e)) (snd (snd e))) deep_copies.
Proof.
  apply Forall_app. split; unfold Config.deep_copies, Operator.deep_copies;
    repeat (apply Forall_cons; split; [cbn [fst snd]; copies|]); apply Forall_nil_2.
Qed.

(** C39: the generated deep copies are deep and faithful.  For every type of the
    API, [DeepCopy] of a nil pointer is nil; of a pointer to an object it is a new
    pointer to an object with the same content that shares no memory with the
    original, however the original shares memory within itself: whatever is
    done afterwards to one of the two, the other keeps its content.  The object
    behind [DeepCopyObject] is that copy, and the nil interface for nil. *)
Theorem deep_copy_independent name T c mem p t L :
  (name, (T, c)) ∈ deep_copies → reads mem p t L → typed (TPtr T) t →
  ∃ p' mem' L',
    copy_ptr c p mem = Some (p', mem') ∧
    copy_object name (copy_ptr c) p mem =
      Some (match t with Nil => None | _ => Some (name, p') end, mem') ∧
    reads mem' p t L ∧ reads mem' p' t L' ∧ L ## L' ∧
    (∀ mem2, changes_only L' mem' mem2 → reads mem2 p t L) ∧
    (∀ mem2, changes_only L mem' mem2 → reads mem2 p' t L').
Proof.
  intros Hin Hr Ht. pose proof (proj1 (Forall_forall _ _) deep_copies_ok _ Hin) as Hc. simpl in Hc.
  destruct (copies_independent _ _ _ _ _ _ (ptr_copies T c Hc) Hr Ht) as (p' & mem' & L' & E & H).
  exists p', mem', L'. split; [done|]. split; [|done]. unfold copy_object. rewrite E. simpl.
  destruct H as (_ & Hp' & _). inversion Hr; subst; try done; by inversion Hp'.
Qed.
End DeepCopies.

(** ** A concrete object *)

Module DeepCopyRuns.
#[local] Existing Instance DepthLimited.lib.

Definition text (s : string) : Val := VBasic (BString s).

(** Three secrets converted from the deprecated field: their names are one
    variable (cell 4), as in [Api.Resources_secret_names]. *)
Definition secret_resource : Val := VStruct
  [("Type", text "secret"); ("Value", VRef None); ("GenerateFromTlsSecret", VRef (Some 4%positive));
   ("GenerateFromOpaqueSecret", VRef None); ("GenerateFromEndpointSlices", VRef None);
   ("Blueprint", VRef None)].

Definition config : Val := VStruct
  [("TypeMeta", VStruct [("Kind", text "EnvoyConfig")]);
   ("ObjectMeta", VStruct [("Name", text "edge"); ("Labels", VRef (Some 2%positive))]);
   ("Spec", VStruct [("NodeID", text "edge"); ("Serialization", VRef None); ("EnvoyAPI", VRef None);
                     ("EnvoyResources", VRef None); ("Resources", VRef (Some 3%positive))]);
   ("Status", VStruct [("CacheState", VRef None); ("PublishedVersion", VRef None);
                       ("DesiredVersion", VRef None); ("Conditions", VRef None);
                       ("ConfigRevisions", VRef None)])].

Definition memory : Mem := {[
  1%positive := config;
  2%positive := VArray [VStruct [("key", text "app"); ("value", text "edge")]];
  3%positive := VArray [secret_resource; secret_resource; secret_resource];
  4%positive := text "certificate" ]}.

Lemma deep_copy_independent_witness :
  match read 9 memory (VRef (Some 1%positive)) with
  | Some (t, L) =>
     ∃ p' mem' L', Config.EnvoyConfig_DeepCopy (VRef (Some 1%positive)) memory = Some (p', mem') ∧
       reads mem' p' t L' ∧
       ∀ l x, l ∈ L' → reads (<[l := x]> mem') (VRef (Some 1%positive)) t L
  | None => False
  end.
Proof.
  destruct (read 9 memory (VRef (Some 1%positive))) as [[t L]|] eqn:E; [|vm_compute in E; discriminate E].
  pose proof (read_sound _ _ _ _ _ E) as Hr. vm_compute in E. injection E as <- <-.
  destruct (deep_copy_independent "EnvoyConfig" Config.EnvoyConfig_type Config.EnvoyConfig_DeepCopyInto
    memory (VRef (Some 1%positive)) _ _ ltac:(apply list_elem_of_In; simpl; tauto) Hr
    ltac:(vm_compute; repeat (split || constructor))) as (p' & mem' & L' & Hc & _ & _ & Hr' & _ & H1 & _).
  exists p', mem', L'. split; [exact Hc|]. split; [exact Hr'|]. intros l x Hl. apply H1.
  intros l' _ Hl'. apply lookup_insert_ne. intros ->. by apply Hl'.
Defined.

(** The names of the resources of an object. *)
Definition names (mem : Mem) (p : Val) : option (list Tree) :=
  match read 9 mem p with
  | Some (Ref (Node o), _) =>
     match field "Spec" o with
     | Some (Node spec) =>
        match field "Resources" spec with
        | Some (Ref (Arr rs)) =>
           mapM (λ r, match r with Node r => field "GenerateFromTlsSecret" r | _ => None end) rs
        | _ => None
        end
     | _ => None
     end
  | _ => None
  end.

(** Sharing within the original is not copied: assigning the one variable of the
    original changes its three names, and none of the copy. *)
Lemma deep_copy_unshares :
  let name x := Ref (Leaf (BString x)) in
  match Config.EnvoyConfig_DeepCopy (VRef (Some 1%positive)) memory with
  | Some (p', mem') =>
     let mem2 := <[4%positive := text "other"]> mem' in
     names mem' p' = Some [name "certificate"; name "certificate"; name "certificate"] ∧
     names mem2 (VRef (Some 1%positive)) = Some [name "other"; name "other"; name "other"] ∧
     names mem2 p' = names mem' p' ∧ size mem' = 10
  | None => False
  end.
Proof. vm_compute. split_and!; reflexivity. Qed.
End DeepCopyRuns.
